(* ===== verification/_CoqProject ===== *)
-Q . S2P
Prelude.v
Protocol.v
Datetime.v
StorageError.v
TaskTable.v
TaskProtocol.v
MySQLClient.v
Redis.v
Discovery.v
RedisClient.v
Cancellation.v
Text.v
Config.v
ThreadPool.v
RpcClient.v
RpcClientPool.v
Metrics.v
AlertRules.v
Effects.v
CronParser.v
CronExpr.v
CronNext.v
CronCalendar.v
CronSearch.v
CronLeast.v
CronText.v
CronSchedule.v
LockRenewer.v
Scheduler.v
CronRuns.v
SchedulerSafety.v
SchedulerOutcome.v
Node.v
HandlerRegistry.v
Dispatcher.v
DispatcherSafety.v
DispatcherOutcome.v
DispatcherEdits.v
Interceptor.v
Cluster.v
SchedulerProgress.v
Takeover.v
EpollLoop.v
Task.v
Connection.v
RpcStub.v
DispatchAwait.v
TcpServer.v
Logger.v
AppConfig.v
Daemon.v
Application.v
Setup.v
MetricsExporter.v
ClientWindow.v
ClientProcesses.v
ClientWidgets.v
ClientActions.v
BenchClient.v
