(* ===== verification/Prelude.v ===== *)
(** A verification development of CoroutineRPC-Scheduler ("corpcron"): a
    coroutine RPC server over epoll, a distributed cron scheduler over MySQL
    and Redis, workers that run the tasks, and a desktop client.

    * What the system does

    Control-plane nodes ([server_main]) and worker nodes ([worker_main]) serve
    RPC requests framed on TCP.  A task is a row of the MySQL table [tasks];
    its executions are rows of [task_history].  Every node scans for due tasks;
    for each it takes a lock in Redis, claims the row by a compare-and-set
    [UPDATE], and hands a job to its thread pool; the job asks a worker to run
    the task, and writes the history and the task's next state.  Locks are
    renewed by a thread, executions whose node died are recovered by later
    scans, and operators submit, edit, cancel and run tasks through RPC.

    * The files, bottom up

    [Prelude]: integers of a given width, byte strings, the state monad [M].
    [Text], [Datetime]: decimal text and calendar time ([std::to_string],
    [strtol], [DATETIME] values).  [Effects]: programs as trees of calls
    ([Prog]), their traces ([exec]), handlers that answer them ([run]), and
    monitors, with the rules [wp] that show a program keeps to one.

    Stores.  [StorageError] (common/storage_error.cpp).  [TaskTable]: the two
    tables and each SQL statement of mysql/mysql_client.cpp as a function on
    them.  [TaskProtocol]: what statements of any number of clients, in any
    order, do to a task.  [MySQLClient]: the client around the statements, with
    its connections, retries and errors.  [Redis]: the interface of a Redis
    server ([RedisServer], with an instance) and the Lua scripts of
    redis/redis_client.cpp over it.  [Discovery]: registrations, heartbeats and
    discoveries over time.  [RedisClient]: the client around the scripts.

    Processes and threads.  [Cancellation] (common/cancellation.hpp,
    scheduler/task_cancellation_registry.cpp).  [ThreadPool]
    (common/thread_pool.cpp).  [EpollLoop] and [Task] (net/epoll_loop.cpp,
    coroutine/task.hpp).  [Logger] (common/logger.cpp).  [Config], [AppConfig]
    (common/config.cpp and the reading of it in app/).  [Daemon]: command
    line and daemonisation; [Application]: the life of the two processes;
    [Setup]: what constructors make of the configuration.

    RPC.  [Protocol]: the frame codec (rpc/protocol.hpp).  [RpcClient],
    [RpcClientPool] (rpc/rpc_client.cpp, rpc/rpc_client_pool.cpp; the pool's
    needs are the class [Transport], of which the client is an instance).
    [HandlerRegistry] (with worker/builtin_handlers.cpp).  [Dispatcher],
    [DispatcherSafety], [DispatcherOutcome], [DispatcherEdits]
    (rpc/rpc_dispatcher.cpp).
    [Interceptor] (rpc/rpc_interceptor.cpp and the dispatcher's entry points).
    [Connection], [DispatchAwait], [TcpServer] (net/tcp_server.cpp: one
    connection, the hand-over of a request to the workers, the listener).
    [RpcStub]: the typed stub and skeleton of generated/rpc_service.hpp, over
    [RpcClient]; the messages are the class [Method].
    [ClientWindow]: what the desktop client asks and makes of the answers;
    [ClientProcesses]: the tools and nodes it starts and its buttons;
    [ClientWidgets]: the widgets and connections its constructor makes;
    [ClientActions]: its slots run through those connections
    (client/mainwindow.cpp).  [BenchClient]: the benchmark
    (tools/bench_client.cpp).

    Scheduling.  [LockRenewer], [Scheduler] and its theorems in
    [SchedulerSafety], [SchedulerOutcome], [SchedulerProgress], [Takeover]
    (scheduler/).  [CronParser] (scheduler/cron_parser.cpp) and what it calls of
    third_party/croncpp.h: [CronExpr] and [CronText], the parser and what it
    reads; [CronNext], the search for the next time; [CronCalendar], the
    calendar it moves in; [CronSearch] and [CronLeast], what it finds;
    [CronSchedule], the two together, and [CronRuns], the runs of a task.  [Metrics], [AlertRules],
    [MetricsExporter] (metrics/).

    Compositions.  [Node]: the scheduler's programs run against the models of
    the components they drive.  [Cluster]: dispatchers and schedulers of any
    number of nodes on the same tables.

    * How code becomes definitions

    Code that works on its own state is a function of that state.  A critical
    section is one atomic step of a relation ([ThreadPool], [DispatchAwait],
    [Cancellation], [RpcClientPool], [TcpServer]), and steps of all threads
    interleave.  Code that calls other components is a [Prog] over those calls
    ([Scheduler], [Dispatcher], [Connection], [Application], [MetricsExporter]):
    its theorems quantify over the answers, hence over whatever other threads
    and nodes do between two calls.  Code that calls a driver or the system
    takes an oracle numbered by call ([MySQLClient], [RedisClient],
    [RpcClient]), which may fail before or after the effect of a call.
    Exceptions are values where they are caught: a request's handlers may throw
    at any of their calls ([Dispatcher.may_throw]), and the interceptors meet it.

    * What the theorems show

    Exactly-once claims and the task life cycle: [TaskProtocol], [Cluster],
    [Redis], and [Node] for the lock before the claim before the job.  That
    workers are found exactly while their heartbeats last: [Discovery].  What a
    scan and a job hold and give back: [SchedulerSafety]; that no due task is
    passed over without reason: [SchedulerProgress]; that a scan starts the
    tasks that are due and those a dead node left: [Takeover]; what is recorded:
    [SchedulerOutcome]; that the next execution is the first time the cron
    expression denotes: [CronText], [CronLeast], [CronSchedule], on the
    expressions ([plain]) for which this is so, with examples of the others.
    That client methods are one statement, and truthful
    about it: [MySQLClient], [RedisClient].  Requests: admitted, typed,
    answered, counted, in order, once ([DispatcherSafety], [DispatcherOutcome],
    [DispatcherEdits],
    [Interceptor], [Connection], [DispatchAwait], [RpcStub]); what the client's pages show
    ([ClientWindow]), that the nodes it starts serve it ([ClientProcesses]), that
    its window is complete ([ClientWidgets]) and its buttons and processes agree
    whatever is done to it ([ClientActions]); that a benchmark makes and counts
    every request once ([BenchClient]).  Resources: frames, sockets, threads, queue and counts
    ([Task], [EpollLoop], [TcpServer], [ThreadPool], [Application]).  Deadlines
    and circuits: [RpcClient], [RpcClientPool].  Texts that read back:
    [Protocol], [Config], and in [AppConfig] that what is loaded is in range.

    * Fuel

    [Connection.drain] and the client's [read_frames] run on the length of the
    buffer plus one: a complete frame has at least its header, and lemmas show
    that more fuel changes nothing.  [rounds] and [fuel] of [Connection] bound
    what only the peer ends; when they run out the handler is still running,
    and the theorems speak of its calls so far.  [RpcClient]'s loops run on the
    nanoseconds to the deadline, which a theorem shows to be enough.
    [CronNext.find_next] runs on the seconds up to a year past the last year it
    searches: each call starts later than the one that made it.  The
    rounds of [EpollLoop] count what may end a wait of [epoll_wait]; a theorem
    shows that the write of [stop] to the wake descriptor ends [run].

    * Assumptions

    MySQL compares the ids and names of the statements bytewise (a collation
    that ignores case would identify more of them); dates are given in the
    canonical format the code writes.  The names and keys passed to Redis as C
    strings hold no NUL.  In [TaskTable] an [UPDATE] and the [SELECT] that may
    follow it are one step, which affects only the answer; [MySQLClient] runs
    them apart.  MySQL, Redis and their drivers,
    protobuf's serialization, Qt, and the C library's
    time zones are parameters, with what is used of them as hypotheses or
    class laws; the theorems on [cron_next] are for zones without
    daylight-saving changes ([FixedZone]).  Memory does not run out.  Descriptors leave the loop before
    they are closed.  Log lines are left out except in [Logger].

    * Not modelled

    The code protoc generates (rpc.pb.h, rpc.pb.cc) and the message formats;
    the client's style sheet and the lines of its log; vendored code other than
    croncpp; the tests and the smoke test of tools/.  Of croncpp, the Oracle and
    Quartz traits and the overloads and texts the program does not use.

    * What could follow

    Progress of the cluster over many scans, with nodes that fail again; time
    zones with daylight-saving changes in [cron_next]. *)
From Stdlib Require Export ZArith Lia Ascii String.
From stdpp Require Export prelude gmap strings list pretty sorting.

Declare Scope corpcron_scope.
Delimit Scope corpcron_scope with cc.

Open Scope Z_scope.

#[global] Arguments String.append !_ _ : simpl nomatch.

(** ** Machine integers

    A [uint32_t], [uint64_t] or [int] is a [Z] kept in range by the
    conversions below; [static_cast] to an unsigned type is reduction modulo
    the width. *)

Definition u8 (z : Z) : Z := z mod 2 ^ 8.
Definition u32 (z : Z) : Z := z mod 2 ^ 32.
Definition u64 (z : Z) : Z := z mod 2 ^ 64.

Definition INT_MIN : Z := - 2 ^ 31.
Definition INT_MAX : Z := 2 ^ 31 - 1.

Definition is_u32 (z : Z) : Prop := 0 <= z < 2 ^ 32.
Definition is_u64 (z : Z) : Prop := 0 <= z < 2 ^ 64.
Definition is_int (z : Z) : Prop := INT_MIN <= z <= INT_MAX.

Lemma u32_small z : is_u32 z -> u32 z = z.
Proof. intros H. by apply Z.mod_small. Qed.

Lemma u64_small z : is_u64 z -> u64 z = z.
Proof. intros H. by apply Z.mod_small. Qed.

Lemma u32_range z : is_u32 (u32 z).
Proof. apply Z.mod_pos_bound. lia. Qed.

Lemma u64_range z : is_u64 (u64 z).
Proof. apply Z.mod_pos_bound. lia. Qed.

(** ** Byte strings

    [std::string] is a Rocq [string]: a sequence of 8-bit [ascii] characters. *)

Definition slen (s : string) : Z := Z.of_nat (String.length s).

Definition byte_of_Z (z : Z) : ascii := ascii_of_N (Z.to_N (Z.land z 255)).
Definition Z_of_byte (c : ascii) : Z := Z.of_N (N_of_ascii c).

Fixpoint str_take (n : nat) (s : string) : string :=
  match n, s with
  | S n', String c s' => String c (str_take n' s')
  | _, _ => EmptyString
  end.

Fixpoint str_drop (n : nat) (s : string) : string :=
  match n, s with
  | S n', String _ s' => str_drop n' s'
  | _, _ => s
  end.

Definition str_empty (s : string) : bool :=
  match s with EmptyString => true | _ => false end.

Lemma Z_of_byte_range c : 0 <= Z_of_byte c < 256.
Proof.
  unfold Z_of_byte. pose proof (N_ascii_bounded c). lia.
Qed.

Lemma byte_of_Z_of_byte c : byte_of_Z (Z_of_byte c) = c.
Proof. destruct c as [[] [] [] [] [] [] [] []]; reflexivity. Qed.

Lemma Z_of_byte_of_Z z : Z_of_byte (byte_of_Z z) = z mod 256.
Proof.
  unfold Z_of_byte, byte_of_Z.
  change 255 with (Z.ones 8). rewrite Z.land_ones by lia.
  change (2 ^ 8) with 256.
  pose proof (Z.mod_pos_bound z 256 ltac:(lia)).
  rewrite N_ascii_embedding by lia. lia.
Qed.

Lemma slen_nonneg s : 0 <= slen s.
Proof. unfold slen. lia. Qed.

Lemma length_append s t : String.length (s +:+ t) = (String.length s + String.length t)%nat.
Proof. induction s; simpl; [done|]. by rewrite IHs. Qed.

Lemma slen_app s t : slen (s +:+ t) = slen s + slen t.
Proof. unfold slen. rewrite length_append. lia. Qed.

Lemma append_nil_r s : s +:+ EmptyString = s.
Proof. induction s; simpl; congruence. Qed.

Lemma append_assoc_str s t u : (s +:+ t) +:+ u = s +:+ (t +:+ u).
Proof. induction s; simpl; congruence. Qed.

Lemma append_inj_r s t u : s +:+ t = s +:+ u -> t = u.
Proof. induction s; simpl; [done|]. intros [= H]. auto. Qed.

Lemma append_eq_inv s1 s2 t1 t2 :
  String.length s1 = String.length s2 -> s1 +:+ t1 = s2 +:+ t2 -> s1 = s2 /\ t1 = t2.
Proof.
  revert s2. induction s1 as [|c s1 IH]; intros [|c2 s2]; simpl; try lia; [done|].
  intros Hl [= -> H]. destruct (IH s2) as [-> ->]; auto.
Qed.

Lemma length_str_take n s : (n <= String.length s)%nat -> String.length (str_take n s) = n.
Proof. revert s. induction n; intros [|c s]; simpl; try lia. intros. rewrite IHn; lia. Qed.

Lemma length_str_drop n s : String.length (str_drop n s) = (String.length s - n)%nat.
Proof. revert s. induction n; intros [|c s]; simpl; try lia. apply IHn. Qed.

Lemma str_take_drop n s : str_take n s +:+ str_drop n s = s.
Proof. revert s. induction n; intros [|c s]; simpl; try done. by rewrite IHn. Qed.

Lemma str_take_app_le n s t :
  (n <= String.length s)%nat -> str_take n (s +:+ t) = str_take n s.
Proof. revert s. induction n; intros [|c s]; simpl; try lia; try done. intros. f_equal. apply IHn. lia. Qed.

Lemma str_drop_app_le n s t :
  (n <= String.length s)%nat -> str_drop n (s +:+ t) = str_drop n s +:+ t.
Proof. revert s. induction n; intros [|c s]; simpl; try lia; try done. intros. apply IHn. lia. Qed.

Lemma str_take_app_length s t : str_take (String.length s) (s +:+ t) = s.
Proof. induction s; simpl; [by destruct t|]. by rewrite IHs. Qed.

Lemma str_drop_app_length s t : str_drop (String.length s) (s +:+ t) = t.
Proof. induction s; simpl; done. Qed.

Lemma str_empty_true s : str_empty s = true <-> s = EmptyString.
Proof. destruct s; simpl; split; congruence. Qed.

Lemma str_empty_false s : str_empty s = false <-> s <> EmptyString.
Proof. destruct s; simpl; split; congruence. Qed.

(** ** Sorting by a comparison function *)

Section SortBy.
Context {A : Type} (le : A -> A -> bool).

Fixpoint insert_by (x : A) (l : list A) : list A :=
  match l with
  | [] => [x]
  | y :: l' => if le x y then x :: y :: l' else y :: insert_by x l'
  end.

Definition sort_by (l : list A) : list A := foldr insert_by [] l.

Lemma insert_by_perm x l : insert_by x l ≡ₚ x :: l.
Proof.
  induction l as [|y l IH]; simpl; [done|]. destruct (le x y); [done|].
  rewrite IH. apply Permutation_swap.
Qed.

Lemma sort_by_perm l : sort_by l ≡ₚ l.
Proof. induction l as [|x l IH]; simpl; [done|]. by rewrite insert_by_perm, IH. Qed.

Lemma elem_of_sort_by x l : x ∈ sort_by l <-> x ∈ l.
Proof. by rewrite sort_by_perm. Qed.

Lemma length_sort_by l : length (sort_by l) = length l.
Proof. by rewrite sort_by_perm. Qed.

Context (le_total : forall a b, le a b = false -> le b a = true).
Context (le_trans : forall a b c, le a b = true -> le b c = true -> le a c = true).

Lemma insert_by_sorted x l :
  StronglySorted (fun a b => le a b = true) l ->
  StronglySorted (fun a b => le a b = true) (insert_by x l).
Proof.
  induction 1 as [|y l Hl IH Hy]; simpl; [repeat constructor|].
  destruct (le x y) eqn:E.
  - repeat (constructor; auto). eapply Forall_impl; [exact Hy|]. intros z Hz. eauto.
  - constructor; [done|]. rewrite insert_by_perm. constructor; auto.
Qed.

Lemma sort_by_sorted l : StronglySorted (fun a b => le a b = true) (sort_by l).
Proof. induction l; simpl; [constructor|]. by apply insert_by_sorted. Qed.

End SortBy.

(** Replacing one element of a list, up to order. *)
Lemma list_update_perm {A} (l : list A) i x y : l !! i = Some x ->
  exists k, l ≡ₚ x :: k /\ <[i := y]> l ≡ₚ y :: k.
Proof.
  revert i. induction l as [|z l IH]; intros [|i] H; simplify_eq/=.
  - by exists l.
  - destruct (IH i H) as (k & H1 & H2). exists (z :: k).
    split; [rewrite H1 | rewrite H2]; apply Permutation_swap.
Qed.

(** ** State monad

    Code that threads a shared object through a sequence of calls is a
    function from the object's state to a result and the next state. *)

Definition M (S A : Type) : Type := S -> A * S.

Definition retM {S A} (a : A) : M S A := fun s => (a, s).
Definition bindM {S A B} (m : M S A) (k : A -> M S B) : M S B :=
  fun s => let '(a, s') := m s in k a s'.

Notation "'let*' x := m 'in' k" := (bindM m (fun x => k))
  (at level 10, x pattern, m at level 100, k at level 200) : corpcron_scope.
Notation "m ;;* k" := (bindM m (fun _ => k)) (at level 199, right associativity) : corpcron_scope.
Open Scope corpcron_scope.

Definition get_st {S} : M S S := fun s => (s, s).
Definition put_st {S} (s' : S) : M S () := fun _ => ((), s').
Definition modify {S} (f : S -> S) : M S () := fun s => ((), f s).
Definition gets {S A} (f : S -> A) : M S A := fun s => (f s, s).

(** Run an operation on one component of a larger state. *)
Definition zoom {S T A} (get : S -> T) (set : T -> S -> S) (m : M T A) : M S A :=
  fun s => let '(a, t) := m (get s) in (a, set t s).

Fixpoint mfor {S A} (f : A -> M S ()) (l : list A) : M S () :=
  match l with
  | [] => retM ()
  | a :: l' => f a ;;* mfor f l'
  end.

(** A property of every state a loop over a list goes through. *)
Lemma mfor_inv {S A} (P : S -> Prop) (f : A -> M S ()) (l : list A) s :
  (forall a s, P s -> P (f a s).2) -> P s -> P (mfor f l s).2.
Proof.
  intros Hf. revert s. induction l as [|a l IH]; intros s Hs; simpl; [done|].
  unfold bindM. specialize (Hf a s Hs). destruct (f a s) as [u s']. by apply IH.
Qed.

(** ** Tactics and hints *)

Create HintDb corpcron.
Create Rewrite HintDb corpcron.
#[export] Hint Resolve slen_nonneg u32_range u64_range Z_of_byte_range : corpcron.
#[export] Hint Rewrite slen_app length_append append_nil_r append_assoc_str : corpcron.

(** Unfold the monad and split the conditionals of straight-line code. *)
Ltac run_m := unfold retM, bindM, get_st, put_st, modify, gets, zoom in *; simpl in *.

Ltac split_ifs :=
  repeat match goal with
    | |- context [if ?b then _ else _] => destruct b eqn:?
    | |- context [match ?b with _ => _ end] => destruct b eqn:?
    end.

Ltac split_ifs_in H :=
  repeat match type of H with
    | context [if ?b then _ else _] => destruct b eqn:?
    | context [match ?b with _ => _ end] => destruct b eqn:?
    end.

(** Boolean comparisons on [Z] and [string] as propositions. *)
Ltac zify_bools :=
  repeat match goal with
    | H : (_ <? _) = true |- _ => apply Z.ltb_lt in H
    | H : (_ <? _) = false |- _ => apply Z.ltb_ge in H
    | H : (_ <=? _) = true |- _ => apply Z.leb_le in H
    | H : (_ <=? _) = false |- _ => apply Z.leb_gt in H
    | H : (_ =? _) = true |- _ => apply Z.eqb_eq in H
    | H : (_ =? _) = false |- _ => apply Z.eqb_neq in H
    | H : String.eqb _ _ = true |- _ => apply String.eqb_eq in H
    | H : String.eqb _ _ = false |- _ => apply String.eqb_neq in H
    | H : andb _ _ = true |- _ => apply andb_prop in H as [? ?]
    | H : negb _ = true |- _ => apply negb_true_iff in H
    | H : negb _ = false |- _ => apply negb_false_iff in H
    | H : orb _ _ = false |- _ => apply orb_false_elim in H as [? ?]
    | H : bool_decide _ = true |- _ => apply bool_decide_eq_true in H
    | H : bool_decide _ = false |- _ => apply bool_decide_eq_false in H
    end.
