(* ===== verification/Protocol.v ===== *)
(** The RPC frame codec of [include/corpcron/rpc/protocol.hpp].

    A frame is a 4-byte big-endian length, a 4-byte big-endian serial id and a
    payload; the length counts the serial id and the payload.  The encoder and
    the decoder are byte-level functions on strings; the theorems give the
    round trip, the exact set of inputs each [DecodeStatus] answers, and that
    a verdict other than [Incomplete] never changes when more bytes arrive,
    which is what lets the server feed the decoder with arbitrary TCP chunks. *)
From S2P Require Import Prelude.

Definition kHeaderSize : Z := 8.
Definition kSerialIdSize : Z := 4.
Definition kMaxFrameSize : Z := 4 * 1024 * 1024.
Definition kMaxPayloadSize : Z := kMaxFrameSize - kSerialIdSize.

Definition kEchoRequestSerialId : Z := 1.
Definition kEchoResponseSerialId : Z := 2.
Definition kSubmitTaskRequestSerialId : Z := 3.
Definition kSubmitTaskResponseSerialId : Z := 4.
Definition kExecuteTaskRequestSerialId : Z := 5.
Definition kExecuteTaskResponseSerialId : Z := 6.
Definition kCancelTaskRequestSerialId : Z := 7.
Definition kCancelTaskResponseSerialId : Z := 8.
Definition kListTasksRequestSerialId : Z := 9.
Definition kListTasksResponseSerialId : Z := 10.
Definition kListHistoryRequestSerialId : Z := 11.
Definition kListHistoryResponseSerialId : Z := 12.
Definition kListServicesRequestSerialId : Z := 13.
Definition kListServicesResponseSerialId : Z := 14.
Definition kUpdateTaskRequestSerialId : Z := 15.
Definition kUpdateTaskResponseSerialId : Z := 16.
Definition kEnableTaskRequestSerialId : Z := 17.
Definition kEnableTaskResponseSerialId : Z := 18.
Definition kDeleteTaskRequestSerialId : Z := 19.
Definition kDeleteTaskResponseSerialId : Z := 20.
Definition kRunTaskNowRequestSerialId : Z := 21.
Definition kRunTaskNowResponseSerialId : Z := 22.
Definition kGetMetricsRequestSerialId : Z := 23.
Definition kGetMetricsResponseSerialId : Z := 24.
Definition kHealthCheckRequestSerialId : Z := 25.
Definition kHealthCheckResponseSerialId : Z := 26.
Definition kStreamMetricsRequestSerialId : Z := 27.
Definition kStreamMetricsResponseSerialId : Z := 28.
Definition kRpcErrorSerialId : Z := 100.

Inductive DecodeStatus := Complete | Incomplete | Malformed | TooLarge.

#[global] Instance DecodeStatus_eq_dec : EqDecision DecodeStatus.
Proof. solve_decision. Defined.

(** The four bytes [buffer[i..i+3] = (x >> 24) & 0xFF, ..., x & 0xFF]. *)
Definition put_be32 (x : Z) : string :=
  String (byte_of_Z (Z.shiftr x 24))
  (String (byte_of_Z (Z.shiftr x 16))
  (String (byte_of_Z (Z.shiftr x 8))
  (String (byte_of_Z x) EmptyString))).

(** [((unsigned char)d[0] << 24) | ... | (unsigned char)d[3]] as a [uint32_t]:
    the shift of a promoted [int] wraps modulo [2^32] in C++20. *)
Definition get_be32 (b0 b1 b2 b3 : ascii) : Z :=
  u32 (Z.lor (Z.lor (Z.lor (Z.shiftl (Z_of_byte b0) 24) (Z.shiftl (Z_of_byte b1) 16))
                    (Z.shiftl (Z_of_byte b2) 8))
             (Z_of_byte b3)).

(** [None] is the [false] return, which leaves the output buffer untouched. *)
Definition tryEncode (serial_id : Z) (payload : string) : option string :=
  if kMaxPayloadSize <? slen payload then None
  else
    let total_len := u32 (kSerialIdSize + u32 (slen payload)) in
    Some (put_be32 total_len +:+ put_be32 serial_id +:+ payload).

(** [encode] throws [std::length_error]: [inl] carries its message. *)
Definition encode (serial_id : Z) (payload : string) : string + string :=
  match tryEncode serial_id payload with
  | None => inl "RPC payload exceeds max frame size"
  | Some buffer => inr buffer
  end.

(** Status, [frame_size], and the serial id and payload when they are assigned. *)
Record Decoded := mkDecoded {
  dec_status : DecodeStatus;
  dec_frame_size : Z;
  dec_frame : option (Z * string)
}.

Definition tryDecodeFrame (data : string) : Decoded :=
  match data with
  | String d0 (String d1 (String d2 (String d3
      (String d4 (String d5 (String d6 (String d7 rest))))))) =>
      let total_len := get_be32 d0 d1 d2 d3 in
      if total_len <? kSerialIdSize then mkDecoded Malformed 0 None
      else if kMaxFrameSize <? total_len then mkDecoded TooLarge 0 None
      else
        let frame_size := 4 + total_len in
        if slen data <? frame_size then mkDecoded Incomplete frame_size None
        else
          let serial_id := get_be32 d4 d5 d6 d7 in
          let payload := str_take (Z.to_nat (total_len - kSerialIdSize)) rest in
          mkDecoded Complete frame_size (Some (serial_id, payload))
  | _ => mkDecoded Incomplete 0 None
  end.

Definition decode (data : string) : option (Z * string) :=
  match dec_status (tryDecodeFrame data) with
  | Complete => dec_frame (tryDecodeFrame data)
  | _ => None
  end.

(** ** Byte-level lemmas *)

(** ** Byte-level lemmas *)

Lemma lor_shiftl_add a b n :
  0 <= n -> 0 <= b < 2 ^ n -> Z.lor (Z.shiftl a n) b = a * 2 ^ n + b.
Proof.
  intros Hn Hb.
  assert (Hland : Z.land (Z.shiftl a n) b = 0).
  { apply Z.bits_inj'. intros i Hi. rewrite Z.land_spec, Z.bits_0.
    destruct (Z.ltb_spec i n) as [Hlt|Hge].
    - by rewrite Z.shiftl_spec_low.
    - replace (Z.testbit b i) with false; [apply andb_false_r|].
      rewrite <- (Z.mod_small b (2 ^ n)) by done.
      by rewrite Z.mod_pow2_bits_high by lia. }
  rewrite <- Z.lxor_lor, <- Z.add_nocarry_lxor by done.
  by rewrite Z.shiftl_mul_pow2.
Qed.

Lemma get_be32_sum b0 b1 b2 b3 :
  get_be32 b0 b1 b2 b3 =
  ((Z_of_byte b0 * 256 + Z_of_byte b1) * 256 + Z_of_byte b2) * 256 + Z_of_byte b3.
Proof.
  pose proof (Z_of_byte_range b0). pose proof (Z_of_byte_range b1).
  pose proof (Z_of_byte_range b2). pose proof (Z_of_byte_range b3).
  unfold get_be32. rewrite <- !Z.lor_assoc.
  rewrite (lor_shiftl_add (Z_of_byte b2)) by lia.
  rewrite (lor_shiftl_add (Z_of_byte b1)) by lia.
  rewrite (lor_shiftl_add (Z_of_byte b0)) by lia.
  rewrite u32_small by (unfold is_u32; lia). lia.
Qed.

Lemma get_be32_range b0 b1 b2 b3 : is_u32 (get_be32 b0 b1 b2 b3).
Proof. apply u32_range. Qed.

Lemma get_put_be32 x :
  is_u32 x ->
  get_be32 (byte_of_Z (Z.shiftr x 24)) (byte_of_Z (Z.shiftr x 16))
           (byte_of_Z (Z.shiftr x 8)) (byte_of_Z x) = x.
Proof.
  unfold is_u32. intros Hx. rewrite get_be32_sum, !Z_of_byte_of_Z, !Z.shiftr_div_pow2 by lia.
  change (2 ^ 24) with (256 * 256 * 256). change (2 ^ 16) with (256 * 256). change (2 ^ 8) with 256.
  rewrite <- !Z.div_div by lia.
  pose proof (Z.div_mod x 256). pose proof (Z.div_mod (x / 256) 256).
  pose proof (Z.div_mod (x / 256 / 256) 256).
  rewrite (Z.mod_small (x / 256 / 256 / 256) 256); [lia|].
  split; [repeat apply Z.div_pos; lia|].
  repeat (apply Z.div_lt_upper_bound; [lia|]). lia.
Qed.

Lemma put_get_be32 b0 b1 b2 b3 :
  put_be32 (get_be32 b0 b1 b2 b3) = String b0 (String b1 (String b2 (String b3 EmptyString))).
Proof.
  assert (Hb : forall k (q : Z) c, 0 <= q -> 0 <= k ->
      Z.shiftr (get_be32 b0 b1 b2 b3) k = q * 256 + Z_of_byte c ->
      byte_of_Z (Z.shiftr (get_be32 b0 b1 b2 b3) k) = c).
  { intros k q c Hq Hk ->. rewrite <- (byte_of_Z_of_byte c) at 2.
    rewrite <- (byte_of_Z_of_byte (byte_of_Z (q * 256 + _))), Z_of_byte_of_Z. f_equal.
    rewrite Z.add_comm, Z.mod_add by lia. apply Z.mod_small, Z_of_byte_range. }
  pose proof (Z_of_byte_range b0). pose proof (Z_of_byte_range b1).
  pose proof (Z_of_byte_range b2). pose proof (Z_of_byte_range b3).
  unfold put_be32. repeat f_equal.
  - apply (Hb 24 0); [lia..|]. rewrite Z.shiftr_div_pow2, get_be32_sum by lia.
    symmetry. apply (Z.div_unique_pos _ _ _ (((Z_of_byte b1) * 256 + Z_of_byte b2) * 256 + Z_of_byte b3)); lia.
  - apply (Hb 16 (Z_of_byte b0)); [lia..|]. rewrite Z.shiftr_div_pow2, get_be32_sum by lia.
    symmetry. apply (Z.div_unique_pos _ _ _ (Z_of_byte b2 * 256 + Z_of_byte b3)); lia.
  - apply (Hb 8 (Z_of_byte b0 * 256 + Z_of_byte b1)); [lia..|].
    rewrite Z.shiftr_div_pow2, get_be32_sum by lia.
    symmetry. apply (Z.div_unique_pos _ _ _ (Z_of_byte b3)); lia.
  - rewrite <- (Z.shiftr_0_r (get_be32 _ _ _ _)).
    apply (Hb 0 ((Z_of_byte b0 * 256 + Z_of_byte b1) * 256 + Z_of_byte b2)); [lia..|].
    rewrite Z.shiftr_0_r, get_be32_sum. lia.
Qed.

(** ** Codec theorems *)

Lemma length_put_be32 x : String.length (put_be32 x) = 4%nat.
Proof. reflexivity. Qed.

Lemma tryEncode_inv serial_id payload buf :
  tryEncode serial_id payload = Some buf ->
  slen payload <= kMaxPayloadSize /\
  buf = put_be32 (kSerialIdSize + slen payload) +:+ put_be32 serial_id +:+ payload.
Proof.
  unfold tryEncode. destruct (Z.ltb_spec kMaxPayloadSize (slen payload)) as [|Hle]; [done|].
  intros [= <-]. split; [done|]. pose proof (slen_nonneg payload).
  unfold kMaxPayloadSize, kMaxFrameSize, kSerialIdSize in *.
  rewrite (u32_small (slen payload)) by (unfold is_u32; lia).
  by rewrite u32_small by (unfold is_u32; lia).
Qed.

Lemma slen_put_be32 x : slen (put_be32 x) = 4.
Proof. reflexivity. Qed.

(** What the decoder does on eight header bytes followed by [rest]. *)
Lemma tryDecodeFrame_header d0 d1 d2 d3 d4 d5 d6 d7 rest :
  tryDecodeFrame (String d0 (String d1 (String d2 (String d3
    (String d4 (String d5 (String d6 (String d7 rest)))))))) =
  let n := get_be32 d0 d1 d2 d3 in
  if n <? kSerialIdSize then mkDecoded Malformed 0 None
  else if kMaxFrameSize <? n then mkDecoded TooLarge 0 None
  else if 8 + slen rest <? 4 + n then mkDecoded Incomplete (4 + n) None
  else mkDecoded Complete (4 + n)
         (Some (get_be32 d4 d5 d6 d7, str_take (Z.to_nat (n - kSerialIdSize)) rest)).
Proof.
  cbv beta iota zeta delta [tryDecodeFrame].
  replace (slen (String d0 _)) with (8 + slen rest) by (unfold slen; simpl String.length; lia).
  done.
Qed.

(** A string is either shorter than the header or starts with eight bytes. *)
Lemma header_cases data :
  slen data < kHeaderSize /\ tryDecodeFrame data = mkDecoded Incomplete 0 None \/
  exists d0 d1 d2 d3 d4 d5 d6 d7 rest,
    data = String d0 (String d1 (String d2 (String d3
             (String d4 (String d5 (String d6 (String d7 rest))))))).
Proof.
  do 8 (destruct data as [|? data]; [left; split; [done|reflexivity]|]).
  right. repeat eexists.
Qed.

(** Decoding an encoded frame followed by anything. *)
Lemma decode_encoded serial_id payload buf rest :
  is_u32 serial_id -> tryEncode serial_id payload = Some buf ->
  tryDecodeFrame (buf +:+ rest) = mkDecoded Complete (slen buf) (Some (serial_id, payload)).
Proof.
  intros Hid Henc. apply tryEncode_inv in Henc as [Hlen ->].
  pose proof (slen_nonneg payload). pose proof (slen_nonneg rest).
  unfold kMaxPayloadSize, kMaxFrameSize, kSerialIdSize in *.
  rewrite !slen_app, !slen_put_be32. unfold put_be32. simpl String.append.
  rewrite tryDecodeFrame_header. cbv zeta. rewrite !get_put_be32 by (unfold is_u32 in *; lia).
  unfold kSerialIdSize, kMaxFrameSize. rewrite slen_app.
  destruct (Z.ltb_spec (4 + slen payload) 4); [lia|].
  destruct (Z.ltb_spec (4 * 1024 * 1024) (4 + slen payload)); [lia|].
  destruct (Z.ltb_spec (8 + (slen payload + slen rest)) (4 + (4 + slen payload))); [lia|].
  unfold slen. replace (Z.to_nat _) with (String.length payload) by lia.
  by rewrite str_take_app_length.
Qed.

(** A verdict other than [Incomplete] does not change when bytes are added. *)
Lemma decode_app data more :
  dec_status (tryDecodeFrame data) <> Incomplete ->
  tryDecodeFrame (data +:+ more) = tryDecodeFrame data.
Proof.
  intros Hst.
  destruct (header_cases data) as [[_ H]|(d0&d1&d2&d3&d4&d5&d6&d7&rest&->)].
  { by rewrite H in Hst. }
  simpl String.append. rewrite !tryDecodeFrame_header in *. cbv zeta in *.
  set (n := get_be32 d0 d1 d2 d3) in *.
  destruct (Z.ltb_spec n kSerialIdSize); [done|]. destruct (Z.ltb_spec kMaxFrameSize n); [done|].
  destruct (Z.ltb_spec (8 + slen rest) (4 + n)); [done|].
  rewrite slen_app. pose proof (slen_nonneg more).
  destruct (Z.ltb_spec (8 + (slen rest + slen more)) (4 + n)); [lia|].
  unfold kSerialIdSize, slen in *. by rewrite str_take_app_le by lia.
Qed.

(** A complete frame takes at least the header, at most what was received. *)
Lemma decode_complete_size data :
  dec_status (tryDecodeFrame data) = Complete ->
  kHeaderSize <= dec_frame_size (tryDecodeFrame data) <= slen data /\
  is_Some (dec_frame (tryDecodeFrame data)).
Proof.
  destruct (header_cases data) as [[_ ->]|(d0&d1&d2&d3&d4&d5&d6&d7&rest&->)]; [done|].
  rewrite tryDecodeFrame_header. cbv zeta.
  set (n := get_be32 d0 d1 d2 d3) in *. unfold kHeaderSize.
  destruct (Z.ltb_spec n kSerialIdSize); [done|]. destruct (Z.ltb_spec kMaxFrameSize n); [done|].
  destruct (Z.ltb_spec (8 + slen rest) (4 + n)); [done|]. intros _. simpl.
  change (slen (String d0 _)) with (Z.of_nat (8 + String.length rest)).
  unfold kSerialIdSize, slen in *. split; [lia|done].
Qed.

(** While the answer is [Incomplete] the buffer is shorter than a largest frame. *)
Lemma decode_incomplete_bound data :
  dec_status (tryDecodeFrame data) = Incomplete -> slen data < 4 + kMaxFrameSize.
Proof.
  destruct (header_cases data) as [[H _]|(d0&d1&d2&d3&d4&d5&d6&d7&rest&->)].
  { intros _. unfold kHeaderSize, kMaxFrameSize in *. lia. }
  rewrite tryDecodeFrame_header. cbv zeta. set (n := get_be32 d0 d1 d2 d3) in *.
  destruct (Z.ltb_spec n kSerialIdSize); [done|]. destruct (Z.ltb_spec kMaxFrameSize n); [done|].
  destruct (Z.ltb_spec (8 + slen rest) (4 + n)); [|done]. intros _.
  change (slen (String d0 _)) with (Z.of_nat (8 + String.length rest)). unfold slen in *. lia.
Qed.

(** C36. whatever bytes follow it on the wire, an encoded frame decodes as
    [Complete] to the serial id and payload it was built from, and the reported
    frame size is exactly the encoder's output length, so that erasing it leaves
    the bytes that follow.  The encoder succeeds for every payload up to
    [kMaxPayloadSize]. *)
Theorem frame_round_trip serial_id payload rest (Hid : is_u32 serial_id)
    (Hlen : slen payload <= kMaxPayloadSize) :
  exists buf, tryEncode serial_id payload = Some buf /\
    tryDecodeFrame (buf +:+ rest) = mkDecoded Complete (slen buf) (Some (serial_id, payload)) /\
    str_drop (Z.to_nat (slen buf)) (buf +:+ rest) = rest.
Proof.
  destruct (tryEncode serial_id payload) as [buf|] eqn:E.
  - exists buf. split; [done|]. split; [by apply decode_encoded|].
    unfold slen. rewrite Nat2Z.id. apply str_drop_app_length.
  - unfold tryEncode in E. destruct (Z.ltb_spec kMaxPayloadSize (slen payload)); [lia|done].
Qed.

Lemma frame_round_trip_witness :
  exists buf, tryEncode 7 "abc" = Some buf /\
    tryDecodeFrame (buf +:+ "tail") = mkDecoded Complete (slen buf) (Some (7, "abc"%string)) /\
    str_drop (Z.to_nat (slen buf)) (buf +:+ "tail") = "tail"%string.
Proof. apply (frame_round_trip 7 "abc" "tail"); [done|vm_compute; discriminate]. Defined.

(** The decoder accepts nothing but what the encoder produces: if a buffer
    decodes as [Complete], its first [frame_size] bytes are exactly the encoding
    of the serial id and payload it returns, so no two byte strings stand for
    the same frame and a decoded payload can always be sent again. *)
Theorem decode_is_encoding data size serial_id payload
    (Hdec : tryDecodeFrame data = mkDecoded Complete size (Some (serial_id, payload))) :
  tryEncode serial_id payload = Some (str_take (Z.to_nat size) data) /\
  is_u32 serial_id /\ size <= slen data /\ size <= 4 + kMaxFrameSize.
Proof.
  destruct (header_cases data) as [[_ H]|(d0&d1&d2&d3&d4&d5&d6&d7&rest&->)]; [congruence|].
  rewrite tryDecodeFrame_header in Hdec. cbv zeta in Hdec.
  pose proof (get_be32_range d0 d1 d2 d3) as Hn. set (n := get_be32 d0 d1 d2 d3) in *.
  destruct (Z.ltb_spec n kSerialIdSize); [done|]. destruct (Z.ltb_spec kMaxFrameSize n); [done|].
  destruct (Z.ltb_spec (8 + slen rest) (4 + n)); [done|]. injection Hdec as <- <- <-.
  unfold kSerialIdSize, kMaxFrameSize in *.
  assert (Hl : slen (str_take (Z.to_nat (n - 4)) rest) = n - 4).
  { unfold slen in *. rewrite length_str_take; lia. }
  split; [|split; [apply get_be32_range|]].
  - unfold tryEncode, kMaxPayloadSize, kMaxFrameSize, kSerialIdSize. rewrite Hl.
    destruct (Z.ltb_spec (4 * 1024 * 1024 - 4) (n - 4)); [lia|]. f_equal.
    rewrite (u32_small (n - 4)) by (unfold is_u32 in *; lia).
    replace (4 + (n - 4)) with n by lia. rewrite u32_small by done. unfold n at 1.
    rewrite !put_get_be32. replace (Z.to_nat (4 + n)) with (8 + Z.to_nat (n - 4))%nat by lia.
    reflexivity.
  - change (slen (String d0 _)) with (Z.of_nat (8 + String.length rest)).
    unfold slen in *. lia.
Qed.

Lemma decode_is_encoding_witness :
  tryEncode 9 "x" = Some (str_take 9 (put_be32 5 +:+ put_be32 9 +:+ "xy")) /\
  is_u32 9 /\ 9 <= slen (put_be32 5 +:+ put_be32 9 +:+ "xy") /\ 9 <= 4 + kMaxFrameSize.
Proof. apply (decode_is_encoding (put_be32 5 +:+ put_be32 9 +:+ "xy") 9 9 "x"). reflexivity. Defined.
