(* ===== verification/Datetime.v ===== *)
(** Calendar time: [DATETIME] values, their text, and the C library's
    conversions used by [to_datetime_string] and [parse_datetime]
    (src/scheduler/task_scheduler.cpp, src/rpc/rpc_dispatcher.cpp).

    [Datetime] is what the task store needs of the database's [DATETIME]
    type: a position on the time line and a text that reads back to the same
    value.  [Civil] is an implementation of it by the proleptic Gregorian
    calendar and the format [%Y-%m-%d %H:%M:%S], used by the witnesses and by
    the C++ formatting functions. *)
From S2P Require Import Prelude.

(** The [DATETIME] column type as the client code observes it. *)
Class Datetime (D : Type) := {
  dt_eqdec :: EqDecision D;
  dt_sec : D -> Z;
  dt_text : D -> string;
  dt_parse : string -> option D;
  dt_sec_inj : forall d e, dt_sec d = dt_sec e -> d = e;
  dt_parse_text : forall d, dt_parse (dt_text d) = Some d;
  dt_text_nonempty : forall d, dt_text d <> EmptyString
}.

(** ** Calendar arithmetic *)

(** Days since 1970-01-01 of a civil date. *)
Definition days_from_civil (y m d : Z) : Z :=
  let y := if m <=? 2 then y - 1 else y in
  let era := y / 400 in
  let yoe := y mod 400 in
  let mp := if 2 <? m then m - 3 else m + 9 in
  let doy := (153 * mp + 2) / 5 + d - 1 in
  let doe := yoe * 365 + yoe / 4 - yoe / 100 + doy in
  era * 146097 + doe - 719468.

(** Year (of the era, starting in March), month and day of a day of the era. *)
Definition civil_of_doe (doe : Z) : Z * Z * Z :=
  let yoe := (doe - doe / 1460 + doe / 36524 - doe / 146096) / 365 in
  let doy := doe - (365 * yoe + yoe / 4 - yoe / 100) in
  let mp := (5 * doy + 2) / 153 in
  let d := doy - (153 * mp + 2) / 5 + 1 in
  let m := if mp <? 10 then mp + 3 else mp - 9 in
  (yoe + (if m <=? 2 then 1 else 0), m, d).

Definition civil_from_days (z : Z) : Z * Z * Z :=
  let z := z + 719468 in
  let '(y, m, d) := civil_of_doe (z mod 146097) in
  (y + z / 146097 * 400, m, d).

Lemma yoe_range doe :
  0 <= doe < 146097 -> 0 <= (doe - doe / 1460 + doe / 36524 - doe / 146096) / 365 <= 399.
Proof. intros. Z.div_mod_to_equations; lia. Qed.

Lemma doy_range doe :
  0 <= doe < 146097 ->
  let yoe := (doe - doe / 1460 + doe / 36524 - doe / 146096) / 365 in
  0 <= doe - (365 * yoe + yoe / 4 - yoe / 100) <= 365.
Proof. intros. subst yoe. Z.div_mod_to_equations; lia. Qed.

(** Every day of a 400-year era is recovered from its date, which is in range. *)
Lemma civil_of_doe_ok doe y m d :
  0 <= doe < 146097 -> civil_of_doe doe = (y, m, d) ->
  days_from_civil y m d = doe - 719468 /\ 1 <= m <= 12 /\ 1 <= d <= 31.
Proof.
  intros Hdoe. pose proof (yoe_range doe Hdoe) as Hy. pose proof (doy_range doe Hdoe) as Hd.
  unfold civil_of_doe. cbv zeta in *.
  set (yoe := (doe - doe / 1460 + doe / 36524 - doe / 146096) / 365) in *.
  set (doy := doe - (365 * yoe + yoe / 4 - yoe / 100)) in *.
  assert (Hmp : 0 <= (5 * doy + 2) / 153 <= 11) by (Z.div_mod_to_equations; lia).
  assert (Hday : 1 <= doy - (153 * ((5 * doy + 2) / 153) + 2) / 5 + 1 <= 31)
    by (Z.div_mod_to_equations; lia).
  set (mp := (5 * doy + 2) / 153) in *.
  intros [= <- <- <-]. unfold days_from_civil.
  destruct (Z.ltb_spec mp 10) as [Hlt|Hge].
  - rewrite (proj2 (Z.leb_gt (mp + 3) 2)), (proj2 (Z.ltb_lt 2 (mp + 3))) by lia.
    rewrite Z.add_0_r, (Z.mod_small yoe 400), (Z.div_small yoe 400) by lia.
    replace (mp + 3 - 3) with mp by lia. lia.
  - rewrite (proj2 (Z.leb_le (mp - 9) 2)), (proj2 (Z.ltb_ge 2 (mp - 9))) by lia.
    replace (yoe + 1 - 1) with yoe by lia.
    rewrite (Z.mod_small yoe 400), (Z.div_small yoe 400) by lia.
    replace (mp - 9 + 9) with mp by lia. lia.
Qed.

Lemma days_from_civil_era y m d e :
  days_from_civil (y + e * 400) m d = days_from_civil y m d + e * 146097.
Proof.
  unfold days_from_civil. destruct (m <=? 2).
  - replace (y + e * 400 - 1) with (y - 1 + e * 400) by lia.
    rewrite Z.div_add, Z.mod_add by lia. lia.
  - rewrite Z.div_add, Z.mod_add by lia. lia.
Qed.

Lemma civil_from_days_ok z y m d :
  civil_from_days z = (y, m, d) ->
  days_from_civil y m d = z /\ 1 <= m <= 12 /\ 1 <= d <= 31.
Proof.
  unfold civil_from_days. intros H.
  set (w := z + 719468) in *. cbv zeta in H.
  destruct (civil_of_doe (w mod 146097)) as [[y0 m0] d0] eqn:E.
  apply civil_of_doe_ok in E as (E & Hm & Hd); [|apply Z.mod_pos_bound; lia].
  injection H as <- <- <-. rewrite days_from_civil_era.
  pose proof (Z.div_mod w 146097 ltac:(lia)). lia.
Qed.

(** ** Text *)

Definition digit (n : Z) : ascii := byte_of_Z (48 + n).
Definition digit_val (c : ascii) : option Z :=
  let v := Z_of_byte c - 48 in
  if (0 <=? v) && (v <=? 9) then Some v else None.

Definition pad2 (n : Z) (k : string) : string :=
  String (digit (n / 10)) (String (digit (n mod 10)) k).
Definition pad4 (n : Z) (k : string) : string :=
  pad2 (n / 100) (pad2 (n mod 100) k).

Definition read2 (s : string) : option (Z * string) :=
  match s with
  | String a (String b k) =>
      x ← digit_val a; y ← digit_val b; Some (x * 10 + y, k)
  | _ => None
  end.
Definition read4 (s : string) : option (Z * string) :=
  '(x, k) ← read2 s; '(y, k) ← read2 k; Some (x * 100 + y, k).
Definition expect (c : ascii) (s : string) : option string :=
  match s with
  | String a k => if Ascii.eqb a c then Some k else None
  | _ => None
  end.

(** [strftime] with the format [%Y-%m-%d %H:%M:%S] of a broken-down time given as
    seconds on the local time line. *)
Definition strftime_dt (t : Z) : string :=
  let '(y, m, d) := civil_from_days (t / 86400) in
  let s := t mod 86400 in
  pad4 y (String "-" (pad2 m (String "-" (pad2 d (String " "
    (pad2 (s / 3600) (String ":" (pad2 (s mod 3600 / 60) (String ":" (pad2 (s mod 60) EmptyString)))))))))).

(** The same format read back, as [std::get_time] and the database do. *)
Definition parse_dt (s : string) : option Z :=
  '(y, k) ← read4 s; k ← expect "-" k;
  '(m, k) ← read2 k; k ← expect "-" k;
  '(d, k) ← read2 k; k ← expect " " k;
  '(hh, k) ← read2 k; k ← expect ":" k;
  '(mi, k) ← read2 k; k ← expect ":" k;
  '(ss, k) ← read2 k;
  if (1 <=? m) && (m <=? 12) && (1 <=? d) && (d <=? 31) && (hh <=? 23) && (mi <=? 59) && (ss <=? 59)
     && str_empty k
  then Some (days_from_civil y m d * 86400 + hh * 3600 + mi * 60 + ss)
  else None.

Lemma digit_val_digit n : 0 <= n <= 9 -> digit_val (digit n) = Some n.
Proof.
  intros H. unfold digit_val, digit. rewrite Z_of_byte_of_Z, Z.mod_small by lia.
  replace (48 + n - 48) with n by lia.
  by rewrite (proj2 (Z.leb_le 0 n)), (proj2 (Z.leb_le n 9)) by lia.
Qed.

Lemma read2_pad2 n k : 0 <= n <= 99 -> read2 (pad2 n k) = Some (n, k).
Proof.
  intros H. unfold pad2, read2.
  rewrite !digit_val_digit by (Z.div_mod_to_equations; lia). simpl.
  do 2 f_equal. pose proof (Z.div_mod n 10). lia.
Qed.

Lemma read4_pad4 n k : 0 <= n <= 9999 -> read4 (pad4 n k) = Some (n, k).
Proof.
  intros H. unfold pad4, read4.
  rewrite read2_pad2 by (Z.div_mod_to_equations; lia). cbn [mbind option_bind].
  rewrite read2_pad2 by (Z.div_mod_to_equations; lia). cbn [mbind option_bind].
  do 2 f_equal. pose proof (Z.div_mod n 100). lia.
Qed.

Lemma expect_same c k : expect c (String c k) = Some k.
Proof. simpl. by rewrite Ascii.eqb_refl. Qed.

Lemma hms_split s : s = s / 3600 * 3600 + s mod 3600 / 60 * 60 + s mod 60.
Proof.
  pose proof (Z.div_mod s 3600). pose proof (Z.div_mod (s mod 3600) 60).
  rewrite <- (Z.mod_mod_divide s 3600 60) by (exists 60; lia). lia.
Qed.

Lemma hms_range s :
  0 <= s < 86400 -> 0 <= s / 3600 <= 23 /\ 0 <= s mod 3600 / 60 <= 59 /\ 0 <= s mod 60 <= 59.
Proof.
  intros. split; [Z.div_mod_to_equations; lia|].
  pose proof (Z.mod_pos_bound s 3600 ltac:(lia)). pose proof (Z.mod_pos_bound s 60 ltac:(lia)).
  generalize dependent (s mod 3600). intros. split; [Z.div_mod_to_equations; lia|lia].
Qed.

(** The local times whose year has four digits. *)
Definition dt_year (t : Z) : Z := (civil_from_days (t / 86400)).1.1.
Definition dt_in_range (t : Z) : bool := (0 <=? dt_year t) && (dt_year t <=? 9999).

Lemma parse_strftime t : dt_in_range t = true -> parse_dt (strftime_dt t) = Some t.
Proof.
  unfold dt_in_range, dt_year, strftime_dt. intros Hr.
  destruct (civil_from_days (t / 86400)) as [[y m] d] eqn:E. simpl in Hr. zify_bools.
  apply civil_from_days_ok in E as (E & Hm & Hd).
  pose proof (Z.mod_pos_bound t 86400 ltac:(lia)) as Hs. set (s := t mod 86400) in *.
  unfold parse_dt. rewrite read4_pad4 by lia. cbn [mbind option_bind]. rewrite expect_same. cbn [mbind option_bind].
  rewrite read2_pad2 by lia. cbn [mbind option_bind]. rewrite expect_same. cbn [mbind option_bind].
  rewrite read2_pad2 by lia. cbn [mbind option_bind]. rewrite expect_same. cbn [mbind option_bind].
  destruct (hms_range s Hs) as (Hh & Hmi & Hss).
  rewrite read2_pad2 by lia. cbn [mbind option_bind]. rewrite expect_same. cbn [mbind option_bind].
  rewrite read2_pad2 by lia. cbn [mbind option_bind]. rewrite expect_same. cbn [mbind option_bind].
  rewrite read2_pad2 by lia. cbn [mbind option_bind].
  repeat match goal with |- context [?a <=? ?b] => rewrite (proj2 (Z.leb_le a b)) by lia end.
  cbn [andb str_empty]. f_equal. rewrite E. pose proof (Z.div_mod t 86400 ltac:(lia)).
  pose proof (hms_split s). subst s. lia.
Qed.

(** ** The calendar as a [DATETIME] type *)

Definition civil : Type := { t : Z | dt_in_range t = true }.

Lemma civil_eq (a b : civil) : `a = `b -> a = b.
Proof. destruct a as [a Ha], b as [b Hb]. simpl. intros ->. f_equal. apply proof_irrel. Qed.

Definition mk_civil (t : Z) : option civil :=
  match decide (dt_in_range t = true) with
  | left H => Some (exist _ t H)
  | right _ => None
  end.

#[global] Instance civil_eq_dec : EqDecision civil.
Proof.
  intros a b. destruct (decide (`a = `b)) as [H|H].
  - left. by apply civil_eq.
  - right. congruence.
Defined.

Lemma strftime_dt_nonempty t : strftime_dt t <> EmptyString.
Proof. unfold strftime_dt. by destruct (civil_from_days _) as [[y m] d]. Qed.

#[global] Program Instance Civil : Datetime civil := {|
  dt_sec d := `d;
  dt_text d := strftime_dt (`d);
  dt_parse s := parse_dt s ≫= mk_civil
|}.
Next Obligation. intros d e H. by apply civil_eq. Qed.
Next Obligation.
  intros [t Ht]. cbn [proj1_sig]. rewrite parse_strftime by done. cbn [mbind option_bind].
  unfold mk_civil. destruct (decide _) as [H|H]; [|done]. f_equal. by apply civil_eq.
Qed.
Next Obligation. intros d. apply strftime_dt_nonempty. Qed.

(** ** [to_datetime_string] and [parse_datetime]

    [utc_to_local] and [local_to_utc] are the time-zone conversions inside
    [localtime_r] and [mktime]; they depend on the host's zone database and are
    parameters.  [None] is the failure of the C call. *)
Section LocalTime.
Context (utc_to_local : Z -> option Z) (local_to_utc : Z -> option Z).

(** [char buf[20]] holds 19 characters and the terminator: a year of more than
    four digits makes [strftime] return 0 and the function return [{}]. *)
Definition to_datetime_string_sec (time_sec : Z) : string :=
  match utc_to_local time_sec with
  | None => EmptyString
  | Some t => if dt_in_range t then strftime_dt t else EmptyString
  end.

Definition to_datetime_string (timestamp_ms : Z) : string :=
  to_datetime_string_sec (timestamp_ms / 1000).

Definition parse_datetime (value : string) : option Z :=
  if str_empty value then None
  else
    match parse_dt value with
    | None => None
    | Some tm =>
        match local_to_utc tm with
        | None => None
        | Some parsed => if parsed =? -1 then None else Some parsed
        end
    end.

Lemma to_datetime_string_parse time_sec t :
  utc_to_local time_sec = Some t -> dt_in_range t = true ->
  parse_dt (to_datetime_string_sec time_sec) = Some t.
Proof.
  intros Hl Hr. unfold to_datetime_string_sec. rewrite Hl, Hr. by apply parse_strftime.
Qed.

End LocalTime.
