(* ===== verification/StorageError.v ===== *)
(** Storage errors: [include/corpcron/common/storage_error.hpp],
    [src/common/storage_error.cpp], and the two error classifiers
    [classify_sql_error] (src/mysql/mysql_client.cpp) and
    [classify_redis_error] (src/redis/redis_client.cpp). *)
From S2P Require Import Prelude.

Inductive StorageErrorKind :=
  | EK_None | EK_Connection | EK_Timeout | EK_Authentication | EK_DuplicateKey
  | EK_NotFound | EK_Query | EK_Protocol | EK_Unknown.

#[global] Instance StorageErrorKind_eq_dec : EqDecision StorageErrorKind.
Proof. solve_decision. Defined.

Record StorageError := mkStorageError {
  err_kind : StorageErrorKind;
  err_code : Z;
  err_message : string
}.

Definition no_error : StorageError := mkStorageError EK_None 0 EmptyString.

Definition storage_ok (e : StorageError) : bool := bool_decide (err_kind e = EK_None).

Definition storageErrorKindName (kind : StorageErrorKind) : string :=
  match kind with
  | EK_None => "none"
  | EK_Connection => "connection"
  | EK_Timeout => "timeout"
  | EK_Authentication => "authentication"
  | EK_DuplicateKey => "duplicate_key"
  | EK_NotFound => "not_found"
  | EK_Query => "query"
  | EK_Protocol => "protocol"
  | EK_Unknown => "unknown"
  end.

(** [std::tolower] in the C locale. *)
Definition tolower (c : ascii) : ascii :=
  let n := Z_of_byte c in
  if (65 <=? n) && (n <=? 90) then byte_of_Z (n + 32) else c.

Fixpoint str_map (f : ascii -> ascii) (s : string) : string :=
  match s with
  | EmptyString => EmptyString
  | String c s' => String (f c) (str_map f s')
  end.

(** [s.rfind(p, 0) == 0] and [s.find(p) != npos]. *)
Fixpoint starts_with (p s : string) : bool :=
  match p, s with
  | EmptyString, _ => true
  | String a p', String b s' => Ascii.eqb a b && starts_with p' s'
  | String _ _, EmptyString => false
  end.

Fixpoint contains (p s : string) : bool :=
  starts_with p s ||
  match s with
  | EmptyString => false
  | String _ s' => contains p s'
  end.

(** What the client reads of a [sql::SQLException]. *)
Record SQLException := mkSQLException {
  ex_code : Z;
  ex_state : string;
  ex_what : string
}.

Definition classify_sql_error (e : SQLException) : StorageErrorKind :=
  let code := ex_code e in
  let state := ex_state e in
  if (code =? 1045) || String.eqb state "28000" then EK_Authentication
  else if (code =? 1062) || String.eqb state "23000" then EK_DuplicateKey
  else if (code =? 2002) || (code =? 2003) || (code =? 2006) || (code =? 2013)
          || starts_with "08" state then EK_Connection
  else
    let message := str_map tolower (ex_what e) in
    if contains "timeout" message || contains "timed out" message then EK_Timeout
    else EK_Query.

(** hiredis error numbers. *)
Definition REDIS_ERR_IO : Z := 1.
Definition REDIS_ERR_OTHER : Z := 2.
Definition REDIS_ERR_EOF : Z := 3.
Definition REDIS_ERR_PROTOCOL : Z := 4.
Definition REDIS_ERR_OOM : Z := 5.

Definition classify_redis_error (err : Z) (errstr : option string) : StorageErrorKind :=
  let message := str_map tolower (default EmptyString errstr) in
  if contains "timed out" message || contains "timeout" message then EK_Timeout
  else if (err =? REDIS_ERR_IO) || (err =? REDIS_ERR_EOF) then EK_Connection
  else if err =? REDIS_ERR_PROTOCOL then EK_Protocol
  else if err =? REDIS_ERR_OOM then EK_Unknown
  else EK_Unknown.

(** A recorded failure is never mistaken for success: neither classifier
    answers [None]. *)
Lemma classify_sql_error_not_none e : classify_sql_error e <> EK_None.
Proof. unfold classify_sql_error. split_ifs; done. Qed.

Lemma classify_redis_error_not_none err errstr : classify_redis_error err errstr <> EK_None.
Proof. unfold classify_redis_error. split_ifs; done. Qed.

Lemma storageErrorKindName_inj : Inj (=) (=) storageErrorKindName.
Proof. intros [] []; simpl; congruence. Qed.
