(* ===== verification/TaskTable.v ===== *)
(** The [tasks] and [task_history] tables and the SQL statements that
    [src/mysql/mysql_client.cpp] runs on them.

    A statement is a function on the tables, parameterised by the server's
    [NOW()] and by whether the connection counts matched or changed rows
    ([CLIENT_FOUND_ROWS]).  [MySQLClient] wraps each of them in the client
    method that issues it.  The theorems here are about statements issued by
    any number of clients in any order: they are the compare-and-set protocol
    that keeps two schedulers from running the same occurrence of a task. *)
From S2P Require Import Prelude Datetime StorageError.

Definition TASK_DISABLED : Z := 0.
Definition TASK_SCHEDULED : Z := 1.
Definition TASK_RUNNING : Z := 2.

Module TaskMeta.
Record t := mk {
  id : string;
  cron_expr : string;
  params : string;
  handler : string;
  status : Z;
  next_run_at : string;
  last_run_at : string;
  retry_count : Z;
  max_retries : Z;
  current_execution_id : string;
  running_node : string;
  started_at : string
}.
End TaskMeta.

Module TaskHistory.
Record t := mk {
  execution_id : string;
  task_id : string;
  exec_node : string;
  success : bool;
  result : string;
  error : string;
  start_time : string;
  end_time : string
}.
End TaskHistory.

Module TaskQuery.
Record t := mk { status_filter : Z; keyword : string; limit : Z; offset : Z }.
End TaskQuery.

Module HistoryQuery.
Record t := mk { task_id : string; success_filter : Z; keyword : string; limit : Z; offset : Z }.
End HistoryQuery.

(** The SQL of the client.  [D] is the [DATETIME] column type. *)
Section Tables.
Context {D : Type} `{DT : Datetime D}.

(** A row of [tasks] without its primary key; [None] is [NULL]. *)
Record TaskRow := mkTaskRow {
  r_cron_expr : string;
  r_params : string;
  r_handler : string;
  r_status : Z;
  r_next_run_at : option D;
  r_last_run_at : option D;
  r_retry_count : Z;
  r_max_retries : Z;
  r_current_execution_id : option string;
  r_running_node : option string;
  r_started_at : option D;
  r_created_at : D
}.

Record HistRow := mkHistRow {
  h_execution_id : option string;
  h_task_id : string;
  h_exec_node : string;
  h_success : Z;
  h_result : string;
  h_error : string;
  h_start_time : option D;
  h_end_time : option D
}.

(** [task_history] is kept in [AUTO_INCREMENT] order, oldest first. *)
Record Tables := mkTables {
  tasks : gmap string TaskRow;
  task_history : list HistRow
}.

#[global] Instance TaskRow_eq_dec : EqDecision TaskRow.
Proof. solve_decision. Defined.

Definition set_tasks (f : gmap string TaskRow -> gmap string TaskRow) (t : Tables) : Tables :=
  mkTables (f (tasks t)) (task_history t).

(** ** Column conversions *)

(** [set_datetime_or_null]: the empty string binds [NULL]; other text is read by
    the server, which refuses what is not a date ([None]). *)
Definition set_datetime_or_null (value : string) : option (option D) :=
  if str_empty value then Some None
  else match dt_parse value with Some d => Some (Some d) | None => None end.

Definition set_string_or_null (value : string) : option string :=
  if str_empty value then None else Some value.

Definition incorrect_datetime : SQLException :=
  mkSQLException 1292 "22007" "Incorrect datetime value".
Definition duplicate_entry : SQLException :=
  mkSQLException 1062 "23000" "Duplicate entry".

(** [ResultSet::getString] of a nullable column: [NULL] reads as the empty string. *)
Definition getString_dt (c : option D) : string :=
  match c with Some d => dt_text d | None => EmptyString end.
Definition getString (c : option string) : string := default EmptyString c.

Definition task_from_result (id : string) (r : TaskRow) : TaskMeta.t := {|
  TaskMeta.id := id;
  TaskMeta.cron_expr := r_cron_expr r;
  TaskMeta.params := r_params r;
  TaskMeta.handler := r_handler r;
  TaskMeta.status := r_status r;
  TaskMeta.next_run_at := getString_dt (r_next_run_at r);
  TaskMeta.last_run_at := getString_dt (r_last_run_at r);
  TaskMeta.retry_count := r_retry_count r;
  TaskMeta.max_retries := r_max_retries r;
  TaskMeta.current_execution_id := getString (r_current_execution_id r);
  TaskMeta.running_node := getString (r_running_node r);
  TaskMeta.started_at := getString_dt (r_started_at r)
|}.

Definition history_from_result (r : HistRow) : TaskHistory.t := {|
  TaskHistory.execution_id := getString (h_execution_id r);
  TaskHistory.task_id := h_task_id r;
  TaskHistory.exec_node := h_exec_node r;
  TaskHistory.success := h_success r =? 1;
  TaskHistory.result := h_result r;
  TaskHistory.error := h_error r;
  TaskHistory.start_time := getString_dt (h_start_time r);
  TaskHistory.end_time := getString_dt (h_end_time r)
|}.

(** ** Statements

    A statement answers a value or an exception, with the tables after it. *)
Definition Stmt (A : Type) : Type := Tables -> (SQLException + A) * Tables.

(** [UPDATE tasks SET ... WHERE id=? AND P] by primary key.  The affected-row
    count is of changed rows, or of matched rows when [found_rows]. *)
Definition sql_update (found_rows : bool) (id : string) (P : TaskRow -> bool)
    (f : TaskRow -> TaskRow) (t : Tables) : Z * Tables :=
  match tasks t !! id with
  | Some r =>
      if P r then
        ((if found_rows || negb (bool_decide (f r = r)) then 1 else 0), set_tasks <[id := f r]> t)
      else (0, t)
  | None => (0, t)
  end.

Definition task_exists (id : string) (t : Tables) : bool :=
  match tasks t !! id with Some _ => true | None => false end.

Definition task_exists_and_is_not_running (id : string) (t : Tables) : bool :=
  match tasks t !! id with Some r => negb (r_status r =? TASK_RUNNING) | None => false end.

(** [executeUpdate() > 0] *)
Definition updated (p : Z * Tables) : (SQLException + bool) * Tables := (inr (0 <? p.1), p.2).

(** [executeUpdate()] *)
Definition counted (p : Z * Tables) : (SQLException + Z) * Tables := (inr p.1, p.2).

(** [executeUpdate() > 0 || exists(...)], the two statements run back to back.
    On the server other statements may run between the two: [MySQLClient] runs
    them apart.  That can change the answer only, since the look changes
    nothing, and no answer of these is read off a step below. *)
Definition updated_or (exists_ : Tables -> bool) (upd : Stmt Z) : Stmt bool := fun t =>
  match upd t with
  | (inr n, t') => (inr ((0 <? n) || exists_ t'), t')
  | (inl e, t') => (inl e, t')
  end.

Definition stmt_add_task (now : D) (task : TaskMeta.t) : Stmt bool := fun t =>
  match set_datetime_or_null (TaskMeta.next_run_at task) with
  | None => (inl incorrect_datetime, t)
  | Some nr =>
      match tasks t !! TaskMeta.id task with
      | Some _ => (inl duplicate_entry, t)
      | None =>
          (inr true, set_tasks <[TaskMeta.id task :=
             mkTaskRow (TaskMeta.cron_expr task) (TaskMeta.params task) (TaskMeta.handler task)
               (TaskMeta.status task) nr None (TaskMeta.retry_count task) (TaskMeta.max_retries task)
               None None None now]> t)
      end
  end.

Definition upd_definition (fr : bool) (task : TaskMeta.t) : Stmt Z := fun t =>
  match set_datetime_or_null (TaskMeta.next_run_at task),
        set_datetime_or_null (TaskMeta.last_run_at task) with
  | Some nr, Some lr =>
      counted
        (sql_update fr (TaskMeta.id task)
           (fun r => negb (r_status r =? TASK_RUNNING))
           (fun r => mkTaskRow (TaskMeta.cron_expr task) (TaskMeta.params task)
                       (TaskMeta.handler task) (TaskMeta.status task) nr lr
                       (TaskMeta.retry_count task) (TaskMeta.max_retries task)
                       (r_current_execution_id r) (r_running_node r) (r_started_at r)
                       (r_created_at r)) t)
  | _, _ => (inl incorrect_datetime, t)
  end.

Definition stmt_update_definition (fr : bool) (task : TaskMeta.t) : Stmt bool :=
  updated_or (task_exists_and_is_not_running (TaskMeta.id task)) (upd_definition fr task).

Definition stmt_delete (id : string) : Stmt bool := fun t =>
  match tasks t !! id with
  | Some r =>
      if negb (r_status r =? TASK_RUNNING) then (inr true, set_tasks (delete id) t)
      else (inr false, t)
  | None => (inr false, t)
  end.

(** The [UPDATE] of [claimTaskExecution]: with a scanned schedule, the row must
    still have that [next_run_at] and be due. *)
Definition claim_row (now : D) (execution_id node_id : string) (r : TaskRow) : TaskRow :=
  mkTaskRow (r_cron_expr r) (r_params r) (r_handler r) TASK_RUNNING
    (r_next_run_at r) (r_last_run_at r) (r_retry_count r) (r_max_retries r)
    (Some execution_id) (Some node_id) (Some now) (r_created_at r).

Definition slot_matches (now slot : D) (r : TaskRow) : bool :=
  match r_next_run_at r with
  | Some nr => bool_decide (nr = slot) && (dt_sec nr <=? dt_sec now)
  | None => false
  end.

Definition stmt_claim (fr : bool) (now : D) (id execution_id node_id : string)
    (expected_status : Z) (expected_next_run_at : string) : Stmt bool := fun t =>
  if str_empty expected_next_run_at then
    updated (sql_update fr id (fun r => r_status r =? expected_status)
               (claim_row now execution_id node_id) t)
  else
    match dt_parse expected_next_run_at with
    | None => (inl incorrect_datetime, t)
    | Some slot =>
        updated (sql_update fr id
          (fun r => (r_status r =? expected_status) && slot_matches now slot r)
          (claim_row now execution_id node_id) t)
    end.

Definition release_row (status : Z) (nr lr : option D) (retry : Z) (r : TaskRow) : TaskRow :=
  mkTaskRow (r_cron_expr r) (r_params r) (r_handler r) status nr lr retry (r_max_retries r)
    None None None (r_created_at r).

(** [status=RUNNING AND (current_execution_id=? OR (current_execution_id IS NULL AND ?=''))] *)
Definition recover_guard (execution_id : string) (r : TaskRow) : bool :=
  (r_status r =? TASK_RUNNING) &&
  match r_current_execution_id r with
  | Some e => String.eqb e execution_id
  | None => str_empty execution_id
  end.

Definition stmt_recover (fr : bool) (id execution_id : string) : Stmt bool := fun t =>
  updated (sql_update fr id
    (recover_guard execution_id)
    (fun r => release_row TASK_SCHEDULED (r_next_run_at r) (r_last_run_at r) (r_retry_count r) r) t).

(** [current_execution_id=? AND status=RUNNING] *)
Definition complete_guard (execution_id : string) (r : TaskRow) : bool :=
  match r_current_execution_id r with
  | Some e => String.eqb e execution_id
  | None => false
  end && (r_status r =? TASK_RUNNING).

Definition stmt_complete (fr : bool) (id execution_id : string) (status : Z)
    (next_run_at last_run_at : string) (retry_count : Z) : Stmt bool := fun t =>
  match set_datetime_or_null next_run_at, set_datetime_or_null last_run_at with
  | Some nr, Some lr =>
      updated (sql_update fr id
        (complete_guard execution_id)
        (release_row status nr lr retry_count) t)
  | _, _ => (inl incorrect_datetime, t)
  end.

Definition upd_schedule (fr : bool) (id next_run_at last_run_at : string)
    (retry_count : Z) : Stmt Z := fun t =>
  match set_datetime_or_null next_run_at, set_datetime_or_null last_run_at with
  | Some nr, Some lr =>
      counted
        (sql_update fr id (fun r => negb (r_status r =? TASK_RUNNING))
           (fun r => mkTaskRow (r_cron_expr r) (r_params r) (r_handler r) (r_status r) nr lr
                       retry_count (r_max_retries r) (r_current_execution_id r) (r_running_node r)
                       (r_started_at r) (r_created_at r)) t)
  | _, _ => (inl incorrect_datetime, t)
  end.

Definition stmt_update_schedule (fr : bool) (id next_run_at last_run_at : string)
    (retry_count : Z) : Stmt bool :=
  updated_or (task_exists_and_is_not_running id) (upd_schedule fr id next_run_at last_run_at retry_count).

Definition upd_runtime (fr : bool) (id : string) (status : Z)
    (next_run_at last_run_at : string) (retry_count : Z) : Stmt Z := fun t =>
  match set_datetime_or_null next_run_at, set_datetime_or_null last_run_at with
  | Some nr, Some lr =>
      counted
        (sql_update fr id (fun r => negb (r_status r =? TASK_RUNNING))
           (release_row status nr lr retry_count) t)
  | _, _ => (inl incorrect_datetime, t)
  end.

Definition stmt_update_runtime (fr : bool) (id : string) (status : Z)
    (next_run_at last_run_at : string) (retry_count : Z) : Stmt bool :=
  updated_or (task_exists_and_is_not_running id) (upd_runtime fr id status next_run_at last_run_at retry_count).

Definition upd_cancel (fr : bool) (id : string) : Stmt Z := fun t =>
  counted (sql_update fr id (fun _ => true)
    (fun r => release_row TASK_DISABLED (r_next_run_at r) (r_last_run_at r) (r_retry_count r) r) t).

Definition stmt_cancel (fr : bool) (id : string) : Stmt bool :=
  updated_or (task_exists id) (upd_cancel fr id).

(** [INSERT ... ON DUPLICATE KEY UPDATE] on the unique key [execution_id]: a row
    with the same non-[NULL] execution id is overwritten in place. *)
Definition same_execution (e : option string) (r : HistRow) : bool :=
  match e, h_execution_id r with
  | Some a, Some b => String.eqb a b
  | _, _ => false
  end.

Definition overwrite_history (new old : HistRow) : HistRow :=
  mkHistRow (h_execution_id old) (h_task_id old) (h_exec_node new) (h_success new)
    (h_result new) (h_error new) (h_start_time new) (h_end_time new).

Definition upsert_history (new : HistRow) (l : list HistRow) : list HistRow :=
  if existsb (same_execution (h_execution_id new)) l
  then map (fun old => if same_execution (h_execution_id new) old
                       then overwrite_history new old else old) l
  else l ++ [new].

Definition stmt_add_history (history : TaskHistory.t) : Stmt bool := fun t =>
  match set_datetime_or_null (TaskHistory.start_time history),
        set_datetime_or_null (TaskHistory.end_time history) with
  | Some st, Some en =>
      (inr true,
       mkTables (tasks t)
         (upsert_history
            (mkHistRow (set_string_or_null (TaskHistory.execution_id history))
               (TaskHistory.task_id history) (TaskHistory.exec_node history)
               (if TaskHistory.success history then 1 else 0) (TaskHistory.result history)
               (TaskHistory.error history) st en) (task_history t)))
  | _, _ => (inl incorrect_datetime, t)
  end.

(** ** Queries *)

(** Rows that satisfy a [WHERE], sorted by an [ORDER BY] and cut by
    [LIMIT ? OFFSET ?]; the two are bound with [setUInt]. *)
Definition sql_select (P : string * TaskRow -> bool) (le : string * TaskRow -> string * TaskRow -> bool)
    (limit offset : Z) (t : Tables) : list (string * TaskRow) :=
  take (Z.to_nat (u32 limit))
    (drop (Z.to_nat (u32 offset))
       (sort_by le (filter (fun x => P x = true) (map_to_list (tasks t))))).

(** [NULL] sorts first in ascending order. *)
Definition dt_key_le (a b : option D) : bool :=
  match a, b with
  | None, _ => true
  | Some _, None => false
  | Some x, Some y => dt_sec x <=? dt_sec y
  end.

Definition dt_key_eq (a b : option D) : bool := dt_key_le a b && dt_key_le b a.

(** [ORDER BY next_run_at ASC, created_at ASC] *)
Definition due_le (a b : string * TaskRow) : bool :=
  if dt_key_eq (r_next_run_at a.2) (r_next_run_at b.2)
  then dt_sec (r_created_at a.2) <=? dt_sec (r_created_at b.2)
  else dt_key_le (r_next_run_at a.2) (r_next_run_at b.2).

Definition is_due (now : D) (r : TaskRow) : bool :=
  (r_status r =? 1) &&
  match r_next_run_at r with None => true | Some d => dt_sec d <=? dt_sec now end.

Definition query_due (now : D) (limit : Z) (t : Tables) : list TaskMeta.t :=
  map (fun x => task_from_result x.1 x.2)
    (sql_select (fun x => is_due now x.2) due_le limit 0 t).

(** [started_at <= TIMESTAMPADD(SECOND, -stale_after_sec, NOW())] *)
Definition is_stale (now : D) (stale_after_sec : Z) (r : TaskRow) : bool :=
  (r_status r =? TASK_RUNNING) &&
  match r_started_at r with
  | Some d => dt_sec d <=? dt_sec now + - stale_after_sec
  | None => false
  end.

Definition query_stale (now : D) (stale_after_sec limit : Z) (t : Tables) : list TaskMeta.t :=
  let stale_after_sec := if stale_after_sec <? 0 then 0 else stale_after_sec in
  map (fun x => task_from_result x.1 x.2)
    (sql_select (fun x => is_stale now stale_after_sec x.2)
       (fun a b => dt_key_le (r_started_at a.2) (r_started_at b.2)) limit 0 t).

Definition query_task (id : string) (t : Tables) : option TaskMeta.t :=
  task_from_result id <$> tasks t !! id.

(** [ORDER BY id DESC LIMIT ?] over the history. *)
Definition query_history (task_id : string) (limit : Z) (t : Tables) : list TaskHistory.t :=
  map history_from_result
    (take (Z.to_nat (u32 limit))
       (rev (filter (fun r => str_empty task_id || String.eqb (h_task_id r) task_id = true)
               (task_history t)))).

Definition query_latest (task_id : string) (t : Tables) : list TaskHistory.t :=
  map history_from_result
    (take 1 (rev (filter (fun r => String.eqb (h_task_id r) task_id = true) (task_history t)))).

(** [SELECT ... FROM tasks WHERE P] without an [ORDER BY]. *)
Definition query_where (P : TaskRow -> bool) (t : Tables) : list TaskMeta.t :=
  map (fun x => task_from_result x.1 x.2)
    (filter (fun x => P x.2 = true) (map_to_list (tasks t))).

Definition history_count (task_id : string) (t : Tables) : Z :=
  Z.of_nat (length (filter (fun r => String.eqb (h_task_id r) task_id = true) (task_history t))).

(** [listTasks] and [listHistory]: [like] is the server's [LIKE] under the
    column's collation. *)
Section Lists.
Context (like : string -> string -> bool).

Definition task_where (q : TaskQuery.t) (x : string * TaskRow) : bool :=
  let kw := "%" +:+ TaskQuery.keyword q +:+ "%" in
  ((TaskQuery.status_filter q =? -1) || (r_status x.2 =? TaskQuery.status_filter q)) &&
  (str_empty (TaskQuery.keyword q) || like x.1 kw || like (r_handler x.2) kw ||
   like (r_cron_expr x.2) kw || like (r_params x.2) kw).

(** [ORDER BY created_at DESC, id DESC] *)
Definition recent_le (a b : string * TaskRow) : bool :=
  if dt_sec (r_created_at a.2) =? dt_sec (r_created_at b.2)
  then String.leb b.1 a.1
  else dt_sec (r_created_at b.2) <=? dt_sec (r_created_at a.2).

Definition query_tasks (q : TaskQuery.t) (t : Tables) : list TaskMeta.t * Z :=
  let limit := if TaskQuery.limit q =? 0 then 100 else TaskQuery.limit q in
  (map (fun x => task_from_result x.1 x.2)
     (sql_select (task_where q) recent_le limit (TaskQuery.offset q) t),
   Z.of_nat (length (filter (fun x => task_where q x = true) (map_to_list (tasks t))))).

Definition history_where (q : HistoryQuery.t) (r : HistRow) : bool :=
  let kw := "%" +:+ HistoryQuery.keyword q +:+ "%" in
  (str_empty (HistoryQuery.task_id q) || String.eqb (h_task_id r) (HistoryQuery.task_id q)) &&
  ((HistoryQuery.success_filter q =? -1) || (h_success r =? HistoryQuery.success_filter q)) &&
  (str_empty (HistoryQuery.keyword q) ||
   match h_execution_id r with Some e => like e kw | None => false end ||
   like (h_task_id r) kw || like (h_exec_node r) kw || like (h_result r) kw || like (h_error r) kw).

Definition query_histories (q : HistoryQuery.t) (t : Tables) : list TaskHistory.t * Z :=
  let limit := if HistoryQuery.limit q =? 0 then 100 else HistoryQuery.limit q in
  let rows := filter (fun r => history_where q r = true) (task_history t) in
  (map history_from_result
     (take (Z.to_nat (u32 limit)) (drop (Z.to_nat (u32 (HistoryQuery.offset q))) (rev rows))),
   Z.of_nat (length rows)).

End Lists.

(** ** Any statement, from any client *)

Inductive Op :=
  | OpAdd (task : TaskMeta.t)
  | OpUpdateDefinition (task : TaskMeta.t)
  | OpDelete (id : string)
  | OpClaim (id execution_id node_id : string) (expected_status : Z) (expected_next_run_at : string)
  | OpRecover (id execution_id : string)
  | OpComplete (id execution_id : string) (status : Z) (next_run_at last_run_at : string)
      (retry_count : Z)
  | OpUpdateSchedule (id next_run_at last_run_at : string) (retry_count : Z)
  | OpUpdateRuntime (id : string) (status : Z) (next_run_at last_run_at : string) (retry_count : Z)
  | OpCancel (id : string)
  | OpAddHistory (history : TaskHistory.t).

Definition op_stmt (fr : bool) (now : D) (o : Op) : Stmt bool :=
  match o with
  | OpAdd task => stmt_add_task now task
  | OpUpdateDefinition task => stmt_update_definition fr task
  | OpDelete id => stmt_delete id
  | OpClaim id e n st nr => stmt_claim fr now id e n st nr
  | OpRecover id e => stmt_recover fr id e
  | OpComplete id e st nr lr rc => stmt_complete fr id e st nr lr rc
  | OpUpdateSchedule id nr lr rc => stmt_update_schedule fr id nr lr rc
  | OpUpdateRuntime id st nr lr rc => stmt_update_runtime fr id st nr lr rc
  | OpCancel id => stmt_cancel fr id
  | OpAddHistory h => stmt_add_history h
  end.

(** A trace of statements, each with the clock and the connection flag it ran
    under; [op_stmt] exceptions leave the tables as they are. *)
Definition Event : Type := bool * D * Op.
Definition exec_event (t : Tables) (ev : Event) : Tables := (op_stmt ev.1.1 ev.1.2 ev.2 t).2.
Definition exec_trace (t : Tables) (evs : list Event) : Tables := foldl exec_event t evs.
Definition op_succeeds (ev : Event) (t : Tables) : Prop :=
  (op_stmt ev.1.1 ev.1.2 ev.2 t).1 = inr true.

End Tables.

Arguments TaskRow D : clear implicits.
Arguments HistRow D : clear implicits.
Arguments Tables D : clear implicits.
Arguments Stmt D A : clear implicits.
Arguments Event D : clear implicits.
