(* ===== verification/TaskProtocol.v ===== *)
(** The task life cycle that the SQL statements of [TaskTable] implement.

    [row_after] and [row_created] say what one statement does to one row; the
    theorems follow from them by case analysis on the statement.  They are
    about traces in which statements of any number of schedulers, dispatchers
    and recovery passes interleave. *)
From S2P Require Import Prelude Datetime StorageError TaskTable.

Section Protocol.
Context {D : Type} `{DT : Datetime D}.
Implicit Types (t : Tables D) (r : TaskRow D) (now slot : D).

(** ** One statement, one row *)

Lemma tasks_sql_update fr id (P : TaskRow D -> bool) (f : TaskRow D -> TaskRow D) t :
  tasks (sql_update fr id P f t).2 = alter (fun r => if P r then f r else r) id (tasks t).
Proof.
  unfold sql_update. apply map_eq. intros j.
  destruct (decide (j = id)) as [->|Hne].
  - rewrite lookup_alter_eq. destruct (tasks t !! id) as [r|] eqn:E; simpl; [|by rewrite E].
    destruct (P r) eqn:Ep; simpl; [by rewrite lookup_insert_eq|by rewrite E].
  - rewrite lookup_alter_ne by done. destruct (tasks t !! id) as [r|]; [|done].
    destruct (P r); simpl; [by rewrite lookup_insert_ne|done].
Qed.

(** The affected-row count of an update whose new row differs from the old one
    does not depend on the connection flag. *)
Lemma count_sql_update fr id (P : TaskRow D -> bool) (f : TaskRow D -> TaskRow D) t :
  (forall r, P r = true -> f r <> r) ->
  0 < (sql_update fr id P f t).1 <->
  exists r, tasks t !! id = Some r /\ P r = true.
Proof.
  intros Hf. unfold sql_update. destruct (tasks t !! id) as [r|]; simpl.
  - destruct (P r) eqn:Ep; simpl.
    + rewrite bool_decide_eq_false_2 by auto. rewrite orb_true_r. split; [eauto|lia].
    + split; [lia|]. intros (? & [= <-] & ?). congruence.
  - split; [lia|]. intros (? & ? & ?). done.
Qed.

Definition row_update (id : string) (P : TaskRow D -> bool) (f : TaskRow D -> TaskRow D)
    (j : string) (r : TaskRow D) : option (TaskRow D) :=
  if String.eqb id j && P r then Some (f r) else Some r.

Definition idle r : bool := negb (r_status r =? TASK_RUNNING).

Definition bind2 (a b : string) (k : option D -> option D -> option (TaskRow D))
    (dflt : option (TaskRow D)) : option (TaskRow D) :=
  match set_datetime_or_null a, set_datetime_or_null b with
  | Some x, Some y => k x y
  | _, _ => dflt
  end.

Definition row_after now (o : Op) (j : string) r : option (TaskRow D) :=
  match o with
  | OpAdd _ | OpAddHistory _ => Some r
  | OpUpdateDefinition task =>
      bind2 (TaskMeta.next_run_at task) (TaskMeta.last_run_at task) (fun nr lr =>
        row_update (TaskMeta.id task) idle
          (fun r => mkTaskRow (TaskMeta.cron_expr task) (TaskMeta.params task)
                      (TaskMeta.handler task) (TaskMeta.status task) nr lr
                      (TaskMeta.retry_count task) (TaskMeta.max_retries task)
                      (r_current_execution_id r) (r_running_node r) (r_started_at r)
                      (r_created_at r)) j r) (Some r)
  | OpDelete id => if String.eqb id j && idle r then None else Some r
  | OpClaim id e n st nr =>
      if str_empty nr then
        row_update id (fun r => r_status r =? st) (claim_row now e n) j r
      else match dt_parse nr with
        | Some slot => row_update id (fun r => (r_status r =? st) && slot_matches now slot r)
                         (claim_row now e n) j r
        | None => Some r
        end
  | OpRecover id e =>
      row_update id (recover_guard e)
        (fun r => release_row TASK_SCHEDULED (r_next_run_at r) (r_last_run_at r) (r_retry_count r) r) j r
  | OpComplete id e st nr lr rc =>
      bind2 nr lr (fun nr lr => row_update id (complete_guard e) (release_row st nr lr rc) j r) (Some r)
  | OpUpdateSchedule id nr lr rc =>
      bind2 nr lr (fun nr lr => row_update id idle
        (fun r => mkTaskRow (r_cron_expr r) (r_params r) (r_handler r) (r_status r) nr lr
                    rc (r_max_retries r) (r_current_execution_id r) (r_running_node r)
                    (r_started_at r) (r_created_at r)) j r) (Some r)
  | OpUpdateRuntime id st nr lr rc =>
      bind2 nr lr (fun nr lr => row_update id idle (release_row st nr lr rc) j r) (Some r)
  | OpCancel id =>
      row_update id (fun _ => true)
        (fun r => release_row TASK_DISABLED (r_next_run_at r) (r_last_run_at r) (r_retry_count r) r) j r
  end.

Definition row_created now (o : Op) (j : string) : option (TaskRow D) :=
  match o with
  | OpAdd task =>
      if String.eqb (TaskMeta.id task) j then
        match set_datetime_or_null (TaskMeta.next_run_at task) with
        | Some nr =>
            Some (mkTaskRow (TaskMeta.cron_expr task) (TaskMeta.params task) (TaskMeta.handler task)
                   (TaskMeta.status task) nr None (TaskMeta.retry_count task)
                   (TaskMeta.max_retries task) None None None now)
        | None => None
        end
      else None
  | _ => None
  end.

Definition row_next now (o : Op) (j : string) (x : option (TaskRow D)) : option (TaskRow D) :=
  match x with Some r => row_after now o j r | None => row_created now o j end.

Lemma alter_row_update id (P : TaskRow D -> bool) (f : TaskRow D -> TaskRow D) t j :
  alter (fun r => if P r then f r else r) id (tasks t) !! j =
  match tasks t !! j with Some r => row_update id P f j r | None => None end.
Proof.
  unfold row_update. destruct (String.eqb_spec id j) as [->|Hne]; simpl.
  - rewrite lookup_alter_eq. destruct (tasks t !! j) as [r|]; simpl; [|done]. by destruct (P r).
  - rewrite lookup_alter_ne by done. by destruct (tasks t !! j).
Qed.

Lemma lookup_sql_update fr id (P : TaskRow D -> bool) (f : TaskRow D -> TaskRow D) t j :
  tasks (sql_update fr id P f t).2 !! j =
  match tasks t !! j with Some r => row_update id P f j r | None => None end.
Proof. by rewrite tasks_sql_update, alter_row_update. Qed.

Lemma lookup_stmt_add now task t j :
  tasks (stmt_add_task now task t).2 !! j = row_next now (OpAdd task) j (tasks t !! j).
Proof.
  unfold stmt_add_task, row_next, row_created, row_after.
  destruct (set_datetime_or_null _) as [nr|].
  - destruct (String.eqb_spec (TaskMeta.id task) j) as [<-|Hne].
    + destruct (tasks t !! TaskMeta.id task) eqn:E; simpl; [done|]. by rewrite lookup_insert_eq.
    + destruct (tasks t !! TaskMeta.id task) eqn:E; simpl; [by destruct (tasks t !! j)|].
      rewrite lookup_insert_ne by done. by destruct (tasks t !! j).
  - simpl. destruct (tasks t !! j); [done|]. by destruct (String.eqb (TaskMeta.id task) j).
Qed.

Lemma lookup_stmt_delete now id t j :
  tasks (stmt_delete id t).2 !! j = row_next now (OpDelete id) j (tasks t !! j).
Proof.
  unfold stmt_delete, row_next, row_after, row_created, idle.
  destruct (String.eqb_spec id j) as [<-|Hne]; simpl.
  - destruct (tasks t !! id) as [r|] eqn:E; simpl; [|done].
    destruct (negb _); simpl; [apply lookup_delete_eq|done].
  - destruct (tasks t !! id) as [r|] eqn:E; simpl; [|by destruct (tasks t !! j)].
    destruct (negb _); simpl; rewrite ?lookup_delete_ne by done; by destruct (tasks t !! j).
Qed.

(** Every statement acts on each row separately, as [row_next] says. *)
Lemma exec_event_lookup fr now o t j :
  tasks (exec_event t (fr, now, o)) !! j = row_next now o j (tasks t !! j).
Proof.
  unfold exec_event. cbn [fst snd].
  destruct o; cbn [op_stmt];
    first [apply lookup_stmt_add | apply lookup_stmt_delete | idtac];
    unfold row_next, bind2; cbn [row_after row_created]; unfold bind2;
    unfold stmt_add_history, stmt_update_definition, stmt_claim, stmt_recover, stmt_complete,
      stmt_update_schedule, stmt_update_runtime, stmt_cancel, updated, updated_or,
      upd_definition, upd_schedule, upd_runtime, upd_cancel, counted;
    repeat match goal with
      | |- context [set_datetime_or_null ?x] => destruct (set_datetime_or_null x)
      | |- context [str_empty ?x] => destruct (str_empty x)
      | |- context [dt_parse ?x] => destruct (dt_parse x)
      end; cbn [snd tasks];
    try (rewrite lookup_sql_update; reflexivity);
    by destruct (tasks t !! j).
Qed.

Lemma exec_trace_cons ev evs t : exec_trace t (ev :: evs) = exec_trace (exec_event t ev) evs.
Proof. reflexivity. Qed.

(** A property of one row that every event of a class keeps is kept by every
    trace of that class. *)
Lemma exec_trace_row_inv (ok : Event D -> Prop) (P : option (TaskRow D) -> Prop) j evs t :
  (forall fr now o x, ok (fr, now, o) -> P x -> P (row_next now o j x)) ->
  Forall ok evs -> P (tasks t !! j) -> P (tasks (exec_trace t evs) !! j).
Proof.
  intros Hstep Hok. revert t. induction Hok as [|[[fr now] o] evs Ho _ IH]; intros t Ht; [done|].
  rewrite exec_trace_cons. apply IH. rewrite exec_event_lookup. eauto.
Qed.

(** Case analysis on what a statement does to a row. *)
Ltac row_cases :=
  unfold row_next, row_after, row_created, bind2, row_update in *;
  repeat (simpl in *; match goal with
    | x : option (TaskRow D) |- _ => destruct x
    | |- context [set_datetime_or_null ?x] => destruct (set_datetime_or_null x) eqn:?
    | |- context [str_empty ?x] => destruct (str_empty x) eqn:?
    | |- context [dt_parse ?x] => destruct (dt_parse x) eqn:?
    | |- context [if ?b then _ else _] => destruct b eqn:?
    end); simpl in *.

(** ** Well-formed rows

    A row is [RUNNING] exactly when it names the execution, the node and the
    start time that hold it. *)
Definition row_wf r : Prop :=
  (r_status r = TASK_DISABLED \/ r_status r = TASK_SCHEDULED \/ r_status r = TASK_RUNNING) /\
  (is_Some (r_current_execution_id r) <-> r_status r = TASK_RUNNING) /\
  (is_Some (r_running_node r) <-> r_status r = TASK_RUNNING) /\
  (is_Some (r_started_at r) <-> r_status r = TASK_RUNNING).

Definition history_ids (l : list (HistRow D)) : list string := omap h_execution_id l.

Definition tables_wf t : Prop :=
  map_Forall (fun _ => row_wf) (tasks t) /\ NoDup (history_ids (task_history t)).

(** What the callers keep to: a status they write is [DISABLED] or
    [SCHEDULED] ([RUNNING] is written by the claim alone). *)
Definition settled (st : Z) : Prop := st = TASK_DISABLED \/ st = TASK_SCHEDULED.

Definition op_ok (o : Op) : Prop :=
  match o with
  | OpAdd task | OpUpdateDefinition task => settled (TaskMeta.status task)
  | OpClaim _ _ _ st _ => st <> TASK_RUNNING
  | OpComplete _ _ st _ _ _ | OpUpdateRuntime _ st _ _ _ => settled st
  | _ => True
  end.

Lemma row_wf_release st nr lr rc r : settled st -> row_wf r -> row_wf (release_row st nr lr rc r).
Proof.
  intros Hst _. unfold row_wf, release_row, settled, is_Some in *; simpl.
  unfold TASK_DISABLED, TASK_SCHEDULED, TASK_RUNNING in *.
  destruct Hst as [-> | ->]; repeat split; try tauto; try lia; by intros [??].
Qed.

Lemma row_wf_idle r : row_wf r -> idle r = true ->
  r_current_execution_id r = None /\ r_running_node r = None /\ r_started_at r = None.
Proof.
  unfold row_wf, idle. intros (_ & H1 & H2 & H3) Hi. zify_bools.
  rewrite !eq_None_not_Some. tauto.
Qed.

Lemma row_next_wf now o j x : op_ok o ->
  (forall r, x = Some r -> row_wf r) -> forall r, row_next now o j x = Some r -> row_wf r.
Proof.
  intros Ho Hx. destruct o; row_cases; intros r' [= <-]; zify_bools;
    try (by apply Hx); try (apply row_wf_release; [first [done | by left | by right]|by apply Hx]).
  all: try (match goal with Hx : forall r, Some ?r0 = Some r -> _, Hi : idle ?r0 = true |- _ =>
         destruct (row_wf_idle _ (Hx _ eq_refl) Hi) as (-> & -> & ->);
         pose proof (Hx _ eq_refl) as (Hs & _) end).
  all: unfold row_wf, settled, idle, claim_row, TASK_DISABLED, TASK_SCHEDULED, TASK_RUNNING in *; simpl in *; zify_bools.
  all: repeat split; try tauto; try lia; try (by intros [??]); try (intros; by eexists).
Qed.

(** ** History *)

Lemma same_execution_spec e (r : HistRow D) :
  same_execution e r = true <-> exists a, e = Some a /\ h_execution_id r = Some a.
Proof.
  unfold same_execution. split.
  - destruct e as [a|], (h_execution_id r) as [b|]; try done. intros ->%String.eqb_eq. eauto.
  - intros (a & -> & ->). apply String.eqb_refl.
Qed.

Lemma history_ids_overwrite (new : HistRow D) (P : HistRow D -> bool) l :
  history_ids (map (fun old => if P old then overwrite_history new old else old) l) = history_ids l.
Proof.
  unfold history_ids. induction l as [|r l IH]; [done|].
  cbn. destruct (P r); cbn; destruct (h_execution_id r); cbn; first [exact IH | f_equal; exact IH].
Qed.

Lemma history_ids_upsert (new : HistRow D) l :
  NoDup (history_ids l) -> NoDup (history_ids (upsert_history new l)).
Proof.
  intros Hl. unfold upsert_history. destruct (existsb _ _) eqn:E.
  - by rewrite history_ids_overwrite.
  - unfold history_ids in *. rewrite omap_app. simpl.
    destruct (h_execution_id new) as [a|] eqn:Ea; simpl; [|by rewrite app_nil_r].
    apply NoDup_app. split; [done|]. split; [|apply NoDup_singleton].
    intros b Hb Hb'. apply list_elem_of_singleton in Hb' as ->.
    apply list_elem_of_omap in Hb as (r & Hr & Hra).
    apply not_true_iff_false in E. apply E, existsb_exists.
    exists r. split; [by apply list_elem_of_In|]. apply same_execution_spec. eauto.
Qed.

Lemma history_exec_event ev t :
  task_history (exec_event t ev) = task_history t \/
  exists new, task_history (exec_event t ev) = upsert_history new (task_history t).
Proof.
  destruct ev as [[fr now] o]. unfold exec_event. cbn [fst snd].
  destruct o; cbn [op_stmt];
    unfold stmt_add_task, stmt_add_history, stmt_update_definition, stmt_delete, stmt_claim,
      stmt_recover, stmt_complete, stmt_update_schedule, stmt_update_runtime, stmt_cancel,
      updated, updated_or, upd_definition, upd_schedule,
      upd_runtime, upd_cancel, counted, sql_update;
    repeat match goal with
      | |- context [set_datetime_or_null ?x] => destruct (set_datetime_or_null x)
      | |- context [dt_parse ?x] => destruct (dt_parse x)
      | |- context [tasks t !! ?x] => destruct (tasks t !! x)
      | |- context [if ?b then _ else _] => destruct b
      end; simpl; eauto.
Qed.

Lemma exec_event_wf ev t : op_ok ev.2 -> tables_wf t -> tables_wf (exec_event t ev).
Proof.
  destruct ev as [[fr now] o]. intros Ho [Ht Hh]. split.
  - intros j r. rewrite exec_event_lookup. apply row_next_wf; [done|]. apply Ht.
  - destruct (history_exec_event (fr, now, o) t) as [-> | [new ->]]; [done|].
    by apply history_ids_upsert.
Qed.

(** In any interleaving of statements in which callers write only
    [DISABLED] or [SCHEDULED], every task row stays well formed (its status is
    one of the three, and it is [RUNNING] exactly when it carries an execution
    id, a node and a start time), and an execution id occurs in at most one
    history row. *)
Theorem trace_preserves_wf t evs :
  Forall (fun ev => op_ok ev.2) evs -> tables_wf t -> tables_wf (exec_trace t evs).
Proof.
  intros Hok. revert t. induction Hok as [|ev evs Ho _ IH]; intros t Ht; [done|].
  apply IH. by apply exec_event_wf.
Qed.

(** ** Who holds an execution *)

(** The statements that end execution [e] of task [id]. *)
Definition releases (id e : string) (o : Op) : Prop :=
  match o with
  | OpComplete j e' _ _ _ _ | OpRecover j e' => j = id /\ e' = e
  | OpCancel j => j = id
  | _ => False
  end.

Definition holds (e : string) (x : option (TaskRow D)) : Prop :=
  exists r, x = Some r /\ r_status r = TASK_RUNNING /\ r_current_execution_id r = Some e.

#[global] Instance holds_dec e x : Decision (holds e x).
Proof.
  unfold holds. destruct x as [r|]; [|right; by intros (? & ? & _)].
  destruct (decide (r_status r = TASK_RUNNING /\ r_current_execution_id r = Some e)) as [H|H].
  - left. exists r. tauto.
  - right. intros (? & [= <-] & ?). tauto.
Defined.

Lemma row_next_holds now o id e x :
  op_ok o -> ~ releases id e o -> holds e x -> holds e (row_next now o id x).
Proof.
  intros Ho Hr (r & -> & Hs & He).
  destruct o; row_cases; try (exists r; done);
    unfold idle, recover_guard, complete_guard in *; rewrite ?Hs, ?He in *; zify_bools; subst;
    simpl in *; zify_bools; try done; exfalso; naive_solver.
Qed.

(** C2.  While execution [e] holds task [id], no statement of any other
    party takes it away: deletes, edits, reschedules, claims, and completions
    or recoveries of other executions leave it running. *)
Theorem running_execution_is_exclusive t evs id e :
  Forall (fun ev => op_ok ev.2 /\ ~ releases id e ev.2) evs ->
  holds e (tasks t !! id) -> holds e (tasks (exec_trace t evs) !! id).
Proof.
  apply (exec_trace_row_inv _ (holds e)). intros fr now o x [? ?]. by apply row_next_holds.
Qed.

(** ** One claim per scheduled slot *)

(** [text] is a date that the server reads as [slot]. *)
Definition denotes (text : string) slot : Prop := set_datetime_or_null text = Some (Some slot).

(** The statements that put a task back to [SCHEDULED] at [slot], or create it. *)
Definition rearms (id : string) slot (o : Op) : Prop :=
  match o with
  | OpAdd task => TaskMeta.id task = id
  | OpUpdateDefinition task =>
      TaskMeta.id task = id /\ TaskMeta.status task = TASK_SCHEDULED /\
      denotes (TaskMeta.next_run_at task) slot
  | OpRecover j _ => j = id
  | OpComplete j _ st nr _ _ | OpUpdateRuntime j st nr _ _ =>
      j = id /\ st = TASK_SCHEDULED /\ denotes nr slot
  | OpUpdateSchedule j nr _ _ => j = id /\ denotes nr slot
  | _ => False
  end.

(** The row does not offer [slot] to a scheduler. *)
Definition spent slot (x : option (TaskRow D)) : Prop :=
  forall r, x = Some r -> r_status r = TASK_SCHEDULED -> r_next_run_at r <> Some slot.

Lemma row_next_spent now o id slot x :
  ~ rearms id slot o -> spent slot x -> spent slot (row_next now o id x).
Proof.
  intros Hr Hx. destruct o; row_cases; intros r' [= <-] Hs Hn; zify_bools; subst;
    simpl in *; try (exact (Hx _ eq_refl Hs Hn)); unfold denotes in *; simplify_eq; try tauto; congruence.
Qed.

Lemma claim_row_neq now e n r : r_status r <> TASK_RUNNING -> claim_row now e n r <> r.
Proof. intros Hr E. apply Hr. by rewrite <- E. Qed.

(** The result and the effect of a claim, whatever the connection flag. *)
Lemma stmt_claim_slot fr now id e n st nr slot t :
  st <> TASK_RUNNING -> denotes nr slot ->
  stmt_claim fr now id e n st nr t =
  match tasks t !! id with
  | Some r =>
      if (r_status r =? st) && slot_matches now slot r
      then (inr true, set_tasks <[id := claim_row now e n r]> t) else (inr false, t)
  | None => (inr false, t)
  end.
Proof.
  unfold denotes, set_datetime_or_null, stmt_claim. intros Hst.
  destruct (str_empty nr); [done|]. destruct (dt_parse nr) as [d|]; [|done]. intros [= ->].
  unfold updated, sql_update. destruct (tasks t !! id) as [r|]; [|done].
  destruct (r_status r =? st) eqn:E; simpl; [|done]. destruct (slot_matches now slot r); simpl; [|done].
  zify_bools. rewrite bool_decide_eq_false_2 by (apply claim_row_neq; congruence).
  by rewrite orb_true_r.
Qed.

(** After a successful claim the row runs the claimed execution. *)
Lemma claim_holds fr now id e n st nr t :
  op_succeeds (fr, now, OpClaim id e n st nr) t ->
  holds e (tasks (exec_event t (fr, now, OpClaim id e n st nr)) !! id).
Proof.
  unfold op_succeeds, exec_event. cbn [op_stmt fst snd]. unfold stmt_claim.
  assert (H : forall P, (updated (sql_update fr id P (claim_row now e n) t)).1 = inr true ->
            holds e (tasks (updated (sql_update fr id P (claim_row now e n) t)).2 !! id)).
  { intros P. unfold updated, sql_update. destruct (tasks t !! id) as [r|]; [|done].
    destruct (P r); [|done]. intros _. eexists. split; [apply lookup_insert_eq|done]. }
  destruct (str_empty nr); [apply H|]. destruct (dt_parse nr); [apply H|done].
Qed.

(** C1.  A slot is claimed once: after a claim for the occurrence [slot] of a
    task succeeds, no scheduler's claim of the same occurrence succeeds, on any
    clock, until some statement puts the task back to [SCHEDULED] at that
    slot. *)
Theorem slot_is_claimed_once t fr now id e n st nr slot evs fr' now' e' n' nr' :
  st <> TASK_RUNNING -> denotes nr slot -> denotes nr' slot ->
  op_succeeds (fr, now, OpClaim id e n st nr) t ->
  Forall (fun ev => ~ rearms id slot ev.2) evs ->
  (op_stmt fr' now' (OpClaim id e' n' TASK_SCHEDULED nr')
     (exec_trace (exec_event t (fr, now, OpClaim id e n st nr)) evs)).1 = inr false.
Proof.
  intros Hst Hnr Hnr' Hok Hevs.
  assert (Hsp : spent slot (tasks (exec_trace (exec_event t (fr, now, OpClaim id e n st nr)) evs) !! id)).
  { eapply (exec_trace_row_inv _ (spent slot)); [|exact Hevs|].
    - intros ???? Hr. by apply row_next_spent.
    - unfold op_succeeds, exec_event in *. simpl in *.
      rewrite (stmt_claim_slot _ _ _ _ _ _ _ slot) in * by done.
      destruct (tasks t !! id) as [r|]; [|done]. destruct (_ && _); [|done]. simpl.
      rewrite lookup_insert_eq. by intros ? [= <-]. }
  cbn [op_stmt]. rewrite (stmt_claim_slot _ _ _ _ _ _ _ slot) by done.
  destruct (tasks _ !! id) as [r|]; [|done].
  destruct (r_status r =? TASK_SCHEDULED) eqn:E; simpl; [|done]. zify_bools.
  unfold slot_matches. destruct (r_next_run_at r) as [d|] eqn:En; [|done].
  rewrite bool_decide_eq_false_2; [done|]. intros ->. by eapply Hsp.
Qed.

(** ** One release per execution *)

(** The statements that end execution [e] of [id] on behalf of its owner or of
    a recovery pass. *)
Definition ends (id e : string) (o : Op) : Prop :=
  match o with
  | OpComplete j e' _ _ _ _ | OpRecover j e' => j = id /\ e' = e
  | _ => False
  end.

Definition claims (id e : string) (o : Op) : Prop :=
  match o with OpClaim j e' _ _ _ => j = id /\ e' = e | _ => False end.

Lemma row_next_not_holds now o id e x :
  op_ok o -> ~ claims id e o -> ~ holds e x -> ~ holds e (row_next now o id x).
Proof.
  intros Ho Hc Hx. destruct o; row_cases; try exact Hx; intros (r' & [= <-] & Hs & He);
    zify_bools; subst; simpl in *; simplify_eq; try tauto;
    unfold settled, idle, TASK_RUNNING, TASK_DISABLED, TASK_SCHEDULED in *; zify_bools; try lia;
    apply Hx; eexists; done.
Qed.

Lemma recover_guard_true e r : recover_guard e r = true ->
  r_status r = TASK_RUNNING /\ default EmptyString (r_current_execution_id r) = e.
Proof.
  unfold recover_guard. intros H. zify_bools. split; [done|].
  destruct (r_current_execution_id r); zify_bools; [done|]. symmetry. by apply str_empty_true.
Qed.

Lemma complete_guard_true e r : complete_guard e r = true ->
  r_status r = TASK_RUNNING /\ r_current_execution_id r = Some e.
Proof.
  unfold complete_guard. intros H. zify_bools. split; [done|].
  destruct (r_current_execution_id r); zify_bools; congruence.
Qed.

Lemma ends_succeeds fr now o id e t :
  e <> EmptyString -> ends id e o -> op_succeeds (fr, now, o) t -> holds e (tasks t !! id).
Proof.
  unfold op_succeeds, holds. intros He. destruct o; simpl; try done; intros [-> ->];
    unfold stmt_recover, stmt_complete, updated, sql_update.
  all: split_ifs; simpl in *; try done; intros _; eexists; split; try done.
  - apply recover_guard_true in Heqb as [? ?]. destruct (r_current_execution_id _); naive_solver.
  - by apply complete_guard_true.
Qed.

Lemma ends_releases fr now o id e t :
  op_ok o -> ends id e o -> op_succeeds (fr, now, o) t ->
  ~ holds e (tasks (exec_event t (fr, now, o)) !! id).
Proof.
  unfold op_succeeds, exec_event. intros Hok. destruct o; simpl in *; try done; intros [-> ->];
    unfold stmt_recover, stmt_complete, updated, sql_update; split_ifs; simpl; try done; intros _;
    rewrite lookup_insert_eq; by intros (? & [= <-] & ? & ?).
Qed.

(** C4.  An execution ends once: of the completion reported by the node that
    ran it and the recovery passes that judged it stale, at most one takes
    effect, until the same execution id is claimed again. *)
Theorem execution_ends_once t ev evs ev' id e :
  e <> EmptyString -> op_ok ev.2 -> Forall (fun ev => op_ok ev.2 /\ ~ claims id e ev.2) evs ->
  ends id e ev.2 -> ends id e ev'.2 -> op_succeeds ev t ->
  ~ op_succeeds ev' (exec_trace (exec_event t ev) evs).
Proof.
  destruct ev as [[fr now] o], ev' as [[fr' now'] o']. intros He Hok Hevs Ho Ho' Hs Hs'.
  eapply ends_succeeds in Hs'; [|done|exact Ho'].
  eapply (exec_trace_row_inv _ (fun x => ~ holds e x)); [|exact Hevs| |exact Hs'].
  - intros ???? []. by apply row_next_not_holds.
  - by apply ends_releases.
Qed.

(** ** The life cycle *)

Inductive Life := Absent | Disabled | Scheduled | Running (e : string).

Definition settled_life (st : Z) : Life := if st =? TASK_SCHEDULED then Scheduled else Disabled.

Definition life (x : option (TaskRow D)) : Life :=
  match x with
  | None => Absent
  | Some r =>
      if r_status r =? TASK_RUNNING then Running (default EmptyString (r_current_execution_id r))
      else settled_life (r_status r)
  end.

#[local] Arguments life : simpl never.

(** The transitions of one task, by the statement that causes them. *)
Inductive life_step (id : string) : Op -> Life -> Life -> Prop :=
  | life_add task : TaskMeta.id task = id ->
      life_step id (OpAdd task) Absent (settled_life (TaskMeta.status task))
  | life_edit task st : TaskMeta.id task = id -> settled st ->
      life_step id (OpUpdateDefinition task) (settled_life st)
        (settled_life (TaskMeta.status task))
  | life_set st st' nr lr rc : settled st ->
      life_step id (OpUpdateRuntime id st' nr lr rc) (settled_life st) (settled_life st')
  | life_delete st : settled st -> life_step id (OpDelete id) (settled_life st) Absent
  | life_claim e n st nr : settled st ->
      life_step id (OpClaim id e n st nr) (settled_life st) (Running e)
  | life_complete e st nr lr rc :
      life_step id (OpComplete id e st nr lr rc) (Running e) (settled_life st)
  | life_recover e : life_step id (OpRecover id e) (Running e) Scheduled
  | life_cancel a : a <> Absent -> life_step id (OpCancel id) a Disabled.

Lemma life_settled r : row_wf r -> idle r = true ->
  settled (r_status r) /\ life (Some r) = settled_life (r_status r).
Proof.
  unfold row_wf, idle, life, settled. intros (Hs & _) Hi. zify_bools.
  rewrite (proj2 (Z.eqb_neq _ _) Hi). tauto.
Qed.

Lemma life_release st nr lr rc r : settled st -> life (Some (release_row st nr lr rc r)) = settled_life st.
Proof. intros [-> | ->]; done. Qed.

Lemma life_holds e r : r_status r = TASK_RUNNING -> r_current_execution_id r = Some e ->
  life (Some r) = Running e.
Proof. unfold life. by intros -> ->. Qed.

Lemma life_claimable st r : st <> TASK_RUNNING -> row_wf r -> r_status r = st ->
  settled st /\ life (Some r) = settled_life st.
Proof.
  intros Hst Hwf <-. apply life_settled; [done|]. unfold idle. by apply negb_true_iff, Z.eqb_neq.
Qed.

Lemma row_after_simulates now o id r : op_ok o -> row_wf r ->
  let x := row_after now o id r in
  life x = life (Some r) \/ life_step id o (life (Some r)) (life x).
Proof.
  intros Ho Hwf. destruct o; row_cases; try (by left);
    repeat match goal with
      | H : andb _ _ = true |- _ => apply andb_prop in H as [? ?]
      | H : String.eqb _ _ = true |- _ => apply String.eqb_eq in H; subst
      | H : (_ =? _) = true |- _ => apply Z.eqb_eq in H
      end.
  all: try (match goal with H : idle _ = true |- _ =>
         destruct (life_settled _ Hwf H) as [? Hl]; rewrite Hl end).
  all: try (match goal with H : recover_guard _ _ = true |- _ =>
         apply recover_guard_true in H as [Hs He] end).
  all: try (match goal with H : complete_guard _ _ = true |- _ =>
         apply complete_guard_true in H as [Hs He]; rewrite (life_holds _ _ Hs He) end).
  all: try (match goal with H : r_status _ = ?st, Hst : ?st <> _ |- _ =>
         destruct (life_claimable _ _ Hst Hwf H) as [? Hl]; rewrite Hl end).
  all: rewrite ?life_release by (first [done | by left | by right]).
  - (* edit *) right. unfold life at 1. simpl.
    replace (TaskMeta.status task =? TASK_RUNNING) with false; [by constructor|].
    by destruct Ho as [-> | ->].
  - right. by constructor.
  - right. by apply life_claim.
  - right. by apply life_claim.
  - right. unfold life. rewrite Hs, <- He. simpl. apply life_recover.
  - right. apply life_complete.
  - right. by apply life_set.
  - right. apply life_cancel. unfold life, settled_life. by split_ifs.
Qed.

(** C5.  The statements refine the abstract life cycle of a task: on
    well-formed tables each statement moves each task along one transition of
    [life_step] labelled by that statement, or leaves its phase alone. *)
Theorem statements_refine_life_cycle fr now o t id :
  op_ok o -> tables_wf t ->
  let before := life (tasks t !! id) in
  let after := life (tasks (exec_event t (fr, now, o)) !! id) in
  after = before \/ life_step id o before after.
Proof.
  intros Ho [Hwf _]. cbv zeta. rewrite exec_event_lookup. unfold row_next.
  destruct (tasks t !! id) as [r|] eqn:E; [apply row_after_simulates; [done|by eapply Hwf]|].
  destruct o; row_cases; try (by left). zify_bools. right. unfold life. simpl.
  replace (TaskMeta.status task =? TASK_RUNNING) with false; [by constructor|].
  by destruct Ho as [-> | ->].
Qed.

(** ** What a scan returns *)

Lemma dt_key_le_total (a b : option D) : dt_key_le a b = false -> dt_key_le b a = true.
Proof. destruct a, b; simpl; try done. rewrite Z.leb_gt, Z.leb_le. lia. Qed.

Lemma dt_key_le_trans (a b c : option D) :
  dt_key_le a b = true -> dt_key_le b c = true -> dt_key_le a c = true.
Proof. destruct a, b, c; simpl; try done. rewrite !Z.leb_le. lia. Qed.

Lemma due_le_total (a b : string * TaskRow D) : due_le a b = false -> due_le b a = true.
Proof.
  unfold due_le, dt_key_eq.
  destruct (dt_key_le (r_next_run_at a.2) (r_next_run_at b.2)) eqn:E1,
    (dt_key_le (r_next_run_at b.2) (r_next_run_at a.2)) eqn:E2; simpl; try done.
  - rewrite Z.leb_gt, Z.leb_le. lia.
  - by rewrite (dt_key_le_total _ _ E1) in E2.
Qed.

Lemma due_le_trans (a b c : string * TaskRow D) :
  due_le a b = true -> due_le b c = true -> due_le a c = true.
Proof.
  unfold due_le, dt_key_eq.
  destruct (r_next_run_at a.2), (r_next_run_at b.2), (r_next_run_at c.2); simpl; try done;
    split_ifs; rewrite ?andb_true_iff, ?andb_false_iff, ?Z.leb_le, ?Z.leb_gt in *; try lia.
Qed.

(** The rows a [SELECT ... ORDER BY ... LIMIT n] keeps are the first ones. *)
Lemma take_sorted_first {A} (R : A -> A -> Prop) (l : list A) n x y :
  StronglySorted R l -> x ∈ take n l -> y ∈ l -> y ∉ take n l -> R x y.
Proof.
  intros Hs. rewrite <- (take_drop n l) in Hs at 1.
  intros Hx Hy Hn. rewrite <- (take_drop n l) in Hy. apply elem_of_app in Hy as [Hy|Hy]; [done|].
  clear Hn. revert Hs Hx. generalize (take n l). intros k Hs Hx.
  induction k as [|z k IH]; [by apply not_elem_of_nil in Hx|].
  simpl in Hs. apply StronglySorted_inv in Hs as [Hs Hz]. apply elem_of_cons in Hx as [->|Hx]; [|auto].
  rewrite Forall_forall in Hz. apply Hz, elem_of_app. by right.
Qed.

Lemma StronglySorted_take {A} (R : A -> A -> Prop) n (l : list A) :
  StronglySorted R l -> StronglySorted R (take n l).
Proof.
  intros Hs. revert n. induction Hs as [|x l Hs IH Hx]; intros [|n]; simpl; try constructor; auto.
  by apply Forall_take.
Qed.

(** A scan for due tasks returns distinct rows that are [SCHEDULED] and
    due (a [NULL] next run counts as due), as many as the limit allows,
    ordered by next run and creation time; a due row it leaves out comes after
    every row it returns. *)
Theorem scan_returns_first_due now limit t :
  exists rows, query_due now limit t = map (fun x => task_from_result x.1 x.2) rows /\
    NoDup rows.*1 /\
    StronglySorted (fun a b => due_le a b = true) rows /\
    (forall id r, (id, r) ∈ rows -> tasks t !! id = Some r /\ is_due now r = true) /\
    (forall id r, tasks t !! id = Some r -> is_due now r = true ->
       (id, r) ∈ rows \/
       (length rows = Z.to_nat (u32 limit) /\ forall x, x ∈ rows -> due_le x (id, r) = true)).
Proof.
  set (all := filter (fun x : string * TaskRow D => is_due now x.2 = true) (map_to_list (tasks t))).
  set (n := Z.to_nat (u32 limit)).
  assert (Hall : forall id r, (id, r) ∈ all <-> tasks t !! id = Some r /\ is_due now r = true).
  { intros id r. unfold all. rewrite list_elem_of_filter, elem_of_map_to_list. simpl. tauto. }
  assert (Hs : StronglySorted (fun a b => due_le a b = true) (sort_by due_le all))
    by (apply sort_by_sorted; [exact due_le_total|exact due_le_trans]).
  exists (take n (sort_by due_le all)). split; [done|]. split_and!.
  - rewrite fmap_take. apply (NoDup_app _ (drop n (sort_by due_le all).*1)).
    rewrite take_drop. rewrite sort_by_perm. unfold all.
    apply (sublist_NoDup _ (map_to_list (tasks t)).*1); [apply NoDup_fst_map_to_list|].
    apply fmap_sublist, sublist_filter.
  - by apply StronglySorted_take.
  - intros id r Hin. apply Hall, (elem_of_sort_by due_le). apply elem_of_take in Hin as (i & Hi & _).
    by eapply list_elem_of_lookup_2.
  - intros id r Hr Hd. destruct (decide ((id, r) ∈ take n (sort_by due_le all))) as [|Hn]; [by left|].
    assert (Hin : (id, r) ∈ sort_by due_le all) by (apply elem_of_sort_by, Hall; done).
    right. split.
    + rewrite length_take. destruct (Nat.le_gt_cases (length (sort_by due_le all)) n) as [Hle|]; [|lia].
      by rewrite take_ge in Hn by done.
    + intros x Hx. by eapply (take_sorted_first (fun a b => due_le a b = true)).
Qed.
End Protocol.

(** ** A concrete run *)

Module ProtocolExample.

Definition noon : civil := exist _ 1715947200 eq_refl.
Definition one : civil := exist _ 1715950800 eq_refl.
Definition slot_text : string := "2024-05-17 12:00:00".

Definition task : TaskMeta.t :=
  TaskMeta.mk "t1" "0 0 12 * * *" "{}" "backup" TASK_SCHEDULED slot_text EmptyString 0 3
    EmptyString EmptyString EmptyString.

Definition start : Tables civil := exec_trace (mkTables ∅ []) [(true, noon, OpAdd task)].
Definition claim (e n : string) : Event civil := (true, one, OpClaim "t1" e n TASK_SCHEDULED slot_text).
Definition complete (e : string) : Event civil :=
  (true, one, OpComplete "t1" e TASK_SCHEDULED "2024-05-18 12:00:00" "2024-05-17 13:00:00" 0).
Definition running : Tables civil := exec_event start (claim "e1" "node1").

Lemma empty_wf : tables_wf (D := civil) (mkTables ∅ []).
Proof. split; [apply map_Forall_empty|constructor]. Qed.

Lemma start_wf : tables_wf start.
Proof. apply (exec_event_wf (true, noon, OpAdd task)); [by right|]. apply empty_wf. Qed.

Lemma trace_preserves_wf_witness : tables_wf (exec_trace start [claim "e1" "node1"; complete "e1"]).
Proof.
  apply trace_preserves_wf; [|apply start_wf].
  apply Forall_cons; split; [done|]. apply Forall_cons; split; [by right|done].
Defined.

Lemma running_execution_is_exclusive_witness :
  holds "e1" (tasks (exec_trace running [claim "e2" "node2"; (true, one, OpDelete "t1")]) !! "t1").
Proof.
  apply running_execution_is_exclusive.
  - apply Forall_cons; split; [by split; [|intros []]|]. apply Forall_cons; split; [|done].
    by split; [|intros []].
  - apply (bool_decide_unpack _). vm_compute. exact I.
Defined.

Lemma slot_is_claimed_once_witness :
  (op_stmt true one (OpClaim "t1" "e2" "node2" TASK_SCHEDULED slot_text)
     (exec_trace (exec_event start (claim "e1" "node1")) [(true, one, OpCancel "t1")])).1 = inr false.
Proof.
  apply (slot_is_claimed_once start true one "t1" "e1" "node1" TASK_SCHEDULED slot_text noon).
  - done.
  - reflexivity.
  - reflexivity.
  - vm_compute. reflexivity.
  - apply Forall_cons; split; [intros []|done].
Defined.

Lemma execution_ends_once_witness :
  ~ op_succeeds (true, one, OpRecover "t1" "e1")
      (exec_trace (exec_event running (complete "e1")) [claim "e2" "node2"]).
Proof.
  apply (execution_ends_once running (complete "e1") _ (true, one, OpRecover "t1" "e1") "t1" "e1").
  - done.
  - by right.
  - apply Forall_cons; split; [|done]. split; [done|]. by intros [_ ?].
  - done.
  - done.
  - vm_compute. reflexivity.
Defined.

Lemma statements_refine_life_cycle_witness :
  let after := life (tasks (exec_event start (claim "e1" "node1")) !! "t1") in
  after = Scheduled \/ life_step "t1" (claim "e1" "node1").2 Scheduled after.
Proof.
  apply (statements_refine_life_cycle true one (claim "e1" "node1").2 start "t1").
  - done.
  - apply start_wf.
Defined.

End ProtocolExample.
