(* ===== verification/MySQLClient.v ===== *)
(** [MySQLClient]: the connection pool, the error bookkeeping and the methods of
    [src/mysql/mysql_client.cpp], each of which runs statements of [TaskTable].

    The driver, the network and the other clients of the database are outside
    the program.  Call number [k] of the driver is answered by [driver k]: what
    other clients executed since the previous call, the server's [NOW()], and
    whether the call succeeds, fails before it reaches the server, or is
    executed with its reply lost.  Theorems hold for every [driver]. *)
From S2P Require Import Prelude Datetime StorageError TaskTable TaskProtocol.

Section MySQL.
Context {D : Type} `{DT : Datetime D}.

Inductive Answer :=
  | Ok
  | Fail (e : SQLException)
  | Lost (e : SQLException).

Record Tick := mkTick {
  tk_now : D;
  tk_others : list (Event D);
  tk_closed : SQLException + bool;   (* what [isClosed] answers *)
  tk_answer : Answer                 (* how any other call ends *)
}.

(** [CLIENT_FOUND_ROWS] of the connections, and the driver's answers. *)
Context (found_rows : bool) (driver : nat -> Tick).

Record MySQLClientOptions := mkMySQLClientOptions {
  my_pool_size : Z;
  my_connect_timeout_sec : Z;
  my_read_timeout_sec : Z;
  my_write_timeout_sec : Z;
  my_reconnect : bool
}.

(** The part of [information_schema] that [ensureSchema] looks at. *)
Record Schema := mkSchema {
  columns : gset (string * string);
  indexes : gset (string * string);
  has_table : gset string
}.

(** A pool slot: no connection, or one whose session time zone was set or not. *)
Definition Slot : Type := option bool.

Record Db := mkDb {
  db_tables : Tables D;
  db_schema : Schema;
  db_clock : nat;              (* driver calls made so far *)
  db_options : MySQLClientOptions;
  db_slots : list Slot;
  db_next_slot : Z;
  db_last_error : StorageError
}.

Definition normalize_options (o : MySQLClientOptions) : MySQLClientOptions := {|
  my_pool_size := if my_pool_size o =? 0 then 1 else my_pool_size o;
  my_connect_timeout_sec := if my_connect_timeout_sec o <=? 0 then 3 else my_connect_timeout_sec o;
  my_read_timeout_sec := if my_read_timeout_sec o <=? 0 then 5 else my_read_timeout_sec o;
  my_write_timeout_sec := if my_write_timeout_sec o <=? 0 then 5 else my_write_timeout_sec o;
  my_reconnect := my_reconnect o
|}.

Definition new_client (t : Tables D) (s : Schema) (o : MySQLClientOptions) : Db :=
  mkDb t s 0 (normalize_options o) [] 0 no_error.

Definition set_tables (t : Tables D) (d : Db) : Db :=
  mkDb t (db_schema d) (db_clock d) (db_options d) (db_slots d) (db_next_slot d) (db_last_error d).
Definition set_schema (s : Schema) (d : Db) : Db :=
  mkDb (db_tables d) s (db_clock d) (db_options d) (db_slots d) (db_next_slot d) (db_last_error d).
Definition set_slots (l : list Slot) (d : Db) : Db :=
  mkDb (db_tables d) (db_schema d) (db_clock d) (db_options d) l (db_next_slot d) (db_last_error d).
Definition set_next_slot (n : Z) (d : Db) : Db :=
  mkDb (db_tables d) (db_schema d) (db_clock d) (db_options d) (db_slots d) n (db_last_error d).
Definition set_error (e : StorageError) (d : Db) : Db :=
  mkDb (db_tables d) (db_schema d) (db_clock d) (db_options d) (db_slots d) (db_next_slot d) e.

(** The database as driver call [db_clock d] finds it. *)
Definition advance (d : Db) : Db :=
  mkDb (exec_trace (db_tables d) (tk_others (driver (db_clock d)))) (db_schema d)
    (S (db_clock d)) (db_options d) (db_slots d) (db_next_slot d) (db_last_error d).

(** Computations that may throw [sql::SQLException]. *)
Definition X (A : Type) : Type := M Db (SQLException + A).

Definition retX {A} (a : A) : X A := fun d => (inr a, d).
Definition bindX {A B} (m : X A) (k : A -> X B) : X B := fun d =>
  match m d with
  | (inl e, d') => (inl e, d')
  | (inr a, d') => k a d'
  end.

(** ** Driver calls *)

Definition sql_call {A} (f : D -> Db -> (SQLException + A) * Db) : X A := fun d =>
  let tk := driver (db_clock d) in
  let d := advance d in
  match tk_answer tk with
  | Ok => f (tk_now tk) d
  | Fail e => (inl e, d)
  | Lost e => (inl e, (f (tk_now tk) d).2)
  end.

Definition is_closed : X bool := fun d => (tk_closed (driver (db_clock d)), advance d).

(** A call that touches neither the tables nor the schema. *)
Definition side_call : X () := sql_call (fun _ d => (inr (), d)).

(** Run a statement of [TaskTable]. *)
Definition run_stmt {A} (s : D -> Stmt D A) : X A :=
  sql_call (fun now d => let '(r, t) := s now (db_tables d) in (r, set_tables t d)).

Definition run_query {A} (q : D -> Tables D -> A) : X A :=
  run_stmt (fun now t => (inr (q now t), t)).

Definition run_ddl (f : Schema -> Schema) : X () :=
  sql_call (fun _ d => (inr (), set_schema (f (db_schema d)) d)).

Definition run_schema_query {A} (q : Schema -> A) : X A :=
  sql_call (fun _ d => (inr (q (db_schema d)), d)).

(** ** Errors *)

Definition setLastError (kind : StorageErrorKind) (code : Z) (message : string) : M Db () :=
  modify (set_error (mkStorageError kind code message)).

Definition recordSqlError (e : SQLException) : M Db () :=
  setLastError (classify_sql_error e) (ex_code e) (ex_what e).

Definition lastError : M Db StorageError := gets db_last_error.

(** [try { return m; } catch (sql::SQLException& e) { recordSqlError(...); return dflt; }] *)
Definition try_sql {A} (dflt : A) (m : X A) : M Db A := fun d =>
  match m d with
  | (inr a, d') => (a, d')
  | (inl e, d') => (dflt, (recordSqlError e d').2)
  end.

(** ** Schema *)

Definition columnExists (table column : string) : X bool :=
  run_schema_query (fun s => bool_decide ((table, column) ∈ columns s)).
Definition indexExists (table index : string) : X bool :=
  run_schema_query (fun s => bool_decide ((table, index) ∈ indexes s)).

Definition tasks_columns : list string :=
  ["id"; "cron_expr"; "params"; "handler"; "status"; "next_run_at"; "last_run_at"; "retry_count";
   "max_retries"; "current_execution_id"; "running_node"; "started_at"; "created_at"; "updated_at"].
Definition history_columns : list string :=
  ["id"; "execution_id"; "task_id"; "exec_node"; "success"; "result"; "error"; "start_time"; "end_time"].

(** [CREATE TABLE IF NOT EXISTS] *)
Definition create_table (name : string) (cols idxs : list string) (s : Schema) : Schema :=
  if bool_decide (name ∈ has_table s) then s
  else mkSchema (list_to_set (pair name <$> cols) ∪ columns s)
         (list_to_set (pair name <$> idxs) ∪ indexes s) ({[name]} ∪ has_table s).

Definition add_column (table column : string) (s : Schema) : Schema :=
  mkSchema ({[(table, column)]} ∪ columns s) (indexes s) (has_table s).
Definition add_index (table index : string) (s : Schema) : Schema :=
  mkSchema (columns s) ({[(table, index)]} ∪ indexes s) (has_table s).

Definition ensure_column (table column : string) : X () :=
  bindX (columnExists table column) (fun there =>
  if there then retX () else run_ddl (add_column table column)).
Definition ensure_index (table index : string) : X () :=
  bindX (indexExists table index) (fun there =>
  if there then retX () else run_ddl (add_index table index)).

(** The columns and indexes [ensureSchema] adds to tables of older versions. *)
Definition migrated_columns : list (string * string) :=
  [("tasks", "next_run_at"); ("tasks", "last_run_at"); ("tasks", "retry_count");
   ("tasks", "max_retries"); ("tasks", "current_execution_id"); ("tasks", "running_node");
   ("tasks", "started_at"); ("task_history", "execution_id"); ("task_history", "success")].
Definition migrated_indexes : list (string * string) :=
  [("task_history", "uk_task_history_execution_id"); ("tasks", "idx_tasks_status_started_at")].

Fixpoint xfor {A} (f : A -> X ()) (l : list A) : X () :=
  match l with [] => retX () | a :: l' => bindX (f a) (fun _ => xfor f l') end.

Definition ensureSchema : M Db bool :=
  try_sql false (
    bindX (run_ddl (create_table "tasks" tasks_columns
      ["PRIMARY"; "idx_tasks_status_next_run"; "idx_tasks_status_started_at"])) (fun _ =>
    bindX (run_ddl (create_table "task_history" history_columns
      ["PRIMARY"; "uk_task_history_execution_id"; "idx_task_history_task_id";
       "idx_task_history_start_time"])) (fun _ =>
    bindX (xfor (fun c => ensure_column c.1 c.2) migrated_columns) (fun _ =>
    bindX (xfor (fun i => ensure_index i.1 i.2) migrated_indexes) (fun _ =>
    retX true))))).

(** ** Connections *)

(** A slot's connection is replaced; an exception of [SET time_zone] leaves the
    new connection in the slot. *)
Definition connectSlotLocked (slot : Slot) : M Db (bool * Slot) := fun d =>
  let d := match slot with
           | Some _ => (try_sql () side_call d).2     (* close *)
           | None => d
           end in
  match side_call d with                              (* driver_->connect *)
  | (inl e, d) => ((false, None), (recordSqlError e d).2)
  | (inr _, d) =>
      match side_call d with                          (* SET time_zone *)
      | (inl e, d) => ((false, Some false), (recordSqlError e d).2)
      | (inr _, d) => ((true, Some true), (setLastError EK_None 0 EmptyString d).2)
      end
  end.

Fixpoint connect_slots (n : nat) : M Db bool :=
  match n with
  | O => retM true
  | S n' =>
      let* r := connectSlotLocked None in
      if r.1 then modify (fun d => set_slots (db_slots d ++ [r.2]) d) ;;* connect_slots n'
      else modify (set_slots []) ;;* retM false
  end.

Definition connectUnlocked : M Db bool := fun d =>
  match side_call (set_slots [] d) with               (* get_mysql_driver_instance *)
  | (inl e, d) => (false, (recordSqlError e d).2)
  | (inr _, d) =>
      let '(ok, d) := connect_slots (Z.to_nat (my_pool_size (db_options d))) d in
      if ok then
        match db_slots d with
        | Some _ :: _ =>
            let '(ok, d) := ensureSchema d in
            if ok then (true, (setLastError EK_None 0 EmptyString d).2) else (false, d)
        | _ => (false, d)
        end
      else (false, d)
  end.

Definition connect : M Db bool := connectUnlocked.

Fixpoint close_slots (l : list Slot) : M Db (list Slot) :=
  match l with
  | [] => retM []
  | Some _ :: l' =>
      try_sql () side_call ;;* let* r := close_slots l' in retM (None :: r)
  | None :: l' => let* r := close_slots l' in retM (None :: r)
  end.

Definition disconnect : M Db () :=
  let* l := gets db_slots in let* l' := close_slots l in modify (set_slots l').

Definition ensureConnected (slot : Slot) : M Db (bool * Slot) := fun d =>
  match slot with
  | Some _ =>
      match is_closed d with
      | (inr false, d) => ((true, slot), d)
      | (inr true, d) => connectSlotLocked slot d
      | (inl e, d) => connectSlotLocked slot (recordSqlError e d).2
      end
  | None => connectSlotLocked slot d
  end.

(** The lease is the index of the slot whose mutex is held, if its connection
    is usable. *)
Definition lease_slot : M Db (option nat) := fun d =>
  let index := Z.to_nat (u64 (db_next_slot d) mod Z.of_nat (length (db_slots d))) in
  let d := set_next_slot (u64 (db_next_slot d + 1)) d in
  let '((ok, slot'), d) := ensureConnected (default None (db_slots d !! index)) d in
  let d := set_slots (<[index := slot']> (db_slots d)) d in
  ((if ok then Some index else None), d).

Definition acquireConnection : M Db (option nat) := fun d =>
  match db_slots d with
  | [] =>
      let '(ok, d) := connectUnlocked d in
      if ok then lease_slot d else (None, d)
  | _ => lease_slot d
  end.

(** [auto lease = acquireConnection(); if (!lease.valid()) return dflt; try ...] *)
Definition with_lease {A} (dflt : A) (m : X A) : M Db A :=
  let* lease := acquireConnection in
  match lease with
  | None => retM dflt
  | Some _ => try_sql dflt m
  end.

(** ** Methods that write *)

Definition run_update (s : D -> Stmt D Z) (check : Tables D -> bool) : X bool :=
  bindX (run_stmt s) (fun n =>
  if 0 <? n then retX true else run_query (fun _ => check)).

Definition addTask (task : TaskMeta.t) : M Db bool :=
  with_lease false (run_stmt (fun now => stmt_add_task now task)).

Definition updateTaskDefinition (task : TaskMeta.t) : M Db bool :=
  with_lease false (run_update (fun _ => upd_definition found_rows task)
                      (task_exists_and_is_not_running (TaskMeta.id task))).

Definition deleteTask (id : string) : M Db bool :=
  with_lease false (run_stmt (fun _ => stmt_delete id)).

Definition addHistory (history : TaskHistory.t) : M Db bool :=
  with_lease false (run_stmt (fun _ => stmt_add_history history)).

Definition claimTaskExecution (id execution_id node_id : string) (expected_status : Z)
    (expected_next_run_at : string) : M Db bool :=
  with_lease false (run_stmt (fun now =>
    stmt_claim found_rows now id execution_id node_id expected_status expected_next_run_at)).

Definition recoverTaskExecution (id execution_id : string) : M Db bool :=
  with_lease false (run_stmt (fun _ => stmt_recover found_rows id execution_id)).

Definition completeTaskExecution (id execution_id : string) (status : Z)
    (next_run_at last_run_at : string) (retry_count : Z) : M Db bool :=
  with_lease false (run_stmt (fun _ =>
    stmt_complete found_rows id execution_id status next_run_at last_run_at retry_count)).

Definition updateTaskSchedule (id next_run_at last_run_at : string) (retry_count : Z) : M Db bool :=
  with_lease false (run_update (fun _ => upd_schedule found_rows id next_run_at last_run_at retry_count)
                      (task_exists_and_is_not_running id)).

Definition updateTaskRuntime (id : string) (status : Z) (next_run_at last_run_at : string)
    (retry_count : Z) : M Db bool :=
  with_lease false (run_update (fun _ => upd_runtime found_rows id status next_run_at last_run_at retry_count)
                      (task_exists_and_is_not_running id)).

Definition cancelTask (id : string) : M Db bool :=
  with_lease false (run_update (fun _ => upd_cancel found_rows id) (task_exists id)).

(** ** Methods that read *)

Definition getTask (id : string) : M Db (option TaskMeta.t) :=
  with_lease None (run_query (fun _ => query_task id)).

Definition getLatestHistory (task_id : string) : M Db (option TaskHistory.t) :=
  with_lease None (run_query (fun _ t => head (query_latest task_id t))).

Section Lists.
Context (like : string -> string -> bool).

(** The count and the page are two statements; when the second one fails the
    page keeps the total of the first. *)
Definition paged {A} (total : D -> Tables D -> Z) (items : D -> Tables D -> list A)
    : M Db (list A * Z) :=
  let* lease := acquireConnection in
  match lease with
  | None => retM ([], 0)
  | Some _ =>
      let* n := try_sql None (run_query (fun now t => Some (total now t))) in
      match n with
      | None => retM ([], 0)
      | Some n => let* l := try_sql [] (run_query items) in retM (l, n)
      end
  end.

Definition listTasks (query : TaskQuery.t) : M Db (list TaskMeta.t * Z) :=
  paged (fun _ t => (query_tasks like query t).2) (fun _ t => (query_tasks like query t).1).

Definition listHistory (query : HistoryQuery.t) : M Db (list TaskHistory.t * Z) :=
  paged (fun _ t => (query_histories like query t).2) (fun _ t => (query_histories like query t).1).
End Lists.

Definition getHistory (task_id : string) (limit : Z) : M Db (list TaskHistory.t) :=
  with_lease [] (run_query (fun _ => query_history task_id limit)).

Definition getAllTasks : M Db (list TaskMeta.t) :=
  with_lease [] (run_query (fun _ => query_where (fun _ => true))).

Definition getEnabledTasks : M Db (list TaskMeta.t) :=
  with_lease [] (run_query (fun _ => query_where (fun r => r_status r =? 1))).

Definition getDueTasks (limit : Z) : M Db (list TaskMeta.t) :=
  with_lease [] (run_query (fun now => query_due now limit)).

Definition getStaleRunningTasks (stale_after_sec limit : Z) : M Db (list TaskMeta.t) :=
  with_lease [] (run_query (fun now => query_stale now stale_after_sec limit)).

Definition historyCount (task_id : string) : M Db Z :=
  with_lease 0 (run_query (fun _ => history_count task_id)).


(** ** What a call does to the tables *)

(** The statements of other clients seen by driver calls [a .. b-1]. *)
Definition interference (a b : nat) : list (Event D) :=
  concat (map (fun k => tk_others (driver k)) (seq a (b - a))).

Lemma interference_refl a : interference a a = [].
Proof. unfold interference. by rewrite Nat.sub_diag. Qed.

Lemma interference_trans a b c : (a <= b)%nat -> (b <= c)%nat ->
  interference a b ++ interference b c = interference a c.
Proof.
  intros H1 H2. unfold interference. rewrite <- concat_app, <- map_app.
  replace (c - a)%nat with ((b - a) + (c - b))%nat by lia. rewrite seq_app.
  by replace (a + (b - a))%nat with b by lia.
Qed.

Lemma interference_S a : interference a (S a) = tk_others (driver a).
Proof. unfold interference. replace (S a - a)%nat with 1%nat by lia. simpl. apply app_nil_r. Qed.

Lemma exec_trace_app (t : Tables D) l k : exec_trace t (l ++ k) = exec_trace (exec_trace t l) k.
Proof. apply foldl_app. Qed.

(** [d'] follows [d] with nothing but other clients' statements in between. *)
Definition quiet (d d' : Db) : Prop :=
  (db_clock d <= db_clock d')%nat /\
  db_tables d' = exec_trace (db_tables d) (interference (db_clock d) (db_clock d')).

#[local] Instance quiet_refl : Reflexive quiet.
Proof. intros d. split; [done|]. by rewrite interference_refl. Qed.

#[local] Instance quiet_trans : Transitive quiet.
Proof.
  intros a b c [H1 E1] [H2 E2]. split; [lia|].
  rewrite E2, E1, <- exec_trace_app. by rewrite interference_trans.
Qed.

(** Fields other than the tables and the clock do not matter. *)
Lemma quiet_same d d1 d2 :
  db_tables d1 = db_tables d2 -> db_clock d1 = db_clock d2 -> quiet d d1 -> quiet d d2.
Proof. unfold quiet. by intros <- <-. Qed.

Lemma quiet_advance d : quiet d (advance d).
Proof. split; simpl; [lia|]. by rewrite interference_S. Qed.

Lemma quiet_sql_call {A} (f : D -> Db -> (SQLException + A) * Db) d :
  (forall now d, db_tables (f now d).2 = db_tables d /\ db_clock (f now d).2 = db_clock d) ->
  quiet d (sql_call f d).2.
Proof.
  intros Hf. unfold sql_call. pose proof (quiet_advance d) as Hq.
  destruct (tk_answer _); simpl; [|done|];
    (eapply quiet_same; [| |exact Hq]); symmetry; apply Hf.
Qed.

Lemma quiet_side_call d : quiet d (side_call d).2.
Proof. by apply quiet_sql_call. Qed.

Lemma quiet_try {A} (dflt : A) (m : X A) d : quiet d (m d).2 -> quiet d (try_sql dflt m d).2.
Proof. unfold try_sql. by destruct (m d) as [[e|a] d']. Qed.

Lemma quiet_bindX {A B} (m : X A) (k : A -> X B) d :
  quiet d (m d).2 -> (forall a d, quiet d (k a d).2) -> quiet d (bindX m k d).2.
Proof.
  intros Hm Hk. unfold bindX. destruct (m d) as [[e|a] d']; simpl in *; [done|]. by etrans.
Qed.

Lemma quiet_query {A} (q : D -> Tables D -> A) d : quiet d (run_query q d).2.
Proof. apply quiet_sql_call. by intros now []. Qed.

Lemma quiet_xfor {A} (f : A -> X ()) l d :
  (forall a d, quiet d (f a d).2) -> quiet d (xfor f l d).2.
Proof.
  intros Hf. revert d. induction l as [|a l IH]; intros d; simpl; [done|].
  apply quiet_bindX; [apply Hf|]. intros _. apply IH.
Qed.

Lemma quiet_ensure (q : Schema -> bool) (f : Schema -> Schema) d :
  quiet d (bindX (run_schema_query q) (fun b => if b then retX () else run_ddl f) d).2.
Proof.
  apply quiet_bindX; [by apply quiet_sql_call|]. intros [] d'; [done|]. by apply quiet_sql_call.
Qed.

Lemma quiet_ddl f d : quiet d (run_ddl f d).2.
Proof. by apply quiet_sql_call. Qed.

Lemma quiet_ensureSchema d : quiet d (ensureSchema d).2.
Proof.
  apply quiet_try.
  do 2 (apply quiet_bindX; [apply quiet_ddl|intros _ ?]).
  do 2 (apply quiet_bindX; [apply quiet_xfor; intros ? ?; apply quiet_ensure|intros _ ?]).
  reflexivity.
Qed.

Lemma quiet_step d d' d'' : quiet d d' -> quiet d' d'' -> quiet d d''.
Proof. apply quiet_trans. Qed.

Lemma quiet_connectSlot slot d : quiet d (connectSlotLocked slot d).2.
Proof.
  unfold connectSlotLocked. apply (quiet_step _ (match slot with
    | Some _ => (try_sql () side_call d).2 | None => d end)).
  { destruct slot; [apply quiet_try, quiet_side_call|done]. }
  generalize (match slot with Some _ => (try_sql () side_call d).2 | None => d end). intros d0.
  pose proof (quiet_side_call d0) as H. destruct (side_call d0) as [[e|] d1]; simpl in *; [done|].
  apply (quiet_step _ _ _ H). pose proof (quiet_side_call d1) as H1.
  by destruct (side_call d1) as [[e|] d2].
Qed.

Lemma quiet_connect_slots n d : quiet d (connect_slots n d).2.
Proof.
  revert d. induction n as [|n IH]; intros d; simpl; [done|]. unfold bindM.
  pose proof (quiet_connectSlot None d) as H. destruct (connectSlotLocked None d) as [[[] s] d1]; simpl in *.
  - apply (quiet_step _ (set_slots (db_slots d1 ++ [s]) d1)); [done|]. apply IH.
  - done.
Qed.

Lemma quiet_connectUnlocked d : quiet d (connectUnlocked d).2.
Proof.
  unfold connectUnlocked. pose proof (quiet_side_call (set_slots [] d)) as H.
  destruct (side_call _) as [[e|] d1]; simpl in *; [done|].
  apply (quiet_step _ d1); [done|].
  pose proof (quiet_connect_slots (Z.to_nat (my_pool_size (db_options d1))) d1) as H1.
  destruct (connect_slots _ d1) as [[] d2]; simpl in *; [|done].
  destruct (db_slots d2) as [|[]]; try done.
  apply (quiet_step _ _ _ H1). pose proof (quiet_ensureSchema d2) as H2.
  by destruct (ensureSchema d2) as [[] d3].
Qed.

Lemma quiet_ensureConnected slot d : quiet d (ensureConnected slot d).2.
Proof.
  unfold ensureConnected. destruct slot; [|apply quiet_connectSlot]. unfold is_closed.
  pose proof (quiet_advance d) as H.
  destruct (tk_closed _) as [e|[]]; [| |done]; (eapply quiet_step; [|apply quiet_connectSlot]); done.
Qed.

Lemma quiet_acquire d : quiet d (acquireConnection d).2.
Proof.
  assert (Hl : forall d, quiet d (lease_slot d).2).
  { intros d0. unfold lease_slot.
    match goal with |- context [ensureConnected ?s ?x] =>
      pose proof (quiet_ensureConnected s x) as H; destruct (ensureConnected s x) as [[ok slot'] d1] end.
    eapply quiet_same; [| |exact H]; done. }
  unfold acquireConnection. destruct (db_slots d); [|apply Hl].
  pose proof (quiet_connectUnlocked d) as H. destruct (connectUnlocked d) as [[] d1]; [|done].
  by eapply quiet_step.
Qed.

(** ** Failures are recorded *)

Definition failed (d : Db) : Prop := err_kind (db_last_error d) <> EK_None.

Lemma failed_record e d : failed (recordSqlError e d).2.
Proof. apply classify_sql_error_not_none. Qed.

Lemma failed_try {A} (dflt : A) (m : X A) d :
  match m d with
  | (inr a, d') => try_sql dflt m d = (a, d')
  | (inl _, d1) => exists d', try_sql dflt m d = (dflt, d') /\ failed d' /\ quiet d1 d' /\
                     db_tables d' = db_tables d1
  end.
Proof.
  unfold try_sql. destruct (m d) as [[e|a] d']; [|done]. eexists. split; [done|].
  split; [apply failed_record|]. split; [exact (quiet_refl d')|done].
Qed.

Lemma connectSlot_result slot d :
  match connectSlotLocked slot d with
  | ((true, slot'), _) => slot' = Some true
  | ((false, _), d') => failed d'
  end.
Proof.
  unfold connectSlotLocked. destruct (side_call _) as [[e|] d1]; [apply failed_record|].
  destruct (side_call d1) as [[e|] d2]; [apply failed_record|done].
Qed.

Lemma side_call_fields d :
  db_slots (side_call d).2 = db_slots d /\ db_options (side_call d).2 = db_options d.
Proof. unfold side_call, sql_call. by destruct (tk_answer _). Qed.

Lemma connectSlot_fields slot d :
  db_slots (connectSlotLocked slot d).2 = db_slots d /\
  db_options (connectSlotLocked slot d).2 = db_options d.
Proof.
  unfold connectSlotLocked.
  set (d0 := match slot with Some _ => _ | None => _ end).
  assert (db_slots d0 = db_slots d /\ db_options d0 = db_options d) as [<- <-].
  { subst d0. destruct slot; [|done]. unfold try_sql. pose proof (side_call_fields d) as H.
    by destruct (side_call d) as [[] ?]. }
  pose proof (side_call_fields d0) as H1. destruct (side_call d0) as [[e|] d1]; [done|].
  pose proof (side_call_fields d1) as H2. simpl in *. destruct H1 as [<- <-].
  by destruct (side_call d1) as [[e|] d2].
Qed.

Lemma connect_slots_result n d :
  match connect_slots n d with
  | (true, d') => db_slots d' = db_slots d ++ replicate n (Some true)
  | (false, d') => failed d'
  end.
Proof.
  revert d. induction n as [|n IH]; intros d; simpl; [by rewrite app_nil_r|]. unfold bindM.
  pose proof (connectSlot_result None d) as H. pose proof (connectSlot_fields None d) as [Hf _].
  destruct (connectSlotLocked None d) as [[[] s] d1]; simpl in *; [|done].
  specialize (IH (set_slots (db_slots d1 ++ [s]) d1)).
  destruct (connect_slots n _) as [[] d2]; [|done]. rewrite IH. simpl. by rewrite Hf, H, <- app_assoc.
Qed.

Definition pooled (d : Db) : Prop := 0 < my_pool_size (db_options d).

Lemma connectUnlocked_result d : pooled d ->
  match connectUnlocked d with
  | (true, _) => True
  | (false, d') => failed d'
  end.
Proof.
  intros Hp. unfold connectUnlocked. pose proof (side_call_fields (set_slots [] d)) as [Hs Ho].
  destruct (side_call _) as [[e|] d1]; [apply failed_record|]. simpl in Hs, Ho.
  unfold pooled in Hp. rewrite <- Ho in Hp.
  pose proof (connect_slots_result (Z.to_nat (my_pool_size (db_options d1))) d1) as H.
  destruct (connect_slots _ d1) as [[] d2]; [|done]. rewrite H, Hs. simpl.
  destruct (Z.to_nat _) as [|k] eqn:Ek; [lia|]. simpl.
  unfold ensureSchema. match goal with |- context [try_sql false ?m d2] =>
    pose proof (failed_try false m d2) as Ht; destruct (m d2) as [[e|b] d3] eqn:Em end.
  - by destruct Ht as (d4 & -> & ? & _).
  - rewrite Ht. destruct b; [done|]. revert Em. unfold bindX.
    repeat match goal with |- context [match ?x with _ => _ end] => destruct x; try done end.
Qed.

Lemma acquire_fails d : pooled d ->
  match acquireConnection d with (None, d') => failed d' | _ => True end.
Proof.
  intros Hp.
  assert (Hc : forall s d, match connectSlotLocked s d with ((false, _), d') => failed d' | _ => True end).
  { intros s d0. pose proof (connectSlot_result s d0). by destruct (connectSlotLocked s d0) as [[[] ?] ?]. }
  assert (He : forall s d, match ensureConnected s d with ((false, _), d') => failed d' | _ => True end).
  { intros s d0. unfold ensureConnected. destruct s; [|apply Hc]. unfold is_closed.
    destruct (tk_closed _) as [e|[]]; [apply Hc|apply Hc|done]. }
  assert (Hl : forall d, match lease_slot d with (None, d') => failed d' | _ => True end).
  { intros d0. unfold lease_slot. match goal with |- context [ensureConnected ?s ?x] =>
      pose proof (He s x) as H; by destruct (ensureConnected s x) as [[[] slot'] d1] end. }
  unfold acquireConnection. destruct (db_slots d); [|apply Hl].
  pose proof (connectUnlocked_result d Hp) as H. destruct (connectUnlocked d) as [[] d1]; [apply Hl|done].
Qed.

(** ** The methods against the statements *)

Definition write_call (o : Op) : M Db bool :=
  match o with
  | OpAdd task => addTask task
  | OpUpdateDefinition task => updateTaskDefinition task
  | OpDelete id => deleteTask id
  | OpClaim id e n st nr => claimTaskExecution id e n st nr
  | OpRecover id e => recoverTaskExecution id e
  | OpComplete id e st nr lr rc => completeTaskExecution id e st nr lr rc
  | OpUpdateSchedule id nr lr rc => updateTaskSchedule id nr lr rc
  | OpUpdateRuntime id st nr lr rc => updateTaskRuntime id st nr lr rc
  | OpCancel id => cancelTask id
  | OpAddHistory h => addHistory h
  end.

(** The methods that issue one statement and return its verdict. *)
Definition one_statement (o : Op) : bool :=
  match o with
  | OpUpdateDefinition _ | OpUpdateSchedule _ _ _ _ | OpUpdateRuntime _ _ _ _ _ | OpCancel _ => false
  | _ => true
  end.

Lemma run_stmt_spec {A} (s : D -> Stmt D A) d : exists d1, quiet d d1 /\
  match run_stmt s d with
  | (inr a, d') => exists now, s now (db_tables d1) = (inr a, db_tables d')
  | (inl _, d') =>
      db_tables d' = db_tables d1 \/ exists now, db_tables d' = (s now (db_tables d1)).2
  end.
Proof.
  exists (advance d). split; [apply quiet_advance|]. unfold run_stmt, sql_call.
  destruct (tk_answer _) as [|e|e]; simpl.
  - destruct (s _ _) as [[e|a] t] eqn:E; simpl; eauto. right. eexists. by rewrite E.
  - by left.
  - right. exists (tk_now (driver (db_clock d))). by destruct (s _ _).
Qed.

Lemma with_lease_spec {A} (dflt : A) (m : X A) d : pooled d -> exists d0, quiet d d0 /\
  (with_lease dflt m d = try_sql dflt m d0 \/ (with_lease dflt m d = (dflt, d0) /\ failed d0)).
Proof.
  intros Hp. pose proof (quiet_acquire d) as Hq. pose proof (acquire_fails d Hp) as Hf.
  unfold with_lease, bindM. exists (acquireConnection d).2. split; [done|].
  destruct (acquireConnection d) as [[k|] d1]; [by left|by right].
Qed.

(** A method that reports success ran its statement, which matched. *)
Lemma write_call_true o d :
  one_statement o = true -> (write_call o d).1 = true ->
  exists d1 now, quiet d d1 /\ op_succeeds (found_rows, now, o) (db_tables d1) /\
    db_tables (write_call o d).2 = exec_event (db_tables d1) (found_rows, now, o).
Proof.
  intros Ho.
  assert (Hw : write_call o = with_lease false (run_stmt (fun now => op_stmt found_rows now o)))
    by (destruct o; try discriminate; reflexivity).
  rewrite Hw. clear Hw. unfold with_lease, bindM. pose proof (quiet_acquire d) as Hq.
  destruct (acquireConnection d) as [[k|] d0]; [|done]. cbn [snd] in Hq.
  destruct (run_stmt_spec (fun now => op_stmt found_rows now o) d0) as (d1 & Hq1 & H).
  pose proof (failed_try false (run_stmt (fun now => op_stmt found_rows now o)) d0) as Ht.
  destruct (run_stmt _ d0) as [[e|b] d2].
  - by destruct Ht as (d' & -> & _).
  - rewrite Ht. destruct H as [now H]. cbn [fst snd]. intros ->. exists d1, now.
    split; [by etrans|]. unfold op_succeeds, exec_event. cbn [op_stmt] in *. simpl. by rewrite H.
Qed.

(** The others run an [UPDATE] and, when it reports no row, look for the task:
    the two statements with the look. *)
Definition update_of (o : Op) : option ((D -> Stmt D Z) * (Tables D -> bool)) :=
  match o with
  | OpUpdateDefinition task =>
      Some (fun _ => upd_definition found_rows task, task_exists_and_is_not_running (TaskMeta.id task))
  | OpUpdateSchedule id nr lr rc => Some (fun _ => upd_schedule found_rows id nr lr rc, task_exists_and_is_not_running id)
  | OpUpdateRuntime id st nr lr rc => Some (fun _ => upd_runtime found_rows id st nr lr rc, task_exists_and_is_not_running id)
  | OpCancel id => Some (fun _ => upd_cancel found_rows id, task_exists id)
  | _ => None
  end.

Lemma query_answer (q : Tables D -> bool) d :
  match run_query (fun _ => q) d with (inr b, d') => b = q (db_tables d') | _ => True end.
Proof. unfold run_query, run_stmt, sql_call. by destruct (tk_answer _). Qed.

(** What the look may see has changed since the [UPDATE]. *)
Lemma run_update_spec (s : D -> Stmt D Z) check d : exists d1 d2, quiet d d1 /\
  match run_update s check d with
  | (inr b, d') => quiet d2 d' /\ exists now n, s now (db_tables d1) = (inr n, db_tables d2) /\
      (0 < n /\ b = true \/ n <= 0 /\ b = check (db_tables d'))
  | (inl _, d') => quiet d2 d' /\
      (db_tables d2 = db_tables d1 \/ exists now, db_tables d2 = (s now (db_tables d1)).2)
  end.
Proof.
  destruct (run_stmt_spec s d) as (d1 & Hq & H). unfold run_update, bindX.
  destruct (run_stmt s d) as [[e|n] d2]; exists d1, d2; (split; [done|]); [by split|].
  destruct H as [now H]. destruct (Z.ltb_spec 0 n); cbn [retX].
  - split; [reflexivity|]. exists now, n. auto.
  - pose proof (quiet_query (fun _ => check) d2) as Hc. pose proof (query_answer check d2) as Ha.
    destruct (run_query _ d2) as [[e|b] d']; (split; [done|]).
    + right. exists now. by rewrite H.
    + exists now, n. auto.
Qed.

Lemma one_statement_truthful o d :
  one_statement o = true -> pooled d ->
  exists d1, quiet d d1 /\
  match write_call o d with
  | (true, d') => exists now, op_succeeds (found_rows, now, o) (db_tables d1) /\
      db_tables d' = exec_event (db_tables d1) (found_rows, now, o)
  | (false, d') =>
      (exists now, op_stmt found_rows now o (db_tables d1) = (inr false, db_tables d')) \/
      (failed d' /\ (db_tables d' = db_tables d1 \/
                     exists now, db_tables d' = exec_event (db_tables d1) (found_rows, now, o)))
  end.
Proof.
  intros Ho Hp.
  assert (Hw : write_call o = with_lease false (run_stmt (fun now => op_stmt found_rows now o)))
    by (destruct o; try discriminate; reflexivity).
  rewrite Hw. clear Hw.
  destruct (with_lease_spec false (run_stmt (fun now => op_stmt found_rows now o)) d Hp)
    as (d0 & Hq & [-> | [-> Hf]]); [|exists d0; split; [done|]; right; tauto].
  destruct (run_stmt_spec (fun now => op_stmt found_rows now o) d0) as (d1 & Hq1 & H).
  exists d1. split; [by etrans|].
  pose proof (failed_try false (run_stmt (fun now => op_stmt found_rows now o)) d0) as Ht.
  destruct (run_stmt _ d0) as [[e|b] d2].
  - destruct Ht as (d' & -> & Hf & _ & ->). right. split; [done|]. exact H.
  - rewrite Ht. destruct H as [now H]. destruct b; [|by left; exists now].
    exists now. unfold op_succeeds, exec_event. simpl. by rewrite H.
Qed.

Lemma two_statements_truthful o upd check d :
  update_of o = Some (upd, check) -> pooled d ->
  exists d1 d2, quiet d d1 /\
  match write_call o d with
  | (b, d') => quiet d2 d' /\
      ((exists now n, upd now (db_tables d1) = (inr n, db_tables d2) /\
          (0 < n /\ b = true \/ n <= 0 /\ b = check (db_tables d'))) \/
       b = false /\ failed d' /\ (db_tables d2 = db_tables d1 \/ exists now, db_tables d2 = (upd now (db_tables d1)).2))
  end.
Proof.
  intros Ho Hp.
  assert (Hw : write_call o = with_lease false (run_update upd check)) by (destruct o; simplify_eq/=; reflexivity).
  rewrite Hw. clear Hw.
  destruct (with_lease_spec false (run_update upd check) d Hp) as (d0 & Hq & [-> | [-> Hf]]).
  - destruct (run_update_spec upd check d0) as (d1 & d2 & Hq1 & H). exists d1, d2. split; [by etrans|].
    pose proof (failed_try false (run_update upd check) d0) as Ht.
    destruct (run_update upd check d0) as [[e|b] d3]; destruct H as [Hq2 H].
    + destruct Ht as (d' & -> & Hf & Hq3 & _). split; [by etrans|]. by right.
    + rewrite Ht. split; [done|]. by left.
  - exists d0, d0. split; [done|]. split; [reflexivity|]. right. auto.
Qed.

(** C31.  What the answer of a write method says, with the statements of other
    clients interleaved.  A method of one statement (adding, deleting, claiming,
    recovering, completing, recording) that answers [true] had its statement
    matched and in effect; [false] means that the server found no match, or an
    error is recorded, in which case the statement was executed or not (a lost
    reply hides which).  A method that looks for the task when its [UPDATE]
    counts no row (definition, schedule, runtime, cancelling) answers [true]
    when a row was counted or the task, not running where the update asks for
    that, was there at the look, which may come after statements of others; it
    answers [false] when it was not, or with an error recorded. *)
Theorem compare_and_set_is_truthful o d :
  pooled d ->
  (one_statement o = true ->
   exists d1, quiet d d1 /\
   match write_call o d with
   | (true, d') => exists now, op_succeeds (found_rows, now, o) (db_tables d1) /\
       db_tables d' = exec_event (db_tables d1) (found_rows, now, o)
   | (false, d') =>
       (exists now, op_stmt found_rows now o (db_tables d1) = (inr false, db_tables d')) \/
       (failed d' /\ (db_tables d' = db_tables d1 \/
                      exists now, db_tables d' = exec_event (db_tables d1) (found_rows, now, o)))
   end) /\
  (forall upd check, update_of o = Some (upd, check) ->
   exists d1 d2, quiet d d1 /\
   match write_call o d with
   | (b, d') => quiet d2 d' /\
       ((exists now n, upd now (db_tables d1) = (inr n, db_tables d2) /\
           (0 < n /\ b = true \/ n <= 0 /\ b = check (db_tables d'))) \/
        b = false /\ failed d' /\ (db_tables d2 = db_tables d1 \/ exists now, db_tables d2 = (upd now (db_tables d1)).2))
   end).
Proof.
  intros Hp. split; [intros Ho; by apply one_statement_truthful|]. intros upd check Ho. by apply two_statements_truthful.
Qed.

(** The statements [own] among those of other clients. *)
Definition interleaved (own : list (Event D)) (d d' : Db) : Prop :=
  (db_clock d <= db_clock d')%nat /\
  exists l1 l2, l1 ++ l2 = interference (db_clock d) (db_clock d') /\
    db_tables d' = exec_trace (db_tables d) (l1 ++ own ++ l2).

Lemma interleaved_nil d d' : quiet d d' -> interleaved [] d d'.
Proof.
  intros [H E]. split; [done|]. exists (interference (db_clock d) (db_clock d')), [].
  by rewrite !app_nil_r.
Qed.

Lemma interleaved_quiet_l own d d1 d' : quiet d d1 -> interleaved own d1 d' -> interleaved own d d'.
Proof.
  intros [H E] (H' & l1 & l2 & Hl & Et). split; [lia|].
  exists (interference (db_clock d) (db_clock d1) ++ l1), l2.
  rewrite <- app_assoc, Hl, interference_trans by done. split; [done|].
  by rewrite Et, E, <- app_assoc, <- exec_trace_app.
Qed.

Lemma interleaved_quiet_r own d d1 d' : interleaved own d d1 -> quiet d1 d' -> interleaved own d d'.
Proof.
  intros (H' & l1 & l2 & Hl & Et) [H E]. split; [lia|].
  exists l1, (l2 ++ interference (db_clock d1) (db_clock d')).
  rewrite app_assoc, Hl, interference_trans by done. split; [done|].
  by rewrite E, Et, <- exec_trace_app, !app_assoc.
Qed.

(** A statement with the effect of [o], run once. *)
Lemma run_stmt_interleaved {A} (s : D -> Stmt D A) o d :
  (forall now t, (s now t).2 = exec_event t (found_rows, now, o)) ->
  exists own, interleaved own d (run_stmt s d).2 /\
    (own = [] \/ exists now, own = [(found_rows, now, o)]) /\
    (forall a, (run_stmt s d).1 = inr a -> own <> []).
Proof.
  intros Hs. set (now := tk_now (driver (db_clock d))).
  assert (Hi : forall d', db_clock d' = S (db_clock d) ->
            db_tables d' = exec_event (db_tables (advance d)) (found_rows, now, o) ->
            interleaved [(found_rows, now, o)] d d').
  { intros d' Hc Ht. split; [lia|]. exists (tk_others (driver (db_clock d))), [].
    rewrite Hc, interference_S, !app_nil_r. split; [done|]. by rewrite Ht, exec_trace_app. }
  specialize (Hs now (db_tables (advance d))).
  unfold run_stmt, sql_call. destruct (tk_answer _) as [|e|e]; cbv zeta; fold now.
  - exists [(found_rows, now, o)]. split; [|by eauto].
    apply Hi; destruct (s now _) as [r t]; done.
  - exists []. split; [by apply interleaved_nil, quiet_advance|]. eauto.
  - exists [(found_rows, now, o)]. split; [|by eauto]. apply Hi; destruct (s now _) as [r t]; done.
Qed.

Lemma updated_or_tables (check : Tables D -> bool) (upd : Stmt D Z) t :
  (updated_or check upd t).2 = (upd t).2.
Proof. unfold updated_or. by destruct (upd t) as [[] ?]. Qed.

Definition one_own (o : Op) (m : X bool) : Prop := forall d,
  exists own, interleaved own d (m d).2 /\ (own = [] \/ exists now, own = [(found_rows, now, o)]) /\
    (forall a, (m d).1 = inr a -> own <> []).

Lemma run_update_one_own s check o :
  (forall now t, (s now t).2 = exec_event t (found_rows, now, o)) -> one_own o (run_update s check).
Proof.
  intros Hs d. destruct (run_stmt_interleaved s o d Hs) as (own & Hi & Ho & Hr).
  exists own. unfold run_update, bindX. destruct (run_stmt s d) as [[e|n] d1]; simpl in *.
  - split_and!; [done|done|]. by intros ? [=].
  - split_and!; [|done|by intros; eapply Hr].
    destruct (0 <? n); [done|]. eapply interleaved_quiet_r; [exact Hi|]. apply quiet_query.
Qed.

Lemma write_call_body o : exists m, write_call o = with_lease false m /\ one_own o m.
Proof.
  destruct o; eexists; (split; [reflexivity|]);
    first [ apply run_update_one_own; intros now t; symmetry; apply updated_or_tables
          | intros d; apply run_stmt_interleaved; reflexivity ].
Qed.

(** C32.  A write method is one statement at most: whatever fails and
    reconnects on the way, its effect on the tables is that of the statements
    of other clients with at most one statement of its own among them, and
    exactly one when it reports success.  The invariants of the protocol
    therefore hold for clients as they do for statements. *)
Theorem write_call_is_one_statement o d :
  pooled d ->
  exists own, interleaved own d (write_call o d).2 /\
    (own = [] \/ exists now, own = [(found_rows, now, o)]) /\
    ((write_call o d).1 = true -> own <> []).
Proof.
  intros Hp. destruct (write_call_body o) as (m & -> & Hm).
  destruct (with_lease_spec false m d Hp) as (d0 & Hq & [-> | [-> Hf]]).
  - destruct (Hm d0) as (own & Hi & Ho & Hr). exists own.
    pose proof (failed_try false m d0) as Htry. destruct (m d0) as [[e|b] d1]; simpl in *.
    + destruct Htry as (d' & -> & _ & Hd & _). split_and!; [|done|done].
      eapply interleaved_quiet_l; [exact Hq|]. by eapply interleaved_quiet_r.
    + rewrite Htry. split_and!; [by eapply interleaved_quiet_l|done|]. intros _. by eapply Hr.
  - exists []. split_and!; [by apply interleaved_nil|by left|done].
Qed.

(** ** The schema migration *)

Definition schema_le (a b : Schema) : Prop :=
  columns a ⊆ columns b /\ indexes a ⊆ indexes b /\ has_table a ⊆ has_table b.

#[local] Instance schema_le_refl : Reflexive schema_le.
Proof. done. Qed.
#[local] Instance schema_le_trans : Transitive schema_le.
Proof. intros a b c (? & ? & ?) (? & ? & ?). by split_and!; etrans. Qed.

(** [m] extends the schema, and by at least [P] when it does not throw. *)
Definition extends (P : Schema -> Prop) (m : X ()) : Prop := forall d,
  schema_le (db_schema d) (db_schema (m d).2) /\ ((m d).1 = inr () -> P (db_schema (m d).2)).

Lemma run_ddl_extends f (P : Schema -> Prop) :
  (forall s, schema_le s (f s)) -> (forall s, P (f s)) -> extends P (run_ddl f).
Proof.
  intros Hle HP d. unfold run_ddl, sql_call. by destruct (tk_answer _); simpl; split; [| |done|..].
Qed.

Lemma ensure_extends (q : Schema -> bool) f (P : Schema -> Prop) :
  (forall s, q s = true -> P s) -> (forall s, schema_le s (f s)) -> (forall s, P (f s)) ->
  extends P (bindX (run_schema_query q) (fun b => if b then retX () else run_ddl f)).
Proof.
  intros Hq Hle HP d. unfold bindX, run_schema_query, sql_call.
  destruct (tk_answer (driver (db_clock d))); simpl; [|done|done].
  destruct (q (db_schema d)) eqn:E; [by split; [|eauto]|]. exact (run_ddl_extends f P Hle HP (advance d)).
Qed.

Lemma xfor_extends {A} (f : A -> X ()) (P : A -> Schema -> Prop) l :
  (forall a s s', schema_le s s' -> P a s -> P a s') ->
  (forall a, extends (P a) (f a)) -> extends (fun s => forall a, a ∈ l -> P a s) (xfor f l).
Proof.
  intros Hmono Hf. induction l as [|a l IH]; intros d; simpl.
  - split; [done|]. intros _ a Ha. by apply not_elem_of_nil in Ha.
  - unfold bindX. destruct (Hf a d) as [H1 H2]. destruct (f a d) as [[e|[]] d1]; simpl in *; [done|].
    destruct (IH d1) as [H3 H4]. split; [by etrans|]. intros Hr b [-> | Hb]%elem_of_cons; [|by apply H4].
    eapply Hmono; [exact H3|]. by apply H2.
Qed.

Lemma create_table_le name cols idxs s : schema_le s (create_table name cols idxs s).
Proof. unfold create_table, schema_le. case_bool_decide; simpl; set_solver. Qed.

Lemma bindX_inr {A B} (m : X A) (k : A -> X B) d b d' :
  bindX m k d = (inr b, d') -> exists a d1, m d = (inr a, d1) /\ k a d1 = (inr b, d').
Proof. unfold bindX. destruct (m d) as [[e|a] d1]; [done|]. eauto. Qed.

(** When the migration reports success, every column and index that
    later versions of the code rely on is present, whichever version of the
    tables it found. *)
Theorem ensureSchema_migrates d :
  (ensureSchema d).1 = true ->
  (forall c, c ∈ migrated_columns -> c ∈ columns (db_schema (ensureSchema d).2)) /\
  (forall i, i ∈ migrated_indexes -> i ∈ indexes (db_schema (ensureSchema d).2)).
Proof.
  unfold ensureSchema, try_sql. match goal with |- context [match ?m d with _ => _ end] => destruct (m d) as [[e|b] d'] eqn:E end; [done|].
  intros Hb. simpl in Hb. subst b. cbn [snd].
  apply bindX_inr in E as ([] & d1 & E1 & E). apply bindX_inr in E as ([] & d2 & E2 & E).
  apply bindX_inr in E as ([] & d3 & E3 & E). apply bindX_inr in E as ([] & d4 & E4 & [= <-]).
  assert (Hc : extends (fun s => forall c, c ∈ migrated_columns -> c ∈ columns s)
                 (xfor (fun c => ensure_column c.1 c.2) migrated_columns)).
  { apply xfor_extends; [unfold schema_le; set_solver|]. intros [t c]. apply ensure_extends; simpl.
    - intros s. apply bool_decide_eq_true.
    - intros s. unfold schema_le; simpl; set_solver.
    - set_solver. }
  assert (Hi : extends (fun s => forall c, c ∈ migrated_indexes -> c ∈ indexes s)
                 (xfor (fun i => ensure_index i.1 i.2) migrated_indexes)).
  { apply xfor_extends; [unfold schema_le; set_solver|]. intros [t c]. apply ensure_extends; simpl.
    - intros s. apply bool_decide_eq_true.
    - intros s. unfold schema_le; simpl; set_solver.
    - set_solver. }
  destruct (Hc d2) as [_ Hc2]. rewrite E3 in Hc2. specialize (Hc2 eq_refl).
  destruct (Hi d3) as [Hle Hi2]. rewrite E4 in Hle, Hi2. specialize (Hi2 eq_refl). simpl in *.
  split; [|done]. intros c Hin. apply Hle. by apply Hc2.
Qed.
End MySQL.

Arguments Tick D : clear implicits.
Arguments Db D : clear implicits.

(** ** Concrete runs *)

Module MySQLExample.
Import ProtocolExample.

Definition lost_connection : SQLException := mkSQLException 2013 "HY000" "Lost connection".

(** A driver whose [k]-th call is answered by the [k]-th element. *)
Definition scripted (l : list (Tick civil)) (k : nat) : Tick civil :=
  default (mkTick one [] (inr false) Ok) (l !! k).

Definition connected (slots : list Slot) (t : Tables civil) : Db civil :=
  mkDb t (mkSchema ∅ ∅ ∅) 0 (mkMySQLClientOptions 1 3 5 5 true) slots 0 no_error.

(** Another node claims the slot between the lease and the claim. *)
Definition raced : nat -> Tick civil :=
  scripted [mkTick one [] (inr false) Ok; mkTick one [claim "e2" "node2"] (inr false) Ok].

Lemma compare_and_set_is_truthful_witness :
  exists d1, quiet raced (connected [Some true] start) d1 /\
  match write_call true raced (claim "e1" "node1").2 (connected [Some true] start) with
  | (true, d') => exists now, op_succeeds (true, now, (claim "e1" "node1").2) (db_tables d1) /\
      db_tables d' = exec_event (db_tables d1) (true, now, (claim "e1" "node1").2)
  | (false, d') =>
      (exists now, op_stmt true now (claim "e1" "node1").2 (db_tables d1) = (inr false, db_tables d')) \/
      (failed d' /\ (db_tables d' = db_tables d1 \/
                     exists now, db_tables d' = exec_event (db_tables d1) (true, now, (claim "e1" "node1").2)))
  end.
Proof. apply (compare_and_set_is_truthful true raced); [unfold pooled; simpl; lia|done]. Defined.

Lemma write_call_is_one_statement_witness :
  let d := connected [Some true] start in
  exists own, interleaved raced own d (write_call true raced (complete "e1").2 d).2 /\
    (own = [] \/ exists now, own = [(true, now, (complete "e1").2)]) /\
    ((write_call true raced (complete "e1").2 d).1 = true -> own <> []).
Proof. apply write_call_is_one_statement. unfold pooled. simpl. lia. Defined.

Definition fresh : Db civil := connected [] start.

Lemma ensureSchema_migrates_witness :
  (forall c, c ∈ migrated_columns -> c ∈ columns (db_schema (ensureSchema (scripted []) fresh).2)) /\
  (forall i, i ∈ migrated_indexes -> i ∈ indexes (db_schema (ensureSchema (scripted []) fresh).2)).
Proof.
  apply (ensureSchema_migrates (scripted []) fresh). vm_compute. reflexivity.
Defined.

(** A connection whose [SET time_zone] failed stays in its slot: the
    lease that opened it is refused, but the next one hands it out, with the
    server's default time zone for every [NOW()] of the session. *)
Theorem failed_time_zone_is_not_retried :
  let driver := scripted [mkTick one [] (inr true) Ok;                      (* isClosed: yes *)
                          mkTick one [] (inr false) Ok;                     (* close *)
                          mkTick one [] (inr false) Ok;                     (* connect *)
                          mkTick one [] (inr false) (Fail lost_connection); (* SET time_zone *)
                          mkTick one [] (inr false) Ok] in                  (* isClosed: no *)
  let d := connected [Some true] start in
  (acquireConnection driver d).1 = None /\
  (acquireConnection driver (acquireConnection driver d).2).1 = Some 0%nat /\
  db_slots (acquireConnection driver (acquireConnection driver d).2).2 = [Some false].
Proof. by split_and!. Qed.

End MySQLExample.
