(* ===== verification/Redis.v ===== *)
(** The Redis server as the program uses it, and the Lua scripts of
    [src/redis/redis_client.cpp].

    The server is not part of the program: [RedisServer] states what the
    scripts rely on.  [cmd_spec] is the documented effect of one command on its
    key; a server executes a command according to it, leaves other keys alone,
    and drops a key when its expiry has passed.  [StoreServer] is a keyspace
    that satisfies the interface.  The scripts are sequences of commands run
    atomically at one instant. *)
From S2P Require Import Prelude StorageError.

Inductive Val := VStr (s : string) | VSet (g : gset string).

Inductive Cmd :=
  | SETNX (k v : string)
  | SETEX (k v : string) (ttl : Z)        (* SET k v EX ttl *)
  | EXPIRE (k : string) (ttl : Z)
  | GET (k : string)
  | DEL (k : string)
  | EXISTS (k : string)
  | SADD (k m : string)
  | SREM (k m : string)
  | SMEMBERS (k : string).

Inductive Reply :=
  | RNil
  | RInt (z : Z)
  | RStr (s : string)
  | RStatus (s : string)
  | RArr (l : list string)
  | RErr (s : string).

Definition cmd_key (c : Cmd) : string :=
  match c with
  | SETNX k _ | SETEX k _ _ | EXPIRE k _ | GET k | DEL k | EXISTS k | SADD k _ | SREM k _
  | SMEMBERS k => k
  end.

(** The value of a key and when it expires, in milliseconds. *)
Definition Entry : Type := Val * option Z.

Definition WRONGTYPE : Reply := RErr "WRONGTYPE".

Definition cmd_spec (now : Z) (c : Cmd) (x : option Entry) : Reply * option Entry :=
  match c with
  | SETNX _ v =>
      match x with
      | None => (RInt 1, Some (VStr v, None))
      | Some _ => (RInt 0, x)
      end
  | SETEX _ v ttl => (RStatus "OK", Some (VStr v, Some (now + ttl * 1000)))
  | EXPIRE _ ttl =>
      match x with
      | None => (RInt 0, None)
      | Some (v, _) => (RInt 1, Some (v, Some (now + ttl * 1000)))
      end
  | GET _ =>
      match x with
      | None => (RNil, None)
      | Some (VStr s, _) => (RStr s, x)
      | Some (VSet _, _) => (WRONGTYPE, x)
      end
  | DEL _ =>
      match x with
      | None => (RInt 0, None)
      | Some _ => (RInt 1, None)
      end
  | EXISTS _ => ((match x with Some _ => RInt 1 | None => RInt 0 end), x)
  | SADD _ m =>
      match x with
      | None => (RInt 1, Some (VSet {[m]}, None))
      | Some (VSet g, e) => ((if bool_decide (m ∈ g) then RInt 0 else RInt 1), Some (VSet ({[m]} ∪ g), e))
      | Some (VStr _, _) => (WRONGTYPE, x)
      end
  | SREM _ m =>
      match x with
      | None => (RInt 0, None)
      | Some (VSet g, e) =>
          ((if bool_decide (m ∈ g) then RInt 1 else RInt 0),
           if decide (g ∖ {[m]} = ∅) then None else Some (VSet (g ∖ {[m]}), e))
      | Some (VStr _, _) => (WRONGTYPE, x)
      end
  | SMEMBERS _ =>
      match x with
      | None => (RArr [], None)
      | Some (VSet g, _) => (RArr (elements g), x)
      | Some (VStr _, _) => (WRONGTYPE, x)
      end
  end.

(** What is left of an entry at time [now]. *)
Definition unexpired (now : Z) (x : option Entry) : option Entry :=
  match x with
  | Some (v, Some e) => if e <=? now then None else x
  | _ => x
  end.

(** [SMEMBERS] answers in no particular order. *)
Definition reply_equiv (a b : Reply) : Prop :=
  match a, b with
  | RArr l, RArr l' => l ≡ₚ l'
  | _, _ => a = b
  end.

Lemma reply_equiv_refl a : reply_equiv a a.
Proof. destruct a; simpl; reflexivity. Qed.

Class RedisServer (R : Type) := {
  look : R -> Z -> string -> option Entry;
  exec : Z -> Cmd -> R -> Reply * R;
  look_later : forall r now now' k, now <= now' -> look r now' k = unexpired now' (look r now k);
  exec_reply : forall now c r, reply_equiv (exec now c r).1 (cmd_spec now c (look r now (cmd_key c))).1;
  exec_key : forall now c r,
    look (exec now c r).2 now (cmd_key c) = unexpired now (cmd_spec now c (look r now (cmd_key c))).2;
  exec_frame : forall now c r k, k <> cmd_key c -> look (exec now c r).2 now k = look r now k
}.

(** ** A server *)

Abbreviation Store := (gmap string Entry).

Definition store_look (r : Store) (now : Z) (k : string) : option Entry := unexpired now (r !! k).

Definition store_exec (now : Z) (c : Cmd) (r : Store) : Reply * Store :=
  let '(reply, x) := cmd_spec now c (store_look r now (cmd_key c)) in
  (reply, match x with Some y => <[cmd_key c := y]> r | None => delete (cmd_key c) r end).

Lemma unexpired_later now now' x : now <= now' -> unexpired now' (unexpired now x) = unexpired now' x.
Proof.
  intros H. destruct x as [[v [e|]]|]; simpl; try done. destruct (e <=? now) eqn:E; simpl; [|done].
  zify_bools. by rewrite (proj2 (Z.leb_le e now')) by lia.
Qed.

#[global] Program Instance StoreServer : RedisServer Store := {|
  look := store_look;
  exec := store_exec
|}.
Next Obligation. intros. unfold store_look. by rewrite unexpired_later. Qed.
Next Obligation.
  intros now c r. unfold store_exec. destruct (cmd_spec _ _ _) as [reply x]. apply reply_equiv_refl.
Qed.
Next Obligation.
  intros now c r. unfold store_exec. destruct (cmd_spec _ _ _) as [reply [y|]]; unfold store_look; simpl.
  - by rewrite lookup_insert_eq.
  - by rewrite lookup_delete_eq.
Qed.
Next Obligation.
  intros now c r k Hk. unfold store_exec. destruct (cmd_spec _ _ _) as [reply [y|]]; unfold store_look; simpl.
  - by rewrite lookup_insert_ne.
  - by rewrite lookup_delete_ne.
Qed.

#[global] Arguments unexpired : simpl never.

(** ** The scripts *)

Section Scripts.
Context {R : Type} `{RS : RedisServer R}.

(** A script runs at one instant; an error reply of [redis.call] aborts it and
    is the script's reply. *)
Definition Script (A : Type) : Type := Z -> R -> (Reply + A) * R.

Definition scall (c : Cmd) : Script Reply := fun now r =>
  match exec now c r with
  | (RErr s, r') => (inl (RErr s), r')
  | (reply, r') => (inr reply, r')
  end.
Definition sret {A} (a : A) : Script A := fun _ r => (inr a, r).
Definition sbind {A B} (m : Script A) (k : A -> Script B) : Script B := fun now r =>
  match m now r with
  | (inl e, r') => (inl e, r')
  | (inr a, r') => k a now r'
  end.

Definition lock_script (key value : string) (expire_sec : Z) : Script Reply :=
  sbind (scall (SETNX key value)) (fun reply =>
  match reply with
  | RInt 1 => sbind (scall (EXPIRE key expire_sec)) (fun _ => sret (RStr "OK"))
  | _ => sret RNil
  end).

(** [redis.call('get', KEYS[1]) == ARGV[1]] *)
Definition owner_script (key value : string) (c : Cmd) : Script Reply :=
  sbind (scall (GET key)) (fun reply =>
  match reply with
  | RStr s => if String.eqb s value then scall c else sret (RInt 0)
  | _ => sret (RInt 0)
  end).

Definition renew_script (key value : string) (expire_sec : Z) : Script Reply :=
  owner_script key value (EXPIRE key expire_sec).
Definition unlock_script (key value : string) : Script Reply :=
  owner_script key value (DEL key).

Definition register_script (set_key node_key endpoint : string) (ttl_sec : Z) : Script Reply :=
  sbind (scall (SETEX node_key endpoint ttl_sec)) (fun result =>
  sbind (scall (SADD set_key endpoint)) (fun _ => sret result)).

Definition unregister_script (set_key node_key endpoint : string) : Script Reply :=
  sbind (scall (SREM set_key endpoint)) (fun _ => scall (DEL node_key)).

(** [KEYS[1] .. ':' .. endpoint] *)
Definition sub_key (key endpoint : string) : string := key +:+ ":" +:+ endpoint.
#[local] Arguments sub_key : simpl never.

Fixpoint alive_loop (set_key : string) (members : list string) : Script (list string) :=
  match members with
  | [] => sret []
  | endpoint :: rest =>
      sbind (scall (EXISTS (sub_key set_key endpoint))) (fun reply =>
      match reply with
      | RInt 1 => sbind (alive_loop set_key rest) (fun alive => sret (endpoint :: alive))
      | _ => sbind (scall (SREM set_key endpoint)) (fun _ => alive_loop set_key rest)
      end)
  end.

Definition discover_script (set_key : string) : Script Reply :=
  sbind (scall (SMEMBERS set_key)) (fun reply =>
  match reply with
  | RArr members => sbind (alive_loop set_key members) (fun alive => sret (RArr alive))
  | _ => sret (RErr "bad argument to ipairs")
  end).

(** Every script the program sends, from any node.  The client passes its
    arguments as C strings, which end at the first NUL; keys, names and values
    are taken to hold none, as those the program makes do not unless a task id
    or a name given to it does. *)
Inductive ScriptCall :=
  | Lock (key value : string) (expire_sec : Z)
  | Renew (key value : string) (expire_sec : Z)
  | Unlock (key value : string)
  | Register (service endpoint : string) (ttl_sec : Z)
  | Unregister (service endpoint : string)
  | Discover (service : string).

Definition lock_key (key : string) : string := "lock:" +:+ key.
Definition set_key (service : string) : string := "services:" +:+ service.
Definition node_key (service endpoint : string) : string := sub_key (set_key service) endpoint.

Definition script_of (c : ScriptCall) : Script Reply :=
  match c with
  | Lock key value ttl => lock_script (lock_key key) value ttl
  | Renew key value ttl => renew_script (lock_key key) value ttl
  | Unlock key value => unlock_script (lock_key key) value
  | Register service endpoint ttl =>
      register_script (set_key service) (node_key service endpoint) endpoint ttl
  | Unregister service endpoint =>
      unregister_script (set_key service) (node_key service endpoint) endpoint
  | Discover service => discover_script (set_key service)
  end.

(** The reply of [EVAL], and the server after it. *)
Definition run_script (now : Z) (c : ScriptCall) (r : R) : Reply * R :=
  match script_of c now r with
  | (inl e, r') => (e, r')
  | (inr reply, r') => (reply, r')
  end.


(** ** Which keys a script touches *)

Definition frames {A} (k : string) (s : Script A) : Prop :=
  forall now r, look (s now r).2 now k = look r now k.

Lemma scall_exec c now r : (scall c now r).2 = (exec now c r).2.
Proof. unfold scall. by destruct (exec now c r) as [[] ?]. Qed.

Lemma frames_scall c k : k <> cmd_key c -> frames k (scall c).
Proof. intros Hk now r. rewrite scall_exec. by apply exec_frame. Qed.

Lemma frames_sret {A} (a : A) k : frames k (sret a).
Proof. done. Qed.

Lemma frames_sbind {A B} (m : Script A) (f : A -> Script B) k :
  frames k m -> (forall a, frames k (f a)) -> frames k (sbind m f).
Proof.
  intros Hm Hf now r. unfold sbind. specialize (Hm now r). destruct (m now r) as [[e|a] r']; [done|].
  simpl in *. by rewrite Hf.
Qed.

(** A script that reads its key but changes nothing. *)
Lemma exec_read now c r k :
  unexpired now (cmd_spec now c (look r now (cmd_key c))).2 = look r now (cmd_key c) ->
  look (exec now c r).2 now k = look r now k.
Proof.
  intros H. destruct (decide (k = cmd_key c)) as [->|Hk]; [by rewrite exec_key|by apply exec_frame].
Qed.

Lemma look_unexpired r now k : unexpired now (look r now k) = look r now k.
Proof. symmetry. by apply look_later. Qed.

Lemma look_expiry r now k v e : look r now k = Some (v, Some e) -> now < e.
Proof.
  intros H. pose proof (look_unexpired r now k) as Hu. rewrite H in Hu. unfold unexpired in Hu.
  destruct (e <=? now) eqn:E; [done|]. by zify_bools.
Qed.

Lemma frames_alive K set members :
  K <> set -> (forall e, K <> sub_key set e) -> frames K (alive_loop set members).
Proof.
  intros H1 H2. induction members as [|m l IH]; simpl; [apply frames_sret|].
  apply frames_sbind; [apply frames_scall, H2|]. intros a.
  assert (Hs : frames K (sbind (scall (SREM set m)) (fun _ => alive_loop set l)))
    by (apply frames_sbind; [by apply frames_scall|done]).
  destruct a; try exact Hs. destruct z as [|[]|]; try exact Hs.
  apply frames_sbind; [done|]. intros. apply frames_sret.
Qed.

Lemma lock_key_inj a b : lock_key a = lock_key b -> a = b.
Proof. apply append_inj_r. Qed.

(** Scripts other than those of [key]'s own lock leave it alone. *)
Definition on_lock (key : string) (c : ScriptCall) : bool :=
  match c with
  | Lock k _ _ | Renew k _ _ | Unlock k _ => String.eqb k key
  | _ => false
  end.

Lemma frames_owner K key value c :
  K <> key -> K <> cmd_key c -> frames K (owner_script key value c).
Proof.
  intros H1 H2. apply frames_sbind; [by apply frames_scall|]. intros a.
  destruct a; try apply frames_sret. destruct (String.eqb _ _); [by apply frames_scall|apply frames_sret].
Qed.

Lemma frames_script key c : on_lock key c = false -> frames (lock_key key) (script_of c).
Proof.
  destruct c; simpl; intros H; zify_bools.
  - assert (lock_key key <> lock_key key0) by (intros E; apply lock_key_inj in E; done).
    apply frames_sbind; [by apply frames_scall|]. intros a.
    destruct a; try apply frames_sret. destruct z as [|[]|]; try apply frames_sret.
    apply frames_sbind; [by apply frames_scall|]. intros; apply frames_sret.
  - assert (lock_key key <> lock_key key0) by (intros E; apply lock_key_inj in E; done).
    by apply frames_owner.
  - assert (lock_key key <> lock_key key0) by (intros E; apply lock_key_inj in E; done).
    by apply frames_owner.
  - repeat (apply frames_sbind; [by apply frames_scall|intros]); apply frames_sret.
  - apply frames_sbind; [by apply frames_scall|]. intros. by apply frames_scall.
  - apply frames_sbind; [by apply frames_scall|]. intros a. destruct a; try apply frames_sret.
    apply frames_sbind; [by apply frames_alive|]. intros; apply frames_sret.
Qed.

(** ** The lock *)

Lemma scall_spec now c r reply x :
  cmd_spec now c (look r now (cmd_key c)) = (reply, x) ->
  (forall l, reply <> RArr l) -> (forall s, reply <> RErr s) ->
  exists r', scall c now r = (inr reply, r') /\ look r' now (cmd_key c) = unexpired now x.
Proof.
  intros Hc Ha He. pose proof (exec_reply now c r) as Hr. pose proof (exec_key now c r) as Hk.
  rewrite Hc in Hr, Hk. simpl in *. unfold scall. destruct (exec now c r) as [rep r']; simpl in *.
  assert (rep = reply) as -> by (destruct rep, reply; simpl in Hr; congruence).
  exists r'. split; [|done]. destruct reply; try done. by destruct (He s).
Qed.

Lemma lock_free_spec now key value ttl r :
  0 < ttl -> look r now key = None ->
  exists r', lock_script key value ttl now r = (inr (RStr "OK"), r') /\
    look r' now key = Some (VStr value, Some (now + ttl * 1000)).
Proof.
  intros Ht Hl. unfold lock_script, sbind.
  destruct (scall_spec now (SETNX key value) r (RInt 1) (Some (VStr value, None))) as (r1 & -> & H1);
    try done; [simpl; by rewrite Hl|]. simpl in H1.
  destruct (scall_spec now (EXPIRE key ttl) r1 (RInt 1) (Some (VStr value, Some (now + ttl * 1000))))
    as (r2 & -> & H2); try done; [simpl; by rewrite H1|]. simpl in H2.
  exists r2. split; [done|]. rewrite H2. unfold unexpired. by rewrite (proj2 (Z.leb_gt _ _)) by lia.
Qed.

Lemma lock_busy_spec now key value ttl r x :
  look r now key = Some x ->
  exists r', lock_script key value ttl now r = (inr RNil, r') /\ look r' now key = Some x.
Proof.
  intros Hl. unfold lock_script, sbind.
  destruct (scall_spec now (SETNX key value) r (RInt 0) (Some x)) as (r1 & -> & H1);
    try done; [simpl; by rewrite Hl|]. simpl in H1.
  exists r1. split; [done|]. rewrite H1, <- Hl. apply look_unexpired.
Qed.

Lemma owner_other_spec now key value c r v e :
  look r now key = Some (VStr v, e) -> v <> value ->
  exists r', owner_script key value c now r = (inr (RInt 0), r') /\ look r' now key = Some (VStr v, e).
Proof.
  intros Hl Hv. unfold owner_script, sbind.
  destruct (scall_spec now (GET key) r (RStr v) (Some (VStr v, e))) as (r1 & -> & H1);
    try done; [simpl; by rewrite Hl|]. simpl in H1.
  apply String.eqb_neq in Hv. rewrite Hv. exists r1. split; [done|].
  rewrite <- Hl, look_unexpired in H1. by rewrite H1.
Qed.

Lemma owner_spec now key c r v e reply x :
  look r now key = Some (VStr v, e) -> cmd_key c = key ->
  cmd_spec now c (Some (VStr v, e)) = (reply, x) ->
  (forall l, reply <> RArr l) -> (forall s, reply <> RErr s) ->
  exists r', owner_script key v c now r = (inr reply, r') /\ look r' now key = unexpired now x.
Proof.
  intros Hl Hk Hc Ha He. unfold owner_script, sbind.
  destruct (scall_spec now (GET key) r (RStr v) (Some (VStr v, e))) as (r1 & -> & H1);
    try done; [simpl; by rewrite Hl|]. cbn [cmd_key] in H1.
  rewrite <- Hl, look_unexpired, Hl in H1. rewrite String.eqb_refl, <- Hk.
  apply scall_spec; try done. by rewrite Hk, H1.
Qed.

(** [value] owns the lock of [key] until [until]. *)
Definition owns (key value : string) (until : Z) (r : R) (now : Z) : Prop :=
  look r now (lock_key key) = Some (VStr value, Some until).

(** The owner's own renewals and unlocks. *)
Definition own_call (key value : string) (c : ScriptCall) : Prop :=
  match c with
  | Renew k v _ | Unlock k v => k = key /\ v = value
  | _ => False
  end.

Lemma owns_later key value until r now now' :
  now <= now' < until -> owns key value until r now -> owns key value until r now'.
Proof.
  unfold owns. intros Ht H. rewrite (look_later r now now') by lia. rewrite H. unfold unexpired.
  by rewrite (proj2 (Z.leb_gt _ _)) by lia.
Qed.

(** The reply a script of another party gets while the lock is owned. *)
Definition refused (key : string) (c : ScriptCall) (reply : Reply) : Prop :=
  match c with
  | Lock k _ _ => k = key -> reply = RNil
  | Renew k _ _ | Unlock k _ => k = key -> reply = RInt 0
  | _ => True
  end.

Lemma owns_step key value until c r now :
  owns key value until r now -> ~ own_call key value c ->
  owns key value until (run_script now c r).2 now /\ refused key c (run_script now c r).1.
Proof.
  unfold owns. intros Hl Hc. unfold run_script.
  destruct (on_lock key c) eqn:E.
  - destruct c; simpl in *; zify_bools; subst; try done.
    + edestruct lock_busy_spec as (r' & Hs & Hl'); [exact Hl|]. rewrite Hs. split; [exact Hl'|done].
    + edestruct owner_other_spec as (r' & Hs & Hl'); [exact Hl| |unfold renew_script; rewrite Hs; split; [exact Hl'|done]].
      intros ->. by apply Hc.
    + edestruct owner_other_spec as (r' & Hs & Hl'); [exact Hl| |unfold unlock_script; rewrite Hs; split; [exact Hl'|done]].
      intros ->. by apply Hc.
  - pose proof (frames_script key c E now r) as Hf. destruct (script_of c now r) as [[e|a] r']; simpl in *;
      rewrite Hf; (split; [done|]); destruct c; simpl in *; try done; zify_bools; congruence.
Qed.

(** Scripts of any nodes, in the order the server runs them, from time [now]. *)
Fixpoint run_calls (l : list (Z * ScriptCall)) (r : R) : R :=
  match l with
  | [] => r
  | (now, c) :: l' => run_calls l' (run_script now c r).2
  end.

Fixpoint timed (now until : Z) (l : list (Z * ScriptCall)) : Prop :=
  match l with
  | [] => True
  | (t, _) :: l' => now <= t < until /\ timed t until l'
  end.

Lemma timed_last now until l x : timed now until l -> last l = Some x -> now <= x.1.
Proof.
  revert now. induction l as [|[u d] l IH]; intros now Ht Hx; [done|]. destruct Ht as [Hu Ht].
  rewrite last_cons in Hx. destruct (last l) eqn:E; simplify_eq; [|simpl; lia].
  specialize (IH u Ht eq_refl). lia.
Qed.

Lemma owns_calls key value until l r now t :
  owns key value until r now -> timed now until l ->
  Forall (fun c => ~ own_call key value c.2) l ->
  (forall c, last l = Some c -> c.1 <= t) -> now <= t < until ->
  owns key value until (run_calls l r) t.
Proof.
  intros Ho. revert r now Ho. induction l as [|[t' c] l IH]; intros r now Ho Ht Hf Hl Hn; simpl.
  - by eapply owns_later.
  - simpl in Ht. destruct Ht as [Ht1 Ht2]. apply Forall_cons in Hf as [Hc Hf].
    apply (owns_later _ _ _ _ _ t') in Ho; [|done].
    apply owns_step with (c := c) in Ho as [Ho _]; [|done].
    assert (Hlast : t' <= t).
    { destruct (last l) as [x|] eqn:Ex.
      - pose proof (timed_last _ _ _ _ Ht2 Ex). assert (x.1 <= t); [|lia]. apply Hl.
        by rewrite last_cons, Ex.
      - apply (Hl (t', c)). by rewrite last_cons, Ex. }
    eapply IH; try done; [|lia]. intros x Hx. apply Hl. by rewrite last_cons, Hx.
Qed.

(** C6.  The lock is mutually exclusive for as long as it lives: from the
    moment a node acquired [key] with its own value until the expiry time, and
    whatever scripts other nodes run meanwhile, the lock stays with its
    owner, every other acquisition is refused, and no renewal or unlock with
    another value has an effect. *)
Theorem lock_is_exclusive key value ttl r t0 r0 l t c :
  0 < ttl ->
  run_script t0 (Lock key value ttl) r = (RStr "OK", r0) ->
  timed t0 (t0 + ttl * 1000) l -> Forall (fun c => ~ own_call key value c.2) l ->
  (forall x, last l = Some x -> x.1 <= t) -> t0 <= t < t0 + ttl * 1000 ->
  ~ own_call key value c ->
  owns key value (t0 + ttl * 1000) (run_script t c (run_calls l r0)).2 t /\
  refused key c (run_script t c (run_calls l r0)).1.
Proof.
  intros Ht Hrun Hl Hf Hlast Htt Hc. apply owns_step; [|done].
  apply (owns_calls _ _ _ _ _ t0); try done.
  unfold run_script in Hrun. simpl in Hrun. unfold owns.
  destruct (look r t0 (lock_key key)) as [x|] eqn:E.
  - destruct (lock_busy_spec t0 (lock_key key) value ttl r x E) as (r' & Hs & _). by rewrite Hs in Hrun.
  - destruct (lock_free_spec t0 (lock_key key) value ttl r Ht E) as (r' & Hs & Hl').
    rewrite Hs in Hrun. by injection Hrun as <-.
Qed.

(** The owner can extend and release what it owns. *)
Lemma renew_spec key value ttl until r now :
  0 < ttl -> owns key value until r now ->
  exists r', run_script now (Renew key value ttl) r = (RInt 1, r') /\
    owns key value (now + ttl * 1000) r' now.
Proof.
  unfold owns. intros Ht Ho. unfold run_script. simpl. unfold renew_script.
  edestruct (owner_spec now (lock_key key) (EXPIRE (lock_key key) ttl)) as (r' & Hs & Hl);
    [exact Ho|done|reflexivity|done|done|].
  rewrite Hs. exists r'. split; [done|]. rewrite Hl. unfold unexpired.
  by rewrite (proj2 (Z.leb_gt _ _)) by lia.
Qed.

Lemma unlock_spec key value until r now :
  owns key value until r now ->
  exists r', run_script now (Unlock key value) r = (RInt 1, r') /\ look r' now (lock_key key) = None.
Proof.
  unfold owns. intros Ho. unfold run_script. simpl. unfold unlock_script.
  edestruct (owner_spec now (lock_key key) (DEL (lock_key key))) as (r' & Hs & Hl);
    [exact Ho|done|reflexivity|done|done|].
  rewrite Hs. by exists r'.
Qed.

(** What the owner does with its lock works: a renewal gives it a full new
    lease, after an unlock the next node acquires it, and a node that stops
    renewing loses it at the expiry time, when another node acquires it. *)
Theorem lock_hand_over key value until r now ttl value' ttl' later :
  0 < ttl -> 0 < ttl' -> owns key value until r now -> until <= later ->
  (exists r', run_script now (Renew key value ttl) r = (RInt 1, r') /\
     owns key value (now + ttl * 1000) r' now) /\
  (exists r1 r2, run_script now (Unlock key value) r = (RInt 1, r1) /\
     run_script now (Lock key value' ttl') r1 = (RStr "OK", r2) /\
     owns key value' (now + ttl' * 1000) r2 now) /\
  (exists r', run_script later (Lock key value' ttl') r = (RStr "OK", r') /\
     owns key value' (later + ttl' * 1000) r' later).
Proof.
  intros Ht Ht' Ho Hu.
  assert (Hfree : forall r now, look r now (lock_key key) = None ->
            exists r', run_script now (Lock key value' ttl') r = (RStr "OK", r') /\
                       owns key value' (now + ttl' * 1000) r' now).
  { intros r0 n0 E. unfold run_script. simpl.
    destruct (lock_free_spec n0 (lock_key key) value' ttl' r0 Ht' E) as (r' & -> & Hl). by exists r'. }
  split; [by eapply renew_spec|split].
  - destruct (unlock_spec _ _ _ _ _ Ho) as (r1 & H1 & H2). destruct (Hfree r1 now H2) as (r2 & H3 & H4).
    by exists r1, r2.
  - apply Hfree. pose proof (look_expiry _ _ _ _ _ Ho).
    rewrite (look_later r now later) by lia. rewrite Ho. unfold unexpired.
    by rewrite (proj2 (Z.leb_le _ _)) by lia.
Qed.

(** ** Service discovery *)

Definition is_set (x : option Entry) : Prop :=
  match x with Some (VStr _, _) => False | _ => True end.
Definition members_of (x : option Entry) : gset string :=
  match x with Some (VSet g, _) => g | _ => ∅ end.
Definition live (K : string) (r : R) (now : Z) (e : string) : bool :=
  match look r now (sub_key K e) with Some _ => true | None => false end.

Lemma sub_key_neq K e : sub_key K e <> K.
Proof. unfold sub_key. intros E. apply (f_equal String.length) in E. rewrite !length_append in E. simpl in E. lia. Qed.

Lemma srem_spec K m r now : is_set (look r now K) ->
  exists rep r', scall (SREM K m) now r = (inr rep, r') /\ is_set (look r' now K) /\
    members_of (look r' now K) = members_of (look r now K) ∖ {[m]} /\
    (forall k, k <> K -> look r' now k = look r now k).
Proof.
  intros Hs. pose proof (look_unexpired r now K) as Hu.
  assert (Hfr : forall k, k <> K -> look (scall (SREM K m) now r).2 now k = look r now k)
    by (intros k Hk; rewrite scall_exec; by apply exec_frame).
  destruct (cmd_spec now (SREM K m) (look r now K)) as [rep x] eqn:Ec.
  destruct (scall_spec now (SREM K m) r rep x) as (r' & H1 & H2); try done;
    try (intros ? ->; revert Ec; simpl; destruct (look r now K) as [[[] ?]|]; try done; by case_bool_decide).
  rewrite H1 in Hfr. exists rep, r'. split; [done|]. cbn [cmd_key] in H2. rewrite H2. clear H1 H2. simpl in Hfr.
  destruct (look r now K) as [[[s|g] o]|] eqn:E; simpl in *; simplify_eq; [done| |split_and!; [done|set_solver|done]].
  destruct (decide _) as [Hd|Hd]; [split_and!; [done|simpl; set_solver|done]|].
  assert (unexpired now (Some (VSet (g ∖ {[m]}), o)) = Some (VSet (g ∖ {[m]}), o)) as ->; [|done].
  unfold unexpired in *. destruct o as [ex|]; [|done]. by destruct (ex <=? now).
Qed.

Lemma exists_spec k r now :
  exists r', scall (EXISTS k) now r = (inr (match look r now k with Some _ => RInt 1 | None => RInt 0 end), r') /\
    forall k', look r' now k' = look r now k'.
Proof.
  destruct (scall_spec now (EXISTS k) r (match look r now k with Some _ => RInt 1 | None => RInt 0 end)
              (look r now k)) as (r' & H1 & H2);
    [reflexivity|by destruct (look r now k)|by destruct (look r now k)|].
  exists r'. split; [exact H1|]. intros k'. pose proof (scall_exec (EXISTS k) now r) as Hx.
  rewrite H1 in Hx. simpl in Hx. subst r'. apply exec_read. apply look_unexpired.
Qed.

Lemma filter_live K r r' now b (l : list string) : (forall e, live K r' now e = live K r now e) ->
  filter (fun e => live K r' now e = b) l = filter (fun e => live K r now e = b) l.
Proof. intros H. apply list_filter_iff. intros e. by rewrite H. Qed.

Lemma alive_loop_spec K members r now : is_set (look r now K) ->
  exists r', alive_loop K members now r = (inr (filter (fun e => live K r now e = true) members), r') /\
    is_set (look r' now K) /\
    members_of (look r' now K) =
      members_of (look r now K) ∖ list_to_set (filter (fun e => live K r now e = false) members) /\
    (forall k, k <> K -> look r' now k = look r now k).
Proof.
  revert r. induction members as [|m l IH]; intros r Hs; simpl.
  - exists r. split_and!; [done|done|set_solver|done].
  - unfold sbind. destruct (exists_spec (sub_key K m) r now) as (r1 & -> & H1).
    assert (Hlive : forall r', (forall k, k <> K -> look r' now k = look r now k) ->
              forall e, live K r' now e = live K r now e).
    { intros r' H e. unfold live. by rewrite H by apply sub_key_neq. }
    destruct (look r now (sub_key K m)) eqn:Em.
    + assert (live K r now m = true) as Hm by (unfold live; by rewrite Em).
      destruct (IH r1) as (r2 & H2 & Hs2 & Hm2 & Hf2); [by rewrite H1|]. rewrite H2.
      exists r2. rewrite (filter_cons_True (fun e => live K r now e = true)) by done.
      rewrite (filter_cons_False (fun e => live K r now e = false)) by (simpl; congruence).
      split_and!; [|done| |intros k Hk; by rewrite Hf2, H1].
      * unfold sret. by rewrite (filter_live K r) by (by apply Hlive).
      * by rewrite Hm2, H1, (filter_live K r) by (by apply Hlive).
    + assert (live K r now m = false) as Hm by (unfold live; by rewrite Em).
      destruct (srem_spec K m r1 now) as (rep & r2 & -> & Hs2 & Hm2 & Hf2); [by rewrite H1|].
      destruct (IH r2) as (r3 & H3 & Hs3 & Hm3 & Hf3); [done|]. rewrite H3. clear H3.
      exists r3. rewrite (filter_cons_False (fun e => live K r now e = true)) by (simpl; congruence).
      rewrite (filter_cons_True (fun e => live K r now e = false)) by done.
      assert (Hl2 : forall e, live K r2 now e = live K r now e)
        by (apply Hlive; intros; by rewrite Hf2, H1).
      split_and!; [|done| |intros k Hk; by rewrite Hf3, Hf2, H1].
      * by rewrite (filter_live K r) by done.
      * rewrite Hm3, Hm2, H1, (filter_live K r) by done. simpl. set_solver.
Qed.

(** Discovery returns exactly the registered endpoints whose node key is
    alive, each once, and leaves exactly those registered: endpoints whose
    heartbeat lapsed are pruned, and no other key is touched. *)
Theorem discover_returns_live service r now :
  is_set (look r now (set_key service)) ->
  exists alive r', run_script now (Discover service) r = (RArr alive, r') /\ NoDup alive /\
    (forall e, e ∈ alive <->
       e ∈ members_of (look r now (set_key service)) /\ look r now (node_key service e) <> None) /\
    members_of (look r' now (set_key service)) = list_to_set alive /\
    (forall k, k <> set_key service -> look r' now k = look r now k).
Proof.
  intros Hs. set (K := set_key service) in *. set (g := members_of (look r now K)).
  assert (exists l r1, scall (SMEMBERS K) now r = (inr (RArr l), r1) /\ l ≡ₚ elements g /\
            forall k, look r1 now k = look r now k) as (l & r1 & H1 & Hl & Hr1).
  { pose proof (exec_reply now (SMEMBERS K) r) as Hr. unfold scall.
    pose proof (exec_read now (SMEMBERS K) r) as Hx. cbn [cmd_key] in *.
    assert (forall k, look (exec now (SMEMBERS K) r).2 now k = look r now k) as Hf.
    { intros k. apply Hx. simpl. subst g. pose proof (look_unexpired r now K) as Hu.
      by destruct (look r now K) as [[[] ?]|]. }
    destruct (exec now (SMEMBERS K) r) as [rep r1]. simpl in *. subst g.
    destruct (look r now K) as [[[s|g] o]|]; simpl in *; [done| |].
    - destruct rep; try done. by exists l, r1.
    - destruct rep; try done. exists l, r1. by rewrite elements_empty. }
  destruct (alive_loop_spec K l r1 now) as (r2 & H2 & Hs2 & Hm2 & Hf2); [by rewrite Hr1|].
  assert (Hlv : forall e, live K r1 now e = live K r now e) by (intros e; unfold live; by rewrite Hr1).
  rewrite (filter_live K r r1) in H2 by done. rewrite (filter_live K r r1), Hr1 in Hm2 by done.
  exists (filter (fun e => live K r now e = true) l), r2. split_and!.
  - unfold run_script. simpl. unfold discover_script, sbind. fold K. rewrite H1, H2. done.
  - apply NoDup_filter. rewrite Hl. apply NoDup_elements.
  - intros e. rewrite list_elem_of_filter, Hl, elem_of_elements. unfold node_key, live. fold K.
    destruct (look r now (sub_key K e)); naive_solver.
  - rewrite Hm2. fold g. apply set_eq. intros e. rewrite elem_of_difference, !elem_of_list_to_set.
    rewrite !list_elem_of_filter, Hl, elem_of_elements. destruct (live K r now e); naive_solver.
  - intros k Hk. by rewrite Hf2, Hr1.
Qed.
End Scripts.

Module RedisExample.

Definition empty : Store := ∅.

Lemma lock_is_exclusive_witness :
  let r0 := (run_script 1000 (Lock "t1" "node1" 10) empty).2 in
  owns "t1" "node1" 11000 (run_script 5000 (Lock "t1" "node2" 10) (run_calls [(2000, Unlock "t1" "node2")] r0)).2 5000 /\
  refused "t1" (Lock "t1" "node2" 10)
    (run_script 5000 (Lock "t1" "node2" 10) (run_calls [(2000, Unlock "t1" "node2")] r0)).1.
Proof.
  apply (lock_is_exclusive "t1" "node1" 10 empty 1000).
  - lia.
  - reflexivity.
  - simpl. lia.
  - apply Forall_cons; split; [by intros [_ ?]|done].
  - intros x [= <-]. simpl. lia.
  - lia.
  - intros [].
Defined.

Lemma lock_hand_over_witness :
  let r := (run_script 1000 (Lock "t1" "node1" 10) empty).2 in
  (exists r', run_script 1500 (Renew "t1" "node1" 10) r = (RInt 1, r') /\
     owns "t1" "node1" 11500 r' 1500) /\
  (exists r1 r2, run_script 1500 (Unlock "t1" "node1") r = (RInt 1, r1) /\
     run_script 1500 (Lock "t1" "node2" 5) r1 = (RStr "OK", r2) /\
     owns "t1" "node2" 6500 r2 1500) /\
  (exists r', run_script 12000 (Lock "t1" "node2" 5) r = (RStr "OK", r') /\
     owns "t1" "node2" 17000 r' 12000).
Proof. apply (lock_hand_over "t1" "node1" 11000); [lia|lia|reflexivity|lia]. Defined.

Lemma discover_returns_live_witness :
  let r := (run_script 1000 (Register "worker" "h1:9000" 30) empty).2 in
  exists alive r', run_script 40000 (Discover "worker") r = (RArr alive, r') /\ NoDup alive /\
    (forall e, e ∈ alive <->
       e ∈ members_of (look r 40000 (set_key "worker")) /\ look r 40000 (node_key "worker" e) <> None) /\
    members_of (look r' 40000 (set_key "worker")) = list_to_set alive /\
    (forall k, k <> set_key "worker" -> look r' 40000 k = look r 40000 k).
Proof. apply discover_returns_live. exact I. Defined.

End RedisExample.
