(* ===== verification/Discovery.v ===== *)
(** Service discovery over time: registrations, heartbeats and discoveries of
    any number of nodes ([redis/redis_client.cpp]), as the server runs their
    scripts.  A heartbeat is a registration with the same time to live. *)
From S2P Require Import Prelude Redis.

Section Discovery.
Context {R : Type} `{RS : RedisServer R}.

(** ** What a script leaves alone *)

(** The keys a script may write. *)
Definition writes (c : ScriptCall) (k : string) : Prop :=
  match c with
  | Lock key _ _ | Renew key _ _ | Unlock key _ => k = lock_key key
  | Register s e _ | Unregister s e => k = set_key s \/ k = node_key s e
  | Discover s => k = set_key s
  end.

Lemma frames_exists k k' : frames k (scall (EXISTS k')).
Proof. intros now r. rewrite scall_exec. apply exec_read. apply look_unexpired. Qed.

Lemma frames_alive_loop k set members : k <> set -> frames k (alive_loop set members).
Proof.
  intros Hk. induction members as [|m l IH]; cbn [alive_loop]; [apply frames_sret|].
  apply frames_sbind; [apply frames_exists|]. intros a.
  assert (Hs : frames k (sbind (scall (SREM set m)) (fun _ => alive_loop set l)))
    by (apply frames_sbind; [by apply frames_scall|done]).
  destruct a; try exact Hs. destruct z as [|[]|]; try exact Hs.
  apply frames_sbind; [done|]. intros. apply frames_sret.
Qed.

Lemma frames_writes c k : ~ writes c k -> frames k (script_of c).
Proof.
  destruct c as [key v ttl|key v ttl|key v|s e ttl|s e|s]; cbn [writes script_of]; intros Hk.
  - apply frames_sbind; [by apply frames_scall|]. intros a. destruct a; try apply frames_sret.
    destruct z as [|[]|]; try apply frames_sret. apply frames_sbind; [by apply frames_scall|]. intros; apply frames_sret.
  - by apply frames_owner.
  - by apply frames_owner.
  - apply frames_sbind; [apply frames_scall; naive_solver|]. intros ?.
    apply frames_sbind; [apply frames_scall; naive_solver|]. intros ?. apply frames_sret.
  - apply frames_sbind; [apply frames_scall; naive_solver|]. intros ?. apply frames_scall. naive_solver.
  - apply frames_sbind; [by apply frames_scall|]. intros a. destruct a; try apply frames_sret.
    apply frames_sbind; [by apply frames_alive_loop|]. intros; apply frames_sret.
Qed.

Lemma run_script_frames c k now r : ~ writes c k -> look (run_script now c r).2 now k = look r now k.
Proof.
  intros Hk. pose proof (frames_writes c k Hk now r) as Hf. unfold run_script.
  by destruct (script_of c now r) as [[] r'].
Qed.

(** ** The set of a service *)

(** A set that never expires; no key is an empty set. *)
Definition set_is (k : string) (g : gset string) (r : R) (now : Z) : Prop :=
  look r now k = if decide (g = ∅) then None else Some (VSet g, None).

Lemma set_is_later k g r now now' : now <= now' -> set_is k g r now -> set_is k g r now'.
Proof. intros Ht H. unfold set_is in *. rewrite (look_later r now now') by done. rewrite H. by case_decide. Qed.

Lemma set_is_members k g r now : set_is k g r now -> is_set (look r now k) /\ members_of (look r now k) = g.
Proof. unfold set_is. intros ->. case_decide; [by subst|done]. Qed.

Lemma sadd_spec k e g r now : set_is k g r now ->
  exists rep r', scall (SADD k e) now r = (inr rep, r') /\ set_is k ({[e]} ∪ g) r' now.
Proof.
  intros Hg. destruct (cmd_spec now (SADD k e) (look r now k)) as [rep x] eqn:Ec.
  assert (Hx : x = Some (VSet ({[e]} ∪ g), None) /\ (rep = RInt 0 \/ rep = RInt 1)).
  { unfold set_is in Hg. rewrite Hg in Ec. cbn in Ec. case_decide; cbn in Ec; simplify_eq.
    - split; [do 3 f_equal; set_solver|by right].
    - split; [done|]. case_bool_decide; naive_solver. }
  destruct Hx as [-> Hrep].
  destruct (scall_spec now (SADD k e) r rep _ Ec) as (r' & -> & H2); [naive_solver..|].
  exists rep, r'. split; [done|]. unfold set_is. rewrite decide_False by set_solver. done.
Qed.

Lemma srem_set_spec k e g r now : set_is k g r now ->
  exists rep r', scall (SREM k e) now r = (inr rep, r') /\ set_is k (g ∖ {[e]}) r' now.
Proof.
  intros Hg. destruct (cmd_spec now (SREM k e) (look r now k)) as [rep x] eqn:Ec.
  assert (Hx : x = (if decide (g ∖ {[e]} = ∅) then None else Some (VSet (g ∖ {[e]}), None)) /\ (rep = RInt 0 \/ rep = RInt 1)).
  { unfold set_is in Hg. rewrite Hg in Ec. cbn in Ec. case_decide; cbn in Ec; simplify_eq.
    - split; [rewrite decide_True by set_solver; done|by left].
    - split; [done|]. case_bool_decide; naive_solver. }
  destruct Hx as [-> Hrep].
  destruct (scall_spec now (SREM k e) r rep _ Ec) as (r' & -> & H2); [naive_solver..|].
  exists rep, r'. split; [done|]. unfold set_is. cbn [cmd_key] in H2. rewrite H2. by case_decide.
Qed.

(** Discovery leaves a set that never expires. *)
Lemma alive_loop_set k members g r now : set_is k g r now ->
  exists g', set_is k g' (alive_loop k members now r).2 now.
Proof.
  revert g r. induction members as [|m l IH]; intros g r Hg; cbn [alive_loop]; [by exists g|].
  unfold sbind. destruct (exists_spec (sub_key k m) r now) as (r1 & -> & H1).
  assert (Hg1 : set_is k g r1 now) by (unfold set_is; by rewrite H1).
  destruct (look r now (sub_key k m)).
  - destruct (IH g r1 Hg1) as [g' Hg']. by destruct (alive_loop k l now r1) as [[] r2]; exists g'.
  - destruct (srem_set_spec k m g r1 now Hg1) as (rep & r2 & -> & Hg2). by eapply IH.
Qed.

Lemma discover_set s g r now : set_is (set_key s) g r now ->
  exists g', set_is (set_key s) g' (run_script now (Discover s) r).2 now.
Proof.
  intros Hg. unfold run_script. cbn [script_of]. unfold discover_script, sbind.
  assert (Hr : look (scall (SMEMBERS (set_key s)) now r).2 now (set_key s) = look r now (set_key s)).
  { rewrite scall_exec. apply exec_read. cbn [cmd_key]. unfold set_is in Hg. rewrite Hg. by case_decide. }
  destruct (scall (SMEMBERS (set_key s)) now r) as [[|[]] r1]; cbn [snd sret] in *;
    try (exists g; unfold set_is; by rewrite Hr).
  destruct (alive_loop_set (set_key s) l g r1 now) as [g' Hg']; [unfold set_is; by rewrite Hr|].
  by destruct (alive_loop (set_key s) l now r1) as [[] r2]; exists g'.
Qed.

(** ** One endpoint of one service *)

Section Endpoint.
Context (service e : string).

Abbreviation K := (set_key service).
Abbreviation nk := (node_key service e).

Lemma node_key_inj e1 e2 : node_key service e1 = node_key service e2 -> e1 = e2.
Proof. unfold node_key, sub_key. intros H. by apply append_inj_r, append_inj_r in H. Qed.

Lemma node_key_not_set e' : node_key service e' <> K.
Proof. apply sub_key_neq. Qed.

(** Scripts of another service write neither of the endpoint's keys; nobody
    unregisters the endpoint. *)
Definition spares (c : ScriptCall) : Prop :=
  match c with
  | Lock _ _ _ | Renew _ _ _ | Unlock _ _ => True
  | Register s _ ttl => s = service /\ 0 < ttl \/ ~ writes c K /\ ~ writes c nk
  | Unregister s e' => s = service /\ e' <> e \/ ~ writes c K /\ ~ writes c nk
  | Discover s => s = service \/ ~ writes c K /\ ~ writes c nk
  end.

Definition own_beat (c : ScriptCall) : option Z :=
  match c with
  | Register s e' ttl => if decide (s = service /\ e' = e) then Some ttl else None
  | _ => None
  end.

(** Alive until [until], and if it is alive, a member. *)
Definition registered (until : Z) (r : R) (now : Z) : Prop :=
  (exists g, set_is K g r now /\ (now < until -> e ∈ g)) /\
  look r now nk = if until <=? now then None else Some (VStr e, Some until).

Definition renewed (now : Z) (c : ScriptCall) (until : Z) : Z :=
  match own_beat c with Some ttl => now + ttl * 1000 | None => until end.

Lemma registered_later until r now now' : now <= now' -> registered until r now -> registered until r now'.
Proof.
  intros Ht [(g & Hg & He) Hn]. split.
  - exists g. split; [by eapply set_is_later|]. intros ?. apply He. lia.
  - rewrite (look_later r now now') by done. rewrite Hn. unfold unexpired.
    destruct (Z.leb_spec until now); [|done]. by rewrite (proj2 (Z.leb_le _ _)) by lia.
Qed.

(** A script that writes neither key. *)
Lemma registered_frame until c r now : ~ writes c K -> ~ writes c nk ->
  registered until r now -> registered until (run_script now c r).2 now.
Proof. intros H1 H2 [Hs Hn]. unfold registered, set_is. by rewrite !run_script_frames. Qed.

(** Anyone's registration of the service puts its endpoint in the set. *)
Lemma register_spec e' ttl g r now : 0 < ttl -> set_is K g r now ->
  set_is K ({[e']} ∪ g) (run_script now (Register service e' ttl) r).2 now /\
  look (run_script now (Register service e' ttl) r).2 now (node_key service e') = Some (VStr e', Some (now + ttl * 1000)).
Proof.
  intros Ht Hg. unfold run_script. cbn [script_of]. unfold register_script, sbind.
  destruct (scall_spec now (SETEX (node_key service e') e' ttl) r (RStatus "OK") (Some (VStr e', Some (now + ttl * 1000))))
    as (r1 & H1 & H2); [done..|]. rewrite H1.
  assert (Hg1 : set_is K g r1 now).
  { unfold set_is. rewrite <- Hg. pose proof (frames_scall (SETEX (node_key service e') e' ttl) K) as Hf.
    specialize (Hf (not_eq_sym (node_key_not_set e')) now r). by rewrite H1 in Hf. }
  destruct (sadd_spec K e' g r1 now Hg1) as (rep & r2 & H3 & H4). rewrite H3. cbn [snd sret]. split; [done|].
  pose proof (frames_scall (SADD K e') (node_key service e') (node_key_not_set e') now r1) as Hf. rewrite H3 in Hf.
  cbn [snd] in Hf. rewrite Hf. cbn [cmd_key] in H2. rewrite H2. unfold unexpired.
  by rewrite (proj2 (Z.leb_gt _ _)) by lia.
Qed.

Lemma registered_register e' ttl until r now : 0 < ttl -> registered until r now ->
  registered (renewed now (Register service e' ttl) until) (run_script now (Register service e' ttl) r).2 now.
Proof.
  intros Ht [(g & Hg & He) Hn]. destruct (register_spec e' ttl g r now Ht Hg) as [Hg' Hn'].
  unfold renewed, own_beat. case_decide as Hd.
  - destruct Hd as [_ ->]. split; [exists ({[e]} ∪ g); split; [done|set_solver]|].
    rewrite Hn'. by rewrite (proj2 (Z.leb_gt _ _)) by lia.
  - split; [exists ({[e']} ∪ g); split; [done|set_solver]|]. rewrite run_script_frames; [done|].
    cbn [writes]. intros [H|H]; [by apply (node_key_not_set e) in H|]. apply node_key_inj in H as <-. by apply Hd.
Qed.

Lemma registered_unregister e' until r now : e' <> e -> registered until r now ->
  registered until (run_script now (Unregister service e') r).2 now.
Proof.
  intros Hne [(g & Hg & He) Hn]. split.
  - exists (g ∖ {[e']}). split; [|set_solver]. unfold run_script. cbn [script_of]. unfold unregister_script, sbind.
    destruct (srem_set_spec K e' g r now Hg) as (rep & r1 & H1 & H2). rewrite H1.
    pose proof (frames_scall (DEL (node_key service e')) K (not_eq_sym (node_key_not_set e')) now r1) as Hf.
    unfold set_is. destruct (scall (DEL (node_key service e')) now r1) as [[] r2]; cbn [snd] in *; by rewrite Hf.
  - rewrite run_script_frames; [done|]. cbn [writes]. intros [H|H]; [by apply (node_key_not_set e) in H|].
    by apply node_key_inj in H.
Qed.

(** A discovery answers the endpoint exactly while it is alive. *)
Lemma discover_spec until r now : registered until r now ->
  exists alive r', run_script now (Discover service) r = (RArr alive, r') /\
    (e ∈ alive <-> now < until) /\ registered until r' now.
Proof.
  intros [(g & Hg & He) Hn]. destruct (set_is_members _ _ _ _ Hg) as [Hs Hm].
  destruct (discover_returns_live service r now Hs) as (alive & r' & Hr & _ & Hin & Hm' & Hf).
  assert (Hiff : e ∈ alive <-> now < until).
  { rewrite Hin, Hm, Hn. destruct (Z.leb_spec until now); [split; [naive_solver|lia]|]. naive_solver. }
  exists alive, r'. split_and!; [done|done|]. split; [|rewrite Hf; [done|apply node_key_not_set]].
  destruct (discover_set service g r now Hg) as [g' Hg']. rewrite Hr in Hg'. cbn [snd] in Hg'.
  exists g'. split; [done|]. apply set_is_members in Hg' as [_ Hg'']. rewrite Hm' in Hg''.
  intros Ht. rewrite <- Hg'', elem_of_list_to_set. by apply Hiff.
Qed.

Lemma registered_step until c r now : spares c -> registered until r now ->
  registered (renewed now c until) (run_script now c r).2 now.
Proof.
  intros Hc Hr.
  assert (Hframe : ~ writes c K -> ~ writes c nk -> registered (renewed now c until) (run_script now c r).2 now).
  { intros H1 H2. assert (own_beat c = None) as Hb.
    { destruct c; try done. cbn [own_beat]. case_decide as Hd; [|done]. destruct Hd as [-> ->].
      destruct H1. by left. }
    unfold renewed. rewrite Hb. by apply registered_frame. }
  destruct c as [key v ttl|key v ttl|key v|s e' ttl|s e'|s]; cbn [spares] in Hc.
  1-3: by apply Hframe.
  - destruct Hc as [[-> Ht]|[H1 H2]]; [by apply registered_register|by apply Hframe].
  - destruct Hc as [[-> Ht]|[H1 H2]]; [by apply registered_unregister|by apply Hframe].
  - destruct Hc as [->|[H1 H2]]; [|by apply Hframe].
    destruct (discover_spec until r now Hr) as (alive & r' & -> & _ & Hr'). done.
Qed.

(** ** Over time *)

(** When the endpoint expires after a run of scripts. *)
Fixpoint expires (until : Z) (l : list (Z * ScriptCall)) : Z :=
  match l with
  | [] => until
  | (now, c) :: l' => expires (renewed now c until) l'
  end.

Fixpoint in_order (now : Z) (l : list (Z * ScriptCall)) : Prop :=
  match l with
  | [] => True
  | (t, _) :: l' => now <= t /\ in_order t l'
  end.

Definition last_time (now : Z) (l : list (Z * ScriptCall)) : Z := default now (fst <$> last l).

Lemma registered_run until l r now t : in_order now l -> last_time now l <= t -> Forall (fun x => spares x.2) l ->
  registered until r now -> registered (expires until l) (run_calls l r) t.
Proof.
  revert until r now. induction l as [|[t' c] l IH]; intros u r now Ho Ht Hl Hr; cbn [expires run_calls].
  - by apply (registered_later _ _ now).
  - destruct Ho as [Ho1 Ho2]. apply Forall_cons in Hl as [Hc Hl]. apply (IH _ _ t'); [done| |done|].
    + unfold last_time in *. rewrite last_cons in Ht. by destruct (last l).
    + apply registered_step; [done|]. by apply (registered_later _ _ now).
Qed.

(** C7.  From its first registration on, and whatever scripts all the nodes
    run, an endpoint that nobody unregisters is answered by a discovery exactly
    while the time to live of its last heartbeat has not passed: a worker that
    keeps its heartbeats is found every time, also after it was late and came
    back, and one that died is found no more once the time is over. *)
Theorem discovered_while_heartbeats_last ttl r0 t0 g l t :
  set_is K g r0 t0 -> 0 < ttl -> in_order t0 l -> last_time t0 l <= t -> Forall (fun x => spares x.2) l ->
  let r := run_calls l (run_script t0 (Register service e ttl) r0).2 in
  exists alive r', run_script t (Discover service) r = (RArr alive, r') /\
    (e ∈ alive <-> t < expires (t0 + ttl * 1000) l).
Proof.
  intros Hg Ht Ho Hl Hs r.
  destruct (register_spec e ttl g r0 t0 Ht Hg) as [Hg' Hn'].
  assert (Hr0 : registered (t0 + ttl * 1000) (run_script t0 (Register service e ttl) r0).2 t0).
  { split; [exists ({[e]} ∪ g); split; [done|set_solver]|]. rewrite Hn'. by rewrite (proj2 (Z.leb_gt _ _)) by lia. }
  destruct (discover_spec _ _ _ (registered_run _ l _ _ t Ho Hl Hs Hr0)) as (alive & r' & H1 & H2 & _).
  by exists alive, r'.
Qed.

End Endpoint.
End Discovery.

(** Two workers that also serve a handler's own service; one leaves. *)
Module DiscoveryExample.

Abbreviation h1 := "127.0.0.1:9000"%string.
Abbreviation h2 := "127.0.0.1:9001"%string.

Definition day : list (Z * ScriptCall) := [
  (2000, Register "worker:Echo" h1 30); (3000, Register "worker" h2 30); (4000, Lock "t1" "node1" 10);
  (6000, Register "worker" h1 30); (7000, Unregister "worker" h2); (8000, Discover "worker");
  (31000, Register "worker" h1 30); (31500, Discover "worker:Echo")].

Definition after_day : Store := run_calls day (run_script 1000 (Register "worker" h1 30) (∅ : Store)).2.

Example found : (run_script 60000 (Discover "worker") after_day).1 = RArr [h1].
Proof. vm_compute. reflexivity. Qed.
Example lost : (run_script 61000 (Discover "worker") after_day).1 = RArr [].
Proof. vm_compute. reflexivity. Qed.

Lemma apart : Forall (fun x => spares "worker" h1 x.2) day.
Proof.
  unfold day. repeat (apply Forall_cons; split; [|]); [..|by apply Forall_nil]; cbn [snd spares]; try done.
  - right. split; intros [H|H]; discriminate.
  - by left.
  - by left.
  - left. by split.
  - by left.
  - by left.
  - right. split; discriminate.
Qed.

Lemma discovered_while_heartbeats_last_witness :
  exists alive r', run_script 60000 (Discover "worker") after_day = (RArr alive, r') /\
    (h1 ∈ alive <-> 60000 < expires "worker" h1 (1000 + 30 * 1000) day).
Proof.
  apply (discovered_while_heartbeats_last "worker" h1 30 ∅ 1000 ∅ day 60000).
  - reflexivity.
  - lia.
  - cbn. lia.
  - cbn. lia.
  - apply apart.
Defined.

End DiscoveryExample.
