(* ===== verification/RedisClient.v ===== *)
(** [RedisClient]: the connection pool, the retry of [command] and the methods of
    [src/redis/redis_client.cpp], which send the scripts of [Redis].

    Call number [k] of hiredis is answered by [hiredis k]: what the scripts of
    other nodes did since the previous call, the server's clock, and whether
    the call succeeds, fails before it reaches the server, or is executed with
    its reply lost. *)
From S2P Require Import Prelude StorageError Redis.

Section RedisClient.
Context {R : Type} `{RS : RedisServer R}.

Inductive RAnswer :=
  | ROk
  | RFail (err : Z) (errstr : string)     (* not executed *)
  | RLost (err : Z) (errstr : string).    (* executed, no reply *)

Record RTick := mkRTick {
  rk_others : list (Z * ScriptCall);
  rk_now : Z;
  rk_answer : RAnswer
}.

Context (hiredis : nat -> RTick).

Record RedisClientOptions := mkRedisClientOptions {
  rd_pool_size : Z;
  rd_connect_timeout_ms : Z;
  rd_command_timeout_ms : Z
}.

Record Rc := mkRc {
  rc_server : R;
  rc_clock : nat;
  rc_slots : list bool;               (* whether the slot has a context *)
  rc_next_slot : Z;
  rc_last_error : StorageError
}.

Definition normalize_redis_options (o : RedisClientOptions) : RedisClientOptions := {|
  rd_pool_size := if rd_pool_size o =? 0 then 1 else rd_pool_size o;
  rd_connect_timeout_ms := if rd_connect_timeout_ms o <=? 0 then 1000 else rd_connect_timeout_ms o;
  rd_command_timeout_ms := if rd_command_timeout_ms o <=? 0 then 1000 else rd_command_timeout_ms o
|}.

Definition new_redis (r : R) (o : RedisClientOptions) : Rc :=
  mkRc r 0 (replicate (Z.to_nat (rd_pool_size (normalize_redis_options o))) false) 0 no_error.

(** Seconds and microseconds of a [timeval]. *)
Definition to_timeval (timeout_ms : Z) : Z * Z :=
  let timeout_ms := if timeout_ms <=? 0 then 1000 else timeout_ms in
  (Z.quot timeout_ms 1000, Z.rem timeout_ms 1000 * 1000).

Definition set_server (r : R) (c : Rc) : Rc :=
  mkRc r (rc_clock c) (rc_slots c) (rc_next_slot c) (rc_last_error c).
Definition set_rslot (i : nat) (b : bool) (c : Rc) : Rc :=
  mkRc (rc_server c) (rc_clock c) (<[i := b]> (rc_slots c)) (rc_next_slot c) (rc_last_error c).

Definition setLastError (kind : StorageErrorKind) (code : Z) (message : string) : M Rc () :=
  modify (fun c => mkRc (rc_server c) (rc_clock c) (rc_slots c) (rc_next_slot c)
                     (mkStorageError kind code message)).

Definition lastError : M Rc StorageError := gets rc_last_error.

(** The server as the next call finds it. *)
Definition radvance (c : Rc) : Rc :=
  mkRc (run_calls (rk_others (hiredis (rc_clock c))) (rc_server c)) (S (rc_clock c)) (rc_slots c)
    (rc_next_slot c) (rc_last_error c).

(** A call that does not touch the keyspace: [redisConnectWithTimeout], [redisSetTimeout]. *)
Definition plain_call : M Rc (option (Z * string)) := fun c =>
  ((match rk_answer (hiredis (rc_clock c)) with
    | ROk => None
    | RFail e m | RLost e m => Some (e, m)
    end), radvance c).

(** [redisvCommand]: a reply, or the error of the context. *)
Definition eval_call (s : ScriptCall) : M Rc ((Z * string) + Reply) := fun c =>
  let tk := hiredis (rc_clock c) in
  let c := radvance c in
  let '(reply, r') := run_script (rk_now tk) s (rc_server c) in
  match rk_answer tk with
  | ROk => (inr reply, set_server r' c)
  | RFail e m => (inl (e, m), c)
  | RLost e m => (inl (e, m), set_server r' c)
  end.

Definition connectSlotLocked (i : nat) : M Rc bool :=
  modify (set_rslot i false) ;;*
  let* e := plain_call in
  match e with
  | Some (code, message) => setLastError (classify_redis_error code (Some message)) code message ;;* retM false
  | None =>
      modify (set_rslot i true) ;;*
      let* e := plain_call in
      match e with
      | Some (code, errstr) =>
          let message := if str_empty errstr then "redisSetTimeout failed" else errstr in
          setLastError (classify_redis_error code (Some message)) code message ;;*
          modify (set_rslot i false) ;;*
          retM false
      | None => setLastError EK_None 0 EmptyString ;;* retM true
      end
  end.

Fixpoint connect_from (i n : nat) (ok : bool) : M Rc bool :=
  match n with
  | O => retM ok
  | S n' => let* b := connectSlotLocked i in connect_from (S i) n' (b && ok)
  end.

Definition connect : M Rc bool :=
  let* slots := gets rc_slots in connect_from 0 (length slots) true.

Definition disconnect : M Rc () :=
  modify (fun c => mkRc (rc_server c) (rc_clock c) (map (fun _ => false) (rc_slots c)) (rc_next_slot c)
                     (rc_last_error c)).

Definition pickSlot : M Rc nat := fun c =>
  (Z.to_nat (u64 (rc_next_slot c) mod Z.of_nat (length (rc_slots c))),
   mkRc (rc_server c) (rc_clock c) (rc_slots c) (u64 (rc_next_slot c + 1)) (rc_last_error c)).

Definition note_reply (reply : Reply) : M Rc () :=
  match reply with
  | RErr message => setLastError EK_Query 0 message
  | _ => setLastError EK_None 0 EmptyString
  end.

Definition note_error (e : Z * string) : M Rc () :=
  if e.1 =? 0 then retM () else setLastError (classify_redis_error e.1 (Some e.2)) e.1 e.2.

(** The second attempt, on a new connection. *)
Definition retry_command (i : nat) (s : ScriptCall) : M Rc (option Reply) :=
  let* again := connectSlotLocked i in                (* reconnectSlotLocked *)
  if negb again then retM None
  else
    let* reply := eval_call s in
    match reply with
    | inr reply => note_reply reply ;;* retM (Some reply)
    | inl e => note_error e ;;* retM None
    end.

Definition send_command (i : nat) (s : ScriptCall) : M Rc (option Reply) :=
  let* reply := eval_call s in
  match reply with
  | inr reply => note_reply reply ;;* retM (Some reply)
  | inl e => note_error e ;;* retry_command i s
  end.

Definition slot_ready (i : nat) : M Rc bool :=
  let* slots := gets rc_slots in
  if default false (slots !! i) then retM true else connectSlotLocked i.

Definition command (s : ScriptCall) : M Rc (option Reply) :=
  let* i := pickSlot in
  let* ready := slot_ready i in
  if ready then send_command i s else retM None.

(** ** Methods *)

Definition is_status_ok (reply : option Reply) : bool :=
  match reply with Some (RStatus s) => String.eqb s "OK" | _ => false end.
Definition is_one (reply : option Reply) : bool :=
  match reply with Some (RInt z) => z =? 1 | _ => false end.

Definition registerService (service_name endpoint : string) (ttl_sec : Z) : M Rc bool :=
  if str_empty service_name || str_empty endpoint || (ttl_sec <=? 0) then retM false
  else let* reply := command (Register service_name endpoint ttl_sec) in retM (is_status_ok reply).

Definition unregisterService (service_name endpoint : string) : M Rc () :=
  if str_empty service_name || str_empty endpoint then retM ()
  else command (Unregister service_name endpoint) ;;* retM ().

Definition heartbeat (service_name endpoint : string) (ttl_sec : Z) : M Rc bool :=
  registerService service_name endpoint ttl_sec.

Definition discoverServices (service_name : string) : M Rc (list string) :=
  if str_empty service_name then retM []
  else
    let* reply := command (Discover service_name) in
    retM (match reply with Some (RArr l) => l | _ => [] end).

(** [elapsed i] is the time, in milliseconds, that the [i]-th round of the loop
    measures since its start.  [None] is running out of [fuel]. *)
Fixpoint lock_loop (elapsed : nat -> Z) (key value : string) (expire_sec timeout_ms : Z)
    (round fuel : nat) : M Rc (option bool) :=
  match fuel with
  | O => retM None
  | S fuel' =>
      let* reply := command (Lock key value expire_sec) in
      match reply with
      | Some (RStr s) =>
          if String.eqb s "OK" then retM (Some true)
          else if timeout_ms <=? elapsed round then retM (Some false)
          else lock_loop elapsed key value expire_sec timeout_ms (S round) fuel'
      | _ =>
          if timeout_ms <=? elapsed round then retM (Some false)
          else lock_loop elapsed key value expire_sec timeout_ms (S round) fuel'
      end
  end.

(** A round sleeps 50 ms, so [timeout_ms / 50 + 2] rounds are enough. *)
Definition lock_fuel (timeout_ms : Z) : nat := (Z.to_nat (timeout_ms / 50) + 2)%nat.

Definition lock (elapsed : nat -> Z) (key value : string) (expire_sec timeout_ms : Z) : M Rc bool :=
  if str_empty key || str_empty value || (expire_sec <=? 0) then retM false
  else
    let* r := lock_loop elapsed key value expire_sec timeout_ms 0 (lock_fuel timeout_ms) in
    retM (default false r).

Definition renewLock (key value : string) (expire_sec : Z) : M Rc bool :=
  if str_empty key || str_empty value || (expire_sec <=? 0) then retM false
  else let* reply := command (Renew key value expire_sec) in retM (is_one reply).

Definition unlock (key value : string) : M Rc bool :=
  if str_empty key || str_empty value then retM false
  else let* reply := command (Unlock key value) in retM (is_one reply).

(** ** What a command does *)

(** [k] scripts [s] of this client among those of other nodes. *)
Inductive runs (s : ScriptCall) : nat -> R -> R -> Prop :=
  | runs_nil r : runs s 0 r r
  | runs_other k r l r' : runs s k (run_calls l r) r' -> runs s k r r'
  | runs_own k r now r' : runs s k (run_script now s r).2 r' -> runs s (S k) r r'.

Lemma runs_snoc_other s k r r' l : runs s k r r' -> runs s k r (run_calls l r').
Proof. induction 1; try (by econstructor). apply (runs_other s 0 r l). constructor. Qed.

Lemma runs_snoc_own s k r r' now : runs s k r r' -> runs s (S k) r (run_script now s r').2.
Proof.
  induction 1; [|by eapply runs_other|by eapply runs_own]. eapply runs_own. constructor.
Qed.

(** The last thing a reply reports: the script ran at [now] on [r1] with it. *)
Definition replied (s : ScriptCall) (reply : Reply) (r1 r2 : R) : Prop :=
  exists now, run_script now s r1 = (reply, r2).
Lemma run_calls_app l1 l2 (r : R) : run_calls l2 (run_calls l1 r) = run_calls (l1 ++ l2) r.
Proof. revert r. induction l1 as [|[t x] l IH]; intros r; simpl; [done|]. apply IH. Qed.

Lemma server_connect i c : exists l,
  rc_server (connectSlotLocked i c).2 = run_calls l (rc_server c).
Proof.
  unfold connectSlotLocked, bindM, modify, plain_call, setLastError, retM. simpl.
  destruct (rk_answer (hiredis (rc_clock c))); simpl; try (eexists; reflexivity).
  exists (rk_others (hiredis (rc_clock c)) ++ rk_others (hiredis (S (rc_clock c)))).
  destruct (rk_answer (hiredis (S (rc_clock c)))); simpl; by rewrite run_calls_app.
Qed.

Lemma server_eval s c : exists l,
  let r1 := run_calls l (rc_server c) in
  match eval_call s c with
  | (inr reply, c') => replied s reply r1 (rc_server c')
  | (inl _, c') => rc_server c' = r1 \/ exists now, rc_server c' = (run_script now s r1).2
  end.
Proof.
  exists (rk_others (hiredis (rc_clock c))). unfold eval_call, radvance, replied; cbv zeta; cbn [rc_server rc_clock].
  set (r1 := run_calls _ _). set (tk := hiredis (rc_clock c)).
  destruct (run_script (rk_now tk) s r1) as [reply r'] eqn:E.
  destruct (rk_answer tk); simpl.
  - by eexists.
  - by left.
  - right. eexists. by rewrite E.
Qed.

Lemma server_note_reply reply c : rc_server (note_reply reply c).2 = rc_server c.
Proof. by destruct reply. Qed.

Lemma server_note_error e c : rc_server (note_error e c).2 = rc_server c.
Proof. unfold note_error. by destruct (e.1 =? 0). Qed.

(** From a server reached with [k] runs of [s]: at most one more run, a reply
    reporting the last one. *)
Definition sends (s : ScriptCall) (k n : nat) (r0 : R) (x : option Reply * Rc) : Prop :=
  match x with
  | (Some reply, c') => exists k' r1, (k <= k' <= k + n)%nat /\ runs s k' r0 r1 /\ replied s reply r1 (rc_server c')
  | (None, c') => exists k', (k <= k' <= k + n + 1)%nat /\ runs s k' r0 (rc_server c')
  end.

Lemma runs_connect s k r0 i c :
  runs s k r0 (rc_server c) -> runs s k r0 (rc_server (connectSlotLocked i c).2).
Proof. intros Hr. destruct (server_connect i c) as [l ->]. by apply runs_snoc_other. Qed.

Lemma runs_eval_lost s k r0 c r1 l :
  runs s k r0 (rc_server c) -> r1 = run_calls l (rc_server c) ->
  forall r', r' = r1 \/ (exists now, r' = (run_script now s r1).2) ->
  exists k', (k <= k' <= k + 1)%nat /\ runs s k' r0 r'.
Proof.
  intros Hr -> r' [-> | [now ->]].
  - exists k. split; [lia|]. by apply runs_snoc_other.
  - exists (S k). split; [lia|]. by apply runs_snoc_own, runs_snoc_other.
Qed.

Lemma retry_command_spec i s k r0 c :
  runs s k r0 (rc_server c) -> sends s k 0 r0 (retry_command i s c).
Proof.
  intros Hr. unfold retry_command, bindM.
  pose proof (runs_connect s k r0 i c Hr) as H1. destruct (connectSlotLocked i c) as [[] c1]; simpl in *;
    [|exists k; split; [lia|done]].
  destruct (server_eval s c1) as [l He]. cbv zeta in He.
  destruct (eval_call s c1) as [[e|reply] c2].
  - pose proof (server_note_error e c2) as Hn. destruct (note_error e c2) as [u c3]. simpl in *.
    rewrite Hn. destruct (runs_eval_lost s k r0 c1 _ l H1 eq_refl _ He) as (k' & Hk & ?).
    exists k'. split; [lia|done].
  - pose proof (server_note_reply reply c2) as Hn. destruct (note_reply reply c2) as [u c3]. simpl in *.
    exists k, (run_calls l (rc_server c1)). split; [lia|]. rewrite Hn. split; [|done]. by apply runs_snoc_other.
Qed.

Lemma send_command_spec i s r0 c :
  runs s 0 r0 (rc_server c) -> sends s 0 1 r0 (send_command i s c).
Proof.
  intros Hr. unfold send_command, bindM. destruct (server_eval s c) as [l He]. cbv zeta in He.
  destruct (eval_call s c) as [[e|reply] c2].
  - pose proof (server_note_error e c2) as Hn. destruct (note_error e c2) as [u c3]. simpl in Hn.
    rewrite <- Hn in He. destruct (runs_eval_lost s 0 r0 c _ l Hr eq_refl _ He) as (k' & Hk & Hr').
    pose proof (retry_command_spec i s k' r0 c3 Hr') as H.
    destruct (retry_command i s c3) as [[reply|] c4]; simpl in *.
    + destruct H as (k2 & r1 & ? & ? & ?). exists k2, r1. split; [lia|done].
    + destruct H as (k2 & ? & ?). exists k2. split; [lia|done].
  - pose proof (server_note_reply reply c2) as Hn. destruct (note_reply reply c2) as [u c3]. simpl in *.
    exists 0%nat, (run_calls l (rc_server c)). split; [lia|]. rewrite Hn. split; [|done].
    by apply runs_snoc_other.
Qed.

(** [command] runs its script at most twice, the second time only after a
    first attempt without a reply. *)
Lemma command_spec s c : sends s 0 1 (rc_server c) (command s c).
Proof.
  unfold command, slot_ready, bindM, pickSlot, gets. cbn [fst snd].
  set (i := Z.to_nat _). set (c0 := mkRc _ _ _ _ _).
  assert (H0 : runs s 0 (rc_server c) (rc_server c0)) by constructor. clearbody i c0.
  destruct (default false (rc_slots c0 !! i)).
  - unfold retM. by apply send_command_spec.
  - pose proof (runs_connect s 0 _ i c0 H0) as H1. destruct (connectSlotLocked i c0) as [[] c1].
    + by apply send_command_spec.
    + exists 0%nat. split; [lia|done].
Qed.

(** ** What the lock methods promise *)

Lemma owner_one_inv now key value c (r r' : R) :
  owner_script key value c now r = (inr (RInt 1), r') -> exists e, look r now key = Some (VStr value, e).
Proof.
  unfold owner_script, sbind. intros H.
  pose proof (exec_reply now (GET key) r) as Hr. unfold scall in H. simpl in Hr.
  destruct (exec now (GET key) r) as [rep r1]. simpl in Hr.
  destruct (look r now key) as [[[s|g] e]|]; destruct rep; simpl in Hr; simplify_eq; try done.
  destruct (String.eqb s value) eqn:E; [|done]. zify_bools. subst. by exists e.
Qed.

Lemma scall_err c now (r r' : R) e : scall c now r = (inl e, r') -> exists s, e = RErr s.
Proof. unfold scall. destruct (exec now c r) as [[] ?]; intros [=]; eauto. Qed.

Lemma owner_err key value c now (r r' : R) e :
  owner_script key value c now r = (inl e, r') -> exists s, e = RErr s.
Proof.
  unfold owner_script, sbind. destruct (scall (GET key) now r) as [[x|rep] r1] eqn:E.
  - intros [= -> ->]. by eapply scall_err.
  - destruct rep; try done. destruct (String.eqb s value); [|done]. apply scall_err.
Qed.

Lemma lock_reply_inv now key value ttl (r r' : R) :
  0 < ttl -> run_script now (Lock key value ttl) r = (RStr "OK", r') ->
  look r now (lock_key key) = None /\ owns key value (now + ttl * 1000) r' now.
Proof.
  intros Ht. unfold run_script. simpl. destruct (look r now (lock_key key)) as [x|] eqn:E.
  - destruct (lock_busy_spec now (lock_key key) value ttl r x E) as (r1 & -> & _). done.
  - destruct (lock_free_spec now (lock_key key) value ttl r Ht E) as (r1 & -> & Hl).
    intros [= <-]. done.
Qed.

Lemma renew_reply_inv now key value ttl (r r' : R) :
  0 < ttl -> run_script now (Renew key value ttl) r = (RInt 1, r') ->
  (exists e, look r now (lock_key key) = Some (VStr value, e)) /\
  owns key value (now + ttl * 1000) r' now.
Proof.
  intros Ht. unfold run_script. simpl. unfold renew_script.
  destruct (owner_script _ _ _ now r) as [[e|x] r1] eqn:E; intros H; simplify_eq.
  - by apply owner_err in E as [].
  - destruct (owner_one_inv _ _ _ _ _ _ E) as [e He]. split; [by exists e|].
    edestruct (owner_spec now (lock_key key) (EXPIRE (lock_key key) ttl)) as (r2 & Hs & Hl);
      [exact He|done|reflexivity|done|done|]. rewrite Hs in E. simplify_eq. unfold owns. rewrite Hl.
    unfold unexpired. by rewrite (proj2 (Z.leb_gt _ _)) by lia.
Qed.

Lemma unlock_reply_inv now key value (r r' : R) :
  run_script now (Unlock key value) r = (RInt 1, r') ->
  (exists e, look r now (lock_key key) = Some (VStr value, e)) /\ look r' now (lock_key key) = None.
Proof.
  unfold run_script. simpl. unfold unlock_script.
  destruct (owner_script _ _ _ now r) as [[e|x] r1] eqn:E; intros H; simplify_eq.
  - by apply owner_err in E as [].
  - destruct (owner_one_inv _ _ _ _ _ _ E) as [e He]. split; [by exists e|].
    edestruct (owner_spec now (lock_key key) (DEL (lock_key key))) as (r2 & Hs & Hl);
      [exact He|done|reflexivity|done|done|]. rewrite Hs in E. by simplify_eq.
Qed.

Lemma lock_loop_true elapsed key value ttl timeout n fuel c :
  0 < ttl -> (lock_loop elapsed key value ttl timeout n fuel c).1 = Some true ->
  exists now, owns key value (now + ttl * 1000)
                (rc_server (lock_loop elapsed key value ttl timeout n fuel c).2) now.
Proof.
  intros Ht. revert n c. induction fuel as [|fuel IH]; intros n c; simpl; [done|]. unfold bindM.
  pose proof (command_spec (Lock key value ttl) c) as Hs.
  destruct (command (Lock key value ttl) c) as [reply c1].
  assert (Hrec : forall x, x = (if timeout <=? elapsed n then retM (Some false)
            else lock_loop elapsed key value ttl timeout (S n) fuel) c1 ->
            x.1 = Some true -> exists now, owns key value (now + ttl * 1000) (rc_server x.2) now).
  { intros x -> H. destruct (timeout <=? elapsed n); [done|]. by apply IH. }
  destruct reply as [[]|]; try (intros H; by eapply Hrec; [reflexivity|]).
  destruct (String.eqb s "OK") eqn:Es; [|intros H; by eapply Hrec; [reflexivity|]].
  zify_bools. subst. intros _. destruct Hs as (k & r1 & _ & _ & now & Hrun).
  apply lock_reply_inv in Hrun as [_ Ho]; [|done]. by exists now.
Qed.

Lemma lock_true elapsed key value ttl timeout c :
  (lock elapsed key value ttl timeout c).1 = true ->
  exists now, owns key value (now + ttl * 1000) (rc_server (lock elapsed key value ttl timeout c).2) now.
Proof.
  unfold lock. destruct (str_empty key || str_empty value); [done|]. cbn [orb].
  destruct (ttl <=? 0) eqn:Et; [done|]. zify_bools. unfold bindM, retM.
  pose proof (lock_loop_true elapsed key value ttl timeout 0 (lock_fuel timeout) c Et) as H.
  destruct (lock_loop _ _ _ _ _ _ _ c) as [[[]|] c1]; simpl in *; try done. by intros _; apply H.
Qed.

(** A lock method that answers [true] is right about the server, through
    reconnections, retries and lost replies: [lock] and [renewLock] leave the
    caller's value in possession for a full lease counted on the server's
    clock, and [unlock] found it in possession and removed it. *)
Theorem lock_methods_are_sound elapsed key value ttl timeout c :
  ((lock elapsed key value ttl timeout c).1 = true ->
   exists now, owns key value (now + ttl * 1000) (rc_server (lock elapsed key value ttl timeout c).2) now) /\
  ((renewLock key value ttl c).1 = true ->
   exists now, owns key value (now + ttl * 1000) (rc_server (renewLock key value ttl c).2) now) /\
  ((unlock key value c).1 = true ->
   exists r1 now e, look r1 now (lock_key key) = Some (VStr value, e) /\
     look (rc_server (unlock key value c).2) now (lock_key key) = None).
Proof.
  split; [apply lock_true|]. unfold renewLock, unlock. destruct (str_empty key || str_empty value); [done|].
  cbn [orb]. split.
  - destruct (ttl <=? 0) eqn:Et; [done|]. zify_bools. unfold bindM, retM.
    pose proof (command_spec (Renew key value ttl) c) as Hs. destruct (command _ c) as [[[]|] c1]; try done.
    simpl. intros ->%Z.eqb_eq. destruct Hs as (k & r1 & _ & _ & now & Hrun).
    apply renew_reply_inv in Hrun as [_ Ho]; [|done]. by exists now.
  - unfold bindM, retM. pose proof (command_spec (Unlock key value) c) as Hs.
    destruct (command _ c) as [[[]|] c1]; try done.
    simpl. intros ->%Z.eqb_eq. destruct Hs as (k & r1 & _ & _ & now & Hrun).
    apply unlock_reply_inv in Hrun as [[e He] Hn]. by exists r1, now, e.
Qed.

(** The acquisition loop ends: with 50 ms slept per round, the rounds
    given by [lock_fuel] are enough for any timeout. *)
Theorem lock_loop_terminates elapsed key value ttl timeout c :
  (forall i, 50 * Z.of_nat i <= elapsed i) ->
  (lock_loop elapsed key value ttl timeout 0 (lock_fuel timeout) c).1 <> None.
Proof.
  intros He.
  assert (H : forall fuel n c, timeout <= 50 * (Z.of_nat n + Z.of_nat fuel - 1) -> (0 < fuel)%nat ->
    (lock_loop elapsed key value ttl timeout n fuel c).1 <> None).
  { clear c. induction fuel as [|fuel IH]; intros n c Hf Hp; [lia|]. simpl. unfold bindM.
    destruct (command _ c) as [reply c1].
    assert (Hrec : ((if timeout <=? elapsed n then retM (Some false)
            else lock_loop elapsed key value ttl timeout (S n) fuel) c1).1 <> None).
    { destruct (timeout <=? elapsed n) eqn:E; [done|]. zify_bools. specialize (He n).
      apply IH; lia. }
    destruct reply as [[]|]; try exact Hrec. by destruct (String.eqb s "OK"). }
  apply H; unfold lock_fuel; [|lia]. pose proof (Z.div_mod timeout 50 ltac:(lia)).
  pose proof (Z.mod_pos_bound timeout 50 ltac:(lia)). lia.
Qed.
End RedisClient.

Arguments Rc R : clear implicits.

Module RedisClientExample.

Definition hold (l : list RTick) (k : nat) : RTick := default (mkRTick [] 5000 ROk) (l !! k).
Definition client : Rc Store := mkRc ∅ 0 [true] 0 no_error.

Lemma lock_loop_terminates_witness :
  (lock_loop (hold []) (fun i => 50 * Z.of_nat i) "t1" "node1" 60 100 0 (lock_fuel 100) client).1 <> None.
Proof. apply lock_loop_terminates. intros i. lia. Defined.

(** A reply lost after the server ran the script is retried, and the
    retry finds the lock taken by its own first run: [lock] answers [false]
    while the caller's value holds the lock for the whole lease. *)
Theorem lost_lock_reply_locks_out_its_owner :
  let hiredis := hold [mkRTick [] 5000 (RLost REDIS_ERR_EOF "Server closed the connection")] in
  let '(b, c') := lock hiredis (fun _ => 0) "task:t1" "node1:e1" 60 0 client in
  b = false /\ owns "task:t1" "node1:e1" 65000 (rc_server c') 5000.
Proof. vm_compute. done. Qed.

End RedisClientExample.
