(* ===== verification/Cancellation.v ===== *)
(** Cancellation: [include/corpcron/common/cancellation.hpp] and
    [src/scheduler/task_cancellation_registry.cpp].

    A [CancellationSource] is a shared pointer to an atomic flag; copies of a
    source and the tokens made from it share the flag.  [Flags] is the store of
    those flags; a source is an index into it, and a token is the list of flags
    its predicate reads (one for [token()], several for
    [linkCancellationTokens], none for the default token). *)
From S2P Require Import Prelude.

Abbreviation Flags := (list bool).
Abbreviation CancellationSource := nat.
Abbreviation CancellationToken := (list CancellationSource).

(** [std::make_shared<std::atomic<bool>>(false)] *)
Definition new_source : M Flags CancellationSource := fun h => (length h, h ++ [false]).

Definition token (s : CancellationSource) : CancellationToken := [s].
Definition empty_token : CancellationToken := [].

Definition load (h : Flags) (s : CancellationSource) : bool := default false (h !! s).

Definition cancel_source (s : CancellationSource) : M Flags () := modify (<[s := true]>).

(** [reset] gives the source a new flag: tokens made before keep the old one. *)
Definition reset_source (s : CancellationSource) : M Flags CancellationSource := new_source.

Definition isCancellationRequested (h : Flags) (t : CancellationToken) : bool := existsb (load h) t.

Definition linkCancellationTokens (ts : list CancellationToken) : CancellationToken := concat ts.

(** Flags are created and raised, never lowered or dropped. *)
Definition flags_le (h h' : Flags) : Prop :=
  (length h <= length h')%nat /\ forall s, load h s = true -> load h' s = true.

#[global] Instance flags_le_preorder : PreOrder flags_le.
Proof.
  split; [by intros h; split|]. intros a b c [H1 H2] [H3 H4]. split; [lia|auto].
Qed.

Lemma flags_le_new h : flags_le h (new_source h).2.
Proof.
  split; [simpl; rewrite length_app; lia|]. intros s. unfold load. simpl.
  destruct (h !! s) eqn:E; [|done]. by rewrite (lookup_app_l_Some _ _ _ _ E).
Qed.

Lemma flags_le_cancel h s : flags_le h (cancel_source s h).2.
Proof.
  split; [simpl; by rewrite length_insert|]. intros s' H. unfold load in *. simpl.
  destruct (decide (s = s')) as [->|Hne].
  - destruct (h !! s') eqn:E; [|done]. by rewrite list_lookup_insert_eq by (by eapply lookup_lt_Some).
  - by rewrite list_lookup_insert_ne.
Qed.

Lemma link_spec h ts :
  isCancellationRequested h (linkCancellationTokens ts) = existsb (isCancellationRequested h) ts.
Proof.
  unfold isCancellationRequested, linkCancellationTokens.
  induction ts as [|t ts IH]; simpl; [done|]. by rewrite existsb_app, IH.
Qed.

Lemma cancel_requested h s t :
  (s < length h)%nat -> s ∈ t -> isCancellationRequested (cancel_source s h).2 t = true.
Proof.
  intros Hs Hin. apply existsb_exists. exists s. split; [by apply list_elem_of_In|].
  unfold load. simpl. by rewrite list_lookup_insert_eq.
Qed.

Lemma requested_mono h h' t :
  flags_le h h' -> isCancellationRequested h t = true -> isCancellationRequested h' t = true.
Proof.
  intros [_ Hle] H. apply existsb_exists in H as (s & Hs & Hl). apply existsb_exists. exists s. auto.
Qed.

(** ** The registry *)

Record Registration := mkRegistration { reg_execution_id : string; reg_source : CancellationSource }.

Abbreviation Registry := (gmap string Registration).

Definition registerTask (task_id execution_id : string) (source : CancellationSource) (r : Registry) : Registry :=
  <[task_id := mkRegistration execution_id source]> r.

Definition unregisterTask (task_id execution_id : string) (r : Registry) : Registry :=
  match r !! task_id with
  | Some e => if String.eqb (reg_execution_id e) execution_id then delete task_id r else r
  | None => r
  end.

Definition registry_cancel (task_id : string) (r : Registry) : M Flags bool :=
  match r !! task_id with
  | None => retM false
  | Some e => cancel_source (reg_source e) ;;* retM true
  end.

(** What the registry sees of the executions of this process. *)
Inductive RegEvent :=
  | EvRegister (task_id execution_id : string) (source : CancellationSource)
  | EvUnregister (task_id execution_id : string).

Definition reg_step (r : Registry) (e : RegEvent) : Registry :=
  match e with
  | EvRegister t x s => registerTask t x s r
  | EvUnregister t x => unregisterTask t x r
  end.

Definition concerns (task_id execution_id : string) (e : RegEvent) : Prop :=
  match e with
  | EvRegister t _ _ => t = task_id
  | EvUnregister t x => t = task_id /\ x = execution_id
  end.

Lemma unregister_other task_id execution_id t x r :
  ~ (t = task_id /\ x = execution_id) ->
  (forall e, r !! task_id = Some e -> reg_execution_id e = execution_id) ->
  unregisterTask t x r !! task_id = r !! task_id.
Proof.
  intros Hne He. unfold unregisterTask. destruct (decide (t = task_id)) as [->|Ht].
  - destruct (r !! task_id) as [e|] eqn:E; [|done].
    destruct (String.eqb_spec (reg_execution_id e) x) as [Hx|Hx]; [|done].
    destruct Hne. split; [done|]. rewrite <- Hx. by apply He.
  - destruct (r !! t) as [e|]; [|done]. destruct (String.eqb _ _); [|done]. by rewrite lookup_delete_ne.
Qed.

(** Cancelling a task reaches the execution registered for it and no
    other: from its registration on, through registrations and clean-ups of
    other executions (those of the same task included, which only remove their
    own entry), [cancel] answers [true] and every token linked to the
    execution's source reports the request, for good. *)
Theorem cancel_reaches_registered_execution task_id execution_id s r evs h tokens h' :
  (s < length h)%nat ->
  Forall (fun e => ~ concerns task_id execution_id e) evs ->
  token s ∈ tokens ->
  let r' := foldl reg_step (registerTask task_id execution_id s r) evs in
  flags_le (registry_cancel task_id r' h).2 h' ->
  (registry_cancel task_id r' h).1 = true /\
  isCancellationRequested h' (linkCancellationTokens tokens) = true.
Proof.
  intros Hs Hevs Htok r' Hle.
  assert (Hr : r' !! task_id = Some (mkRegistration execution_id s)).
  { subst r'. assert (H0 : registerTask task_id execution_id s r !! task_id = Some (mkRegistration execution_id s))
      by apply lookup_insert_eq.
    revert H0. generalize (registerTask task_id execution_id s r). clear Hle.
    induction Hevs as [|e evs He _ IH]; intros r0 H0; [done|]. apply IH. destruct e as [t x s'|t x]; simpl in *.
    - unfold registerTask. by rewrite lookup_insert_ne.
    - rewrite (unregister_other task_id execution_id); [done|done|]. intros e. rewrite H0. by intros [= <-]. }
  unfold registry_cancel in *. rewrite Hr in *. simpl in *. split; [done|].
  eapply requested_mono; [exact Hle|]. apply cancel_requested; [done|].
  apply list_elem_of_In, in_concat. exists (token s). split; [by apply list_elem_of_In|by left].
Qed.

Lemma cancel_reaches_registered_execution_witness :
  let r' := foldl reg_step (registerTask "t1" "e2" 0%nat ∅) [EvUnregister "t1" "e1"; EvRegister "t2" "e3" 1%nat] in
  (registry_cancel "t1" r' [false; false]).1 = true /\
  isCancellationRequested [true; true] (linkCancellationTokens [token 1%nat; token 0%nat]) = true.
Proof.
  apply (cancel_reaches_registered_execution "t1" "e2" 0%nat ∅ _ [false; false]).
  - simpl. lia.
  - apply Forall_cons; split; [by intros [_ ?]|]. apply Forall_cons; split; [by intros ?|done].
  - right. left.
  - change (flags_le [true; false] [true; true]). split; [simpl; lia|]. by intros [|[|k]].
Defined.
