(* ===== verification/Text.v ===== *)
(** Decimal text: [std::to_string] and the [strtol] family, with their round
    trip, which execution ids, endpoints, configuration values and the metrics
    exporter rely on. *)
From S2P Require Import Prelude Datetime.

(** The decimal digits of [n >= 0] in front of [acc]; [fuel] is the number of
    digits at most. *)
Fixpoint dec_go (fuel : nat) (n : Z) (acc : string) : string :=
  match fuel with
  | O => acc
  | S fuel' =>
      let acc := String (digit (n mod 10)) acc in
      if n / 10 =? 0 then acc else dec_go fuel' (n / 10) acc
  end.

Definition dec (n : Z) : string := dec_go (S (Z.to_nat (Z.log2 n))) n EmptyString.

(** [std::to_string] *)
Definition to_string (z : Z) : string :=
  if z <? 0 then String "-" (dec (- z)) else dec z.

(** Reads a maximal run of digits. *)
Fixpoint read_dec (acc : Z) (s : string) : Z * string :=
  match s with
  | String c s' =>
      match digit_val c with
      | Some d => read_dec (acc * 10 + d) s'
      | None => (acc, s)
      end
  | EmptyString => (acc, s)
  end.

Definition isspace (c : ascii) : bool :=
  let n := Z_of_byte c in (n =? 32) || ((9 <=? n) && (n <=? 13)).

Fixpoint skip_space (s : string) : string :=
  match s with
  | String c s' => if isspace c then skip_space s' else s
  | EmptyString => s
  end.

Definition starts_digit (s : string) : bool :=
  match s with
  | String c _ => match digit_val c with Some _ => true | None => false end
  | EmptyString => false
  end.

Definition clamp (lo hi z : Z) : Z := Z.max lo (Z.min hi z).

(** [strtol(s, &end, 10)] with a range: the value and the text at [end]; [None]
    when no digits were found ([end == s]). *)
Definition strtol (lo hi : Z) (s : string) : option (Z * string) :=
  let t := skip_space s in
  let '(neg, u) :=
    match t with
    | String c u =>
        if Ascii.eqb c "-" then (true, u) else if Ascii.eqb c "+" then (false, u) else (false, t)
    | EmptyString => (false, t)
    end in
  if starts_digit u then
    let '(n, rest) := read_dec 0 u in Some (clamp lo hi (if neg then - n else n), rest)
  else None.

(** ** Round trip *)

Lemma digit_nospace d : 0 <= d <= 9 -> isspace (digit d) = false.
Proof.
  intros H. unfold isspace, digit. rewrite Z_of_byte_of_Z, Z.mod_small by lia.
  rewrite (proj2 (Z.eqb_neq _ _)), (proj2 (Z.leb_gt (48 + d) 13)) by lia. by rewrite andb_false_r.
Qed.

Lemma read_dec_go fuel n acc a :
  0 <= n < 10 ^ Z.of_nat fuel -> (0 < fuel)%nat ->
  exists k, 0 <= k /\ n < 10 ^ k /\ read_dec a (dec_go fuel n acc) = read_dec (a * 10 ^ k + n) acc.
Proof.
  revert n acc a. induction fuel as [|fuel IH]; intros n acc a Hn Hf; [lia|]. cbn [dec_go].
  assert (Hd : 0 <= n mod 10 <= 9) by (Z.div_mod_to_equations; lia).
  destruct (n / 10 =? 0) eqn:E; zify_bools.
  - exists 1. split_and!; [lia|Z.div_mod_to_equations; lia|]. cbn [read_dec].
    rewrite digit_val_digit by done. f_equal. Z.div_mod_to_equations; lia.
  - rewrite Nat2Z.inj_succ, Z.pow_succ_r in Hn by lia.
    assert (Hn' : 0 <= n / 10 < 10 ^ Z.of_nat fuel).
    { split; [apply Z.div_pos; lia|]. apply Z.div_lt_upper_bound; lia. }
    destruct fuel as [|fuel']; [simpl in Hn'; lia|].
    destruct (IH (n / 10) (String (digit (n mod 10)) acc) a Hn' ltac:(lia)) as (k & Hk & Hlt & Hr).
    exists (k + 1). rewrite Hr. cbn [read_dec]. rewrite digit_val_digit by done.
    rewrite Z.pow_add_r by lia. split_and!; [lia|pose proof (Z.div_mod n 10 ltac:(lia)); lia|].
    f_equal. pose proof (Z.div_mod n 10 ltac:(lia)). lia.
Qed.

Lemma dec_fuel n : 0 <= n -> n < 10 ^ Z.of_nat (S (Z.to_nat (Z.log2 n))).
Proof.
  intros Hn. destruct (Z.eq_dec n 0) as [->|]; [simpl; lia|].
  pose proof (Z.log2_spec n ltac:(lia)) as [_ H]. pose proof (Z.log2_nonneg n).
  rewrite Nat2Z.inj_succ, Z2Nat.id by done.
  pose proof (Z.pow_le_mono_l 2 10 (Z.succ (Z.log2 n)) ltac:(lia)). lia.
Qed.

Lemma dec_go_app fuel n acc rest : dec_go fuel n acc +:+ rest = dec_go fuel n (acc +:+ rest).
Proof.
  revert n acc. induction fuel as [|fuel IH]; intros n acc; simpl; [done|].
  destruct (n / 10 =? 0); [done|]. by rewrite IH.
Qed.

Lemma read_dec_dec n rest : 0 <= n -> starts_digit rest = false -> read_dec 0 (dec n +:+ rest) = (n, rest).
Proof.
  intros Hn Hr. unfold dec. rewrite dec_go_app. cbn [String.append].
  destruct (read_dec_go (S (Z.to_nat (Z.log2 n))) n rest 0) as (k & _ & _ & ->);
    [split; [done|by apply dec_fuel]|lia|].
  destruct rest as [|c rest]; simpl in *; [done|]. by destruct (digit_val c).
Qed.

Lemma dec_go_head fuel n acc : (0 < fuel)%nat -> 0 <= n ->
  exists d s, 0 <= d <= 9 /\ dec_go fuel n acc = String (digit d) s.
Proof.
  revert n acc. induction fuel as [|fuel IH]; intros n acc Hf Hn; [lia|]. cbn [dec_go].
  assert (Hd : 0 <= n mod 10 <= 9) by (Z.div_mod_to_equations; lia).
  destruct (n / 10 =? 0); [by eexists _, _|]. destruct fuel; [by eexists _, _|].
  apply IH; [lia|apply Z.div_pos; lia].
Qed.

Lemma dec_head n rest : 0 <= n -> exists d s, 0 <= d <= 9 /\ dec n +:+ rest = String (digit d) s.
Proof. intros Hn. unfold dec. rewrite dec_go_app. apply dec_go_head; [lia|done]. Qed.

Lemma digit_not_sign d : 0 <= d <= 9 -> digit d <> "-"%char /\ digit d <> "+"%char.
Proof.
  intros H. split; intros E; apply (f_equal Z_of_byte) in E; unfold digit in E;
    rewrite Z_of_byte_of_Z, Z.mod_small in E by lia;
    [change (Z_of_byte "-") with 45 in E | change (Z_of_byte "+") with 43 in E]; lia.
Qed.

Lemma strtol_to_string lo hi z rest :
  lo <= z <= hi -> starts_digit rest = false ->
  strtol lo hi (to_string z +:+ rest) = Some (z, rest).
Proof.
  intros Hz Hr. unfold strtol, to_string.
  destruct (z <? 0) eqn:Ez; zify_bools.
  - cbn [String.append skip_space]. change (isspace "-") with false. cbv iota.
    rewrite Ascii.eqb_refl.
    destruct (dec_head (- z) rest ltac:(lia)) as (d & s & Hd & E).
    assert (starts_digit (dec (- z) +:+ rest) = true) as ->.
    { rewrite E. simpl. by rewrite digit_val_digit. }
    rewrite read_dec_dec by (done || lia). unfold clamp. do 2 f_equal. lia.
  - destruct (dec_head z rest ltac:(lia)) as (d & s & Hd & E).
    assert (skip_space (dec z +:+ rest) = dec z +:+ rest) as ->.
    { rewrite E. simpl. by rewrite digit_nospace. }
    destruct (digit_not_sign d Hd) as [H1 H2].
    assert (Hst : starts_digit (dec z +:+ rest) = true).
    { rewrite E. simpl. by rewrite digit_val_digit. }
    apply Ascii.eqb_neq in H1, H2. rewrite E in *. cbv iota. rewrite H1, H2.
    rewrite Hst, <- E, read_dec_dec by (done || lia). unfold clamp. do 2 f_equal. lia.
Qed.

Lemma to_string_inj a b : to_string a = to_string b -> a = b.
Proof.
  intros H. set (m := Z.abs a + Z.abs b).
  pose proof (strtol_to_string (- m) m a EmptyString ltac:(lia) eq_refl) as Ha.
  pose proof (strtol_to_string (- m) m b EmptyString ltac:(lia) eq_refl) as Hb.
  rewrite H in Ha. congruence.
Qed.
