(* ===== verification/Config.v ===== *)
(** The configuration ([common/config.cpp]): the INI reader, the environment
    override and the typed access.  Files and the process environment are
    arguments: a file is its text, [getenv] a function. *)
From S2P Require Import Prelude Datetime Text.

(** ** Text helpers *)

Definition newline : ascii := "010".

Definition is_blank (c : ascii) : bool := Ascii.eqb c " " || Ascii.eqb c "009".

(** [erase(0, find_first_not_of(" \t"))] *)
Fixpoint ltrim (s : string) : string :=
  match s with
  | String c s' => if is_blank c then ltrim s' else s
  | EmptyString => EmptyString
  end.

(** [erase(find_last_not_of(" \t") + 1)] *)
Fixpoint rtrim (s : string) : string :=
  match s with
  | EmptyString => EmptyString
  | String c s' =>
      match rtrim s' with
      | EmptyString => if is_blank c then EmptyString else String c EmptyString
      | t => String c t
      end
  end.

(** What stands before and after the first [c]; [None] when [find] is [npos]. *)
Fixpoint split_at (c : ascii) (s : string) : option (string * string) :=
  match s with
  | EmptyString => None
  | String d s' =>
      if Ascii.eqb d c then Some (EmptyString, s')
      else match split_at c s' with
           | Some (a, b) => Some (String d a, b)
           | None => None
           end
  end.

(** The lines [std::getline] yields. *)
Fixpoint getlines (s : string) : list string :=
  match s with
  | EmptyString => []
  | String c s' =>
      if Ascii.eqb c newline then EmptyString :: getlines s'
      else match getlines s' with
           | [] => [String c EmptyString]
           | l :: ls => String c l :: ls
           end
  end.

(** ** Loading *)

Abbreviation KvMap := (gmap string string).

Definition parseLine (line : string) (st : KvMap * string) : KvMap * string :=
  let '(kv_map, current_section) := st in
  match ltrim line with
  | EmptyString => st
  | String c rest =>
      if Ascii.eqb c "#" then st
      else if Ascii.eqb c "[" then
        match split_at "]" rest with
        | Some (name, _) => (kv_map, name)
        | None => st
        end
      else
        match split_at "=" (String c rest) with
        | Some (key, value) =>
            let key := rtrim (ltrim key) in
            let value := rtrim (ltrim value) in
            let full := if str_empty current_section then key else current_section +:+ "." +:+ key in
            (<[full := value]> kv_map, current_section)
        | None => st
        end
  end.

(** [load]: a file that cannot be opened leaves the map as it was. *)
Definition load (file : option string) (kv_map : KvMap) : bool * KvMap :=
  match file with
  | None => (false, kv_map)
  | Some text => (true, (foldl (fun st line => parseLine line st) (∅, EmptyString) (getlines text)).1)
  end.

(** ** Access *)

Definition in_range (lo hi : Z) (c : ascii) : bool := (lo <=? Z_of_byte c) && (Z_of_byte c <=? hi).

Definition toupper (c : ascii) : ascii :=
  if in_range 97 122 c then byte_of_Z (Z_of_byte c - 32) else c.

Definition isalnum (c : ascii) : bool := in_range 48 57 c || in_range 65 90 c || in_range 97 122 c.

Fixpoint env_chars (s : string) : string :=
  match s with
  | EmptyString => EmptyString
  | String c s' => String (if isalnum c then toupper c else "_"%char) (env_chars s')
  end.

Definition envNameForKey (section_key : string) : string := "CORPCRON_" +:+ env_chars section_key.

(** The process environment and the loaded map. *)
Record Config := mkConfig { cfg_getenv : string -> option string; cfg_map : KvMap }.

Definition get (c : Config) (section_key default_value : string) : string :=
  match cfg_getenv c (envNameForKey section_key) with
  | Some value => value
  | None => default default_value (cfg_map c !! section_key)
  end.

(** [std::stoi] throws on a text without digits and out of the range of [int]. *)
Definition stoi (s : string) : option (Z * string) :=
  match strtol (- 2 ^ 63) (2 ^ 63 - 1) s with
  | Some (z, rest) => if (INT_MIN <=? z) && (z <=? INT_MAX) then Some (z, rest) else None
  | None => None
  end.

Definition getInt (c : Config) (section_key : string) (default_value : Z) : Z :=
  let val := get c section_key EmptyString in
  if str_empty val then default_value
  else match stoi val with
       | Some (value, EmptyString) => value
       | _ => default_value
       end.

(** ** Lemmas *)

Fixpoint all_chars (P : ascii -> bool) (s : string) : bool :=
  match s with
  | EmptyString => true
  | String c s' => P c && all_chars P s'
  end.

Definition lacks (c : ascii) (s : string) : Prop := all_chars (fun d => negb (Ascii.eqb d c)) s = true.

#[global] Instance lacks_dec c s : Decision (lacks c s).
Proof. unfold lacks. apply _. Defined.

Lemma split_at_app c a b : lacks c a -> split_at c (a +:+ String c b) = Some (a, b).
Proof.
  unfold lacks. induction a as [|d a IH]; simpl; intros H; [by rewrite Ascii.eqb_refl|].
  apply andb_prop in H as [H1 H2]. apply negb_true_iff in H1. rewrite H1. by rewrite IH.
Qed.

Lemma getlines_app l s : lacks newline l -> getlines (l +:+ String newline s) = l :: getlines s.
Proof.
  unfold lacks. induction l as [|c l IH]; intros H; [done|]. cbn in H |- *.
  apply andb_prop in H as [H1 H2]. apply negb_true_iff in H1. rewrite H1. by rewrite IH.
Qed.

(** A text without blanks at its ends: trimming leaves it alone. *)
Definition trimmed (s : string) : Prop := ltrim s = s /\ rtrim s = s.

#[global] Instance trimmed_dec s : Decision (trimmed s).
Proof. unfold trimmed. apply _. Defined.

Lemma trim_trimmed s : trimmed s -> rtrim (ltrim s) = s.
Proof. intros [H1 H2]. by rewrite H1. Qed.

Lemma rtrim_pad s : s <> EmptyString -> trimmed s -> rtrim (s +:+ " ") = s.
Proof.
  intros Hne [_ H]. revert Hne H. induction s as [|c s IH]; intros Hne H; [done|]. simpl in *.
  destruct s as [|d s]; [simpl in *; by destruct (is_blank c)|].
  assert (rtrim (String d s) = String d s) as E.
  { destruct (rtrim (String d s)) eqn:E; [by destruct (is_blank c)|congruence]. }
  specialize (IH ltac:(done) E). simpl in IH |- *. by rewrite IH.
Qed.

Lemma ltrim_app s t : s <> EmptyString -> ltrim s = s -> ltrim (s +:+ t) = s +:+ t.
Proof.
  destruct s as [|c s]; [done|]. intros _. simpl. destruct (is_blank c) eqn:E; [|done].
  intros H. exfalso. assert (forall u, String.length (ltrim u) <= String.length u)%nat as L.
  { induction u as [|d u IHu]; simpl; [lia|]. destruct (is_blank d); simpl; lia. }
  specialize (L s). rewrite H in L. simpl in L. lia.
Qed.

Lemma lacks_app c a b : lacks c a -> lacks c b -> lacks c (a +:+ b).
Proof.
  unfold lacks. induction a; simpl; [done|]. intros H1 H2. apply andb_prop in H1 as [-> H1].
  by apply IHa.
Qed.

(** ** Round trip *)

(** The text of a configuration, as a deployment writes it. *)
Definition render_entry (e : string * string) : string := e.1 +:+ " = " +:+ e.2.

Definition render_section (s : string * list (string * string)) : list string :=
  ("[" +:+ s.1 +:+ "]") :: map render_entry s.2.

Definition unlines (ls : list string) : string := foldr (fun l s => l +:+ String newline s) EmptyString ls.

Definition render_config (cfg : list (string * list (string * string))) : string :=
  unlines (concat (map render_section cfg)).

Definition first_is (c : ascii) (s : string) : Prop := String.get 0 s = Some c.

Definition key_ok (k : string) : Prop :=
  k <> EmptyString /\ trimmed k /\ lacks "=" k /\ lacks newline k /\
  String.get 0 k <> Some "#"%char /\ String.get 0 k <> Some "["%char.

Definition value_ok (v : string) : Prop := trimmed v /\ lacks newline v.

Definition entry_ok (e : string * string) : Prop := key_ok e.1 /\ value_ok e.2.

Definition section_ok (s : string * list (string * string)) : Prop :=
  s.1 <> EmptyString /\ lacks "]" s.1 /\ lacks newline s.1 /\ Forall entry_ok s.2.

(** What the deployment means: [section.key] is bound to its last value. *)
Definition bind_all (cfg : list (string * list (string * string))) : KvMap :=
  foldl (fun m s => foldl (fun m e => <[s.1 +:+ "." +:+ e.1 := e.2]> m) m s.2) ∅ cfg.

Lemma parse_entry e m sec : entry_ok e -> sec <> EmptyString ->
  parseLine (render_entry e) (m, sec) = (<[sec +:+ "." +:+ e.1 := e.2]> m, sec).
Proof.
  intros [(Hne & Ht & Heq & _ & Hh & Hb) [Hv _]] Hs. destruct e as [k v]. cbn [fst snd] in *.
  unfold parseLine, render_entry. cbn [fst snd].
  rewrite ltrim_app by (done || apply Ht).
  destruct k as [|c k']; [done|]. cbn [String.append String.get] in *.
  assert (Ascii.eqb c "#" = false) as -> by (apply Ascii.eqb_neq; congruence).
  assert (Ascii.eqb c "[" = false) as -> by (apply Ascii.eqb_neq; congruence).
  assert (String c (k' +:+ String " " (String "=" (String " " v))) =
          (String c k' +:+ " ") +:+ String "=" (" " +:+ v)) as -> by by rewrite append_assoc_str.
  rewrite split_at_app by by apply lacks_app.
  rewrite ltrim_app, rtrim_pad by (done || apply Ht).
  assert (rtrim (ltrim (" " +:+ v)) = v) as -> by apply (trim_trimmed v Hv).
  destruct sec; [done|]. reflexivity.
Qed.

Lemma parse_section sec m old : sec <> EmptyString -> lacks "]" sec ->
  parseLine ("[" +:+ sec +:+ "]") (m, old) = (m, sec).
Proof.
  intros Hs Hl. unfold parseLine. cbn [String.append ltrim]. change (is_blank "[") with false.
  cbv iota. rewrite (Ascii.eqb_refl "["). change (Ascii.eqb "[" "#") with false. cbv iota.
  by rewrite split_at_app.
Qed.

Lemma parse_entries es m sec : Forall entry_ok es -> sec <> EmptyString ->
  foldl (fun st line => parseLine line st) (m, sec) (map render_entry es) =
  (foldl (fun m e => <[sec +:+ "." +:+ e.1 := e.2]> m) m es, sec).
Proof.
  intros H Hs. revert m. induction H as [|e es He _ IH]; intros m; cbn [map foldl]; [done|].
  by rewrite parse_entry, IH.
Qed.

Lemma parse_config cfg m old : Forall section_ok cfg ->
  (foldl (fun st line => parseLine line st) (m, old) (concat (map render_section cfg))).1 =
  foldl (fun m s => foldl (fun m e => <[s.1 +:+ "." +:+ e.1 := e.2]> m) m s.2) m cfg.
Proof.
  intros H. revert m old. induction H as [|s cfg (Hn & Hb & _ & He) _ IH]; intros m old; [done|].
  cbn [map concat foldl]. rewrite foldl_app.
  change (render_section s) with (("[" +:+ s.1 +:+ "]") :: map render_entry s.2). cbn [foldl].
  rewrite parse_section, parse_entries by done. apply IH.
Qed.

Lemma getlines_unlines ls : Forall (lacks newline) ls -> getlines (unlines ls) = ls.
Proof.
  induction 1 as [|l ls Hl _ IH]; [done|]. cbn [unlines foldr]. rewrite getlines_app by done.
  f_equal. exact IH.
Qed.

Lemma rendered_lines cfg : Forall section_ok cfg ->
  Forall (lacks newline) (concat (map render_section cfg)).
Proof.
  induction 1 as [|s cfg (_ & _ & Hn & He) _ IH]; simpl; [constructor|].
  constructor; [by apply (lacks_app newline "["), lacks_app|].
  apply Forall_app. split; [|done]. apply Forall_map. eapply Forall_impl; [exact He|].
  intros e [(_ & _ & _ & Hk & _) [_ Hv]]. unfold render_entry. by repeat apply lacks_app.
Qed.

(** A configuration text reads back as what it says: loading it binds
    every [section.key] to its last value and nothing else, whatever was
    loaded before; an integer written in decimal is read back by [getInt]
    unless the environment overrides it. *)
Theorem config_text_round_trip cfg before getenv :
  Forall section_ok cfg ->
  load (Some (render_config cfg)) before = (true, bind_all cfg) /\
  forall key n dflt, bind_all cfg !! key = Some (to_string n) -> is_int n ->
    getenv (envNameForKey key) = None ->
    getInt (mkConfig getenv (load (Some (render_config cfg)) before).2) key dflt = n.
Proof.
  intros H. assert (E : load (Some (render_config cfg)) before = (true, bind_all cfg)).
  { unfold load, render_config. rewrite getlines_unlines by by apply rendered_lines.
    by rewrite parse_config. }
  split; [done|]. intros key n dflt Hk [Hlo Hhi] He. rewrite E. unfold getInt, get. cbn [cfg_getenv cfg_map snd].
  rewrite He, Hk. change (default _ (Some (to_string n))) with (to_string n).
  assert (str_empty (to_string n) = false) as ->.
  { apply str_empty_false. intros E0.
    pose proof (strtol_to_string INT_MIN INT_MAX n EmptyString ltac:(lia) eq_refl) as P.
    rewrite append_nil_r, E0 in P. discriminate P. }
  unfold stoi. rewrite <- (append_nil_r (to_string n)), strtol_to_string;
    [|unfold INT_MIN, INT_MAX in *; lia|done].
  by rewrite (proj2 (Z.leb_le _ _) Hlo), (proj2 (Z.leb_le _ _) Hhi).
Qed.

Definition sample_config : list (string * list (string * string)) :=
  [("server", [("port", "8081"); ("host", "127.0.0.1")]); ("scheduler", [("misfire_policy", "skip")])].

Lemma config_text_round_trip_witness :
  load (Some (render_config sample_config)) ∅ = (true, bind_all sample_config) /\
  forall key n dflt, bind_all sample_config !! key = Some (to_string n) -> is_int n ->
    (fun _ => None : option string) (envNameForKey key) = None ->
    getInt (mkConfig (fun _ => None) (load (Some (render_config sample_config)) ∅).2) key dflt = n.
Proof.
  apply (config_text_round_trip sample_config ∅ (fun _ => None)).
  apply (bool_decide_unpack _). by vm_compute.
Defined.
