(* ===== verification/ThreadPool.v ===== *)
(** [DynamicThreadPool] of [src/common/thread_pool.cpp].

    Each critical section of the code (everything it does while it holds
    [mutex_]) is one atomic step; steps of the workers, of the callers of
    [enqueue] and of the thread in [stop] interleave in any order.  Tasks are
    opaque identifiers.  [p_accepted], [p_started] and [p_finished] are history
    variables: the tasks [enqueue] answered [true] for, those a worker took,
    and those that returned. *)
From S2P Require Import Prelude.

Section ThreadPool.
Context {T : Type}.

(** Where a worker is in [workerLoop]. *)
Inductive Worker :=
  | Looping                 (* before taking the mutex *)
  | Waiting                 (* in [cv_.wait_for] *)
  | Busy (t : T)            (* running a task, without the mutex *)
  | Leaving                 (* left the loop *)
  | Finished.               (* stored its [finished] flag *)

Record Pool := mkPool {
  p_workers : list Worker;
  p_tasks : list T;
  p_stopping : bool;
  p_stopped : bool;
  p_idle_count : Z;
  p_init_threads : Z;
  p_max_threads : Z;
  p_backlog_threshold : Z;
  p_max_pending_tasks : Z;
  p_current_threads : Z;
  p_accepted : list T;
  p_started : list T;
  p_finished : list T
}.

Definition newPool (init_threads max_threads backlog_threshold max_pending_tasks : Z) : Pool :=
  let init := Z.max 1 init_threads in
  mkPool (replicate (Z.to_nat init) Looping) [] false false 0 init (Z.max init max_threads)
    backlog_threshold max_pending_tasks init [] [] [].

Definition set_worker (i : nat) (w : Worker) (p : Pool) : Pool :=
  mkPool (<[i := w]> (p_workers p)) (p_tasks p) (p_stopping p) (p_stopped p) (p_idle_count p)
    (p_init_threads p) (p_max_threads p) (p_backlog_threshold p) (p_max_pending_tasks p)
    (p_current_threads p) (p_accepted p) (p_started p) (p_finished p).
Definition set_idle (n : Z) (p : Pool) : Pool :=
  mkPool (p_workers p) (p_tasks p) (p_stopping p) (p_stopped p) n
    (p_init_threads p) (p_max_threads p) (p_backlog_threshold p) (p_max_pending_tasks p)
    (p_current_threads p) (p_accepted p) (p_started p) (p_finished p).
Definition set_current (n : Z) (p : Pool) : Pool :=
  mkPool (p_workers p) (p_tasks p) (p_stopping p) (p_stopped p) (p_idle_count p)
    (p_init_threads p) (p_max_threads p) (p_backlog_threshold p) (p_max_pending_tasks p)
    n (p_accepted p) (p_started p) (p_finished p).

(** The first critical section of [enqueue]; [task] is not empty. *)
Definition enqueue (t : T) (p : Pool) : bool * Pool :=
  if p_stopping p then (false, p)
  else if (0 <? p_max_pending_tasks p) && (p_max_pending_tasks p <=? Z.of_nat (length (p_tasks p)))
  then (false, p)
  else (true, mkPool (p_workers p) (p_tasks p ++ [t]) (p_stopping p) (p_stopped p) (p_idle_count p)
                (p_init_threads p) (p_max_threads p) (p_backlog_threshold p) (p_max_pending_tasks p)
                (p_current_threads p) (p_accepted p ++ [t]) (p_started p) (p_finished p)).

Definition is_finished (w : Worker) : bool := match w with Finished => true | _ => false end.

(** [startWorker] until [new_threads] are running; the thread constructor fails
    after [room] successes. *)
Fixpoint start_workers (n room : nat) (p : Pool) : Pool :=
  match n, room with
  | S n', S room' =>
      start_workers n' room'
        (mkPool (p_workers p ++ [Looping]) (p_tasks p) (p_stopping p) (p_stopped p) (p_idle_count p)
           (p_init_threads p) (p_max_threads p) (p_backlog_threshold p) (p_max_pending_tasks p)
           (p_current_threads p + 1) (p_accepted p) (p_started p) (p_finished p))
  | _, _ => p
  end.

Definition reap (p : Pool) : Pool :=
  mkPool (filter (fun w => is_finished w = false) (p_workers p)) (p_tasks p) (p_stopping p)
    (p_stopped p) (p_idle_count p) (p_init_threads p) (p_max_threads p) (p_backlog_threshold p)
    (p_max_pending_tasks p) (p_current_threads p) (p_accepted p) (p_started p) (p_finished p).

Definition adjustPoolSize (room : nat) (p : Pool) : Pool :=
  if p_stopping p then p
  else
    let p := reap p in
    if (p_backlog_threshold p <? Z.of_nat (length (p_tasks p))) &&
       (p_current_threads p <? p_max_threads p)
    then
      let new_threads := Z.min (p_max_threads p) (p_current_threads p + 2) in
      start_workers (Z.to_nat (new_threads - p_current_threads p)) room p
    else p.

(** The end of a worker's critical section, after the wait. *)
Definition take_task (i : nat) (p : Pool) : Pool :=
  match p_tasks p with
  | [] =>
      if p_stopping p
      then set_worker i Leaving
             (if 0 <? p_current_threads p then set_current (p_current_threads p - 1) p else p)
      else set_worker i Looping p                                   (* continue *)
  | t :: rest =>
      mkPool (<[i := Busy t]> (p_workers p)) rest (p_stopping p) (p_stopped p) (p_idle_count p)
        (p_init_threads p) (p_max_threads p) (p_backlog_threshold p) (p_max_pending_tasks p)
        (p_current_threads p) (p_accepted p) (p_started p ++ [t]) (p_finished p)
  end.

(** A worker takes the mutex. *)
Definition worker_enter (i : nat) (p : Pool) : Pool :=
  match p_tasks p with
  | [] => if p_stopping p
          then take_task i p       (* [wait_for] returns at once: its predicate holds *)
          else set_worker i Waiting (set_idle (p_idle_count p + 1) p)
  | _ => take_task i p
  end.

(** [wait_for] returns [true]. *)
Definition worker_wake (i : nat) (p : Pool) : Pool :=
  take_task i (set_idle (p_idle_count p - 1) p).

(** [wait_for] returns [false]. *)
Definition worker_timeout (i : nat) (p : Pool) : Pool :=
  let p := set_idle (p_idle_count p - 1) p in
  if (0 <? p_idle_count p) && (p_init_threads p <? p_current_threads p)
  then set_worker i Leaving (set_current (p_current_threads p - 1) p)
  else take_task i p.

(** The task returns, or throws what the worker catches. *)
Definition worker_done (i : nat) (t : T) (p : Pool) : Pool :=
  mkPool (<[i := Looping]> (p_workers p)) (p_tasks p) (p_stopping p) (p_stopped p) (p_idle_count p)
    (p_init_threads p) (p_max_threads p) (p_backlog_threshold p) (p_max_pending_tasks p)
    (p_current_threads p) (p_accepted p) (p_started p) (p_finished p ++ [t]).

(** [stop]: raise the flag, then join every worker. *)
Definition stop_begin (p : Pool) : Pool :=
  if p_stopped p then p
  else mkPool (p_workers p) (p_tasks p) true (p_stopped p) (p_idle_count p)
         (p_init_threads p) (p_max_threads p) (p_backlog_threshold p) (p_max_pending_tasks p)
         (p_current_threads p) (p_accepted p) (p_started p) (p_finished p).
Definition stop_end (p : Pool) : Pool :=
  mkPool [] (p_tasks p) (p_stopping p) true (p_idle_count p)
    (p_init_threads p) (p_max_threads p) (p_backlog_threshold p) (p_max_pending_tasks p)
    (p_current_threads p) (p_accepted p) (p_started p) (p_finished p).

Definition taskCount (p : Pool) : Z := Z.of_nat (length (p_tasks p)).

(** One critical section of some thread. *)
Inductive pool_step : Pool -> Pool -> Prop :=
  | step_enqueue t p : pool_step p (enqueue t p).2
  | step_adjust room p : pool_step p (adjustPoolSize room p)
  | step_enter i p : p_workers p !! i = Some Looping -> pool_step p (worker_enter i p)
  | step_wake i p : p_workers p !! i = Some Waiting ->
      p_stopping p = true \/ p_tasks p <> [] -> pool_step p (worker_wake i p)
  | step_timeout i p : p_workers p !! i = Some Waiting ->
      p_stopping p = false -> p_tasks p = [] -> pool_step p (worker_timeout i p)
  | step_done i t p : p_workers p !! i = Some (Busy t) -> pool_step p (worker_done i t p)
  | step_leave i p : p_workers p !! i = Some Leaving -> pool_step p (set_worker i Finished p)
  | step_stop p : pool_step p (stop_begin p)
  | step_joined p : p_stopping p = true -> Forall (fun w => is_finished w = true) (p_workers p) ->
      pool_step p (stop_end p).

(** ** Invariant *)

Definition active (w : Worker) : bool := match w with Leaving | Finished => false | _ => true end.
Definition is_waiting (w : Worker) : bool := match w with Waiting => true | _ => false end.
Definition busy (w : Worker) : option T := match w with Busy t => Some t | _ => None end.
Definition countb (f : Worker -> bool) (l : list Worker) : Z :=
  Z.of_nat (length (filter (fun w => f w = true) l)).

Record pool_inv (p : Pool) : Prop := {
  inv_init : 1 <= p_init_threads p <= p_max_threads p;
  inv_current : p_current_threads p = countb active (p_workers p);
  inv_idle : p_idle_count p = countb is_waiting (p_workers p);
  inv_max : p_current_threads p <= p_max_threads p;
  inv_min : p_stopping p = false -> p_init_threads p <= p_current_threads p;
  inv_fifo : p_accepted p = p_started p ++ p_tasks p;
  inv_busy : p_started p ≡ₚ p_finished p ++ omap busy (p_workers p);
  inv_pending : 0 < p_max_pending_tasks p -> Z.of_nat (length (p_tasks p)) <= p_max_pending_tasks p;
  inv_drained : p_stopping p = true -> countb active (p_workers p) = 0 -> p_tasks p = [];
  inv_stopped : p_stopped p = true -> p_stopping p = true /\ p_workers p = [] /\ p_tasks p = []
}.

Lemma countb_cons f w l : countb f (w :: l) = (if f w then 1 else 0) + countb f l.
Proof. unfold countb. rewrite filter_cons. destruct (f w); simpl; lia. Qed.

Lemma countb_app f l k : countb f (l ++ k) = countb f l + countb f k.
Proof. unfold countb. rewrite filter_app, length_app. lia. Qed.

Lemma countb_nonneg f l : 0 <= countb f l.
Proof. unfold countb. lia. Qed.

#[global] Instance countb_proper f : Proper ((≡ₚ) ==> eq) (countb f).
Proof. intros l k H. unfold countb. by rewrite H. Qed.

Lemma countb_none f l : Forall (fun w => f w = false) l -> countb f l = 0.
Proof. induction 1 as [|w l Hw _ IH]; [done|]. by rewrite countb_cons, Hw, IH. Qed.

Lemma countb_update f l i w w' : l !! i = Some w ->
  countb f (<[i := w']> l) = countb f l - (if f w then 1 else 0) + (if f w' then 1 else 0).
Proof.
  intros H. destruct (list_update_perm l i w w' H) as (k & H1 & H2).
  rewrite (countb_proper f _ _ H1), (countb_proper f _ _ H2), !countb_cons. lia.
Qed.

Lemma busy_update l i w w' : l !! i = Some w -> exists k,
  omap busy l ≡ₚ option_list (busy w) ++ k /\ omap busy (<[i := w']> l) ≡ₚ option_list (busy w') ++ k.
Proof.
  intros H. destruct (list_update_perm l i w w' H) as (k & H1 & H2). exists (omap busy k).
  apply (omap_Permutation busy) in H1, H2. split; [rewrite H1; by destruct w|rewrite H2; by destruct w'].
Qed.

Lemma busy_idle_update l i w w' : l !! i = Some w -> busy w = None -> busy w' = None ->
  omap busy (<[i := w']> l) ≡ₚ omap busy l.
Proof. intros H Hw Hw'. destruct (busy_update l i w w' H) as (k & H1 & H2).
  by rewrite H1, H2, Hw, Hw'. Qed.

Lemma countb_active_pos l i w : l !! i = Some w -> active w = true -> 0 < countb active l.
Proof.
  intros H Hw. destruct (list_update_perm l i w w H) as (k & H1 & _). rewrite (countb_proper _ _ _ H1), countb_cons, Hw.
  pose proof (countb_nonneg active k). lia.
Qed.

(** The common part of the worker steps: worker [i] moves from [w] to [w'],
    neither of which runs a task, and the counters follow. *)
Lemma inv_set_worker p p' i w w' :
  pool_inv p -> p_workers p !! i = Some w -> busy w = None -> busy w' = None ->
  p' = mkPool (<[i := w']> (p_workers p)) (p_tasks p) (p_stopping p) (p_stopped p) (p_idle_count p')
         (p_init_threads p) (p_max_threads p) (p_backlog_threshold p) (p_max_pending_tasks p)
         (p_current_threads p') (p_accepted p) (p_started p) (p_finished p) ->
  p_current_threads p' = p_current_threads p - (if active w then 1 else 0) + (if active w' then 1 else 0) ->
  p_idle_count p' = p_idle_count p - (if is_waiting w then 1 else 0) + (if is_waiting w' then 1 else 0) ->
  (active w' = true -> active w = true) ->
  (active w = true -> active w' = false ->
     p_tasks p = [] \/ (p_stopping p = false /\ p_init_threads p < p_current_threads p)) ->
  (p_stopping p = false -> active w' = active w \/ p_init_threads p < p_current_threads p) ->
  pool_inv p'.
Proof.
  intros [] Hw Hb Hb' -> Hc Hi Ha1 Ha2 Ha3. simpl in *. rewrite Hc, Hi in *.
  constructor; simpl; try done.
  - by rewrite (countb_update _ _ _ w), inv_current0.
  - by rewrite (countb_update _ _ _ w), inv_idle0.
  - destruct (active w), (active w'); try lia; by specialize (Ha1 eq_refl).
  - intros Hs. specialize (inv_min0 Hs). destruct (Ha3 Hs) as [-> | ?]; destruct (active w), (active w'); lia.
  - by rewrite (busy_idle_update _ _ w).
  - intros Hs. rewrite (countb_update _ _ _ w) by done. intros Hz.
    destruct (active w) eqn:E1, (active w') eqn:E2; try (by specialize (Ha1 eq_refl));
      try (apply inv_drained0; [done|lia]).
    destruct (Ha2 eq_refl eq_refl) as [? | [? ?]]; [done|congruence].
  - intros Hs. destruct (inv_stopped0 Hs) as (? & Hnil & ?). by rewrite Hnil in Hw.
Qed.

Lemma inv_take p i w :
  pool_inv p -> p_workers p !! i = Some w -> busy w = None -> active w = true ->
  (w = Looping \/ w = Waiting) ->
  pool_inv (take_task i (set_idle (p_idle_count p - (if is_waiting w then 1 else 0)) p)).
Proof.
  intros Hinv Hw Hb Ha Hk. unfold take_task. simpl.
  pose proof (countb_active_pos _ _ _ Hw Ha) as Hpos.
  destruct (p_tasks p) as [|t rest] eqn:Et.
  - destruct (p_stopping p) eqn:Es.
    + rewrite (inv_current p Hinv), (proj2 (Z.ltb_lt 0 (countb active (p_workers p))) Hpos).
      rewrite <- (inv_current p Hinv).
      eapply (inv_set_worker p _ i w Leaving); try done; simpl; rewrite ?Ha; try lia; try tauto; congruence.
    + eapply (inv_set_worker p _ i w Looping); try done; simpl; rewrite ?Ha; try lia; try tauto; auto.
  - destruct Hinv. constructor; simpl; try done.
    + rewrite (countb_update _ _ _ w), Ha by done. simpl. lia.
    + rewrite (countb_update _ _ _ w) by done. destruct (is_waiting w); simpl; lia.
    + by rewrite inv_fifo0, Et, <- app_assoc.
    + destruct (busy_update (p_workers p) i w (Busy t) Hw) as (k & H1 & H2).
      rewrite H2. rewrite inv_busy0, H1, Hb. simpl. solve_Permutation.
    + intros H. specialize (inv_pending0 H). rewrite Et in inv_pending0. simpl in *. lia.
    + intros Hs Hz. rewrite (countb_update _ _ _ w), Ha in Hz by done. simpl in Hz. lia.
    + intros Hs. destruct (inv_stopped0 Hs) as (_ & Hn & _). by rewrite Hn in Hw.
Qed.

Lemma set_idle_same p : set_idle (p_idle_count p - 0) p = p.
Proof. destruct p. unfold set_idle. simpl. by rewrite Z.sub_0_r. Qed.

Lemma inv_enqueue p t : pool_inv p -> pool_inv (enqueue t p).2.
Proof.
  intros Hinv. unfold enqueue. destruct (p_stopping p) eqn:Es; [done|].
  destruct (_ && _) eqn:Ep; [done|]. destruct Hinv. constructor; simpl; try done.
  - intros _. by apply inv_min0.
  - by rewrite inv_fifo0, app_assoc.
  - intros H. apply andb_false_iff in Ep as [Ep|Ep]; zify_bools; [lia|].
    rewrite length_app. simpl. lia.
  - intros Hs. destruct (inv_stopped0 Hs). congruence.
Qed.

Lemma filter_finished f l : (forall w, f w = true -> is_finished w = false) ->
  countb f (filter (fun w => is_finished w = false) l) = countb f l.
Proof.
  intros Hf. induction l as [|w l IH]; [done|]. rewrite filter_cons, countb_cons.
  destruct (decide (is_finished w = false)) as [Hw|Hw]; [by rewrite countb_cons, IH|].
  rewrite IH. destruct (f w) eqn:E; [|done]. by rewrite Hf in Hw.
Qed.

Lemma busy_reap (l : list Worker) : omap busy (filter (fun w => is_finished w = false) l) = omap busy l.
Proof.
  induction l as [|w l IH]; [done|]. rewrite filter_cons.
  destruct w; cbn [is_finished]; first [rewrite decide_True by done | rewrite decide_False by done];
    cbn; first [exact IH | f_equal; exact IH].
Qed.

Lemma inv_reap p : p_stopping p = false -> pool_inv p -> pool_inv (reap p).
Proof.
  intros Hs []. constructor; simpl; try done.
  - rewrite filter_finished; [done|by intros []].
  - rewrite filter_finished; [done|by intros []].
  - by rewrite busy_reap.
  - congruence.
  - intros H. destruct (inv_stopped0 H). congruence.
Qed.

Lemma inv_start_workers n room p :
  p_stopping p = false -> p_current_threads p + Z.of_nat n <= p_max_threads p ->
  pool_inv p -> pool_inv (start_workers n room p).
Proof.
  revert room p. induction n as [|n IH]; intros [|room] p Hs Hn Hinv; simpl; try done.
  apply IH; simpl; [done|lia|]. destruct Hinv. constructor; simpl; try done; try lia.
  - rewrite countb_app, countb_cons. simpl. rewrite inv_current0. reflexivity.
  - rewrite countb_app, countb_cons. simpl. rewrite inv_idle0. unfold countb at 3. simpl. lia.
  - intros _. specialize (inv_min0 Hs). lia.
  - rewrite omap_app. cbn. by rewrite app_nil_r.
  - congruence.
  - intros H. destruct (inv_stopped0 H). congruence.
Qed.

Lemma inv_adjust room p : pool_inv p -> pool_inv (adjustPoolSize room p).
Proof.
  intros Hinv. unfold adjustPoolSize. destruct (p_stopping p) eqn:Es; [done|].
  pose proof (inv_reap p Es Hinv) as Hr. destruct (_ && _) eqn:E; [|done]. zify_bools.
  apply inv_start_workers; [done| |done]. simpl in *. lia.
Qed.

Lemma pool_step_inv p p' : pool_step p p' -> pool_inv p -> pool_inv p'.
Proof.
  intros Hstep Hinv. destruct Hstep.
  - by apply inv_enqueue.
  - by apply inv_adjust.
  - pose proof (inv_take p i Looping Hinv H eq_refl eq_refl ltac:(by left)) as Ht.
    simpl in Ht. rewrite set_idle_same in Ht. unfold worker_enter.
    destruct (p_tasks p) eqn:Et; [|done]. destruct (p_stopping p) eqn:Es; [done|].
    eapply (inv_set_worker p _ i Looping Waiting); try done; simpl; try lia; auto.
  - apply (inv_take p i Waiting Hinv H eq_refl eq_refl). by right.
  - unfold worker_timeout. destruct (_ && _) eqn:E.
    + simpl in E. zify_bools.
      eapply (inv_set_worker p _ i Waiting Leaving); try done; simpl; try lia; try tauto.
    + apply (inv_take p i Waiting Hinv H eq_refl eq_refl). by right.
  - destruct Hinv. constructor; simpl; try done.
    + by rewrite (countb_update _ _ _ (Busy t)), inv_current0, Z.sub_simpl_r by done.
    + rewrite (countb_update _ _ _ (Busy t)), inv_idle0 by done. simpl. lia.
    + destruct (busy_update (p_workers p) i (Busy t) Looping H) as (k & H1 & H2).
      rewrite inv_busy0, H2, H1. simpl. solve_Permutation.
    + intros Hs Hz. rewrite (countb_update _ _ _ (Busy t)) in Hz by done. simpl in Hz.
      apply inv_drained0; [done|lia].
    + intros Hs. destruct (inv_stopped0 Hs) as (_ & Hn & _). by rewrite Hn in H.
  - eapply (inv_set_worker p _ i Leaving Finished); try done; simpl; try lia; auto.
  - unfold stop_begin. destruct (p_stopped p) eqn:E; [done|]. destruct Hinv. constructor; simpl; try done.
    intros _ Hz. destruct (p_stopping p) eqn:Es; [by apply inv_drained0|]. specialize (inv_min0 eq_refl). lia.
  - assert (Hz : countb active (p_workers p) = 0).
    { apply countb_none. eapply Forall_impl; [exact H0|]. by intros []. }
    destruct Hinv. pose proof (inv_drained0 H Hz) as Ht.
    assert (Hb : omap busy (p_workers p) = []).
    { clear -H0. induction H0 as [|w l Hw _ IH]; [done|]. destruct w; try done. }
    assert (Hwt : countb is_waiting (p_workers p) = 0).
    { apply countb_none. eapply Forall_impl; [exact H0|]. by intros []. }
    constructor; simpl; try done.
    + by rewrite inv_current0, Hz.
    + by rewrite inv_idle0, Hwt.
    + by rewrite inv_busy0, Hb.
Qed.

Lemma inv_new i m b q : pool_inv (newPool i m b q).
Proof.
  unfold newPool. constructor; simpl; try done; try lia.
  - unfold countb. assert (forall n, filter (fun w => active w = true) (replicate n Looping) = replicate n Looping) as ->.
    { induction n; [done|]. cbn [replicate]. rewrite filter_cons_True by done. by rewrite IHn. }
    rewrite length_replicate. lia.
  - symmetry. apply countb_none. apply Forall_replicate. done.
  - clear. by induction (Z.to_nat (Z.max 1 i)).
Qed.

Lemma reachable_inv i m b q p : rtc pool_step (newPool i m b q) p -> pool_inv p.
Proof.
  intros H. assert (pool_inv (newPool i m b q)) as Hi by apply inv_new. revert Hi.
  induction H; [done|]. intros Hi. by eapply IHrtc, pool_step_inv.
Qed.

Lemma step_config p p' : pool_step p p' ->
  p_init_threads p' = p_init_threads p /\ p_max_threads p' = p_max_threads p /\
  p_max_pending_tasks p' = p_max_pending_tasks p /\
  (p_stopping p = true -> p_stopping p' = true).
Proof.
  assert (Hst : forall n room p, p_init_threads (start_workers n room p) = p_init_threads p /\
    p_max_threads (start_workers n room p) = p_max_threads p /\
    p_max_pending_tasks (start_workers n room p) = p_max_pending_tasks p /\
    p_stopping (start_workers n room p) = p_stopping p).
  { induction n; intros [|room] q; simpl; try done. by rewrite !(proj1 (IHn _ _)), !(proj1 (proj2 (IHn _ _))),
      !(proj1 (proj2 (proj2 (IHn _ _)))), !(proj2 (proj2 (proj2 (IHn _ _)))). }
  destruct 1; simpl; unfold enqueue, adjustPoolSize, worker_enter, worker_wake, worker_timeout, take_task, stop_begin; simpl.
  - destruct (p_stopping p) eqn:E; [done|]. destruct (_ && _); simpl; by rewrite ?E.
  - destruct (p_stopping p) eqn:E; [done|]. destruct (_ && _); [|done].
    destruct (Hst (Z.to_nat (Z.min (p_max_threads p) (p_current_threads p + 2) - p_current_threads p))
                room (reap p)) as (-> & -> & -> & ->). simpl. by rewrite E.
  - destruct (p_tasks p), (p_stopping p) eqn:E, (0 <? p_current_threads p); simpl; rewrite ?E; done.
  - destruct (p_tasks p), (p_stopping p) eqn:E, (0 <? p_current_threads p); simpl; rewrite ?E; done.
  - destruct (_ && _); [done|].
    destruct (p_tasks p), (p_stopping p) eqn:E, (0 <? p_current_threads p); simpl; rewrite ?E; done.
  - done.
  - done.
  - by destruct (p_stopped p).
  - done.
Qed.

Lemma reachable_config i m b q p : rtc pool_step (newPool i m b q) p ->
  p_init_threads p = Z.max 1 i /\ p_max_threads p = Z.max (Z.max 1 i) m /\ p_max_pending_tasks p = q.
Proof.
  intros H. apply (rtc_ind_r (fun p => p_init_threads p = Z.max 1 i /\
    p_max_threads p = Z.max (Z.max 1 i) m /\ p_max_pending_tasks p = q) _) in H; [done|done|].
  intros x y _ Hs (H1 & H2 & H3). apply step_config in Hs as (-> & -> & -> & _). done.
Qed.

(** C33.  In every interleaving of submitters, workers and the stopping thread:
    tasks start in the order they were accepted, none is lost or run twice,
    the started ones are those finished and those running; the backlog keeps
    its bound, the number of threads stays between its minimum and maximum
    until the pool stops, and a waiting task always has a worker that is still
    in its loop. *)
Theorem pool_is_fifo_and_bounded i m b q p :
  rtc pool_step (newPool i m b q) p ->
  p_accepted p = p_started p ++ p_tasks p /\
  p_started p ≡ₚ p_finished p ++ omap busy (p_workers p) /\
  (0 < q -> taskCount p <= q) /\
  p_current_threads p = countb active (p_workers p) /\
  p_current_threads p <= Z.max (Z.max 1 i) m /\
  (p_stopping p = false -> Z.max 1 i <= p_current_threads p) /\
  (p_tasks p <> [] -> 0 < countb active (p_workers p)).
Proof.
  intros H. destruct (reachable_config _ _ _ _ _ H) as (Hi & Hm & Hq). apply reachable_inv in H as [].
  rewrite Hi, Hm, Hq in *. split_and!; try done.
  intros Ht. pose proof (countb_nonneg active (p_workers p)).
  destruct (p_stopping p) eqn:Es; [|specialize (inv_min0 eq_refl); lia].
  destruct (Z.eq_dec (countb active (p_workers p)) 0) as [Hz|]; [|lia]. by destruct (Ht (inv_drained0 eq_refl Hz)).
Qed.

(** C34.  When [stop] returns, every task the pool ever accepted has run to its
    end, and from then on every [enqueue] is refused. *)
Theorem stop_drains_the_pool i m b q p :
  rtc pool_step (newPool i m b q) p -> p_stopped p = true ->
  p_finished p ≡ₚ p_accepted p /\
  forall t p', rtc pool_step p p' -> enqueue t p' = (false, p').
Proof.
  intros H Hs. apply reachable_inv in H as []. destruct (inv_stopped0 Hs) as (Hst & Hw & Ht). split.
  - rewrite inv_fifo0, Ht, app_nil_r, inv_busy0, Hw. simpl. by rewrite app_nil_r.
  - intros t p' Hp'. assert (p_stopping p' = true) as E.
    { clear -Hst Hp'. induction Hp' as [|x y z Hs _ IH]; [done|]. apply IH.
      apply step_config in Hs as (_ & _ & _ & Hk). by apply Hk. }
    unfold enqueue. by rewrite E.
Qed.
End ThreadPool.

Arguments Pool T : clear implicits.
Arguments Worker T : clear implicits.

Module PoolExample.

(** One worker takes the only task, runs it, and the pool stops. *)
Definition p0 : Pool nat := newPool 1 2 50 0.
Definition p1 : Pool nat := (enqueue 7%nat p0).2.
Definition p2 : Pool nat := worker_enter 0 p1.
Definition p3 : Pool nat := worker_done 0 7%nat p2.
Definition p4 : Pool nat := worker_enter 0 (stop_begin p3).
Definition p5 : Pool nat := stop_end (set_worker 0 Finished p4).

Lemma run_to_p3 : rtc pool_step p0 p3.
Proof.
  eapply rtc_l; [apply (step_enqueue 7%nat)|]. eapply rtc_l; [by apply (step_enter 0)|].
  eapply rtc_l; [by apply (step_done 0 7%nat)|]. apply rtc_refl.
Qed.

Lemma run_to_p5 : rtc pool_step p0 p5.
Proof.
  etrans; [apply run_to_p3|]. eapply rtc_l; [apply step_stop|].
  eapply rtc_l; [by apply (step_enter 0)|]. eapply rtc_l; [by apply (step_leave 0)|].
  eapply rtc_l; [apply step_joined; [done|by repeat constructor]|]. apply rtc_refl.
Qed.

Lemma pool_is_fifo_and_bounded_witness :
  p_accepted p3 = p_started p3 ++ p_tasks p3 /\
  p_started p3 ≡ₚ p_finished p3 ++ omap busy (p_workers p3) /\
  (0 < 0 -> taskCount p3 <= 0) /\
  p_current_threads p3 = countb active (p_workers p3) /\
  p_current_threads p3 <= Z.max (Z.max 1 1) 2 /\
  (p_stopping p3 = false -> Z.max 1 1 <= p_current_threads p3) /\
  (p_tasks p3 <> [] -> 0 < countb active (p_workers p3)).
Proof. apply (pool_is_fifo_and_bounded 1 2 50 0). apply run_to_p3. Defined.

Lemma stop_drains_the_pool_witness :
  p_finished p5 ≡ₚ p_accepted p5 /\ forall t p', rtc pool_step p5 p' -> enqueue t p' = (false, p').
Proof. apply (stop_drains_the_pool 1 2 50 0); [apply run_to_p5|reflexivity]. Defined.

End PoolExample.
