(* ===== verification/RpcClient.v ===== *)
(** [RpcClient] of [src/rpc/rpc_client.cpp]: one RPC over a non-blocking socket,
    with a deadline and a cancellation token.

    System call number [k] is answered by [sys k]: the steady clock (in
    nanoseconds) and the state of the cancellation token when the client looks
    at them just before it, and the result of the call.  The bytes the peer
    sends on a connection are [peer k] for a connection made by call [k]; a
    [recv] takes some of them.  The loops of the code run on [fuel]; every
    system call takes at least a nanosecond, so the deadline bounds them. *)
From S2P Require Import Prelude Protocol.

Inductive RpcCallStatus :=
  | CS_OK | CS_ConnectFailed | CS_PayloadTooLarge | CS_DeadlineExceeded
  | CS_Canceled | CS_TransportError | CS_ProtocolError.

#[global] Instance RpcCallStatus_eq_dec : EqDecision RpcCallStatus.
Proof. solve_decision. Defined.

Definition statusName (status : RpcCallStatus) : string :=
  match status with
  | CS_OK => "ok"
  | CS_ConnectFailed => "connect failed"
  | CS_PayloadTooLarge => "payload too large"
  | CS_DeadlineExceeded => "deadline exceeded"
  | CS_Canceled => "canceled"
  | CS_TransportError => "transport error"
  | CS_ProtocolError => "protocol error"
  end.

Definition kPollSliceMs : Z := 100.
Definition ns_per_ms : Z := 1000000.

(** Result of [poll]: an event asked for, another one, none, or an error. *)
Inductive PollResult := PReady | PBad | PTimeout | PIntr | PError.
(** Result of [send] or [recv]: a byte count, a condition to retry on, or the end. *)
Inductive IoResult := IoSome (n : Z) | IoRetry | IoEnd.
(** Result of the socket set-up and the non-blocking [connect]. *)
Inductive ConnectResult := CnNow | CnInProgress | CnFail (error : string).

Record Sys := mkSys {
  sy_now : Z;
  sy_canceled : bool;
  sy_poll : Z -> PollResult;        (* given the milliseconds it may wait *)
  sy_io : IoResult;
  sy_connect : ConnectResult;
  sy_so_error : option string       (* [SO_ERROR] after a connect in progress *)
}.

(** [timeout_ms] and [deadline]; a zero deadline is none. *)
Record RpcCallOptions := mkRpcCallOptions { co_timeout_ms : Z; co_deadline : Z }.

Record RpcClient := mkRpcClient {
  rp_host : string;
  rp_port : Z;
  rp_connected : bool;              (* [sock_fd_ != -1] *)
  rp_status : RpcCallStatus;
  rp_error : string;
  rp_rx : string;                   (* bytes of the peer not yet received *)
  rp_tx : string;                   (* bytes sent on this connection *)
  rp_clock : nat                    (* system calls made *)
}.

Section RpcClient.
Context (sys : nat -> Sys) (peer : nat -> string).

Definition new_rpc_client (host : string) (port : Z) (k : nat) : RpcClient :=
  mkRpcClient host port false CS_OK EmptyString EmptyString EmptyString k.

Definition effective_timeout (timeout_ms : Z) : Z := if 0 <? timeout_ms then timeout_ms else 3000.

Definition fromTimeout (now timeout_ms : Z) : RpcCallOptions :=
  let t := effective_timeout timeout_ms in mkRpcCallOptions t (now + t * ns_per_ms).

Definition fromDeadline (deadline : Z) : RpcCallOptions := mkRpcCallOptions 3000 deadline.

Definition hasDeadline (o : RpcCallOptions) : bool := negb (co_deadline o =? 0).

Definition ensureDeadline (now : Z) (o : RpcCallOptions) : RpcCallOptions :=
  if hasDeadline o then o
  else mkRpcCallOptions (co_timeout_ms o) (now + effective_timeout (co_timeout_ms o) * ns_per_ms).

Definition deadlineExceeded (now : Z) (o : RpcCallOptions) : bool :=
  hasDeadline o && (co_deadline o <=? now).

(** [duration_cast] truncates toward zero. *)
Definition remainingMs (now : Z) (o : RpcCallOptions) : Z :=
  if hasDeadline o then
    let remaining := Z.quot (co_deadline o - now) ns_per_ms in
    if remaining <=? 0 then 0 else if INT_MAX <? remaining then INT_MAX else remaining
  else effective_timeout (co_timeout_ms o).

Definition cur (c : RpcClient) : Sys := sys (rp_clock c).
Definition tick (c : RpcClient) : RpcClient :=
  mkRpcClient (rp_host c) (rp_port c) (rp_connected c) (rp_status c) (rp_error c) (rp_rx c) (rp_tx c)
    (S (rp_clock c)).
Definition setLastError (status : RpcCallStatus) (error : string) (c : RpcClient) : RpcClient :=
  mkRpcClient (rp_host c) (rp_port c) (rp_connected c) status error (rp_rx c) (rp_tx c) (rp_clock c).
Definition disconnect (c : RpcClient) : RpcClient :=
  mkRpcClient (rp_host c) (rp_port c) false (rp_status c) (rp_error c) EmptyString EmptyString (rp_clock c).

Definition terminalStatus (o : RpcCallOptions) (c : RpcClient) : RpcCallStatus :=
  if sy_canceled (cur c) then CS_Canceled
  else if deadlineExceeded (sy_now (cur c)) o then CS_DeadlineExceeded
  else CS_TransportError.

(** Outcome of a loop: done, a failure status, or out of fuel. *)
Inductive Outcome := Done | Failed (s : RpcCallStatus) | OutOfFuel.

Fixpoint waitForEvent (fuel : nat) (o : RpcCallOptions) (c : RpcClient) : Outcome * RpcClient :=
  match fuel with
  | O => (OutOfFuel, c)
  | S fuel' =>
      if sy_canceled (cur c) then (Failed CS_Canceled, c)
      else if remainingMs (sy_now (cur c)) o <=? 0 then (Failed CS_DeadlineExceeded, c)
      else
        let wait_ms := Z.min (remainingMs (sy_now (cur c)) o) kPollSliceMs in
        match sy_poll (cur c) wait_ms with
        | PReady => (Done, tick c)
        | PBad => (Failed CS_TransportError, tick c)
        | PTimeout | PIntr => waitForEvent fuel' o (tick c)
        | PError => (Failed CS_TransportError, tick c)
        end
  end.

(** [send] accepts at least one byte and at most what is left. *)
Definition io_amount (n left : Z) : Z := Z.max 1 (Z.min n left).

Definition push_tx (s : string) (c : RpcClient) : RpcClient :=
  mkRpcClient (rp_host c) (rp_port c) (rp_connected c) (rp_status c) (rp_error c) (rp_rx c)
    (rp_tx c +:+ s) (rp_clock c).
Definition drop_rx (n : Z) (c : RpcClient) : RpcClient :=
  mkRpcClient (rp_host c) (rp_port c) (rp_connected c) (rp_status c) (rp_error c)
    (str_drop (Z.to_nat n) (rp_rx c)) (rp_tx c) (rp_clock c).

Fixpoint sendAll (fuel : nat) (data : string) (o : RpcCallOptions) (c : RpcClient) : Outcome * RpcClient :=
  if str_empty data then (Done, c)
  else
    match fuel with
    | O => (OutOfFuel, c)
    | S fuel' =>
        match waitForEvent fuel o c with
        | (Done, c1) =>
            match sy_io (cur c1) with
            | IoSome n =>
                let k := io_amount n (slen data) in
                sendAll fuel' (str_drop (Z.to_nat k) data) o
                  (push_tx (str_take (Z.to_nat k) data) (tick c1))
            | IoRetry => sendAll fuel' data o (tick c1)
            | IoEnd => (Failed (terminalStatus o (tick c1)), tick c1)
            end
        | r => r
        end
    end.

(** The bytes received so far are kept in order in front of [got]. *)
Fixpoint recvExact (fuel : nat) (size : Z) (got : string) (o : RpcCallOptions) (c : RpcClient)
    : Outcome * string * RpcClient :=
  if size <=? 0 then (Done, got, c)
  else
    match fuel with
    | O => (OutOfFuel, got, c)
    | S fuel' =>
        match waitForEvent fuel o c with
        | (Done, c1) =>
            match sy_io (cur c1) with
            | IoSome n =>
                if str_empty (rp_rx c1) then (Failed (terminalStatus o (tick c1)), got, tick c1)
                else
                  let k := io_amount n (Z.min size (slen (rp_rx c1))) in
                  recvExact fuel' (size - k) (got +:+ str_take (Z.to_nat k) (rp_rx c1)) o
                    (drop_rx k (tick c1))
            | IoRetry => recvExact fuel' size got o (tick c1)
            | IoEnd => (Failed (terminalStatus o (tick c1)), got, tick c1)
            end
        | (r, c1) => (r, got, c1)
        end
    end.

Definition set_connected (c : RpcClient) : RpcClient :=
  mkRpcClient (rp_host c) (rp_port c) true (rp_status c) (rp_error c) (peer (rp_clock c)) EmptyString
    (rp_clock c).

Definition connect (fuel : nat) (o : RpcCallOptions) (c : RpcClient) : option bool * RpcClient :=
  if rp_connected c then (Some true, c)
  else if str_empty (rp_host c) || (rp_port c <=? 0) || (65535 <? rp_port c)
  then (Some false, setLastError CS_ConnectFailed "invalid RPC endpoint" c)
  else
    match sy_connect (cur c) with
    | CnFail error => (Some false, setLastError CS_ConnectFailed error (tick c))
    | CnNow => (Some true, tick (set_connected c))
    | CnInProgress =>
        let c := tick (set_connected c) in
        match waitForEvent fuel o c with
        | (Done, c1) =>
            match sy_so_error (cur c1) with
            | Some error => (Some false, setLastError CS_ConnectFailed error (disconnect (tick c1)))
            | None => (Some true, tick c1)
            end
        | (Failed s, c1) => (Some false, setLastError s (statusName s) (disconnect c1))
        | (OutOfFuel, c1) => (None, c1)
        end
    end.

Definition ensureConnected (fuel : nat) (o : RpcCallOptions) (c : RpcClient) : option bool * RpcClient :=
  if rp_connected c then (Some true, c) else connect fuel o c.

(** One response frame: header, length check, body, decode. *)
Inductive Received := RFrame (serial_id : Z) (payload : string) | RFailed | ROutOfFuel.

Definition fail (s : RpcCallStatus) (error : string) (c : RpcClient) : Received * RpcClient :=
  (RFailed, setLastError s error (disconnect c)).

Definition recv_frame (fuel : nat) (bad_length bad_frame : string) (o : RpcCallOptions) (c : RpcClient)
    : Received * RpcClient :=
  match recvExact fuel kHeaderSize EmptyString o c with
  | (OutOfFuel, _, c1) => (ROutOfFuel, c1)
  | (Failed s, _, c1) => fail s (statusName s) c1
  | (Done, header, c1) =>
      match header with
      | String b0 (String b1 (String b2 (String b3 _))) =>
          let total_len := get_be32 b0 b1 b2 b3 in
          if (total_len <? kSerialIdSize) || (kMaxFrameSize <? total_len)
          then fail CS_ProtocolError bad_length c1
          else
            match recvExact fuel (total_len - kSerialIdSize) EmptyString o c1 with
            | (OutOfFuel, _, c2) => (ROutOfFuel, c2)
            | (Failed s, _, c2) => fail s (statusName s) c2
            | (Done, body, c2) =>
                match decode (header +:+ body) with
                | Some (serial_id, payload) => (RFrame serial_id payload, c2)
                | None => fail CS_ProtocolError bad_frame c2
                end
            end
      | _ => fail CS_ProtocolError bad_length c1
      end
  end.

(** The part [call] and [callStream] share: connect, encode, send. *)
Definition send_request (fuel : nat) (serial_id : Z) (request : string) (o : RpcCallOptions)
    (c : RpcClient) : option bool * RpcClient :=
  let c := setLastError CS_OK EmptyString c in
  match ensureConnected fuel o c with
  | (None, c1) => (None, c1)
  | (Some false, c1) => (Some false, c1)
  | (Some true, c1) =>
      match tryEncode serial_id request with
      | None => (Some false, setLastError CS_PayloadTooLarge "request payload too large" (disconnect c1))
      | Some data =>
          match sendAll fuel data o c1 with
          | (Done, c2) => (Some true, c2)
          | (Failed s, c2) => (Some false, setLastError s (statusName s) (disconnect c2))
          | (OutOfFuel, c2) => (None, c2)
          end
      end
  end.

(** [Some (Some r)] is a success with the response, [Some None] a failure. *)
Definition call (fuel : nat) (serial_id : Z) (request : string) (o : RpcCallOptions) (c : RpcClient)
    : option (option (Z * string)) * RpcClient :=
  let o := ensureDeadline (sy_now (cur c)) o in
  match send_request fuel serial_id request o c with
  | (None, c1) => (None, c1)
  | (Some false, c1) => (Some None, c1)
  | (Some true, c1) =>
      match recv_frame fuel "invalid response frame length" "decode response frame failed" o c1 with
      | (RFrame s p, c2) => (Some (Some (s, p)), setLastError CS_OK (rp_error c2) c2)
      | (RFailed, c2) => (Some None, c2)
      | (ROutOfFuel, c2) => (None, c2)
      end
  end.

(** The stream loop: [on_response] sees the frames in order and stops the
    stream by answering [false]; the frames it saw are returned. *)
Fixpoint stream_loop (rounds fuel : nat) (on_response : Z -> string -> bool) (o : RpcCallOptions)
    (c : RpcClient) : option bool * list (Z * string) * RpcClient :=
  match rounds with
  | O => (None, [], c)
  | S rounds' =>
      match recv_frame fuel "invalid stream response frame length" "decode stream response frame failed" o c with
      | (RFrame s p, c1) =>
          if on_response s p then
            let '(r, l, c2) := stream_loop rounds' fuel on_response o c1 in (r, (s, p) :: l, c2)
          else (Some true, [(s, p)], setLastError CS_OK (rp_error c1) (disconnect c1))
      | (RFailed, c1) => (Some false, [], c1)
      | (ROutOfFuel, c1) => (None, [], c1)
      end
  end.

Definition callStream (fuel : nat) (serial_id : Z) (request : string) (on_response : Z -> string -> bool)
    (o : RpcCallOptions) (c : RpcClient) : option bool * list (Z * string) * RpcClient :=
  let o := ensureDeadline (sy_now (cur c)) o in
  match send_request fuel serial_id request o c with
  | (Some true, c1) => stream_loop fuel fuel on_response o c1
  | (r, c1) => (r, [], c1)
  end.

Definition lastStatus (c : RpcClient) : RpcCallStatus := rp_status c.
Definition lastError (c : RpcClient) : string := rp_error c.

(** ** What the loops do *)

Definition same_conn (c c' : RpcClient) : Prop :=
  rp_connected c' = rp_connected c /\ rp_rx c' = rp_rx c /\ rp_tx c' = rp_tx c.

Lemma waitForEvent_same fuel o c : same_conn c (waitForEvent fuel o c).2.
Proof.
  revert c. induction fuel as [|fuel IH]; intros c; simpl; [done|].
  destruct (sy_canceled _); [done|]. destruct (_ <=? 0); [done|].
  destruct (sy_poll _ _); try done; apply (IH (tick c)).
Qed.

Lemma io_amount_range n left : 0 < left -> 1 <= io_amount n left <= left.
Proof. unfold io_amount. lia. Qed.

Lemma slen_pos s : str_empty s = false -> 0 < slen s.
Proof. destruct s; [done|]. unfold slen. simpl. lia. Qed.

Lemma sendAll_done fuel data o c c' : sendAll fuel data o c = (Done, c') ->
  rp_connected c' = rp_connected c /\ rp_rx c' = rp_rx c /\ rp_tx c' = rp_tx c +:+ data.
Proof.
  revert data c. induction fuel as [|fuel IH]; intros data c; cbn [sendAll];
    (destruct (str_empty data) eqn:Ed;
     [apply str_empty_true in Ed as ->; intros [= <-]; by rewrite append_nil_r|]); [done|].
  pose proof (waitForEvent_same (S fuel) o c) as Hw.
  destruct (waitForEvent (S fuel) o c) as [[] c1]; try done. destruct Hw as (W1 & W2 & W3). simpl in *.
  destruct (sy_io (cur c1)) as [n| |]; [| |done]; intros H; apply IH in H as (H1 & H2 & H3); simpl in *.
  - rewrite H1, H2, H3, W1, W2, W3, append_assoc_str, str_take_drop. done.
  - by rewrite H1, H2, H3, W1, W2, W3.
Qed.

Lemma recvExact_done fuel size got o c got' c' :
  0 <= size -> recvExact fuel size got o c = (Done, got', c') ->
  rp_connected c' = rp_connected c /\ rp_tx c' = rp_tx c /\
  exists taken, slen taken = size /\ got' = got +:+ taken /\ rp_rx c = taken +:+ rp_rx c'.
Proof.
  revert size got c. induction fuel as [|fuel IH]; intros size got c Hs; cbn [recvExact];
    (destruct (size <=? 0) eqn:Ez; zify_bools;
     [intros [= <- <-]; split_and!; try done; exists EmptyString; rewrite append_nil_r;
      split_and!; [unfold slen; simpl; lia|done|done]|]); [done|].
  pose proof (waitForEvent_same (S fuel) o c) as Hw.
  destruct (waitForEvent (S fuel) o c) as [[] c1]; try done. destruct Hw as (W1 & W2 & W3). simpl in *.
  destruct (sy_io (cur c1)) as [n| |]; [| |done].
  - destruct (str_empty (rp_rx c1)) eqn:Er; [done|]. apply slen_pos in Er.
    pose proof (io_amount_range n (Z.min size (slen (rp_rx c1))) ltac:(lia)) as Hk.
    set (k := io_amount _ _) in *. intros H. apply IH in H as (H1 & H2 & taken & Ht & Hg & Hr); [|lia].
    simpl in *. rewrite H1, H2, W1, W3. split_and!; try done.
    exists (str_take (Z.to_nat k) (rp_rx c1) +:+ taken). split_and!.
    + rewrite slen_app, Ht. unfold slen in *. rewrite length_str_take by lia. lia.
    + by rewrite Hg, append_assoc_str.
    + rewrite <- W2, append_assoc_str, <- Hr. by rewrite str_take_drop.
  - intros H. apply IH in H as (H1 & H2 & taken & Ht & Hg & Hr); [|done]. simpl in *.
    rewrite H1, H2, W1, W3. split_and!; try done. exists taken. by rewrite <- W2.
Qed.

Lemma get_be32_body b0 b1 b2 b3 : 0 <= get_be32 b0 b1 b2 b3.
Proof. pose proof (get_be32_range b0 b1 b2 b3). unfold is_u32 in *. lia. Qed.

Lemma decode_frame_size b0 b1 b2 b3 rest f :
  decode (String b0 (String b1 (String b2 (String b3 rest)))) = Some f ->
  dec_frame_size (tryDecodeFrame (String b0 (String b1 (String b2 (String b3 rest))))) = 4 + get_be32 b0 b1 b2 b3.
Proof.
  unfold decode. do 4 (destruct rest as [|? rest]; [done|]). rewrite tryDecodeFrame_header. cbv zeta.
  destruct (get_be32 b0 b1 b2 b3 <? kSerialIdSize); [done|]. destruct (kMaxFrameSize <? get_be32 b0 b1 b2 b3); [done|].
  by destruct (_ <? _).
Qed.

(** [frame] is one frame and nothing more. *)
Definition exact_frame (frame : string) (f : Z * string) : Prop :=
  decode frame = Some f /\ slen frame = dec_frame_size (tryDecodeFrame frame).

(** A frame is taken off the stream whole, or the connection is dropped. *)
Lemma recv_frame_spec fuel e1 e2 o c :
  match recv_frame fuel e1 e2 o c with
  | (RFrame s p, c') =>
      rp_connected c' = rp_connected c /\ rp_tx c' = rp_tx c /\
      exists frame, exact_frame frame (s, p) /\ rp_rx c = frame +:+ rp_rx c'
  | (RFailed, c') => rp_connected c' = false
  | (ROutOfFuel, _) => True
  end.
Proof.
  unfold recv_frame, fail. destruct (recvExact fuel kHeaderSize EmptyString o c) as [[[] header] c1] eqn:E1;
    try done. apply recvExact_done in E1 as (A1 & A2 & taken & At & Ah & Ar); [|done].
  simpl in Ah. subst header. destruct taken as [|b0 [|b1 [|b2 [|b3 rest]]]] eqn:Et; try done. rewrite <- Et in *.
  destruct (_ || _) eqn:Eb; [done|]. zify_bools.
  destruct (recvExact fuel (get_be32 b0 b1 b2 b3 - kSerialIdSize) EmptyString o c1) as [[[] body] c2] eqn:E2; try done.
  apply recvExact_done in E2 as (B1 & B2 & taken2 & Bt & Bh & Br); [|lia]. simpl in Bh. subst body.
  destruct (decode (taken +:+ taken2)) as [[s p]|] eqn:Ed; [|done].
  rewrite B1, B2, A1, A2. split_and!; try done. exists (taken +:+ taken2).
  split; [|by rewrite Ar, Br, append_assoc_str]. split; [done|].
  rewrite slen_app, At, Bt. subst taken. cbn [String.append] in Ed |- *. rewrite (decode_frame_size _ _ _ _ _ _ Ed).
  unfold kHeaderSize, kSerialIdSize. lia.
Qed.

Lemma connect_spec fuel o c :
  match connect fuel o c with
  | (Some true, c') => rp_connected c' = true /\
      ((rp_connected c = true /\ c' = c) \/
       (rp_connected c = false /\ rp_tx c' = EmptyString /\ exists k, rp_rx c' = peer k))
  | (Some false, c') => rp_connected c' = false
  | (None, _) => True
  end.
Proof.
  unfold connect. destruct (rp_connected c) eqn:Ec; [by split; [|left]|].
  destruct (_ || _); [done|]. destruct (sy_connect (cur c)); [| |done].
  - split; [done|]. right. split_and!; try done. by eexists.
  - pose proof (waitForEvent_same fuel o (tick (set_connected c))) as Hw.
    destruct (waitForEvent fuel o (tick (set_connected c))) as [[] c1]; try done. destruct Hw as (W1 & W2 & W3).
    simpl in *. destruct (sy_so_error (cur c1)); [done|]. simpl. split; [done|]. right.
    split_and!; try done. by eexists.
Qed.

Lemma send_request_spec fuel serial_id request o c :
  match send_request fuel serial_id request o c with
  | (Some true, c') => rp_connected c' = true /\ exists data, tryEncode serial_id request = Some data /\
      ((rp_connected c = true /\ rp_rx c' = rp_rx c /\ rp_tx c' = rp_tx c +:+ data) \/
       (rp_connected c = false /\ rp_tx c' = data /\ exists k, rp_rx c' = peer k))
  | (Some false, c') => rp_connected c' = false
  | (None, _) => True
  end.
Proof.
  unfold send_request, ensureConnected. set (c0 := setLastError CS_OK EmptyString c).
  assert (Hc : rp_connected c0 = rp_connected c /\ rp_rx c0 = rp_rx c /\ rp_tx c0 = rp_tx c) by done.
  clearbody c0. destruct Hc as (C1 & C2 & C3).
  pose proof (connect_spec fuel o c0) as Hcon.
  assert (He : (if rp_connected c0 then (Some true, c0) else connect fuel o c0) = connect fuel o c0).
  { unfold connect. by destruct (rp_connected c0). }
  rewrite He. destruct (connect fuel o c0) as [[[]|] c1]; [|done|done].
  destruct Hcon as (H1 & Hcases). destruct (tryEncode serial_id request) as [data|]; [|done].
  destruct (sendAll fuel data o c1) as [[] c2] eqn:Es; [|done|done].
  apply sendAll_done in Es as (S1 & S2 & S3). split; [congruence|]. exists data. split; [done|].
  destruct Hcases as [[Hc0 ->] | (Hc0 & Htx & k & Hk)].
  - left. rewrite <- C1. split_and!; congruence.
  - right. rewrite <- C1. split_and!; [done|by rewrite S3, Htx|exists k; congruence].
Qed.

(** C38.  A call that succeeds wrote exactly one frame, the encoding of its
    request, and took exactly one frame off the peer's stream, all its bytes and
    no more, whose decoding it returns; the rest of the stream is left for the
    next call.  A call that
    fails has closed its connection: late bytes of an abandoned response are
    never read as the response of another call. *)
Theorem call_keeps_the_stream_in_step fuel serial_id request o c :
  match call fuel serial_id request o c with
  | (Some (Some (s, p)), c') =>
      rp_connected c' = true /\
      exists data frame, tryEncode serial_id request = Some data /\ exact_frame frame (s, p) /\
        ((rp_connected c = true /\ rp_tx c' = rp_tx c +:+ data /\ rp_rx c = frame +:+ rp_rx c') \/
         (rp_connected c = false /\ rp_tx c' = data /\ exists k, peer k = frame +:+ rp_rx c'))
  | (Some None, c') => rp_connected c' = false
  | (None, _) => True
  end.
Proof.
  unfold call. set (o' := ensureDeadline _ o).
  pose proof (send_request_spec fuel serial_id request o' c) as Hs.
  destruct (send_request fuel serial_id request o' c) as [[[]|] c1]; [|done|done].
  destruct Hs as (H1 & data & Hd & Hcases).
  match goal with |- context [recv_frame fuel ?a ?b o' c1] => pose proof (recv_frame_spec fuel a b o' c1) as Hr;
    destruct (recv_frame fuel a b o' c1) as [[s p| |] c2] end; [|done|done].
  destruct Hr as (R1 & R2 & frame & Hf & Hrx). simpl. split; [congruence|]. exists data, frame.
  split_and!; try done. destruct Hcases as [(Hc & Hrx1 & Htx) | (Hc & Htx & k & Hk)].
  - left. split_and!; congruence.
  - right. split_and!; try congruence. exists k. congruence.
Qed.

(** ** Deadlines *)

(** Every system call takes at least a nanosecond. *)
Definition clock_ticks : Prop := forall k, sy_now (sys k) + 1 <= sy_now (sys (S k)).

Definition now_of (c : RpcClient) : Z := sy_now (cur c).

(** Fuel that outlasts the deadline. *)
Definition enough (fuel : nat) (o : RpcCallOptions) (c : RpcClient) : Prop :=
  hasDeadline o = true /\ 0 < Z.of_nat fuel /\ co_deadline o - now_of c < Z.of_nat fuel.

Lemma now_mono c c' : clock_ticks -> (rp_clock c <= rp_clock c')%nat ->
  now_of c + (Z.of_nat (rp_clock c') - Z.of_nat (rp_clock c)) <= now_of c'.
Proof.
  intros Ht Hle. unfold now_of, cur.
  assert (H : forall n k, sy_now (sys k) + Z.of_nat n <= sy_now (sys (k + n)%nat)).
  { induction n as [|n IH]; intros k; [rewrite Nat.add_0_r; lia|].
    specialize (IH (S k)). specialize (Ht k). replace (k + S n)%nat with (S k + n)%nat by lia. lia. }
  specialize (H (rp_clock c' - rp_clock c)%nat (rp_clock c)).
  replace (rp_clock c + (rp_clock c' - rp_clock c))%nat with (rp_clock c') in H by lia. lia.
Qed.

Lemma enough_later fuel o c c' :
  clock_ticks -> (rp_clock c <= rp_clock c')%nat -> enough fuel o c -> enough fuel o c'.
Proof. intros Ht Hle (H1 & H2 & H3). pose proof (now_mono c c' Ht Hle). split_and!; try done. lia. Qed.

(** One round of a loop: time left, and a call made. *)
Lemma enough_step fuel o c c' :
  clock_ticks -> (rp_clock c < rp_clock c')%nat -> 0 < co_deadline o - now_of c ->
  enough (S fuel) o c -> enough fuel o c'.
Proof.
  intros Ht Hlt Hd (H1 & H2 & H3). pose proof (now_mono c c' Ht ltac:(lia)). unfold enough. split_and!; [done|lia|lia].
Qed.

Lemma remaining_pos o now : hasDeadline o = true -> 0 < remainingMs now o -> 0 < co_deadline o - now.
Proof.
  unfold remainingMs, ns_per_ms. intros -> H. destruct (Z.quot _ _ <=? 0) eqn:E; [lia|]. zify_bools.
  destruct (Z.le_gt_cases (co_deadline o - now) 0) as [Hn|]; [|lia].
  pose proof (Z.quot_opp_l (co_deadline o - now) 1000000 ltac:(lia)) as Hq.
  pose proof (Z.quot_pos (- (co_deadline o - now)) 1000000 ltac:(lia) ltac:(lia)). lia.
Qed.

Lemma waitForEvent_enough fuel o c : clock_ticks -> enough fuel o c ->
  match waitForEvent fuel o c with
  | (Done, c') => (rp_clock c < rp_clock c')%nat /\ 0 < co_deadline o - now_of c
  | (Failed _, c') => (rp_clock c <= rp_clock c')%nat
  | (OutOfFuel, _) => False
  end.
Proof.
  intros Ht. revert c. induction fuel as [|fuel IH]; intros c He; [destruct He; lia|].
  cbn [waitForEvent]. destruct (sy_canceled (cur c)); [done|].
  destruct (remainingMs (sy_now (cur c)) o <=? 0) eqn:Er; [done|]. zify_bools.
  pose proof (remaining_pos o _ (proj1 He) Er) as Hd.
  assert (He' : enough fuel o (tick c)) by (apply (enough_step _ _ c); simpl; try done; lia).
  specialize (IH (tick c) He').
  destruct (sy_poll (cur c) _); simpl in *; try (split; [lia|exact Hd]); try lia.
  all: destruct (waitForEvent fuel o (tick c)) as [[] c1]; try done; simpl in *; try lia.
  all: split; [lia|exact Hd].
Qed.

Lemma sendAll_enough fuel data o c : clock_ticks -> enough fuel o c ->
  (sendAll fuel data o c).1 <> OutOfFuel /\ (rp_clock c <= rp_clock (sendAll fuel data o c).2)%nat.
Proof.
  intros Ht. revert data c. induction fuel as [|fuel IH]; intros data c He; [destruct He; lia|].
  cbn [sendAll]. destruct (str_empty data); [done|].
  pose proof (waitForEvent_enough (S fuel) o c Ht He) as Hw.
  destruct (waitForEvent (S fuel) o c) as [[] c1]; [|done|done]. destruct Hw as [Hlt Hd].
  assert (Hnext : forall d c2, rp_clock c2 = S (rp_clock c1) ->
    (sendAll fuel d o c2).1 <> OutOfFuel /\ (rp_clock c <= rp_clock (sendAll fuel d o c2).2)%nat).
  { intros d c2 Hc. destruct (IH d c2) as [H1 H2]; [apply (enough_step _ _ c); try done; lia|]. split; [done|lia]. }
  destruct (sy_io (cur c1)); [by apply Hnext|by apply Hnext|]. simpl. split; [done|lia].
Qed.

Lemma recvExact_enough fuel size got o c : clock_ticks -> enough fuel o c ->
  (recvExact fuel size got o c).1.1 <> OutOfFuel /\ (rp_clock c <= rp_clock (recvExact fuel size got o c).2)%nat.
Proof.
  intros Ht. revert size got c. induction fuel as [|fuel IH]; intros size got c He; [destruct He; lia|].
  cbn [recvExact]. destruct (size <=? 0); [done|].
  pose proof (waitForEvent_enough (S fuel) o c Ht He) as Hw.
  destruct (waitForEvent (S fuel) o c) as [[] c1]; [|done|done]. destruct Hw as [Hlt Hd].
  assert (Hnext : forall n d c2, rp_clock c2 = S (rp_clock c1) ->
    (recvExact fuel n d o c2).1.1 <> OutOfFuel /\ (rp_clock c <= rp_clock (recvExact fuel n d o c2).2)%nat).
  { intros n d c2 Hc. destruct (IH n d c2) as [H1 H2]; [apply (enough_step _ _ c); try done; lia|]. split; [done|lia]. }
  destruct (sy_io (cur c1)); [|by apply Hnext|simpl; split; [done|lia]].
  destruct (str_empty (rp_rx c1)); [simpl; split; [done|lia]|by apply Hnext].
Qed.

Lemma recv_frame_enough fuel e1 e2 o c : clock_ticks -> enough fuel o c ->
  match recv_frame fuel e1 e2 o c with
  | (RFrame _ _, c') => (rp_clock c < rp_clock c')%nat /\ 0 < co_deadline o - now_of c
  | (RFailed, _) => True
  | (ROutOfFuel, _) => False
  end.
Proof.
  intros Ht He. unfold recv_frame, fail.
  pose proof (recvExact_enough fuel kHeaderSize EmptyString o c Ht He) as [H1 H2].
  assert (Hfirst : forall h c', recvExact fuel kHeaderSize EmptyString o c = (Done, h, c') ->
            (rp_clock c < rp_clock c')%nat /\ 0 < co_deadline o - now_of c).
  { intros h c'. destruct fuel as [|fuel]; [destruct He; lia|]. cbn [recvExact kHeaderSize Z.leb].
    pose proof (waitForEvent_enough (S fuel) o c Ht He) as Hw.
    destruct (waitForEvent (S fuel) o c) as [[] c1]; [|done|done]. destruct Hw as [Hlt Hd].
    assert (Hn : forall n d c2 h' c'', rp_clock c2 = S (rp_clock c1) -> recvExact fuel n d o c2 = (Done, h', c'') ->
              (rp_clock c < rp_clock c'')%nat).
    { intros n d c2 h' c'' Hc Hr. destruct (recvExact_enough fuel n d o c2 Ht) as [_ Hle];
        [apply (enough_step _ _ c); try done; lia|]. rewrite Hr in Hle. simpl in Hle. lia. }
    change (8 <=? 0) with false. cbv iota.
    destruct (sy_io (cur c1)); [|intros Hr; split; [by eapply Hn; [|exact Hr]|done]|done].
    destruct (str_empty (rp_rx c1)); [done|]. intros Hr. split; [by eapply Hn; [|exact Hr]|done]. }
  destruct (recvExact fuel kHeaderSize EmptyString o c) as [[[] header] c1]; try done.
  specialize (Hfirst _ _ eq_refl) as [Hlt Hd]. simpl in *.
  destruct header as [|b0 [|b1 [|b2 [|b3 rest]]]]; try done. destruct (_ || _); [done|].
  pose proof (recvExact_enough fuel (get_be32 b0 b1 b2 b3 - kSerialIdSize) EmptyString o c1 Ht) as [H3 H4];
    [by apply (enough_later _ _ c)|].
  destruct (recvExact fuel _ EmptyString o c1) as [[[] body] c2]; try done. simpl in *.
  destruct (decode _) as [[s p]|]; [|done]. split; [lia|done].
Qed.

Lemma send_request_enough fuel serial_id request o c : clock_ticks -> enough fuel o c ->
  (send_request fuel serial_id request o c).1 <> None /\
  (rp_clock c <= rp_clock (send_request fuel serial_id request o c).2)%nat.
Proof.
  intros Ht He. unfold send_request, ensureConnected.
  set (c0 := setLastError CS_OK EmptyString c). assert (He0 : enough fuel o c0) by done.
  assert (Hc0 : rp_clock c0 = rp_clock c) by done. clearbody c0.
  assert (Hcon : (connect fuel o c0).1 <> None /\ (rp_clock c0 <= rp_clock (connect fuel o c0).2)%nat).
  { unfold connect. destruct (rp_connected c0); [done|]. destruct (_ || _); [done|].
    destruct (sy_connect (cur c0)); simpl; try (split; [done|lia]).
    pose proof (waitForEvent_enough fuel o (tick (set_connected c0)) Ht) as Hw.
    destruct (waitForEvent fuel o (tick (set_connected c0))) as [[] c1]; simpl in *.
    - destruct Hw as [? _]; [apply (enough_later _ _ c0); simpl; try done; lia|].
      destruct (sy_so_error (cur c1)); simpl; (split; [done|lia]).
    - split; [done|]. assert (S (rp_clock c0) <= rp_clock c1)%nat; [|lia]. apply Hw.
      apply (enough_later _ _ c0); simpl; try done; lia.
    - exfalso. apply Hw. apply (enough_later _ _ c0); simpl; try done; lia. }
  assert (Heq : (if rp_connected c0 then (Some true, c0) else connect fuel o c0) = connect fuel o c0).
  { unfold connect. by destruct (rp_connected c0). }
  rewrite Heq. destruct (connect fuel o c0) as [[[]|] c1]; simpl in *; destruct Hcon as [Hc1 Hc2];
    [|split; [done|lia]|done].
  destruct (tryEncode serial_id request) as [data|]; [|simpl; split; [done|lia]].
  destruct (sendAll_enough fuel data o c1 Ht) as [H1 H2]; [apply (enough_later _ _ c0); try done; lia|].
  destruct (sendAll fuel data o c1) as [[] c2]; simpl in *; try done; (split; [done|lia]).
Qed.

Lemma call_returns fuel serial_id request o c :
  clock_ticks -> enough fuel (ensureDeadline (sy_now (cur c)) o) c -> (call fuel serial_id request o c).1 <> None.
Proof.
  intros Ht He. unfold call. set (o' := ensureDeadline _ o) in *.
  destruct (send_request_enough fuel serial_id request o' c Ht He) as [H1 H2].
  destruct (send_request fuel serial_id request o' c) as [[[]|] c1]; [|done|done]. simpl in H2.
  assert (He1 : enough fuel o' c1) by (by apply (enough_later _ _ c)).
  match goal with |- context [recv_frame fuel ?a ?b o' c1] =>
    pose proof (recv_frame_enough fuel a b o' c1 Ht He1) as Hr;
    by destruct (recv_frame fuel a b o' c1) as [[s p| |] c2] end.
Qed.

Lemma stream_loop_returns rounds fuel on_response o c :
  clock_ticks -> enough fuel o c -> enough rounds o c -> (stream_loop rounds fuel on_response o c).1.1 <> None.
Proof.
  intros Ht. revert c. induction rounds as [|rounds IH]; intros c Hf Hr; [destruct Hr; lia|].
  cbn [stream_loop]. match goal with |- context [recv_frame fuel ?a ?b o c] =>
    pose proof (recv_frame_enough fuel a b o c Ht Hf) as Hw;
    destruct (recv_frame fuel a b o c) as [[s p| |] c2] end; [|done|done].
  destruct Hw as [Hlt Hd]. destruct (on_response s p); [|done].
  specialize (IH c2 ltac:(apply (enough_later _ _ c); try done; lia) ltac:(by apply (enough_step _ _ c))).
  by destruct (stream_loop rounds fuel on_response o c2) as [[r l] c3].
Qed.

Lemma callStream_returns fuel serial_id request on_response o c :
  clock_ticks -> enough fuel (ensureDeadline (sy_now (cur c)) o) c ->
  (callStream fuel serial_id request on_response o c).1.1 <> None.
Proof.
  intros Ht He. unfold callStream. set (o' := ensureDeadline _ o) in *.
  destruct (send_request_enough fuel serial_id request o' c Ht He) as [H1 H2].
  destruct (send_request fuel serial_id request o' c) as [[[]|] c1]; [|done|done]. simpl in H2.
  by apply stream_loop_returns; [|apply (enough_later _ _ c)..].
Qed.

(** C39.  A call returns by its deadline: with a fuel of the nanoseconds that
    are left until it (and one), neither [call] nor [callStream] runs out,
    whatever the peer and the system calls do. *)
Theorem calls_end_by_the_deadline fuel serial_id request on_response o c :
  clock_ticks -> enough fuel (ensureDeadline (sy_now (cur c)) o) c ->
  (call fuel serial_id request o c).1 <> None /\
  (callStream fuel serial_id request on_response o c).1.1 <> None.
Proof.
  intros Ht He. split; [by apply call_returns|by apply callStream_returns].
Qed.
End RpcClient.

Module RpcClientExample.

(** A peer that answers an echo, three bytes at a time. *)
Definition sys3 (k : nat) : Sys :=
  mkSys (1000 + Z.of_nat k) false (fun _ => PReady) (IoSome 3) CnInProgress None.
Definition peer3 (k : nat) : string := default EmptyString (tryEncode kEchoResponseSerialId "pong").
Definition client : RpcClient := new_rpc_client "127.0.0.1" 9000 0.

Lemma echo_run :
  (call sys3 peer3 20 kEchoRequestSerialId "ping" (mkRpcCallOptions 3000 0) client).1
  = Some (Some (kEchoResponseSerialId, "pong")).
Proof. reflexivity. Qed.

(** Two responses wait: the call takes the first and leaves the second. *)
Definition peer33 (k : nat) : string := peer3 k +:+ peer3 k.
Definition after_echo : RpcClient := (call sys3 peer33 20 kEchoRequestSerialId "ping" (mkRpcCallOptions 3000 0) client).2.

Lemma call_keeps_the_stream_in_step_witness :
  rp_connected after_echo = true /\
  exists data frame, tryEncode kEchoRequestSerialId "ping" = Some data /\ exact_frame frame (kEchoResponseSerialId, "pong") /\
    ((rp_connected client = true /\ rp_tx after_echo = rp_tx client +:+ data /\ rp_rx client = frame +:+ rp_rx after_echo) \/
     (rp_connected client = false /\ rp_tx after_echo = data /\ exists k, peer33 k = frame +:+ rp_rx after_echo)).
Proof.
  pose proof (call_keeps_the_stream_in_step sys3 peer33 20 kEchoRequestSerialId "ping" (mkRpcCallOptions 3000 0) client) as H.
  unfold after_echo. set (r := call _ _ _ _ _ _ _) in *.
  assert (E : r.1 = Some (Some (kEchoResponseSerialId, "pong"%string))) by (by vm_compute).
  destruct r as [x c']. cbn [fst snd] in *. subst x. exact H.
Defined.

Lemma calls_end_by_the_deadline_witness :
  (call sys3 peer3 2000 kEchoRequestSerialId "ping" (fromDeadline 2500) client).1 <> None /\
  (callStream sys3 peer3 2000 kEchoRequestSerialId "ping" (fun _ _ => false) (fromDeadline 2500) client).1.1 <> None.
Proof.
  apply calls_end_by_the_deadline.
  - intros k. unfold sys3, sy_now. lia.
  - split_and!; [done|lia|]. unfold now_of, cur, sys3, client, co_deadline. simpl. lia.
Defined.

End RpcClientExample.
