(* ===== verification/RpcClientPool.v ===== *)
(** [RpcClientPool] of [src/rpc/rpc_client_pool.cpp]: idle connections, a circuit
    breaker and round-robin order per endpoint.

    [Transport] is what the pool needs of [RpcClient] (and of the clock and the
    cancellation token it consults between calls); [RpcTransport] is the
    instance that [RpcClient] provides.  Each function that locks an endpoint's
    mutex is one transition of that endpoint's state. *)
From S2P Require Import Prelude Datetime Text Protocol RpcClient.

(** Outcome of a client call: the response, or the status and text of the failure. *)
Record CallResult := mkCallResult {
  cr_response : option (Z * string);
  cr_status : RpcCallStatus;
  cr_error : string
}.

Class Transport (W C : Type) := {
  tr_new : string -> Z -> W -> C;
  tr_call : Z -> string -> RpcCallOptions -> C -> W -> CallResult * C * W;
  tr_now : W -> Z;                 (* the steady clock, in nanoseconds *)
  tr_canceled : W -> bool;
  tr_pass : W -> W                 (* time passes between two readings *)
}.

(** [RpcClient] over the answers [sys] of the system; the world is the number
    of system calls made so far. *)
#[global] Instance RpcTransport (sys : nat -> Sys) (peer : nat -> string) (fuel : nat)
  : Transport nat RpcClient := {|
  tr_new host port w := new_rpc_client host port w;
  tr_call serial_id request o c w :=
    let c := mkRpcClient (rp_host c) (rp_port c) (rp_connected c) (rp_status c) (rp_error c)
               (rp_rx c) (rp_tx c) w in
    let '(r, c') := call sys peer fuel serial_id request o c in
    (mkCallResult (default None r) (lastStatus c') (lastError c'), c', rp_clock c');
  tr_now w := sy_now (sys w);
  tr_canceled w := sy_canceled (sys w);
  tr_pass w := S w
|}.

Inductive CircuitState := Closed | Open | HalfOpen.

#[global] Instance CircuitState_eq_dec : EqDecision CircuitState.
Proof. solve_decision. Defined.

Record PoolOptions := mkPoolOptions {
  po_max_idle_per_endpoint : Z;
  po_failure_threshold : Z;
  po_cooldown_ms : Z;
  po_health_check_probe : bool;
  po_health_check_timeout_ms : Z;
  po_health_check_service_name : string
}.

Definition normalize_pool_options (o : PoolOptions) : PoolOptions := {|
  po_max_idle_per_endpoint := if po_max_idle_per_endpoint o =? 0 then 1 else po_max_idle_per_endpoint o;
  po_failure_threshold := if po_failure_threshold o <=? 0 then 1 else po_failure_threshold o;
  po_cooldown_ms := if po_cooldown_ms o <? 0 then 0 else po_cooldown_ms o;
  po_health_check_probe := po_health_check_probe o;
  po_health_check_timeout_ms :=
    if po_health_check_timeout_ms o <=? 0 then 500 else po_health_check_timeout_ms o;
  po_health_check_service_name := po_health_check_service_name o
|}.

(** The last occurrence of [c], as [rfind]: what is before it and after it. *)
Fixpoint rsplit (c : ascii) (s : string) : option (string * string) :=
  match s with
  | EmptyString => None
  | String a s' =>
      match rsplit c s' with
      | Some (x, y) => Some (String a x, y)
      | None => if Ascii.eqb a c then Some (EmptyString, s') else None
      end
  end.

Definition at_nul (s : string) : bool :=
  match s with EmptyString => true | String c _ => Ascii.eqb c "000"%char end.

Definition LONG_MIN : Z := - 2 ^ 63.
Definition LONG_MAX : Z := 2 ^ 63 - 1.

Definition parseEndpoint (endpoint : string) : option (string * Z) :=
  match rsplit ":" endpoint with
  | None => None
  | Some (host, port_text) =>
      if str_empty host || str_empty port_text then None
      else
        match strtol LONG_MIN LONG_MAX port_text with
        | Some (port, rest) =>
            if negb (at_nul rest) || (port <=? 0) || (65535 <? port) then None else Some (host, port)
        | None => None
        end
  end.

Section Pool.
Context {W C : Type} `{TR : Transport W C}.

Record EndpointState := mkEndpointState {
  es_idle_clients : list C;           (* most recently released first *)
  es_consecutive_failures : Z;
  es_unhealthy_until : Z;
  es_circuit_state : CircuitState;
  es_half_open_probe_in_flight : bool
}.

Definition new_endpoint : EndpointState := mkEndpointState [] 0 0 Closed false.

Record RpcPool := mkRpcPool {
  pl_options : PoolOptions;
  pl_states : gmap string EndpointState;
  pl_round_robin : Z
}.

Definition new_pool (o : PoolOptions) : RpcPool := mkRpcPool (normalize_pool_options o) ∅ 0.

Definition stateFor (p : RpcPool) (endpoint : string) : EndpointState :=
  default new_endpoint (pl_states p !! endpoint).

Definition set_state (endpoint : string) (st : EndpointState) (p : RpcPool) : RpcPool :=
  mkRpcPool (pl_options p) (<[endpoint := st]> (pl_states p)) (pl_round_robin p).

(** ** One endpoint *)

Definition healthy_enough (now : Z) (st : EndpointState) : bool :=
  match es_circuit_state st with
  | Closed => true
  | Open => (es_unhealthy_until st <=? now) && negb (es_half_open_probe_in_flight st)
  | HalfOpen => false
  end.

Definition reserve_probe (now : Z) (st : EndpointState) : bool * EndpointState :=
  if negb (bool_decide (es_circuit_state st = Open)) || (now <? es_unhealthy_until st) ||
     es_half_open_probe_in_flight st
  then (false, st)
  else (true, mkEndpointState (es_idle_clients st) (es_consecutive_failures st)
                (es_unhealthy_until st) HalfOpen true).

Definition success_state (st : EndpointState) : EndpointState :=
  mkEndpointState (es_idle_clients st) 0 0 Closed false.

Definition failure_state (o : PoolOptions) (now : Z) (st : EndpointState) : EndpointState :=
  let failures := es_consecutive_failures st + 1 in
  if po_failure_threshold o <=? failures
  then mkEndpointState (es_idle_clients st) failures (now + po_cooldown_ms o * ns_per_ms) Open false
  else mkEndpointState (es_idle_clients st) failures (es_unhealthy_until st) (es_circuit_state st)
         (es_half_open_probe_in_flight st).

Definition release_state (o : PoolOptions) (c : C) (reusable : bool) (st : EndpointState) : EndpointState :=
  if reusable && (Z.of_nat (length (es_idle_clients st)) <? po_max_idle_per_endpoint o)
  then mkEndpointState (c :: es_idle_clients st) (es_consecutive_failures st) (es_unhealthy_until st)
         (es_circuit_state st) (es_half_open_probe_in_flight st)
  else st.

Definition borrow_state (fresh : C) (st : EndpointState) : C * EndpointState :=
  match es_idle_clients st with
  | [] => (fresh, st)
  | c :: rest => (c, mkEndpointState rest (es_consecutive_failures st) (es_unhealthy_until st)
                       (es_circuit_state st) (es_half_open_probe_in_flight st))
  end.

(** ** The pool *)

Definition PM : Type -> Type := M (RpcPool * W).

Definition read_now : PM Z := fun s => (tr_now s.2, (s.1, tr_pass s.2)).
Definition on_endpoint {A} (endpoint : string) (f : EndpointState -> A * EndpointState) : PM A := fun s =>
  let '(a, st) := f (stateFor s.1 endpoint) in (a, (set_state endpoint st s.1, s.2)).

Definition isHealthyEnough (endpoint : string) (now : Z) : PM bool :=
  on_endpoint endpoint (fun st => (healthy_enough now st, st)).
Definition reserveHalfOpenProbe (endpoint : string) (now : Z) : PM bool :=
  on_endpoint endpoint (reserve_probe now).
Definition recordSuccess (endpoint : string) : PM () :=
  on_endpoint endpoint (fun st => ((), success_state st)).
Definition recordFailure (endpoint : string) : PM () :=
  let* now := read_now in
  let* p := gets fst in
  on_endpoint endpoint (fun st => ((), failure_state (pl_options p) now st)).
Definition finishHalfOpenProbe (endpoint : string) (success : bool) : PM () :=
  if success then recordSuccess endpoint else recordFailure endpoint.

(** The request and the reply of the health check are protobuf messages:
    [health_request] serialises one, [health_serving] parses the reply and
    reads its [serving] field ([None] when it does not parse). *)
Context (health_request : string -> string) (health_serving : string -> option bool).

Definition run_client (serial_id : Z) (request : string) (o : RpcCallOptions) (c : C) : PM (CallResult * C) :=
  fun s => let '(r, c', w) := tr_call serial_id request o c s.2 in ((r, c'), (s.1, w)).

Definition healthCheckEndpoint (address : string * Z) (parent : RpcCallOptions) : PM bool :=
  let* p := gets fst in
  if negb (po_health_check_probe (pl_options p)) then retM true
  else
    let* now := read_now in
    let probe := fromTimeout now (po_health_check_timeout_ms (pl_options p)) in
    let probe :=
      if hasDeadline parent && (co_deadline parent <? co_deadline probe)
      then mkRpcCallOptions (co_timeout_ms probe) (co_deadline parent) else probe in
    let* c := gets (fun s => tr_new address.1 address.2 s.2) in
    let* r := run_client kHealthCheckRequestSerialId
                (health_request (po_health_check_service_name (pl_options p))) probe c in
    retM (match cr_response r.1 with
          | Some (serial, payload) =>
              (serial =? kHealthCheckResponseSerialId) && default false (health_serving payload)
          | None => false
          end).

Definition borrow (endpoint : string) (address : string * Z) : PM C :=
  let* fresh := gets (fun s => tr_new address.1 address.2 s.2) in
  on_endpoint endpoint (borrow_state fresh).

Definition release (endpoint : string) (c : C) (reusable : bool) : PM () :=
  let* p := gets fst in
  on_endpoint endpoint (fun st => ((), release_state (pl_options p) c reusable st)).

(** Non-empty endpoints, first occurrences in order. *)
Fixpoint unique_endpoints (seen l : list string) : list string :=
  match l with
  | [] => seen
  | e :: l' =>
      if str_empty e || bool_decide (e ∈ seen) then unique_endpoints seen l'
      else unique_endpoints (seen ++ [e]) l'
  end.

Definition rotate {A} (start : nat) (l : list A) : list A := drop start l ++ take start l.

Fixpoint filter_healthy (now : Z) (l : list string) : PM (list string) :=
  match l with
  | [] => retM []
  | e :: l' =>
      let* ok := isHealthyEnough e now in
      let* rest := filter_healthy now l' in
      retM (if ok then e :: rest else rest)
  end.

Definition next_start (n : Z) : PM nat := fun s =>
  (Z.to_nat (u64 (pl_round_robin s.1) mod n),
   (mkRpcPool (pl_options s.1) (pl_states s.1) (u64 (pl_round_robin s.1 + 1)), s.2)).

Definition orderedCandidates (endpoints : list string) : PM (list string) :=
  let unique := unique_endpoints [] endpoints in
  match unique with
  | [] => retM []
  | _ =>
      let* now := read_now in
      let* start := next_start (Z.of_nat (length unique)) in
      filter_healthy now (rotate start unique)
  end.

(** What a call returns: the response with its endpoint, or an error. *)
Record PoolResult := mkPoolResult {
  pr_response : option (Z * string);
  pr_endpoint : string;
  pr_error : string
}.

Definition or_else (s dflt : string) : string := if str_empty s then dflt else s.

Fixpoint try_candidates (l : list string) (serial_id : Z) (request : string) (o : RpcCallOptions)
    (last_error : string) : PM PoolResult :=
  match l with
  | [] => retM (mkPoolResult None EmptyString (or_else last_error "all endpoints failed"))
  | endpoint :: rest =>
      let* canceled := gets (fun s => tr_canceled s.2) in
      let* now0 := read_now in
      if canceled then retM (mkPoolResult None EmptyString "rpc call canceled")
      else if deadlineExceeded now0 o then retM (mkPoolResult None EmptyString "rpc deadline exceeded")
      else
        match parseEndpoint endpoint with
        | None =>
            recordFailure endpoint ;;*
            try_candidates rest serial_id request o ("invalid endpoint: " +:+ endpoint)
        | Some address =>
            let* now := read_now in
            let* reserved := reserveHalfOpenProbe endpoint now in
            let* verdict :=
              (if reserved then
                 let* probe_ok := healthCheckEndpoint address o in
                 finishHalfOpenProbe endpoint probe_ok ;;*
                 retM (if probe_ok then None else Some ("health check failed: " +:+ endpoint))
               else
                 let* ok := isHealthyEnough endpoint now in
                 retM (if ok then None else Some ("endpoint circuit is open: " +:+ endpoint))) in
            match verdict with
            | Some e => try_candidates rest serial_id request o e
            | None =>
                let* c := borrow endpoint address in
                let* r := run_client serial_id request o c in
                release endpoint r.2 (match cr_response r.1 with Some _ => true | None => false end) ;;*
                match cr_response r.1 with
                | Some resp =>
                    recordSuccess endpoint ;;* retM (mkPoolResult (Some resp) endpoint EmptyString)
                | None =>
                    recordFailure endpoint ;;*
                    let e := or_else (cr_error r.1) ("rpc call failed: " +:+ endpoint) in
                    match cr_status r.1 with
                    | CS_Canceled | CS_DeadlineExceeded =>
                        retM (mkPoolResult None EmptyString (or_else e "all endpoints failed"))
                    | _ => try_candidates rest serial_id request o e
                    end
                end
            end
        end
  end.

Definition pool_call (endpoints : list string) (serial_id : Z) (request : string) (o : RpcCallOptions)
    : PM PoolResult :=
  let* now := read_now in
  let o := ensureDeadline now o in
  let* candidates := orderedCandidates endpoints in
  match candidates with
  | [] =>
      retM (mkPoolResult None EmptyString
              (match endpoints with
               | [] => "no endpoint available"
               | _ => "all endpoints are unavailable (circuit open)"
               end))
  | _ => try_candidates candidates serial_id request o EmptyString
  end.

Definition clear (p : RpcPool) : RpcPool := mkRpcPool (pl_options p) ∅ (pl_round_robin p).

(** ** The circuit breaker *)

(** The state of a circuit agrees with its counters, and a probe is in flight
    exactly in the half-open state. *)
Definition circuit_ok (o : PoolOptions) (st : EndpointState) : Prop :=
  0 <= es_consecutive_failures st /\
  match es_circuit_state st with
  | Closed => es_consecutive_failures st < po_failure_threshold o /\ es_half_open_probe_in_flight st = false
  | Open => po_failure_threshold o <= es_consecutive_failures st /\ es_half_open_probe_in_flight st = false
  | HalfOpen => po_failure_threshold o <= es_consecutive_failures st /\ es_half_open_probe_in_flight st = true
  end.

(** What any thread may do to an endpoint's state under its mutex. *)
Inductive endpoint_step (o : PoolOptions) : EndpointState -> EndpointState -> Prop :=
  | ep_reserve now st : endpoint_step o st (reserve_probe now st).2
  | ep_success st : endpoint_step o st (success_state st)
  | ep_failure now st : endpoint_step o st (failure_state o now st)
  | ep_borrow c st : endpoint_step o st (borrow_state c st).2
  | ep_release c b st : endpoint_step o st (release_state o c b st).

Lemma circuit_ok_new o : 1 <= po_failure_threshold o -> circuit_ok o new_endpoint.
Proof. intros H. unfold circuit_ok. simpl. split_and!; [lia|lia|done]. Qed.

Lemma endpoint_step_ok o st st' :
  1 <= po_failure_threshold o -> endpoint_step o st st' -> circuit_ok o st -> circuit_ok o st'.
Proof.
  intros Ht Hs [H0 H]. destruct Hs.
  - unfold reserve_probe. case_bool_decide as E; simpl; [|done]. rewrite E in H.
    destruct (_ || _); simpl; [unfold circuit_ok; by rewrite E|]. split; simpl; [done|]. destruct H. done.
  - split; simpl; [lia|]. split; [lia|done].
  - unfold failure_state. destruct (_ <=? _) eqn:E; zify_bools; (split; simpl; [lia|]).
    + by split.
    + destruct (es_circuit_state st); destruct H; split; try done; lia.
  - unfold borrow_state. by destruct (es_idle_clients st).
  - unfold release_state. by destruct (_ && _).
Qed.

(** Sequences of transitions, by any threads. *)
Inductive EndpointEvent :=
  | EvReserve (now : Z)
  | EvSuccess
  | EvFailure (now : Z)
  | EvBorrow (fresh : C)
  | EvRelease (c : C) (reusable : bool).

Definition apply_event (o : PoolOptions) (st : EndpointState) (ev : EndpointEvent) : EndpointState :=
  match ev with
  | EvReserve now => (reserve_probe now st).2
  | EvSuccess => success_state st
  | EvFailure now => failure_state o now st
  | EvBorrow fresh => (borrow_state fresh st).2
  | EvRelease c b => release_state o c b st
  end.

Definition after (o : PoolOptions) (evs : list EndpointEvent) (st : EndpointState) : EndpointState :=
  foldl (apply_event o) st evs.

Lemma apply_event_step o st ev : endpoint_step o st (apply_event o st ev).
Proof. destruct ev; constructor. Qed.

Lemma after_keeps (o : PoolOptions) (I : EndpointState -> Prop) (allowed : EndpointEvent -> Prop) evs st :
  (forall st ev, I st -> allowed ev -> I (apply_event o st ev)) -> Forall allowed evs -> I st -> I (after o evs st).
Proof. intros Hs. revert st. induction evs as [|ev evs IH]; intros st Ha HI; [done|]. inversion Ha; subst. apply IH; [done|by apply Hs]. Qed.

Lemma after_ok o evs st : 1 <= po_failure_threshold o -> circuit_ok o st -> circuit_ok o (after o evs st).
Proof.
  intros Ht. apply (after_keeps o (circuit_ok o) (fun _ => True)); [|by apply Forall_true].
  intros st' ev H _. eapply endpoint_step_ok; [done|apply apply_event_step|done].
Qed.

(** No result of a call or a probe is recorded. *)
Definition no_result (ev : EndpointEvent) : Prop :=
  match ev with EvSuccess | EvFailure _ => False | _ => True end.
(** No success is, and the failures are recorded from [now] on. *)
Definition failing_from (now : Z) (ev : EndpointEvent) : Prop :=
  match ev with EvSuccess => False | EvFailure t => now <= t | _ => True end.
(** The clock does not run back. *)
Definition timed_from (now : Z) (ev : EndpointEvent) : Prop :=
  match ev with EvFailure t => now <= t | _ => True end.
(** Nobody asks for the probe, and no result is recorded. *)
Definition unasked (ev : EndpointEvent) : Prop :=
  match ev with EvBorrow _ | EvRelease _ _ => True | _ => False end.

(** Half-open, or open for some time to come. *)
Definition shut_until (o : PoolOptions) (until : Z) (st : EndpointState) : Prop :=
  circuit_ok o st /\
  (es_circuit_state st = HalfOpen \/ es_circuit_state st = Open /\ until <= es_unhealthy_until st).

Lemma idle_fields o ev st : unasked ev ->
  es_circuit_state (apply_event o st ev) = es_circuit_state st /\
  es_unhealthy_until (apply_event o st ev) = es_unhealthy_until st /\
  es_half_open_probe_in_flight (apply_event o st ev) = es_half_open_probe_in_flight st.
Proof.
  destruct ev; try done; intros _; cbn; [unfold borrow_state; by destruct (es_idle_clients st)|].
  unfold release_state. by destruct (_ && _).
Qed.

Lemma half_open_excludes t o st : circuit_ok o st -> es_circuit_state st = HalfOpen ->
  healthy_enough t st = false /\ reserve_probe t st = (false, st).
Proof. intros _ H. unfold healthy_enough, reserve_probe. by rewrite H. Qed.

Lemma half_open_stays o evs st : 1 <= po_failure_threshold o -> Forall no_result evs ->
  circuit_ok o st /\ es_circuit_state st = HalfOpen ->
  circuit_ok o (after o evs st) /\ es_circuit_state (after o evs st) = HalfOpen.
Proof.
  intros Ht. apply (after_keeps o (fun st => circuit_ok o st /\ es_circuit_state st = HalfOpen)). intros st' ev [Hok H] Hev.
  split; [eapply endpoint_step_ok; [done|apply apply_event_step|done]|].
  destruct ev as [t| |t|c|c b]; try done; [|by destruct (idle_fields o (EvBorrow c) st' I) as (-> & _)|
    by destruct (idle_fields o (EvRelease c b) st' I) as (-> & _)].
  cbn. by destruct (half_open_excludes t o st' Hok H) as [_ ->].
Qed.

Lemma shut_stays o now evs st : 1 <= po_failure_threshold o -> Forall (failing_from now) evs ->
  shut_until o (now + po_cooldown_ms o * ns_per_ms) st -> shut_until o (now + po_cooldown_ms o * ns_per_ms) (after o evs st).
Proof.
  intros Ht. apply (after_keeps o (shut_until o _)). intros st' ev [Hok H] Hev.
  split; [eapply endpoint_step_ok; [done|apply apply_event_step|done]|].
  destruct ev as [t| |t|c|c b]; try done.
  - cbn. unfold reserve_probe. destruct (_ || _); [done|by left].
  - right. cbn in *. assert (Hf : po_failure_threshold o <= es_consecutive_failures st').
    { destruct Hok as [_ Hok]. destruct H as [H|[H _]]; rewrite H in Hok; tauto. }
    unfold failure_state. rewrite (proj2 (Z.leb_le _ _)) by lia. cbn. split; [done|lia].
  - by destruct (idle_fields o (EvBorrow c) st' I) as (-> & -> & _).
  - by destruct (idle_fields o (EvRelease c b) st' I) as (-> & -> & _).
Qed.

(** While open it is not available at [now]. *)
Definition barred (now : Z) (st : EndpointState) : Prop := es_circuit_state st = Open -> now < es_unhealthy_until st.

Lemma barred_stays o now evs st : 0 < po_cooldown_ms o -> Forall (timed_from now) evs -> barred now st -> barred now (after o evs st).
Proof.
  intros Hc. apply (after_keeps o (barred now)). unfold barred. intros st' ev H Hev.
  destruct ev as [t| |t|c|c b]; cbn in *; try done.
  - unfold reserve_probe. destruct (_ || _); [done|by cbn].
  - unfold failure_state. destruct (_ <=? _); cbn; [|done]. intros _. unfold ns_per_ms. lia.
  - unfold borrow_state. by destruct (es_idle_clients st').
  - unfold release_state. by destruct (_ && _).
Qed.

Lemma tripped_state o now st : po_failure_threshold o <= es_consecutive_failures st + 1 ->
  es_circuit_state (failure_state o now st) = Open /\ es_half_open_probe_in_flight (failure_state o now st) = false /\
  es_unhealthy_until (failure_state o now st) = now + po_cooldown_ms o * ns_per_ms.
Proof. intros H. unfold failure_state. by rewrite (proj2 (Z.leb_le _ _) H). Qed.

(** C37.  The breaker of an endpoint, under any sequence [before] of what threads do
    to it and any sequence [next] after that.  Its state agrees with its
    counters, and it is open or half-open exactly from the failure threshold
    on.  Once a probe is reserved, nobody else gets one or is let through for as
    long as no result is recorded (the probe's own, or that of a call that was
    already under way, which counts the same).  Once a failure has reached the
    threshold, nobody is let through or gets a probe before the cooldown has
    passed, unless a success is recorded, and the first to ask after it gets the
    probe.  A caller that is refused the probe and then finds the endpoint
    healthy finds its circuit closed, so that only a probe passes an open one.
    A success, whoever reports it, closes the circuit. *)
Theorem circuit_breaker_behaves o before next now (st := after o before new_endpoint) :
  1 <= po_failure_threshold o -> 0 < po_cooldown_ms o ->
  circuit_ok o st /\
  ((reserve_probe now st).1 = true -> Forall no_result next ->
     forall t, healthy_enough t (after o next (reserve_probe now st).2) = false /\
               (reserve_probe t (after o next (reserve_probe now st).2)).1 = false) /\
  (po_failure_threshold o <= es_consecutive_failures st + 1 ->
     let until := now + po_cooldown_ms o * ns_per_ms in
     (Forall (failing_from now) next -> forall t, t < until ->
        healthy_enough t (after o next (failure_state o now st)) = false /\
        (reserve_probe t (after o next (failure_state o now st))).1 = false) /\
     (Forall unasked next -> forall t, until <= t -> (reserve_probe t (after o next (failure_state o now st))).1 = true)) /\
  ((reserve_probe now st).1 = false -> Forall (timed_from now) next ->
     healthy_enough now (after o next st) = true -> es_circuit_state (after o next st) = Closed) /\
  (es_circuit_state (success_state st) = Closed /\ es_consecutive_failures (success_state st) = 0).
Proof.
  intros Ht Hc. assert (Hok : circuit_ok o st) by (by apply after_ok, circuit_ok_new). split_and!; try done.
  - intros Hr Hn t.
    assert (Hh : circuit_ok o (reserve_probe now st).2 /\ es_circuit_state (reserve_probe now st).2 = HalfOpen).
    { split; [eapply endpoint_step_ok; [done|apply (ep_reserve o now)|done]|]. revert Hr. unfold reserve_probe. by destruct (_ || _). }
    destruct (half_open_stays o next _ Ht Hn Hh) as [H1 H2]. by destruct (half_open_excludes t o _ H1 H2) as [-> ->].
  - intros Hth until. destruct (tripped_state o now st Hth) as (Ho & Hp & Hu). split; intros Hn t Hl.
    + destruct (shut_stays o now next (failure_state o now st) Ht Hn) as [H1 H2].
      { split; [eapply endpoint_step_ok; [done|apply (ep_failure o now)|done]|]. right. rewrite Hu. split; [done|lia]. }
      unfold healthy_enough, reserve_probe. destruct H2 as [-> |[-> H2]]; [done|]. fold until in H2.
      rewrite (proj2 (Z.leb_gt _ _)), (proj2 (Z.ltb_lt _ _)) by lia. done.
    + assert (H : let x := after o next (failure_state o now st) in
                  es_circuit_state x = Open /\ es_half_open_probe_in_flight x = false /\ es_unhealthy_until x = until).
      { apply (after_keeps o (fun x => es_circuit_state x = Open /\ es_half_open_probe_in_flight x = false /\
          es_unhealthy_until x = until) unasked); [|done|done].
        intros x ev Hx Hev. by destruct (idle_fields o ev x Hev) as (-> & -> & ->). }
      destruct H as (H1 & H2 & H3). unfold reserve_probe. rewrite H1, H2, H3, (proj2 (Z.ltb_ge _ _)) by lia. done.
  - intros Hr Hn Hh. assert (Hb : barred now st).
    { intros Ho. revert Hr. unfold reserve_probe. destruct Hok as [_ Hok]. rewrite Ho in Hok. destruct Hok as [_ ->].
      rewrite Ho, orb_false_r. destruct (Z.ltb_spec now (es_unhealthy_until st)); [done|]. by cbn. }
    pose proof (barred_stays o now next st Hc Hn Hb) as H. revert Hh. unfold healthy_enough.
    destruct (es_circuit_state (after o next st)) eqn:E; [done| |done].
    specialize (H E). by rewrite (proj2 (Z.leb_gt _ _)) by lia.
Qed.

(** ** Candidates *)

Lemma unique_endpoints_spec seen l :
  NoDup seen -> (forall e, e ∈ seen -> e <> EmptyString) ->
  NoDup (unique_endpoints seen l) /\
  forall e, e ∈ unique_endpoints seen l <-> e ∈ seen \/ (e ∈ l /\ e <> EmptyString).
Proof.
  revert seen. induction l as [|x l IH]; intros seen Hn He; simpl.
  - split; [done|]. intros e. split; [by left|]. intros [?|[H _]]; [done|]. by apply not_elem_of_nil in H.
  - destruct (str_empty x) eqn:Ex; simpl.
    + apply str_empty_true in Ex as ->. destruct (IH seen Hn He) as [H1 H2]. split; [done|]. intros e.
      rewrite H2, elem_of_cons. naive_solver.
    + apply str_empty_false in Ex. case_bool_decide as Hx.
      * destruct (IH seen Hn He) as [H1 H2]. split; [done|]. intros e. rewrite H2, elem_of_cons. naive_solver.
      * destruct (IH (seen ++ [x])) as [H1 H2].
        { apply NoDup_app. split; [done|]. split; [|apply NoDup_singleton].
          intros e H ->%list_elem_of_singleton. done. }
        { intros e [H| ->%list_elem_of_singleton]%elem_of_app; [by apply He|done]. }
        split; [done|]. intros e. rewrite H2, elem_of_app, list_elem_of_singleton, elem_of_cons. naive_solver.
Qed.

Lemma rotate_perm {A} n (l : list A) : rotate n l ≡ₚ l.
Proof. unfold rotate. rewrite Permutation_app_comm. by rewrite take_drop. Qed.

(** Reading an endpoint's health may create its state, which changes nothing
    that can be observed through [stateFor]. *)
Lemma filter_healthy_spec now l (s : RpcPool * W) :
  (filter_healthy now l s).1 = filter (fun e => healthy_enough now (stateFor s.1 e) = true) l /\
  (forall e, stateFor (filter_healthy now l s).2.1 e = stateFor s.1 e) /\
  pl_round_robin (filter_healthy now l s).2.1 = pl_round_robin s.1.
Proof.
  revert s. induction l as [|e l IH]; intros s; [done|].
  cbn [filter_healthy]. unfold isHealthyEnough, on_endpoint, bindM, retM. cbn [fst snd].
  set (s1 := (set_state e (stateFor s.1 e) s.1, s.2)).
  assert (Hst : forall x, stateFor s1.1 x = stateFor s.1 x).
  { intros x. unfold s1, set_state, stateFor. simpl. destruct (decide (e = x)) as [->|Hne].
    - by rewrite lookup_insert_eq.
    - by rewrite lookup_insert_ne. }
  destruct (IH s1) as (H1 & H2 & H3). destruct (filter_healthy now l s1) as [rest s2]. simpl in *.
  split_and!.
  - rewrite filter_cons, H1.
    assert (filter (fun x => healthy_enough now (stateFor (set_state e (stateFor s.1 e) s.1) x) = true) l =
            filter (fun x => healthy_enough now (stateFor s.1 x) = true) l) as ->.
    { apply list_filter_iff. intros x. by rewrite <- (Hst x). }
    by destruct (healthy_enough now (stateFor s.1 e)).
  - intros x. by rewrite H2.
  - done.
Qed.

(** The candidates of a call are the distinct, non-empty endpoints it was
    given whose circuit admits traffic, in the given order rotated to start
    one further at each call. *)
Theorem candidates_rotate_over_healthy endpoints (s : RpcPool * W) :
  let unique := unique_endpoints [] endpoints in
  let start := Z.to_nat (u64 (pl_round_robin s.1) mod Z.of_nat (length unique)) in
  let healthy e := healthy_enough (tr_now s.2) (stateFor s.1 e) = true in
  (orderedCandidates endpoints s).1 = filter healthy (rotate start unique) /\
  NoDup (orderedCandidates endpoints s).1 /\
  (forall e, e ∈ (orderedCandidates endpoints s).1 <-> e ∈ endpoints /\ e <> EmptyString /\ healthy e) /\
  (unique <> [] -> pl_round_robin (orderedCandidates endpoints s).2.1 = u64 (pl_round_robin s.1 + 1)).
Proof.
  cbv zeta.
  destruct (unique_endpoints_spec [] endpoints (NoDup_nil_2) ltac:(intros e H; by apply not_elem_of_nil in H)) as [Hn Hu].
  assert (Heq : (orderedCandidates endpoints s).1 =
     filter (fun e => healthy_enough (tr_now s.2) (stateFor s.1 e) = true)
       (rotate (Z.to_nat (u64 (pl_round_robin s.1) mod Z.of_nat (length (unique_endpoints [] endpoints))))
          (unique_endpoints [] endpoints))).
  { unfold orderedCandidates. destruct (unique_endpoints [] endpoints) as [|x u] eqn:E;
      [unfold rotate; by rewrite drop_nil, take_nil|]. rewrite <- E.
    unfold bindM, read_now, next_start. cbn [fst snd].
    match goal with |- context [filter_healthy ?n ?l ?st] => destruct (filter_healthy_spec n l st) as (H1 & _ & _) end.
    exact H1. }
  split; [exact Heq|]. rewrite Heq. split_and!.
  - apply NoDup_filter. by rewrite rotate_perm.
  - intros e. rewrite list_elem_of_filter, rotate_perm, Hu. split; [|naive_solver].
    intros [Hh [H|[H1 H2]]]; [by apply not_elem_of_nil in H|by split_and!].
  - intros Hne. unfold orderedCandidates. destruct (unique_endpoints [] endpoints) as [|x u]; [done|].
    unfold bindM, read_now, next_start. cbn [fst snd].
    match goal with |- context [filter_healthy ?n ?l ?st] => destruct (filter_healthy_spec n l st) as (_ & _ & H3) end.
    exact H3.
Qed.

(** ** A call *)

Definition pool_ok (p : RpcPool) : Prop :=
  1 <= po_failure_threshold (pl_options p) /\
  map_Forall (fun _ => circuit_ok (pl_options p)) (pl_states p).

Definition keeps {A} (m : PM A) : Prop := forall s, pool_ok s.1 -> pool_ok (m s).2.1.

Lemma keeps_ret {A} (a : A) : keeps (retM a).
Proof. by intros s. Qed.

Lemma keeps_bind {A B} (m : PM A) (k : A -> PM B) : keeps m -> (forall a, keeps (k a)) -> keeps (bindM m k).
Proof. intros Hm Hk s Hs. unfold bindM. specialize (Hm s Hs). destruct (m s) as [a s']. by apply Hk. Qed.

Lemma keeps_gets {A} (f : RpcPool * W -> A) : keeps (gets f).
Proof. by intros s. Qed.

Lemma keeps_now : keeps read_now.
Proof. by intros s. Qed.

Lemma stateFor_ok p e : pool_ok p -> circuit_ok (pl_options p) (stateFor p e).
Proof.
  intros [Ht Hp]. unfold stateFor. destruct (pl_states p !! e) as [st|] eqn:E; simpl; [by eapply Hp|].
  by apply circuit_ok_new.
Qed.

Lemma keeps_endpoint {A} e (f : EndpointState -> A * EndpointState) :
  (forall o st, 1 <= po_failure_threshold o -> circuit_ok o st -> circuit_ok o (f st).2) ->
  keeps (on_endpoint e f).
Proof.
  intros Hf s Hs. unfold on_endpoint. pose proof (stateFor_ok s.1 e Hs) as He.
  specialize (Hf _ _ (proj1 Hs) He). destruct (f (stateFor s.1 e)) as [a st].
  destruct Hs as [Ht Hp]. split; [done|]. by apply map_Forall_insert_2.
Qed.

Lemma keeps_record (b : bool) (e : string) : keeps (if b then recordSuccess e else recordFailure e).
Proof.
  destruct b.
  - apply keeps_endpoint. intros o st Ht Hst. by eapply (endpoint_step_ok o st), Hst; [|constructor].
  - intros s Hs. unfold recordFailure, bindM, read_now, gets, on_endpoint. cbn [fst snd].
    pose proof (stateFor_ok s.1 e Hs) as He. destruct Hs as [Ht Hp]. split; [done|].
    apply map_Forall_insert_2; [|done]. by eapply (endpoint_step_ok _ _ _ Ht), He; constructor.
Qed.

Lemma keeps_health e now : keeps (isHealthyEnough e now).
Proof. by apply keeps_endpoint. Qed.

Lemma keeps_reserve e now : keeps (reserveHalfOpenProbe e now).
Proof. apply keeps_endpoint. intros o st Ht Hst. by eapply (endpoint_step_ok o st), Hst; [|constructor]. Qed.

Lemma keeps_borrow e a : keeps (borrow e a).
Proof.
  apply keeps_bind; [apply keeps_gets|]. intros c. apply keeps_endpoint. intros o st Ht Hst.
  by eapply (endpoint_step_ok o st), Hst; [|constructor].
Qed.

Lemma keeps_release e c b : keeps (release e c b).
Proof.
  intros s Hs. unfold release, bindM, gets, on_endpoint. cbn [fst snd].
  pose proof (stateFor_ok s.1 e Hs) as He. destruct Hs as [Ht Hp]. split; [done|].
  apply map_Forall_insert_2; [|done]. by eapply (endpoint_step_ok _ _ _ Ht), He; constructor.
Qed.

Lemma keeps_client i r o c : keeps (run_client i r o c).
Proof. intros s Hs. unfold run_client. by destruct (tr_call i r o c s.2) as [[x c'] w]. Qed.

Lemma keeps_probe a o : keeps (healthCheckEndpoint a o).
Proof.
  apply keeps_bind; [apply keeps_gets|]. intros p. destruct (negb _); [apply keeps_ret|].
  apply keeps_bind; [apply keeps_now|]. intros now. apply keeps_bind; [apply keeps_gets|]. intros c.
  apply keeps_bind; [apply keeps_client|]. intros r. apply keeps_ret.
Qed.

Lemma keeps_try l i r o e : keeps (try_candidates l i r o e).
Proof.
  revert e. induction l as [|x l IH]; intros e; [apply keeps_ret|]. cbn [try_candidates].
  apply keeps_bind; [apply keeps_gets|]. intros []; (apply keeps_bind; [apply keeps_now|]); intros now0; [apply keeps_ret|].
  destruct (deadlineExceeded _ _); [apply keeps_ret|]. destruct (parseEndpoint x) as [a|].
  - apply keeps_bind; [apply keeps_now|]. intros now. apply keeps_bind; [apply keeps_reserve|]. intros res.
    apply keeps_bind.
    + destruct res.
      * apply keeps_bind; [apply keeps_probe|]. intros ok. apply keeps_bind; [apply (keeps_record ok)|]. intros _. apply keeps_ret.
      * apply keeps_bind; [apply keeps_health|]. intros ok. apply keeps_ret.
    + intros [v|]; [apply IH|]. apply keeps_bind; [apply keeps_borrow|]. intros c.
      apply keeps_bind; [apply keeps_client|]. intros res'. apply keeps_bind; [apply keeps_release|]. intros _.
      destruct (cr_response res'.1); [apply keeps_bind; [apply (keeps_record true)|intros _; apply keeps_ret]|].
      apply keeps_bind; [apply (keeps_record false)|]. intros _. destruct (cr_status res'.1); first [apply IH | apply keeps_ret].
  - apply keeps_bind; [apply (keeps_record false)|]. intros _. apply IH.
Qed.

Lemma keeps_filter now l : keeps (filter_healthy now l).
Proof.
  induction l as [|e l IH]; [apply keeps_ret|]. cbn [filter_healthy].
  apply keeps_bind; [apply keeps_health|]. intros ok. apply keeps_bind; [exact IH|]. intros r. apply keeps_ret.
Qed.

Lemma try_success l i r o e s :
  let '(res, s') := try_candidates l i r o e s in
  match pr_response res with
  | Some _ => pr_endpoint res ∈ l /\ es_circuit_state (stateFor s'.1 (pr_endpoint res)) = Closed /\
              es_consecutive_failures (stateFor s'.1 (pr_endpoint res)) = 0
  | None => pr_endpoint res = EmptyString /\ pr_error res <> EmptyString
  end.
Proof.
  assert (Hor : forall a b, b <> EmptyString -> or_else a b <> EmptyString).
  { intros a b Hb. unfold or_else. destruct (str_empty a) eqn:Ea; [done|]. by apply str_empty_false. }
  revert e s. induction l as [|x l IH]; intros e s; [simpl; split; [done|by apply Hor]|].
  cbn [try_candidates]. unfold bindM at 1, gets at 1. unfold bindM at 1. unfold read_now at 1. cbn [fst snd].
  destruct (tr_canceled s.2); [done|]. destruct (deadlineExceeded _ _); [done|].
  set (s0 := (s.1, tr_pass s.2)). clearbody s0.
  assert (Htl : forall e' s1, let '(res, s') := try_candidates l i r o e' s1 in
    match pr_response res with
    | Some _ => pr_endpoint res ∈ x :: l /\ es_circuit_state (stateFor s'.1 (pr_endpoint res)) = Closed /\
                es_consecutive_failures (stateFor s'.1 (pr_endpoint res)) = 0
    | None => pr_endpoint res = EmptyString /\ pr_error res <> EmptyString
    end).
  { intros e' s1. specialize (IH e' s1). destruct (try_candidates l i r o e' s1) as [res s'].
    destruct (pr_response res); [|done]. destruct IH as [H1 H2]. split; [by right|done]. }
  destruct (parseEndpoint x) as [a|].
  - unfold bindM at 1. destruct (read_now s0) as [now s1]. unfold bindM at 1.
    destruct (reserveHalfOpenProbe x now s1) as [res s2]. unfold bindM at 1.
    match goal with |- context [(if res then ?A else ?B) s2] =>
      destruct ((if res then A else B) s2) as [[v|] s3] end; [apply Htl|].
    unfold bindM at 1. destruct (borrow x a s3) as [c s4]. unfold bindM at 1.
    destruct (run_client i r o c s4) as [rr s5]. unfold bindM at 1.
    destruct (release x rr.2 _ s5) as [u s6]. destruct (cr_response rr.1) as [resp|].
    + unfold bindM, recordSuccess, on_endpoint, retM, set_state, stateFor. simpl.
      rewrite lookup_insert_eq. simpl. split; [by left|done].
    + unfold bindM at 1. destruct (recordFailure x s6) as [u' s7]. cbv zeta.
      destruct (cr_status rr.1); try apply Htl; (split; [done|]; cbn [pr_error]; by apply Hor).
  - unfold bindM at 1. destruct (recordFailure x s0) as [u s1]. apply Htl.
Qed.

(** A pool call ends with a response from one of the endpoints it was
    given, whose circuit is then closed with no failures on record, or with a
    non-empty error and no endpoint; it keeps every circuit consistent with
    its counters. *)
Theorem pool_call_result endpoints i r o (s : RpcPool * W) :
  pool_ok s.1 ->
  let '(res, s') := pool_call endpoints i r o s in
  pool_ok s'.1 /\
  match pr_response res with
  | Some _ => pr_endpoint res ∈ endpoints /\
              es_circuit_state (stateFor s'.1 (pr_endpoint res)) = Closed /\
              es_consecutive_failures (stateFor s'.1 (pr_endpoint res)) = 0
  | None => pr_endpoint res = EmptyString /\ pr_error res <> EmptyString
  end.
Proof.
  intros Hs. unfold pool_call, bindM at 1, read_now. cbn [fst snd]. unfold bindM at 1.
  set (s0 := (s.1, tr_pass s.2)). assert (Hs0 : pool_ok s0.1) by done. clearbody s0. clear Hs.
  destruct (unique_endpoints_spec [] endpoints NoDup_nil_2 ltac:(intros e H; by apply not_elem_of_nil in H)) as [_ Hu].
  assert (Hc : let '(l, s1) := orderedCandidates endpoints s0 in pool_ok s1.1 /\ forall e, e ∈ l -> e ∈ endpoints).
  { unfold orderedCandidates. destruct (unique_endpoints [] endpoints) as [|y u] eqn:E.
    - simpl. split; [done|]. intros e H. by apply not_elem_of_nil in H.
    - rewrite <- E in *. unfold bindM, read_now, next_start. cbn [fst snd].
      match goal with |- context [filter_healthy ?n ?l ?st] =>
        destruct (filter_healthy_spec n l st) as (H1 & _); pose proof (keeps_filter n l st) as Hk;
        destruct (filter_healthy n l st) as [l' s'] end.
      simpl in *. split; [by apply Hk|]. intros e. rewrite H1, list_elem_of_filter, rotate_perm, Hu.
      intros [_ [H|[H _]]]; [by apply not_elem_of_nil in H|done]. }
  destruct (orderedCandidates endpoints s0) as [l s1]. destruct Hc as [Hok Hl].
  destruct l as [|x l]; [split; [done|]; split; [done|]; by destruct endpoints|].
  cbn [fst snd].
  match goal with |- context [try_candidates ?l i r ?o ?e s1] =>
    pose proof (keeps_try l i r o e s1 Hok) as Hk; pose proof (try_success l i r o e s1) as Ht;
    destruct (try_candidates l i r o e s1) as [res s2] end.
  split; [done|]. destruct (pr_response res); [|done]. destruct Ht as [H1 H2]. split; [by apply Hl|done].
Qed.
End Pool.

(** ** Endpoints as text *)

Lemma rsplit_last c s1 s2 : rsplit c s2 = None -> rsplit c (s1 +:+ String c s2) = Some (s1, s2).
Proof.
  intros H. induction s1 as [|a s1 IH]; simpl.
  - by rewrite H, Ascii.eqb_refl.
  - by rewrite IH.
Qed.

Lemma digit_not_colon d : 0 <= d <= 9 -> Ascii.eqb (digit d) ":" = false.
Proof.
  intros H. apply Ascii.eqb_neq. intros E. apply (f_equal Z_of_byte) in E. unfold digit in E.
  rewrite Z_of_byte_of_Z, Z.mod_small in E by lia. change (Z_of_byte ":") with 58 in E. lia.
Qed.

Lemma rsplit_dec_go fuel n acc : 0 <= n -> rsplit ":" acc = None -> rsplit ":" (dec_go fuel n acc) = None.
Proof.
  revert n acc. induction fuel as [|fuel IH]; intros n acc Hn Ha; simpl; [done|].
  assert (Hd : rsplit ":" (String (digit (n mod 10)) acc) = None).
  { simpl. rewrite Ha, digit_not_colon; [done|]. Z.div_mod_to_equations; lia. }
  destruct (n / 10 =? 0); [done|]. apply IH; [apply Z.div_pos; lia|done].
Qed.

(** An endpoint survives the trip through text: the pool parses
    [host:port], as the server and the workers register it, back to the host
    and the port, for every non-empty host and every valid port. *)
Theorem endpoint_round_trip host port :
  host <> EmptyString -> 1 <= port <= 65535 ->
  parseEndpoint (host +:+ ":" +:+ to_string port) = Some (host, port).
Proof.
  intros Hh Hp. unfold parseEndpoint. change (":" +:+ to_string port) with (String ":" (to_string port)).
  assert (Ht : to_string port = dec port) by (unfold to_string; by rewrite (proj2 (Z.ltb_ge _ _)) by lia).
  rewrite rsplit_last by (rewrite Ht; apply rsplit_dec_go; [lia|done]).
  rewrite (proj2 (str_empty_false host)) by done.
  pose proof (strtol_to_string LONG_MIN LONG_MAX port EmptyString) as Hs. rewrite append_nil_r in Hs.
  rewrite Hs by (done || (unfold LONG_MIN, LONG_MAX; lia)).
  destruct (str_empty (to_string port)) eqn:Ee.
  { apply str_empty_true in Ee. rewrite Ee in Hs. discriminate Hs; [unfold LONG_MIN, LONG_MAX; lia|done]. }
  simpl. rewrite (proj2 (Z.leb_gt _ _)), (proj2 (Z.ltb_ge _ _)) by lia. done.
Qed.

Module RpcPoolExample.

Definition opts : PoolOptions := mkPoolOptions 4 2 3000 true 500 "rpc".

(** Two failures at 5 and 10 open the circuit; a probe is reserved after the
    cooldown, and nobody else gets through. *)
Definition tripped : list (EndpointEvent (C := RpcClient)) := [EvFailure 5; EvFailure 10].

Lemma circuit_breaker_behaves_witness :
  (reserve_probe 3000000010 (after opts tripped new_endpoint)).1 = true /\
  healthy_enough 4000000000 (after opts [EvReserve 3500000000] (reserve_probe 3000000010 (after opts tripped new_endpoint)).2) = false.
Proof.
  split; [by vm_compute|].
  destruct (circuit_breaker_behaves opts tripped [EvReserve 3500000000] 3000000010 ltac:(cbn; lia) ltac:(cbn; lia)) as (_ & H & _).
  apply H; [by vm_compute|by repeat constructor].
Defined.

(** A call that was under way when the circuit opened: its success closes the
    circuit before the cooldown has passed, and its failure, while the probe is
    out, opens it again, so that a second probe may start beside the first. *)
Example late_success_closes : healthy_enough 11 (after opts (tripped ++ [EvSuccess]) new_endpoint) = true.
Proof. by vm_compute. Qed.

Example late_failure_frees_probe :
  (reserve_probe 7000000000 (after opts (tripped ++ [EvReserve 3500000000; EvFailure 3600000000]) new_endpoint)).1 = true.
Proof. by vm_compute. Qed.

Definition sys_down (k : nat) : Sys :=
  mkSys (1000 + Z.of_nat k) false (fun _ => PReady) (IoSome 3) (CnFail "refused") None.

Lemma pool_call_result_witness :
  let TR := RpcTransport sys_down (fun _ => EmptyString) 10 in
  let '(res, s') := pool_call (TR := TR) (fun n => n) (fun _ => Some true) ["h1:9000"; "h2:9000"] 1 "ping"
                      (fromDeadline 5000) (new_pool opts, 0%nat) in
  pool_ok s'.1 /\
  match pr_response res with
  | Some _ => pr_endpoint res ∈ ["h1:9000"; "h2:9000"] /\
              es_circuit_state (stateFor s'.1 (pr_endpoint res)) = Closed /\
              es_consecutive_failures (stateFor s'.1 (pr_endpoint res)) = 0
  | None => pr_endpoint res = EmptyString /\ pr_error res <> EmptyString
  end.
Proof.
  intros TR. apply (pool_call_result (TR := TR)). split; [simpl; lia|]. apply map_Forall_empty.
Defined.

Lemma endpoint_round_trip_witness : parseEndpoint ("127.0.0.1" +:+ ":" +:+ to_string 9000) = Some ("127.0.0.1", 9000).
Proof. apply endpoint_round_trip; [done|lia]. Defined.

End RpcPoolExample.
