(* ===== verification/Metrics.v ===== *)
(** [src/metrics/metrics.cpp]: the process-wide counters and the sample windows
    behind the percentiles.

    Counters are [uint64_t] atomics: every update is one atomic step modulo
    [2^64].  The quantiles are [double]s, computed with the binary64 operations
    of the Standard Library. *)
From Stdlib Require Import Floats.SpecFloat.
From S2P Require Import Prelude Datetime Text.

Inductive Counter :=
  | rpc_requests_total | rpc_success_total | rpc_error_total | active_connections
  | rejected_connections | malformed_frames | bytes_in_total | bytes_out_total
  | task_success_total | task_failure_total | lock_acquire_success_total
  | lock_acquire_failure_total.

#[global] Instance Counter_eq_dec : EqDecision Counter.
Proof. solve_decision. Defined.

Definition kSampleWindowSize : Z := 1024.

(** A circular buffer of the last samples, and how many there ever were. *)
Record Samples := mkSamples { sm_values : list Z; sm_total : Z }.

Definition no_samples : Samples := mkSamples (replicate (Z.to_nat kSampleWindowSize) 0) 0.

Record Metrics := mkMetrics {
  mt_counter : Counter -> Z;
  mt_max_task_duration_ms : Z;
  mt_schedule_delay_max_ms : Z;
  mt_task_duration_samples : Samples;
  mt_schedule_delay_samples : Samples
}.

Definition zero_metrics : Metrics := mkMetrics (fun _ => 0) 0 0 no_samples no_samples.

Definition fetch_add (c : Counter) (n : Z) (m : Metrics) : Metrics :=
  mkMetrics (fun c' => if decide (c' = c) then u64 (mt_counter m c + n) else mt_counter m c')
    (mt_max_task_duration_ms m) (mt_schedule_delay_max_ms m) (mt_task_duration_samples m)
    (mt_schedule_delay_samples m).

Definition incRpcRequest := fetch_add rpc_requests_total 1.
Definition incRpcSuccess := fetch_add rpc_success_total 1.
Definition incRpcError := fetch_add rpc_error_total 1.
Definition incActiveConnection := fetch_add active_connections 1.
Definition decActiveConnection := fetch_add active_connections (-1).
Definition incRejectedConnection := fetch_add rejected_connections 1.
Definition incMalformedFrame := fetch_add malformed_frames 1.
Definition addBytesIn (bytes : Z) := fetch_add bytes_in_total bytes.
Definition addBytesOut (bytes : Z) := fetch_add bytes_out_total bytes.
Definition incTaskSuccess := fetch_add task_success_total 1.
Definition incTaskFailure := fetch_add task_failure_total 1.
Definition incLockAcquireSuccess := fetch_add lock_acquire_success_total 1.
Definition incLockAcquireFailure := fetch_add lock_acquire_failure_total 1.

Definition updateMax (max_value observed : Z) : Z := if max_value <? observed then observed else max_value.

Definition add_sample (v : Z) (s : Samples) : Samples :=
  mkSamples (<[Z.to_nat (sm_total s mod kSampleWindowSize) := v]> (sm_values s)) (u64 (sm_total s + 1)).

Definition observeTaskDuration (duration_ms : Z) (m : Metrics) : Metrics :=
  mkMetrics (mt_counter m) (updateMax (mt_max_task_duration_ms m) duration_ms)
    (mt_schedule_delay_max_ms m) (add_sample duration_ms (mt_task_duration_samples m))
    (mt_schedule_delay_samples m).

Definition observeScheduleDelay (delay_ms : Z) (m : Metrics) : Metrics :=
  mkMetrics (mt_counter m) (mt_max_task_duration_ms m)
    (updateMax (mt_schedule_delay_max_ms m) delay_ms) (mt_task_duration_samples m)
    (add_sample delay_ms (mt_schedule_delay_samples m)).

(** ** Percentiles *)

(** The doubles nearest to 0.95 and 0.99. *)
Definition q95 : spec_float := S754_finite false 8556839292003942 (-53).
Definition q99 : spec_float := S754_finite false 8917127262193582 (-53).

(** An integer below [2^53] as a double. *)
Definition double_of_Z (n : Z) : spec_float := binary_normalize 53 1024 n 0 false.

(** [std::ceil] of a finite non-negative double, as an integer. *)
Definition ceil_double (x : spec_float) : Z :=
  match x with
  | S754_finite false m e =>
      if 0 <=? e then Z.pos m * 2 ^ e else - (- Z.pos m / 2 ^ (- e))
  | _ => 0
  end.

Definition percentile_rank (quantile : spec_float) (n : Z) : Z :=
  ceil_double (SFmul 53 1024 quantile (double_of_Z n)).

Definition percentile (values : list Z) (quantile : spec_float) : Z :=
  match values with
  | [] => 0
  | _ =>
      let sorted := sort_by Z.leb values in
      let rank := percentile_rank quantile (Z.of_nat (length values)) in
      let index := if rank <=? 1 then 0 else rank - 1 in
      let index := if Z.of_nat (length values) <=? index then Z.of_nat (length values) - 1 else index in
      default 0 (sorted !! Z.to_nat index)
  end.

Definition window (s : Samples) : list Z :=
  take (Z.to_nat (Z.min (sm_total s) kSampleWindowSize)) (sm_values s).

Record MetricsSnapshot := mkSnapshot {
  ss_counter : Counter -> Z;
  ss_max_task_duration_ms : Z;
  ss_task_duration_p95_ms : Z;
  ss_task_duration_p99_ms : Z;
  ss_task_duration_samples_total : Z;
  ss_schedule_delay_max_ms : Z;
  ss_schedule_delay_p95_ms : Z;
  ss_schedule_delay_p99_ms : Z;
  ss_schedule_delay_samples_total : Z
}.

Definition snapshot (m : Metrics) : MetricsSnapshot :=
  let task_values := window (mt_task_duration_samples m) in
  let delay_values := window (mt_schedule_delay_samples m) in
  mkSnapshot (mt_counter m) (mt_max_task_duration_ms m)
    (percentile task_values q95) (percentile task_values q99) (sm_total (mt_task_duration_samples m))
    (mt_schedule_delay_max_ms m)
    (percentile delay_values q95) (percentile delay_values q99) (sm_total (mt_schedule_delay_samples m)).

(** ** The exposition text *)

Definition nl : string := String "010" EmptyString.

Definition metric (name kind help : string) (value : Z) : string :=
  "# HELP " +:+ name +:+ " " +:+ help +:+ nl +:+
  "# TYPE " +:+ name +:+ " " +:+ kind +:+ nl +:+
  name +:+ " " +:+ to_string value +:+ nl.

Definition renderPrometheus (s : MetricsSnapshot) : string :=
  metric "corpcron_rpc_requests_total" "counter" "Total RPC requests received." (ss_counter s rpc_requests_total) +:+
  metric "corpcron_rpc_success_total" "counter" "Total successful RPC responses." (ss_counter s rpc_success_total) +:+
  metric "corpcron_rpc_error_total" "counter" "Total RPC errors." (ss_counter s rpc_error_total) +:+
  metric "corpcron_active_connections" "gauge" "Current active TCP connections." (ss_counter s active_connections) +:+
  metric "corpcron_rejected_connections_total" "counter" "Total rejected TCP connections." (ss_counter s rejected_connections) +:+
  metric "corpcron_malformed_frames_total" "counter" "Total malformed RPC frames." (ss_counter s malformed_frames) +:+
  metric "corpcron_bytes_in_total" "counter" "Total inbound TCP bytes." (ss_counter s bytes_in_total) +:+
  metric "corpcron_bytes_out_total" "counter" "Total outbound TCP bytes." (ss_counter s bytes_out_total) +:+
  metric "corpcron_task_success_total" "counter" "Total successful task executions." (ss_counter s task_success_total) +:+
  metric "corpcron_task_failure_total" "counter" "Total failed task executions." (ss_counter s task_failure_total) +:+
  metric "corpcron_lock_acquire_success_total" "counter" "Total successful Redis lock acquisitions." (ss_counter s lock_acquire_success_total) +:+
  metric "corpcron_lock_acquire_failure_total" "counter" "Total failed Redis lock acquisitions." (ss_counter s lock_acquire_failure_total) +:+
  metric "corpcron_max_task_duration_ms" "gauge" "Maximum observed task duration in milliseconds." (ss_max_task_duration_ms s) +:+
  metric "corpcron_task_duration_p95_ms" "gauge" "P95 task execution duration in milliseconds over the recent sample window." (ss_task_duration_p95_ms s) +:+
  metric "corpcron_task_duration_p99_ms" "gauge" "P99 task execution duration in milliseconds over the recent sample window." (ss_task_duration_p99_ms s) +:+
  metric "corpcron_task_duration_samples_total" "counter" "Total observed task duration samples." (ss_task_duration_samples_total s) +:+
  metric "corpcron_schedule_delay_max_ms" "gauge" "Maximum observed scheduling delay in milliseconds." (ss_schedule_delay_max_ms s) +:+
  metric "corpcron_schedule_delay_p95_ms" "gauge" "P95 scheduling delay in milliseconds over the recent sample window." (ss_schedule_delay_p95_ms s) +:+
  metric "corpcron_schedule_delay_p99_ms" "gauge" "P99 scheduling delay in milliseconds over the recent sample window." (ss_schedule_delay_p99_ms s) +:+
  metric "corpcron_schedule_delay_samples_total" "counter" "Total observed scheduling delay samples." (ss_schedule_delay_samples_total s).

(** ** The window holds the most recent samples *)

Definition W : nat := Z.to_nat kSampleWindowSize.

Definition observe_all (l : list Z) (s : Samples) : Samples := foldl (fun s v => add_sample v s) s l.

(** After the samples [l]: slot [k mod W] holds sample [k] for the last [W] ones. *)
Definition samples_inv (l : list Z) (s : Samples) : Prop :=
  sm_total s = Z.of_nat (length l) /\ length (sm_values s) = W /\
  forall k v, (length l <= k + W)%nat -> l !! k = Some v -> sm_values s !! (k mod W)%nat = Some v.

Lemma W_Z : Z.of_nat W = kSampleWindowSize.
Proof. reflexivity. Qed.

Lemma W_pos : W <> 0%nat.
Proof. intros E. pose proof W_Z as H. by rewrite E in H. Qed.

#[local] Opaque W.

Lemma sample_slot n : Z.to_nat (Z.of_nat n mod kSampleWindowSize) = (n mod W)%nat.
Proof. rewrite <- W_Z, <- Nat2Z.inj_mod. by rewrite Nat2Z.id. Qed.

Lemma mod_window_neq a b : (a < b)%nat -> (b < a + W)%nat -> (a mod W)%nat <> (b mod W)%nat.
Proof.
  intros H1 H2 E. pose proof W_pos.
  pose proof (Nat.div_mod a W W_pos) as Ha. pose proof (Nat.div_mod b W W_pos) as Hb.
  rewrite E in Ha. assert (W * (a / W) < W * (b / W))%nat by lia.
  assert (W * (b / W) < W * (a / W) + W)%nat by lia.
  assert (a / W < b / W)%nat by nia. assert (b / W < a / W + 1)%nat by nia. lia.
Qed.

Lemma samples_inv_add l s v :
  Z.of_nat (length l) + 1 < 2 ^ 64 -> samples_inv l s -> samples_inv (l ++ [v]) (add_sample v s).
Proof.
  intros Hl (Ht & Hlen & Hs). unfold add_sample. rewrite Ht, sample_slot. split; [|split]; simpl.
  - rewrite length_app. simpl. rewrite u64_small by (unfold is_u64; lia). lia.
  - by rewrite length_insert.
  - intros k w Hk Hw. rewrite length_app in Hk. simpl in Hk.
    apply lookup_app_Some in Hw as [Hw | [Hge Hw]].
    + pose proof (lookup_lt_Some _ _ _ Hw).
      rewrite list_lookup_insert_ne; [apply Hs; [lia|done]|].
      intros E. by apply (mod_window_neq k (length l)); [lia|lia|].
    + destruct (k - length l)%nat as [|d] eqn:Ed; simpl in Hw; [|done]. simplify_eq.
      replace k with (length l) by lia. apply list_lookup_insert_eq.
      rewrite Hlen. apply Nat.mod_upper_bound, W_pos.
Qed.

Lemma samples_inv_all l : Z.of_nat (length l) < 2 ^ 64 -> samples_inv l (observe_all l no_samples).
Proof.
  unfold observe_all. induction l as [|v l IH] using rev_ind; intros Hl.
  - split; [done|]. split; [|intros k w _ H; by rewrite lookup_nil in H].
    unfold no_samples; cbn [foldl sm_values]. rewrite length_replicate, <- W_Z. apply Nat2Z.id.
  - rewrite length_app in Hl. simpl in Hl. rewrite foldl_app. simpl.
    apply samples_inv_add; [lia|]. apply IH. lia.
Qed.

(** The window, as long as it is not full, is the samples in order. *)
Lemma window_partial l s : samples_inv l s -> (length l <= W)%nat -> window s = l.
Proof.
  intros (Ht & Hlen & Hs) Hl. unfold window. rewrite Ht, <- W_Z, <- Nat2Z.inj_min, Nat2Z.id.
  rewrite Nat.min_l by done. apply list_eq_same_length with (length l); [done| |].
  - rewrite length_take, Hlen. lia.
  - intros i x y Hi Hx Hy. rewrite lookup_take_lt in Hx by done.
    assert (E : sm_values s !! (i mod W)%nat = Some y) by (apply Hs; [lia|done]).
    destruct (decide (i < W)%nat); [|lia]. rewrite Nat.mod_small in E by done. congruence.
Qed.

Lemma window_full_length l s : samples_inv l s -> (W <= length l)%nat -> window s = sm_values s.
Proof.
  intros (Ht & Hlen & _) Hl. unfold window. rewrite Ht, <- W_Z, <- Nat2Z.inj_min, Nat2Z.id.
  apply take_ge. rewrite Hlen. lia.
Qed.

Lemma window_perm l : Z.of_nat (length l) < 2 ^ 64 ->
  window (observe_all l no_samples) ≡ₚ drop (length l - W) l.
Proof.
  induction l as [|v l IH] using rev_ind; intros Hl.
  - by rewrite (window_partial [] _ (samples_inv_all [] ltac:(done)) ltac:(simpl; lia)).
  - pose proof (samples_inv_all (l ++ [v]) Hl) as Hinv'. rewrite length_app in *. simpl in Hl.
    pose proof (samples_inv_all l ltac:(lia)) as Hinv.
    destruct (decide (length l < W)%nat) as [Hlt|Hge].
    + rewrite (window_partial (l ++ [v])); [|done|rewrite length_app; simpl; lia].
      replace (length l + length [v] - W)%nat with 0%nat by (simpl; lia). done.
    + specialize (IH ltac:(lia)). rewrite (window_full_length _ _ Hinv ltac:(lia)) in IH.
      rewrite (window_full_length (l ++ [v]) _ Hinv') by (rewrite length_app; simpl; lia).
      destruct Hinv as (Ht & Hlen & Hs).
      destruct (lookup_lt_is_Some_2 l (length l - W)) as [old Hold]; [pose proof W_pos; lia|].
      assert (Hslot : sm_values (observe_all l no_samples) !! (length l mod W)%nat = Some old).
      { rewrite <- (Hs (length l - W)%nat old ltac:(lia) Hold). f_equal.
        replace (length l) with ((length l - W) + 1 * W)%nat at 1 by lia. by rewrite Nat.Div0.mod_add. }
      unfold observe_all. rewrite foldl_app. fold (observe_all l no_samples).
      unfold add_sample; cbn [foldl sm_values]. rewrite Ht, sample_slot.
      destruct (list_update_perm _ _ old v Hslot) as (k & Hk1 & Hk2). rewrite Hk2.
      rewrite (drop_S _ _ _ Hold) in IH. rewrite Hk1 in IH. apply Permutation_cons_inv in IH. rewrite IH.
      replace (length l + length [v] - W)%nat with (S (length l - W)) by (simpl; lia).
      rewrite drop_app_le by (pose proof W_pos; lia). by rewrite Permutation_cons_append.
Qed.

(** ** Ranks *)

(** The nearest-rank position of a percentile, in exact arithmetic. *)
Definition exact_rank (p n : Z) : Z := - (- (p * n) / 100).

Definition rank_ok (n : Z) : bool :=
  (percentile_rank q95 n =? exact_rank 95 n) && (percentile_rank q99 n =? exact_rank 99 n).

Lemma ranks_exact n : 1 <= n <= kSampleWindowSize ->
  percentile_rank q95 n = exact_rank 95 n /\ percentile_rank q99 n = exact_rank 99 n.
Proof.
  intros Hn.
  assert (H : forallb (fun k => rank_ok (Z.of_nat k)) (seq 1 1024) = true) by (vm_compute; reflexivity).
  rewrite forallb_forall in H. specialize (H (Z.to_nat n)).
  rewrite in_seq in H. unfold kSampleWindowSize in Hn. specialize (H ltac:(lia)).
  rewrite Z2Nat.id in H by lia. unfold rank_ok in H. zify_bools. done.
Qed.

(** ** Nearest-rank percentiles *)

Definition count_le (v : Z) (l : list Z) : Z := Z.of_nat (length (filter (fun x => x <= v) l)).

Lemma count_le_perm v l k : l ≡ₚ k -> count_le v l = count_le v k.
Proof. intros H. unfold count_le. by rewrite H. Qed.

Lemma count_le_app v l k : count_le v (l ++ k) = count_le v l + count_le v k.
Proof. unfold count_le. rewrite filter_app, length_app. lia. Qed.

Lemma count_le_all v l : Forall (fun x => x <= v) l -> count_le v l = Z.of_nat (length l).
Proof.
  unfold count_le. induction 1 as [|x l Hx _ IH]; [done|].
  rewrite filter_cons_True by done. simpl length. lia.
Qed.

Lemma count_le_none v l : Forall (fun x => v < x) l -> count_le v l = 0.
Proof.
  unfold count_le. induction 1 as [|x l Hx _ IH]; [done|]. by rewrite filter_cons_False by lia.
Qed.

Lemma count_le_bound v l : 0 <= count_le v l <= Z.of_nat (length l).
Proof. unfold count_le. pose proof (length_filter (fun x => x <= v) l). lia. Qed.

Lemma sorted_rank (s : list Z) i v :
  StronglySorted (fun a b => Z.leb a b = true) s -> s !! i = Some v ->
  Z.of_nat i + 1 <= count_le v s /\ forall u, u < v -> count_le u s <= Z.of_nat i.
Proof.
  intros Hs. revert i. induction Hs as [|x s Hs IH Hx]; intros i Hi; [done|].
  rewrite Forall_forall in Hx.
  assert (Hc : forall u, count_le u (x :: s) = (if decide (x <= u) then 1 else 0) + count_le u s).
  { intros u. unfold count_le. rewrite filter_cons. destruct (decide (x <= u)); simpl length; lia. }
  destruct i as [|i]; simpl in Hi; simplify_eq.
  - split.
    + rewrite Hc, decide_True by lia. pose proof (count_le_bound v s). lia.
    + intros u Hu. rewrite Hc, decide_False by lia. rewrite count_le_none; [lia|].
      apply Forall_forall. intros y Hy. apply Hx, Z.leb_le in Hy. lia.
  - destruct (IH i Hi) as [H1 H2]. assert (x <= v) by (apply Z.leb_le, Hx; by eapply list_elem_of_lookup_2).
    split.
    + rewrite Hc, decide_True by lia. lia.
    + intros u Hu. specialize (H2 u Hu). rewrite Hc. destruct (decide (x <= u)); lia.
Qed.

(** [v] is the [p]-th percentile of [w]: the least sample that at least [p]
    percent of the samples do not exceed. *)
Definition is_percentile (p : Z) (w : list Z) (v : Z) : Prop :=
  v ∈ w /\ p * Z.of_nat (length w) <= 100 * count_le v w /\
  forall u, u < v -> 100 * count_le u w < p * Z.of_nat (length w).

Lemma percentile_spec p q w :
  1 <= p <= 100 -> w <> [] -> percentile_rank q (Z.of_nat (length w)) = exact_rank p (Z.of_nat (length w)) ->
  is_percentile p w (percentile w q).
Proof.
  intros Hp Hw Hr. set (n := Z.of_nat (length w)) in *.
  assert (Hn : 1 <= n) by (subst n; destruct w; simpl; [done|lia]).
  assert (Hr1 : 1 <= exact_rank p n <= n /\ p * n <= 100 * exact_rank p n < p * n + 100).
  { unfold exact_rank. Z.div_mod_to_equations. nia. }
  assert (Hpct : percentile w q = default 0 (sort_by Z.leb w !! Z.to_nat (exact_rank p n - 1))).
  { unfold percentile. fold n. rewrite Hr. destruct w as [|x w']; [done|]. f_equal. f_equal. f_equal.
    fold n. destruct (exact_rank p n <=? 1) eqn:E; zify_bools.
    - rewrite (proj2 (Z.leb_gt _ _)) by lia. lia.
    - by rewrite (proj2 (Z.leb_gt _ _)) by lia. }
  rewrite Hpct. destruct (lookup_lt_is_Some_2 (sort_by Z.leb w) (Z.to_nat (exact_rank p n - 1))) as [v Hv].
  { rewrite length_sort_by. subst n. lia. }
  rewrite Hv. simpl.
  assert (Hs : StronglySorted (fun a b => Z.leb a b = true) (sort_by Z.leb w)).
  { apply sort_by_sorted; intros; rewrite ?Z.leb_gt, ?Z.leb_le in *; lia. }
  destruct (sorted_rank _ _ _ Hs Hv) as [H1 H2].
  rewrite (count_le_perm v _ w) in H1 by apply sort_by_perm. rewrite Z2Nat.id in * by lia. split_and!.
  - apply (elem_of_sort_by Z.leb). by eapply list_elem_of_lookup_2.
  - fold n. lia.
  - intros u Hu. specialize (H2 u Hu). rewrite (count_le_perm u _ w) in H2 by apply sort_by_perm.
    fold n. lia.
Qed.

Lemma is_percentile_perm p w w' v : w ≡ₚ w' -> is_percentile p w v -> is_percentile p w' v.
Proof.
  intros H (H1 & H2 & H3). assert (length w = length w') as Hl by (by rewrite H). split_and!.
  - by rewrite <- H.
  - by rewrite <- Hl, <- (count_le_perm v _ _ H).
  - intros u Hu. rewrite <- Hl, <- (count_le_perm u _ _ H). auto.
Qed.

(** The quantiles of a snapshot are the true nearest-rank percentiles of
    the last 1024 observations (of all of them while there are fewer): the
    ring buffer keeps exactly those, and the [double] arithmetic of the rank
    agrees with exact arithmetic for every window size. *)
Theorem snapshot_percentiles durations m :
  durations <> [] -> Z.of_nat (length durations) < 2 ^ 64 ->
  let m' := foldl (fun m d => observeTaskDuration d m) m durations in
  let recent := drop (length durations - W) durations in
  mt_task_duration_samples m = no_samples ->
  is_percentile 95 recent (ss_task_duration_p95_ms (snapshot m')) /\
  is_percentile 99 recent (ss_task_duration_p99_ms (snapshot m')) /\
  ss_task_duration_samples_total (snapshot m') = Z.of_nat (length durations).
Proof.
  intros Hne Hlen m' recent Hm.
  assert (Hsm : mt_task_duration_samples m' = observe_all durations no_samples).
  { subst m'. rewrite <- Hm. clear. unfold observe_all. revert m.
    induction durations as [|d l IH]; intros m; simpl; [done|]. by rewrite IH. }
  pose proof (window_perm durations Hlen) as Hperm. fold recent in Hperm.
  pose proof (samples_inv_all durations Hlen) as (Htot & _).
  assert (Hlr : (1 <= length recent <= W)%nat).
  { subst recent. rewrite length_drop. pose proof W_pos.
    destruct durations; simpl; [done|]. lia. }
  set (w := window (observe_all durations no_samples)) in *.
  assert (Hw : length w = length recent) by (by rewrite Hperm).
  assert (w <> []) as Hwne by (intros E; rewrite E in Hw; simpl in Hw; lia).
  destruct (ranks_exact (Z.of_nat (length w))) as [R95 R99]; [rewrite <- W_Z; lia|].
  unfold snapshot; cbn [ss_task_duration_p95_ms ss_task_duration_p99_ms ss_task_duration_samples_total].
  rewrite Hsm. fold w. split_and!; [| |done];
    (eapply is_percentile_perm; [exact Hperm|]; apply percentile_spec; [lia|done|done]).
Qed.

Lemma snapshot_percentiles_witness :
  let m' := foldl (fun m d => observeTaskDuration d m) zero_metrics [30; 10; 20] in
  let recent := drop (length [30; 10; 20] - W) [30; 10; 20] in
  is_percentile 95 recent (ss_task_duration_p95_ms (snapshot m')) /\
  is_percentile 99 recent (ss_task_duration_p99_ms (snapshot m')) /\
  ss_task_duration_samples_total (snapshot m') = 3.
Proof. apply (snapshot_percentiles [30; 10; 20] zero_metrics); [done|simpl; lia|reflexivity]. Defined.
