(* ===== verification/AlertRules.v ===== *)
(** [src/metrics/alert_rules.cpp] and the HTTP responses of
    [src/metrics/metrics_exporter.cpp]. *)
From S2P Require Import Prelude Datetime Text StorageError Metrics.

(** ** Ratios in extended precision

    [percent] divides [long double]s, which have a 64-bit significand on the
    x86-64 targets of the build, and truncates.  [round64] rounds an integer to
    64 significant bits, ties to even; the quotient of [a] by [b] truncates to
    [a / b], or to the next integer when it rounds up to it. *)
Definition round64 (a : Z) : Z :=
  let e := Z.log2 a - 63 in
  if e <=? 0 then a
  else
    let q := a / 2 ^ e in
    let r := a mod 2 ^ e in
    let half := 2 ^ (e - 1) in
    (if (half <? r) || ((r =? half) && Z.odd q) then q + 1 else q) * 2 ^ e.

Definition trunc_div64 (a b : Z) : Z :=
  let q := a / b in
  let up := if q =? 0 then 2 ^ 65 else 2 ^ (64 - Z.log2 q) in
  if ((q + 1) * b - a) * up <=? b then q + 1 else q.

Definition percent (part total : Z) : Z :=
  if total =? 0 then 0 else trunc_div64 (round64 (part * 100)) total.

Record AlertRuleConfig := mkAlertRuleConfig {
  min_rpc_requests : Z;
  rpc_error_rate_percent : Z;
  min_task_executions : Z;
  task_failure_rate_percent : Z;
  min_lock_attempts : Z;
  lock_failure_rate_percent : Z;
  cfg_schedule_delay_p99_ms : Z;
  cfg_task_duration_p99_ms : Z
}.

Record Alert := mkAlert {
  al_name : string;
  al_severity : string;
  al_message : string;
  al_observed : Z;
  al_threshold : Z
}.

Definition addRatioAlert (alerts : list Alert) (name message : string)
    (total part min_total threshold_percent : Z) : list Alert :=
  if total <? min_total then alerts
  else
    let observed_percent := percent part total in
    if threshold_percent <=? observed_percent
    then alerts ++ [mkAlert name "warning" message observed_percent threshold_percent]
    else alerts.

Definition addLatencyAlert (alerts : list Alert) (name message : string)
    (samples observed_ms threshold_ms : Z) : list Alert :=
  if (samples =? 0) || (threshold_ms =? 0) then alerts
  else if threshold_ms <=? observed_ms
  then alerts ++ [mkAlert name "warning" message observed_ms threshold_ms]
  else alerts.

Definition evaluate (s : MetricsSnapshot) (c : AlertRuleConfig) : list Alert :=
  let alerts := addRatioAlert [] "rpc_error_rate_high" "RPC error rate is above threshold"
    (ss_counter s rpc_requests_total) (ss_counter s rpc_error_total)
    (min_rpc_requests c) (rpc_error_rate_percent c) in
  let task_executions := u64 (ss_counter s task_success_total + ss_counter s task_failure_total) in
  let alerts := addRatioAlert alerts "task_failure_rate_high" "Task failure rate is above threshold"
    task_executions (ss_counter s task_failure_total)
    (min_task_executions c) (task_failure_rate_percent c) in
  let lock_attempts :=
    u64 (ss_counter s lock_acquire_success_total + ss_counter s lock_acquire_failure_total) in
  let alerts := addRatioAlert alerts "lock_failure_rate_high" "Redis lock acquire failure rate is high"
    lock_attempts (ss_counter s lock_acquire_failure_total)
    (min_lock_attempts c) (lock_failure_rate_percent c) in
  let alerts := addLatencyAlert alerts "schedule_delay_p99_high" "Schedule delay p99 is above threshold"
    (ss_schedule_delay_samples_total s) (ss_schedule_delay_p99_ms s) (cfg_schedule_delay_p99_ms c) in
  addLatencyAlert alerts "task_duration_p99_high" "Task duration p99 is above threshold"
    (ss_task_duration_samples_total s) (ss_task_duration_p99_ms s) (cfg_task_duration_p99_ms c).

Definition dquote : ascii := "034"%char.
Definition backslash : ascii := "092"%char.

Fixpoint escape_quoted (s : string) : string :=
  match s with
  | EmptyString => EmptyString
  | String ch s' =>
      if Ascii.eqb ch dquote || Ascii.eqb ch backslash
      then String backslash (String ch (escape_quoted s'))
      else String ch (escape_quoted s')
  end.

Definition quote (value : string) : string :=
  String dquote (escape_quoted value +:+ String dquote EmptyString).

Definition render_alert (a : Alert) : string :=
  "alert name=" +:+ quote (al_name a) +:+ " severity=" +:+ quote (al_severity a) +:+
  " observed=" +:+ to_string (al_observed a) +:+ " threshold=" +:+ to_string (al_threshold a) +:+
  " message=" +:+ quote (al_message a) +:+ nl.

Definition renderText (s : MetricsSnapshot) (c : AlertRuleConfig) : string :=
  let alerts := evaluate s c in
  "# CorpCron Alert Status" +:+ nl +:+
  "status=" +:+ (match alerts with [] => "ok" | _ => "firing" end) +:+ nl +:+
  "alerts_firing=" +:+ to_string (Z.of_nat (length alerts)) +:+ nl +:+
  foldr String.append EmptyString (map render_alert alerts).

(** ** The exporter *)

Definition crlf : string := String "013" (String "010" EmptyString).

Definition httpResponse (status : Z) (status_text content_type body : string) : string :=
  "HTTP/1.1 " +:+ to_string status +:+ " " +:+ status_text +:+ crlf +:+
  "Content-Type: " +:+ content_type +:+ crlf +:+
  "Content-Length: " +:+ to_string (slen body) +:+ crlf +:+
  "Connection: close" +:+ crlf +:+ crlf +:+ body.

(** What [handleClient] answers to the bytes it received ([None] when the first
    [recv] returned none); it reads 1023 bytes at most. *)
Definition handleClient (m : Metrics) (alert_config : AlertRuleConfig) (received : string) : option string :=
  if str_empty received then None
  else
    let request := str_take 1023 received in
    if starts_with "GET /metrics " request
    then Some (httpResponse 200 "OK" "text/plain; version=0.0.4" (renderPrometheus (snapshot m)))
    else if starts_with "GET /health " request
    then Some (httpResponse 200 "OK" "text/plain" ("ok" +:+ nl))
    else if starts_with "GET /alerts " request
    then Some (httpResponse 200 "OK" "text/plain" (renderText (snapshot m) alert_config))
    else Some (httpResponse 404 "Not Found" "text/plain" ("not found" +:+ nl)).

(** ** Theorems *)

Lemma round64_exact a : 0 <= a < 2 ^ 64 -> round64 a = a.
Proof.
  intros H. unfold round64. destruct (Z.log2 a - 63 <=? 0) eqn:E; [done|]. zify_bools.
  exfalso. assert (Z.log2 a < 64); [|lia]. destruct (Z.eq_dec a 0) as [->|]; [done|].
  apply Z.log2_lt_pow2; lia.
Qed.

(** The double rounding of [percent] is invisible for counts below [2^57]. *)
Lemma percent_exact part total : 0 <= part <= total -> 0 < total < 2 ^ 57 ->
  percent part total = part * 100 / total.
Proof.
  intros Hp Ht. unfold percent. rewrite (proj2 (Z.eqb_neq _ _)) by lia.
  rewrite round64_exact by lia. unfold trunc_div64.
  set (q := part * 100 / total). pose proof (Z.div_mod (part * 100) total ltac:(lia)) as Hd.
  pose proof (Z.mod_pos_bound (part * 100) total ltac:(lia)) as Hm. fold q in Hd.
  assert (Hq : 0 <= q <= 100) by (subst q; split; [apply Z.div_pos; lia|apply Z.div_le_upper_bound; lia]).
  rewrite (proj2 (Z.leb_gt _ _)); [done|].
  assert (Hup : 2 ^ 57 <= (if q =? 0 then 2 ^ 65 else 2 ^ (64 - Z.log2 q))).
  { destruct (q =? 0) eqn:E; [lia|]. zify_bools.
    pose proof (Z.log2_le_mono q 100 ltac:(lia)) as Hl. change (Z.log2 100) with 6 in Hl.
    etrans; [|apply Z.pow_le_mono_r; [lia|]]; [|instantiate (1 := 58); lia]. lia. }
  set (up := if q =? 0 then _ else _) in *.
  assert (1 <= (q + 1) * total - part * 100) by lia. nia.
Qed.

Definition ratio_fires (total part min_total threshold : Z) : Prop :=
  min_total <= total /\ threshold <= (if total =? 0 then 0 else part * 100 / total).
Definition latency_fires (samples observed threshold : Z) : Prop :=
  samples <> 0 /\ threshold <> 0 /\ threshold <= observed.

Lemma elem_of_addRatio a alerts name message total part mn th :
  0 <= part <= total -> total < 2 ^ 57 ->
  a ∈ map al_name (addRatioAlert alerts name message total part mn th) <->
  a ∈ map al_name alerts \/ (a = name /\ ratio_fires total part mn th).
Proof.
  intros Hp Ht. unfold addRatioAlert, ratio_fires.
  assert (Hpc : percent part total = if total =? 0 then 0 else part * 100 / total).
  { destruct (total =? 0) eqn:E; [unfold percent; by rewrite E|]. zify_bools. apply percent_exact; lia. }
  destruct (total <? mn) eqn:E1; zify_bools; [split; [by left|]; intros [?|[_ [? _]]]; [done|lia]|].
  rewrite Hpc. destruct (th <=? _) eqn:E2; zify_bools.
  - rewrite map_app, elem_of_app. simpl. rewrite list_elem_of_singleton. split; intros [?|?]; naive_solver.
  - split; [by left|]. intros [?|[_ [_ ?]]]; [done|lia].
Qed.

Lemma elem_of_addLatency a alerts name message samples obs th :
  a ∈ map al_name (addLatencyAlert alerts name message samples obs th) <->
  a ∈ map al_name alerts \/ (a = name /\ latency_fires samples obs th).
Proof.
  unfold addLatencyAlert, latency_fires.
  destruct (samples =? 0) eqn:E1; destruct (th =? 0) eqn:E2; simpl; zify_bools;
    try (split; [by left|]; intros [?|(_ & ? & ? & _)]; done).
  destruct (th <=? obs) eqn:E3; zify_bools.
  - rewrite map_app, elem_of_app. simpl. rewrite list_elem_of_singleton. naive_solver.
  - split; [by left|]. intros [?|(_ & _ & _ & ?)]; [done|lia].
Qed.

(** The alerts that fire are exactly those whose rule holds: a ratio
    alert when there is enough traffic and the integer percentage reaches the
    threshold, a latency alert when there are samples, the rule is enabled and
    the 99th percentile reaches it.  The [long double] division does not
    disturb this for counters below [2^57]. *)
Theorem alerts_fire_exactly s c name :
  let r k := ss_counter s k in
  (forall k, 0 <= r k < 2 ^ 56) -> r rpc_error_total <= r rpc_requests_total ->
  name ∈ map al_name (evaluate s c) <->
  (name = "rpc_error_rate_high" /\
     ratio_fires (r rpc_requests_total) (r rpc_error_total) (min_rpc_requests c) (rpc_error_rate_percent c)) \/
  (name = "task_failure_rate_high" /\
     ratio_fires (r task_success_total + r task_failure_total) (r task_failure_total)
       (min_task_executions c) (task_failure_rate_percent c)) \/
  (name = "lock_failure_rate_high" /\
     ratio_fires (r lock_acquire_success_total + r lock_acquire_failure_total)
       (r lock_acquire_failure_total) (min_lock_attempts c) (lock_failure_rate_percent c)) \/
  (name = "schedule_delay_p99_high" /\
     latency_fires (ss_schedule_delay_samples_total s) (ss_schedule_delay_p99_ms s) (cfg_schedule_delay_p99_ms c)) \/
  (name = "task_duration_p99_high" /\
     latency_fires (ss_task_duration_samples_total s) (ss_task_duration_p99_ms s) (cfg_task_duration_p99_ms c)).
Proof.
  intros r Hr Hle. unfold evaluate. fold (r rpc_requests_total) (r rpc_error_total) (r task_success_total)
    (r task_failure_total) (r lock_acquire_success_total) (r lock_acquire_failure_total).
  pose proof (Hr rpc_requests_total). pose proof (Hr rpc_error_total). pose proof (Hr task_success_total).
  pose proof (Hr task_failure_total). pose proof (Hr lock_acquire_success_total). pose proof (Hr lock_acquire_failure_total).
  clearbody r. rewrite !u64_small by (unfold is_u64; lia).
  rewrite !elem_of_addLatency, !elem_of_addRatio by lia. simpl. rewrite elem_of_nil. tauto.
Qed.

Definition quiet_snapshot : MetricsSnapshot := mkSnapshot (fun _ => 0) 0 0 0 0 0 0 7000 12.
Definition default_rules : AlertRuleConfig := mkAlertRuleConfig 100 5 10 20 10 50 5000 10000.

Lemma alerts_fire_exactly_witness :
  "schedule_delay_p99_high" ∈ map al_name (evaluate quiet_snapshot default_rules).
Proof.
  apply (alerts_fire_exactly quiet_snapshot default_rules); simpl; [lia|lia|].
  right. right. right. left. split; [done|]. unfold latency_fires. simpl. lia.
Defined.

(** Reading a quoted value back: the text and what follows the closing quote. *)
Fixpoint unquote_body (s : string) : option (string * string) :=
  match s with
  | EmptyString => None
  | String ch s' =>
      if Ascii.eqb ch dquote then Some (EmptyString, s')
      else if Ascii.eqb ch backslash then
        match s' with
        | String d s'' => '(v, rest) ← unquote_body s''; Some (String d v, rest)
        | EmptyString => None
        end
      else '(v, rest) ← unquote_body s'; Some (String ch v, rest)
  end.

Lemma unquote_escaped value rest :
  unquote_body (escape_quoted value +:+ String dquote rest) = Some (value, rest).
Proof.
  induction value as [|ch value IH]; [done|]. cbn [escape_quoted].
  destruct (Ascii.eqb ch dquote) eqn:E1; cbn [orb String.append unquote_body].
  - change (Ascii.eqb backslash dquote) with false. rewrite Ascii.eqb_refl. by rewrite IH.
  - destruct (Ascii.eqb ch backslash) eqn:E2; cbn [String.append unquote_body].
    + change (Ascii.eqb backslash dquote) with false. rewrite Ascii.eqb_refl. by rewrite IH.
    + rewrite E1, E2. by rewrite IH.
Qed.

(** An alert line can be read back: whatever bytes a name, severity or
    message holds, quoting neither loses nor confuses them with the text that
    follows. *)
Theorem quote_round_trip value rest :
  exists body, quote value +:+ rest = String dquote body /\ unquote_body body = Some (value, rest).
Proof.
  exists (escape_quoted value +:+ String dquote rest). split; [|apply unquote_escaped].
  unfold quote. simpl. by rewrite append_assoc_str.
Qed.
