(* ===== verification/Effects.v ===== *)
(** Programs over a signature of calls, for the components that drive others
    (the scheduler's threads, the dispatcher).  A program is a tree of calls; a
    trace lists the calls made with their answers.  [exec] leaves the answers
    open, so that what holds of every trace holds whatever other threads and
    nodes do between two calls; [run] answers the calls with a handler over a
    concrete state. *)
From S2P Require Import Prelude.

Inductive Prog (E : Type -> Type) (A : Type) : Type :=
| Ret (a : A)
| Do {X : Type} (e : E X) (k : X -> Prog E A).
Arguments Ret {E A}.
Arguments Do {E A X}.

Inductive Event (E : Type -> Type) : Type :=
| Called {X : Type} (e : E X) (x : X).
Arguments Called {E X}.

Section Programs.
Context {E : Type -> Type}.

Definition ask {X} (e : E X) : Prog E X := Do e Ret.

Fixpoint bindP {A B} (p : Prog E A) (k : A -> Prog E B) : Prog E B :=
  match p with
  | Ret a => k a
  | Do e c => Do e (fun x => bindP (c x) k)
  end.

Fixpoint pfor {A} (f : A -> Prog E ()) (l : list A) : Prog E () :=
  match l with
  | [] => Ret ()
  | a :: l' => bindP (f a) (fun _ => pfor f l')
  end.

(** A loop that carries a local variable. *)
Fixpoint pfold {A S} (f : S -> A -> Prog E S) (s : S) (l : list A) : Prog E S :=
  match l with
  | [] => Ret s
  | a :: l' => bindP (f s a) (fun s' => pfold f s' l')
  end.

(** [ScopeExit]: the body answers whether it called [release()]; otherwise the
    action runs when the scope is left, on every path. *)
Definition scope_exit {A} (action : Prog E ()) (body : Prog E (bool * A)) : Prog E A :=
  bindP body (fun r => if r.1 then Ret r.2 else bindP action (fun _ => Ret r.2)).

(** ** Traces *)

Fixpoint exec {A} (p : Prog E A) (tr : list (Event E)) (a : A) : Prop :=
  match p with
  | Ret a' => tr = [] /\ a = a'
  | Do e k => exists x tr', tr = Called e x :: tr' /\ exec (k x) tr' a
  end.

Lemma exec_bind {A B} (p : Prog E A) (k : A -> Prog E B) tr b :
  exec (bindP p k) tr b <-> exists t1 a t2, tr = t1 ++ t2 /\ exec p t1 a /\ exec (k a) t2 b.
Proof.
  revert tr. induction p as [a|X e c IH]; intros tr; simpl.
  - split; [intros H; by exists [], a, tr|]. by intros (t1 & a' & t2 & -> & [-> ->] & H).
  - split.
    + intros (x & tr' & -> & (t1 & a & t2 & -> & H1 & H2)%IH).
      exists (Called e x :: t1), a, t2. split_and!; [done|by exists x, t1|done].
    + intros (t1 & a & t2 & -> & (x & t1' & -> & H1) & H2).
      exists x, (t1' ++ t2). split; [done|]. apply IH. by exists t1', a, t2.
Qed.

(** ** Running against a handler *)

Section Run.
Context {S : Type} (handle : forall X, E X -> M S X).

Fixpoint run {A} (p : Prog E A) : M S A :=
  match p with
  | Ret a => retM a
  | Do e k => fun s => let '(x, s') := handle _ e s in run (k x) s'
  end.

(** The handler's answers, and the states it goes through, along a trace. *)
Fixpoint answers (tr : list (Event E)) (s s' : S) : Prop :=
  match tr with
  | [] => s' = s
  | Called e x :: tr' => exists s1, handle _ e s = (x, s1) /\ answers tr' s1 s'
  end.

Fixpoint trace_of {A} (p : Prog E A) (s : S) : list (Event E) :=
  match p with
  | Ret _ => []
  | Do e k => let '(x, s') := handle _ e s in Called e x :: trace_of (k x) s'
  end.

Lemma run_exec {A} (p : Prog E A) s :
  exec p (trace_of p s) (run p s).1 /\ answers (trace_of p s) s (run p s).2.
Proof.
  revert s. induction p as [a|X e k IH]; intros s; simpl; [done|].
  destruct (handle X e s) as [x s1] eqn:Eh. destruct (IH x s1) as [H1 H2].
  split; simpl; eauto.
Qed.

Lemma run_bind {A B} (p : Prog E A) (k : A -> Prog E B) s :
  run (bindP p k) s = run (k (run p s).1) (run p s).2.
Proof.
  revert s. induction p as [a|X e c IH]; intros s; simpl; [done|].
  destruct (handle X e s) as [x s1]. apply IH.
Qed.

Lemma trace_bind {A B} (p : Prog E A) (k : A -> Prog E B) s :
  trace_of (bindP p k) s = trace_of p s ++ trace_of (k (run p s).1) (run p s).2.
Proof.
  revert s. induction p as [a|X e c IH]; intros s; simpl; [done|].
  destruct (handle X e s) as [x s1]. simpl. by rewrite IH.
Qed.

(** The calls of a run, each with the states before and after it. *)
Fixpoint timeline {A} (p : Prog E A) (s : S) : list (S * Event E * S) :=
  match p with
  | Ret _ => []
  | Do e k => let '(x, s') := handle _ e s in (s, Called e x, s') :: timeline (k x) s'
  end.

Lemma trace_timeline {A} (p : Prog E A) s : trace_of p s = map (fun x => x.1.2) (timeline p s).
Proof.
  revert s. induction p as [a|X e k IH]; intros s; simpl; [done|].
  destruct (handle X e s) as [x s1]. simpl. by rewrite IH.
Qed.

Lemma timeline_answer {A} (p : Prog E A) s t :
  t ∈ timeline p s -> match t.1.2 with Called e x => handle _ e t.1.1 = (x, t.2) end.
Proof.
  revert s. induction p as [a|X e k IH]; intros s; simpl; [by intros ?%elem_of_nil|].
  destruct (handle X e s) as [x s'] eqn:Eh. intros [->|H]%elem_of_cons; [done|by eapply IH].
Qed.

Lemma answers_elem tr s s' ev : answers tr s s' -> ev ∈ tr ->
  match ev with Called e x => exists s1 s2, handle _ e s1 = (x, s2) end.
Proof.
  revert s. induction tr as [|[X e x] tr IH]; intros s; [by intros _ ?%elem_of_nil|].
  intros (s1 & H1 & H2) [->|H]%elem_of_cons; [by exists s, s1|by eapply IH].
Qed.

End Run.

(** ** Monitors

    A monitor reads the trace with a ghost state and refuses a call made at
    the wrong moment; [wp] is the condition under which it accepts every trace
    of a program. *)
Section Monitor.
Context {L : Type} (mon : L -> Event E -> option L).

Fixpoint monitor (l : L) (tr : list (Event E)) : option L :=
  match tr with
  | [] => Some l
  | ev :: tr' => match mon l ev with Some l' => monitor l' tr' | None => None end
  end.

Fixpoint wp {A} (p : Prog E A) (l : L) (Q : A -> L -> Prop) : Prop :=
  match p with
  | Ret a => Q a l
  | Do e k => forall x, exists l', mon l (Called e x) = Some l' /\ wp (k x) l' Q
  end.

Lemma wp_ret {A} (a : A) l (Q : A -> L -> Prop) : Q a l -> wp (Ret a) l Q.
Proof. done. Qed.

Lemma wp_do {A X} (e : E X) (k : X -> Prog E A) l Q :
  (forall x, exists l', mon l (Called e x) = Some l' /\ wp (k x) l' Q) -> wp (Do e k) l Q.
Proof. done. Qed.

Lemma wp_sound {A} (p : Prog E A) l Q tr a :
  wp p l Q -> exec p tr a -> exists l', monitor l tr = Some l' /\ Q a l'.
Proof.
  revert l tr. induction p as [a'|X e k IH]; intros l tr Hw; simpl.
  - intros [-> ->]. by exists l.
  - intros (x & tr' & -> & H). destruct (Hw x) as (l' & E1 & Hw'). simpl. rewrite E1. eauto.
Qed.

Lemma wp_bind {A B} (p : Prog E A) (k : A -> Prog E B) l Q :
  wp p l (fun a l' => wp (k a) l' Q) -> wp (bindP p k) l Q.
Proof.
  revert l. induction p as [a|X e c IH]; intros l; simpl; [done|].
  intros H x. destruct (H x) as (l' & ? & ?). eauto.
Qed.

Lemma wp_mono {A} (p : Prog E A) l (Q Q' : A -> L -> Prop) :
  wp p l Q -> (forall a l', Q a l' -> Q' a l') -> wp p l Q'.
Proof.
  intros H HQ. revert l H. induction p as [a|X e k IH]; intros l; simpl; [apply HQ|].
  intros H x. destruct (H x) as (l' & ? & ?). eauto.
Qed.

Lemma wp_pfor {A} (f : A -> Prog E ()) xs (I : L -> Prop) l :
  (forall a l, a ∈ xs -> I l -> wp (f a) l (fun _ l' => I l')) -> I l ->
  wp (pfor f xs) l (fun _ l' => I l').
Proof.
  intros Hf. revert l. induction xs as [|a xs IH]; intros l Hl; simpl; [done|].
  apply wp_bind. eapply wp_mono; [by apply Hf; [left|]|]. cbv beta. intros s1 l1 H1.
  apply IH; [|done]. intros. apply Hf; [by right|done].
Qed.

Lemma wp_pfold {A S} (f : S -> A -> Prog E S) xs (I : S -> L -> Prop) s l :
  (forall s a l, a ∈ xs -> I s l -> wp (f s a) l I) -> I s l -> wp (pfold f s xs) l I.
Proof.
  intros Hf. revert s l. induction xs as [|a xs IH]; intros s l Hl; simpl; [done|].
  apply wp_bind. eapply wp_mono; [by apply Hf; [left|]|]. intros s' l' Hl'. simpl.
  apply IH; [|done]. intros. apply Hf; [by right|done].
Qed.

Lemma monitor_app l t1 t2 :
  monitor l (t1 ++ t2) = monitor l t1 ≫= fun l' => monitor l' t2.
Proof. revert l. induction t1 as [|ev t1 IH]; intros l; simpl; [done|]. by destruct (mon l ev). Qed.

End Monitor.

(** ** Calls that are all of a kind *)

Section Always.
Context (P : Event E -> Prop).

Fixpoint always {A} (p : Prog E A) (Q : A -> Prop) : Prop :=
  match p with
  | Ret a => Q a
  | Do e k => forall x, P (Called e x) /\ always (k x) Q
  end.

Lemma always_ret {A} (a : A) (Q : A -> Prop) : Q a -> always (Ret a) Q.
Proof. done. Qed.

Lemma always_sound {A} (p : Prog E A) Q tr a : always p Q -> exec p tr a -> Forall P tr /\ Q a.
Proof.
  revert tr. induction p as [a'|X e k IH]; intros tr Hw; simpl.
  - intros [-> ->]. by split.
  - intros (x & tr' & -> & H). destruct (Hw x) as [HP Hw'].
    destruct (IH x tr' Hw' H). split; [by constructor|done].
Qed.

Lemma always_bind {A B} (p : Prog E A) (k : A -> Prog E B) Q :
  always p (fun a => always (k a) Q) -> always (bindP p k) Q.
Proof. induction p as [a|X e c IH]; simpl; [done|]. intros H x. destruct (H x). auto. Qed.

Lemma always_mono {A} (p : Prog E A) (Q Q' : A -> Prop) :
  always p Q -> (forall a, Q a -> Q' a) -> always p Q'.
Proof.
  intros H HQ. induction p as [a|X e k IH]; simpl; [by apply HQ|].
  intros x. destruct (H x). auto.
Qed.

Lemma always_pfor {A} (f : A -> Prog E ()) xs :
  (forall a, a ∈ xs -> always (f a) (fun _ => True)) -> always (pfor f xs) (fun _ => True).
Proof.
  induction xs as [|a xs IH]; intros Hf; simpl; [done|].
  apply always_bind. eapply always_mono; [apply Hf; by left|]. intros _ _.
  apply IH. intros b Hb. apply Hf. by right.
Qed.

Lemma always_pfold {A S} (f : S -> A -> Prog E S) xs (I : S -> Prop) s :
  (forall s a, a ∈ xs -> I s -> always (f s a) I) -> I s -> always (pfold f s xs) I.
Proof.
  revert s. induction xs as [|a xs IH]; intros s Hf Hs; simpl; [done|].
  apply always_bind. eapply always_mono; [apply Hf; [by left|done]|]. intros s' Hs'.
  apply IH; [|done]. intros t b Hb. apply Hf. by right.
Qed.

End Always.

Lemma always_impl (P P' : Event E -> Prop) {A} (p : Prog E A) Q :
  (forall ev, P ev -> P' ev) -> always P p Q -> always P' p Q.
Proof.
  intros HP. induction p as [a|X e k IH]; simpl; [done|]. intros H x. destruct (H x). auto.
Qed.

(** The calls of a kind, in order. *)
Fixpoint collect (f : Event E -> bool) (tr : list (Event E)) : list (Event E) :=
  match tr with
  | [] => []
  | ev :: tr' => if f ev then ev :: collect f tr' else collect f tr'
  end.

Definition collector (f : Event E -> bool) (l : list (Event E)) (ev : Event E) : option (list (Event E)) :=
  Some (if f ev then l ++ [ev] else l).

Lemma monitor_collector f l tr : monitor (collector f) l tr = Some (l ++ collect f tr).
Proof.
  revert l. induction tr as [|ev tr IH]; intros l; simpl; [by rewrite app_nil_r|].
  rewrite IH. destruct (f ev); [by rewrite <- app_assoc|done].
Qed.

Lemma wp_collect {A} f (p : Prog E A) (Q : A -> list (Event E) -> Prop) tr a :
  wp (collector f) p [] Q -> exec p tr a -> Q a (collect f tr).
Proof.
  intros Hw He. destruct (wp_sound _ _ _ _ _ _ Hw He) as (l & Hl & HQ).
  rewrite monitor_collector in Hl. by simplify_eq/=.
Qed.

(** A program without such calls leaves the collection alone. *)
Lemma wp_collector_always {A} f (p : Prog E A) l Q :
  always (fun ev => f ev = false) p Q -> wp (collector f) p l (fun a l' => l' = l /\ Q a).
Proof.
  revert l. induction p as [a|X e k IH]; intros l; simpl; [done|].
  intros H x. destruct (H x) as [Hf Hk]. exists l. unfold collector. rewrite Hf. auto.
Qed.

End Programs.

(** Notations in the style of the code: [x <- call; rest]. *)
Declare Scope prog_scope.
Delimit Scope prog_scope with prog.
Notation "'do*' x := p 'in' k" := (bindP p (fun x => k))
  (at level 10, x pattern, p at level 100, k at level 200) : prog_scope.
Notation "p ;;! k" := (bindP p (fun _ => k)) (at level 199, right associativity) : prog_scope.

(** One step of a program under a monitor; [call] deals with a call. *)
Ltac prog_step call :=
  lazymatch goal with
  | |- wp _ (bindP _ _) _ _ => apply wp_bind
  | |- wp _ (ask _) _ _ => unfold ask
  | |- wp _ (Do _ _) _ _ => call ()
  | |- wp _ (Ret _) _ _ => apply wp_ret; cbv beta
  | |- wp _ (if true then _ else _) _ _ => cbv iota
  | |- wp _ (if false then _ else _) _ _ => cbv iota
  | |- wp _ (if fst (_, _) then _ else _) _ _ => cbn [fst snd]; cbv iota
  | |- wp _ (if negb true then _ else _) _ _ => cbn [negb]; cbv iota
  | |- wp _ (if negb false then _ else _) _ _ => cbn [negb]; cbv iota
  | |- wp _ (if ?b then _ else _) _ _ => destruct b eqn:?
  | |- wp _ (match ?b with _ => _ end) _ _ => destruct b eqn:?
  end.

(** The same for [always]. *)
Ltac always_step call :=
  lazymatch goal with
  | |- always _ (bindP _ _) _ => apply always_bind
  | |- always _ (ask _) _ => unfold ask
  | |- always _ (Do _ _) _ => call ()
  | |- always _ (Ret _) _ => apply always_ret; cbv beta
  | |- always _ (if true then _ else _) _ => cbv iota
  | |- always _ (if false then _ else _) _ => cbv iota
  | |- always _ (if negb true then _ else _) _ => cbn [negb]; cbv iota
  | |- always _ (if negb false then _ else _) _ => cbn [negb]; cbv iota
  | |- always _ (if negb ?b then _ else _) _ => destruct b eqn:?; cbn [negb]; cbv iota
  | |- always _ (if decide ?P then _ else _) _ => destruct (decide P)
  | |- always _ (if ?b then _ else _) _ => destruct b eqn:?
  | |- always _ (match ?b with _ => _ end) _ => destruct b eqn:?
  end.
