(* ===== verification/CronParser.v ===== *)
(** Next execution times ([scheduler/cron_parser.cpp]).  The vendored croncpp
    library and the C library's time-zone conversions are parameters: local
    calendar times are counted in seconds like absolute ones. *)
From S2P Require Import Prelude.

Section CronParser.
(** [localtime_r] and [mktime]; [None] is their failure. *)
Context (utc_to_local local_to_utc : Z -> option Z).
(** [cron::make_cron] followed by [cron::cron_next]; [None] is an exception. *)
Context (cron_next : string -> Z -> option Z).

(** [clock_ms] is what the system clock shows when [now_ms] is 0. *)
Definition nextExecution (clock_ms : Z) (cron_expr : string) (now_ms : Z) : Z :=
  let now_ms := if now_ms =? 0 then clock_ms else now_ms in
  let now_sec := now_ms / 1000 in
  match utc_to_local now_sec with
  | None => 0
  | Some now_tm =>
      match cron_next cron_expr now_tm with
      | None => 0
      | Some next =>
          let next_sec := default (-1) (local_to_utc next) in
          if (next_sec =? -1) || (next_sec <=? now_sec) then 0 else u64 (u64 next_sec * 1000)
      end
  end.

(** A next execution, when there is one, lies in a later second than [now_ms],
    on a full second. *)
Lemma nextExecution_later clock_ms expr now_ms next :
  0 < now_ms -> nextExecution clock_ms expr now_ms = next -> next <> 0 ->
  (forall t s, local_to_utc t = Some s -> s < 2 ^ 50) ->
  exists s, next = s * 1000 /\ now_ms / 1000 < s /\ now_ms < next.
Proof.
  unfold nextExecution. intros Hn <- Hne Hb. rewrite (proj2 (Z.eqb_neq now_ms 0)) in * by lia.
  destruct (utc_to_local (now_ms / 1000)) as [tm|]; [|done].
  destruct (cron_next expr tm) as [n|]; [|done].
  destruct (local_to_utc n) as [s|] eqn:E; cbn [default from_option] in *; unfold id in *; [|done].
  specialize (Hb n s E). destruct ((s =? -1) || (s <=? now_ms / 1000)) eqn:Ec; [done|]. zify_bools.
  exists s. assert (0 <= now_ms / 1000) by (apply Z.div_pos; lia).
  rewrite !u64_small by (unfold is_u64; rewrite ?u64_small by (unfold is_u64; lia); lia).
  split_and!; [done|done|]. pose proof (Z.div_mod now_ms 1000 ltac:(lia)).
  pose proof (Z.mod_pos_bound now_ms 1000 ltac:(lia)). lia.
Qed.

End CronParser.
