(* ===== verification/CronExpr.v ===== *)
(** Cron expressions: the text of the six fields and the times it stands for
    ([third_party/croncpp.h], [make_cron] with its standard traits).

    A [std::bitset] is an integer read with [Z.testbit]; a [bad_cronexpr] is
    [inl] with its message.  Texts are cut at a NUL where the code passes
    [data()]. *)
From S2P Require Import Prelude Datetime StorageError Text Config.

Definition CRON_MIN_SECONDS : Z := 0.
Definition CRON_MAX_SECONDS : Z := 59.
Definition CRON_MIN_MINUTES : Z := 0.
Definition CRON_MAX_MINUTES : Z := 59.
Definition CRON_MIN_HOURS : Z := 0.
Definition CRON_MAX_HOURS : Z := 23.
Definition CRON_MIN_DAYS_OF_WEEK : Z := 0.
Definition CRON_MAX_DAYS_OF_WEEK : Z := 6.
Definition CRON_MIN_DAYS_OF_MONTH : Z := 1.
Definition CRON_MAX_DAYS_OF_MONTH : Z := 31.
Definition CRON_MIN_MONTHS : Z := 1.
Definition CRON_MAX_MONTHS : Z := 12.
Definition CRON_MAX_YEARS_DIFF : Z := 4.

Definition DAYS : list string := ["SUN"; "MON"; "TUE"; "WED"; "THU"; "FRI"; "SAT"]%string.
Definition MONTHS : list string :=
  ["NIL"; "JAN"; "FEB"; "MAR"; "APR"; "MAY"; "JUN"; "JUL"; "AUG"; "SEP"; "OCT"; "NOV"; "DEC"]%string.

Record cronexpr := mkCronexpr {
  seconds : Z; minutes : Z; hours : Z; days_of_week : Z; days_of_month : Z; months : Z; cex_expr : string
}.

Abbreviation E := (sum string).

Definition ebind {A B} (m : E A) (k : A -> E B) : E B := match m with inl e => inl e | inr a => k a end.
Notation "'let*' x := m 'in' k" := (ebind m (fun x => k)) (at level 10, x pattern, m at level 100, k at level 200).

(** ** Text *)

(** The C string at [data()]. *)
Fixpoint c_str (s : string) : string :=
  match s with
  | EmptyString => EmptyString
  | String c s' => if Ascii.eqb c (byte_of_Z 0) then EmptyString else String c (c_str s')
  end.

(** [std::getline] up to each delimiter: no piece after the last one. *)
Fixpoint pieces (delimiter : ascii) (s : string) : list string :=
  match s with
  | EmptyString => []
  | String c s' =>
      if Ascii.eqb c delimiter then EmptyString :: pieces delimiter s'
      else match pieces delimiter s' with
           | [] => [String c EmptyString]
           | p :: ps => String c p :: ps
           end
  end.

Definition split (text : string) (delimiter : ascii) : list string := pieces delimiter (c_str text).

Fixpoint has_char (ch : ascii) (text : string) : bool :=
  match text with
  | EmptyString => false
  | String c s => Ascii.eqb c ch || has_char ch s
  end.

Definition to_upper (text : string) : string := str_map toupper text.

Definition ULONG_MAX : Z := 2 ^ 64 - 1.

(** [std::stoul]: the digits after white space and a sign, the rest ignored;
    [None] is an exception. *)
Definition stoul (s : string) : option Z :=
  let t := skip_space (c_str s) in
  let '(neg, u) :=
    match t with
    | String c u =>
        if Ascii.eqb c "-" then (true, u) else if Ascii.eqb c "+" then (false, u) else (false, t)
    | EmptyString => (false, t)
    end in
  if starts_digit u then
    let n := (read_dec 0 u).1 in
    if ULONG_MAX <? n then None else Some (if neg then u64 (- n) else n)
  else None.

Definition to_cron_int (text : string) : E Z :=
  match stoul text with Some n => inr (u8 n) | None => inl "stoul"%string end.

(** The first occurrence of each name, by its number. *)
Definition replace_ordinal (text : string) (i : nat) (name : string) : string :=
  match String.index 0 name text with
  | Some pos => str_take pos text +:+ to_string (Z.of_nat i) +:+ str_drop (pos + 3) text
  | None => text
  end.

Fixpoint replace_from (i : nat) (replacement : list string) (text : string) : string :=
  match replacement with
  | [] => text
  | name :: rest => replace_from (S i) rest (replace_ordinal text i name)
  end.

Definition replace_ordinals (text : string) (replacement : list string) : string := replace_from 0 replacement text.

(** ** Fields *)

Definition is_char (c : ascii) (s : string) : bool := String.eqb s (String c EmptyString).

Definition make_range (field : string) (minval maxval : Z) : E (Z * Z) :=
  let* r :=
    (if is_char "*" field then inr (minval, maxval)
     else if negb (has_char "-" field) then let* first := to_cron_int field in inr (first, first)
     else match split field "-" with
          | [a; b] => let* first := to_cron_int a in let* last := to_cron_int b in inr (first, last)
          | _ => inl "Specified range requires two fields"%string
          end) in
  let '(first, last) := r in
  if (maxval <? first) || (maxval <? last) then inl "Specified range exceeds maximum"%string
  else if (first <? minval) || (last <? minval) then inl "Specified range is less than minimum"%string
  else if last <? first then inl "Specified range start exceeds range end"%string
  else inr (first, last).

(** [for (cron_int i = ...; i <= limit; i += delta) target.set(i)]; the counter
    has 8 bits, and any walk of it leaves 0..59 within 256 steps. *)
Fixpoint set_bits (fuel : nat) (i limit delta target : Z) : Z :=
  match fuel with
  | O => target
  | S fuel' => if i <=? limit then set_bits fuel' (u8 (i + delta)) limit delta (Z.setbit target i) else target
  end.

Definition set_item (field : string) (minval maxval target : Z) : E Z :=
  if negb (has_char "/" field) then
    let* r := make_range field minval maxval in
    inr (set_bits 256 (r.1 - minval) (r.2 - minval) 1 target)
  else
    match split field "/" with
    | [range; step] =>
        let* r := make_range range minval maxval in
        let last := if negb (has_char "-" range) then maxval else r.2 in
        let* delta := to_cron_int step in
        if delta <=? 0 then inl "Incrementer must be a positive value"%string
        else inr (set_bits 256 (r.1 - minval) (last - minval) delta target)
    | _ => inl "Incrementer must have two fields"%string
    end.

Fixpoint set_items (fields : list string) (minval maxval target : Z) : E Z :=
  match fields with
  | [] => inr target
  | field :: rest => let* target := set_item field minval maxval target in set_items rest minval maxval target
  end.

Definition ends_with_comma (value : string) : bool :=
  match last (list_ascii_of_string value) with Some c => Ascii.eqb c "," | None => false end.

Definition set_cron_field (value : string) (minval maxval : Z) : E Z :=
  if ends_with_comma value then inl "Value cannot end with comma"%string
  else match split value "," with
       | [] => inl "Expression parsing error"%string
       | fields => set_items fields minval maxval 0
       end.

Definition any_as_star (value : string) : string := if is_char "?" value then "*"%string else value.

Definition set_cron_days_of_week (value : string) : E Z :=
  set_cron_field (any_as_star (replace_ordinals (to_upper value) DAYS)) CRON_MIN_DAYS_OF_WEEK CRON_MAX_DAYS_OF_WEEK.
Definition set_cron_days_of_month (value : string) : E Z :=
  set_cron_field (any_as_star value) CRON_MIN_DAYS_OF_MONTH CRON_MAX_DAYS_OF_MONTH.
Definition set_cron_month (value : string) : E Z :=
  set_cron_field (replace_ordinals (to_upper value) MONTHS) CRON_MIN_MONTHS CRON_MAX_MONTHS.

Definition make_cron (expr : string) : E cronexpr :=
  if str_empty expr then inl "Invalid empty cron expression"%string
  else
    match filter (fun s => str_empty s = false) (split expr " ") with
    | [f0; f1; f2; f3; f4; f5] =>
        let* s := set_cron_field f0 CRON_MIN_SECONDS CRON_MAX_SECONDS in
        let* mi := set_cron_field f1 CRON_MIN_MINUTES CRON_MAX_MINUTES in
        let* h := set_cron_field f2 CRON_MIN_HOURS CRON_MAX_HOURS in
        let* dw := set_cron_days_of_week f5 in
        let* dm := set_cron_days_of_month f3 in
        let* mo := set_cron_month f4 in
        inr (mkCronexpr s mi h dw dm mo expr)
    | _ => inl "cron expression must have six fields"%string
    end.
