(* ===== verification/CronNext.v ===== *)
(** The next time of a cron expression ([cron_next] of
    [third_party/croncpp.h]).

    [mktime] is the C library's: it answers the time and rewrites the fields;
    -1 is its failure.  [find_next] calls itself with no bound in the code;
    here it runs on [fuel], and a theorem says how much is enough. *)
From S2P Require Import Prelude Datetime CronExpr.

Record tm := mkTm {
  tm_sec : Z; tm_min : Z; tm_hour : Z; tm_mday : Z; tm_mon : Z; tm_year : Z; tm_wday : Z; tm_isdst : Z
}.

(** [std::tm{}] *)
Definition zero_tm : tm := mkTm 0 0 0 0 0 0 0 0.

Inductive cron_field := Fsecond | Fminute | Fhour_of_day | Fday_of_week | Fday_of_month | Fmonth | Fyear.
Definition cron_fields : list cron_field := [Fsecond; Fminute; Fhour_of_day; Fday_of_week; Fday_of_month; Fmonth; Fyear].

Definition field_index (f : cron_field) : Z :=
  match f with
  | Fsecond => 0 | Fminute => 1 | Fhour_of_day => 2 | Fday_of_week => 3 | Fday_of_month => 4 | Fmonth => 5 | Fyear => 6
  end.

Definition INVALID_INDEX : Z := 2 ^ 64 - 1.

(** What a call comes to. *)
Inductive Res (A : Type) := OutOfFuel | Threw (what : string) | Ok (a : A).
Arguments OutOfFuel {A}.
Arguments Threw {A}.
Arguments Ok {A}.

Definition rbind {A B} (m : Res A) (k : A -> Res B) : Res B :=
  match m with OutOfFuel => OutOfFuel | Threw e => Threw e | Ok a => k a end.
Notation "'let!' x := m 'in' k" := (rbind m (fun x => k)) (at level 10, x pattern, m at level 100, k at level 200).

Section CronNext.
Context (mktime : tm -> Z * tm).

(** [if (INVALID_TIME == tm_to_time(date)) throw] *)
Definition settle (date : tm) : Res tm :=
  let '(t, date') := mktime date in if t =? -1 then Threw "Invalid time expression" else Ok date'.

Definition with_field (date : tm) (f : cron_field) (v : Z) : tm :=
  match f with
  | Fsecond => mkTm v (tm_min date) (tm_hour date) (tm_mday date) (tm_mon date) (tm_year date) (tm_wday date) (tm_isdst date)
  | Fminute => mkTm (tm_sec date) v (tm_hour date) (tm_mday date) (tm_mon date) (tm_year date) (tm_wday date) (tm_isdst date)
  | Fhour_of_day => mkTm (tm_sec date) (tm_min date) v (tm_mday date) (tm_mon date) (tm_year date) (tm_wday date) (tm_isdst date)
  | Fday_of_week => mkTm (tm_sec date) (tm_min date) (tm_hour date) (tm_mday date) (tm_mon date) (tm_year date) v (tm_isdst date)
  | Fday_of_month => mkTm (tm_sec date) (tm_min date) (tm_hour date) v (tm_mon date) (tm_year date) (tm_wday date) (-1)
  | Fmonth => mkTm (tm_sec date) (tm_min date) (tm_hour date) (tm_mday date) v (tm_year date) (tm_wday date) (-1)
  | Fyear => mkTm (tm_sec date) (tm_min date) (tm_hour date) (tm_mday date) (tm_mon date) v (tm_wday date) (tm_isdst date)
  end.

Definition field_value (date : tm) (f : cron_field) : Z :=
  match f with
  | Fsecond => tm_sec date | Fminute => tm_min date | Fhour_of_day => tm_hour date | Fday_of_week => tm_wday date
  | Fday_of_month => tm_mday date | Fmonth => tm_mon date | Fyear => tm_year date
  end.

(** A day of the week is added as a day of the month. *)
Definition add_to_field (date : tm) (f : cron_field) (val : Z) : Res tm :=
  let f := match f with Fday_of_week => Fday_of_month | f => f end in
  settle (with_field date f (field_value date f + val)).

Definition set_field (date : tm) (f : cron_field) (val : Z) : Res tm := settle (with_field date f val).

Definition reset_field (date : tm) (f : cron_field) : Res tm :=
  settle (with_field date f (match f with Fday_of_month => 1 | _ => 0 end)).

Fixpoint reset_fields (fields : list cron_field) (marked : Z) (date : tm) : Res tm :=
  match fields with
  | [] => Ok date
  | f :: rest =>
      if Z.testbit marked (field_index f) then let! date := reset_field date f in reset_fields rest marked date
      else reset_fields rest marked date
  end.
Definition reset_all_fields (date : tm) (marked_fields : Z) : Res tm := reset_fields cron_fields marked_fields date.

Definition mark_field (orders : Z) (f : cron_field) : Z := Z.setbit orders (field_index f).

(** The first bit set from [offset] on, of [size]. *)
Definition next_set_bit (size target offset : Z) : Z :=
  default INVALID_INDEX (List.find (Z.testbit target) (seqZ offset (size - offset))).

(** [static_cast<int>] of a [size_t] *)
Definition int_of_size (n : Z) : Z := (n + 2 ^ 31) mod 2 ^ 32 - 2 ^ 31.

Definition find_next_value (size target : Z) (date : tm) (value : Z) (f next_field : cron_field) (marked_fields : Z)
    : Res (Z * tm) :=
  let! (next_value, date) :=
    (let next_value := next_set_bit size target value in
     if next_value =? INVALID_INDEX then
       let! date := add_to_field date next_field 1 in
       let! date := reset_field date f in
       Ok (next_set_bit size target 0, date)
     else Ok (next_value, date)) in
  if (next_value =? INVALID_INDEX) || negb (next_value =? value) then
    let! date := set_field date f (int_of_size next_value) in
    let! date := reset_all_fields date marked_fields in
    Ok (next_value, date)
  else Ok (next_value, date).

Definition day_matches (cex : cronexpr) (day_of_month day_of_week : Z) : bool :=
  Z.testbit (days_of_month cex) (day_of_month - CRON_MIN_DAYS_OF_MONTH) &&
  Z.testbit (days_of_week cex) (day_of_week - CRON_MIN_DAYS_OF_WEEK).

(** [left]: how often the loop may still be entered. *)
Fixpoint find_next_day (left : nat) (cex : cronexpr) (date : tm) (day_of_month day_of_week marked_fields : Z) : Res (Z * tm) :=
  if day_matches cex day_of_month day_of_week then Ok (day_of_month, date)
  else match left with
       | O => Ok (day_of_month, date)
       | S left' =>
           let! date := add_to_field date Fday_of_month 1 in
           let day_of_month := tm_mday date in
           let day_of_week := tm_wday date in
           let! date := reset_all_fields date marked_fields in
           find_next_day left' cex date day_of_month day_of_week marked_fields
       end.

(** [find_next], one field after the other.  [rec] is the recursive call: a
    field that has changed starts the search again, and when that succeeds
    the code goes on with the next field. *)
Definition search_again (rec : tm -> Res (bool * tm)) (date : tm) (k : tm -> Res (bool * tm)) : Res (bool * tm) :=
  let! (res, date) := rec date in if negb res then Ok (res, date) else k date.

(** A difference of years is unsigned; [dot] is the year the search started in. *)
Definition month_on (cex : cronexpr) (dot : Z) (rec : tm -> Res (bool * tm)) (marked : Z) (date : tm) : Res (bool * tm) :=
  let month := tm_mon date in
  let! (updated_month, date) := find_next_value 12 (months cex) date month Fmonth Fyear marked in
  if month =? updated_month then Ok (true, date)
  else if CRON_MAX_YEARS_DIFF <? u64 (tm_year date - dot) then Ok (false, date)
  else search_again rec date (fun date => Ok (true, date)).

Definition day_on (cex : cronexpr) (dot : Z) (rec : tm -> Res (bool * tm)) (marked : Z) (date : tm) : Res (bool * tm) :=
  let day_of_month := tm_mday date in
  let! (updated_day, date) := find_next_day 366 cex date day_of_month (tm_wday date) marked in
  if day_of_month =? updated_day then month_on cex dot rec (mark_field marked Fday_of_month) date
  else search_again rec date (month_on cex dot rec marked).

Definition hour_on (cex : cronexpr) (dot : Z) (rec : tm -> Res (bool * tm)) (marked : Z) (date : tm) : Res (bool * tm) :=
  let hour := tm_hour date in
  let! (updated_hour, date) := find_next_value 24 (hours cex) date hour Fhour_of_day Fday_of_week marked in
  if hour =? updated_hour then day_on cex dot rec (mark_field marked Fhour_of_day) date
  else search_again rec date (day_on cex dot rec marked).

Definition minute_on (cex : cronexpr) (dot : Z) (rec : tm -> Res (bool * tm)) (marked : Z) (date : tm) : Res (bool * tm) :=
  let minute := tm_min date in
  let! (updated_minute, date) := find_next_value 60 (minutes cex) date minute Fminute Fhour_of_day marked in
  if minute =? updated_minute then hour_on cex dot rec (mark_field marked Fminute) date
  else search_again rec date (hour_on cex dot rec marked).

Definition second_on (cex : cronexpr) (dot : Z) (rec : tm -> Res (bool * tm)) (date : tm) : Res (bool * tm) :=
  let second := tm_sec date in
  let! (updated_second, date) := find_next_value 60 (seconds cex) date second Fsecond Fminute 0 in
  minute_on cex dot rec (if second =? updated_second then mark_field 0 Fsecond else 0) date.

Fixpoint find_next (fuel : nat) (cex : cronexpr) (date : tm) (dot : Z) : Res (bool * tm) :=
  match fuel with
  | O => OutOfFuel
  | S fuel' => second_on cex dot (fun date => find_next fuel' cex date dot) date
  end.

Definition cron_next (fuel : nat) (cex : cronexpr) (date : tm) : Res tm :=
  let '(original, date) := mktime date in
  if original =? -1 then Ok zero_tm
  else
    let! (found, date) := find_next fuel cex date (tm_year date) in
    if negb found then Ok zero_tm
    else
      let '(calculated, date) := mktime date in
      if calculated =? -1 then Ok zero_tm
      else if calculated =? original then
        let! date := add_to_field date Fsecond 1 in
        let! (found, date) := find_next fuel cex date (tm_year date) in
        Ok (if negb found then zero_tm else date)
      else Ok date.

End CronNext.
