(* ===== verification/CronCalendar.v ===== *)
(** Broken-down local time as the C library keeps it, on a time line counted
    in seconds: the calendar facts the search of [cron_next] relies on.

    Months are numbered from year 0; [month_start k] is the first day of month
    [k], so that a date is its month and the distance from its start. *)
From S2P Require Import Prelude Datetime CronExpr CronNext.

(** ** Months *)

Definition month_start (k : Z) : Z := days_from_civil (k / 12) (k mod 12 + 1) 1.

Definition month_of (D : Z) : Z := let '(y, m, _) := civil_from_days D in y * 12 + (m - 1).
Definition mday_of (D : Z) : Z := (civil_from_days D).2.
Definition wday_of (D : Z) : Z := (D + 4) mod 7.

Lemma days_from_civil_day y m d : days_from_civil y m d = days_from_civil y m 1 + (d - 1).
Proof. unfold days_from_civil. cbv zeta. lia. Qed.

(** The first day of a year that starts in March, from the start of its era. *)
Definition yoe_start (yoe : Z) : Z := 365 * yoe + yoe / 4 - yoe / 100.

Lemma yoe_next doe :
  0 <= doe < 146097 -> let yoe := (doe - doe / 1460 + doe / 36524 - doe / 146096) / 365 in
  doe < yoe_start (yoe + 1) + (yoe + 1) / 400.
Proof. intros. subst yoe. unfold yoe_start. Z.div_mod_to_equations; lia. Qed.

(** The first of March. *)
Definition march (y : Z) : Z := y * 365 + y / 4 - y / 100 + y / 400 - 719468.

Lemma march_next y : 365 <= march (y + 1) - march y <= 366.
Proof. unfold march. Z.div_mod_to_equations; lia. Qed.

Lemma days_from_march y m d :
  days_from_civil y m d =
  (if m <=? 2 then march (y - 1) + (153 * (m + 9) + 2) / 5 else march y + (153 * (m - 3) + 2) / 5) + d - 1.
Proof.
  unfold days_from_civil, march. destruct (Z.leb_spec m 2); [rewrite (proj2 (Z.ltb_ge 2 m)) by lia|rewrite (proj2 (Z.ltb_lt 2 m)) by lia].
  - generalize (y - 1) ((153 * (m + 9) + 2) / 5). intros. Z.div_mod_to_equations; lia.
  - generalize ((153 * (m - 3) + 2) / 5). intros. Z.div_mod_to_equations; lia.
Qed.

(** The first day of month [m] (from 1) of year [y], as [month_start] has it. *)
Lemma month_start_civil y m : 1 <= m <= 12 -> month_start (y * 12 + (m - 1)) = days_from_civil y m 1.
Proof.
  intros H. unfold month_start. rewrite Z.div_add_l, (Z.div_small (m - 1)) by lia.
  rewrite (Z.add_comm (y * 12)), Z.mod_add, Z.mod_small by lia. f_equal; lia.
Qed.

Ltac march_lia :=
  repeat match goal with |- context [?a <=? ?b] => destruct (Z.leb_spec a b) end;
  try lia; Z.div_mod_to_equations; lia.

Lemma month_split k : exists y m, k = y * 12 + (m - 1) /\ 1 <= m <= 12.
Proof. exists (k / 12), (k mod 12 + 1). pose proof (Z.mod_pos_bound k 12). pose proof (Z.div_mod k 12). lia. Qed.

(** Months have 28 to 31 days. *)
Lemma month_length k : 28 <= month_start (k + 1) - month_start k <= 31.
Proof.
  destruct (month_split k) as (y & m & -> & Hm). rewrite month_start_civil by done.
  destruct (decide (m = 12)) as [->|Hne].
  - replace (y * 12 + (12 - 1) + 1) with ((y + 1) * 12 + (1 - 1)) by lia.
    rewrite month_start_civil, !days_from_march by lia. replace (y + 1 - 1) with y by lia. march_lia.
  - replace (y * 12 + (m - 1) + 1) with (y * 12 + (m + 1 - 1)) by lia.
    rewrite month_start_civil, !days_from_march by lia.
    pose proof (march_next (y - 1)) as Hn. replace (y - 1 + 1) with y in Hn by lia.
    march_lia.
Qed.

Lemma year_length y : 365 <= month_start ((y + 1) * 12) - month_start (y * 12) <= 366.
Proof.
  pose proof (month_start_civil y 1 ltac:(lia)) as H1. pose proof (month_start_civil (y + 1) 1 ltac:(lia)) as H2.
  replace (y * 12 + (1 - 1)) with (y * 12) in H1 by lia.
  replace ((y + 1) * 12 + (1 - 1)) with ((y + 1) * 12) in H2 by lia.
  rewrite H1, H2, !days_from_march. pose proof (march_next (y - 1)) as Hn.
  replace (y - 1 + 1) with y in * by lia. replace (y + 1 - 1) with y by lia. march_lia.
Qed.

Lemma month_start_mono_nat k n : month_start k + 28 * Z.of_nat n <= month_start (k + Z.of_nat n).
Proof.
  induction n as [|n IH]; [replace (k + Z.of_nat 0) with k; lia|].
  pose proof (month_length (k + Z.of_nat n)). replace (k + Z.of_nat (S n)) with (k + Z.of_nat n + 1) by lia. lia.
Qed.

Lemma month_start_mono k k' : k <= k' -> month_start k + 28 * (k' - k) <= month_start k'.
Proof. intros H. pose proof (month_start_mono_nat k (Z.to_nat (k' - k))). rewrite Z2Nat.id in * by lia. replace (k + (k' - k)) with k' in * by lia. lia. Qed.

Lemma month_start_era k e : month_start (k + 4800 * e) = month_start k + 146097 * e.
Proof.
  destruct (month_split k) as (y & m & -> & Hm).
  replace (y * 12 + (m - 1) + 4800 * e) with ((y + e * 400) * 12 + (m - 1)) by lia.
  rewrite !month_start_civil, days_from_civil_era by done. lia.
Qed.

Lemma doe_in_month doe y m d :
  0 <= doe < 146097 -> civil_of_doe doe = (y, m, d) -> doe - 719468 < month_start (y * 12 + (m - 1) + 1).
Proof.
  intros Hdoe. pose proof (yoe_range doe Hdoe) as Hy. pose proof (yoe_next doe Hdoe) as Hn.
  pose proof (doy_range doe Hdoe) as Hd. unfold civil_of_doe. cbv zeta in *.
  set (yoe := (doe - doe / 1460 + doe / 36524 - doe / 146096) / 365) in *.
  set (doy := doe - (365 * yoe + yoe / 4 - yoe / 100)) in *.
  assert (Hmp : 0 <= (5 * doy + 2) / 153 <= 11) by (Z.div_mod_to_equations; lia).
  assert (Hlt : doy < (153 * ((5 * doy + 2) / 153 + 1) + 2) / 5) by (Z.div_mod_to_equations; lia).
  set (mp := (5 * doy + 2) / 153) in *. intros [= <- <- <-].
  assert (Hs : doe - 719468 = march yoe + doy).
  { subst doy. unfold march. rewrite (Z.div_small yoe 400) by lia. lia. }
  assert (Hend : doe - 719468 < march (yoe + 1)) by (unfold march, yoe_start in *; lia).
  clearbody yoe doy mp.
  set (k := _ + 1). assert (k = yoe * 12 + 2 + mp + 1) as ->.
  { subst k. destruct (Z.ltb_spec mp 10); [rewrite (proj2 (Z.leb_gt _ 2)) by lia|rewrite (proj2 (Z.leb_le _ 2)) by lia]; lia. }
  destruct (Z.leb_spec mp 8).
  - replace (yoe * 12 + 2 + mp + 1) with (yoe * 12 + (mp + 4 - 1)) by lia.
    rewrite month_start_civil, days_from_march, (proj2 (Z.leb_gt _ 2)) by lia.
    replace (mp + 4 - 3) with (mp + 1) by lia. lia.
  - destruct (decide (mp = 11)) as [->|].
    + replace (yoe * 12 + 2 + 11 + 1) with ((yoe + 1) * 12 + (3 - 1)) by lia.
      rewrite month_start_civil, days_from_march by lia. march_lia.
    + replace (yoe * 12 + 2 + mp + 1) with ((yoe + 1) * 12 + (mp - 8 - 1)) by lia.
      rewrite month_start_civil, days_from_march, (proj2 (Z.leb_le _ 2)) by lia.
      replace (yoe + 1 - 1) with yoe by lia. replace (mp - 8 + 9) with (mp + 1) by lia. lia.
Qed.

(** A day lies in its month, at its day of the month. *)
Lemma month_of_bounds D :
  month_start (month_of D) <= D < month_start (month_of D + 1) /\ mday_of D = D - month_start (month_of D) + 1.
Proof.
  unfold month_of, mday_of. destruct (civil_from_days D) as [[y m] d] eqn:E. cbn [snd].
  pose proof (civil_from_days_ok D y m d E) as (Hd & Hm & Hday).
  rewrite month_start_civil by done. rewrite days_from_civil_day in Hd. split; [|lia]. split; [lia|].
  unfold civil_from_days in E. set (w := D + 719468) in *. cbv zeta in E.
  destruct (civil_of_doe (w mod 146097)) as [[y0 m0] d0] eqn:E0. injection E as <- <- <-.
  apply doe_in_month in E0; [|apply Z.mod_pos_bound; lia].
  replace ((y0 + w / 146097 * 400) * 12 + (m0 - 1) + 1) with (y0 * 12 + (m0 - 1) + 1 + 4800 * (w / 146097)) by lia.
  rewrite month_start_era. pose proof (Z.div_mod w 146097 ltac:(lia)). lia.
Qed.

Lemma month_of_unique D k : month_start k <= D < month_start (k + 1) -> month_of D = k.
Proof.
  intros H. destruct (month_of_bounds D) as [Hb _].
  destruct (Z.lt_trichotomy (month_of D) k) as [Hlt|[Heq|Hgt]]; [|done|].
  - pose proof (month_start_mono (month_of D + 1) k ltac:(lia)). lia.
  - pose proof (month_start_mono (k + 1) (month_of D) ltac:(lia)). lia.
Qed.

Lemma month_of_mono D D' : D <= D' -> month_of D <= month_of D'.
Proof.
  intros H. destruct (month_of_bounds D) as [Hb _], (month_of_bounds D') as [Hb' _].
  destruct (Z.le_gt_cases (month_of D) (month_of D')); [done|].
  pose proof (month_start_mono (month_of D' + 1) (month_of D) ltac:(lia)). lia.
Qed.

Lemma month_start_of k : month_of (month_start k) = k.
Proof. apply month_of_unique. pose proof (month_length k). lia. Qed.

Lemma mday_range D : 1 <= mday_of D <= 31.
Proof. destruct (month_of_bounds D) as [Hb ->]. pose proof (month_length (month_of D)). lia. Qed.

Lemma civil_from_month D : civil_from_days D = (month_of D / 12, month_of D mod 12 + 1, mday_of D).
Proof.
  unfold month_of, mday_of. destruct (civil_from_days D) as [[y m] d] eqn:E. cbn [snd].
  pose proof (civil_from_days_ok D y m d E) as (_ & Hm & _).
  rewrite Z.div_add_l, (Z.div_small (m - 1)) by lia.
  rewrite (Z.add_comm (y * 12)), Z.mod_add, Z.mod_small by lia. repeat f_equal; lia.
Qed.

Lemma january_length y : month_start (y * 12 + 1) - month_start (y * 12) = 31.
Proof.
  replace (y * 12 + 1) with (y * 12 + (2 - 1)) by lia. replace (y * 12) with (y * 12 + (1 - 1)) at 2 by lia.
  rewrite !month_start_civil, !days_from_march by lia. march_lia.
Qed.

(** Two days less than four weeks apart have different days of the month. *)
Lemma mday_differs D j : 0 < j < 28 -> mday_of (D + j) <> mday_of D.
Proof.
  intros Hj. destruct (month_of_bounds D) as [_ ->], (month_of_bounds (D + j)) as [_ ->].
  pose proof (month_of_mono D (D + j) ltac:(lia)). intros Heq.
  destruct (decide (month_of D = month_of (D + j))) as [E|E]; [rewrite E in Heq; lia|].
  pose proof (month_start_mono (month_of D) (month_of (D + j)) ltac:(lia)). lia.
Qed.

(** Every day of the month comes up within a year, in January at the latest. *)
Lemma mday_within_year D i : 0 <= i < 31 -> exists j, 0 <= j <= 365 /\ mday_of (D + j) = i + 1.
Proof.
  intros Hi. destruct (month_of_bounds D) as [Hb _]. set (Y := month_of D / 12).
  pose proof (Z.div_mod (month_of D) 12 ltac:(lia)). pose proof (Z.mod_pos_bound (month_of D) 12 ltac:(lia)).
  pose proof (month_start_mono (Y * 12) (month_of D) ltac:(lia)).
  pose proof (month_start_mono (month_of D + 1) ((Y + 1) * 12) ltac:(lia)).
  pose proof (year_length Y).
  assert (Hjan : forall y, mday_of (month_start (y * 12) + i) = i + 1).
  { intros y. pose proof (january_length y). destruct (month_of_bounds (month_start (y * 12) + i)) as [_ ->].
    rewrite (month_of_unique _ (y * 12)) by lia. lia. }
  destruct (Z.le_gt_cases D (month_start (Y * 12) + i)).
  - exists (month_start (Y * 12) + i - D). rewrite <- (Hjan Y). split; [lia|]. f_equal; lia.
  - exists (month_start ((Y + 1) * 12) + i - D). rewrite <- (Hjan (Y + 1)). split; [lia|]. f_equal; lia.
Qed.

Lemma wday_range D : 0 <= wday_of D < 7.
Proof. apply Z.mod_pos_bound. lia. Qed.

Lemma wday_within_week D w : 0 <= w < 7 -> exists j, 0 <= j <= 6 /\ wday_of (D + j) = w.
Proof.
  intros Hw. exists ((w - 4 - D) mod 7). pose proof (Z.mod_pos_bound (w - 4 - D) 7 ltac:(lia)). split; [lia|].
  unfold wday_of. pose proof (Z.div_mod (w - 4 - D) 7 ltac:(lia)).
  symmetry. apply (Z.mod_unique _ 7 (- ((w - 4 - D) / 7))); lia.
Qed.

(** ** Broken-down times *)

Definition tm_secs (d : tm) : Z :=
  (month_start ((tm_year d + 1900) * 12 + tm_mon d) + (tm_mday d - 1)) * 86400
  + tm_hour d * 3600 + tm_min d * 60 + tm_sec d.

Definition tm_of (x : Z) : tm :=
  let D := x / 86400 in
  mkTm (x mod 60) (x / 60 mod 60) (x / 3600 mod 24) (mday_of D) (month_of D mod 12) (month_of D / 12 - 1900) (wday_of D) 0.

(** What the fields make of a second of the day. *)
Lemma hms x : x = x / 86400 * 86400 + (x / 3600 mod 24) * 3600 + (x / 60 mod 60) * 60 + x mod 60.
Proof.
  replace (x / 86400) with (x / 60 / 60 / 24) by (by rewrite !Z.div_div by lia).
  replace (x / 3600) with (x / 60 / 60) by (by rewrite Z.div_div by lia).
  pose proof (Z.div_mod x 60 ltac:(lia)). pose proof (Z.div_mod (x / 60) 60 ltac:(lia)).
  pose proof (Z.div_mod (x / 60 / 60) 24 ltac:(lia)). lia.
Qed.

Lemma tm_month x : (tm_year (tm_of x) + 1900) * 12 + tm_mon (tm_of x) = month_of (x / 86400).
Proof. cbn [tm_year tm_mon tm_of]. pose proof (Z.div_mod (month_of (x / 86400)) 12 ltac:(lia)). lia. Qed.

Lemma tm_secs_of x : tm_secs (tm_of x) = x.
Proof.
  unfold tm_secs. rewrite tm_month. cbn [tm_mday tm_hour tm_min tm_sec tm_of].
  destruct (month_of_bounds (x / 86400)) as [_ ->]. pose proof (hms x). lia.
Qed.

(** A zone whose clocks differ from UTC by [off] seconds all year round: [mktime]
    reads the fields, whatever their ranges, and writes them back in range. *)
Class FixedZone (mktime : tm -> Z * tm) (off : Z) : Prop :=
  mktime_fixed : forall d, off <= tm_secs d -> mktime d = (tm_secs d - off, tm_of (tm_secs d)).

Definition fixed_mktime (off : Z) (d : tm) : Z * tm := (tm_secs d - off, tm_of (tm_secs d)).
#[global] Instance fixed_mktime_zone off : FixedZone (fixed_mktime off) off.
Proof. by intros d _. Qed.
