(* ===== verification/CronSearch.v ===== *)
(** What the search of [cron_next] finds ([third_party/croncpp.h]): on the
    expressions for which its fields do not disturb one another, the first
    time after the given one that the expression stands for.

    Times are seconds of the local time line.  [timely] is a time whose
    second, minute, hour and day are right, [fires] one whose month is right
    too.  Every step of the search is a move along the line that passes no
    such time. *)
From S2P Require Import Prelude Datetime CronExpr CronNext CronCalendar.

#[local] Opaque month_start month_of mday_of wday_of.

(** ** Expressions *)

Definition full (size t : Z) : bool := forallb (Z.testbit t) (seqZ 0 size).
Definition some_bit (size t : Z) : bool := existsb (Z.testbit t) (seqZ 0 size).
Definition bits (size t : Z) : list Z := List.filter (Z.testbit t) (seqZ 0 size).

Definition day_ok (cex : cronexpr) (D : Z) : bool := day_matches cex (mday_of D) (wday_of D).
Definition timely (cex : cronexpr) (x : Z) : bool :=
  Z.testbit (seconds cex) (x mod 60) && Z.testbit (minutes cex) (x / 60 mod 60) &&
  Z.testbit (hours cex) (x / 3600 mod 24) && day_ok cex (x / 86400).
Definition month_ok (cex : cronexpr) (D : Z) : bool := Z.testbit (months cex) (month_of D mod 12).
Definition fires (cex : cronexpr) (x : Z) : bool := timely cex x && month_ok cex (x / 86400).

(** No field is empty; the seconds are all or one; the day of the month or the
    day of the week is free; the months are free, or no day past the 28th is
    asked for. *)
Definition plain (cex : cronexpr) : bool :=
  some_bit 60 (seconds cex) && some_bit 60 (minutes cex) && some_bit 24 (hours cex) &&
  some_bit 31 (days_of_month cex) && some_bit 7 (days_of_week cex) && some_bit 12 (months cex) &&
  (full 60 (seconds cex) || (Z.of_nat (length (bits 60 (seconds cex))) =? 1)) &&
  (full 31 (days_of_month cex) || full 7 (days_of_week cex)) &&
  (full 12 (months cex) || forallb (fun i => negb (Z.testbit (days_of_month cex) i)) [28; 29; 30]).

Lemma full_spec size t i : full size t = true -> 0 <= i < size -> Z.testbit t i = true.
Proof. intros H Hi. unfold full in H. rewrite forallb_forall in H. apply H. apply list_elem_of_In, elem_of_seqZ. lia. Qed.

Lemma some_bit_spec size t : some_bit size t = true -> exists i, 0 <= i < size /\ Z.testbit t i = true.
Proof.
  unfold some_bit. rewrite existsb_exists. intros (i & Hi & Ht). apply list_elem_of_In, elem_of_seqZ in Hi. exists i. split; [lia|done].
Qed.

Lemma single_bit_spec size t i j :
  Z.of_nat (length (bits size t)) = 1 -> 0 <= i < size -> 0 <= j < size ->
  Z.testbit t i = true -> Z.testbit t j = true -> i = j.
Proof.
  intros Hl Hi Hj Ti Tj. destruct (bits size t) as [|a [|b l]] eqn:E; cbn [length] in Hl; [lia| |lia].
  assert (forall k, 0 <= k < size -> Z.testbit t k = true -> k = a) as Hk; [|by rewrite (Hk i), (Hk j)].
  intros k Hr Tk. assert (List.In k (bits size t)) as Hin.
  { apply filter_In. split; [apply list_elem_of_In, elem_of_seqZ; lia|done]. }
  rewrite E in Hin. by destruct Hin as [->|[]].
Qed.

(** The first bit from an offset on. *)
Lemma find_seqZ P a n : 0 <= n ->
  match List.find P (seqZ a n) with
  | Some i => a <= i < a + n /\ P i = true /\ (forall j, a <= j < i -> P j = false)
  | None => forall j, a <= j < a + n -> P j = false
  end.
Proof.
  intros Hn. revert a. pattern n. apply natlike_ind; [|clear n Hn|done].
  - intros a. cbn. intros j Hj. lia.
  - intros n Hn IH a. rewrite seqZ_cons by lia. replace (Z.pred (Z.succ n)) with n by lia.
    cbn [List.find]. destruct (P a) eqn:Ha; [split_and!; [lia|lia|done|lia]|].
    specialize (IH (Z.succ a)). destruct (List.find P (seqZ (Z.succ a) n)) as [i|].
    + destruct IH as (Hi & Pi & Hj). split_and!; [lia|lia|done|]. intros j Hj'.
      destruct (decide (j = a)) as [->|]; [done|]. apply Hj. lia.
    + intros j Hj. destruct (decide (j = a)) as [->|]; [done|]. apply IH. lia.
Qed.

Lemma next_set_bit_spec size t o : 0 <= o <= size -> size < 2 ^ 31 ->
  (next_set_bit size t o = INVALID_INDEX /\ forall j, o <= j < size -> Z.testbit t j = false) \/
  (o <= next_set_bit size t o < size /\ Z.testbit t (next_set_bit size t o) = true /\
   forall j, o <= j < next_set_bit size t o -> Z.testbit t j = false).
Proof.
  intros Ho Hs. unfold next_set_bit. pose proof (find_seqZ (Z.testbit t) o (size - o) ltac:(lia)) as H.
  destruct (List.find _ _) as [i|]; cbn [default from_option]; unfold id.
  - right. destruct H as (Hi & Ti & Hj). split_and!; [lia|lia|done|done].
  - left. split; [done|]. intros j Hj. apply H. lia.
Qed.

Lemma int_of_size_small n : 0 <= n < 2 ^ 31 -> int_of_size n = n.
Proof. intros H. unfold int_of_size. rewrite Z.mod_small; lia. Qed.

(** ** Moves along the time line *)

Definition unit_of (f : cron_field) : Z :=
  match f with Fsecond => 1 | Fminute => 60 | Fhour_of_day => 3600 | _ => 86400 end.
Definition clock (f : cron_field) : bool :=
  match f with Fsecond | Fminute | Fhour_of_day | Fday_of_month => true | _ => false end.

(** How far [x] is past the second the fields below [u] restart at, when
    the seconds are not marked for it. *)
Definition keep (marked : bool) (x : Z) : Z := if marked then 0 else x mod 60.

Lemma tm_secs_with d f v : clock f = true ->
  tm_secs (with_field d f v) = tm_secs d + (v - field_value d f) * unit_of f.
Proof.
  intros Hf. unfold tm_secs. generalize month_start. intros ms.
  destruct f; try done; cbn [with_field tm_sec tm_min tm_hour tm_mday tm_mon tm_year field_value unit_of]; lia.
Qed.

Lemma div_shift x u n : 0 < u -> (x + n * u) / u = x / u + n.
Proof. intros. by rewrite Z.div_add by lia. Qed.

Section Moves.
Context {mktime : tm -> Z * tm} {off : Z} (zone : FixedZone mktime off).

Lemma settle_ok d : off <= tm_secs d -> settle mktime d = Ok (tm_of (tm_secs d)).
Proof.
  intros H. unfold settle. rewrite (zone d H). by rewrite (proj2 (Z.eqb_neq _ (-1))) by lia.
Qed.

Lemma settle_clock x f v : clock f = true -> off <= x + (v - field_value (tm_of x) f) * unit_of f ->
  settle mktime (with_field (tm_of x) f v) = Ok (tm_of (x + (v - field_value (tm_of x) f) * unit_of f)).
Proof. intros Hf H. rewrite settle_ok; rewrite (tm_secs_with _ f v Hf), tm_secs_of; done. Qed.

Lemma set_clock x f v : clock f = true -> off <= x + (v - field_value (tm_of x) f) * unit_of f ->
  set_field mktime (tm_of x) f v = Ok (tm_of (x + (v - field_value (tm_of x) f) * unit_of f)).
Proof. apply settle_clock. Qed.

Lemma add_clock x f v : clock f || match f with Fday_of_week => true | _ => false end = true -> off <= x + v * unit_of f ->
  add_to_field mktime (tm_of x) f v = Ok (tm_of (x + v * unit_of f)).
Proof.
  intros Hf H. unfold add_to_field. set (g := match f with Fday_of_week => Fday_of_month | f => f end).
  assert (clock g = true /\ unit_of g = unit_of f) as [Hg Hu] by (by destruct f).
  rewrite settle_clock, Hu; [|done|rewrite Hu; lia]. do 2 f_equal. lia.
Qed.

Lemma reset_clock x f : clock f = true ->
  let v := match f with Fday_of_month => 1 | _ => 0 end in
  off <= x - (field_value (tm_of x) f - v) * unit_of f ->
  reset_field mktime (tm_of x) f = Ok (tm_of (x - (field_value (tm_of x) f - v) * unit_of f)).
Proof. intros Hf v H. unfold reset_field. fold v. rewrite settle_clock by (done || lia). do 2 f_equal. lia. Qed.

(** A field that takes the value [q mod size] at the [q]-th of a sequence of
    dates is moved along that sequence: to its next value, into the next round
    of it where needed; then the marked fields restart. *)
Lemma find_next_value_match size t d v f next marked :
  0 <= v < size -> size < 61 -> Z.testbit t v = true -> find_next_value mktime size t d v f next marked = Ok (v, d).
Proof.
  intros Hv Hs Ht. unfold find_next_value, next_set_bit. rewrite seqZ_cons by lia. cbn [List.find]. rewrite Ht.
  cbn [default from_option]. unfold id. assert (v <> INVALID_INDEX) by (unfold INVALID_INDEX; lia).
  rewrite (proj2 (Z.eqb_neq v INVALID_INDEX)) by done. cbn [rbind].
  rewrite (proj2 (Z.eqb_neq v INVALID_INDEX)) by done. by rewrite Z.eqb_refl.
Qed.

Section Sequence.
Context (P : Z -> tm) (f next : cron_field) (size q : Z) (Hsize : 0 < size < 61).
Context (Hadd : add_to_field mktime (P q) next 1 = Ok (P (q + size))).
Context (Hreset : forall p, q <= p - p mod size -> reset_field mktime (P p) f = Ok (P (p - p mod size))).
Context (Hset : forall p w, 0 <= w < size -> q <= p -> q <= p - p mod size + w ->
  set_field mktime (P p) f w = Ok (P (p - p mod size + w))).

Lemma find_next_value_moves t marked :
  some_bit size t = true -> Z.testbit t (q mod size) = false ->
  exists n, 0 < n /\ Z.testbit t ((q + n) mod size) = true /\
    (forall i, 0 <= i < n -> Z.testbit t ((q + i) mod size) = false) /\
    find_next_value mktime size t (P q) (q mod size) f next marked =
      rbind (reset_all_fields mktime (P (q + n)) marked) (fun date => Ok ((q + n) mod size, date)).
Proof.
  intros Hsome Ht. set (v := q mod size) in *. assert (Hv : 0 <= v < size) by (apply Z.mod_pos_bound; lia).
  assert (Hmod : forall n, 0 <= v + n < size -> (q + n) mod size = v + n).
  { intros n Hn. rewrite <- Z.add_mod_idemp_l by lia. by apply Z.mod_small. }
  assert (Hmod' : forall n, size <= v + n < 2 * size -> (q + n) mod size = v + n - size).
  { intros n Hn. rewrite <- Z.add_mod_idemp_l by lia. fold v. symmetry. apply (Z.mod_unique _ _ 1); lia. }
  assert (Hinv : forall w, 0 <= w < size -> (w =? INVALID_INDEX) = false) by (intros; apply Z.eqb_neq; unfold INVALID_INDEX; lia).
  unfold find_next_value. destruct (next_set_bit_spec size t v ltac:(lia) ltac:(lia)) as [[-> Hnone]|(Hr & Tw & Hbefore)].
  - rewrite Z.eqb_refl.
    destruct (next_set_bit_spec size t 0 ltac:(lia) ltac:(lia)) as [[_ Hall]|(Hr & Tw & Hbefore)].
    { destruct (some_bit_spec size t Hsome) as (i & Hi & Ti). rewrite Hall in Ti by lia. done. }
    set (w := next_set_bit size t 0) in *.
    assert (Hwv : w < v). { destruct (Z.lt_ge_cases w v); [done|]. rewrite Hnone in Tw by lia. done. }
    exists (size - v + w). rewrite (Hmod' (size - v + w)) by lia. replace (v + (size - v + w) - size) with w by lia.
    split_and!; [lia|done| |].
    { intros i Hi. destruct (Z.lt_ge_cases (v + i) size); [rewrite Hmod by lia; apply Hnone; lia|].
      rewrite Hmod' by lia. apply Hbefore. lia. }
    assert (Hround : q + size - (q + size) mod size = q + (size - v)) by (rewrite Hmod' by lia; lia).
    assert (Hzero : (q + (size - v)) mod size = 0) by (rewrite Hmod' by lia; lia).
    rewrite Hadd. cbn [rbind]. rewrite Hreset, Hround by lia. cbn [rbind].
    rewrite Hinv by lia. rewrite (proj2 (Z.eqb_neq w v)) by lia. cbn [orb negb].
    rewrite int_of_size_small, Hset, Hzero by (rewrite ?Hzero; lia). cbn [rbind].
    by replace (q + (size - v) - 0 + w) with (q + (size - v + w)) by lia.
  - set (w := next_set_bit size t v) in *. assert (v <> w) by (intros Heq; congruence).
    exists (w - v). rewrite (Hmod (w - v)) by lia. replace (v + (w - v)) with w by lia. split_and!; [lia|done| |].
    { intros i Hi. rewrite Hmod by lia. apply Hbefore. lia. }
    rewrite Hinv by lia. cbn [rbind]. rewrite Hinv by lia. rewrite (proj2 (Z.eqb_neq w v)) by lia. cbn [orb negb].
    rewrite int_of_size_small, Hset by (fold v; lia). cbn [rbind]. fold v. by replace (q - v + w) with (q + (w - v)) by lia.
Qed.

End Sequence.

(** A clock field counts its unit of time, modulo its size. *)
Definition clock_field (f next : cron_field) (size : Z) : Prop :=
  (f, next, size) = (Fsecond, Fminute, 60) \/ (f, next, size) = (Fminute, Fhour_of_day, 60) \/
  (f, next, size) = (Fhour_of_day, Fday_of_week, 24).

Lemma clock_value f next size x : clock_field f next size -> field_value (tm_of x) f = (x / unit_of f) mod size.
Proof. intros [[= -> -> ->]|[[= -> -> ->]|[= -> -> ->]]]; cbn; by rewrite ?Z.div_1_r. Qed.

Lemma clock_size f next size : clock_field f next size ->
  clock f = true /\ 0 < size < 61 /\ 0 < unit_of f /\ unit_of next = size * unit_of f /\
  match f with Fday_of_month => 1 | _ => 0 end = 0.
Proof. intros [[= -> -> ->]|[[= -> -> ->]|[= -> -> ->]]]; cbn; split_and!; done || lia. Qed.

Lemma clock_moves f next size t x marked :
  clock_field f next size -> let u := unit_of f in off <= x ->
  some_bit size t = true -> Z.testbit t (x / u mod size) = false ->
  exists n, 0 < n /\ Z.testbit t ((x / u + n) mod size) = true /\
    (forall i, 0 <= i < n -> Z.testbit t ((x / u + i) mod size) = false) /\
    find_next_value mktime size t (tm_of x) (x / u mod size) f next marked =
      rbind (reset_all_fields mktime (tm_of (x + n * u)) marked) (fun date => Ok ((x / u + n) mod size, date)).
Proof.
  intros Hc u Hx Hsome Ht. destruct (clock_size f next size Hc) as (Hck & Hs & Hu & Hnext & Hz). fold u in Hu, Hnext.
  set (P q := tm_of (x + (q - x / u) * u)).
  assert (Hval : forall q, field_value (P q) f = q mod size).
  { intros q. unfold P. rewrite (clock_value f next size) by done. fold u. rewrite div_shift by lia. f_equal. lia. }
  destruct (find_next_value_moves P f next size (x / u) Hs) with (t := t) (marked := marked) as (n & ? & ? & ? & Heq); [..|done|done|].
  - unfold P. rewrite add_clock; [|destruct Hc as [[= _ -> _]|[[= _ -> _]|[= _ -> _]]]; done|rewrite Hnext; nia].
    do 2 f_equal. rewrite Hnext. lia.
  - intros p Hp. unfold P at 1. rewrite (reset_clock _ f Hck); fold (P p); rewrite Hval, Hz; fold u; [|nia].
    unfold P. do 2 f_equal. lia.
  - intros p w Hw Hp Hr. unfold P at 1. rewrite (set_clock _ f w Hck); fold (P p); rewrite Hval; fold u; [|nia].
    unfold P. do 2 f_equal. lia.
  - exists n. split_and!; [done..|]. unfold P in Heq. replace (x + (x / u - x / u) * u) with x in Heq by lia.
    rewrite Heq. by replace (x / u + n - x / u) with n by lia.
Qed.

(** *** The fields that restart *)

Definition marked1 (b : bool) : Z := if b then mark_field 0 Fsecond else 0.
Definition marked2 (b : bool) : Z := mark_field (marked1 b) Fminute.
Definition marked3 (b : bool) : Z := mark_field (marked2 b) Fhour_of_day.
Definition marked4 (b : bool) : Z := mark_field (marked3 b) Fday_of_month.

Lemma reset_marked fs marked f y : clock f = true -> Z.testbit marked (field_index f) = true ->
  let y' := y - (field_value (tm_of y) f - match f with Fday_of_month => 1 | _ => 0 end) * unit_of f in off <= y' ->
  reset_fields mktime (f :: fs) marked (tm_of y) = reset_fields mktime fs marked (tm_of y').
Proof. intros Hf Hm y' Hy. cbn [reset_fields]. by rewrite Hm, (reset_clock y f Hf) by done. Qed.

Lemma reset_unmarked fs marked f d : Z.testbit marked (field_index f) = false ->
  reset_fields mktime (f :: fs) marked d = reset_fields mktime fs marked d.
Proof. intros Hm. cbn [reset_fields]. by rewrite Hm. Qed.

(** A time by its day, hour, minute and second. *)
Definition at_time (D h m s : Z) : Z := D * 86400 + h * 3600 + m * 60 + s.

Lemma at_time_fields D h m s : 0 <= h < 24 -> 0 <= m < 60 -> 0 <= s < 60 -> let y := at_time D h m s in
  y / 86400 = D /\ y / 3600 mod 24 = h /\ y / 60 mod 60 = m /\ y mod 60 = s.
Proof.
  intros Hh Hm Hs y. subst y. unfold at_time. split_and!.
  - symmetry. apply (Z.div_unique _ _ _ (h * 3600 + m * 60 + s)); lia.
  - rewrite <- (Z.div_unique _ 3600 (D * 24 + h) (m * 60 + s)) by lia. rewrite (Z.add_comm (D * 24)), Z.mod_add by lia. by apply Z.mod_small.
  - rewrite <- (Z.div_unique _ 60 (D * 1440 + h * 60 + m) s) by lia.
    symmetry. apply (Z.mod_unique _ _ (D * 24 + h)); lia.
  - symmetry. apply (Z.mod_unique _ _ (D * 1440 + h * 60 + m)); lia.
Qed.

Lemma at_time_of y : y = at_time (y / 86400) (y / 3600 mod 24) (y / 60 mod 60) (y mod 60).
Proof. unfold at_time. apply hms. Qed.

Lemma field_values y :
  field_value (tm_of y) Fsecond = y mod 60 /\ field_value (tm_of y) Fminute = y / 60 mod 60 /\
  field_value (tm_of y) Fhour_of_day = y / 3600 mod 24 /\ field_value (tm_of y) Fday_of_month = mday_of (y / 86400).
Proof. done. Qed.

Lemma at_time_values D h m s : 0 <= h < 24 -> 0 <= m < 60 -> 0 <= s < 60 -> let d := tm_of (at_time D h m s) in
  field_value d Fsecond = s /\ field_value d Fminute = m /\ field_value d Fhour_of_day = h /\
  field_value d Fday_of_month - 1 = D - month_start (month_of D).
Proof.
  intros Hh Hm Hs d. subst d. destruct (at_time_fields D h m s Hh Hm Hs) as (Ed & Eh & Em & Es).
  destruct (field_values (at_time D h m s)) as (-> & -> & -> & ->). rewrite Ed, Eh, Em, Es.
  destruct (month_of_bounds D) as [_ ->]. split_and!; lia.
Qed.

Ltac reset_at D h m s :=
  let E := fresh in pose proof (at_time_values D h m s ltac:(done) ltac:(done) ltac:(done)) as E; cbv zeta in E;
  destruct E as (? & ? & ? & ?);
  rewrite reset_marked; [do 2 f_equal|done|done|]; cbn [unit_of]; unfold at_time in *; lia.

Lemma reset_second fs marked D h m s :
  0 <= h < 24 -> 0 <= m < 60 -> 0 <= s < 60 -> Z.testbit marked 0 = true -> off <= at_time D h m 0 ->
  reset_fields mktime (Fsecond :: fs) marked (tm_of (at_time D h m s)) = reset_fields mktime fs marked (tm_of (at_time D h m 0)).
Proof.
  intros Hh Hm Hs Ht Ho. reset_at D h m s.
Qed.

Lemma reset_minute fs marked D h m s :
  0 <= h < 24 -> 0 <= m < 60 -> 0 <= s < 60 -> Z.testbit marked 1 = true -> off <= at_time D h 0 s ->
  reset_fields mktime (Fminute :: fs) marked (tm_of (at_time D h m s)) = reset_fields mktime fs marked (tm_of (at_time D h 0 s)).
Proof.
  intros Hh Hm Hs Ht Ho. reset_at D h m s.
Qed.

Lemma reset_hour fs marked D h m s :
  0 <= h < 24 -> 0 <= m < 60 -> 0 <= s < 60 -> Z.testbit marked 2 = true -> off <= at_time D 0 m s ->
  reset_fields mktime (Fhour_of_day :: fs) marked (tm_of (at_time D h m s)) = reset_fields mktime fs marked (tm_of (at_time D 0 m s)).
Proof.
  intros Hh Hm Hs Ht Ho. reset_at D h m s.
Qed.

Lemma reset_mday fs marked D h m s :
  0 <= h < 24 -> 0 <= m < 60 -> 0 <= s < 60 -> Z.testbit marked 4 = true -> off <= at_time (month_start (month_of D)) h m s ->
  reset_fields mktime (Fday_of_month :: fs) marked (tm_of (at_time D h m s)) =
  reset_fields mktime fs marked (tm_of (at_time (month_start (month_of D)) h m s)).
Proof. intros Hh Hm Hs Ht Ho. reset_at D h m s. Qed.

(** What is left of the second when the fields above it restart. *)
Definition sec_left (b : bool) (s : Z) : Z := if b then 0 else s.

Ltac reset_run :=
  unfold reset_all_fields, cron_fields;
  repeat first
    [ rewrite reset_unmarked by reflexivity | rewrite reset_second by (done || lia || (unfold at_time in *; lia))
    | rewrite reset_minute by (done || lia || (unfold at_time in *; lia)) | rewrite reset_hour by (done || lia || (unfold at_time in *; lia))
    | rewrite reset_mday by (done || lia || (unfold at_time in *; lia)) ]; reflexivity.

Lemma reset_to_minute b D h m s :
  0 <= h < 24 -> 0 <= m < 60 -> 0 <= s < 60 -> off <= at_time D h m 0 ->
  reset_all_fields mktime (tm_of (at_time D h m s)) (marked1 b) = Ok (tm_of (at_time D h m (sec_left b s))).
Proof. intros. destruct b; reset_run. Qed.

Lemma reset_to_hour b D h m s :
  0 <= h < 24 -> 0 <= m < 60 -> 0 <= s < 60 -> off <= at_time D h 0 0 ->
  reset_all_fields mktime (tm_of (at_time D h m s)) (marked2 b) = Ok (tm_of (at_time D h 0 (sec_left b s))).
Proof. intros. destruct b; reset_run. Qed.

Lemma reset_to_day b D h m s :
  0 <= h < 24 -> 0 <= m < 60 -> 0 <= s < 60 -> off <= at_time D 0 0 0 ->
  reset_all_fields mktime (tm_of (at_time D h m s)) (marked3 b) = Ok (tm_of (at_time D 0 0 (sec_left b s))).
Proof. intros. destruct b; reset_run. Qed.

Lemma reset_to_month b D h m s :
  0 <= h < 24 -> 0 <= m < 60 -> 0 <= s < 60 -> off <= at_time (month_start (month_of D)) 0 0 0 ->
  reset_all_fields mktime (tm_of (at_time D h m s)) (marked4 b) = Ok (tm_of (at_time (month_start (month_of D)) 0 0 (sec_left b s))).
Proof.
  intros. destruct (month_of_bounds D) as [? _]. destruct b; reset_run.
Qed.

Lemma at_time_range y : 0 <= y / 3600 mod 24 < 24 /\ 0 <= y / 60 mod 60 < 60 /\ 0 <= y mod 60 < 60.
Proof. split_and!; apply Z.mod_pos_bound; lia. Qed.

Lemma floors y :
  at_time (y / 86400) (y / 3600 mod 24) (y / 60 mod 60) 0 = y / 60 * 60 /\
  at_time (y / 86400) (y / 3600 mod 24) 0 0 = y / 3600 * 3600 /\ at_time (y / 86400) 0 0 0 = y / 86400 * 86400.
Proof.
  pose proof (at_time_of y) as H. unfold at_time in *.
  replace (y / 86400) with (y / 3600 / 24) in * by (by rewrite Z.div_div by lia).
  pose proof (Z.div_mod y 60 ltac:(lia)). pose proof (Z.div_mod (y / 3600) 24 ltac:(lia)). lia.
Qed.

Lemma restart_minute b y : off <= y / 60 * 60 ->
  reset_all_fields mktime (tm_of y) (marked1 b) = Ok (tm_of (y / 60 * 60 + sec_left b (y mod 60))).
Proof.
  destruct (floors y) as (E & _ & _), (at_time_range y) as (? & ? & ?). rewrite <- E. intros Ho.
  rewrite (at_time_of y) at 1. rewrite reset_to_minute by done. do 2 f_equal. unfold at_time. lia.
Qed.

Lemma restart_hour b y : off <= y / 3600 * 3600 ->
  reset_all_fields mktime (tm_of y) (marked2 b) = Ok (tm_of (y / 3600 * 3600 + sec_left b (y mod 60))).
Proof.
  destruct (floors y) as (_ & E & _), (at_time_range y) as (? & ? & ?). rewrite <- E. intros Ho.
  rewrite (at_time_of y) at 1. rewrite reset_to_hour by done. do 2 f_equal. unfold at_time. lia.
Qed.

Lemma restart_day b y : off <= y / 86400 * 86400 ->
  reset_all_fields mktime (tm_of y) (marked3 b) = Ok (tm_of (y / 86400 * 86400 + sec_left b (y mod 60))).
Proof.
  destruct (floors y) as (_ & _ & E), (at_time_range y) as (? & ? & ?). rewrite <- E. intros Ho.
  rewrite (at_time_of y) at 1. rewrite reset_to_day by done. do 2 f_equal. unfold at_time. lia.
Qed.

(** *** Steps of the search *)

Context (cex : cronexpr).

Definition passes (x y : Z) : Prop := forall z, x <= z < y -> timely cex z = false.

(** The second is marked, or it is the only one. *)
Definition settled (b : bool) (x : Z) : Prop :=
  b = true \/ forall z, Z.testbit (seconds cex) (z mod 60) = true -> z mod 60 = x mod 60.

Lemma sec_left_range b x : 0 <= sec_left b (x mod 60) < 60.
Proof. destruct b; cbn; [lia|]. apply Z.mod_pos_bound. lia. Qed.

(** From the start of a minute to the second left by a restart. *)
Lemma passes_left b x q : settled b x -> passes (q * 60) (q * 60 + sec_left b (x mod 60)).
Proof.
  intros [->|Hs] z Hz; cbn in *; [lia|]. pose proof (sec_left_range b x).
  destruct (timely cex z) eqn:E; [|done]. unfold timely in E. zify_bools. exfalso.
  assert (Hzm : z mod 60 = z - q * 60).
  { symmetry. apply (Z.mod_unique _ _ q); [|lia]. destruct b; cbn in *; lia. }
  specialize (Hs z). destruct b; cbn in *; [lia|]. rewrite Hs in Hzm by (by destruct_and!). lia.
Qed.

Lemma passes_trans x y z : passes x y -> passes y z -> passes x z.
Proof. intros H1 H2 w Hw. destruct (Z.lt_ge_cases w y); [apply H1|apply H2]; lia. Qed.

Lemma floor_bounds x u : 0 < u -> x / u * u <= x < (x / u + 1) * u.
Proof. intros. pose proof (Z.div_mod x u ltac:(lia)). pose proof (Z.mod_pos_bound x u ltac:(lia)). lia. Qed.

Lemma div_between x y u n : 0 < u -> x <= y < (x / u + n) * u -> exists i, 0 <= i < n /\ y / u = x / u + i.
Proof.
  intros Hu Hy. pose proof (Z.div_le_mono x y u Hu ltac:(lia)). exists (y / u - x / u).
  pose proof (floor_bounds y u Hu). split; [nia|lia].
Qed.

Lemma clock_passes f next size t x n : clock_field f next size ->
  (forall z, timely cex z = true -> Z.testbit t (z / unit_of f mod size) = true) ->
  (forall i, 0 <= i < n -> Z.testbit t ((x / unit_of f + i) mod size) = false) ->
  passes x ((x / unit_of f + n) * unit_of f).
Proof.
  intros Hc Ht Hn z Hz. destruct (clock_size f next size Hc) as (_ & _ & Hu & _).
  destruct (div_between x z (unit_of f) n Hu Hz) as (i & Hi & Heq).
  destruct (timely cex z) eqn:E; [|done]. apply Ht in E. rewrite Heq, Hn in E by done. done.
Qed.

(** The minute or the hour does not match: the search moves on without
    passing a time that does. *)
Lemma clock_step f next size t x b marked k :
  clock_field f next size -> unit_of f = k * 60 -> 0 < k ->
  (forall y, off <= y / unit_of f * unit_of f ->
     reset_all_fields mktime (tm_of y) marked = Ok (tm_of (y / unit_of f * unit_of f + sec_left b (y mod 60)))) ->
  off <= x -> some_bit size t = true -> settled b x ->
  (forall z, timely cex z = true -> Z.testbit t (z / unit_of f mod size) = true) ->
  Z.testbit t (x / unit_of f mod size) = false ->
  exists w y, find_next_value mktime size t (tm_of x) (x / unit_of f mod size) f next marked = Ok (w, tm_of y) /\
    (x / unit_of f mod size =? w) = false /\ x < y /\ passes x y.
Proof.
  intros Hc Hk Hk0 Hres Hx Hsome Hset Ht Hno. destruct (clock_size f next size Hc) as (_ & Hs & Hu & _).
  destruct (clock_moves f next size t x marked Hc Hx Hsome Hno) as (n & Hn & Tn & Hbefore & ->).
  set (q := x / unit_of f) in *. pose proof (floor_bounds x (unit_of f) Hu) as Hfl. fold q in Hfl.
  assert (Hy : (x + n * unit_of f) / unit_of f = q + n) by (rewrite div_shift by lia; done).
  rewrite Hres, Hy by (rewrite Hy; nia). cbn [rbind].
  assert (Hm : (x + n * unit_of f) mod 60 = x mod 60).
  { rewrite Hk. replace (x + n * (k * 60)) with (x + n * k * 60) by lia. by rewrite Z.mod_add by lia. }
  rewrite Hm. exists ((q + n) mod size), ((q + n) * unit_of f + sec_left b (x mod 60)).
  pose proof (sec_left_range b x). split_and!; [done| |nia|].
  - apply Z.eqb_neq. intros Heq. congruence.
  - apply (passes_trans _ ((q + n) * unit_of f)); [by apply (clock_passes f next size t)|].
    rewrite Hk. replace ((q + n) * (k * 60)) with ((q + n) * k * 60) by lia. by apply passes_left.
Qed.

(** The day: within [left] days there is one that matches. *)
Lemma find_next_day_step left x b :
  off <= x -> (exists j, 0 <= j <= Z.of_nat left /\ day_ok cex (x / 86400 + j) = true) ->
  exists j, 0 <= j /\ day_ok cex (x / 86400 + j) = true /\ (forall i, 0 <= i < j -> day_ok cex (x / 86400 + i) = false) /\
    find_next_day mktime left cex (tm_of x) (mday_of (x / 86400)) (wday_of (x / 86400)) (marked3 b) =
    Ok (mday_of (x / 86400 + j), tm_of (if j =? 0 then x else (x / 86400 + j) * 86400 + sec_left b (x mod 60))).
Proof.
  revert x. induction left as [|left IH]; intros x Hx (j & Hj & Hok); cbn [find_next_day]; fold (day_ok cex (x / 86400)).
  - assert (j = 0) as -> by lia. exists 0. rewrite Z.add_0_r in *. rewrite Hok. split_and!; [done..|lia|done].
  - destruct (day_ok cex (x / 86400)) eqn:E.
    { exists 0. rewrite Z.add_0_r. split_and!; [done..|lia|done]. }
    assert (j <> 0) by (intros ->; rewrite Z.add_0_r in Hok; congruence).
    rewrite add_clock by (done || (cbn; lia)). cbn [rbind unit_of].
    pose proof (floor_bounds x 86400 ltac:(lia)). pose proof (sec_left_range b x).
    assert (HD : (x + 1 * 86400) / 86400 = x / 86400 + 1) by (rewrite div_shift by lia; done).
    rewrite restart_day, HD by (rewrite HD; lia). cbn [rbind].
    replace ((x + 1 * 86400) mod 60) with (x mod 60)
      by (replace (x + 1 * 86400) with (x + 1440 * 60) by lia; by rewrite Z.mod_add by lia).
    cbn [tm_of tm_mday tm_wday]. rewrite HD.
    set (x' := (x / 86400 + 1) * 86400 + sec_left b (x mod 60)).
    assert (HD' : x' / 86400 = x / 86400 + 1) by (symmetry; apply (Z.div_unique _ _ _ (sec_left b (x mod 60))); unfold x'; lia).
    destruct (IH x') as (i & Hi & Hok' & Hbefore & Heq); [unfold x'; lia| |].
    { exists (j - 1). rewrite HD'. split; [lia|]. rewrite <- Hok. f_equal. lia. }
    rewrite HD' in *. exists (i + 1). split_and!; [lia| | |].
    + rewrite <- Hok'. f_equal. lia.
    + intros i' Hi'. destruct (decide (i' = 0)) as [->|]; [by rewrite Z.add_0_r|].
      rewrite <- (Hbefore (i' - 1)) by lia. f_equal. lia.
    + rewrite Heq. rewrite (proj2 (Z.eqb_neq (i + 1) 0)) by lia. replace (x / 86400 + 1 + i) with (x / 86400 + (i + 1)) by lia.
      do 3 f_equal. destruct (Z.eqb_spec i 0) as [->|]; [unfold x'; lia|]. f_equal.
      assert (x' mod 60 = sec_left b (x mod 60)) as ->; [|by destruct b].
      unfold x'. replace ((x / 86400 + 1) * 86400) with ((x / 86400 + 1) * 1440 * 60) by lia.
      rewrite Z.add_comm, Z.mod_add, Z.mod_small; lia.
Qed.

(** The month: the date moved to month [k'], its day and time kept. *)
Definition in_month (x k : Z) : Z := x + (month_start k - month_start (month_of (x / 86400))) * 86400.

Lemma in_month_day x k : mday_of (x / 86400) <= 28 ->
  month_of (in_month x k / 86400) = k /\ mday_of (in_month x k / 86400) = mday_of (x / 86400) /\
  in_month x k mod 60 = x mod 60 /\ month_start k * 86400 <= in_month x k.
Proof.
  intros Hd. unfold in_month. set (n := month_start k - _). rewrite div_shift by lia.
  destruct (month_of_bounds (x / 86400)) as [? Hm]. pose proof (month_length k).
  assert (Hk : month_of (x / 86400 + n) = k) by (apply month_of_unique; lia). split_and!; [done| | |].
  - destruct (month_of_bounds (x / 86400 + n)) as [_ ->]. rewrite Hk. lia.
  - replace (x + n * 86400) with (x + n * 1440 * 60) by lia. by rewrite Z.mod_add by lia.
  - pose proof (floor_bounds x 86400 ltac:(lia)). lia.
Qed.

Lemma in_month_again x k k' : mday_of (x / 86400) <= 28 -> in_month (in_month x k) k' = in_month x k'.
Proof. intros Hd. destruct (in_month_day x k Hd) as (Hk & _). unfold in_month at 1. rewrite Hk. unfold in_month. lia. Qed.

Lemma in_month_same x : in_month x (month_of (x / 86400)) = x.
Proof. unfold in_month. lia. Qed.

Lemma tm_secs_month d v : tm_secs (with_field d Fmonth v) =
  tm_secs d + (month_start ((tm_year d + 1900) * 12 + v) - month_start ((tm_year d + 1900) * 12 + tm_mon d)) * 86400.
Proof. unfold tm_secs. cbn [with_field tm_sec tm_min tm_hour tm_mday tm_mon tm_year]. lia. Qed.

Lemma tm_secs_year d v : tm_secs (with_field d Fyear v) =
  tm_secs d + (month_start ((v + 1900) * 12 + tm_mon d) - month_start ((tm_year d + 1900) * 12 + tm_mon d)) * 86400.
Proof. unfold tm_secs. cbn [with_field tm_sec tm_min tm_hour tm_mday tm_mon tm_year]. lia. Qed.

Lemma settle_month x v : let k := month_of (x / 86400) in off <= in_month x (k - k mod 12 + v) ->
  settle mktime (with_field (tm_of x) Fmonth v) = Ok (tm_of (in_month x (k - k mod 12 + v))).
Proof.
  intros k Ho. assert (Hs : tm_secs (with_field (tm_of x) Fmonth v) = in_month x (k - k mod 12 + v)).
  { rewrite tm_secs_month, tm_secs_of, tm_month. unfold in_month. fold k. do 3 f_equal. f_equal.
    cbn [tm_of tm_year]. fold k. pose proof (Z.div_mod k 12 ltac:(lia)). lia. }
  rewrite settle_ok, Hs; [done|by rewrite Hs].
Qed.

Lemma settle_year x : let k := month_of (x / 86400) in off <= in_month x (k + 12) ->
  add_to_field mktime (tm_of x) Fyear 1 = Ok (tm_of (in_month x (k + 12))).
Proof.
  intros k Ho. unfold add_to_field. set (v := _ + 1).
  assert (Hs : tm_secs (with_field (tm_of x) Fyear v) = in_month x (k + 12)).
  { rewrite tm_secs_year, tm_secs_of, tm_month. unfold in_month. fold k. do 3 f_equal. f_equal.
    unfold v. cbn [field_value tm_of tm_year tm_mon]. fold k. pose proof (Z.div_mod k 12 ltac:(lia)). lia. }
  rewrite settle_ok, Hs; [done|by rewrite Hs].
Qed.

Lemma in_month_le x k k' : k <= k' -> in_month x k <= in_month x k'.
Proof. intros H. pose proof (month_start_mono k k' H). unfold in_month. lia. Qed.

Lemma month_moves x marked : let k := month_of (x / 86400) in
  off <= x -> mday_of (x / 86400) <= 28 -> some_bit 12 (months cex) = true -> Z.testbit (months cex) (k mod 12) = false ->
  exists n, 0 < n /\ Z.testbit (months cex) ((k + n) mod 12) = true /\
    (forall i, 0 <= i < n -> Z.testbit (months cex) ((k + i) mod 12) = false) /\
    find_next_value mktime 12 (months cex) (tm_of x) (k mod 12) Fmonth Fyear marked =
      rbind (reset_all_fields mktime (tm_of (in_month x (k + n))) marked) (fun date => Ok ((k + n) mod 12, date)).
Proof.
  intros k Hx Hd Hsome Hno. set (P q := tm_of (in_month x q)).
  assert (Hge : forall q, k <= q -> off <= in_month x q).
  { intros q Hq. pose proof (in_month_le x k q Hq). pose proof (in_month_same x) as E. fold k in E. lia. }
  assert (Hmove : forall p v, k <= p - p mod 12 + v -> settle mktime (with_field (P p) Fmonth v) = Ok (P (p - p mod 12 + v))).
  { intros p v Hv. unfold P. pose proof (settle_month (in_month x p) v) as E. cbv zeta in E.
    destruct (in_month_day x p Hd) as (Hp & _). rewrite Hp, in_month_again in E by done. apply E. by apply Hge. }
  destruct (find_next_value_moves P Fmonth Fyear 12 k ltac:(lia)) with (t := months cex) (marked := marked)
    as (n & ? & ? & ? & Heq); [..|done|done|].
  - unfold P. rewrite (in_month_same x : in_month x k = x). rewrite settle_year; fold k; [done|]. apply Hge. lia.
  - intros p Hp. pose proof (Hmove p 0 ltac:(lia)) as E. rewrite Z.add_0_r in E. exact E.
  - intros p w Hw Hp Hr. by apply Hmove.
  - exists n. split_and!; [done..|]. unfold P in Heq. by rewrite (in_month_same x : in_month x k = x) in Heq.
Qed.

Lemma wrong_months x z n : let k := month_of (x / 86400) in
  (forall i, 0 <= i < n -> Z.testbit (months cex) ((k + i) mod 12) = false) ->
  x <= z < month_start (k + n) * 86400 -> fires cex z = false.
Proof.
  intros k Hbefore Hz. unfold fires. apply andb_false_iff. right. unfold month_ok.
  pose proof (Z.div_le_mono x z 86400 ltac:(lia) ltac:(lia)) as HzD.
  assert (z / 86400 < month_start (k + n)) by (apply Z.div_lt_upper_bound; lia).
  pose proof (month_of_mono _ _ HzD) as Hm. fold k in Hm. destruct (month_of_bounds (z / 86400)) as [Hzb _].
  assert (month_of (z / 86400) < k + n).
  { destruct (Z.lt_ge_cases (month_of (z / 86400)) (k + n)) as [?|Hbig]; [done|].
    pose proof (month_start_mono _ _ Hbig). lia. }
  rewrite <- (Hbefore (month_of (z / 86400) - k)) by lia. do 2 f_equal. lia.
Qed.

(** The search goes to the start of the next month that matches. *)
Lemma month_step x b : let k := month_of (x / 86400) in
  off <= x -> mday_of (x / 86400) <= 28 -> some_bit 12 (months cex) = true -> settled b x ->
  Z.testbit (months cex) (k mod 12) = false ->
  exists n w y, find_next_value mktime 12 (months cex) (tm_of x) (k mod 12) Fmonth Fyear (marked4 b) = Ok (w, tm_of y) /\
    (k mod 12 =? w) = false /\ x < y /\ 0 < n <= 12 /\ month_of (y / 86400) = k + n /\
    y = month_start (k + n) * 86400 + sec_left b (x mod 60) /\
    (forall z, x <= z < y -> fires cex z = false).
Proof.
  intros k Hx Hd Hsome Hset Hno. destruct (month_moves x (marked4 b) Hx Hd Hsome Hno) as (n & Hn & Tn & Hbefore & Heq).
  fold k in Tn, Hbefore, Heq. rewrite Heq. destruct (in_month_day x (k + n) Hd) as (Hk & Hmd & Hsec & Hge).
  pose proof (month_start_mono k (k + n) ltac:(lia)). destruct (month_of_bounds (x / 86400)) as [Hb Hbd]. fold k in Hb, Hbd.
  pose proof (floor_bounds x 86400 ltac:(lia)). pose proof (month_start_mono (k + 1) (k + n) ltac:(lia)) as Hms1.
  destruct (at_time_range (in_month x (k + n))) as (? & ? & ?). rewrite (at_time_of (in_month x (k + n))).
  rewrite reset_to_month, Hk, Hsec by (done || (rewrite Hk; unfold at_time; lia)). cbn [rbind].
  set (y := at_time _ _ _ _). assert (Hy : y = month_start (k + n) * 86400 + sec_left b (x mod 60)) by (unfold y, at_time; lia).
  pose proof (sec_left_range b x).
  assert (HyD : y / 86400 = month_start (k + n)) by (symmetry; apply (Z.div_unique _ _ _ (sec_left b (x mod 60))); lia).
  exists n, ((k + n) mod 12), y. split_and!; [done|apply Z.eqb_neq; congruence|lia|lia| |by rewrite HyD, month_start_of|done|].
  - destruct (Z.le_gt_cases n 12); [done|]. destruct (some_bit_spec _ _ Hsome) as (i & Hi & Ti).
    pose proof (Z.mod_pos_bound (i - k) 12 ltac:(lia)). set (j := (i - k) mod 12) in *.
    assert ((k + j) mod 12 = i) as E; [|specialize (Hbefore j ltac:(lia)); congruence].
    unfold j. rewrite Z.add_mod_idemp_r by lia. replace (k + (i - k)) with i by lia. by apply Z.mod_small.
  - intros z Hz. destruct (Z.lt_ge_cases z (month_start (k + n) * 86400)) as [Hlt|Hge'].
    + apply (wrong_months x z n Hbefore). fold k. lia.
    + unfold fires. by rewrite (passes_left b x (month_start (k + n) * 1440) Hset z) by lia.
Qed.

End Moves.
