(* ===== verification/CronLeast.v ===== *)
(** [cron_next] finds the first time after the given one that the expression
    stands for ([third_party/croncpp.h]), in a zone of fixed offset and for
    [plain] expressions; without one in the years the search covers it
    answers an empty date.  Examples show what happens to other
    expressions. *)
From S2P Require Import Prelude Datetime CronExpr CronNext CronCalendar CronSearch.

#[local] Opaque month_start month_of mday_of wday_of.

(** The start of the fifth year after [year], both as [tm_year] counts. *)
Definition horizon (year : Z) : Z := month_start ((year + 1900 + 5) * 12) * 86400.

Definition year_of (x : Z) : Z := month_of (x / 86400) / 12 - 1900.

(** Recursive calls that are enough: one for every second up to a year past
    the horizon. *)
Definition search_fuel (x : Z) : nat := Z.to_nat (horizon (year_of (x + 1)) + 368 * 86400 - x + 1).

Section Search.
Context {mktime : tm -> Z * tm} {off : Z} (zone : FixedZone mktime off).
Context (cex : cronexpr) (Hplain : plain cex = true).

Lemma plain_nonempty :
  some_bit 60 (seconds cex) = true /\ some_bit 60 (minutes cex) = true /\ some_bit 24 (hours cex) = true /\
  some_bit 31 (days_of_month cex) = true /\ some_bit 7 (days_of_week cex) = true /\ some_bit 12 (months cex) = true.
Proof. unfold plain in Hplain. zify_bools. done. Qed.

Lemma plain_days : full 31 (days_of_month cex) = true \/ full 7 (days_of_week cex) = true.
Proof. unfold plain in Hplain. apply andb_prop in Hplain as [H _]. apply andb_prop in H as [_ H]. by apply orb_prop. Qed.

Lemma plain_months D : month_ok cex D = false -> day_ok cex D = true -> mday_of D <= 28.
Proof.
  intros Hm Hd. unfold plain in Hplain. apply andb_prop in Hplain as [_ H]. apply orb_prop in H as [H|H].
  - unfold month_ok in Hm. rewrite (full_spec 12) in Hm by (done || (apply Z.mod_pos_bound; lia)). done.
  - unfold day_ok, day_matches, CRON_MIN_DAYS_OF_MONTH in Hd. apply andb_prop in Hd as [Hd _].
    pose proof (mday_range D). cbn [forallb] in H. rewrite !andb_true_iff, !negb_true_iff in H. destruct H as (? & ? & ? & _).
    destruct (Z.le_gt_cases (mday_of D) 28); [done|].
    assert (mday_of D - 1 = 28 \/ mday_of D - 1 = 29 \/ mday_of D - 1 = 30) as [E|[E|E]] by lia; rewrite E in Hd; congruence.
Qed.

Lemma plain_second x : Z.testbit (seconds cex) (x mod 60) = true ->
  full 60 (seconds cex) = true \/ settled cex false x.
Proof.
  intros Hx. unfold plain in Hplain. apply andb_prop in Hplain as [H _]. apply andb_prop in H as [H _].
  apply andb_prop in H as [_ H]. apply orb_prop in H as [H|H]; [by left|]. right. right. intros z Hz.
  apply (single_bit_spec 60 (seconds cex)); [by apply Z.eqb_eq|apply Z.mod_pos_bound; lia..|done|done].
Qed.

(** A day that matches is at most a year away. *)
Lemma day_soon D : exists j, 0 <= j <= 365 /\ day_ok cex (D + j) = true.
Proof.
  destruct plain_nonempty as (_ & _ & _ & Hdm & Hdw & _). pose proof (mday_range). unfold day_ok, day_matches.
  destruct plain_days as [H31|H7].
  - destruct (some_bit_spec _ _ Hdw) as (w & Hw & Tw). destruct (wday_within_week D w Hw) as (j & Hj & E).
    exists j. split; [lia|]. apply andb_true_intro. split; [apply (full_spec 31 _ _ H31); unfold CRON_MIN_DAYS_OF_MONTH; specialize (H (D + j)); lia|].
    rewrite E. unfold CRON_MIN_DAYS_OF_WEEK. by rewrite Z.sub_0_r.
  - destruct (some_bit_spec _ _ Hdm) as (i & Hi & Ti). destruct (mday_within_year D i Hi) as (j & Hj & E).
    exists j. split; [lia|]. apply andb_true_intro. rewrite E. split.
    + unfold CRON_MIN_DAYS_OF_MONTH. by replace (i + 1 - 1) with i by lia.
    + apply (full_spec 7 _ _ H7). unfold CRON_MIN_DAYS_OF_WEEK. rewrite Z.sub_0_r. apply wday_range.
Qed.

Lemma timely_soon x : exists z, x <= z < x + 368 * 86400 /\ timely cex z = true.
Proof.
  destruct plain_nonempty as (Hs & Hm & Hh & _). destruct (some_bit_spec _ _ Hs) as (s & ? & Ts).
  destruct (some_bit_spec _ _ Hm) as (m & ? & Tm), (some_bit_spec _ _ Hh) as (h & ? & Th).
  destruct (day_soon (x / 86400 + 1)) as (j & Hj & Td). pose proof (floor_bounds x 86400 ltac:(lia)).
  exists (at_time (x / 86400 + 1 + j) h m s). split; [unfold at_time; lia|].
  destruct (at_time_fields (x / 86400 + 1 + j) h m s) as (E1 & E2 & E3 & E4); [done..|].
  unfold timely. rewrite E1, E2, E3, E4, Ts, Tm, Th. done.
Qed.

(** The next day that matches has another number. *)
Lemma next_mday D j : 0 < j -> day_ok cex (D + j) = true -> (forall i, 0 <= i < j -> day_ok cex (D + i) = false) ->
  mday_of (D + j) <> mday_of D.
Proof.
  intros Hj Hok Hbefore. destruct plain_days as [H31|H7].
  - apply mday_differs. destruct (Z.lt_ge_cases j 28) as [?|Hbig]; [lia|].
    destruct plain_nonempty as (_ & _ & _ & _ & Hdw & _). destruct (some_bit_spec _ _ Hdw) as (w & Hw & Tw).
    destruct (wday_within_week D w Hw) as (i & Hi & E). specialize (Hbefore i ltac:(lia)).
    unfold day_ok, day_matches in Hbefore. pose proof (mday_range (D + i)).
    rewrite (full_spec 31) in Hbefore by (done || (unfold CRON_MIN_DAYS_OF_MONTH; lia)).
    rewrite E in Hbefore. unfold CRON_MIN_DAYS_OF_WEEK in Hbefore. rewrite Z.sub_0_r in Hbefore. cbn in Hbefore. congruence.
  - intros E. specialize (Hbefore 0 ltac:(lia)). rewrite Z.add_0_r in Hbefore.
    assert (forall d, Z.testbit (days_of_week cex) (wday_of d - CRON_MIN_DAYS_OF_WEEK) = true) as Hw.
    { intros d. apply (full_spec 7 _ _ H7). unfold CRON_MIN_DAYS_OF_WEEK. rewrite Z.sub_0_r. apply wday_range. }
    unfold day_ok, day_matches in *. rewrite E, !Hw in *. congruence.
Qed.

(** ** The search *)

Context (dot : Z).

(** The time line ahead still holds a time to stop at. *)
Definition ahead (x : Z) : Prop :=
  off <= x /\ dot <= year_of x /\ exists z, x <= z < horizon dot + 368 * 86400 /\ timely cex z = true.

Definition skips (x y : Z) : Prop := forall z, x <= z < y -> fires cex z = false.

(** What the search promises from [x] on. *)
Definition answers (x : Z) (r : Res (bool * tm)) : Prop :=
  (exists y, r = Ok (true, tm_of y) /\ x <= y < horizon dot + 368 * 86400 /\ fires cex y = true /\ skips x y) \/
  (exists d, r = Ok (false, d) /\ skips x (horizon dot)).

Lemma passes_skips x y : passes cex x y -> skips x y.
Proof. intros H z Hz. unfold fires. by rewrite (H z Hz). Qed.

Lemma skips_trans x y z : skips x y -> skips y z -> skips x z.
Proof. intros H1 H2 w Hw. destruct (Z.lt_ge_cases w y); [apply H1|apply H2]; lia. Qed.

Lemma answers_from x y r : x <= y -> skips x y -> answers y r -> answers x r.
Proof.
  intros Hxy Hs [(z & -> & Hz & Hf & Hn)|(d & -> & Hn)]; [left; exists z|right; exists d].
  - split_and!; [done|lia|lia|done|]. by apply (skips_trans _ y).
  - split; [done|]. by apply (skips_trans _ y).
Qed.

Lemma year_mono x y : x <= y -> year_of x <= year_of y.
Proof.
  intros H. unfold year_of. pose proof (month_of_mono (x / 86400) (y / 86400) ltac:(apply Z.div_le_mono; lia)) as Hm.
  pose proof (Z.div_le_mono _ _ 12 ltac:(lia) Hm). lia.
Qed.

Lemma ahead_passes x y : ahead x -> x <= y -> passes cex x y -> ahead y.
Proof.
  intros (Ho & Hd & z & Hz & Ht) Hxy Hp. split_and!; [lia|pose proof (year_mono x y Hxy); lia|].
  exists z. split; [|done]. destruct (Z.lt_ge_cases z y) as [Hlt|]; [|lia]. rewrite Hp in Ht by lia. done.
Qed.

(** Before the horizon, the year is within the search. *)
Lemma year_horizon x n : n <= year_of x -> month_start ((n + 1900) * 12) * 86400 <= x.
Proof.
  intros Hn. unfold year_of in Hn. destruct (month_of_bounds (x / 86400)) as [Hb _].
  pose proof (Z.div_mod (month_of (x / 86400)) 12 ltac:(lia)). pose proof (Z.mod_pos_bound (month_of (x / 86400)) 12 ltac:(lia)).
  pose proof (month_start_mono ((n + 1900) * 12) (month_of (x / 86400)) ltac:(lia)).
  pose proof (floor_bounds x 86400 ltac:(lia)). lia.
Qed.

Lemma before_horizon x : year_of x < dot + 5 -> x < horizon dot.
Proof.
  intros Hn. unfold year_of, horizon in *. destruct (month_of_bounds (x / 86400)) as [Hb _].
  pose proof (Z.div_mod (month_of (x / 86400)) 12 ltac:(lia)). pose proof (Z.mod_pos_bound (month_of (x / 86400)) 12 ltac:(lia)).
  pose proof (month_start_mono (month_of (x / 86400) + 1) ((dot + 1900 + 5) * 12) ltac:(lia)).
  pose proof (floor_bounds x 86400 ltac:(lia)). lia.
Qed.

Lemma ahead_year x : ahead x -> year_of x <= dot + 6.
Proof.
  intros (_ & _ & z & Hz & _). destruct (Z.le_gt_cases (year_of x) (dot + 6)) as [|Hgt]; [done|].
  pose proof (year_horizon x (dot + 7) ltac:(lia)) as H. unfold horizon in Hz.
  pose proof (year_length (dot + 1905)). pose proof (year_length (dot + 1906)).
  replace ((dot + 1900 + 5) * 12) with ((dot + 1905) * 12) in * by lia.
  replace ((dot + 7 + 1900) * 12) with ((dot + 1906 + 1) * 12) in * by lia.
  replace ((dot + 1905 + 1) * 12) with ((dot + 1906) * 12) in * by lia. lia.
Qed.

Lemma ahead_start x : off <= x -> dot <= year_of x < dot + 5 -> ahead x.
Proof.
  intros Ho Hd. split_and!; [done|lia|]. pose proof (before_horizon x ltac:(lia)).
  destruct (timely_soon x) as (z & Hz & Ht). exists z. split; [lia|done].
Qed.

(** At a time that fires, every field stays. *)
Lemma month_on_stays rec marked y : fires cex y = true -> month_on mktime cex dot rec marked (tm_of y) = Ok (true, tm_of y).
Proof.
  intros Hf. unfold fires in Hf. zify_bools. unfold month_on. cbn [tm_mon tm_of].
  rewrite find_next_value_match by (done || lia || (apply Z.mod_pos_bound; lia)). cbn [rbind]. by rewrite Z.eqb_refl.
Qed.

Lemma day_stays left marked y : day_ok cex (y / 86400) = true ->
  find_next_day mktime left cex (tm_of y) (tm_mday (tm_of y)) (tm_wday (tm_of y)) marked = Ok (tm_mday (tm_of y), tm_of y).
Proof. intros Hd. cbn [tm_mday tm_wday tm_of]. destruct left; cbn [find_next_day]; fold (day_ok cex (y / 86400)); by rewrite Hd. Qed.

Lemma day_on_stays rec marked y : fires cex y = true -> day_on mktime cex dot rec marked (tm_of y) = Ok (true, tm_of y).
Proof.
  intros Hf. unfold day_on. rewrite day_stays by (unfold fires, timely in Hf; zify_bools; done). cbn [rbind].
  rewrite Z.eqb_refl. by apply month_on_stays.
Qed.

Lemma hour_on_stays rec marked y : fires cex y = true -> hour_on mktime cex dot rec marked (tm_of y) = Ok (true, tm_of y).
Proof.
  intros Hf. unfold hour_on. cbn [tm_hour tm_of].
  rewrite find_next_value_match by (lia || (apply Z.mod_pos_bound; lia) || (unfold fires, timely in Hf; zify_bools; done)).
  cbn [rbind]. rewrite Z.eqb_refl. by apply day_on_stays.
Qed.

Lemma search_again_answers rec y k :
  (forall z, fires cex z = true -> k (tm_of z) = Ok (true, tm_of z)) ->
  answers y (rec (tm_of y)) -> answers y (search_again rec (tm_of y) k).
Proof.
  intros Hk [(z & E & Hz & Hf & Hn)|(d & E & Hn)]; unfold search_again; rewrite E; cbn [rbind negb].
  - left. exists z. rewrite Hk by done. done.
  - right. by exists d.
Qed.

(** *** One call of [find_next], entered at [x0] *)
Section Call.
Context (rec : tm -> Res (bool * tm)) (x0 : Z).
Context (Hrec : forall y, x0 < y -> ahead y -> answers y (rec (tm_of y))).

(** A field moved the search on to [y]: it starts again from there. *)
Lemma moved x y k :
  x0 <= x -> ahead x -> x < y -> passes cex x y ->
  (forall z, fires cex z = true -> k (tm_of z) = Ok (true, tm_of z)) -> answers x (search_again rec (tm_of y) k).
Proof.
  intros H0 Hx Hxy Hp Hk. apply (answers_from x y); [lia|by apply passes_skips|].
  apply search_again_answers; [done|]. apply Hrec; [lia|]. apply (ahead_passes x); [done|lia|done].
Qed.

Lemma month_on_answers b x :
  x0 <= x -> ahead x -> timely cex x = true -> settled cex b x ->
  answers x (month_on mktime cex dot rec (marked4 b) (tm_of x)).
Proof.
  intros H0 Hx Ht Hset. destruct (month_ok cex (x / 86400)) eqn:Hm.
  { left. exists x. assert (fires cex x = true) by (unfold fires; by rewrite Ht). rewrite month_on_stays by done.
    destruct Hx as (_ & _ & z & Hz & _). split_and!; [done|lia|lia|done|]. intros w Hw. lia. }
  pose proof Hx as (Ho & Hd & _). destruct plain_nonempty as (_ & _ & _ & _ & _ & Hmo).
  assert (Hd28 : mday_of (x / 86400) <= 28). { apply plain_months; [done|]. unfold timely in Ht. by zify_bools. }
  destruct (month_step zone cex x b Ho Hd28 Hmo Hset Hm) as (n & w & y & Heq & Hw & Hxy & Hn & Hk & Hy & Hskip).
  unfold month_on. cbn [tm_mon tm_of]. rewrite Heq. cbn [rbind]. rewrite Hw.
  assert (Hyear : tm_year (tm_of y) = year_of y) by done. rewrite Hyear.
  pose proof (ahead_year x Hx). pose proof (year_mono x y ltac:(lia)).
  assert (year_of y <= year_of x + 1).
  { unfold year_of. rewrite Hk. pose proof (Z.div_le_mono (month_of (x / 86400) + n) (month_of (x / 86400) + 1 * 12) 12 ltac:(lia) ltac:(lia)) as Hdm.
    rewrite Z.div_add in Hdm by lia. lia. }
  rewrite u64_small by (unfold is_u64; lia). unfold CRON_MAX_YEARS_DIFF. destruct (Z.ltb_spec 4 (year_of y - dot)).
  - right. eexists. split; [done|]. intros z Hz. apply Hskip. split; [lia|].
    pose proof (year_horizon y (dot + 5) ltac:(lia)) as Hh. unfold horizon in Hz.
    replace (dot + 1900 + 5) with (dot + 5 + 1900) in Hz by lia. lia.
  - apply (answers_from x y); [lia|done|]. apply search_again_answers; [done|]. apply Hrec; [lia|].
    apply ahead_start; lia.
Qed.

Lemma day_on_answers b x :
  x0 <= x -> ahead x -> Z.testbit (seconds cex) (x mod 60) = true -> Z.testbit (minutes cex) (x / 60 mod 60) = true ->
  Z.testbit (hours cex) (x / 3600 mod 24) = true -> settled cex b x ->
  answers x (day_on mktime cex dot rec (marked3 b) (tm_of x)).
Proof.
  intros H0 Hx Hs Hmi Hh Hset. pose proof Hx as (Ho & _). unfold day_on.
  destruct (find_next_day_step zone cex 366 x b Ho) as (j & Hj & Hok & Hbefore & Heq).
  { destruct (day_soon (x / 86400)) as (j & Hj & Hok). exists j. split; [lia|done]. }
  cbn [tm_mday tm_wday tm_of]. rewrite Heq. cbn [rbind]. destruct (Z.eqb_spec j 0) as [->|Hne].
  - rewrite Z.add_0_r in *. rewrite Z.eqb_refl. apply month_on_answers; [done..| |done].
    unfold timely. by rewrite Hs, Hmi, Hh, Hok.
  - pose proof (next_mday (x / 86400) j ltac:(lia) Hok Hbefore). rewrite (proj2 (Z.eqb_neq _ _)) by done.
    pose proof (floor_bounds x 86400 ltac:(lia)). pose proof (sec_left_range b x).
    apply (moved x); [done|done|nia| |intros; by apply month_on_stays].
    apply (passes_trans cex _ ((x / 86400 + j) * 86400)).
    + intros z Hz. destruct (div_between x z 86400 j ltac:(lia) Hz) as (i & Hi & E).
      unfold timely. rewrite E, Hbefore by done. apply andb_false_r.
    + replace ((x / 86400 + j) * 86400) with ((x / 86400 + j) * 1440 * 60) by lia. by apply passes_left.
Qed.

Lemma hour_on_answers b x :
  x0 <= x -> ahead x -> Z.testbit (seconds cex) (x mod 60) = true -> Z.testbit (minutes cex) (x / 60 mod 60) = true ->
  settled cex b x -> answers x (hour_on mktime cex dot rec (marked2 b) (tm_of x)).
Proof.
  intros H0 Hx Hs Hmi Hset. pose proof Hx as (Ho & _). unfold hour_on. cbn [tm_hour tm_of].
  destruct (Z.testbit (hours cex) (x / 3600 mod 24)) eqn:Hh.
  - rewrite find_next_value_match by (done || lia || (apply Z.mod_pos_bound; lia)). cbn [rbind].
    rewrite Z.eqb_refl. by apply day_on_answers.
  - destruct plain_nonempty as (_ & _ & Hne & _).
    destruct (clock_step zone cex Fhour_of_day Fday_of_week 24 (hours cex) x b (marked2 b) 60) as (w & y & Heq & Hw & Hxy & Hp);
      cbn [unit_of]; try done; [by right; right|intros y Hy; by apply (restart_hour zone)|intros z Hz; unfold timely in Hz; zify_bools; done|].
    cbn [unit_of] in *. rewrite Heq. cbn [rbind]. rewrite Hw. apply (moved x); [done..|intros; by apply day_on_stays].
Qed.

Lemma minute_on_answers b x :
  x0 <= x -> ahead x -> Z.testbit (seconds cex) (x mod 60) = true -> settled cex b x ->
  answers x (minute_on mktime cex dot rec (marked1 b) (tm_of x)).
Proof.
  intros H0 Hx Hs Hset. pose proof Hx as (Ho & _). unfold minute_on. cbn [tm_min tm_of].
  destruct (Z.testbit (minutes cex) (x / 60 mod 60)) eqn:Hm.
  - rewrite find_next_value_match by (done || lia || (apply Z.mod_pos_bound; lia)). cbn [rbind].
    rewrite Z.eqb_refl. by apply hour_on_answers.
  - destruct plain_nonempty as (_ & Hne & _).
    destruct (clock_step zone cex Fminute Fhour_of_day 60 (minutes cex) x b (marked1 b) 1) as (w & y & Heq & Hw & Hxy & Hp);
      cbn [unit_of]; try done; [by right; left|intros y Hy; by apply (restart_minute zone)|intros z Hz; unfold timely in Hz; zify_bools; done|].
    cbn [unit_of] in *. rewrite Heq. cbn [rbind]. rewrite Hw. apply (moved x); [done..|intros; by apply hour_on_stays].
Qed.

Lemma second_on_answers : ahead x0 -> answers x0 (second_on mktime cex dot rec (tm_of x0)).
Proof.
  intros Hx. pose proof Hx as (Ho & _). unfold second_on. cbn [tm_sec tm_of].
  destruct (Z.testbit (seconds cex) (x0 mod 60)) eqn:Hs.
  - rewrite find_next_value_match by (done || lia || (apply Z.mod_pos_bound; lia)). cbn [rbind].
    rewrite Z.eqb_refl. apply (minute_on_answers true); [lia|done|done|by left].
  - destruct plain_nonempty as (Hne & _).
    assert (Hc : clock_field Fsecond Fminute 60) by (by left).
    pose proof (clock_moves zone Fsecond Fminute 60 (seconds cex) x0 0 Hc Ho Hne) as Hmv.
    cbn [unit_of] in Hmv. rewrite Z.div_1_r in Hmv. destruct (Hmv Hs) as (n & Hn & Tn & Hbefore & ->).
    rewrite Z.mul_1_r. change (reset_all_fields mktime (tm_of (x0 + n)) 0) with (Ok (tm_of (x0 + n))). cbn [rbind].
    rewrite (proj2 (Z.eqb_neq _ _)) by congruence.
    assert (Hp : passes cex x0 (x0 + n)).
    { intros z Hz. unfold timely. specialize (Hbefore (z - x0) ltac:(lia)). replace (x0 + (z - x0)) with z in Hbefore by lia.
      by rewrite Hbefore. }
    apply (answers_from x0 (x0 + n)); [lia|by apply passes_skips|].
    apply (minute_on_answers false); [lia|by apply (ahead_passes x0); [|lia|]|done|].
    destruct (plain_second (x0 + n) Tn) as [Hfull|?]; [|done].
    rewrite (full_spec 60) in Hs by (done || (apply Z.mod_pos_bound; lia)). done.
Qed.

End Call.

Lemma find_next_answers fuel x : ahead x -> horizon dot + 368 * 86400 - x < Z.of_nat fuel ->
  answers x (find_next mktime fuel cex (tm_of x) dot).
Proof.
  revert x. induction fuel as [|fuel IH]; intros x Hx Hf; [destruct Hx as (_ & _ & z & Hz & _); lia|].
  cbn [find_next]. apply second_on_answers; [|done]. intros y Hy Hay. apply IH; [done|lia].
Qed.

End Search.

Lemma horizon_mono y y' : y <= y' -> horizon y <= horizon y'.
Proof. intros H. unfold horizon. pose proof (month_start_mono ((y + 1900 + 5) * 12) ((y' + 1900 + 5) * 12) ltac:(lia)). lia. Qed.

Lemma horizon_far x : x + 369 * 86400 < horizon (year_of x).
Proof.
  assert (Hx : x < horizon (year_of x - 4)) by (apply before_horizon; lia). unfold horizon in *.
  set (Y := year_of x) in *. pose proof (year_length (Y + 1901)). pose proof (year_length (Y + 1902)).
  replace ((Y + 1901 + 1) * 12) with ((Y + 1902) * 12) in * by lia.
  pose proof (month_start_mono ((Y + 1902 + 1) * 12) ((Y + 1900 + 5) * 12) ltac:(lia)).
  replace ((Y - 4 + 1900 + 5) * 12) with ((Y + 1901) * 12) in Hx by lia. lia.
Qed.

Lemma horizon_near x : horizon (year_of x) <= x + 5 * 366 * 86400.
Proof.
  pose proof (year_horizon x (year_of x) ltac:(lia)) as Hx. unfold horizon. set (Y := year_of x) in *.
  pose proof (year_length (Y + 1900)). pose proof (year_length (Y + 1900 + 1)). pose proof (year_length (Y + 1900 + 1 + 1)).
  pose proof (year_length (Y + 1900 + 1 + 1 + 1)). pose proof (year_length (Y + 1900 + 1 + 1 + 1 + 1)).
  replace (Y + 1900 + 5) with (Y + 1900 + 1 + 1 + 1 + 1 + 1) by lia. lia.
Qed.

Definition next_time (cex : cronexpr) (x y : Z) : Prop :=
  x < y /\ fires cex y = true /\ forall z, x < z < y -> fires cex z = false.

Lemma fires_soon cex x : plain cex = true -> full 12 (months cex) = true -> exists z, x < z < horizon (year_of x) /\ fires cex z = true.
Proof.
  intros Hplain Hm. destruct (timely_soon cex Hplain (x + 1)) as (z & Hz & Ht). exists z. pose proof (horizon_far x). split; [lia|].
  unfold fires, month_ok. rewrite Ht. apply (full_spec 12 _ _ Hm). apply Z.mod_pos_bound. lia.
Qed.

Section Result.
Context {mktime : tm -> Z * tm} {off : Z} (zone : FixedZone mktime off).
Context (cex : cronexpr) (Hplain : plain cex = true) (x : Z) (Hx : off <= x).
Context (fuel : nat) (Hfuel : (search_fuel x <= fuel)%nat).

Lemma mktime_of y : off <= y -> mktime (tm_of y) = (y - off, tm_of y).
Proof. intros Hy. rewrite (zone (tm_of y)); rewrite tm_secs_of; done. Qed.

Lemma find_next_first y : x <= y <= x + 1 -> answers cex (year_of y) y (find_next mktime fuel cex (tm_of y) (year_of y)).
Proof.
  intros Hy. apply (find_next_answers zone cex Hplain); [apply (ahead_start cex Hplain); lia|].
  pose proof (horizon_mono _ _ (year_mono y (x + 1) ltac:(lia))). unfold search_fuel in Hfuel. lia.
Qed.

Lemma cron_next_first :
  (exists y, cron_next mktime fuel cex (tm_of x) = Ok (tm_of y) /\ next_time cex x y /\ y < x + 7 * 366 * 86400) \/
  (cron_next mktime fuel cex (tm_of x) = Ok zero_tm /\ forall z, x < z < horizon (year_of x) -> fires cex z = false).
Proof.
  pose proof (horizon_near (x + 1)). pose proof (horizon_mono _ _ (year_mono x (x + 1) ltac:(lia))).
  unfold cron_next. rewrite mktime_of by done. rewrite (proj2 (Z.eqb_neq _ (-1))) by lia.
  change (tm_year (tm_of x)) with (year_of x).
  destruct (find_next_first x ltac:(lia)) as [(y & -> & Hy & Hf & Hn)|(d & -> & Hn)]; cbn [rbind negb].
  2: { right. split; [done|]. intros z Hz. apply Hn. lia. }
  rewrite mktime_of by lia. rewrite (proj2 (Z.eqb_neq _ (-1))) by lia. destruct (Z.eqb_spec (y - off) (x - off)).
  - assert (y = x) as -> by lia. rewrite (add_clock zone) by (done || (cbn; lia)). cbn [rbind unit_of].
    rewrite Z.mul_1_r. change (tm_year (tm_of (x + 1))) with (year_of (x + 1)).
    destruct (find_next_first (x + 1) ltac:(lia)) as [(y & -> & Hy' & Hf' & Hn')|(d & -> & Hn')]; cbn [rbind negb].
    + left. exists y. unfold next_time. split_and!; [done|lia|done| |lia]. intros z Hz. apply Hn'. lia.
    + right. split; [done|]. intros z Hz. apply Hn'. lia.
  - left. exists y. unfold next_time. split_and!; [done|lia|done| |lia]. intros z Hz. apply Hn. lia.
Qed.

End Result.

(** [cron_next] on a [plain] expression, in a zone of fixed offset: it returns
    (no exception, no endless recursion) the first time after [x] at which
    the expression fires; only when some months are excluded can it answer an
    empty date, and then nothing fires up to the fifth year from [x] on. *)
Theorem cron_next_is_the_next_time mktime off cex x fuel :
  FixedZone mktime off -> plain cex = true -> off <= x -> (search_fuel x <= fuel)%nat ->
  (exists y, cron_next mktime fuel cex (tm_of x) = Ok (tm_of y) /\ next_time cex x y) \/
  (cron_next mktime fuel cex (tm_of x) = Ok zero_tm /\ full 12 (months cex) = false /\
   forall z, x < z < horizon (year_of x) -> fires cex z = false).
Proof.
  intros zone Hplain Hx Hfuel. destruct (cron_next_first zone cex Hplain x Hx fuel Hfuel) as [(y & Hy & Hn & _)|[H Hnone]].
  - left. by exists y.
  - right. split_and!; [done| |done]. destruct (full 12 (months cex)) eqn:E; [|done].
    destruct (fires_soon cex x Hplain E) as (z & Hz & Hf). rewrite Hnone in Hf by done. done.
Qed.

(** Every day at 09:30:00, from 10:00 on a 29th of February, eight hours east of
    Greenwich. *)
Definition daily : cronexpr := mkCronexpr 1 (2 ^ 30) (2 ^ 9) (2 ^ 7 - 1) (2 ^ 31 - 1) (2 ^ 12 - 1) "0 30 9 * * *".
Definition leap_day : Z := 19782 * 86400 + 36000.

Lemma cron_next_is_the_next_time_witness :
  exists y, cron_next (fixed_mktime 28800) (search_fuel leap_day) daily (tm_of leap_day) = Ok (tm_of y) /\ next_time daily leap_day y.
Proof.
  destruct (cron_next_is_the_next_time (fixed_mktime 28800) 28800 daily leap_day (search_fuel leap_day)
    (fixed_mktime_zone 28800)) as [H|(_ & H & _)]; [by vm_compute|by vm_compute|apply Nat.le_refl|exact H|by vm_compute in H].
Defined.

(** ** Examples *)
Module Examples.

Definition next_from (expr : string) (x : Z) : option Z :=
  match make_cron expr with
  | inr cex => match cron_next (fixed_mktime 0) 200 cex (tm_of x) with Ok d => Some (tm_secs d) | _ => None end
  | inl _ => None
  end.
Definition fires_at (expr : string) (x : Z) : bool :=
  match make_cron expr with inr cex => fires cex x | inl _ => false end.
Definition date (y m d h mi s : Z) : Z := at_time (days_from_civil y m d) h mi s.

Example next_morning : next_from "0 30 9 * * *" (date 2024 2 29 10 0 0) = Some (date 2024 3 1 9 30 0).
Proof. by vm_compute. Qed.

Example next_leap_day : next_from "0 0 3 28 2 *" (date 2024 3 1 0 0 0) = Some (date 2025 2 28 3 0 0).
Proof. by vm_compute. Qed.

(** Several seconds: a second moved to its next value is not taken back when
    the minute changes, and the first time of the minute is missed. *)
Example second_missed :
  next_from "10,30 10 * * * *" (date 2024 5 5 10 5 20) = Some (date 2024 5 5 10 10 30) /\
  fires_at "10,30 10 * * * *" (date 2024 5 5 10 10 10) = true.
Proof. by vm_compute. Qed.

(** The month is set before the day goes back to 1: from the 31st of January
    the whole of February is missed. *)
Example february_missed :
  next_from "0 0 9 * 2 *" (date 2024 1 31 8 0 0) = Some (date 2025 2 1 9 0 0) /\
  fires_at "0 0 9 * 2 *" (date 2024 2 1 9 0 0) = true.
Proof. by vm_compute. Qed.

(** Day of the month and day of the week both restricted: a later day with
    the same number passes for an unchanged one, and the hour is not searched
    again. *)
Example hour_not_searched :
  next_from "0 0 9 1 * 1-5" (date 2024 9 1 0 0 0) = Some (date 2024 10 1 0 0 0) /\
  fires_at "0 0 9 1 * 1-5" (date 2024 10 1 0 0 0) = false.
Proof. by vm_compute. Qed.

(** The search for the day gives up after 366 days on a day that does not
    match. *)
Example day_given_up :
  next_from "0 0 0 31 * 6" (date 2023 3 5 0 0 0) = Some (date 2024 3 5 0 0 0) /\
  fires_at "0 0 0 31 * 6" (date 2024 3 5 0 0 0) = false /\ fires_at "0 0 0 31 * 6" (date 2024 8 31 0 0 0) = true.
Proof. by vm_compute. Qed.

End Examples.
