(* ===== verification/CronText.v ===== *)
(** What the text of a cron expression stands for: fields written as lists of
    [*], numbers, ranges and steps are read by [make_cron] as exactly the sets
    they denote ([third_party/croncpp.h]). *)
From S2P Require Import Prelude Datetime StorageError Text Config CronExpr.

(** ** Expressions and their text *)

Inductive span := Any | One (n : Z) | Between (a b : Z).
Record item := mkItem { it_span : span; it_step : option Z }.

Definition render_span (s : span) : string :=
  match s with Any => "*" | One n => dec n | Between a b => dec a +:+ String "-" (dec b) end%string.

Definition render_item (it : item) : string :=
  match it_step it with
  | None => render_span (it_span it)
  | Some k => render_span (it_span it) +:+ String "/" (dec k)
  end.

Fixpoint joined (sep : ascii) (l : list string) : string :=
  match l with
  | [] => EmptyString
  | [s] => s
  | s :: l => s +:+ String sep (joined sep l)
  end.

Definition render_field (f : list item) : string := joined "," (map render_item f).

(** The values of a field that runs from [lo] to [hi].  A step after a number
    goes on to the end of the range. *)
Definition span_bounds (lo hi : Z) (stepped : bool) (s : span) : Z * Z :=
  match s with
  | Any => (lo, hi)
  | One n => (n, if stepped then hi else n)
  | Between a b => (a, b)
  end.

Definition denotes (lo hi : Z) (it : item) (v : Z) : bool :=
  let '(a, b) := span_bounds lo hi (bool_decide (is_Some (it_step it))) (it_span it) in
  (a <=? v) && (v <=? b) && ((v - a) mod default 1 (it_step it) =? 0).

Definition span_ok (lo hi : Z) (s : span) : bool :=
  match s with
  | Any => true
  | One n => (lo <=? n) && (n <=? hi)
  | Between a b => (lo <=? a) && (a <=? b) && (b <=? hi)
  end.

(** The step leaves the 8-bit counter room to pass the end of the range. *)
Definition item_ok (lo hi : Z) (it : item) : bool :=
  span_ok lo hi (it_span it) &&
  match it_step it with Some k => (0 <? k) && (hi - lo + k <? 256) | None => true end.

(** ** Reading *)

Lemma dec_go_digits fuel n acc : 0 <= n -> all_chars (in_range 48 57) acc = true -> all_chars (in_range 48 57) (dec_go fuel n acc) = true.
Proof.
  revert n acc. induction fuel as [|fuel IH]; intros n acc Hn Ha; [done|]. cbn [dec_go].
  assert (Hd : 0 <= n mod 10 < 10) by (apply Z.mod_pos_bound; lia).
  assert (Hc : all_chars (in_range 48 57) (String (digit (n mod 10)) acc) = true).
  { cbn. rewrite Ha, andb_true_r. unfold in_range, digit. rewrite Z_of_byte_of_Z, Z.mod_small by lia.
    by rewrite (proj2 (Z.leb_le _ _)), (proj2 (Z.leb_le _ _)) by lia. }
  destruct (n / 10 =? 0); [done|]. apply IH; [apply Z.div_pos; lia|done].
Qed.

Lemma dec_digits n : 0 <= n -> all_chars (in_range 48 57) (dec n) = true.
Proof. intros. by apply dec_go_digits. Qed.

Lemma all_chars_mono (P Q : ascii -> bool) s : (forall c, P c = true -> Q c = true) -> all_chars P s = true -> all_chars Q s = true.
Proof. intros H. induction s as [|c s IH]; [done|]. cbn. intros [H1 H2]%andb_prop. by rewrite H, IH. Qed.

Lemma all_chars_app P a b : all_chars P (a +:+ b) = all_chars P a && all_chars P b.
Proof. induction a as [|c a IH]; [done|]. cbn. by rewrite IH, andb_assoc. Qed.

(** The characters of a rendered field. *)
Definition field_char (c : ascii) : bool := in_range 48 57 c || Ascii.eqb c "*" || Ascii.eqb c "-" || Ascii.eqb c "/" || Ascii.eqb c ",".

Lemma not_digit_lacks c s : in_range 48 57 c = false -> all_chars (in_range 48 57) s = true -> lacks c s.
Proof.
  intros Hc. unfold lacks. apply all_chars_mono. intros d Hd. destruct (Ascii.eqb_spec d c) as [->|]; [congruence|done].
Qed.

Lemma field_lacks c s : field_char c = false -> all_chars field_char s = true -> lacks c s.
Proof.
  intros Hc. unfold lacks. apply all_chars_mono. intros d Hd. destruct (Ascii.eqb_spec d c) as [->|]; [congruence|done].
Qed.

Lemma dec_lacks c n : in_range 48 57 c = false -> 0 <= n -> lacks c (dec n).
Proof. intros Hc Hn. by apply not_digit_lacks; [|apply dec_digits]. Qed.

Lemma c_str_lacks s : lacks (byte_of_Z 0) s -> c_str s = s.
Proof.
  unfold lacks. induction s as [|c s IH]; [done|]. cbn. intros [H1 H2]%andb_prop. apply negb_true_iff in H1.
  by rewrite H1, IH.
Qed.

Lemma pieces_app c a b : lacks c a -> pieces c (a +:+ String c b) = a :: pieces c b.
Proof.
  unfold lacks. induction a as [|d a IH]; cbn; [by rewrite Ascii.eqb_refl|]. intros [H1 H2]%andb_prop.
  apply negb_true_iff in H1. by rewrite H1, IH.
Qed.

Lemma pieces_single c a : lacks c a -> a <> EmptyString -> pieces c a = [a].
Proof.
  unfold lacks. induction a as [|d a IH]; [done|]. cbn. intros [H1 H2]%andb_prop _. apply negb_true_iff in H1. rewrite H1.
  destruct a as [|e a]; [done|]. by rewrite IH.
Qed.

Lemma pieces_joined c l : Forall (fun s => lacks c s /\ s <> EmptyString) l -> pieces c (joined c l) = l.
Proof.
  induction 1 as [|s l [Hs Hne] Hl IH]; [done|]. destruct l as [|t l]; [by apply pieces_single|].
  change (joined c (s :: t :: l)) with (s +:+ String c (joined c (t :: l))). by rewrite pieces_app, IH.
Qed.

Lemma has_char_lacks c s : has_char c s = false <-> lacks c s.
Proof.
  unfold lacks. induction s as [|d s IH]; [done|]. cbn. rewrite orb_false_iff, andb_true_iff, negb_true_iff. naive_solver.
Qed.

Lemma has_char_app c a b : has_char c (a +:+ String c b) = true.
Proof. induction a as [|d a IH]; cbn; [by rewrite Ascii.eqb_refl|]. by rewrite IH, orb_true_r. Qed.

Lemma stoul_dec n : 0 <= n <= ULONG_MAX -> stoul (dec n) = Some n.
Proof.
  intros Hn. unfold stoul. rewrite c_str_lacks by (apply dec_lacks; [done|lia]).
  destruct (dec_head n EmptyString ltac:(lia)) as (d & s & Hd & E). rewrite append_nil_r in E.
  pose proof (read_dec_dec n EmptyString ltac:(lia) ltac:(done)) as R. rewrite append_nil_r in R. rewrite E in *.
  cbn [skip_space]. rewrite digit_nospace by done. destruct (digit_not_sign d Hd) as [H1 H2].
  rewrite (proj2 (Ascii.eqb_neq _ _) H1), (proj2 (Ascii.eqb_neq _ _) H2).
  cbn [starts_digit]. rewrite digit_val_digit by done. rewrite R. cbn [fst].
  by rewrite (proj2 (Z.ltb_ge _ _)) by lia.
Qed.

Lemma to_cron_int_dec n : 0 <= n < 256 -> to_cron_int (dec n) = inr n.
Proof.
  intros Hn. unfold to_cron_int. rewrite stoul_dec by (unfold ULONG_MAX; lia). unfold u8. by rewrite Z.mod_small by lia.
Qed.

Lemma app_nonempty s t : s <> EmptyString -> s +:+ t <> EmptyString.
Proof. by destruct s. Qed.

Lemma dec_nonempty n : 0 <= n -> dec n <> EmptyString.
Proof. intros Hn. destruct (dec_head n EmptyString Hn) as (d & s & _ & E). rewrite append_nil_r in E. by rewrite E. Qed.

Lemma is_char_head c d s : Ascii.eqb d c = false -> is_char c (String d s) = false.
Proof. intros H. unfold is_char. cbn. by rewrite H. Qed.

Lemma dec_not_star n rest : 0 <= n -> is_char "*" (dec n +:+ rest) = false.
Proof.
  intros Hn. destruct (dec_head n rest Hn) as (d & s & Hd & ->). apply is_char_head. apply Ascii.eqb_neq.
  intros E. apply (f_equal Z_of_byte) in E. unfold digit in E. rewrite Z_of_byte_of_Z, Z.mod_small in E by lia.
  change (Z_of_byte "*") with 42 in E. lia.
Qed.

(** The bits set by one loop. *)
Lemma set_bits_spec fuel i limit delta t j :
  0 <= i -> 0 < delta -> limit + delta < 256 -> limit - i < Z.of_nat fuel -> 0 <= j ->
  Z.testbit (set_bits fuel i limit delta t) j = Z.testbit t j || (i <=? j) && (j <=? limit) && ((j - i) mod delta =? 0).
Proof.
  revert i t. induction fuel as [|fuel IH]; intros i t Hi Hd Hl Hf Hj; cbn [set_bits].
  - destruct (Z.leb_spec i j), (Z.leb_spec j limit); try lia; by rewrite orb_false_r.
  - destruct (Z.leb_spec i limit).
    + unfold u8. rewrite Z.mod_small by lia. rewrite IH by lia. rewrite Z.setbit_eqb by lia.
      assert (Hm : (j - (i + delta)) mod delta = (j - i) mod delta).
      { replace (j - (i + delta)) with (j - i + (-1) * delta) by lia. by rewrite Z.mod_add by lia. }
      rewrite Hm. destruct (Z.eqb_spec i j) as [<-|Hne].
      * rewrite Z.sub_diag, Z.mod_0_l, Z.leb_refl, (proj2 (Z.leb_le i limit)) by lia. by rewrite !orb_true_r.
      * rewrite orb_false_l. f_equal. destruct (Z.leb_spec (i + delta) j), (Z.leb_spec i j); try done; [lia|].
        rewrite Z.mod_small by lia. rewrite (proj2 (Z.eqb_neq (j - i) 0)) by lia. by rewrite !andb_false_r.
    + destruct (Z.leb_spec i j), (Z.leb_spec j limit); try lia; by rewrite orb_false_r.
Qed.

Definition span_char (c : ascii) : bool := field_char c && negb (Ascii.eqb c "/") && negb (Ascii.eqb c ",").

Lemma dec_span_chars n : 0 <= n -> all_chars span_char (dec n) = true.
Proof.
  intros Hn. eapply all_chars_mono; [|by apply dec_digits]. intros c Hc. unfold span_char, field_char. rewrite Hc.
  destruct (Ascii.eqb_spec c "/") as [->|]; [done|]. by destruct (Ascii.eqb_spec c ",") as [->|].
Qed.

Section Field.
Context (lo hi : Z) (Hlo : 0 <= lo) (Hhi : lo <= hi < 255).

Lemma span_in_bounds st s a b : span_ok lo hi s = true -> span_bounds lo hi st s = (a, b) -> lo <= a /\ a <= b /\ b <= hi.
Proof. destruct s; cbn; intros H [= <- <-]; zify_bools; destruct st; lia. Qed.

Lemma make_range_span s : span_ok lo hi s = true -> make_range (render_span s) lo hi = inr (span_bounds lo hi false s).
Proof.
  intros Hok. pose proof (span_in_bounds false s) as Hb. specialize (Hb _ _ Hok (surjective_pairing _)).
  unfold make_range. assert ((if is_char "*" (render_span s) then inr (lo, hi)
     else if negb (has_char "-" (render_span s)) then ebind (to_cron_int (render_span s)) (fun first => inr (first, first))
     else match CronExpr.split (render_span s) "-" with
          | [a; b] => ebind (to_cron_int a) (fun first => ebind (to_cron_int b) (fun last => inr (first, last)))
          | _ => inl "Specified range requires two fields"%string
          end) = inr (span_bounds lo hi false s)) as ->.
  { destruct s as [|n|a b]; cbn [span_ok render_span span_bounds] in *; zify_bools; [done| |].
    - pose proof (dec_not_star n EmptyString ltac:(lia)) as E. rewrite append_nil_r in E. rewrite E.
      rewrite (proj2 (has_char_lacks "-" (dec n))) by (apply dec_lacks; [done|lia]). cbn [negb].
      by rewrite to_cron_int_dec by lia.
    - rewrite dec_not_star, has_char_app by lia. cbn [negb]. unfold CronExpr.split.
      rewrite c_str_lacks by (apply lacks_app; [apply dec_lacks; [done|lia]|apply (lacks_app _ "-"); [done|apply dec_lacks; [done|lia]]]).
      rewrite pieces_app by (apply dec_lacks; [done|lia]).
      rewrite pieces_single by ((apply dec_lacks; [done|lia]) || (apply dec_nonempty; lia)).
      rewrite !to_cron_int_dec by lia. done. }
  cbn [ebind]. destruct (span_bounds lo hi false s) as [a b]. cbn [fst snd] in Hb.
  rewrite !(proj2 (Z.ltb_ge _ _)) by lia. done.
Qed.

Lemma render_span_chars s : span_ok lo hi s = true ->
  render_span s <> EmptyString /\ all_chars span_char (render_span s) = true /\
  has_char "-" (render_span s) = match s with Between _ _ => true | _ => false end.
Proof.
  destruct s as [|n|a b]; cbn [span_ok render_span]; intros H; zify_bools; [done| |].
  - split_and!; [apply dec_nonempty; lia|apply dec_span_chars; lia|apply has_char_lacks, dec_lacks; [done|lia]].
  - split_and!; [|rewrite all_chars_app; cbn [all_chars]; rewrite !dec_span_chars by lia; done|apply has_char_app].
    apply app_nonempty, dec_nonempty. lia.
Qed.

Lemma render_span_lacks c s : span_ok lo hi s = true -> span_char c = false ->
  lacks c (render_span s).
Proof.
  intros Hok Hc. destruct (render_span_chars s Hok) as (_ & Hch & _). unfold lacks. eapply all_chars_mono; [|done].
  intros d Hd. destruct (Ascii.eqb_spec d c) as [->|]; [congruence|done].
Qed.

(** The bits of a range and step, as values of the field. *)
Lemma set_bits_values a b k t j :
  lo <= a -> b <= hi -> 0 < k -> b - lo + k < 256 -> 0 <= j ->
  Z.testbit (set_bits 256 (a - lo) (b - lo) k t) j =
  Z.testbit t j || (a <=? j + lo) && (j + lo <=? b) && ((j + lo - a) mod k =? 0).
Proof.
  intros. rewrite set_bits_spec by lia. replace (j - (a - lo)) with (j + lo - a) by lia. f_equal. f_equal. f_equal.
  - destruct (Z.leb_spec (a - lo) j), (Z.leb_spec a (j + lo)); lia.
  - destruct (Z.leb_spec j (b - lo)), (Z.leb_spec (j + lo) b); lia.
Qed.

(** An item adds the values it denotes. *)
Lemma set_item_denotes it t : item_ok lo hi it = true ->
  exists t', set_item (render_item it) lo hi t = inr t' /\
    forall j, 0 <= j -> Z.testbit t' j = Z.testbit t j || denotes lo hi it (j + lo).
Proof.
  destruct it as [s [k|]]; unfold item_ok, render_item, set_item, denotes; cbn [it_span it_step]; intros Hok; zify_bools;
    destruct (render_span_chars s ltac:(done)) as (Hne & Hch & Hdash);
    pose proof (render_span_lacks "/" s ltac:(done) ltac:(done)) as Hl.
  - rewrite has_char_app. cbn [negb]. unfold CronExpr.split.
    rewrite c_str_lacks by (apply lacks_app; [by apply render_span_lacks|apply (lacks_app _ "/"); [done|apply dec_lacks; [done|lia]]]).
    rewrite pieces_app, pieces_single by (done || (apply dec_lacks; [done|lia]) || (apply dec_nonempty; lia)).
    rewrite make_range_span by done. cbn [ebind]. rewrite to_cron_int_dec by lia. cbn [ebind].
    rewrite (proj2 (Z.leb_gt k 0)) by lia. eexists. split; [done|]. intros j Hj. rewrite Hdash.
    rewrite bool_decide_eq_true_2 by eauto.
    destruct (span_bounds lo hi true s) as [a b] eqn:E. pose proof (span_in_bounds true s a b ltac:(done) E) as Hb.
    assert ((if negb match s with Between _ _ => true | _ => false end then hi else (span_bounds lo hi false s).2) = b) as ->
      by (destruct s; cbn in *; congruence).
    assert ((span_bounds lo hi false s).1 = a) as -> by (destruct s; cbn in *; congruence).
    cbn [default from_option]. unfold id. apply set_bits_values; lia.
  - rewrite (proj2 (has_char_lacks _ _) Hl). cbn [negb]. rewrite make_range_span by done. cbn [ebind].
    rewrite bool_decide_eq_false_2 by (by intros [? ?]).
    destruct (span_bounds lo hi false s) as [a b] eqn:E. pose proof (span_in_bounds false s a b ltac:(done) E) as Hb.
    eexists. split; [done|]. intros j Hj. cbn [default from_option fst snd]. unfold id. apply set_bits_values; lia.
Qed.

Lemma set_items_denotes its t : forallb (item_ok lo hi) its = true ->
  exists t', set_items (map render_item its) lo hi t = inr t' /\
    forall j, 0 <= j -> Z.testbit t' j = Z.testbit t j || existsb (fun it => denotes lo hi it (j + lo)) its.
Proof.
  revert t. induction its as [|it its IH]; cbn [forallb map set_items existsb]; intros t Hok.
  { exists t. split; [done|]. intros. by rewrite orb_false_r. }
  apply andb_prop in Hok as [Hit Hits]. destruct (set_item_denotes it t Hit) as (t1 & -> & H1). cbn [ebind].
  destruct (IH t1 Hits) as (t2 & -> & H2). exists t2. split; [done|]. intros j Hj. by rewrite H2, H1, orb_assoc.
Qed.

Lemma render_item_chars it : item_ok lo hi it = true ->
  render_item it <> EmptyString /\ all_chars field_char (render_item it) = true /\ lacks "," (render_item it).
Proof.
  destruct it as [s [k|]]; unfold item_ok, render_item; cbn [it_span it_step]; intros Hok; zify_bools;
    destruct (render_span_chars s ltac:(done)) as (Hne & Hch & _);
    pose proof (render_span_lacks "," s ltac:(done) ltac:(done)) as Hl;
    assert (Hf : all_chars field_char (render_span s) = true)
      by (apply (all_chars_mono span_char); [intros c; unfold span_char; by destruct (field_char c)|done]).
  - split_and!; [by apply app_nonempty| |apply lacks_app; [done|apply (lacks_app _ "/"); [done|apply dec_lacks; [done|lia]]]].
    rewrite all_chars_app, Hf. cbn [all_chars andb]. eapply all_chars_mono; [|apply (dec_digits k); lia].
    intros c Hc. unfold field_char. by rewrite Hc.
  - done.
Qed.

Lemma joined_chars P sep l : P sep = true -> Forall (fun s => all_chars P s = true) l -> all_chars P (joined sep l) = true.
Proof.
  intros Hsep. induction 1 as [|s l Hs Hl IH]; [done|]. destruct l as [|s' l]; [done|].
  change (joined sep (s :: s' :: l)) with (s +:+ String sep (joined sep (s' :: l))).
  rewrite all_chars_app, Hs. cbn [all_chars]. by rewrite Hsep, IH.
Qed.

Lemma field_items its : forallb (item_ok lo hi) its = true ->
  Forall (fun s => lacks "," s /\ s <> EmptyString) (map render_item its) /\
  Forall (fun s => all_chars field_char s = true) (map render_item its).
Proof.
  rewrite forallb_forall. intros H. split; apply Forall_map, Forall_forall; intros it Hit;
    apply list_elem_of_In, H, render_item_chars in Hit as (? & ? & ?); done.
Qed.

Lemma render_field_chars its : forallb (item_ok lo hi) its = true -> all_chars field_char (render_field its) = true.
Proof. intros H. apply joined_chars; [done|]. by apply field_items. Qed.

Lemma last_app_ne {A} (l k : list A) : k <> [] -> last (l ++ k) = last k.
Proof. intros Hk. destruct k as [|x k] using rev_ind; [done|]. by rewrite app_assoc, !last_snoc. Qed.

Lemma list_ascii_app a b : list_ascii_of_string (a +:+ b) = list_ascii_of_string a ++ list_ascii_of_string b.
Proof. induction a as [|c a IH]; [done|]. cbn. by rewrite IH. Qed.

Lemma lacks_last c s : lacks c s -> s <> EmptyString -> exists d, last (list_ascii_of_string s) = Some d /\ Ascii.eqb d c = false.
Proof.
  unfold lacks. induction s as [|d s IH]; [done|]. cbn [all_chars list_ascii_of_string]. intros [H1 H2]%andb_prop _.
  apply negb_true_iff in H1. destruct s as [|e s]; [by exists d|]. destruct (IH H2 ltac:(done)) as (f & Hf & Hne).
  exists f. split; [|done]. by rewrite <- Hf.
Qed.

Lemma render_field_end its : its <> [] -> forallb (item_ok lo hi) its = true ->
  ends_with_comma (render_field its) = false /\ render_field its <> EmptyString.
Proof.
  intros Hne Hok. destruct (field_items its Hok) as [Hf _]. unfold render_field, ends_with_comma.
  assert (map render_item its <> []) as Hm by (by destruct its). revert Hm Hf. generalize (map render_item its). clear.
  intros l Hne Hf. induction Hf as [|s l [Hs Hse] Hl IH]; [done|]. destruct l as [|s' l].
  - cbn [joined]. destruct (lacks_last "," s Hs Hse) as (d & -> & ->). done.
  - change (joined "," (s :: s' :: l)) with (s +:+ String "," (joined "," (s' :: l))).
    destruct (IH ltac:(done)) as [E Hn]. split; [|by apply app_nonempty].
    rewrite list_ascii_app, last_app_ne by done. cbn [list_ascii_of_string].
    destruct (joined "," (s' :: l)) eqn:Ej; [done|]. exact E.
Qed.

(** A field is read as the union of its items. *)
Lemma set_cron_field_denotes its : its <> [] -> forallb (item_ok lo hi) its = true ->
  exists t, set_cron_field (render_field its) lo hi = inr t /\
    forall j, 0 <= j -> Z.testbit t j = existsb (fun it => denotes lo hi it (j + lo)) its.
Proof.
  intros Hne Hok. destruct (render_field_end its Hne Hok) as [Hend _]. unfold set_cron_field. rewrite Hend.
  unfold CronExpr.split. rewrite c_str_lacks by (apply field_lacks; [done|by apply render_field_chars]).
  unfold render_field. rewrite pieces_joined by (by apply field_items).
  destruct (set_items_denotes its 0 Hok) as (t & Ht & Hb). exists t. split; [destruct its; [done|exact Ht]|].
  intros j Hj. by rewrite Hb, Z.bits_0.
Qed.

End Field.

(** ** Whole expressions *)

Record fields := mkFields {
  f_seconds : list item; f_minutes : list item; f_hours : list item;
  f_days : list item; f_months : list item; f_weekdays : list item
}.

Definition render (e : fields) : string :=
  joined " " (map render_field [f_seconds e; f_minutes e; f_hours e; f_days e; f_months e; f_weekdays e]).

Definition field_ok (lo hi : Z) (f : list item) : bool :=
  match f with [] => false | _ => forallb (item_ok lo hi) f end.

Definition fields_ok (e : fields) : bool :=
  field_ok 0 59 (f_seconds e) && field_ok 0 59 (f_minutes e) && field_ok 0 23 (f_hours e) &&
  field_ok 1 31 (f_days e) && field_ok 1 12 (f_months e) && field_ok 0 6 (f_weekdays e).

Definition means (lo hi : Z) (f : list item) (v : Z) : bool := existsb (fun it => denotes lo hi it v) f.

Lemma index_none c name s : lacks c s -> String.index 0 (String c name) s = None.
Proof.
  unfold lacks. induction s as [|d s IH]; [done|]. cbn [all_chars]. intros [H1 H2]%andb_prop. apply negb_true_iff in H1.
  cbn [String.index String.prefix]. destruct (ascii_dec c d) as [->|]; [by rewrite Ascii.eqb_refl in H1|]. by rewrite IH.
Qed.

Lemma replace_none names i s : Forall (fun name => match name with String c _ => field_char c = false | _ => False end) names ->
  all_chars field_char s = true -> replace_from i names s = s.
Proof.
  intros Hn Hs. revert i. induction Hn as [|name names H Hn IH]; intros i; [done|]. cbn [replace_from].
  unfold replace_ordinal. destruct name as [|c name]; [done|]. rewrite index_none by (by apply field_lacks). apply IH.
Qed.

Lemma to_upper_field s : all_chars field_char s = true -> to_upper s = s.
Proof.
  unfold to_upper. induction s as [|c s IH]; [done|]. cbn [all_chars str_map]. intros [H1 H2]%andb_prop. rewrite IH by done. f_equal.
  unfold toupper. destruct (in_range 97 122 c) eqn:E; [|done]. exfalso. revert H1 E. clear. by destruct c as [[] [] [] [] [] [] [] []].
Qed.

Lemma set_field_text lo hi f : 0 <= lo -> lo <= hi < 255 -> field_ok lo hi f = true ->
  all_chars field_char (render_field f) = true /\ render_field f <> EmptyString /\
  exists t, set_cron_field (render_field f) lo hi = inr t /\ forall j, 0 <= j -> Z.testbit t j = means lo hi f (j + lo).
Proof.
  intros Hlo Hhi Hok. assert (f <> [] /\ forallb (item_ok lo hi) f = true) as [Hne Hits] by (by destruct f).
  split_and!; [by apply (render_field_chars lo hi)|by apply (render_field_end lo hi)|by apply set_cron_field_denotes].
Qed.

Lemma any_as_star_field s : all_chars field_char s = true -> any_as_star s = s.
Proof.
  intros H. unfold any_as_star, is_char. destruct (String.eqb_spec s "?") as [->|]; [done|done].
Qed.

Lemma split_fields l : Forall (fun s => all_chars field_char s = true /\ s <> EmptyString) l -> l <> [] ->
  str_empty (joined " " l) = false /\ filter (fun s => str_empty s = false) (CronExpr.split (joined " " l) " ") = l.
Proof.
  intros Hl Hne. assert (Hp : Forall (fun s => lacks " " s /\ s <> EmptyString) l).
  { eapply Forall_impl; [done|]. intros s [Hs Hs']. split; [by apply field_lacks|done]. }
  unfold CronExpr.split. rewrite c_str_lacks, pieces_joined; [|done|].
  - split.
    + destruct l as [|s l]; [done|]. apply Forall_cons in Hp as [[_ Hs] _]. by destruct s, l.
    + clear Hne Hp. induction Hl as [|s l [_ Hs] _ IH]; [done|]. rewrite filter_cons_True by (by destruct s). by rewrite IH.
  - apply (joined_chars (fun d => negb (Ascii.eqb d (byte_of_Z 0)))); [done|].
    eapply Forall_impl; [exact Hl|]. intros s [Hs _]. exact (field_lacks (byte_of_Z 0) s eq_refl Hs).
Qed.

(** A written expression is read, as the times it denotes. *)
Lemma make_cron_render e : fields_ok e = true ->
  exists cex, make_cron (render e) = inr cex /\ forall j, 0 <= j ->
    Z.testbit (seconds cex) j = means 0 59 (f_seconds e) j /\ Z.testbit (minutes cex) j = means 0 59 (f_minutes e) j /\
    Z.testbit (hours cex) j = means 0 23 (f_hours e) j /\ Z.testbit (days_of_week cex) j = means 0 6 (f_weekdays e) j /\
    Z.testbit (days_of_month cex) j = means 1 31 (f_days e) (j + 1) /\ Z.testbit (months cex) j = means 1 12 (f_months e) (j + 1).
Proof.
  unfold fields_ok. intros Hok. zify_bools. unfold make_cron, render. cbn [map].
  destruct (set_field_text 0 59 (f_seconds e)) as (C0 & N0 & s & Es & Hs); [lia|lia|done|].
  destruct (set_field_text 0 59 (f_minutes e)) as (C1 & N1 & mi & Emi & Hmi); [lia|lia|done|].
  destruct (set_field_text 0 23 (f_hours e)) as (C2 & N2 & h & Eh & Hh); [lia|lia|done|].
  destruct (set_field_text 1 31 (f_days e)) as (C3 & N3 & dm & Edm & Hdm); [lia|lia|done|].
  destruct (set_field_text 1 12 (f_months e)) as (C4 & N4 & mo & Emo & Hmo); [lia|lia|done|].
  destruct (set_field_text 0 6 (f_weekdays e)) as (C5 & N5 & dw & Edw & Hdw); [lia|lia|done|].
  edestruct (split_fields [render_field (f_seconds e); render_field (f_minutes e); render_field (f_hours e);
    render_field (f_days e); render_field (f_months e); render_field (f_weekdays e)]) as [-> ->]; [by repeat constructor|done|].
  unfold set_cron_days_of_week, set_cron_days_of_month, set_cron_month, replace_ordinals.
  rewrite !to_upper_field, !replace_none, !any_as_star_field by (done || by repeat constructor).
  unfold CRON_MIN_SECONDS, CRON_MAX_SECONDS, CRON_MIN_MINUTES, CRON_MAX_MINUTES, CRON_MIN_HOURS, CRON_MAX_HOURS,
    CRON_MIN_DAYS_OF_WEEK, CRON_MAX_DAYS_OF_WEEK, CRON_MIN_DAYS_OF_MONTH, CRON_MAX_DAYS_OF_MONTH, CRON_MIN_MONTHS, CRON_MAX_MONTHS.
  rewrite Es, Emi, Eh, Edw, Edm, Emo. cbn [ebind]. eexists. split; [done|]. intros j Hj.
  cbn [seconds minutes hours days_of_week days_of_month months].
  rewrite Hs, Hmi, Hh, Hdw, Hdm, Hmo, Z.add_0_r by done. done.
Qed.

(** C35. [make_cron] reads a well-formed expression, written with any number of
    numbers, ranges and steps to a field, as exactly the times it denotes. *)
Theorem make_cron_reads_what_is_written e : fields_ok e = true ->
  exists cex, make_cron (render e) = inr cex /\ forall j, 0 <= j ->
    Z.testbit (seconds cex) j = means 0 59 (f_seconds e) j /\ Z.testbit (minutes cex) j = means 0 59 (f_minutes e) j /\
    Z.testbit (hours cex) j = means 0 23 (f_hours e) j /\ Z.testbit (days_of_week cex) j = means 0 6 (f_weekdays e) j /\
    Z.testbit (days_of_month cex) j = means 1 31 (f_days e) (j + 1) /\ Z.testbit (months cex) j = means 1 12 (f_months e) (j + 1).
Proof. apply make_cron_render. Qed.

(** Every quarter of an hour from 8 to 18 and at 22, on weekdays. *)
Definition office : fields := mkFields [mkItem (One 0) None] [mkItem Any (Some 15)] [mkItem (Between 8 18) None; mkItem (One 22) None]
  [mkItem Any None] [mkItem Any None] [mkItem (Between 1 5) None].

Lemma make_cron_reads_what_is_written_witness :
  render office = "0 */15 8-18,22 * * 1-5"%string /\ exists cex, make_cron (render office) = inr cex /\ Z.testbit (hours cex) 22 = true.
Proof.
  split; [by vm_compute|]. destruct (make_cron_reads_what_is_written office ltac:(by vm_compute)) as (cex & E & H).
  exists cex. split; [exact E|]. destruct (H 22 ltac:(lia)) as (_ & _ & -> & _). by vm_compute.
Defined.

(** ** Examples *)
Module Examples.

Definition minutes_of (expr : string) : E (list Z) :=
  match make_cron expr with inr cex => inr (List.filter (Z.testbit (minutes cex)) (seqZ 0 60)) | inl e => inl e end.

Example names_read : (c ← match make_cron "0 0 9 ? jan-mar MON,fri" with inr c => Some c | inl _ => None end;
  Some (days_of_week c, months c)) = Some (2 + 32, 1 + 2 + 4).
Proof. by vm_compute. Qed.

(** Numbers are cut to 8 bits before they are compared with the limits, and
    text after the digits is ignored. *)
Example too_large_accepted : minutes_of "0 300 * * * *" = inr [44] /\ minutes_of "0 5x * * * *" = inr [5].
Proof. by vm_compute. Qed.

(** A large step takes the 8-bit counter round. *)
Example step_wraps : minutes_of "0 59/200 * * * *" = inr [3; 59].
Proof. by vm_compute. Qed.

Example errors :
  minutes_of "" = inl "Invalid empty cron expression" /\ minutes_of "* * * * *" = inl "cron expression must have six fields" /\
  minutes_of "0 60 * * * *" = inl "Specified range exceeds maximum" /\ minutes_of "0 9-3 * * * *" = inl "Specified range start exceeds range end" /\
  minutes_of "0 1-2-3 * * * *" = inl "Specified range requires two fields" /\ minutes_of "0 */0 * * * *" = inl "Incrementer must be a positive value" /\
  minutes_of "0 1, * * * *" = inl "Value cannot end with comma".
Proof. by vm_compute. Qed.

End Examples.
