(* ===== verification/CronSchedule.v ===== *)
(** [CronParser::nextExecution] on the text of an expression: the C++ function
    with the library it calls ([scheduler/cron_parser.cpp] with
    [third_party/croncpp.h]), from a written expression to the next
    time it denotes. *)
From S2P Require Import Prelude Datetime Text Config CronParser CronExpr CronNext CronCalendar CronSearch CronLeast CronText.

#[local] Opaque month_start month_of mday_of wday_of.

(** [cron::make_cron] and [cron::cron_next] as [nextExecution] calls them; an
    exception is [None]. *)
Definition croncpp (mktime : tm -> Z * tm) (fuel : nat) (cron_expr : string) (now_tm : Z) : option Z :=
  match make_cron cron_expr with
  | inl _ => None
  | inr cron => match cron_next mktime fuel cron (tm_of now_tm) with Ok next => Some (tm_secs next) | _ => None end
  end.

(** A local time that the expression denotes. *)
Definition scheduled (e : fields) (x : Z) : bool :=
  let D := x / 86400 in
  means 0 59 (f_seconds e) (x mod 60) && means 0 59 (f_minutes e) (x / 60 mod 60) && means 0 23 (f_hours e) (x / 3600 mod 24) &&
  means 1 31 (f_days e) (mday_of D) && means 0 6 (f_weekdays e) (wday_of D) && means 1 12 (f_months e) (month_of D mod 12 + 1).

Definition all_values (lo hi : Z) (f : list item) : bool := forallb (means lo hi f) (seqZ lo (hi - lo + 1)).

(** [plain], on the written expression. *)
Definition plain_fields (e : fields) : bool :=
  (all_values 0 59 (f_seconds e) || (Z.of_nat (length (List.filter (means 0 59 (f_seconds e)) (seqZ 0 60))) =? 1)) &&
  (all_values 1 31 (f_days e) || all_values 0 6 (f_weekdays e)) &&
  (all_values 1 12 (f_months e) || forallb (fun d => negb (means 1 31 (f_days e) d)) [29; 30; 31]).

(** ** The expression read is the expression written *)

Lemma span_start lo hi it : lo <= hi < 255 -> item_ok lo hi it = true -> exists v, lo <= v <= hi /\ denotes lo hi it v = true.
Proof.
  intros Hhi Hok. unfold item_ok in Hok. apply andb_prop in Hok as [Hs Hk].
  destruct (span_bounds lo hi (bool_decide (is_Some (it_step it))) (it_span it)) as [a b] eqn:E.
  pose proof (span_in_bounds lo hi Hhi _ _ _ _ Hs E). exists a. split; [lia|]. unfold denotes. rewrite E.
  rewrite (proj2 (Z.leb_le _ _)), (proj2 (Z.leb_le _ _)) by lia. rewrite Z.sub_diag, Zmod_0_l. done.
Qed.

Lemma field_means lo hi f : lo <= hi < 255 -> field_ok lo hi f = true -> exists v, lo <= v <= hi /\ means lo hi f v = true.
Proof.
  intros Hhi Hok. destruct f as [|it f]; [done|]. cbn [field_ok forallb] in Hok. apply andb_prop in Hok as [Hit _].
  destruct (span_start lo hi it Hhi Hit) as (v & Hv & Hd). exists v. split; [done|]. unfold means. cbn. by rewrite Hd.
Qed.

Section Read.
Context (lo size t : Z) (f : list item) (Hlo : 0 <= lo < 50) (Hsize : 0 < size < 200).
Context (Hread : forall j, 0 <= j -> Z.testbit t j = means lo (lo + size - 1) f (j + lo)).

Lemma read_some_bit : field_ok lo (lo + size - 1) f = true -> some_bit size t = true.
Proof.
  intros Hok. destruct (field_means lo (lo + size - 1) f ltac:(lia) Hok) as (v & Hv & Hm).
  unfold some_bit. apply existsb_exists. exists (v - lo). split; [apply list_elem_of_In, elem_of_seqZ; lia|].
  rewrite Hread by lia. by replace (v - lo + lo) with v by lia.
Qed.

Lemma read_full : all_values lo (lo + size - 1) f = true -> full size t = true.
Proof.
  unfold all_values, full. rewrite !forallb_forall. intros H j Hj. apply list_elem_of_In, elem_of_seqZ in Hj.
  rewrite Hread by lia. apply H, list_elem_of_In, elem_of_seqZ. lia.
Qed.

Lemma read_bits : lo = 0 -> bits size t = List.filter (means 0 (size - 1) f) (seqZ 0 size).
Proof.
  intros ->. unfold bits. apply filter_ext_in. intros j Hj. apply list_elem_of_In, elem_of_seqZ in Hj.
  rewrite Hread, Z.add_0_r by lia. by replace (0 + size - 1) with (size - 1) by lia.
Qed.

End Read.

Lemma read_plain e : fields_ok e = true -> plain_fields e = true ->
  exists cex, make_cron (render e) = inr cex /\ plain cex = true /\ (forall x, fires cex x = scheduled e x) /\
    (all_values 1 12 (f_months e) = true -> full 12 (months cex) = true).
Proof.
  intros Hok Hp. destruct (make_cron_render e Hok) as (cex & Hm & H). exists cex. split; [done|].
  unfold plain_fields in Hp. rewrite !andb_true_iff, !orb_true_iff in Hp. destruct Hp as [[Hp1 Hp2] Hp3].
  unfold fields_ok in Hok. zify_bools.
  assert (Hs : forall j, 0 <= j -> Z.testbit (seconds cex) j = means 0 59 (f_seconds e) (j + 0)) by (intros j Hj; rewrite Z.add_0_r; apply (H j Hj)).
  assert (Hmi : forall j, 0 <= j -> Z.testbit (minutes cex) j = means 0 59 (f_minutes e) (j + 0)) by (intros j Hj; rewrite Z.add_0_r; apply (H j Hj)).
  assert (Hh : forall j, 0 <= j -> Z.testbit (hours cex) j = means 0 23 (f_hours e) (j + 0)) by (intros j Hj; rewrite Z.add_0_r; apply (H j Hj)).
  assert (Hdw : forall j, 0 <= j -> Z.testbit (days_of_week cex) j = means 0 6 (f_weekdays e) (j + 0)) by (intros j Hj; rewrite Z.add_0_r; apply (H j Hj)).
  assert (Hdm : forall j, 0 <= j -> Z.testbit (days_of_month cex) j = means 1 31 (f_days e) (j + 1)) by (intros j Hj; apply (H j Hj)).
  assert (Hmo : forall j, 0 <= j -> Z.testbit (months cex) j = means 1 12 (f_months e) (j + 1)) by (intros j Hj; apply (H j Hj)).
  split_and!; [| |by apply (read_full 1 12)].
  - unfold plain. rewrite (read_some_bit 0 60 _ (f_seconds e)), (read_some_bit 0 60 _ (f_minutes e)), (read_some_bit 0 24 _ (f_hours e)),
      (read_some_bit 1 31 _ (f_days e)), (read_some_bit 0 7 _ (f_weekdays e)), (read_some_bit 1 12 _ (f_months e)) by (done || lia).
    cbn [andb]. rewrite (read_bits 0 60 _ (f_seconds e)) by (done || lia). rewrite !andb_true_iff, !orb_true_iff. split_and!.
    + destruct Hp1 as [Hp1|Hp1]; [left; by apply (read_full 0 60 _ (f_seconds e))|right; exact Hp1].
    + destruct Hp2 as [Hp2|Hp2]; [left; by apply (read_full 1 31 _ (f_days e))|right; by apply (read_full 0 7 _ (f_weekdays e))].
    + destruct Hp3 as [Hp3|Hp3]; [left; by apply (read_full 1 12 _ (f_months e))|right]. cbn [forallb] in *. by rewrite !Hdm by lia.
  - intros x. unfold fires, timely, month_ok, day_ok, day_matches, scheduled, CRON_MIN_DAYS_OF_MONTH, CRON_MIN_DAYS_OF_WEEK.
    pose proof (mday_range (x / 86400)). pose proof (wday_range (x / 86400)). destruct (at_time_range x) as (? & ? & ?).
    pose proof (Z.mod_pos_bound (month_of (x / 86400)) 12 ltac:(lia)).
    rewrite Hs, Hmi, Hh, Hdm, Hdw, Hmo by lia. rewrite !Z.add_0_r, !Z.sub_0_r. replace (mday_of (x / 86400) - 1 + 1) with (mday_of (x / 86400)) by lia.
    by rewrite !andb_assoc.
Qed.

(** ** The next execution *)

Section NextExecution.
Context {mktime : tm -> Z * tm} {off : Z} (zone : FixedZone mktime off) (Hoff : -86400 < off < 86400).
Context (utc_to_local local_to_utc : Z -> option Z).
Context (Hlocal : forall s, utc_to_local s = Some (s + off)) (Hutc : forall t, local_to_utc t = Some (t - off)).

Lemma zero_tm_past : tm_secs zero_tm = -2209075200.
Proof. by vm_compute. Qed.

Lemma nextExecution_croncpp fuel clock_ms e cex now_ms :
  make_cron (render e) = inr cex -> 0 < now_ms -> let now_sec := now_ms / 1000 in
  nextExecution utc_to_local local_to_utc (croncpp mktime fuel) clock_ms (render e) now_ms =
  match cron_next mktime fuel cex (tm_of (now_sec + off)) with
  | Ok next => let next_sec := tm_secs next - off in
               if (next_sec =? -1) || (next_sec <=? now_sec) then 0 else u64 (u64 next_sec * 1000)
  | _ => 0
  end.
Proof.
  intros Hm Hn now_sec. unfold nextExecution. rewrite (proj2 (Z.eqb_neq now_ms 0)) by lia. fold now_sec.
  rewrite Hlocal. unfold croncpp. rewrite Hm. destruct (cron_next _ _ _ _) as [| |next]; [done..|]. by rewrite Hutc.
Qed.

Lemma written_bounded fuel clock_ms e now_ms :
  fields_ok e = true -> plain_fields e = true -> 0 < now_ms < 2 ^ 53 -> (search_fuel (now_ms / 1000 + off) <= fuel)%nat ->
  let now_sec := now_ms / 1000 in
  let next := nextExecution utc_to_local local_to_utc (croncpp mktime fuel) clock_ms (render e) now_ms in
  (exists s, next = s * 1000 /\ now_sec < s /\ s < now_sec + 7 * 366 * 86400 /\ scheduled e (s + off) = true /\
     forall z, now_sec < z < s -> scheduled e (z + off) = false) \/
  (next = 0 /\ all_values 1 12 (f_months e) = false /\
     forall z, now_sec + off < z < horizon (year_of (now_sec + off)) -> scheduled e z = false).
Proof.
  intros Hok Hp Hn Hfuel now_sec next. destruct (read_plain e Hok Hp) as (cex & Hm & Hplain & Hfires & Hall).
  assert (Hns : 0 <= now_sec < 2 ^ 44) by (unfold now_sec; split; [apply Z.div_pos; lia|apply Z.div_lt_upper_bound; lia]).
  unfold next. rewrite (nextExecution_croncpp _ _ _ cex) by (done || lia). fold now_sec in Hfuel |- *.
  destruct (cron_next_first zone cex Hplain (now_sec + off) ltac:(lia) fuel Hfuel) as [(y & -> & (Hy & Hf & Hnone) & Hbound)|[-> Hnone]].
  - left. cbv zeta. rewrite tm_secs_of. exists (y - off). rewrite (proj2 (Z.eqb_neq _ (-1))), (proj2 (Z.leb_gt _ _)) by lia. cbn [orb].
    rewrite !u64_small by (unfold is_u64; rewrite ?u64_small by (unfold is_u64; lia); lia).
    rewrite <- Hfires. replace (y - off + off) with y by lia. split_and!; [done|lia|lia|done|].
    intros z Hz. rewrite <- Hfires. apply Hnone. lia.
  - right. cbv zeta. rewrite zero_tm_past. rewrite (proj2 (Z.leb_le _ now_sec)) by lia. rewrite orb_true_r. split_and!; [done| |].
    + destruct (all_values 1 12 (f_months e)) eqn:E; [|done].
      destruct (fires_soon cex (now_sec + off) Hplain (Hall eq_refl)) as (z & Hz & Hf). rewrite Hnone in Hf by done. done.
    + intros z Hz. rewrite <- Hfires. by apply Hnone.
Qed.

End NextExecution.

(** C13. [CronParser::nextExecution] on a well-formed expression without the
    combinations the search gets wrong, in a zone of fixed offset: it answers
    the first second after now that the expression denotes, in
    milliseconds; or 0, when the expression denotes none up to the fifth year
    from now on. *)
Theorem next_execution_is_the_next_time mktime off utc_to_local local_to_utc fuel clock_ms e now_ms :
  FixedZone mktime off -> -86400 < off < 86400 ->
  (forall s, utc_to_local s = Some (s + off)) -> (forall t, local_to_utc t = Some (t - off)) ->
  fields_ok e = true -> plain_fields e = true -> 0 < now_ms < 2 ^ 53 -> (search_fuel (now_ms / 1000 + off) <= fuel)%nat ->
  let now_sec := now_ms / 1000 in
  let next := nextExecution utc_to_local local_to_utc (croncpp mktime fuel) clock_ms (render e) now_ms in
  (exists s, next = s * 1000 /\ now_sec < s /\ scheduled e (s + off) = true /\
     forall z, now_sec < z < s -> scheduled e (z + off) = false) \/
  (next = 0 /\ all_values 1 12 (f_months e) = false /\
     forall z, now_sec + off < z < horizon (year_of (now_sec + off)) -> scheduled e z = false).
Proof.
  intros zone Hoff Hl Hu Hok Hp Hn Hf.
  destruct (written_bounded zone Hoff utc_to_local local_to_utc Hl Hu fuel clock_ms e now_ms Hok Hp Hn Hf)
    as [(s & H1 & H2 & _ & H3 & H4)|H]; [left; by exists s|by right].
Qed.

Lemma next_execution_is_the_next_time_witness :
  exists s, nextExecution (fun s => Some (s + 28800)) (fun t => Some (t - 28800))
      (croncpp (fixed_mktime 28800) (search_fuel (1709200000123 / 1000 + 28800))) 0 (render office) 1709200000123 = s * 1000 /\
    1709200000 < s /\ scheduled office (s + 28800) = true /\ forall z, 1709200000 < z < s -> scheduled office (z + 28800) = false.
Proof.
  destruct (next_execution_is_the_next_time (fixed_mktime 28800) 28800 (fun s => Some (s + 28800)) (fun t => Some (t - 28800))
    (search_fuel (1709200000123 / 1000 + 28800)) 0 office 1709200000123 (fixed_mktime_zone 28800) ltac:(lia) (fun s => eq_refl) (fun t => eq_refl)
    ltac:(by vm_compute) ltac:(by vm_compute) ltac:(lia) (Nat.le_refl _)) as [H|(_ & H & _)]; [exact H|by vm_compute in H].
Defined.

Example quarter_past_six :
  nextExecution (fun s => Some (s + 28800)) (fun t => Some (t - 28800)) (croncpp (fixed_mktime 28800) 100) 0
    "0 */15 8-18,22 * * 1-5" 1709200000123 = 1709200800000.
Proof. by vm_compute. Qed.
