(* ===== verification/LockRenewer.v ===== *)
(** The lock renewer of the scheduler ([TaskScheduler::LockRenewer],
    [scheduler/task_scheduler.cpp]): the table of leases, the selection of due
    leases, and what happens to them after the renewals were sent.  Each
    definition is one section of code that holds [mutex_]; the renewals in
    between run without it, so other threads add and remove leases there. *)
From S2P Require Import Prelude Redis Cancellation.

Definition ns_per_sec : Z := 1000000000.

Record Lease := mkLease {
  le_key : string;
  le_value : string;
  le_ttl_sec : Z;
  le_next_renew_at : Z;
  le_cancellation : CancellationSource
}.

#[global] Instance Lease_eq_dec : EqDecision Lease.
Proof. solve_decision. Defined.

(** [leases_] and [running_]. *)
Record Renewer := mkRenewer { rn_leases : gmap string Lease; rn_running : bool }.

Definition set_leases (m : gmap string Lease) (r : Renewer) : Renewer := mkRenewer m (rn_running r).

(** [std::max(1, ttl_sec / 3)] seconds *)
Definition renew_interval (ttl_sec : Z) : Z := Z.max 1 (ttl_sec ÷ 3) * ns_per_sec.

Definition nextRenewTime (now ttl_sec : Z) : Z := now + renew_interval ttl_sec.

Definition renewer_start (r : Renewer) : Renewer :=
  if rn_running r then r else mkRenewer (rn_leases r) true.

Definition renewer_stop (r : Renewer) : Renewer :=
  if rn_running r then mkRenewer ∅ false else r.

Definition lease_add (now : Z) (key value : string) (ttl_sec : Z) (cancellation : CancellationSource)
    (r : Renewer) : Renewer :=
  set_leases (<[key := mkLease key value ttl_sec (nextRenewTime now ttl_sec) cancellation]> (rn_leases r)) r.

Definition lease_remove (key value : string) (r : Renewer) : Renewer :=
  match rn_leases r !! key with
  | Some l => if String.eqb (le_value l) value then set_leases (delete key (rn_leases r)) r else r
  | None => r
  end.

(** When the loop wakes up by itself; [None] while there is nothing to renew. *)
Definition next_wake (r : Renewer) : option Z :=
  match map_to_list (rn_leases r) with
  | [] => None
  | (_, l) :: rest => Some (foldl (fun t x => Z.min t (le_next_renew_at x.2)) (le_next_renew_at l) rest)
  end.

Definition is_due_lease (now : Z) (l : Lease) : bool := le_next_renew_at l <=? now.

Definition due_leases (now : Z) (r : Renewer) : list Lease :=
  if rn_running r then filter (fun l => is_due_lease now l = true) (map snd (map_to_list (rn_leases r)))
  else [].

Definition lease_lost (lost : list Lease) (lease : Lease) : bool :=
  existsb (fun item => String.eqb (le_key item) (le_key lease) && String.eqb (le_value item) (le_value lease)) lost.

(** What the second critical section does with one due lease: the lease that is
    in the table now may be gone or be another owner's. *)
Definition settle_lease (now : Z) (lost : list Lease) (lease : Lease) (st : Renewer * Flags) : Renewer * Flags :=
  let '(r, flags) := st in
  match rn_leases r !! le_key lease with
  | Some l =>
      if String.eqb (le_value l) (le_value lease) then
        if lease_lost lost lease then
          (set_leases (delete (le_key lease) (rn_leases r)) r,
           (cancel_source (le_cancellation l) flags).2)
        else
          (set_leases (<[le_key lease :=
             mkLease (le_key l) (le_value l) (le_ttl_sec l) (now + renew_interval (le_ttl_sec lease))
               (le_cancellation l)]> (rn_leases r)) r, flags)
      else st
  | None => st
  end.

Definition settle (now : Z) (due lost : list Lease) (st : Renewer * Flags) : Renewer * Flags :=
  foldl (fun st lease => settle_lease now lost lease st) st due.

(** ** Lemmas *)

(** Every lease is filed under its own key. *)
Definition renewer_ok (r : Renewer) : Prop := forall k l, rn_leases r !! k = Some l -> le_key l = k.

Lemma lease_add_ok now k v ttl s r : renewer_ok r -> renewer_ok (lease_add now k v ttl s r).
Proof.
  intros H k' l. unfold lease_add, set_leases. cbn [rn_leases]. rewrite lookup_insert_Some.
  intros [[<- <-]|[_ ?]]; [done|by apply H].
Qed.

Lemma lease_remove_ok k v r : renewer_ok r -> renewer_ok (lease_remove k v r).
Proof.
  intros H k' l. unfold lease_remove. destruct (_ !! k); [|apply H]. destruct (String.eqb _ _); [|apply H].
  unfold set_leases. cbn [rn_leases]. rewrite lookup_delete_Some. intros [_ ?]. by apply H.
Qed.

(** Settling one lease touches its own key only, and no other flag. *)
Lemma settle_lease_frame now lost lease r flags k :
  k <> le_key lease ->
  rn_leases (settle_lease now lost lease (r, flags)).1 !! k = rn_leases r !! k.
Proof.
  intros Hk. unfold settle_lease. destruct (_ !! le_key lease) as [l|]; [|done].
  destruct (String.eqb _ _); [|done]. destruct (lease_lost _ _); unfold set_leases; cbn [fst rn_leases].
  - by rewrite lookup_delete_ne.
  - by rewrite lookup_insert_ne.
Qed.

Lemma settle_frame now lost due r flags k :
  k ∉ map le_key due -> rn_leases (settle now due lost (r, flags)).1 !! k = rn_leases r !! k.
Proof.
  unfold settle. revert r flags. induction due as [|d due IH]; intros r flags Hk; [done|].
  cbn [map] in Hk. apply not_elem_of_cons in Hk as [Hk1 Hk2]. cbn [foldl].
  destruct (settle_lease now lost d (r, flags)) as [r1 f1] eqn:E.
  rewrite IH by done. pose proof (settle_lease_frame now lost d r flags k Hk1) as F.
  by rewrite E in F.
Qed.

Lemma settle_flags_le now due lost st : flags_le st.2 (settle now due lost st).2.
Proof.
  unfold settle. revert st. induction due as [|d due IH]; intros [r flags]; [done|]. cbn [foldl].
  etrans; [|apply IH]. unfold settle_lease. destruct (_ !! _) as [l|]; [|done].
  destruct (String.eqb _ _); [|done]. destruct (lease_lost _ _); [|done]. apply flags_le_cancel.
Qed.

(** The due leases of one pass have distinct keys. *)
Lemma due_keys now r : renewer_ok r ->
  NoDup (map le_key (due_leases now r)) /\
  (forall l, l ∈ due_leases now r -> rn_leases r !! le_key l = Some l /\ le_next_renew_at l <= now).
Proof.
  intros Hok. unfold due_leases. destruct (rn_running r); [|split; [constructor|by intros ? ?%elem_of_nil]].
  assert (Hin : forall l, l ∈ map snd (map_to_list (rn_leases r)) -> rn_leases r !! le_key l = Some l).
  { intros l Hl. apply list_elem_of_fmap in Hl as ([k l'] & -> & Hl).
    apply elem_of_map_to_list in Hl. cbn [snd]. by rewrite (Hok k l' Hl). }
  split.
  - pose proof (NoDup_fst_map_to_list (rn_leases r)) as Hnd.
    assert (E : (map_to_list (rn_leases r)).*1 = map le_key (map snd (map_to_list (rn_leases r)))).
    { rewrite map_map. apply list_fmap_ext. intros i [k l] Hl. cbn.
      apply list_elem_of_lookup_2, elem_of_map_to_list in Hl. by rewrite (Hok k l Hl). }
    rewrite E in Hnd. clear E Hin. revert Hnd. generalize (map snd (map_to_list (rn_leases r))) as ls.
    induction ls as [|l ls IH]; intros Hnd; [constructor|]. cbn [map] in Hnd.
    apply NoDup_cons in Hnd as [Hn Hnd]. rewrite filter_cons. destruct (decide _); [|by apply IH].
    cbn [map]. constructor; [|by apply IH]. intros Hc. apply Hn.
    apply list_elem_of_fmap in Hc as (l' & -> & [_ Hl']%list_elem_of_filter).
    apply list_elem_of_fmap. by exists l'.
  - intros l [Hd Hl]%list_elem_of_filter. split; [by apply Hin|]. by apply Z.leb_le.
Qed.

(** ** Settling *)

(** What a due lease becomes. *)
Lemma settle_due now lost due r flags d :
  NoDup (map le_key due) -> d ∈ due ->
  let k := le_key d in
  match rn_leases r !! k with
  | Some l =>
      if String.eqb (le_value l) (le_value d) then
        if lease_lost lost d then
          rn_leases (settle now due lost (r, flags)).1 !! k = None /\
          ((le_cancellation l < length flags)%nat ->
           load (settle now due lost (r, flags)).2 (le_cancellation l) = true)
        else
          rn_leases (settle now due lost (r, flags)).1 !! k =
            Some (mkLease (le_key l) (le_value l) (le_ttl_sec l) (now + renew_interval (le_ttl_sec d))
                    (le_cancellation l))
      else rn_leases (settle now due lost (r, flags)).1 !! k = Some l
  | None => rn_leases (settle now due lost (r, flags)).1 !! k = None
  end.
Proof.
  revert r flags. induction due as [|d' due IH]; intros r flags Hnd Hin; [by apply elem_of_nil in Hin|].
  cbn [map] in Hnd. apply NoDup_cons in Hnd as [Hn Hnd].
  change (settle now (d' :: due) lost (r, flags)) with (settle now due lost (settle_lease now lost d' (r, flags))).
  apply elem_of_cons in Hin as [->|Hin]; cbv zeta.
  - pose proof (settle_flags_le now due lost) as Hf. unfold settle_lease in *.
    destruct (rn_leases r !! le_key d') as [l|] eqn:El; [|by rewrite settle_frame].
    destruct (String.eqb (le_value l) (le_value d')); [|by rewrite settle_frame].
    destruct (lease_lost lost d'); rewrite settle_frame by done; unfold set_leases; cbn [rn_leases].
    + rewrite lookup_delete_eq. split; [done|]. intros Hlt.
      apply (Hf (_, _)). cbn [snd]. unfold load, cancel_source, modify. cbn [snd].
      by rewrite list_lookup_insert_eq.
    + by rewrite lookup_insert_eq.
  - assert (Hne : le_key d <> le_key d').
    { intros E. apply Hn. rewrite <- E. apply list_elem_of_fmap. by exists d. }
    destruct (settle_lease now lost d' (r, flags)) as [r1 f1] eqn:E.
    assert (Hr : rn_leases r1 !! le_key d = rn_leases r !! le_key d).
    { pose proof (settle_lease_frame now lost d' r flags (le_key d) Hne) as F. by rewrite E in F. }
    specialize (IH r1 f1 Hnd Hin). cbv zeta in IH. rewrite Hr in IH.
    destruct (rn_leases r !! le_key d) as [l|]; [|done]. destruct (String.eqb _ _); [|done].
    destruct (lease_lost lost d); [|done]. destruct IH as [IH1 IH2]. split; [done|].
    intros Hlt. apply IH2. pose proof (f_equal snd E) as Ef. cbn [snd] in Ef. subst f1.
    unfold settle_lease. destruct (_ !! le_key d') as [l'|]; [|done]. destruct (String.eqb _ _); [|done].
    destruct (lease_lost lost d'); [|done]. cbn [snd]. unfold cancel_source, modify. cbn [snd].
    by rewrite length_insert.
Qed.

(** A renewal pass, with other threads adding and removing leases while the
    renewals are on the wire: a due lease that is still in the table is
    postponed by a third of its time to live if its renewal worked, and
    otherwise dropped with its execution cancelled; a lease that was replaced
    by another owner's meanwhile, a removed one, and every lease that was not
    due are left alone; no cancellation is ever withdrawn. *)
Theorem renewal_pass_settles now later r r' flags lost :
  renewer_ok r ->
  let due := due_leases now r in
  let st := settle later due lost (r', flags) in
  flags_le flags st.2 /\
  forall k, match rn_leases r' !! k with
  | None => rn_leases st.1 !! k = None
  | Some l =>
      (exists d, rn_leases r !! k = Some d /\ rn_running r = true /\ le_next_renew_at d <= now /\
         le_value d = le_value l /\
         if lease_lost lost d then
           rn_leases st.1 !! k = None /\
           ((le_cancellation l < length flags)%nat -> load st.2 (le_cancellation l) = true)
         else rn_leases st.1 !! k =
                Some (mkLease (le_key l) (le_value l) (le_ttl_sec l)
                        (later + renew_interval (le_ttl_sec d)) (le_cancellation l))) \/
      rn_leases st.1 !! k = Some l
  end.
Proof.
  intros Hok. cbv zeta. destruct (due_keys now r Hok) as [Hnd Hdue].
  split; [apply (settle_flags_le later _ lost (r', flags))|]. intros k.
  destruct (decide (k ∈ map le_key (due_leases now r))) as [Hin|Hni].
  - apply list_elem_of_fmap in Hin as (d & -> & Hin). pose proof (Hdue d Hin) as [Hd Hle].
    pose proof (settle_due later lost _ r' flags d Hnd Hin) as S. cbv zeta in S.
    destruct (rn_leases r' !! le_key d) as [l|]; [|done].
    destruct (String.eqb (le_value l) (le_value d)) eqn:Ev; [left|by right].
    apply String.eqb_eq in Ev. exists d. split_and!; try done.
    unfold due_leases in Hin. destruct (rn_running r); [done|by apply elem_of_nil in Hin].
  - rewrite settle_frame by done. destruct (rn_leases r' !! k); [by right|done].
Qed.

(** The lease of [task:a] is lost while [task:b] is released and taken again. *)
Definition sample_lease (k v : string) (s : CancellationSource) : Lease := mkLease k v 60 20 s.
Definition sample_renewer (vb : string) : Renewer :=
  mkRenewer (<["task:a" := sample_lease "task:a" "n1:a" 0]> {["task:b" := sample_lease "task:b" vb 1]}) true.

Lemma renewal_pass_settles_witness :
  renewer_ok (sample_renewer "n1:b") /\
  flags_le [false; false]
    (settle 21 (due_leases 20 (sample_renewer "n1:b")) [sample_lease "task:a" "n1:a" 0]
       (sample_renewer "n2:b", [false; false])).2.
Proof.
  assert (H : renewer_ok (sample_renewer "n1:b")).
  { intros k l. unfold sample_renewer. cbn [rn_leases].
    rewrite lookup_insert_Some, lookup_singleton_Some. intros [[<- <-]|[_ [<- <-]]]; done. }
  split; [done|].
  exact (proj1 (renewal_pass_settles 20 21 _ (sample_renewer "n2:b") [false; false]
                  [sample_lease "task:a" "n1:a" 0] H)).
Defined.

(** ** Renewed locks do not lapse *)

Section Renewals.
Context {R : Type} `{RS : RedisServer R}.

(** A lock's history from its owner's side: before each renewal at time [t],
    the scripts [others] of other nodes. *)
Fixpoint renewals (key value : string) (ttl : Z) (h : list (list (Z * ScriptCall) * Z)) (r : R) : list Reply * R :=
  match h with
  | [] => ([], r)
  | (others, t) :: h' =>
      let '(reply, r1) := run_script t (Renew key value ttl) (run_calls others r) in
      let '(replies, r2) := renewals key value ttl h' r1 in (reply :: replies, r2)
  end.

(** Each renewal arrives within the time to live of the one before. *)
Fixpoint in_time (key value : string) (ttl now : Z) (h : list (list (Z * ScriptCall) * Z)) : Prop :=
  match h with
  | [] => True
  | (others, t) :: h' =>
      now <= t < now + ttl * 1000 /\ timed now (t + 1) others /\
      Forall (fun c => ~ own_call key value c.2) others /\ in_time key value ttl t h'
  end.

Lemma timed_le now until until' l : until <= until' -> timed now until l -> timed now until' l.
Proof.
  revert now. induction l as [|[t c] l IH]; intros now Hle; simpl; [done|].
  intros [H1 H2]. split; [lia|by apply IH].
Qed.

Lemma timed_before now t l x : timed now (t + 1) l -> last l = Some x -> x.1 <= t.
Proof.
  revert now. induction l as [|[u c] l IH]; intros now Ht Hx; [done|]. destruct Ht as [Hu Ht].
  rewrite last_cons in Hx. destruct (last l) eqn:E; simplify_eq; [by eapply IH|simpl; lia].
Qed.

Definition last_renewal (now : Z) (h : list (list (Z * ScriptCall) * Z)) : Z := foldl (fun _ x => x.2) now h.

(** A lock that is renewed in time never lapses: if each renewal reaches
    the server within the time to live of the one before, every renewal
    succeeds, whatever other nodes try in between, and the owner holds the lock
    for a full lease after the last one. *)
Theorem renewed_lock_never_lapses key value ttl h r now :
  0 < ttl -> owns key value (now + ttl * 1000) r now -> in_time key value ttl now h ->
  Forall (eq (RInt 1)) (renewals key value ttl h r).1 /\
  owns key value (last_renewal now h + ttl * 1000) (renewals key value ttl h r).2 (last_renewal now h).
Proof.
  intros Httl. revert r now. induction h as [|[others t] h IH]; intros r now Ho Ht; [done|].
  cbn [in_time] in Ht. destruct Ht as (Hn & Htm & Hf & Hrest). cbn [renewals].
  assert (Ho' : owns key value (now + ttl * 1000) (run_calls others r) t).
  { eapply owns_calls; [exact Ho|eapply timed_le; [|exact Htm]; lia|done| |lia].
    intros c Hc. by eapply timed_before. }
  destruct (renew_spec key value ttl _ _ t Httl Ho') as (r1 & Hs & Ho1). rewrite Hs.
  destruct (IH r1 t Ho1 Hrest) as [H1 H2].
  destruct (renewals key value ttl h r1) as [replies r2]. cbn [fst snd] in *.
  split; [by constructor|exact H2].
Qed.
End Renewals.

Module RenewerExample.

Definition history : list (list (Z * ScriptCall) * Z) :=
  [([(10000, Lock "task:a" "n2:x" 60)], 20000); ([(30000, Unlock "task:a" "n2:x")], 75000)].

Lemma renewed_lock_never_lapses_witness :
  let r := (run_script 1000 (Lock "task:a" "n1:a" 60) (∅ : Store)).2 in
  Forall (eq (RInt 1)) (renewals "task:a" "n1:a" 60 history r).1 /\
  owns "task:a" "n1:a" 135000 (renewals "task:a" "n1:a" 60 history r).2 75000.
Proof.
  intros r. apply (renewed_lock_never_lapses "task:a" "n1:a" 60 history r 1000); [done|done|].
  split_and!; simpl; try lia; repeat constructor; simpl; try lia; intros [? [=]].
Defined.

End RenewerExample.
