(* ===== verification/Scheduler.v ===== *)
(** The task scheduler ([scheduler/task_scheduler.cpp]): the scan that claims due
    tasks and hands them to the thread pool, the job that runs one execution
    and records its outcome, and the recovery of stale executions.

    The code is written as programs over the calls it makes on the components
    around it ([SchedE]), so that the theorems on traces hold whatever other
    threads and other nodes do between two calls; [Node.v] answers the calls
    with the components' models.  [std::bad_alloc] and other exceptions of the
    standard library are outside the model. *)
From S2P Require Import Prelude Datetime Text Config Protocol TaskTable Cancellation RpcClientPool CronParser LockRenewer Effects.

Open Scope prog_scope.

Definition kTaskLockTtlSec : Z := 60.
Definition kStaleRecoveryBatchSize : Z := 50.

Definition ns_per_milli : Z := 1000000.

(** [duration_cast<milliseconds>] and [duration_cast<seconds>] truncate. *)
Definition to_ms (ns : Z) : Z := ns ÷ ns_per_milli.
Definition to_sec (ns : Z) : Z := ns ÷ ns_per_sec.

(** What the lambda of [enqueue] captures. *)
Record Job := mkJob {
  job_task : TaskMeta.t;
  job_lock_key : string;
  job_lock_value : string;
  job_execution_id : string;
  job_cancellation : CancellationSource
}.

#[global] Instance TaskMeta_eq_dec : EqDecision TaskMeta.t.
Proof. solve_decision. Defined.
#[global] Instance Job_eq_dec : EqDecision Job.
Proof. solve_decision. Defined.

Inductive MetricOp :=
| ObserveScheduleDelay (delay_ms : Z)
| ObserveTaskDuration (duration_ms : Z)
| IncTaskSuccess
| IncTaskFailure
| IncLockAcquireSuccess
| IncLockAcquireFailure.

(** The calls of the scheduler's threads, with the type of their answers. *)
Inductive SchedE : Type -> Type :=
(* MySQLClient *)
| GetDueTasks (limit : Z) : SchedE (list TaskMeta.t)
| GetStaleRunningTasks (stale_after_sec limit : Z) : SchedE (list TaskMeta.t)
| UpdateTaskRuntime (id : string) (status : Z) (next_run_at last_run_at : string) (retry_count : Z) : SchedE bool
| ClaimTaskExecution (id execution_id node : string) (required_status : Z) (next_run_at : string) : SchedE bool
| CompleteTaskExecution (id execution_id : string) (status : Z) (next_run_at last_run_at : string)
    (retry_count : Z) : SchedE bool
| RecoverTaskExecution (id execution_id : string) : SchedE bool
| AddHistory (history : TaskHistory.t) : SchedE bool
(* RedisClient *)
| DiscoverServices (service_name : string) : SchedE (list string)
| RedisLock (key value : string) (expire_sec timeout_ms : Z) : SchedE bool
| RedisRenew (key value : string) (expire_sec : Z) : SchedE bool
| RedisUnlock (key value : string) : SchedE bool
(* CancellationSource, CancellationToken, TaskCancellationRegistry *)
| NewSource : SchedE CancellationSource
| ShutdownSource : SchedE CancellationSource
| IsCanceled (t : CancellationToken) : SchedE bool
| RegisterTask (task_id execution_id : string) (source : CancellationSource) : SchedE ()
| UnregisterTask (task_id execution_id : string) : SchedE ()
(* LockRenewer *)
| LeaseAdd (key value : string) (ttl_sec : Z) (source : CancellationSource) : SchedE ()
| LeaseRemove (key value : string) : SchedE ()
| DueLeases : SchedE (list Lease)
| SettleLeases (due lost : list Lease) : SchedE ()
(* DynamicThreadPool, RpcClientPool, Metrics *)
| Enqueue (j : Job) : SchedE bool
| PoolCall (endpoints : list string) (serial_id : Z) (request : string) (timeout_ms : Z)
    (cancellation : CancellationToken) : SchedE PoolResult
| Metric (op : MetricOp) : SchedE ()
(* clocks, in nanoseconds, and the sequence of [next_execution_id] *)
| SystemNow : SchedE Z
| SteadyNow : SchedE Z
| NextSequence : SchedE Z
(* the scheduler's own [running_] and [loop_cv_] *)
| Running : SchedE bool
| LoopWait : SchedE ().

Abbreviation SP := (Prog SchedE).

(** ** Pure parts *)

(** The wait grows with each failure, up to five minutes. *)
Definition retry_delay_seconds (retry_count : Z) : Z :=
  let exponent := Z.min (Z.max (retry_count - 1) 0) 6 in
  Z.min 300 (5 * Z.shiftl 1 exponent).

Record ExecutionOutcome := mkOutcome { oc_success : bool; oc_result : string; oc_error : string; oc_endpoint : string }.

Definition no_outcome : ExecutionOutcome := mkOutcome false EmptyString EmptyString EmptyString.

(** The messages of the generated code. *)
Record ExecuteTaskRequest := mkExecuteTaskRequest {
  et_task_id : string; et_execution_id : string; et_params : string; et_handler : string;
  et_auth_token : string; et_deadline_unix_ms : Z
}.
Record ExecuteTaskResponse := mkExecuteTaskResponse { er_success : bool; er_result : string; er_error : string }.

Section Scheduler.
Context (config : Config) (node_id service_name : string).
(** The C library's zone conversions and croncpp (see [CronParser.v]). *)
Context (utc_to_local local_to_utc : Z -> option Z) (cron_next : string -> Z -> option Z).
(** protobuf *)
Context (SerializeExecuteTask : ExecuteTaskRequest -> option string)
        (ParseRpcError : string -> option (Z * string))
        (ParseExecuteTaskResponse : string -> option ExecuteTaskResponse).

Definition date_of_ns (t : Z) : string := to_datetime_string_sec utc_to_local (to_sec t).
Definition date_of_ms (t : Z) : string := to_datetime_string utc_to_local t.
Definition next_ms (cron_expr : string) (now_ms : Z) : Z :=
  nextExecution utc_to_local local_to_utc cron_next now_ms cron_expr now_ms.

(** Status, next run and retry count after an execution that ended at [end_ns];
    [shutdown] is the request seen at that point.  The count is an [int] in the
    source and its increment is not checked; it is the same here for every count
    below [INT_MAX], and a count stays below [max_retries] as long as the task is
    scheduled (see [SchedulerOutcome]). *)
Definition next_state (shutdown : bool) (o : ExecutionOutcome) (task : TaskMeta.t) (end_ns : Z)
    : Z * string * Z :=
  let end_time := date_of_ns end_ns in
  if shutdown then (TASK_SCHEDULED, TaskMeta.next_run_at task, TaskMeta.retry_count task)
  else if oc_success o then
    let next := next_ms (TaskMeta.cron_expr task) (to_ms end_ns) in
    if negb (next =? 0) then (TASK_SCHEDULED, date_of_ms next, 0) else (TASK_DISABLED, end_time, 0)
  else
    let next_retry_count := TaskMeta.retry_count task + 1 in
    if TaskMeta.max_retries task <=? next_retry_count then (TASK_DISABLED, end_time, next_retry_count)
    else (TASK_SCHEDULED, date_of_ns (end_ns + retry_delay_seconds next_retry_count * ns_per_sec), next_retry_count).

(** ** Operations *)

Definition next_execution_id (task_id : string) : SP string :=
  do* now := ask SystemNow in
  do* n := ask NextSequence in
  Ret (task_id +:+ ":" +:+ to_string (to_ms now) +:+ ":" +:+ to_string n).

Definition outcome_of_response (endpoint : string) (serial_id : Z) (resp_data : string) : ExecutionOutcome :=
  if serial_id =? kRpcErrorSerialId then
    mkOutcome false EmptyString
      (match ParseRpcError resp_data with
       | Some (code, message) => "RPC error " +:+ to_string code +:+ ": " +:+ message
       | None => "RPC error response parse failed"
       end) endpoint
  else if negb (serial_id =? kExecuteTaskResponseSerialId) then
    mkOutcome false EmptyString ("Unexpected RPC response serial_id: " +:+ to_string serial_id) endpoint
  else
    match ParseExecuteTaskResponse resp_data with
    | Some r => mkOutcome (er_success r) (er_result r) (er_error r) endpoint
    | None => mkOutcome false EmptyString "Failed to parse ExecuteTaskResponse" endpoint
    end.

Definition executeTask (task : TaskMeta.t) (execution_id : string) (cancellation : CancellationToken)
    : SP ExecutionOutcome :=
  do* canceled := ask (IsCanceled cancellation) in
  if (canceled : bool) then
    Ret (mkOutcome false EmptyString "Task execution canceled before RPC dispatch" EmptyString)
  else
    do* endpoints := ask (DiscoverServices (service_name +:+ ":" +:+ TaskMeta.handler task)) in
    match endpoints with
    | [] => Ret (mkOutcome false EmptyString ("No worker available for handler: " +:+ TaskMeta.handler task) EmptyString)
    | _ =>
        let t := getInt config "scheduler.task_timeout_ms" 5000 in
        let task_timeout_ms := if t <=? 0 then 5000 else t in
        do* now := ask SystemNow in
        let req := mkExecuteTaskRequest (TaskMeta.id task) execution_id (TaskMeta.params task)
                     (TaskMeta.handler task) (get config "rpc.auth_token" EmptyString)
                     (u64 (to_ms now + task_timeout_ms)) in
        match SerializeExecuteTask req with
        | None => Ret (mkOutcome false EmptyString "Failed to serialize ExecuteTaskRequest" EmptyString)
        | Some req_data =>
            do* r := ask (PoolCall endpoints kExecuteTaskRequestSerialId req_data task_timeout_ms cancellation) in
            match pr_response r with
            | Some (serial_id, resp_data) => Ret (outcome_of_response (pr_endpoint r) serial_id resp_data)
            | None =>
                do* canceled := ask (IsCanceled cancellation) in
                Ret (mkOutcome false EmptyString
                       (if (canceled : bool) then "Task execution canceled"
                        else "RPC call failed or timed out after " +:+ to_string task_timeout_ms +:+
                             " ms: " +:+ pr_error r)
                       (pr_endpoint r))
            end
        end
    end.

(** [shutdown_cancellation_.isCancellationRequested()] *)
Definition shutdown_requested : SP bool :=
  do* s := ask ShutdownSource in ask (IsCanceled (token s)).

Definition history_of (j : Job) (o : ExecutionOutcome) (start_ns end_ns : Z) : TaskHistory.t :=
  TaskHistory.mk (job_execution_id j) (TaskMeta.id (job_task j))
    (if str_empty (oc_endpoint o) then node_id else oc_endpoint o)
    (oc_success o) (oc_result o) (oc_error o) (date_of_ns start_ns) (date_of_ns end_ns).

(** [execution_cleanup] *)
Definition execution_cleanup (j : Job) : SP () :=
  ask (UnregisterTask (TaskMeta.id (job_task j)) (job_execution_id j)) ;;!
  ask (LeaseRemove (job_lock_key j) (job_lock_value j)) ;;!
  ask (RedisUnlock (job_lock_key j) (job_lock_value j)) ;;! Ret ().

(** The lambda given to the thread pool. *)
Definition run_job (j : Job) : SP () :=
  let task := job_task j in
  scope_exit (execution_cleanup j) (
    do* s := ask ShutdownSource in
    let cancellation := linkCancellationTokens [token s; token (job_cancellation j)] in
    do* start := ask SystemNow in
    do* steady_start := ask SteadyNow in
    do* outcome := executeTask task (job_execution_id j) cancellation in
    do* end_ := ask SystemNow in
    do* steady_end := ask SteadyNow in
    ask (Metric (ObserveTaskDuration (u64 (to_ms (steady_end - steady_start))))) ;;!
    do* down := shutdown_requested in
    (if (down : bool) then Ret ()
     else ask (Metric (if oc_success outcome then IncTaskSuccess else IncTaskFailure))) ;;!
    ask (AddHistory (history_of j outcome start end_)) ;;!
    do* down := shutdown_requested in
    let '(next_status, next_run_at, next_retry_count) := next_state down outcome task end_ in
    ask (CompleteTaskExecution (TaskMeta.id task) (job_execution_id j) next_status next_run_at
           (date_of_ns end_) next_retry_count) ;;!
    Ret (false, ())).

(** ** The scan *)

(** The misfire policy [skip]: answers whether the task was dealt with. *)
Definition skip_misfire (grace_seconds : Z) (task : TaskMeta.t) : SP bool :=
  match parse_datetime local_to_utc (TaskMeta.next_run_at task) with
  | None => Ret false
  | Some due_at =>
      do* now := ask SystemNow in
      if grace_seconds <? to_sec (now - due_at * ns_per_sec) then
        let next := next_ms (TaskMeta.cron_expr task) (to_ms now) in
        (if negb (next =? 0) then
           ask (UpdateTaskRuntime (TaskMeta.id task) TASK_SCHEDULED (date_of_ms next)
                  (TaskMeta.last_run_at task) (TaskMeta.retry_count task))
         else
           ask (UpdateTaskRuntime (TaskMeta.id task) TASK_DISABLED (TaskMeta.next_run_at task)
                  (TaskMeta.last_run_at task) (TaskMeta.retry_count task))) ;;!
        Ret true
      else Ret false
  end.

Definition observe_delay (task : TaskMeta.t) : SP () :=
  match parse_datetime local_to_utc (TaskMeta.next_run_at task) with
  | Some due_at =>
      do* now := ask SystemNow in
      let delay_ms := to_ms (now - due_at * ns_per_sec) in
      ask (Metric (ObserveScheduleDelay (if 0 <? delay_ms then u64 delay_ms else 0)))
  | None => ask (Metric (ObserveScheduleDelay 0))
  end.

(** [enqueue_cleanup]; [claimed] is [execution_claimed] when the scope is left. *)
Definition enqueue_cleanup (j : Job) (claimed : bool) : SP () :=
  let task := job_task j in
  ask (UnregisterTask (TaskMeta.id task) (job_execution_id j)) ;;!
  ask (LeaseRemove (job_lock_key j) (job_lock_value j)) ;;!
  (if claimed then
     ask (CompleteTaskExecution (TaskMeta.id task) (job_execution_id j) TASK_SCHEDULED
            (TaskMeta.next_run_at task) (TaskMeta.last_run_at task) (TaskMeta.retry_count task)) ;;! Ret ()
   else Ret ()) ;;!
  ask (RedisUnlock (job_lock_key j) (job_lock_value j)) ;;! Ret ().

(** From the acquired lock to the hand-over. *)
Definition claim_and_enqueue (task : TaskMeta.t) (lock_key lock_value execution_id : string) : SP () :=
  do* task_cancellation := ask NewSource in
  let j := mkJob task lock_key lock_value execution_id task_cancellation in
  ask (LeaseAdd lock_key lock_value kTaskLockTtlSec task_cancellation) ;;!
  ask (RegisterTask (TaskMeta.id task) execution_id task_cancellation) ;;!
  do* claimed := ask (ClaimTaskExecution (TaskMeta.id task) execution_id node_id TASK_SCHEDULED
                        (TaskMeta.next_run_at task)) in
  if negb claimed then enqueue_cleanup j false
  else
    do* canceled := ask (IsCanceled (token task_cancellation)) in
    if (canceled : bool) then enqueue_cleanup j true
    else
      do* enqueued := ask (Enqueue j) in
      if (enqueued : bool) then Ret () else enqueue_cleanup j true.

Definition dispatch_task (task : TaskMeta.t) : SP () :=
  observe_delay task ;;!
  do* execution_id := next_execution_id (TaskMeta.id task) in
  let lock_key := "task:" +:+ TaskMeta.id task in
  let lock_value := node_id +:+ ":" +:+ execution_id in
  do* locked := ask (RedisLock lock_key lock_value kTaskLockTtlSec 100) in
  if (locked : bool) then
    ask (Metric IncLockAcquireSuccess) ;;!
    claim_and_enqueue task lock_key lock_value execution_id
  else ask (Metric IncLockAcquireFailure).

Abbreviation Handlers := (gmap string bool).

(** Whether a worker serves [handler], asked once per handler and scan. *)
Definition handler_available (available_handlers : Handlers) (handler : string) : SP (bool * Handlers) :=
  match available_handlers !! handler with
  | Some b => Ret (b, available_handlers)
  | None =>
      do* endpoints := ask (DiscoverServices (service_name +:+ ":" +:+ handler)) in
      let b := match (endpoints : list string) with [] => false | _ => true end in
      Ret (b, <[handler := b]> available_handlers)
  end.

Definition misfire_policy : string := get config "scheduler.misfire_policy" "once".
Definition misfire_grace_seconds : Z := Z.max 0 (getInt config "scheduler.misfire_grace_seconds" 300).

Definition scan_task (available_handlers : Handlers) (task : TaskMeta.t) : SP Handlers :=
  do* skipped := (if String.eqb misfire_policy "skip" then skip_misfire misfire_grace_seconds task else Ret false) in
  if (skipped : bool) then Ret available_handlers
  else
    do* a := handler_available available_handlers (TaskMeta.handler task) in
    if negb a.1 then Ret a.2 else dispatch_task task ;;! Ret a.2.

Definition stale_after_sec : Z :=
  Z.max (getInt config "scheduler.running_stale_timeout_sec" 120) (kTaskLockTtlSec * 2).

Definition recover_task (task : TaskMeta.t) : SP () :=
  let lock_key := "task:" +:+ TaskMeta.id task in
  let lock_value := "recovery:" +:+ node_id +:+ ":" +:+ TaskMeta.current_execution_id task in
  do* locked := ask (RedisLock lock_key lock_value kTaskLockTtlSec 0) in
  if negb locked then Ret ()
  else
    scope_exit (ask (RedisUnlock lock_key lock_value) ;;! Ret ())
      (ask (RecoverTaskExecution (TaskMeta.id task) (TaskMeta.current_execution_id task)) ;;! Ret (false, ())).

Definition recoverStaleExecutions : SP () :=
  do* stale_tasks := ask (GetStaleRunningTasks stale_after_sec kStaleRecoveryBatchSize) in
  pfor recover_task stale_tasks.

Definition scanAndDispatch : SP () :=
  recoverStaleExecutions ;;!
  do* tasks := ask (GetDueTasks 100) in
  pfold scan_task ∅ tasks ;;! Ret ().

(** [schedulerLoop], for at most [rounds] rounds: it ends when [stop] clears
    [running_]. *)
Fixpoint schedulerLoop (rounds : nat) : SP () :=
  match rounds with
  | O => Ret ()
  | S n =>
      do* running := ask Running in
      if (running : bool) then scanAndDispatch ;;! ask LoopWait ;;! schedulerLoop n else Ret ()
  end.

(** One pass of [LockRenewer::loop]: the due leases are renewed without the
    mutex, and settled under it. *)
Definition renew_pass : SP () :=
  do* due := ask DueLeases in
  do* lost := pfold (fun lost lease =>
      do* ok := ask (RedisRenew (le_key lease) (le_value lease) (le_ttl_sec lease)) in
      Ret (if (ok : bool) then lost else lost ++ [lease])) [] due in
  ask (SettleLeases due lost).

End Scheduler.

(** A quiet world: one due task, one worker, and every call works. *)
Module SchedulerExample.

Definition config : Config := mkConfig (fun _ => None) ∅.

Definition nightly : TaskMeta.t :=
  TaskMeta.mk "nightly" "0 0 3 * * *" "{}" "echo" TASK_SCHEDULED "2026-01-01 03:00:00" EmptyString 0 3
    EmptyString EmptyString EmptyString.

Definition next_day (expr : string) (now : Z) : option Z := Some (now + 86400).

Definition serialize (r : ExecuteTaskRequest) : option string := Some (et_task_id r).
Definition parse_error (s : string) : option (Z * string) := None.
Definition parse_response (s : string) : option ExecuteTaskResponse :=
  if String.eqb s "ok" then Some (mkExecuteTaskResponse true "done" EmptyString) else None.

Definition answer (X : Type) (e : SchedE X) : X :=
  match e with
  | GetDueTasks _ => [nightly]
  | GetStaleRunningTasks _ _ => []
  | DiscoverServices _ => ["127.0.0.1:9000"]
  | NewSource => 1%nat
  | ShutdownSource => 0%nat
  | IsCanceled _ => false
  | DueLeases => []
  | PoolCall _ _ _ _ _ => mkPoolResult (Some (kExecuteTaskResponseSerialId, "ok")) "127.0.0.1:9000" EmptyString
  | SystemNow => 1767236400 * ns_per_sec
  | SteadyNow => 0
  | NextSequence => 7
  | UpdateTaskRuntime _ _ _ _ _ | ClaimTaskExecution _ _ _ _ _ | CompleteTaskExecution _ _ _ _ _ _
  | RecoverTaskExecution _ _ | AddHistory _ | RedisLock _ _ _ _ | RedisRenew _ _ _ | RedisUnlock _ _
  | Enqueue _ | Running => true
  | RegisterTask _ _ _ | UnregisterTask _ _ | LeaseAdd _ _ _ _ | LeaseRemove _ _ | SettleLeases _ _
  | Metric _ | LoopWait => ()
  end.

Definition handle (X : Type) (e : SchedE X) : M () X := retM (answer X e).

Definition scan : SP () := scanAndDispatch config "node1" "rpc" Some Some next_day.

Definition job : Job :=
  mkJob nightly "task:nightly" "node1:nightly:1767236400000:7" "nightly:1767236400000:7" 1.

Definition job_run : SP () :=
  run_job config "node1" "rpc" Some Some next_day serialize parse_error parse_response job.

(** The scan hands over exactly this job. *)
Lemma scan_enqueues_job :
  last (trace_of handle scan ()) = Some (Called (Enqueue job) true).
Proof. reflexivity. Qed.

Lemma scan_trace : exec scan (trace_of handle scan ()) ().
Proof. destruct (run_exec handle scan ()) as [H _]. by destruct (run handle scan ()).1. Qed.

Lemma job_trace : exec job_run (trace_of handle job_run ()) ().
Proof. destruct (run_exec handle job_run ()) as [H _]. by destruct (run handle job_run ()).1. Qed.

End SchedulerExample.
