(* ===== verification/CronRuns.v ===== *)
(** The runs of a task: what [next_state] of the scheduler makes of a cron
    expression, with the library it calls in place of a parameter
    ([scheduler/task_scheduler.cpp] with [third_party/croncpp.h]). *)
From S2P Require Import Prelude Datetime Text Config TaskTable LockRenewer Scheduler CronParser CronExpr CronNext CronCalendar CronSearch CronLeast CronText CronSchedule.

#[local] Opaque month_start month_of mday_of wday_of.

(** Local times of the years 1970 to 9999 have a text. *)
Lemma dt_year_of x : dt_year x = month_of (x / 86400) / 12.
Proof. unfold dt_year. by rewrite civil_from_month. Qed.

Lemma in_range_until_9999 x : 0 <= x < 253402300800 -> dt_in_range x = true.
Proof.
  intros Hx. unfold dt_in_range. rewrite dt_year_of.
  assert (H0 : month_of 0 = 23640) by (by vm_compute). assert (H1 : month_of 2932896 = 119999) by (by vm_compute).
  assert (Hd : 0 <= x / 86400 <= 2932896) by (split; [apply Z.div_pos; lia|apply Z.lt_succ_r, Z.div_lt_upper_bound; lia]).
  pose proof (month_of_mono 0 (x / 86400) ltac:(lia)). pose proof (month_of_mono (x / 86400) 2932896 ltac:(lia)).
  pose proof (Z.div_le_mono 23640 (month_of (x / 86400)) 12 ltac:(lia) ltac:(lia)).
  pose proof (Z.div_le_mono (month_of (x / 86400)) 119999 12 ltac:(lia) ltac:(lia)).
  change (23640 / 12) with 1970 in *. change (119999 / 12) with 9999 in *.
  by rewrite (proj2 (Z.leb_le _ _)), (proj2 (Z.leb_le _ _)) by lia.
Qed.

Section Runs.
Context {mktime : tm -> Z * tm} {off : Z} (zone : FixedZone mktime off) (Hoff : -86400 < off < 86400).
Context (utc_to_local local_to_utc : Z -> option Z).
Context (Hlocal : forall s, utc_to_local s = Some (s + off)) (Hutc : forall t, local_to_utc t = Some (t - off)).
Context (fuel : nat).

Abbreviation decided := (next_state utc_to_local local_to_utc (croncpp mktime fuel)).

Lemma to_sec_ms t : 0 <= t -> to_ms t / 1000 = to_sec t.
Proof.
  intros Ht. unfold to_ms, to_sec, ns_per_milli, ns_per_sec. rewrite !Z.quot_div_nonneg by lia. by rewrite Z.div_div by lia.
Qed.

(** A success at [end_ns] schedules the task, under the text of the first local
    time after it that its expression denotes, and resets its retries; or
    disables it when the expression excludes months and denotes no time in
    the years searched. *)
Theorem success_schedules_the_next_time e task o end_ns :
  fields_ok e = true -> plain_fields e = true -> TaskMeta.cron_expr task = render e -> oc_success o = true ->
  let now_sec := to_sec end_ns in
  0 < to_ms end_ns < 2 ^ 53 -> 86400 <= now_sec < 253000000000 -> (search_fuel (now_sec + off) <= fuel)%nat ->
  (exists y, decided false o task end_ns = (TASK_SCHEDULED, strftime_dt y, 0) /\ parse_dt (strftime_dt y) = Some y /\
     now_sec + off < y /\ scheduled e y = true /\ forall z, now_sec + off < z < y -> scheduled e z = false) \/
  (decided false o task end_ns = (TASK_DISABLED, date_of_ns utc_to_local end_ns, 0) /\ all_values 1 12 (f_months e) = false /\
     forall z, now_sec + off < z < horizon (year_of (now_sec + off)) -> scheduled e z = false).
Proof.
  intros Hok Hp Hcron Hsucc now_sec Hms Hnow Hfuel. unfold next_state, next_ms. rewrite Hsucc, Hcron.
  assert (Hend : 0 <= end_ns).
  { destruct (Z.le_gt_cases 0 end_ns); [done|]. unfold to_ms, ns_per_milli in Hms.
    pose proof (Z.quot_opp_l end_ns 1000000 ltac:(lia)). pose proof (Z.quot_pos (- end_ns) 1000000 ltac:(lia) ltac:(lia)). lia. }
  pose proof (to_sec_ms end_ns Hend) as Hsec. fold now_sec in Hsec. rewrite <- Hsec in Hfuel.
  destruct (written_bounded zone Hoff utc_to_local local_to_utc Hlocal Hutc fuel (to_ms end_ns) e (to_ms end_ns) Hok Hp Hms Hfuel)
    as [(s & Hs & Hlt & Hb & Hsch & Hnone)|(H0 & Hall & Hnone)]; rewrite Hsec in *.
  - left. exists (s + off). rewrite Hs, (proj2 (Z.eqb_neq (s * 1000) 0)) by lia. cbn [negb].
    assert (Hr : dt_in_range (s + off) = true) by (apply in_range_until_9999; lia).
    unfold date_of_ms, to_datetime_string, to_datetime_string_sec. rewrite Z.div_mul, Hlocal, Hr by lia.
    split_and!; [done|by apply parse_strftime|lia|done|].
    intros z Hz. rewrite <- (Hnone (z - off)) by lia. f_equal. lia.
  - right. rewrite H0. done.
Qed.

End Runs.
