(* ===== verification/SchedulerSafety.v ===== *)
(** The scheduler's protocol with the components around it: a ledger of what a
    thread holds (locks, leases, registrations, claims), kept along the trace
    of its calls, whatever the answers are.  A call made without what it needs
    stops the ledger; what the scan hands to the thread pool leaves the scan's
    ledger and enters the job's. *)
From S2P Require Import Prelude TaskTable Cancellation LockRenewer Effects Config CronParser Text Datetime Protocol RpcClientPool Scheduler.

Record Ledger := mkLedger {
  held_locks : gset (string * string);
  held_leases : gset (string * string);
  registered : gset (string * string);
  claimed : gset (string * string);
  handed_over : list Job
}.

Definition empty_ledger (jobs : list Job) : Ledger := mkLedger ∅ ∅ ∅ ∅ jobs.

Section Ledger.
Context (node_id : string).

Definition task_lock (id execution_id : string) : string * string :=
  ("task:" +:+ id, node_id +:+ ":" +:+ execution_id).
Definition recovery_lock (id execution_id : string) : string * string :=
  ("task:" +:+ id, "recovery:" +:+ node_id +:+ ":" +:+ execution_id).

Definition lock_of (j : Job) : string * string := (job_lock_key j, job_lock_value j).
Definition run_of (j : Job) : string * string := (TaskMeta.id (job_task j), job_execution_id j).

(** The job's lock is the lock of its task, in the name of its execution. *)
Definition job_ok (j : Job) : Prop := lock_of j = task_lock (run_of j).1 (run_of j).2.

Definition set_held_locks (f : gset (string * string) -> gset (string * string)) (l : Ledger) : Ledger :=
  mkLedger (f (held_locks l)) (held_leases l) (registered l) (claimed l) (handed_over l).
Definition set_held_leases (f : gset (string * string) -> gset (string * string)) (l : Ledger) : Ledger :=
  mkLedger (held_locks l) (f (held_leases l)) (registered l) (claimed l) (handed_over l).
Definition set_registered (f : gset (string * string) -> gset (string * string)) (l : Ledger) : Ledger :=
  mkLedger (held_locks l) (held_leases l) (f (registered l)) (claimed l) (handed_over l).
Definition set_claimed (f : gset (string * string) -> gset (string * string)) (l : Ledger) : Ledger :=
  mkLedger (held_locks l) (held_leases l) (registered l) (f (claimed l)) (handed_over l).

Definition require (P : Prop) `{Decision P} (l : Ledger) : option Ledger := if decide P then Some l else None.

(** Everything an execution of [id] needs before it is claimed. *)
Definition prepared (l : Ledger) (id execution_id : string) : Prop :=
  task_lock id execution_id ∈ held_locks l /\ task_lock id execution_id ∈ held_leases l /\
  (id, execution_id) ∈ registered l.

Definition owns_job (l : Ledger) (j : Job) : Prop :=
  job_ok j /\ prepared l (run_of j).1 (run_of j).2 /\ run_of j ∈ claimed l.

#[global] Instance prepared_dec l id e : Decision (prepared l id e).
Proof. unfold prepared. apply _. Defined.
#[global] Instance owns_job_dec l j : Decision (owns_job l j).
Proof. unfold owns_job, job_ok. apply _. Defined.

(** The ledger of the job alone. *)
Definition job_ledger (j : Job) : Ledger :=
  mkLedger {[lock_of j]} {[lock_of j]} {[run_of j]} {[run_of j]} [].

Definition hand_over (j : Job) (l : Ledger) : Ledger :=
  mkLedger (held_locks l ∖ {[lock_of j]}) (held_leases l ∖ {[lock_of j]})
    (registered l ∖ {[run_of j]}) (claimed l ∖ {[run_of j]}) (handed_over l ++ [j]).

Definition ledger_step (l : Ledger) (ev : Event SchedE) : option Ledger :=
  match ev with
  | @Called _ X e x =>
      match e in SchedE X return X -> option Ledger with
      | RedisLock k v _ _ => fun b => Some (if b then set_held_locks (union {[(k, v)]}) l else l)
      | RedisUnlock k v => fun _ =>
          set_held_locks (fun s => s ∖ {[(k, v)]}) <$> require ((k, v) ∈ held_locks l /\ (k, v) ∉ held_leases l) l
      | LeaseAdd k v _ _ => fun _ => set_held_leases (union {[(k, v)]}) <$> require ((k, v) ∈ held_locks l) l
      | LeaseRemove k v => fun _ => Some (set_held_leases (fun s => s ∖ {[(k, v)]}) l)
      | RegisterTask id e _ => fun _ => Some (set_registered (union {[(id, e)]}) l)
      | UnregisterTask id e => fun _ => Some (set_registered (fun s => s ∖ {[(id, e)]}) l)
      | ClaimTaskExecution id e node _ _ => fun b =>
          (fun l => if (b : bool) then set_claimed (union {[(id, e)]}) l else l) <$>
            require (node = node_id /\ prepared l id e) l
      | CompleteTaskExecution id e _ _ _ _ => fun _ =>
          set_claimed (fun s => s ∖ {[(id, e)]}) <$>
            require ((id, e) ∈ claimed l /\ task_lock id e ∈ held_locks l) l
      | RecoverTaskExecution id e => fun _ => require (recovery_lock id e ∈ held_locks l) l
      | AddHistory h => fun _ =>
          require ((TaskHistory.task_id h, TaskHistory.execution_id h) ∈ claimed l) l
      | Enqueue j => fun b => if (b : bool) then hand_over j <$> require (owns_job l j) l else Some l
      | _ => fun _ => Some l
      end x
  end.

Lemma wp_lock {A} k v t w (c : bool -> SP A) l Q :
  wp ledger_step (c true) (set_held_locks (union {[(k, v)]}) l) Q -> wp ledger_step (c false) l Q ->
  wp ledger_step (Do (RedisLock k v t w) c) l Q.
Proof. intros H1 H2 [|]; eauto. Qed.

Lemma wp_claim {A} id e st nr (c : bool -> SP A) l Q :
  prepared l id e ->
  wp ledger_step (c true) (set_claimed (union {[(id, e)]}) l) Q -> wp ledger_step (c false) l Q ->
  wp ledger_step (Do (ClaimTaskExecution id e node_id st nr) c) l Q.
Proof.
  intros Hp H1 H2 x. cbn [ledger_step]. unfold require. rewrite decide_True by done.
  destruct x; eexists; (split; [reflexivity|done]).
Qed.

Lemma wp_enqueue {A} j (c : bool -> SP A) l Q :
  owns_job l j -> wp ledger_step (c true) (hand_over j l) Q -> wp ledger_step (c false) l Q ->
  wp ledger_step (Do (Enqueue j) c) l Q.
Proof.
  intros Hp H1 H2 [|]; cbn [ledger_step]; [|eauto]. unfold require. rewrite decide_True by done.
  eexists. split; [reflexivity|done].
Qed.

Lemma require_true (P : Prop) `{Decision P} l : P -> require P l = Some l.
Proof. intros HP. unfold require. by destruct (decide P). Qed.

End Ledger.

(** One call of a program under the ledger; what the call requires is left to
    set reasoning. *)
Ltac ledger_sets :=
  unfold set_held_locks, set_held_leases, set_registered, set_claimed in *;
  cbn [held_locks held_leases registered claimed handed_over fst snd] in *.

Ltac ledger_side :=
  ledger_sets; unfold prepared in *; split_and?;
  repeat match goal with H : (_, _) = task_lock _ _ _ |- _ => rewrite <- H end;
  first [done | set_solver].

Ltac ledger_do _ :=
  lazymatch goal with
  | |- wp _ (Do (RedisLock _ _ _ _) _) _ _ => apply wp_lock
  | |- wp _ (Do (ClaimTaskExecution _ _ _ _ _) _) _ _ => apply wp_claim; [ledger_side| |]
  | |- wp _ (Do (Enqueue _) _) _ _ => apply wp_enqueue; [unfold owns_job, job_ok, lock_of, run_of; ledger_side| |]
  | |- wp _ (Do _ _) _ _ =>
      let x := fresh "x" in apply wp_do; intros x; eexists; split;
      [cbn [ledger_step]; rewrite ?require_true by ledger_side; reflexivity|]
  end.

Ltac ledger_call := prog_step ledger_do.

Section Safety.
Context (config : Config) (node_id service_name : string).
Context (utc_to_local local_to_utc : Z -> option Z) (cron_next : string -> Z -> option Z).

Abbreviation wpL := (wp (ledger_step node_id)).
Abbreviation scan := (scanAndDispatch config node_id service_name utc_to_local local_to_utc cron_next).

(** Programs that take and give nothing. *)
Definition quiet {A} (p : SP A) : Prop := forall l, wpL p l (fun _ l' => l' = l).

Ltac quiet := intros l; repeat (ledger_call || done).

Lemma quiet_execution_id id : quiet (next_execution_id id).
Proof. unfold next_execution_id. quiet. Qed.

Lemma quiet_observe task : quiet (observe_delay local_to_utc task).
Proof. unfold observe_delay. quiet. Qed.

Lemma quiet_shutdown : quiet shutdown_requested.
Proof. unfold shutdown_requested. quiet. Qed.

Lemma quiet_available h s : quiet (handler_available service_name h s).
Proof. unfold handler_available. quiet. Qed.

Lemma quiet_misfire g task : quiet (skip_misfire utc_to_local local_to_utc cron_next g task).
Proof. unfold skip_misfire. quiet. Qed.

Lemma wp_quiet {A B} (p : SP A) (k : A -> SP B) l Q :
  quiet p -> (forall a, wpL (k a) l Q) -> wpL (bindP p k) l Q.
Proof.
  intros Hp Hk. apply wp_bind. eapply wp_mono; [apply Hp|]. intros a l' ->. apply Hk.
Qed.

Lemma wp_quiet_last {A} (p : SP A) l (Q : A -> Ledger -> Prop) : quiet p -> (forall a, Q a l) -> wpL p l Q.
Proof. intros Hp HQ. eapply wp_mono; [apply Hp|]. intros a l' ->. apply HQ. Qed.

(** The three ways out of [claim_and_enqueue] leave the ledger as it was, but
    for the job that was handed over. *)
Lemma wp_enqueue_cleanup j b l :
  job_ok node_id j -> lock_of j ∈ held_locks l -> (b = true -> run_of j ∈ claimed l) ->
  wpL (enqueue_cleanup j b) l (fun _ l' =>
    l' = mkLedger (held_locks l ∖ {[lock_of j]}) (held_leases l ∖ {[lock_of j]}) (registered l ∖ {[run_of j]})
           (if b then claimed l ∖ {[run_of j]} else claimed l) (handed_over l)).
Proof.
  destruct j as [task k v e src]. unfold job_ok, lock_of, run_of, enqueue_cleanup. cbn [job_task
    job_lock_key job_lock_value job_execution_id fst snd]. intros Hok Hl Hc.
  destruct b; [specialize (Hc eq_refl)|clear Hc]; repeat ledger_call; done.
Qed.
(** Nothing is held, whatever was handed over before. *)
Definition clear_ledger (l : Ledger) : Prop := exists jobs, l = empty_ledger jobs.

Ltac ledger_eq := unfold empty_ledger, hand_over; ledger_sets; f_equal; apply leibniz_equiv; set_solver.

Lemma wp_claim_and_enqueue task k v e l :
  (k, v) = task_lock node_id (TaskMeta.id task) e -> clear_ledger l ->
  wpL (claim_and_enqueue node_id task k v e) (set_held_locks (union {[(k, v)]}) l) (fun _ l' => clear_ledger l').
Proof.
  intros Hok [jobs ->]. unfold claim_and_enqueue.
  repeat ledger_call; [|exists (jobs ++ [mkJob task k v e x]); ledger_eq|..];
    (eapply wp_mono; [apply wp_enqueue_cleanup; [done|ledger_side|first [done|intros _; ledger_side]]|]);
    intros _ l' ->; exists jobs; ledger_eq.
Qed.

Lemma wp_dispatch task l : clear_ledger l ->
  wpL (dispatch_task node_id local_to_utc task) l (fun _ l' => clear_ledger l').
Proof.
  intros Hl. unfold dispatch_task. apply wp_quiet; [apply quiet_observe|intros _].
  apply wp_quiet; [apply quiet_execution_id|intros e]. repeat ledger_call; [|done].
  by apply wp_claim_and_enqueue.
Qed.

Lemma wp_scan_task h task l : clear_ledger l ->
  wpL (scan_task config node_id service_name utc_to_local local_to_utc cron_next h task) l
    (fun _ l' => clear_ledger l').
Proof.
  intros Hl. unfold scan_task. apply wp_quiet.
  { destruct (String.eqb _ _); [apply quiet_misfire|by intros l'; apply wp_ret]. }
  intros []; [by apply wp_ret|]. apply wp_quiet; [apply quiet_available|].
  intros [[] h']; cbn [negb fst snd]; [|by apply wp_ret].
  apply wp_bind. eapply wp_mono; [by apply wp_dispatch|]. intros ? l' Hl'. by apply wp_ret.
Qed.

Lemma wp_recover_task task l : clear_ledger l ->
  wpL (recover_task node_id task) l (fun _ l' => clear_ledger l').
Proof.
  intros [jobs ->]. unfold recover_task, scope_exit. repeat ledger_call; [|by exists jobs].
  exists jobs. ledger_eq.
Qed.

Lemma wp_scan l : clear_ledger l -> wpL scan l (fun _ l' => clear_ledger l').
Proof.
  intros Hl. unfold scanAndDispatch, recoverStaleExecutions. repeat ledger_call.
  eapply wp_mono; [apply (wp_pfor _ _ _ clear_ledger); [intros; by apply wp_recover_task|done]|].
  cbv beta. intros _ l' Hl'. repeat ledger_call.
  eapply wp_mono; [apply (wp_pfold _ _ _ (fun _ => clear_ledger)); [intros; by apply wp_scan_task|done]|].
  intros h l1 H1. by apply wp_ret.
Qed.

(** ** The jobs a scan hands over *)

Definition accepted_job (ev : Event SchedE) : option Job :=
  match ev with
  | @Called _ X e x =>
      match e in SchedE X return X -> option Job with
      | Enqueue j => fun b => if (b : bool) then Some j else None
      | _ => fun _ => None
      end x
  end.

Definition enqueued (tr : list (Event SchedE)) : list Job := omap accepted_job tr.

Lemma require_Some (P : Prop) `{Decision P} l l' : require P l = Some l' -> P /\ l' = l.
Proof. unfold require. destruct (decide P); [|done]. by intros [= <-]. Qed.

Lemma ledger_handed l ev l' :
  ledger_step node_id l ev = Some l' -> handed_over l' = handed_over l ++ omap accepted_job [ev].
Proof.
  assert (Hr : forall (P : Prop) (dec : Decision P) (f : Ledger -> Ledger),
            (forall l, handed_over (f l) = handed_over l) ->
            f <$> require P l = Some l' -> handed_over l' = handed_over l).
  { intros P dec f Hf (l1 & [_ ->]%require_Some & ->)%fmap_Some. apply Hf. }
  destruct ev as [X e x]. destruct e; simpl; rewrite ?app_nil_r;
    try (intros [= <-]; done); try (by apply Hr); try (intros [_ ->]%require_Some; done).
  - apply Hr. intros l0. by destruct x.
  - destruct x; intros [= <-]; done.
  - destruct x; [|intros [= <-]; by rewrite app_nil_r].
    by intros (l1 & [_ ->]%require_Some & ->)%fmap_Some.
Qed.

Lemma monitor_handed l tr l' :
  monitor (ledger_step node_id) l tr = Some l' -> handed_over l' = handed_over l ++ enqueued tr.
Proof.
  revert l. induction tr as [|ev tr IH]; intros l; simpl; [intros [= ->]; by rewrite app_nil_r|].
  destruct (ledger_step node_id l ev) as [l1|] eqn:E; [|done]. intros H.
  rewrite (IH _ H), (ledger_handed _ _ _ E), <- app_assoc. f_equal.
  unfold enqueued. simpl. by destruct (accepted_job ev).
Qed.

(** C8.  Whatever the database, Redis, the thread pool and other threads
    answer, a scan keeps its books: it claims an execution only while it holds
    the lock of the task in the name of that execution, with the lease under
    renewal and the cancellation source registered; it recovers a stale
    execution only under the task's lock; it releases a claim only with the
    lock still in hand and unlocks only after the lease is gone; it hands a job
    to the thread pool only with all of this in place; and when it is done it
    holds nothing: everything it took went with a job or was given back. *)
Theorem scan_keeps_its_books tr :
  exec scan tr () ->
  monitor (ledger_step node_id) (empty_ledger []) tr = Some (empty_ledger (enqueued tr)).
Proof.
  intros He. destruct (wp_sound (ledger_step node_id) scan (empty_ledger []) _ _ _
    (wp_scan _ (ex_intro _ [] eq_refl)) He) as (l & Hm & jobs & ->).
  rewrite Hm. do 2 f_equal. apply (monitor_handed _ _ _ Hm).
Qed.

(** ** The job *)

Context (SerializeExecuteTask : ExecuteTaskRequest -> option string)
        (ParseRpcError : string -> option (Z * string))
        (ParseExecuteTaskResponse : string -> option ExecuteTaskResponse).

Abbreviation job_body := (run_job config node_id service_name utc_to_local local_to_utc cron_next
  SerializeExecuteTask ParseRpcError ParseExecuteTaskResponse).

Lemma quiet_execute task e c :
  quiet (executeTask config service_name SerializeExecuteTask ParseRpcError ParseExecuteTaskResponse task e c).
Proof. unfold executeTask. quiet. Qed.

Lemma wp_job j : job_ok node_id j ->
  wpL (job_body j) (job_ledger j) (fun _ l' => l' = empty_ledger []).
Proof.
  destruct j as [task k v e src]. unfold job_ok, job_ledger, lock_of, run_of. cbn [job_task
    job_lock_key job_lock_value job_execution_id fst snd]. intros Hok.
  unfold run_job, scope_exit, execution_cleanup.
  cbn [job_task job_lock_key job_lock_value job_execution_id].
  repeat ledger_call. apply wp_quiet_last; [apply quiet_execute|intros o].
  repeat ledger_call; (apply wp_quiet_last; [apply quiet_shutdown|intros down]);
    repeat ledger_call; (apply wp_quiet_last; [apply quiet_shutdown|intros later]);
    destruct (next_state utc_to_local local_to_utc cron_next later o task x2) as [[st nr] rc];
    unfold history_of; repeat ledger_call; ledger_eq.
Qed.

(** C9.  A job, started with the lock, lease, registration and claim of its
    execution, writes the history and completes the execution while it holds
    the claim and the lock, and ends with everything given back, whatever the
    answers are. *)
Theorem job_gives_everything_back j tr :
  job_ok node_id j -> exec (job_body j) tr () ->
  monitor (ledger_step node_id) (job_ledger j) tr = Some (empty_ledger []).
Proof.
  intros Hok He. by destruct (wp_sound _ _ _ _ _ _ (wp_job j Hok) He) as (l & Hm & ->).
Qed.

End Safety.

Module SafetyExample.
Import SchedulerExample.

Lemma scan_keeps_its_books_witness :
  monitor (ledger_step "node1") (empty_ledger []) (trace_of handle scan ()) = Some (empty_ledger [job]).
Proof.
  assert (E : enqueued (trace_of handle scan ()) = [job]) by reflexivity. rewrite <- E.
  exact (scan_keeps_its_books config "node1" "rpc" Some Some next_day _ scan_trace).
Defined.

Lemma job_gives_everything_back_witness :
  job_ok "node1" job /\
  monitor (ledger_step "node1") (job_ledger job) (trace_of handle job_run ()) = Some (empty_ledger []).
Proof.
  assert (H : job_ok "node1" job) by reflexivity. split; [exact H|].
  exact (job_gives_everything_back config "node1" "rpc" Some Some next_day serialize parse_error parse_response
           job _ H job_trace).
Defined.

End SafetyExample.
