(* ===== verification/SchedulerOutcome.v ===== *)
(** What the scheduler decides and records: the outcome of one execution, the
    state the task is left in, the retry sequence, and execution ids. *)
From S2P Require Import Prelude TaskTable Cancellation LockRenewer Effects Config CronParser Text Datetime Protocol RpcClientPool Scheduler.

Section Outcome.
Context (config : Config) (node_id service_name : string).
Context (utc_to_local local_to_utc : Z -> option Z) (cron_next : string -> Z -> option Z).
Context (SerializeExecuteTask : ExecuteTaskRequest -> option string)
        (ParseRpcError : string -> option (Z * string))
        (ParseExecuteTaskResponse : string -> option ExecuteTaskResponse).

(** Every call is collected. *)
Definition each (ev : Event SchedE) : bool := true.

Lemma collect_each tr : collect each tr = tr.
Proof. induction tr as [|ev tr IH]; [done|]. cbn. by rewrite IH. Qed.

Abbreviation wpC := (wp (collector each)).
Abbreviation response_outcome := (outcome_of_response ParseRpcError ParseExecuteTaskResponse).
Abbreviation decide_next := (next_state utc_to_local local_to_utc cron_next).
Abbreviation job_body := (run_job config node_id service_name utc_to_local local_to_utc cron_next
  SerializeExecuteTask ParseRpcError ParseExecuteTaskResponse).

(** The time an execution may take, and the request it sends at [now]. *)
Definition timeout_of : Z :=
  let t := getInt config "scheduler.task_timeout_ms" 5000 in if t <=? 0 then 5000 else t.

Definition request_of (task : TaskMeta.t) (execution_id : string) (now : Z) : ExecuteTaskRequest :=
  mkExecuteTaskRequest (TaskMeta.id task) execution_id (TaskMeta.params task) (TaskMeta.handler task)
    (get config "rpc.auth_token" EmptyString) (u64 (to_ms now + timeout_of)).

(** The calls of an execution up to its request, for the workers of the task's
    handler, and the outcome it comes to. *)
Definition calls_before (task : TaskMeta.t) (c : CancellationToken) (endpoints : list string) : list (Event SchedE) :=
  [Called (IsCanceled c) false; Called (DiscoverServices (service_name +:+ ":" +:+ TaskMeta.handler task)) endpoints].

Inductive rpc_outcome (task : TaskMeta.t) (execution_id : string) (c : CancellationToken)
    : list (Event SchedE) -> ExecutionOutcome -> Prop :=
| canceled_first o : oc_success o = false -> rpc_outcome task execution_id c [Called (IsCanceled c) true] o
| no_worker o : oc_success o = false -> rpc_outcome task execution_id c (calls_before task c []) o
| not_serialized endpoints now o : oc_success o = false ->
    SerializeExecuteTask (request_of task execution_id now) = None ->
    rpc_outcome task execution_id c (calls_before task c endpoints ++ [Called SystemNow now]) o
| answered endpoints now request r serial_id data :
    endpoints <> [] -> SerializeExecuteTask (request_of task execution_id now) = Some request ->
    pr_response r = Some (serial_id, data) ->
    rpc_outcome task execution_id c
      (calls_before task c endpoints ++
       [Called SystemNow now; Called (PoolCall endpoints kExecuteTaskRequestSerialId request timeout_of c) r])
      (response_outcome (pr_endpoint r) serial_id data)
| unanswered endpoints now request r canceled o :
    endpoints <> [] -> SerializeExecuteTask (request_of task execution_id now) = Some request ->
    pr_response r = None -> oc_success o = false -> oc_endpoint o = pr_endpoint r ->
    rpc_outcome task execution_id c
      (calls_before task c endpoints ++
       [Called SystemNow now; Called (PoolCall endpoints kExecuteTaskRequestSerialId request timeout_of c) r;
        Called (IsCanceled c) canceled]) o.

Ltac collect_do _ :=
  let x := fresh "x" in apply wp_do; intros x; eexists; split;
  [unfold collector, each; reflexivity|].

Ltac collect_call := prog_step collect_do.

Lemma execute_outcome task e c l :
  wpC (executeTask config service_name SerializeExecuteTask ParseRpcError ParseExecuteTaskResponse task e c) l
    (fun o l' => exists rpc, l' = l ++ rpc /\ rpc_outcome task e c rpc o).
Proof.
  unfold executeTask. repeat collect_call; rewrite <- ?app_assoc; cbn [app]; (eexists; split; [reflexivity|]).
  - by apply canceled_first.
  - by apply no_worker.
  - by apply (answered task e c (s :: l0) x1 s0 x2).
  - by apply (unanswered task e c (s :: l0) x1 s0 x2 x3).
  - by apply (not_serialized task e c (s :: l0) x1).
Qed.

(** A success is recorded only on a worker's word. *)
Lemma rpc_success task e c rpc o : rpc_outcome task e c rpc o -> oc_success o = true ->
  exists endpoints req now r data resp,
    rpc = calls_before task c endpoints ++
          [Called SystemNow now; Called (PoolCall endpoints kExecuteTaskRequestSerialId req timeout_of c) r] /\
    pr_response r = Some (kExecuteTaskResponseSerialId, data) /\
    ParseExecuteTaskResponse data = Some resp /\ er_success resp = true /\
    oc_result o = er_result resp /\ oc_endpoint o = pr_endpoint r.
Proof.
  intros [o' Ho|o' Ho|? ? o' Ho|endpoints now req r s data _ _ Er|? ? ? ? ? o' _ _ _ Ho] Hs; try congruence.
  unfold outcome_of_response in *. destruct (s =? kRpcErrorSerialId) eqn:E1; [done|].
  destruct (s =? kExecuteTaskResponseSerialId) eqn:E2; [|done]. cbn [negb] in *. zify_bools. subst s.
  destruct (ParseExecuteTaskResponse data) as [resp|] eqn:Ep; [|done].
  exists endpoints, req, now, r, data, resp. by split_and!.
Qed.

(** The state that an outcome calls for: after a shutdown the task is put back
    as it was; a success moves it to the next time of its expression, or
    disables it when there is none, and forgets the failures; a failure is
    counted and disables it once there are [max_retries], and otherwise retries
    it after a delay that doubles up to five minutes. *)
Inductive called_for (task : TaskMeta.t) (o : ExecutionOutcome) (end_ns : Z) : bool -> Z * string * Z -> Prop :=
| put_back : called_for task o end_ns true (TASK_SCHEDULED, TaskMeta.next_run_at task, TaskMeta.retry_count task)
| succeeded (next := next_ms utc_to_local local_to_utc cron_next (TaskMeta.cron_expr task) (to_ms end_ns)) :
    oc_success o = true -> next <> 0 ->
    called_for task o end_ns false (TASK_SCHEDULED, date_of_ms utc_to_local next, 0)
| succeeded_last : oc_success o = true ->
    next_ms utc_to_local local_to_utc cron_next (TaskMeta.cron_expr task) (to_ms end_ns) = 0 ->
    called_for task o end_ns false (TASK_DISABLED, date_of_ns utc_to_local end_ns, 0)
| failed : oc_success o = false -> TaskMeta.retry_count task + 1 < TaskMeta.max_retries task ->
    called_for task o end_ns false
      (TASK_SCHEDULED,
       date_of_ns utc_to_local (end_ns + Z.min 300 (5 * 2 ^ Z.max 0 (TaskMeta.retry_count task)) * ns_per_sec),
       TaskMeta.retry_count task + 1)
| failed_last : oc_success o = false -> TaskMeta.max_retries task <= TaskMeta.retry_count task + 1 ->
    called_for task o end_ns false (TASK_DISABLED, date_of_ns utc_to_local end_ns, TaskMeta.retry_count task + 1).

Lemma retry_delay_all n : retry_delay_seconds (n + 1) = Z.min 300 (5 * 2 ^ Z.max 0 n).
Proof.
  unfold retry_delay_seconds. rewrite Z.add_simpl_r, (Z.max_comm n 0).
  set (m := Z.max 0 n). assert (0 <= m) by lia. rewrite Z.shiftl_mul_pow2, Z.mul_1_l by lia.
  destruct (Z.le_gt_cases m 6).
  - by rewrite (Z.min_l m 6) by lia.
  - rewrite (Z.min_r m 6) by lia. change (2 ^ 6) with 64. pose proof (Z.pow_le_mono_r 2 7 m ltac:(lia) ltac:(lia)).
    change (2 ^ 7) with 128 in *. lia.
Qed.

Lemma next_state_called_for down o task end_ns : called_for task o end_ns down (decide_next down o task end_ns).
Proof.
  unfold next_state. destruct down; [constructor|]. destruct (oc_success o) eqn:Eo.
  - destruct (next_ms _ _ _ _ _ =? 0) eqn:E; cbn [negb]; zify_bools; by constructor.
  - destruct (TaskMeta.max_retries task <=? TaskMeta.retry_count task + 1) eqn:E; zify_bools; [by constructor|].
    rewrite retry_delay_all. by constructor.
Qed.

(** The calls of one job, all of them and in order: each reading of the clocks
    and of the shutdown with its answer. *)
Inductive job_calls (j : Job) : list (Event SchedE) -> Prop :=
| job_called s0 start steady_start rpc o end_ steady_end s1 down s2 late saved completed unlocked
      status next_run_at retry_count :
    rpc_outcome (job_task j) (job_execution_id j) (linkCancellationTokens [token s0; token (job_cancellation j)]) rpc o ->
    called_for (job_task j) o end_ late (status, next_run_at, retry_count) ->
    job_calls j
      ([Called ShutdownSource s0; Called SystemNow start; Called SteadyNow steady_start] ++ rpc ++
       [Called SystemNow end_; Called SteadyNow steady_end;
        Called (Metric (ObserveTaskDuration (u64 (to_ms (steady_end - steady_start))))) ();
        Called ShutdownSource s1; Called (IsCanceled (token s1)) down] ++
       (if (down : bool) then [] else [Called (Metric (if oc_success o then IncTaskSuccess else IncTaskFailure)) ()]) ++
       [Called (AddHistory (history_of node_id utc_to_local j o start end_)) saved;
        Called ShutdownSource s2; Called (IsCanceled (token s2)) late;
        Called (CompleteTaskExecution (TaskMeta.id (job_task j)) (job_execution_id j) status next_run_at
                  (date_of_ns utc_to_local end_) retry_count) completed;
        Called (UnregisterTask (TaskMeta.id (job_task j)) (job_execution_id j)) ();
        Called (LeaseRemove (job_lock_key j) (job_lock_value j)) ();
        Called (RedisUnlock (job_lock_key j) (job_lock_value j)) unlocked]).

Lemma job_calls_wp j : wpC (job_body j) [] (fun _ l => job_calls j l).
Proof.
  unfold run_job, scope_exit, execution_cleanup, shutdown_requested. repeat collect_call.
  eapply wp_mono; [apply execute_outcome|]. cbv beta. intros o l (rpc & -> & Ho). cbn [app].
  repeat collect_call.
  all: match goal with H : decide_next ?late _ _ ?end_ = _ |- _ =>
    pose proof (next_state_called_for late o (job_task j) end_) as Hc; rewrite H in Hc end.
  all: repeat match goal with u : () |- _ => destruct u end; rewrite <- !app_assoc; cbn [app].
  - pose proof (job_called j x x0 x1 rpc o x2 x3 x5 true x8 x9 x7 x10 x13 _ _ _ Ho Hc) as H. exact H.
  - pose proof (job_called j x x0 x1 rpc o x2 x3 x5 false x9 x10 x8 x11 x14 _ _ _ Ho Hc) as H. exact H.
Qed.

(** C29.  Everything a job does, whatever the answers are: at most one request to
    a worker, then exactly one history record of its outcome, one completion of
    the execution in the state that the outcome calls for, given whether the
    node's shutdown had been requested when it was asked just before, and the
    clean-up, in this order; no counter is moved once the shutdown is
    requested; and a success is recorded only when the worker answered with an
    execution response that reports it. *)
Theorem job_records_its_outcome j tr :
  exec (job_body j) tr () ->
  job_calls j tr /\
  forall c rpc o, rpc_outcome (job_task j) (job_execution_id j) c rpc o -> oc_success o = true ->
    exists endpoints req now r data resp,
      rpc = calls_before (job_task j) c endpoints ++
            [Called SystemNow now; Called (PoolCall endpoints kExecuteTaskRequestSerialId req timeout_of c) r] /\
      pr_response r = Some (kExecuteTaskResponseSerialId, data) /\
      ParseExecuteTaskResponse data = Some resp /\ er_success resp = true /\
      oc_result o = er_result resp /\ oc_endpoint o = pr_endpoint r.
Proof.
  intros He. split; [|intros c rpc o; apply rpc_success].
  rewrite <- (collect_each tr). exact (wp_collect _ _ _ _ _ (job_calls_wp j) He).
Qed.

(** ** The decision *)

Lemma retry_delay_spec n : 1 <= n -> retry_delay_seconds n = Z.min 300 (5 * 2 ^ (n - 1)).
Proof. intros Hn. by rewrite <- (Z.sub_simpl_r n 1), retry_delay_all, Z.max_r, Z.add_simpl_r by lia. Qed.

(** The state after an execution, on every branch: a shutdown puts the
    task back where it was; a success resets the retries and moves the task to
    the cron expression's next time, which lies in a later second than the end
    of the execution, or disables it when there is none; a failure counts, and
    disables the task exactly when the count reaches [max_retries], or else
    retries it [min(300, 5 * 2^(n-1))] seconds after the end. *)
Theorem next_state_is_right shutdown o task end_ns status next_run_at retry_count :
  0 < to_ms end_ns -> (forall t s, local_to_utc t = Some s -> s < 2 ^ 50) ->
  0 <= TaskMeta.retry_count task ->
  decide_next shutdown o task end_ns = (status, next_run_at, retry_count) ->
  if shutdown then
    (status, next_run_at, retry_count) = (TASK_SCHEDULED, TaskMeta.next_run_at task, TaskMeta.retry_count task)
  else if oc_success o then
    retry_count = 0 /\
    ((status = TASK_SCHEDULED /\ exists s, to_sec end_ns < s /\ next_run_at = to_datetime_string_sec utc_to_local s) \/
     (status = TASK_DISABLED /\ next_ms utc_to_local local_to_utc cron_next (TaskMeta.cron_expr task) (to_ms end_ns) = 0))
  else
    retry_count = TaskMeta.retry_count task + 1 /\
    ((TaskMeta.max_retries task <= retry_count /\ status = TASK_DISABLED) \/
     (retry_count < TaskMeta.max_retries task /\ status = TASK_SCHEDULED /\
      next_run_at = date_of_ns utc_to_local (end_ns + Z.min 300 (5 * 2 ^ (retry_count - 1)) * ns_per_sec))).
Proof.
  intros Hend Hb Hr. unfold next_state. destruct shutdown; [by intros [= <- <- <-]|].
  destruct (oc_success o).
  - destruct (next_ms _ _ _ _ _ =? 0) eqn:E; cbn [negb]; intros [= <- <- <-]; zify_bools.
    + split; [done|]. by right.
    + split; [done|]. left. split; [done|].
      destruct (nextExecution_later _ _ _ _ _ _ _ Hend eq_refl E Hb) as (s & Hs & Hlt & _).
      exists s. split.
      * assert (to_sec end_ns = to_ms end_ns / 1000) as ->; [|done].
        unfold to_sec, to_ms, ns_per_sec, ns_per_milli in *.
        assert (0 <= end_ns).
        { destruct (Z.le_gt_cases 0 end_ns); [done|]. pose proof (Z.quot_opp_l end_ns 1000000 ltac:(lia)).
          pose proof (Z.quot_pos (- end_ns) 1000000 ltac:(lia) ltac:(lia)). lia. }
        rewrite !Z.quot_div_nonneg by lia. rewrite Z.div_div by lia. done.
      * unfold next_ms. rewrite Hs. unfold date_of_ms, to_datetime_string. by rewrite Z.div_mul.
  - destruct (TaskMeta.max_retries task <=? TaskMeta.retry_count task + 1) eqn:E; intros [= <- <- <-]; zify_bools.
    + split; [done|]. by left.
    + split; [done|]. right. rewrite retry_delay_spec by lia. by split_and!.
Qed.

(** ** The retry sequence *)

(** The task after an execution that failed and ended at [end_ns]. *)
Definition fail_once (task : TaskMeta.t) (end_ns : Z) : TaskMeta.t :=
  let '(status, next_run_at, retry_count) := decide_next false no_outcome task end_ns in
  TaskMeta.mk (TaskMeta.id task) (TaskMeta.cron_expr task) (TaskMeta.params task) (TaskMeta.handler task)
    status next_run_at (date_of_ns utc_to_local end_ns) retry_count (TaskMeta.max_retries task)
    EmptyString EmptyString EmptyString.

Lemma fail_once_spec task e :
  TaskMeta.max_retries (fail_once task e) = TaskMeta.max_retries task /\
  TaskMeta.retry_count (fail_once task e) = TaskMeta.retry_count task + 1 /\
  TaskMeta.status (fail_once task e) =
    (if TaskMeta.max_retries task <=? TaskMeta.retry_count task + 1 then TASK_DISABLED else TASK_SCHEDULED).
Proof. unfold fail_once, next_state. cbn [oc_success no_outcome]. by destruct (_ <=? _). Qed.

Lemma fail_many_spec task ends :
  TaskMeta.max_retries (foldl fail_once task ends) = TaskMeta.max_retries task /\
  TaskMeta.retry_count (foldl fail_once task ends) = TaskMeta.retry_count task + Z.of_nat (length ends).
Proof.
  revert task. induction ends as [|e ends IH]; intros task; cbn [foldl length]; [split; [done|lia]|].
  destruct (IH (fail_once task e)) as [-> ->]. destruct (fail_once_spec task e) as (-> & -> & _).
  split; [done|lia].
Qed.

(** C30.  A task whose executions keep failing runs exactly [max(1, max_retries)]
    times before it is disabled: it stays scheduled through every earlier
    failure, its retry count is the number of failures and never passes the
    bound, so that it stays in the range of [int]. *)
Theorem failing_task_is_disabled_in_time task ends :
  TaskMeta.retry_count task = 0 -> is_int (TaskMeta.max_retries task) ->
  let bound := Z.max 1 (TaskMeta.max_retries task) in
  0 < Z.of_nat (length ends) <= bound ->
  let task' := foldl fail_once task ends in
  TaskMeta.retry_count task' = Z.of_nat (length ends) /\ is_int (TaskMeta.retry_count task') /\
  TaskMeta.status task' = (if Z.of_nat (length ends) <? bound then TASK_SCHEDULED else TASK_DISABLED).
Proof.
  intros H0 Hint bound Hlen. cbv zeta. destruct (fail_many_spec task ends) as [_ ->].
  destruct ends as [|e ends _] using rev_ind; [simpl in Hlen; lia|].
  rewrite foldl_app in *. cbn [foldl] in *. rewrite length_app in *. cbn [length] in *.
  split_and!; [lia|unfold is_int, INT_MIN, INT_MAX in *; lia|].
  destruct (fail_once_spec (foldl fail_once task ends) e) as (_ & _ & ->).
  destruct (fail_many_spec task ends) as [-> ->]. subst bound.
  destruct (_ <=? _) eqn:E1, (_ <? _) eqn:E2; zify_bools; done || lia.
Qed.

(** ** Execution ids *)

(** The execution ids of one process are distinct, for all tasks and at
    any times, as long as its sequence numbers are. *)
Theorem execution_ids_are_unique id id' tr tr' e e' :
  exec (next_execution_id id) tr e -> exec (next_execution_id id') tr' e' -> e = e' ->
  exists t n t' n', tr = [Called SystemNow t; Called NextSequence n] /\
    tr' = [Called SystemNow t'; Called NextSequence n'] /\ (0 <= n -> 0 <= n' -> n = n').
Proof.
  intros (t & ? & -> & n & ? & -> & -> & ->) (t' & ? & -> & n' & ? & -> & -> & ->) H.
  exists t, n, t', n'. split_and!; [done|done|]. intros Hn Hn'.
  assert (Hs : forall m, 0 <= m -> rsplit ":" (to_string m) = None).
  { intros m Hm. unfold to_string. rewrite (proj2 (Z.ltb_ge _ _)) by lia. by apply rsplit_dec_go. }
  assert (Hd : forall i k m, 0 <= m ->
            rsplit ":" (i +:+ ":" +:+ k +:+ ":" +:+ to_string m) = Some (i +:+ ":" +:+ k, to_string m)).
  { intros i k m Hm. rewrite <- (rsplit_last ":" (i +:+ ":" +:+ k) (to_string m)) by auto.
    f_equal. by rewrite !append_assoc_str. }
  pose proof (Hd id (to_string (to_ms t)) n Hn) as E. rewrite H, Hd in E by done.
  apply to_string_inj. congruence.
Qed.

End Outcome.

Module OutcomeExample.
Import SchedulerExample.

Lemma job_records_its_outcome_witness :
  job_calls config "node1" "rpc" Some Some next_day serialize parse_error parse_response job (trace_of handle job_run ()).
Proof.
  exact (proj1 (job_records_its_outcome config "node1" "rpc" Some Some next_day serialize parse_error
                  parse_response job _ job_trace)).
Defined.

Lemma next_state_is_right_witness :
  let local_to_utc := fun t => if t <? 2 ^ 40 then Some t else None in
  next_state Some local_to_utc next_day false no_outcome nightly (1767236400 * ns_per_sec) =
    (TASK_SCHEDULED, "2026-01-01 03:00:05", 1) /\
  1 = TaskMeta.retry_count nightly + 1.
Proof.
  intros local_to_utc.
  assert (E : next_state Some local_to_utc next_day false no_outcome nightly (1767236400 * ns_per_sec) =
              (TASK_SCHEDULED, "2026-01-01 03:00:05", 1)) by reflexivity.
  split; [exact E|].
  refine (proj1 (next_state_is_right Some local_to_utc next_day false no_outcome nightly
                   (1767236400 * ns_per_sec) _ _ _ _ _ _ E)).
  - by vm_compute.
  - intros t s. unfold local_to_utc. destruct (t <? 2 ^ 40) eqn:Et; [|done]. intros [= <-].
    apply Z.ltb_lt in Et. lia.
  - done.
Defined.

Lemma failing_task_is_disabled_in_time_witness :
  TaskMeta.status (foldl (fail_once Some Some next_day) nightly [1; 2; 3]) = TASK_DISABLED.
Proof.
  refine (proj2 (proj2 (failing_task_is_disabled_in_time Some Some next_day nightly [1; 2; 3] _ _ _))).
  - done.
  - unfold is_int, INT_MIN, INT_MAX. simpl. lia.
  - simpl. lia.
Defined.

Lemma execution_ids_are_unique_witness :
  let tr := [Called SystemNow 5000000; Called NextSequence 7] : list (Event SchedE) in
  exec (next_execution_id "a") tr "a:5:7" /\
  exists t n t' n', tr = [Called SystemNow t; Called NextSequence n] /\
    tr = [Called SystemNow t'; Called NextSequence n'] /\ (0 <= n -> 0 <= n' -> n = n').
Proof.
  intros tr. assert (H : exec (next_execution_id "a") tr "a:5:7") by by repeat eexists.
  split; [exact H|]. exact (execution_ids_are_unique "a" "a" tr tr _ _ H H eq_refl).
Defined.

End OutcomeExample.
