(* ===== verification/Node.v ===== *)
(** A node: the scheduler's programs run against the models of the components
    they drive ([MySQLClient], [RedisClient], [RpcClientPool], the thread pool,
    the registry, the lock renewer, the metrics).  [env] stands for the other
    threads of the process: it may change the node in any way before each call. *)
From S2P Require Import Prelude Datetime StorageError TaskTable TaskProtocol MySQLClient Redis RedisClient Cancellation Text Config ThreadPool RpcClient RpcClientPool Metrics CronParser LockRenewer Effects Scheduler.

Section Node.
Context {D : Type} `{DT : Datetime D} {R : Type} `{RS : RedisServer R}.
Context {W C : Type} `{TR : Transport W C}.

(** The answers of the outside world. *)
Context (found_rows : bool) (driver : nat -> @Tick D) (hiredis : nat -> RTick)
        (elapsed : nat -> nat -> Z) (system_clock steady_clock : nat -> Z) (room : nat -> nat)
        (health_request : string -> string) (health_serving : string -> option bool).

Record Node := mkNode {
  nd_db : @Db D;
  nd_redis : @Rc R;
  nd_rpc : @RpcPool C * W;
  nd_flags : Flags;
  nd_registry : Registry;
  nd_renewer : Renewer;
  nd_pool : Pool Job;
  nd_metrics : Metrics.Metrics;
  nd_shutdown : CancellationSource;
  nd_sequence : Z;
  nd_running : bool;
  nd_calls : nat               (* calls made so far *)
}.

Context (env : nat -> Node -> Node).

Definition on_db {A} (m : M (@Db D) A) : M Node A :=
  zoom nd_db (fun d n => mkNode d (nd_redis n) (nd_rpc n) (nd_flags n) (nd_registry n) (nd_renewer n)
    (nd_pool n) (nd_metrics n) (nd_shutdown n) (nd_sequence n) (nd_running n) (nd_calls n)) m.
Definition on_redis {A} (m : M (@Rc R) A) : M Node A :=
  zoom nd_redis (fun r n => mkNode (nd_db n) r (nd_rpc n) (nd_flags n) (nd_registry n) (nd_renewer n)
    (nd_pool n) (nd_metrics n) (nd_shutdown n) (nd_sequence n) (nd_running n) (nd_calls n)) m.
Definition on_rpc {A} (m : M (@RpcPool C * W) A) : M Node A :=
  zoom nd_rpc (fun r n => mkNode (nd_db n) (nd_redis n) r (nd_flags n) (nd_registry n) (nd_renewer n)
    (nd_pool n) (nd_metrics n) (nd_shutdown n) (nd_sequence n) (nd_running n) (nd_calls n)) m.
Definition on_flags {A} (m : M Flags A) : M Node A :=
  zoom nd_flags (fun f n => mkNode (nd_db n) (nd_redis n) (nd_rpc n) f (nd_registry n) (nd_renewer n)
    (nd_pool n) (nd_metrics n) (nd_shutdown n) (nd_sequence n) (nd_running n) (nd_calls n)) m.
Definition on_registry {A} (m : M Registry A) : M Node A :=
  zoom nd_registry (fun r n => mkNode (nd_db n) (nd_redis n) (nd_rpc n) (nd_flags n) r (nd_renewer n)
    (nd_pool n) (nd_metrics n) (nd_shutdown n) (nd_sequence n) (nd_running n) (nd_calls n)) m.
Definition on_leases {A} (m : M (Renewer * Flags) A) : M Node A :=
  zoom (fun n => (nd_renewer n, nd_flags n))
    (fun x n => mkNode (nd_db n) (nd_redis n) (nd_rpc n) x.2 (nd_registry n) x.1
    (nd_pool n) (nd_metrics n) (nd_shutdown n) (nd_sequence n) (nd_running n) (nd_calls n)) m.
Definition on_pool {A} (m : M (Pool Job) A) : M Node A :=
  zoom nd_pool (fun p n => mkNode (nd_db n) (nd_redis n) (nd_rpc n) (nd_flags n) (nd_registry n) (nd_renewer n)
    p (nd_metrics n) (nd_shutdown n) (nd_sequence n) (nd_running n) (nd_calls n)) m.
Definition on_metrics {A} (m : M Metrics.Metrics A) : M Node A :=
  zoom nd_metrics (fun x n => mkNode (nd_db n) (nd_redis n) (nd_rpc n) (nd_flags n) (nd_registry n) (nd_renewer n)
    (nd_pool n) x (nd_shutdown n) (nd_sequence n) (nd_running n) (nd_calls n)) m.

(** [sequence.fetch_add(1)] *)
Definition next_sequence : M Node Z := fun n =>
  (nd_sequence n, mkNode (nd_db n) (nd_redis n) (nd_rpc n) (nd_flags n) (nd_registry n) (nd_renewer n)
    (nd_pool n) (nd_metrics n) (nd_shutdown n) (u64 (nd_sequence n + 1)) (nd_running n) (nd_calls n)).

Definition update_metrics (op : MetricOp) : Metrics.Metrics -> Metrics.Metrics :=
  match op with
  | ObserveScheduleDelay d => observeScheduleDelay d
  | ObserveTaskDuration d => observeTaskDuration d
  | IncTaskSuccess => incTaskSuccess
  | IncTaskFailure => incTaskFailure
  | IncLockAcquireSuccess => incLockAcquireSuccess
  | IncLockAcquireFailure => incLockAcquireFailure
  end.

(** The thread pool's [enqueue] ends with [adjustPoolSize]; [room] is how many
    threads the system grants. *)
Definition enqueue_job (k : nat) (j : Job) : M (Pool Job) bool := fun p =>
  match enqueue j p with
  | (true, p') => (true, adjustPoolSize (room k) p')
  | r => r
  end.

(** One call; [k] is its number. *)
Definition answer (k : nat) {X : Type} (e : SchedE X) : M Node X :=
  match e in SchedE X return M Node X with
  | GetDueTasks limit => on_db (getDueTasks driver limit)
  | GetStaleRunningTasks after limit => on_db (getStaleRunningTasks driver after limit)
  | UpdateTaskRuntime id st nr lr rc => on_db (updateTaskRuntime found_rows driver id st nr lr rc)
  | ClaimTaskExecution id x node st nr => on_db (claimTaskExecution found_rows driver id x node st nr)
  | CompleteTaskExecution id x st nr lr rc => on_db (completeTaskExecution found_rows driver id x st nr lr rc)
  | RecoverTaskExecution id x => on_db (recoverTaskExecution found_rows driver id x)
  | AddHistory h => on_db (addHistory driver h)
  | DiscoverServices s => on_redis (discoverServices hiredis s)
  | RedisLock key v ttl timeout => on_redis (lock hiredis (elapsed k) key v ttl timeout)
  | RedisRenew key v ttl => on_redis (renewLock hiredis key v ttl)
  | RedisUnlock key v => on_redis (unlock hiredis key v)
  | NewSource => on_flags new_source
  | ShutdownSource => gets nd_shutdown
  | IsCanceled t => on_flags (gets (fun h => isCancellationRequested h t))
  | RegisterTask id x s => on_registry (modify (registerTask id x s))
  | UnregisterTask id x => on_registry (modify (unregisterTask id x))
  | LeaseAdd key v ttl s => on_leases (modify (fun x => (lease_add (steady_clock k) key v ttl s x.1, x.2)))
  | LeaseRemove key v => on_leases (modify (fun x => (lease_remove key v x.1, x.2)))
  | DueLeases => on_leases (gets (fun x => due_leases (steady_clock k) x.1))
  | SettleLeases due lost => on_leases (modify (settle (steady_clock k) due lost))
  | Enqueue j => on_pool (enqueue_job k j)
  | PoolCall endpoints serial req timeout _ => on_rpc (
      let* now := read_now in
      pool_call health_request health_serving endpoints serial req (fromTimeout now timeout))
  | Metric op => on_metrics (modify (update_metrics op))
  | SystemNow => retM (system_clock k)
  | SteadyNow => retM (steady_clock k)
  | NextSequence => next_sequence
  | Running => gets nd_running
  | LoopWait => retM ()
  end.

Definition count_call (n : Node) : Node :=
  mkNode (nd_db n) (nd_redis n) (nd_rpc n) (nd_flags n) (nd_registry n) (nd_renewer n)
    (nd_pool n) (nd_metrics n) (nd_shutdown n) (nd_sequence n) (nd_running n) (S (nd_calls n)).

(** The other threads act, then the call is answered. *)
Definition handle (X : Type) (e : SchedE X) : M Node X := fun n =>
  answer (nd_calls n) e (count_call (env (nd_calls n) n)).

(** [start] and [stop] of the scheduler; the scheduler thread is joined between
    [stop_begin] and [stop_end], while the pool drains. *)
Definition scheduler_start (n : Node) : Node :=
  if nd_running n then n
  else
    let '(s, flags) := reset_source (nd_shutdown n) (nd_flags n) in
    mkNode (nd_db n) (nd_redis n) (nd_rpc n) flags (nd_registry n) (renewer_start (nd_renewer n))
      (nd_pool n) (nd_metrics n) s (nd_sequence n) true (nd_calls n).

Definition scheduler_stop_begin (n : Node) : Node :=
  mkNode (nd_db n) (nd_redis n) (nd_rpc n) (cancel_source (nd_shutdown n) (nd_flags n)).2 (nd_registry n)
    (nd_renewer n) (stop_begin (nd_pool n)) (nd_metrics n) (nd_shutdown n) (nd_sequence n) false (nd_calls n).

Definition scheduler_stop_end (n : Node) : Node :=
  mkNode (nd_db n) (nd_redis n) (nd_rpc n) (nd_flags n) (nd_registry n) (renewer_stop (nd_renewer n))
    (stop_end (nd_pool n)) (nd_metrics n) (nd_shutdown n) (nd_sequence n) (nd_running n) (nd_calls n).

End Node.

(** ** What stands behind a dispatched job *)

(** The locks acquired and the executions claimed so far. *)
Record Evidence := mkEvidence {
  ev_locks : gset (string * string * Z * Z);
  ev_claims : gset (string * string * Z * string)
}.

Section Evidence.
Context (node_id : string).

Definition job_lock (id execution_id : string) : string * string * Z * Z :=
  ("task:" +:+ id, node_id +:+ ":" +:+ execution_id, kTaskLockTtlSec, 100).
Definition job_claim (j : Job) : string * string * Z * string :=
  (TaskMeta.id (job_task j), job_execution_id j, TASK_SCHEDULED, TaskMeta.next_run_at (job_task j)).
Definition job_evidence (l : Evidence) (j : Job) : Prop := job_claim j ∈ ev_claims l.

(** Claims are made under the task's lock, jobs are enqueued after their claim. *)
Definition evidence_step (l : Evidence) (ev : Event SchedE) : option Evidence :=
  match ev with
  | @Called _ X e x =>
      match e in SchedE X return X -> option Evidence with
      | RedisLock k v t w => fun b =>
          Some (if (b : bool) then mkEvidence ({[(k, v, t, w)]} ∪ ev_locks l) (ev_claims l) else l)
      | ClaimTaskExecution id e node st nr => fun b =>
          if (b : bool) then
            if decide (node = node_id /\ job_lock id e ∈ ev_locks l)
            then Some (mkEvidence (ev_locks l) ({[(id, e, st, nr)]} ∪ ev_claims l)) else None
          else Some l
      | Enqueue j => fun b =>
          if (b : bool) then if decide (job_claim j ∈ ev_claims l) then Some l else None else Some l
      | _ => fun _ => Some l
      end x
  end.

(** Evidence comes from calls. *)
Lemma lock_came_from tr l k v t w :
  monitor evidence_step (mkEvidence ∅ ∅) tr = Some l -> (k, v, t, w) ∈ ev_locks l ->
  exists a b, tr = a ++ Called (RedisLock k v t w) true :: b.
Proof.
  revert l. induction tr as [|ev tr IH] using rev_ind; intros l; simpl; [intros [= <-]; set_solver|].
  rewrite monitor_app. destruct (monitor _ _ tr) as [l0|] eqn:E; [|done]. cbn [mbind option_bind monitor].
  destruct (evidence_step l0 ev) as [l1|] eqn:Es; [|done]. intros [= <-] Hin.
  assert (Hold : (k, v, t, w) ∈ ev_locks l0 ->
            exists a b, tr ++ [ev] = a ++ Called (RedisLock k v t w) true :: b).
  { intros H. destruct (IH l0 eq_refl H) as (a & b & ->). exists a, (b ++ [ev]). by rewrite <- app_assoc. }
  destruct ev as [X e x]. destruct e; simpl in Es; try (simplify_eq; by apply Hold).
  - destruct x; [|simplify_eq; by apply Hold]. case_decide; simplify_eq/=; by apply Hold.
  - destruct x; simplify_eq/=; [|by apply Hold].
    apply elem_of_union in Hin as [Hin|Hin]; [|by apply Hold]. apply elem_of_singleton in Hin. simplify_eq.
    by exists tr, [].
  - destruct x; [|simplify_eq; by apply Hold]. case_decide; simplify_eq/=; by apply Hold.
Qed.

Lemma claim_came_from tr l id e st nr :
  monitor evidence_step (mkEvidence ∅ ∅) tr = Some l -> (id, e, st, nr) ∈ ev_claims l ->
  exists a b c, tr = a ++ Called (RedisLock ("task:" +:+ id) (node_id +:+ ":" +:+ e) kTaskLockTtlSec 100) true ::
                     b ++ Called (ClaimTaskExecution id e node_id st nr) true :: c.
Proof.
  revert l. induction tr as [|ev tr IH] using rev_ind; intros l; simpl; [intros [= <-]; set_solver|].
  rewrite monitor_app. destruct (monitor _ _ tr) as [l0|] eqn:E; [|done]. cbn [mbind option_bind monitor].
  destruct (evidence_step l0 ev) as [l1|] eqn:Es; [|done]. intros [= <-] Hin.
  assert (Hold : (id, e, st, nr) ∈ ev_claims l0 -> exists a b c, tr ++ [ev] =
            a ++ Called (RedisLock ("task:" +:+ id) (node_id +:+ ":" +:+ e) kTaskLockTtlSec 100) true ::
            b ++ Called (ClaimTaskExecution id e node_id st nr) true :: c).
  { intros H. destruct (IH l0 eq_refl H) as (a & b & c & ->). exists a, b, (c ++ [ev]).
    by rewrite <- !app_assoc, <- app_comm_cons, <- app_assoc. }
  destruct ev as [X f x]. destruct f; simpl in Es; try (simplify_eq; by apply Hold).
  - destruct x; [|simplify_eq; by apply Hold]. case_decide as Hc; simplify_eq/=.
    apply elem_of_union in Hin as [Hin|Hin]; [|by apply Hold]. apply elem_of_singleton in Hin. simplify_eq.
    destruct Hc as [-> Hl]. destruct (lock_came_from _ _ _ _ _ _ E Hl) as (a & b & ->).
    exists a, b, []. by rewrite <- app_assoc.
  - destruct x; simplify_eq/=; by apply Hold.
  - destruct x; [|simplify_eq; by apply Hold]. case_decide; simplify_eq/=; by apply Hold.
Qed.

Lemma wp_evidence_claim {A} id e st nr (c : bool -> SP A) l Q :
  job_lock id e ∈ ev_locks l ->
  wp evidence_step (c true) (mkEvidence (ev_locks l) ({[(id, e, st, nr)]} ∪ ev_claims l)) Q ->
  wp evidence_step (c false) l Q ->
  wp evidence_step (Do (ClaimTaskExecution id e node_id st nr) c) l Q.
Proof.
  intros Hl H1 H2 [|]; cbn [evidence_step]; [rewrite decide_True by done|];
    (eexists; split; [reflexivity|done]).
Qed.

Lemma wp_evidence_enqueue {A} j (c : bool -> SP A) l Q :
  job_claim j ∈ ev_claims l -> (forall b, wp evidence_step (c b) l Q) -> wp evidence_step (Do (Enqueue j) c) l Q.
Proof.
  intros Hl H [|]; cbn [evidence_step]; [rewrite decide_True by done|];
    (eexists; split; [reflexivity|done]).
Qed.

Section Dispatch.
Context (config : Config) (service_name : string).
Context (utc_to_local local_to_utc : Z -> option Z) (cron_next : string -> Z -> option Z).

Abbreviation wpE := (wp evidence_step).

Ltac evidence_do _ :=
  lazymatch goal with
  | |- wp _ (Do (ClaimTaskExecution _ _ _ _ _) _) _ _ => apply wp_evidence_claim; [try done| |]
  | |- wp _ (Do (Enqueue _) _) _ _ => apply wp_evidence_enqueue; [|intros ?]
  | |- wp _ (Do _ _) _ _ => let x := fresh "x" in apply wp_do; intros x; eexists; split; [reflexivity|]
  end.

Ltac evidence_call := prog_step evidence_do.

(** Nothing is asked of the ledger after the program. *)
Abbreviation runs_with_evidence p := (forall l, wpE p l (fun _ _ => True)).

Lemma wp_any {A B} (p : SP A) (k : A -> SP B) l :
  runs_with_evidence p -> (forall a, runs_with_evidence (k a)) -> wpE (bindP p k) l (fun _ _ => True).
Proof. intros Hp Hk. apply wp_bind. eapply wp_mono; [apply Hp|]. intros a l' _. apply Hk. Qed.

Lemma evidence_claim_and_enqueue task e l :
  job_lock (TaskMeta.id task) e ∈ ev_locks l ->
  wpE (claim_and_enqueue node_id task ("task:" +:+ TaskMeta.id task) (node_id +:+ ":" +:+ e) e) l (fun _ _ => True).
Proof.
  intros Hl. unfold claim_and_enqueue, enqueue_cleanup. repeat evidence_call; try done.
  cbn. set_solver.
Qed.

Lemma evidence_dispatch task : runs_with_evidence (dispatch_task node_id local_to_utc task).
Proof.
  intros l. unfold dispatch_task. apply wp_any.
  { unfold observe_delay. intros l'. by repeat evidence_call. }
  intros _ l'. unfold next_execution_id. repeat evidence_call; try done.
  apply evidence_claim_and_enqueue. unfold job_lock. set_solver.
Qed.

Lemma evidence_scan_task h task :
  runs_with_evidence (scan_task config node_id service_name utc_to_local local_to_utc cron_next h task).
Proof.
  intros l. unfold scan_task. apply wp_any.
  { intros l'. destruct (String.eqb _ _); [|done]. unfold skip_misfire. by repeat evidence_call. }
  intros [] l'; [done|]. apply wp_any.
  { unfold handler_available. intros l1. by repeat evidence_call. }
  intros [[] h'] l1; cbn [negb fst snd]; [|done]. apply wp_any; [apply evidence_dispatch|by intros].
Qed.

Lemma evidence_scan :
  runs_with_evidence (scanAndDispatch config node_id service_name utc_to_local local_to_utc cron_next).
Proof.
  intros l. unfold scanAndDispatch. apply wp_any.
  { intros l0. unfold recoverStaleExecutions. repeat evidence_call.
    apply (wp_pfor _ _ _ (fun _ => True)); [|done]. intros task l1 _ _. unfold recover_task, scope_exit.
    by repeat evidence_call. }
  intros _ l1. repeat evidence_call. eapply wp_mono; [|intros ? ? _; by apply wp_ret].
  apply (wp_pfold _ _ _ (fun _ _ => True)); [|done]. intros h task l2 _ _. apply evidence_scan_task.
Qed.

Lemma dispatch_order tr t1 j t2 :
  exec (scanAndDispatch config node_id service_name utc_to_local local_to_utc cron_next) tr () ->
  tr = t1 ++ Called (Enqueue j) true :: t2 ->
  exists a b c, t1 =
    a ++ Called (RedisLock ("task:" +:+ TaskMeta.id (job_task j)) (node_id +:+ ":" +:+ job_execution_id j)
                   kTaskLockTtlSec 100) true ::
    b ++ Called (ClaimTaskExecution (TaskMeta.id (job_task j)) (job_execution_id j) node_id TASK_SCHEDULED
                   (TaskMeta.next_run_at (job_task j))) true :: c.
Proof.
  intros He ->. destruct (wp_sound _ _ _ _ _ _ (evidence_scan (mkEvidence ∅ ∅)) He) as (l & Hm & _).
  rewrite monitor_app in Hm. destruct (monitor _ _ t1) as [l1|] eqn:E; [|done].
  cbn [mbind option_bind monitor evidence_step] in Hm. case_decide as Hc; [|done].
  by eapply claim_came_from.
Qed.

End Dispatch.

End Evidence.

(** ** Dispatch on a node *)

Section NodeDispatch.
Context {D : Type} `{DT : Datetime D} {R : Type} `{RS : RedisServer R}.
Context {W C : Type} `{TR : Transport W C}.
Context (found_rows : bool) (driver : nat -> @Tick D) (hiredis : nat -> RTick)
        (elapsed : nat -> nat -> Z) (system_clock steady_clock : nat -> Z) (room : nat -> nat)
        (health_request : string -> string) (health_serving : string -> option bool).
Context (env : nat -> @Node D R W C -> @Node D R W C).
Context (config : Config) (node_id service_name : string).
Context (utc_to_local local_to_utc : Z -> option Z) (cron_next : string -> Z -> option Z).

Abbreviation handler := (handle found_rows driver hiredis elapsed system_clock steady_clock room
  health_request health_serving env).
Abbreviation scan := (scanAndDispatch config node_id service_name utc_to_local local_to_utc cron_next).

Lemma lock_answer key value ttl timeout (n n' : Node) :
  handler _ (RedisLock key value ttl timeout) n = (true, n') ->
  exists now, owns key value (now + ttl * 1000) (rc_server (nd_redis n')) now.
Proof.
  unfold handle. cbn [answer]. unfold on_redis, zoom. set (n1 := count_call _).
  pose proof (lock_true hiredis (elapsed (nd_calls n)) key value ttl timeout (nd_redis n1)) as H.
  destruct (lock _ _ _ _ _ _ (nd_redis n1)) as [b r]. intros [= -> <-]. by apply H.
Qed.

Lemma claim_answer id e node st nr (n n' : Node) :
  handler _ (ClaimTaskExecution id e node st nr) n = (true, n') ->
  exists tables now, let claim := (found_rows, now, OpClaim id e node st nr) in
    op_succeeds claim tables /\ db_tables (nd_db n') = exec_event tables claim /\
    holds e (tasks (db_tables (nd_db n')) !! id).
Proof.
  unfold handle. cbn [answer]. unfold on_db, zoom. set (n1 := count_call _).
  pose proof (write_call_true found_rows driver (OpClaim id e node st nr) (nd_db n1) eq_refl) as H.
  cbn [write_call] in H. destruct (claimTaskExecution _ _ _ _ _ _ _ (nd_db n1)) as [b d]. intros [= -> <-].
  destruct (H eq_refl) as (d1 & now & _ & Hop & Ht). exists (db_tables d1), now.
  cbn [snd nd_db] in *. rewrite Ht. split_and!; [done|done|by apply claim_holds].
Qed.

(** C10.  On a node whose database and Redis are shared with other nodes and
    whose other threads interfere at will, a job the scan hands to the thread
    pool is backed by the stores: some time before, in this order, the Redis
    server gave the task's lock to this execution for the full lease, and the
    database found the task scheduled for the occurrence the scan saw and set
    it running under this execution. *)
Theorem dispatched_job_is_locked_and_claimed (start before after : Node) j :
  (before, Called (Enqueue j) true, after) ∈ timeline handler scan start ->
  exists t1 lock_before locked t2 claim_before claimed t3 t4,
    timeline handler scan start =
      t1 ++ (lock_before, Called (RedisLock ("task:" +:+ TaskMeta.id (job_task j))
               (node_id +:+ ":" +:+ job_execution_id j) kTaskLockTtlSec 100) true, locked) ::
      t2 ++ (claim_before, Called (ClaimTaskExecution (TaskMeta.id (job_task j)) (job_execution_id j) node_id
               TASK_SCHEDULED (TaskMeta.next_run_at (job_task j))) true, claimed) ::
      t3 ++ (before, Called (Enqueue j) true, after) :: t4 /\
    (exists now, owns ("task:" +:+ TaskMeta.id (job_task j)) (node_id +:+ ":" +:+ job_execution_id j)
       (now + kTaskLockTtlSec * 1000) (rc_server (nd_redis locked)) now) /\
    (exists tables now,
       let claim := (found_rows, now, OpClaim (TaskMeta.id (job_task j)) (job_execution_id j) node_id
                                        TASK_SCHEDULED (TaskMeta.next_run_at (job_task j))) in
       op_succeeds claim tables /\ db_tables (nd_db claimed) = exec_event tables claim /\
       holds (job_execution_id j) (tasks (db_tables (nd_db claimed)) !! TaskMeta.id (job_task j))).
Proof.
  intros Hin. apply list_elem_of_split in Hin as (p & q & Hs).
  pose proof (proj1 (run_exec handler scan start)) as He. destruct (run handler scan start).1.
  rewrite trace_timeline, Hs, map_app in He. cbn [map fst snd] in He.
  destruct (dispatch_order node_id config service_name utc_to_local local_to_utc cron_next _ _ _ _ He eq_refl)
    as (a & b & c & Hp).
  apply map_eq_app in Hp as (t1 & p1 & -> & <- & Hp). apply map_eq_cons in Hp as ([[l1 le] l2] & p2 & -> & Hl & Hp).
  apply map_eq_app in Hp as (t2 & p3 & -> & <- & Hp). apply map_eq_cons in Hp as ([[c1 ce] c2] & t3 & -> & Hc & <-).
  cbn [fst snd] in Hl, Hc. subst le ce.
  exists t1, l1, l2, t2, c1, c2, t3, q.
  split; [by rewrite Hs, <- !app_assoc, <- !app_comm_cons, <- !app_assoc|].
  assert (Hlock := timeline_answer handler scan start
    (l1, Called (RedisLock ("task:" +:+ TaskMeta.id (job_task j)) (node_id +:+ ":" +:+ job_execution_id j)
                   kTaskLockTtlSec 100) true, l2) ltac:(rewrite Hs; set_solver)).
  assert (Hclaim := timeline_answer handler scan start
    (c1, Called (ClaimTaskExecution (TaskMeta.id (job_task j)) (job_execution_id j) node_id TASK_SCHEDULED
                   (TaskMeta.next_run_at (job_task j))) true, c2) ltac:(rewrite Hs; set_solver)).
  cbn [fst snd] in Hlock, Hclaim. split; [by eapply lock_answer|by eapply claim_answer].
Qed.

End NodeDispatch.

(** One node, one due task, one worker on the shared stores. *)
Module NodeExample.
Import ProtocolExample MySQLExample RedisClientExample.

#[local] Instance transport : Transport () () := {|
  tr_new _ _ _ := ();
  tr_call _ _ _ c w := (mkCallResult None CS_ConnectFailed EmptyString, c, w);
  tr_now _ := 0; tr_canceled _ := false; tr_pass w := w
|}.

Definition redis : Store := (run_script 0 (Register "rpc:backup" "127.0.0.1:9000" 30) (∅ : Store)).2.

Definition node : @Node civil Store () () :=
  mkNode (connected [Some true] start) (mkRc redis 0 [true] 0 no_error)
    (new_pool (mkPoolOptions 4 2 3000 true 500 "rpc"), ()) [false] ∅ (mkRenewer ∅ true)
    (newPool 2 8 50 0) zero_metrics 0 7 true 0.

Abbreviation answers_of_node :=
  (handle true (scripted []) (hold []) (fun _ i => 50 * Z.of_nat i) (fun _ => 1715950800 * ns_per_sec) (fun _ => 0)
     (fun _ => 8%nat) (fun s => s) (fun _ => None) (fun _ n => n)).
Abbreviation node_scan :=
  (scanAndDispatch (mkConfig (fun _ => None) ∅) "node1" "rpc" Some Some (fun _ t => Some (t + 86400))).

Definition t1_job : Job :=
  mkJob (TaskMeta.mk "t1" "0 0 12 * * *" "{}" "backup" TASK_SCHEDULED slot_text EmptyString 0 3
           EmptyString EmptyString EmptyString)
    "task:t1" "node1:t1:1715950800000:7" "t1:1715950800000:7" 1.

Lemma dispatched_job_is_locked_and_claimed_witness :
  exists (before after locked : @Node civil Store () ()) now,
    (before, Called (Enqueue t1_job) true, after) ∈ timeline answers_of_node node_scan node /\
    owns "task:t1" "node1:t1:1715950800000:7" (now + kTaskLockTtlSec * 1000) (rc_server (nd_redis locked)) now.
Proof.
  assert (E : (fun x => x.1.2) <$> timeline answers_of_node node_scan node !! 14%nat =
              Some (Called (Enqueue t1_job) true)) by reflexivity.
  apply fmap_Some in E as ([[before ev] after] & E & Hev). cbn [fst snd] in Hev. subst ev.
  apply list_elem_of_lookup_2 in E.
  destruct (dispatched_job_is_locked_and_claimed _ _ _ _ _ _ _ _ _ _ _ _ _ _ _ _ _ before after t1_job E)
    as (_ & _ & locked & _ & _ & _ & _ & _ & _ & [now H] & _).
  exists before, after, locked, now. split; [exact E|exact H].
Defined.

End NodeExample.
