(* ===== verification/HandlerRegistry.v ===== *)
(** The handler registry ([rpc/handler_registry.cpp]) and the built-in handlers
    ([worker/builtin_handlers.cpp]).  A handler is a program over the clock and
    [sleep_for]; it returns its result or throws. *)
From S2P Require Import Prelude Datetime Text Config Effects.

Open Scope prog_scope.

Record TaskExecutionContext := mkTaskExecutionContext {
  ctx_task_id : string; ctx_execution_id : string; ctx_deadline_unix_ms : Z
}.

Inductive HandlerE : Type -> Type :=
| HNow : HandlerE Z                        (* the system clock, in milliseconds *)
| HSleep (ms : Z) : HandlerE ().

(** [Threw what]: a [std::exception] with its text, or [None] for any other. *)
Inductive Attempt := Returned (result : string) | Threw (what : option string).

Definition ContextTaskHandler : Type := TaskExecutionContext -> string -> Prog HandlerE Attempt.

(** [handlers_] *)
Abbreviation Handlers := (gmap string ContextTaskHandler).

(** [None]: [std::invalid_argument]; a null callback is not a value here. *)
Definition registerContextHandler (name : string) (handler : ContextTaskHandler) (r : Handlers) : option Handlers :=
  if str_empty name then None else Some (<[name := handler]> r).

Definition registerHandler (name : string) (handler : string -> Prog HandlerE Attempt) (r : Handlers) : option Handlers :=
  registerContextHandler name (fun _ params => handler params) r.

Definition hasHandler (name : string) (r : Handlers) : bool :=
  match r !! name with Some _ => true | None => false end.

Definition string_le (a b : string) : bool :=
  match String.compare a b with Gt => false | _ => true end.

Definition handlerNames (r : Handlers) : list string := sort_by string_le (map fst (map_to_list r)).

Definition execute (name : string) (context : TaskExecutionContext) (params : string) (r : Handlers)
    : Prog HandlerE Attempt :=
  match r !! name with
  | None => Ret (Threw (Some ("Handler not found: " +:+ name)))
  | Some handler => handler context params
  end.

(** ** Built-in handlers *)

Definition deadlineExceeded (context : TaskExecutionContext) : Prog HandlerE bool :=
  if ctx_deadline_unix_ms context =? 0 then Ret false
  else do* now := ask HNow in Ret (ctx_deadline_unix_ms context <=? now).

(** [std::from_chars] to [int]: no blanks, no plus sign; [None] is an error. *)
Definition from_chars (s : string) : option (Z * string) :=
  let '(neg, u) := match s with
                   | String c u => if Ascii.eqb c "-" then (true, u) else (false, s)
                   | EmptyString => (false, s)
                   end in
  if starts_digit u then
    let '(n, rest) := read_dec 0 u in
    let z := if (neg : bool) then - n else n in
    if (INT_MIN <=? z) && (z <=? INT_MAX) then Some (z, rest) else None
  else None.

Definition bad_sleep : string := "Sleep expects milliseconds in range 0..30000".

Definition parseSleepDuration (params : string) : option Z :=
  match from_chars params with
  | Some (duration_ms, EmptyString) =>
      if (duration_ms <? 0) || (30000 <? duration_ms) then None else Some duration_ms
  | _ => None
  end.

(** The loop, for at most [fuel] rounds; [None] when they do not suffice. *)
Fixpoint sleep_loop (fuel : nat) (context : TaskExecutionContext) (remaining_ms : Z)
    : Prog HandlerE (option Attempt) :=
  match fuel with
  | O => Ret None
  | S fuel' =>
      if 0 <? remaining_ms then
        do* late := deadlineExceeded context in
        if (late : bool) then Ret (Some (Threw (Some "Task deadline exceeded")))
        else
          let slice_ms := Z.min remaining_ms 25 in
          ask (HSleep slice_ms) ;;! sleep_loop fuel' context (remaining_ms - slice_ms)
      else
        do* late := deadlineExceeded context in
        Ret (Some (if (late : bool) then Threw (Some "Task deadline exceeded") else Returned EmptyString))
  end.

(** 30000 ms in slices of 25, and the check that ends the loop. *)
Definition sleep_fuel : nat := 1201.

Definition sleep_handler : ContextTaskHandler := fun context params =>
  match parseSleepDuration params with
  | None => Ret (Threw (Some bad_sleep))
  | Some ms =>
      do* r := sleep_loop sleep_fuel context ms in
      Ret (match (r : option Attempt) with
           | Some (Returned _) => Returned ("Slept " +:+ params +:+ " ms")
           | Some e => e
           | None => Threw None
           end)
  end.

Definition echo_handler (params : string) : Prog HandlerE Attempt := Ret (Returned ("Echo: " +:+ params)).

Definition fail_handler (params : string) : Prog HandlerE Attempt :=
  Ret (Threw (Some (if str_empty params then "Task failed intentionally" else params))).

Fixpoint uppercase (s : string) : string :=
  match s with
  | EmptyString => EmptyString
  | String c s' => String (toupper c) (uppercase s')
  end.

Definition uppercase_handler (params : string) : Prog HandlerE Attempt := Ret (Returned (uppercase params)).

Definition registerBuiltinTaskHandlers (r : Handlers) : option Handlers :=
  r ← registerHandler "Echo" echo_handler r;
  r ← registerHandler "Fail" fail_handler r;
  r ← registerHandler "Uppercase" uppercase_handler r;
  registerContextHandler "Sleep" sleep_handler r.

(** ** The Sleep handler *)

Definition slept (ev : Event HandlerE) : Z :=
  match ev with Called e _ => match e with HSleep ms => ms | HNow => 0 end end.

Definition total_sleep (tr : list (Event HandlerE)) : Z := foldr (fun ev n => slept ev + n) 0 tr.

(** The clock as the handler saw it when it stopped. *)
Definition saw_deadline (context : TaskExecutionContext) (tr : list (Event HandlerE)) : Prop :=
  exists now pre, tr = pre ++ [Called HNow now] /\ 0 < ctx_deadline_unix_ms context <= now.

Lemma total_sleep_app a b : total_sleep (a ++ b) = total_sleep a + total_sleep b.
Proof. unfold total_sleep. induction a as [|ev a IH]; simpl; [done|]. rewrite IH. lia. Qed.

Lemma deadline_trace c tr late : exec (deadlineExceeded c) tr late ->
  total_sleep tr = 0 /\ (late = true -> 0 <= ctx_deadline_unix_ms c -> saw_deadline c tr).
Proof.
  unfold deadlineExceeded. destruct (_ =? 0) eqn:E; [by intros [-> ->]|].
  intros (now & ? & -> & -> & ->). split; [done|]. intros Hl Hc. zify_bools.
  exists now, []. split; [done|lia].
Qed.

Lemma saw_deadline_app c a b : saw_deadline c b -> saw_deadline c (a ++ b).
Proof. intros (now & pre & -> & H). exists now, (a ++ pre). by rewrite <- app_assoc. Qed.

Lemma sleep_loop_spec fuel c ms tr r :
  0 <= ms -> ms <= 25 * (Z.of_nat fuel - 1) -> 0 <= ctx_deadline_unix_ms c ->
  exec (sleep_loop fuel c ms) tr r ->
  total_sleep tr <= ms /\
  ((r = Some (Returned EmptyString) /\ total_sleep tr = ms) \/
   (r = Some (Threw (Some "Task deadline exceeded")) /\ saw_deadline c tr)).
Proof.
  revert ms tr. induction fuel as [|fuel IH]; intros ms tr Hms Hf Hc; [lia|]. cbn [sleep_loop].
  destruct (0 <? ms) eqn:E; zify_bools.
  - intros (t1 & late & t2 & -> & H1 & H2)%exec_bind. destruct (deadline_trace c t1 late H1) as [Hs Hd].
    destruct late.
    + destruct H2 as [-> ->]. rewrite app_nil_r. split; [lia|]. right. split; [done|]. by apply Hd.
    + apply exec_bind in H2 as (t3 & u & t4 & -> & H3 & H4). destruct H3 as (u' & t5 & -> & -> & ->).
      destruct (IH (ms - Z.min ms 25) t4 ltac:(lia) ltac:(lia) Hc H4) as [I1 I2].
      rewrite total_sleep_app, Hs. cbn [app]. change (total_sleep (Called (HSleep (Z.min ms 25)) u' :: t4))
        with (Z.min ms 25 + total_sleep t4). split; [lia|].
      destruct I2 as [[-> I2]|[-> I2]]; [left; split; [done|lia]|right]. split; [done|].
      apply saw_deadline_app. by apply (saw_deadline_app c [_] t4).
  - intros (t1 & late & t2 & -> & H1 & -> & ->)%exec_bind. destruct (deadline_trace c t1 late H1) as [Hs Hd].
    rewrite app_nil_r, Hs. split; [lia|]. destruct late; [right|left].
    + split; [done|]. by apply Hd.
    + split; [done|lia].
Qed.

(** The Sleep handler ends, within the rounds of [sleep_fuel]: it throws
    for a parameter that is not a number of milliseconds from 0 to 30000, and
    otherwise sleeps exactly that long and says so, or throws once its clock
    has reached the deadline of the request, having slept no longer. *)
Theorem sleep_handler_behaves context params tr r :
  0 <= ctx_deadline_unix_ms context ->
  exec (sleep_handler context params) tr r ->
  match parseSleepDuration params with
  | None => r = Threw (Some bad_sleep) /\ tr = []
  | Some ms =>
      0 <= ms <= 30000 /\ total_sleep tr <= ms /\
      ((r = Returned ("Slept " +:+ params +:+ " ms") /\ total_sleep tr = ms) \/
       (r = Threw (Some "Task deadline exceeded") /\ saw_deadline context tr))
  end.
Proof.
  intros Hc. unfold sleep_handler, parseSleepDuration.
  destruct (from_chars params) as [[ms []]|]; try (by intros [-> ->]).
  destruct ((ms <? 0) || (30000 <? ms)) eqn:E; [by intros [-> ->]|]. zify_bools.
  intros (t1 & r1 & t2 & -> & H1 & -> & ->)%exec_bind. rewrite app_nil_r.
  destruct (sleep_loop_spec sleep_fuel context ms t1 r1 ltac:(lia) ltac:(unfold sleep_fuel; lia) Hc H1)
    as [Hs [[-> ?]|[-> ?]]]; (split_and!; [lia|lia|done|]); [by left|by right].
Qed.

(** A clock that moves with the sleeps. *)
Definition ticking (X : Type) (e : HandlerE X) : M Z X :=
  match e with
  | HNow => get_st
  | HSleep ms => modify (Z.add ms)
  end.

Definition short_deadline : TaskExecutionContext := mkTaskExecutionContext "t" "e" 1000.

Lemma sleep_handler_behaves_witness :
  (run ticking (sleep_handler short_deadline "30") 900).1 = Returned "Slept 30 ms" /\
  total_sleep (trace_of ticking (sleep_handler short_deadline "30") 900) <= 30.
Proof.
  assert (E : (run ticking (sleep_handler short_deadline "30") 900).1 = Returned "Slept 30 ms")
    by (vm_compute; reflexivity).
  split; [exact E|].
  pose proof (sleep_handler_behaves short_deadline "30" _ _ ltac:(cbn; lia)
                (proj1 (run_exec ticking (sleep_handler short_deadline "30") 900))) as S.
  assert (P : parseSleepDuration "30" = Some 30) by (vm_compute; reflexivity).
  rewrite P in S. exact (proj1 (proj2 S)).
Defined.
