(* ===== verification/Dispatcher.v ===== *)
(** The RPC dispatcher ([rpc/rpc_dispatcher.cpp]): which requests a node admits,
    what each handler does to the stores, the workers and the metrics, and the
    response it gives.

    Handlers are programs over the calls they make ([DispE]).  A request is a
    payload that the generated code parses into a message, a response is a
    message it serializes; both directions are parameters ([Codec]).  No call
    of the model throws, other than task handlers. *)
From S2P Require Import Prelude Datetime Text Protocol TaskTable RpcClientPool Metrics CronParser Effects HandlerRegistry Scheduler.

Open Scope prog_scope.

(** ** Messages *)

Inductive ErrorCode :=
| ERR_OK | BAD_REQUEST | UNKNOWN_METHOD | PAYLOAD_TOO_LARGE | INTERNAL_ERROR | DB_ERROR | HANDLER_NOT_FOUND
| UNAUTHORIZED | DEADLINE_EXCEEDED | CANCELED | RESOURCE_EXHAUSTED | UNAVAILABLE.

Record EchoRequest := mkEchoRequest { ec_message : string; ec_auth_token : string }.
Record SubmitTaskRequest := mkSubmitTaskRequest {
  st_cron_expr : string; st_params : string; st_handler : string; st_auth_token : string
}.
(** CancelTaskRequest, DeleteTaskRequest and RunTaskNowRequest have these fields. *)
Record TaskIdRequest := mkTaskIdRequest { ti_task_id : string; ti_auth_token : string }.
Record EnableTaskRequest := mkEnableTaskRequest { en_task_id : string; en_enabled : bool; en_auth_token : string }.
Record ListTasksRequest := mkListTasksRequest {
  lt_auth_token : string; lt_limit : Z; lt_enabled_only : bool; lt_offset : Z; lt_status_filter : Z;
  lt_keyword : string; lt_has_status_filter : bool
}.
Record ListHistoryRequest := mkListHistoryRequest {
  lh_auth_token : string; lh_task_id : string; lh_limit : Z; lh_offset : Z; lh_success_filter : Z;
  lh_keyword : string; lh_has_success_filter : bool
}.
Record ListServicesRequest := mkListServicesRequest { ls_auth_token : string; ls_service_name : string }.
Record UpdateTaskRequest := mkUpdateTaskRequest { ut_auth_token : string; ut_task : option TaskMeta.t }.
Record GetMetricsRequest := mkGetMetricsRequest { gm_auth_token : string }.
Record HealthCheckRequest := mkHealthCheckRequest { hc_service_name : string; hc_auth_token : string }.
Record StreamMetricsRequest := mkStreamMetricsRequest { sm_auth_token : string; sm_samples : Z }.

Inductive Message :=
| MEcho (message : string)
| MSubmitTask (task_id : string) (success : bool) (error : string)
| MExecuteTask (success : bool) (result error : string)
| MCancelTask (success : bool) (error : string)
| MListTasks (tasks : list TaskMeta.t) (total offset limit : Z)
| MListHistory (history : list TaskHistory.t) (total offset limit : Z)
| MListServices (endpoints : list string)
| MUpdateTask (success : bool) (error : string)
| MEnableTask (success : bool) (error : string)
| MDeleteTask (success : bool) (error : string)
| MRunTaskNow (success : bool) (result error : string)
| MGetMetrics (metrics : MetricsSnapshot)
| MHealthCheck (serving : bool) (status node_id : string) (unix_time_ms : Z)
| MStreamMetrics (sequence : Z) (end_of_stream : bool) (metrics : MetricsSnapshot)
| MRpcError (code : ErrorCode) (message : string).

(** The generated parsers and serializers. *)
Record Codec := mkCodec {
  parse_echo : string -> option EchoRequest;
  parse_submit : string -> option SubmitTaskRequest;
  parse_execute : string -> option ExecuteTaskRequest;
  parse_cancel : string -> option TaskIdRequest;
  parse_list_tasks : string -> option ListTasksRequest;
  parse_list_history : string -> option ListHistoryRequest;
  parse_list_services : string -> option ListServicesRequest;
  parse_update : string -> option UpdateTaskRequest;
  parse_enable : string -> option EnableTaskRequest;
  parse_delete : string -> option TaskIdRequest;
  parse_run_now : string -> option TaskIdRequest;
  parse_get_metrics : string -> option GetMetricsRequest;
  parse_health : string -> option HealthCheckRequest;
  parse_stream_metrics : string -> option StreamMetricsRequest;
  parse_rpc_error : string -> option (Z * string);
  parse_execute_response : string -> option ExecuteTaskResponse;
  serialize_execute : ExecuteTaskRequest -> option string;
  serialize : Message -> string
}.

Record RpcResponse := mkRpcResponse { rsp_serial_id : Z; rsp_payload : string }.

(** The method table ([generated/rpc_service.hpp]). *)
Record RpcMethodDescriptor := mkMethod { md_name : string; md_request_serial_id : Z; md_response_serial_id : Z }.

Definition kCorpCronRpcMethods : list RpcMethodDescriptor := [
  mkMethod "Echo" kEchoRequestSerialId kEchoResponseSerialId;
  mkMethod "SubmitTask" kSubmitTaskRequestSerialId kSubmitTaskResponseSerialId;
  mkMethod "ExecuteTask" kExecuteTaskRequestSerialId kExecuteTaskResponseSerialId;
  mkMethod "CancelTask" kCancelTaskRequestSerialId kCancelTaskResponseSerialId;
  mkMethod "ListTasks" kListTasksRequestSerialId kListTasksResponseSerialId;
  mkMethod "ListHistory" kListHistoryRequestSerialId kListHistoryResponseSerialId;
  mkMethod "ListServices" kListServicesRequestSerialId kListServicesResponseSerialId;
  mkMethod "UpdateTask" kUpdateTaskRequestSerialId kUpdateTaskResponseSerialId;
  mkMethod "EnableTask" kEnableTaskRequestSerialId kEnableTaskResponseSerialId;
  mkMethod "DeleteTask" kDeleteTaskRequestSerialId kDeleteTaskResponseSerialId;
  mkMethod "RunTaskNow" kRunTaskNowRequestSerialId kRunTaskNowResponseSerialId;
  mkMethod "GetMetrics" kGetMetricsRequestSerialId kGetMetricsResponseSerialId;
  mkMethod "HealthCheck" kHealthCheckRequestSerialId kHealthCheckResponseSerialId;
  mkMethod "StreamMetrics" kStreamMetricsRequestSerialId kStreamMetricsResponseSerialId
].

Definition findMethodByRequestSerialId (serial_id : Z) : option RpcMethodDescriptor :=
  List.find (fun m => md_request_serial_id m =? serial_id) kCorpCronRpcMethods.

(** ** Calls *)

Inductive DMetricOp :=
| DObserveTaskDuration (ms : Z) | DIncTaskSuccess | DIncTaskFailure | DIncRpcRequest | DIncRpcSuccess | DIncRpcError.

Inductive DispE : Type -> Type :=
(* MySQLClient: the methods that write, each named by its statement, and those that read *)
| DbWrite (o : Op) : DispE bool
| DbGetTask (id : string) : DispE (option TaskMeta.t)
| DbListTasks (q : TaskQuery.t) : DispE (list TaskMeta.t * Z)
| DbListHistory (q : HistoryQuery.t) : DispE (list TaskHistory.t * Z)
(* RedisClient, TaskCancellationRegistry *)
| RedisDiscover (service_name : string) : DispE (list string)
| CancelRegistered (task_id : string) : DispE bool
(* HandlerRegistry, RpcClientPool *)
| HasHandler (name : string) : DispE bool
| ExecuteHandler (name : string) (context : TaskExecutionContext) (params : string) : DispE Attempt
| WorkerCall (endpoints : list string) (serial_id : Z) (request : string) (timeout_ms : Z) : DispE PoolResult
(* Metrics, clocks in nanoseconds, and the random digits of [generate_uuid] *)
| DMetric (op : DMetricOp) : DispE ()
| TakeSnapshot : DispE MetricsSnapshot
| DSystemNow : DispE Z
| DSteadyNow : DispE Z
| RandomDigit : DispE Z
(* Whether an exception leaves the code at this point: [Some (Some what)] for a
   [std::exception], [Some None] for anything else *)
| Throws : DispE (option (option string)).

Abbreviation DP := (Prog DispE).

(** Code that may throw: before any of its calls and before it returns.  An
    exception that a call throws after it took effect is the one before the
    next call. *)
Fixpoint may_throw {A : Type} (p : DP A) : DP (A + option string) :=
  match p with
  | Ret a => Do Throws (fun t => Ret (match t with None => inl a | Some what => inr what end))
  | Do e k =>
      Do Throws (fun t => match t with None => Do e (fun x => may_throw (k x)) | Some what => Ret (inr what) end)
  end.

Inductive RpcNodeRole := Combined | ControlPlane | Worker.

#[global] Instance RpcNodeRole_eq_dec : EqDecision RpcNodeRole.
Proof. solve_decision. Defined.

Record RpcDispatcherOptions := mkRpcDispatcherOptions {
  do_role : RpcNodeRole; do_service_name : string; do_worker_service_name : string; do_worker_timeout_ms : Z
}.

(** What the constructor makes of the options. *)
Definition normalize_dispatcher_options (o : RpcDispatcherOptions) : RpcDispatcherOptions :=
  mkRpcDispatcherOptions (do_role o)
    (if str_empty (do_service_name o) then "rpc" else do_service_name o)
    (if str_empty (do_worker_service_name o) then "worker" else do_worker_service_name o)
    (if do_worker_timeout_ms o <=? 0 then 5000 else do_worker_timeout_ms o).

(** The dispatcher's fields; [has_db] and [has_redis] tell whether the pointers
    are set. *)
Record RpcDispatcher := mkRpcDispatcher {
  dp_has_db : bool; dp_has_redis : bool; dp_auth_token : string; dp_node_id : string;
  dp_options : RpcDispatcherOptions
}.

(** [static_cast<int>] *)
Definition to_int (z : Z) : Z := (z + 2 ^ 31) mod 2 ^ 32 - 2 ^ 31.

(** ** Admission *)

(** The bytewise difference of two texts of one length. *)
Fixpoint token_difference (a b : string) : Z :=
  match a, b with
  | String c a', String d b' => Z.lor (Z.lxor (Z_of_byte c) (Z_of_byte d)) (token_difference a' b')
  | _, _ => 0
  end.

Definition authorized (auth_token request_token : string) : bool :=
  if str_empty auth_token then true
  else if negb (slen auth_token =? slen request_token) then false
  else token_difference auth_token request_token =? 0.

Definition methodAllowed (role : RpcNodeRole) (serial_id : Z) : bool :=
  match role with
  | Combined => true
  | ControlPlane => negb (serial_id =? kExecuteTaskRequestSerialId)
  | Worker =>
      (serial_id =? kEchoRequestSerialId) || (serial_id =? kExecuteTaskRequestSerialId) ||
      (serial_id =? kGetMetricsRequestSerialId) || (serial_id =? kHealthCheckRequestSerialId) ||
      (serial_id =? kStreamMetricsRequestSerialId)
  end.

Definition hex_digit (n : Z) : ascii := if n <? 10 then digit n else byte_of_Z (87 + n).

(** 36 characters, dashes at 8, 13, 18 and 23. *)
Definition generate_uuid : DP string :=
  pfold (fun uuid (i : nat) =>
    if existsb (Nat.eqb i) [8; 13; 18; 23]%nat then Ret (uuid +:+ "-")
    else do* n := ask RandomDigit in Ret (uuid +:+ String (hex_digit n) EmptyString))
    EmptyString (seq 0 36).

Section Dispatcher.
Context (codec : Codec) (d : RpcDispatcher).
Context (utc_to_local local_to_utc : Z -> option Z) (cron_next : string -> Z -> option Z).

Definition make_response (serial_id : Z) (message : Message) : RpcResponse :=
  mkRpcResponse serial_id (serialize codec message).
Definition make_error_response (code : ErrorCode) (message : string) : RpcResponse :=
  make_response kRpcErrorSerialId (MRpcError code message).

Definition bad_request (message : string) : DP RpcResponse := Ret (make_error_response BAD_REQUEST message).
Definition no_database : DP RpcResponse := Ret (make_error_response DB_ERROR "DB client is not available").

(** The common start of the handlers: parse, then check the token. *)
Definition admit_request {Req : Type} (parse : string -> option Req) (parse_failed : string)
    (token : Req -> string) (payload : string) (k : Req -> DP RpcResponse) : DP RpcResponse :=
  match parse payload with
  | None => bad_request parse_failed
  | Some req =>
      if authorized (dp_auth_token d) (token req) then k req
      else Ret (make_error_response UNAUTHORIZED "Invalid auth token")
  end.

Abbreviation next_run := (next_ms utc_to_local local_to_utc cron_next).
Abbreviation date_ms := (date_of_ms utc_to_local).

(** ** Workers *)

Definition handlerAvailable (handler : string) : DP bool :=
  if str_empty handler then Ret false
  else
    do* local := (if decide (do_role (dp_options d) = ControlPlane) then Ret false else ask (HasHandler handler)) in
    if (local : bool) then Ret true
    else if negb (dp_has_redis d) then ask (HasHandler handler)
    else
      do* endpoints := ask (RedisDiscover (do_worker_service_name (dp_options d) +:+ ":" +:+ handler)) in
      Ret (match (endpoints : list string) with [] => false | _ => true end).

Record WorkerResult := mkWorkerResult { wr_success : bool; wr_result : string; wr_error : string; wr_endpoint : string }.

Definition worker_failed (error endpoint : string) : WorkerResult := mkWorkerResult false EmptyString error endpoint.

Definition worker_result_of_response (r : PoolResult) : WorkerResult :=
  match pr_response r with
  | None => worker_failed (or_else (pr_error r) "Worker RPC call failed") (pr_endpoint r)
  | Some (serial_id, payload) =>
      if serial_id =? kRpcErrorSerialId then
        worker_failed (match parse_rpc_error codec payload with
                       | Some (code, message) => "RPC error " +:+ to_string code +:+ ": " +:+ message
                       | None => "Worker RPC error response parse failed"
                       end) (pr_endpoint r)
      else if negb (serial_id =? kExecuteTaskResponseSerialId) then
        worker_failed ("Unexpected worker response serial_id: " +:+ to_string serial_id) (pr_endpoint r)
      else
        match parse_execute_response codec payload with
        | None => worker_failed "Failed to parse ExecuteTaskResponse" (pr_endpoint r)
        | Some resp =>
            mkWorkerResult (er_success resp) (er_result resp)
              (if negb (er_success resp) && str_empty (er_error resp) then "Worker reported task failure"
               else er_error resp) (pr_endpoint r)
        end
  end.

Definition invokeWorker (task_id execution_id handler params : string) : DP WorkerResult :=
  do* local := (if decide (do_role (dp_options d) = Combined) then ask (HasHandler handler) else Ret false) in
  if (local : bool) then
    do* now := ask DSystemNow in
    do* attempt := ask (ExecuteHandler handler
      (mkTaskExecutionContext task_id execution_id (u64 (to_ms now + do_worker_timeout_ms (dp_options d)))) params) in
    Ret (match attempt with
         | Returned result => mkWorkerResult true result EmptyString (or_else (dp_node_id d) "local")
         | Threw (Some what) => worker_failed what EmptyString
         | Threw None => worker_failed "Unknown handler exception" EmptyString
         end)
  else if negb (dp_has_redis d) then Ret (worker_failed "Worker discovery is not available" EmptyString)
  else
    do* endpoints := ask (RedisDiscover (do_worker_service_name (dp_options d) +:+ ":" +:+ handler)) in
    match endpoints with
    | [] => Ret (worker_failed ("No worker available for handler: " +:+ handler) EmptyString)
    | _ =>
        do* now := ask DSystemNow in
        let request := mkExecuteTaskRequest task_id execution_id params handler (dp_auth_token d)
                         (u64 (to_ms now + do_worker_timeout_ms (dp_options d))) in
        match serialize_execute codec request with
        | None => Ret (worker_failed "Failed to serialize ExecuteTaskRequest" EmptyString)
        | Some request_payload =>
            do* r := ask (WorkerCall endpoints kExecuteTaskRequestSerialId request_payload
                            (do_worker_timeout_ms (dp_options d))) in
            Ret (worker_result_of_response r)
        end
    end.
(** ** Handlers *)

Definition unit_reply (serial_id : Z) (m : bool -> string -> Message) (success : bool) (error : string) : RpcResponse :=
  make_response serial_id (m success error).

(** [set_success(ok); if (!ok) set_error(error)] *)
Definition outcome_reply (serial_id : Z) (m : bool -> string -> Message) (ok : bool) (error : string) : RpcResponse :=
  unit_reply serial_id m ok (if ok then EmptyString else error).

Definition handleEcho (payload : string) : DP RpcResponse :=
  admit_request (parse_echo codec) "Parse EchoRequest failed" ec_auth_token payload (fun req =>
    Ret (make_response kEchoResponseSerialId (MEcho ("Echo: " +:+ ec_message req)))).

Definition handler_not_found (handler : string) : DP RpcResponse :=
  Ret (make_error_response HANDLER_NOT_FOUND ("Handler not found: " +:+ handler)).

(** The defaults of [TaskMeta] with the fields a submission sets. *)
Definition submitted_task (id : string) (req : SubmitTaskRequest) (next_run_at : string) : TaskMeta.t :=
  TaskMeta.mk id (st_cron_expr req) (st_params req) (st_handler req) TASK_SCHEDULED next_run_at
    EmptyString 0 3 EmptyString EmptyString EmptyString.

Definition handleSubmitTask (payload : string) : DP RpcResponse :=
  admit_request (parse_submit codec) "Parse SubmitTaskRequest failed" st_auth_token payload (fun req =>
    do* id := generate_uuid in
    if str_empty (st_cron_expr req) || str_empty (st_handler req) then bad_request "Cron and handler are required"
    else
      do* available := handlerAvailable (st_handler req) in
      if negb available then handler_not_found (st_handler req)
      else
        do* now := ask DSystemNow in
        let next_run_ms := next_run (st_cron_expr req) (to_ms now) in
        if next_run_ms =? 0 then
          Ret (make_response kSubmitTaskResponseSerialId (MSubmitTask EmptyString false "Invalid cron expression"))
        else if negb (dp_has_db d) then no_database
        else
          do* added := ask (DbWrite (OpAdd (submitted_task id req (date_ms next_run_ms)))) in
          Ret (if (added : bool) then make_response kSubmitTaskResponseSerialId (MSubmitTask id true EmptyString)
               else make_error_response DB_ERROR "DB insert failed")).

(** The result and error of an attempt. *)
Definition attempt_texts (a : Attempt) : string * string :=
  match a with
  | Returned result => (result, EmptyString)
  | Threw what =>
      let error := default "Unknown handler exception" what in ("Exception: " +:+ error, error)
  end.

Definition handleExecuteTask (payload : string) : DP RpcResponse :=
  admit_request (parse_execute codec) "Parse ExecuteTaskRequest failed" et_auth_token payload (fun req =>
    if str_empty (et_handler req) then bad_request "Handler is required"
    else
      do* found := ask (HasHandler (et_handler req)) in
      if negb found then handler_not_found (et_handler req)
      else
        do* now := ask DSystemNow in
        if (0 <? et_deadline_unix_ms req) && (et_deadline_unix_ms req <=? u64 (to_ms now)) then
          Ret (make_error_response DEADLINE_EXCEEDED "Task deadline exceeded before execution")
        else
          do* attempt := ask (ExecuteHandler (et_handler req)
            (mkTaskExecutionContext (et_task_id req) (et_execution_id req) (et_deadline_unix_ms req)) (et_params req)) in
          let '(result, error) := attempt_texts attempt in
          Ret (make_response kExecuteTaskResponseSerialId (MExecuteTask (str_empty error) result error))).

(** The common start of the handlers of a task. *)
Definition with_task_id (task_id : string) (k : DP RpcResponse) : DP RpcResponse :=
  if str_empty task_id then bad_request "Task id is required"
  else if negb (dp_has_db d) then no_database
  else k.

Definition handleCancelTask (payload : string) : DP RpcResponse :=
  admit_request (parse_cancel codec) "Parse CancelTaskRequest failed" ti_auth_token payload (fun req =>
    with_task_id (ti_task_id req) (
      do* canceled := ask (DbWrite (OpCancel (ti_task_id req))) in
      if (canceled : bool) then
        ask (CancelRegistered (ti_task_id req)) ;;!
        Ret (unit_reply kCancelTaskResponseSerialId MCancelTask true EmptyString)
      else Ret (unit_reply kCancelTaskResponseSerialId MCancelTask false "Task not found"))).

(** The page size of a listing, between 1 and 500. *)
Definition page_limit (limit : Z) : Z := Z.min (if 0 <? limit then limit else 100) 500.
Definition page_offset (offset : Z) : Z := if 0 <? offset then offset else 0.

Definition handleListTasks (payload : string) : DP RpcResponse :=
  admit_request (parse_list_tasks codec) "Parse ListTasksRequest failed" lt_auth_token payload (fun req =>
    if negb (dp_has_db d) then no_database
    else
      let query := TaskQuery.mk
        (if lt_has_status_filter req then lt_status_filter req
         else if lt_enabled_only req then TASK_SCHEDULED else -1)
        (lt_keyword req) (page_limit (lt_limit req)) (page_offset (lt_offset req)) in
      do* page := ask (DbListTasks query) in
      Ret (make_response kListTasksResponseSerialId
             (MListTasks page.1 (to_int page.2) (TaskQuery.offset query) (TaskQuery.limit query)))).

Definition handleListHistory (payload : string) : DP RpcResponse :=
  admit_request (parse_list_history codec) "Parse ListHistoryRequest failed" lh_auth_token payload (fun req =>
    if negb (dp_has_db d) then no_database
    else
      let query := HistoryQuery.mk (lh_task_id req)
        (if lh_has_success_filter req then lh_success_filter req else -1)
        (lh_keyword req) (page_limit (lh_limit req)) (page_offset (lh_offset req)) in
      do* page := ask (DbListHistory query) in
      Ret (make_response kListHistoryResponseSerialId
             (MListHistory page.1 (to_int page.2) (HistoryQuery.offset query) (HistoryQuery.limit query)))).

Definition handleListServices (payload : string) : DP RpcResponse :=
  admit_request (parse_list_services codec) "Parse ListServicesRequest failed" ls_auth_token payload (fun req =>
    if negb (dp_has_redis d) then Ret (make_error_response INTERNAL_ERROR "Redis client is not available")
    else
      do* endpoints := ask (RedisDiscover (or_else (ls_service_name req) "rpc")) in
      Ret (make_response kListServicesResponseSerialId (MListServices endpoints))).

Definition updated_task (new existing : TaskMeta.t) (next_run_at : string) : TaskMeta.t :=
  TaskMeta.mk (TaskMeta.id new) (TaskMeta.cron_expr new) (TaskMeta.params new) (TaskMeta.handler new)
    (TaskMeta.status new) next_run_at (TaskMeta.last_run_at existing) (TaskMeta.retry_count existing)
    (if 0 <? TaskMeta.max_retries new then TaskMeta.max_retries new else 3)
    EmptyString EmptyString EmptyString.

Definition update_reply (ok : bool) (error : string) : RpcResponse :=
  unit_reply kUpdateTaskResponseSerialId MUpdateTask ok error.

Definition save_definition (new existing : TaskMeta.t) (next_run_at : string) : DP RpcResponse :=
  do* ok := ask (DbWrite (OpUpdateDefinition (updated_task new existing next_run_at))) in
  Ret (outcome_reply kUpdateTaskResponseSerialId MUpdateTask ok "DB update failed").

Definition handleUpdateTask (payload : string) : DP RpcResponse :=
  admit_request (parse_update codec) "Parse UpdateTaskRequest failed" ut_auth_token payload (fun req =>
    if negb (dp_has_db d) then no_database
    else
      match ut_task req with
      | None => bad_request "Task id is required"
      | Some new =>
          if str_empty (TaskMeta.id new) then bad_request "Task id is required"
          else
            do* found := ask (DbGetTask (TaskMeta.id new)) in
            match found with
            | None => Ret (update_reply false "Task not found")
            | Some existing =>
                if TaskMeta.status existing =? TASK_RUNNING then
                  Ret (update_reply false "Running task cannot be edited; cancel it first")
                else if str_empty (TaskMeta.cron_expr new) || str_empty (TaskMeta.handler new) then
                  bad_request "Cron and handler are required"
                else if negb (TaskMeta.status new =? TASK_DISABLED) && negb (TaskMeta.status new =? TASK_SCHEDULED) then
                  bad_request "Task status must be disabled or scheduled"
                else
                  do* available := handlerAvailable (TaskMeta.handler new) in
                  if negb available then handler_not_found (TaskMeta.handler new)
                  else if TaskMeta.status new =? TASK_SCHEDULED then
                    do* now := ask DSystemNow in
                    let next := next_run (TaskMeta.cron_expr new) (to_ms now) in
                    if next =? 0 then Ret (update_reply false "Invalid cron expression")
                    else save_definition new existing (date_ms next)
                  else save_definition new existing (TaskMeta.next_run_at existing)
            end
      end).

(** A handler of an existing task; [missing] answers when there is none. *)
Definition with_task (task_id : string) (missing : RpcResponse) (k : TaskMeta.t -> DP RpcResponse) : DP RpcResponse :=
  with_task_id task_id (
    do* found := ask (DbGetTask task_id) in
    match found with None => Ret missing | Some task => k task end).

Definition enable_reply (ok : bool) : RpcResponse :=
  outcome_reply kEnableTaskResponseSerialId MEnableTask ok "DB update failed".

Definition handleEnableTask (payload : string) : DP RpcResponse :=
  admit_request (parse_enable codec) "Parse EnableTaskRequest failed" en_auth_token payload (fun req =>
    with_task (en_task_id req) (unit_reply kEnableTaskResponseSerialId MEnableTask false "Task not found") (fun task =>
      if negb (en_enabled req) then
        do* ok := ask (DbWrite (OpCancel (en_task_id req))) in
        (if (ok : bool) then ask (CancelRegistered (en_task_id req)) ;;! Ret () else Ret ()) ;;!
        Ret (enable_reply ok)
      else if TaskMeta.status task =? TASK_RUNNING then
        Ret (unit_reply kEnableTaskResponseSerialId MEnableTask true EmptyString)
      else
        do* now := ask DSystemNow in
        let next := next_run (TaskMeta.cron_expr task) (to_ms now) in
        if next =? 0 then Ret (unit_reply kEnableTaskResponseSerialId MEnableTask false "Invalid cron expression")
        else
          do* ok := ask (DbWrite (OpUpdateRuntime (TaskMeta.id task) TASK_SCHEDULED (date_ms next)
                                    (TaskMeta.last_run_at task) (TaskMeta.retry_count task))) in
          Ret (enable_reply ok))).

Definition delete_reply (ok : bool) (error : string) : RpcResponse :=
  unit_reply kDeleteTaskResponseSerialId MDeleteTask ok error.

Definition handleDeleteTask (payload : string) : DP RpcResponse :=
  admit_request (parse_delete codec) "Parse DeleteTaskRequest failed" ti_auth_token payload (fun req =>
    with_task (ti_task_id req) (delete_reply false "Task not found") (fun task =>
      if TaskMeta.status task =? TASK_RUNNING then
        Ret (delete_reply false "Running task cannot be deleted; cancel it first")
      else
        do* ok := ask (DbWrite (OpDelete (ti_task_id req))) in
        Ret (outcome_reply kDeleteTaskResponseSerialId MDeleteTask ok "DB delete failed"))).

Definition run_reply (ok : bool) (result error : string) : RpcResponse :=
  make_response kRunTaskNowResponseSerialId (MRunTaskNow ok result error).

(** [if (!error.empty()) error += "; "; error += what] *)
Definition append_error (error what : string) : string :=
  (if str_empty error then error else error +:+ "; ") +:+ what.

(** What a manual run saves of the worker's answer. *)
Definition run_history (execution_id : string) (task : TaskMeta.t) (dispatch_node : string) (w : WorkerResult)
    (start end_ : Z) : TaskHistory.t :=
  TaskHistory.mk execution_id (TaskMeta.id task) (or_else (wr_endpoint w) dispatch_node)
    (wr_success w) (wr_result w) (wr_error w) (date_ms (u64 (to_ms start))) (date_ms (u64 (to_ms end_))).

(** From the claim on: the execution, its record and its completion. *)
Definition run_claimed (task : TaskMeta.t) (execution_id dispatch_node : string) : DP RpcResponse :=
  do* start := ask DSystemNow in
  do* steady_start := ask DSteadyNow in
  do* w := invokeWorker (TaskMeta.id task) execution_id (TaskMeta.handler task) (TaskMeta.params task) in
  do* end_ := ask DSystemNow in
  do* steady_end := ask DSteadyNow in
  ask (DMetric (DObserveTaskDuration (u64 (to_ms (steady_end - steady_start))))) ;;!
  ask (DMetric (if wr_success w then DIncTaskSuccess else DIncTaskFailure)) ;;!
  let history := run_history execution_id task dispatch_node w start end_ in
  do* history_saved := ask (DbWrite (OpAddHistory history)) in
  do* state_completed := ask (DbWrite (OpComplete (TaskMeta.id task) execution_id (TaskMeta.status task)
                                         (TaskMeta.next_run_at task) (TaskHistory.end_time history)
                                         (TaskMeta.retry_count task))) in
  let error := if (history_saved : bool) then wr_error w
               else append_error (wr_error w) "Failed to persist execution history" in
  let error := if (state_completed : bool) then error
               else append_error error "Task state changed while completing execution" in
  Ret (run_reply (wr_success w && history_saved && state_completed) (wr_result w) error).

Definition handleRunTaskNow (payload : string) : DP RpcResponse :=
  admit_request (parse_run_now codec) "Parse RunTaskNowRequest failed" ti_auth_token payload (fun req =>
    with_task (ti_task_id req) (run_reply false EmptyString "Task not found") (fun task =>
      if TaskMeta.status task =? TASK_RUNNING then Ret (run_reply false EmptyString "Task is already running")
      else if negb (TaskMeta.status task =? TASK_DISABLED) && negb (TaskMeta.status task =? TASK_SCHEDULED) then
        Ret (run_reply false EmptyString "Task has an invalid status")
      else
        do* available := handlerAvailable (TaskMeta.handler task) in
        if negb available then handler_not_found (TaskMeta.handler task)
        else
          do* uuid := generate_uuid in
          let execution_id := "manual:" +:+ TaskMeta.id task +:+ ":" +:+ uuid in
          let dispatch_node := or_else (dp_node_id d) "manual-rpc" in
          do* claimed := ask (DbWrite (OpClaim (TaskMeta.id task) execution_id dispatch_node
                                         (TaskMeta.status task) EmptyString)) in
          if negb claimed then Ret (run_reply false EmptyString "Task state changed before execution")
          else run_claimed task execution_id dispatch_node)).

Definition handleGetMetrics (payload : string) : DP RpcResponse :=
  admit_request (parse_get_metrics codec) "Parse GetMetricsRequest failed" gm_auth_token payload (fun req =>
    do* s := ask TakeSnapshot in
    Ret (make_response kGetMetricsResponseSerialId (MGetMetrics s))).

(** No token is asked of a health check. *)
Definition handleHealthCheck (payload : string) : DP RpcResponse :=
  match parse_health codec payload with
  | None => bad_request "Parse HealthCheckRequest failed"
  | Some req =>
      do* now := ask DSystemNow in
      let known_service := str_empty (hc_service_name req) ||
                           String.eqb (hc_service_name req) (do_service_name (dp_options d)) in
      Ret (make_response kHealthCheckResponseSerialId
             (MHealthCheck known_service (if known_service then "SERVING" else "UNKNOWN_SERVICE")
                (dp_node_id d) (u64 (to_ms now))))
  end.

Definition stream_samples (samples : Z) : Z := Z.min (if 0 <? samples then samples else 3) 10.

Definition handleStreamMetrics (payload : string) : DP (list RpcResponse) :=
  match parse_stream_metrics codec payload with
  | None => Ret [make_error_response BAD_REQUEST "Parse StreamMetricsRequest failed"]
  | Some req =>
      if negb (authorized (dp_auth_token d) (sm_auth_token req)) then
        Ret [make_error_response UNAUTHORIZED "Invalid auth token"]
      else
        let samples := Z.to_nat (stream_samples (sm_samples req)) in
        pfold (fun responses (i : nat) =>
          do* s := ask TakeSnapshot in
          Ret (responses ++ [make_response kStreamMetricsResponseSerialId
                               (MStreamMetrics (Z.of_nat i) (Nat.eqb (i + 1) samples) s)]))
          [] (seq 0 samples)
  end.

(** ** Dispatch *)

Definition dispatchCore (serial_id : Z) (payload : string) : DP RpcResponse :=
  if negb (methodAllowed (do_role (dp_options d)) serial_id) then
    Ret (make_error_response UNKNOWN_METHOD "Method is not available on this node role")
  else if serial_id =? kEchoRequestSerialId then handleEcho payload
  else if serial_id =? kSubmitTaskRequestSerialId then handleSubmitTask payload
  else if serial_id =? kExecuteTaskRequestSerialId then handleExecuteTask payload
  else if serial_id =? kCancelTaskRequestSerialId then handleCancelTask payload
  else if serial_id =? kListTasksRequestSerialId then handleListTasks payload
  else if serial_id =? kListHistoryRequestSerialId then handleListHistory payload
  else if serial_id =? kListServicesRequestSerialId then handleListServices payload
  else if serial_id =? kUpdateTaskRequestSerialId then handleUpdateTask payload
  else if serial_id =? kEnableTaskRequestSerialId then handleEnableTask payload
  else if serial_id =? kDeleteTaskRequestSerialId then handleDeleteTask payload
  else if serial_id =? kRunTaskNowRequestSerialId then handleRunTaskNow payload
  else if serial_id =? kGetMetricsRequestSerialId then handleGetMetrics payload
  else if serial_id =? kHealthCheckRequestSerialId then handleHealthCheck payload
  else Ret (make_error_response UNKNOWN_METHOD ("Unknown serial_id: " +:+ to_string serial_id)).

End Dispatcher.

(** A node with one stored task, where every call works. *)
Module DispatcherExample.

(** Requests with the token "secret"; the payload is the task id or the text. *)
Definition parse_task_id (s : string) : option TaskIdRequest := Some (mkTaskIdRequest s "secret").

Definition stored : TaskMeta.t :=
  TaskMeta.mk "t1" "0 0 3 * * *" "hello" "Echo" TASK_DISABLED "2026-01-01 03:00:00" EmptyString 1 3
    EmptyString EmptyString EmptyString.

Definition outcome_text (b : bool) (s : string) : string := if b then "ok:" +:+ s else "failed:" +:+ s.

Definition serialize (m : Message) : string :=
  match m with
  | MEcho s => s
  | MSubmitTask id b e => outcome_text b (id +:+ e)
  | MExecuteTask b r e | MRunTaskNow b r e => outcome_text b (r +:+ "," +:+ e)
  | MCancelTask b e | MUpdateTask b e | MEnableTask b e | MDeleteTask b e => outcome_text b e
  | MListServices l => String.concat "," l
  | MHealthCheck b s n _ => outcome_text b (s +:+ n)
  | MRpcError _ s => s
  | _ => EmptyString
  end.

Definition codec : Codec := {|
  parse_echo s := Some (mkEchoRequest s "secret");
  parse_submit s := Some (mkSubmitTaskRequest "0 0 3 * * *" s "Echo" "secret");
  parse_execute s := Some (mkExecuteTaskRequest "t1" "e1" s "Echo" "secret" 0);
  parse_cancel := parse_task_id;
  parse_list_tasks s := Some (mkListTasksRequest "secret" 0 false 0 0 s false);
  parse_list_history s := Some (mkListHistoryRequest "secret" s 0 0 0 EmptyString false);
  parse_list_services s := Some (mkListServicesRequest "secret" s);
  parse_update s := Some (mkUpdateTaskRequest "secret" (Some stored));
  parse_enable s := Some (mkEnableTaskRequest s true "secret");
  parse_delete := parse_task_id;
  parse_run_now := parse_task_id;
  parse_get_metrics s := Some (mkGetMetricsRequest "secret");
  parse_health s := Some (mkHealthCheckRequest s EmptyString);
  parse_stream_metrics s := Some (mkStreamMetricsRequest "secret" 2);
  parse_rpc_error s := None;
  parse_execute_response s := Some (mkExecuteTaskResponse true s EmptyString);
  serialize_execute r := Some (et_params r);
  Dispatcher.serialize := serialize
|}.

Definition node (role : RpcNodeRole) : RpcDispatcher :=
  mkRpcDispatcher true true "secret" "node1" (normalize_dispatcher_options (mkRpcDispatcherOptions role "rpc" EmptyString 0)).

Definition next_day (expr : string) (now : Z) : option Z := Some (now + 86400).

Definition answer (X : Type) (e : DispE X) : X :=
  match e with
  | DbWrite _ | CancelRegistered _ | HasHandler _ => true
  | DbGetTask _ => Some stored
  | DbListTasks _ => ([stored], 1)
  | DbListHistory _ => ([], 0)
  | RedisDiscover _ => ["127.0.0.1:9000"]
  | ExecuteHandler _ _ params => Returned ("Echo: " +:+ params)
  | WorkerCall _ _ request _ => mkPoolResult (Some (kExecuteTaskResponseSerialId, request)) "127.0.0.1:9000" EmptyString
  | DMetric _ => ()
  | TakeSnapshot => snapshot zero_metrics
  | DSystemNow => 1767236400000 * ns_per_milli
  | DSteadyNow => 5000
  | RandomDigit => 10
  | Throws => None
  end.

Definition handle (X : Type) (e : DispE X) : M () X := retM (answer X e).

Definition dispatch_core (role : RpcNodeRole) : Z -> string -> DP RpcResponse :=
  dispatchCore codec (node role) Some Some next_day.

Definition trace (role : RpcNodeRole) (serial_id : Z) (payload : string) : list (Event DispE) :=
  trace_of handle (dispatch_core role serial_id payload) ().
Definition response (role : RpcNodeRole) (serial_id : Z) (payload : string) : RpcResponse :=
  (run handle (dispatch_core role serial_id payload) ()).1.

Lemma trace_exec role serial_id payload :
  exec (dispatch_core role serial_id payload) (trace role serial_id payload) (response role serial_id payload).
Proof. apply run_exec. Qed.

Example local_run : response Combined kRunTaskNowRequestSerialId "t1" = mkRpcResponse 22 "ok:Echo: hello,".
Proof. reflexivity. Qed.

Example remote_run : response ControlPlane kRunTaskNowRequestSerialId "t1" = mkRpcResponse 22 "ok:hello,".
Proof. reflexivity. Qed.

Example worker_refuses : response Worker kRunTaskNowRequestSerialId "t1" =
  mkRpcResponse 100 "Method is not available on this node role".
Proof. reflexivity. Qed.

End DispatcherExample.
