(* ===== verification/DispatcherSafety.v ===== *)
(** What the dispatcher keeps to, whatever the stores, the workers and the
    handlers answer: who may call what, which calls each role and configuration
    makes, what is written, and which responses a method gives. *)
From S2P Require Import Prelude Datetime Text Protocol TaskTable TaskProtocol RpcClientPool Metrics CronParser Effects HandlerRegistry Scheduler Dispatcher.

Open Scope prog_scope.

(** ** The token *)

Lemma lor_zero a b : 0 <= a -> 0 <= b -> Z.lor a b = 0 <-> a = 0 /\ b = 0.
Proof. intros Ha Hb. rewrite Z.lor_eq_0_iff. done. Qed.

Lemma lxor_byte_nonneg c d : 0 <= Z.lxor (Z_of_byte c) (Z_of_byte d).
Proof. apply Z.lxor_nonneg. pose proof (Z_of_byte_range c). pose proof (Z_of_byte_range d). lia. Qed.

Lemma token_difference_nonneg a b : 0 <= token_difference a b.
Proof.
  revert b. induction a as [|c a IH]; intros [|e b]; simpl; try lia.
  apply Z.lor_nonneg. split; [apply lxor_byte_nonneg|apply IH].
Qed.

Lemma token_difference_zero a b :
  String.length a = String.length b -> token_difference a b = 0 <-> a = b.
Proof.
  revert b. induction a as [|c a IH]; intros [|e b]; simpl; try done.
  intros [= Hl]. rewrite lor_zero by auto using lxor_byte_nonneg, token_difference_nonneg.
  rewrite Z.lxor_eq_0_iff, (IH b Hl). split; [|by intros [= -> ->]].
  intros [Hc ->]. by rewrite <- (byte_of_Z_of_byte c), Hc, byte_of_Z_of_byte.
Qed.

Lemma authorized_spec token r : authorized token r = true <-> token = EmptyString \/ token = r.
Proof.
  unfold authorized. destruct (str_empty token) eqn:He.
  - apply str_empty_true in He. tauto.
  - apply str_empty_false in He. destruct (Z.eqb_spec (slen token) (slen r)) as [Hl|Hl]; simpl.
    + rewrite Z.eqb_eq, token_difference_zero by (unfold slen in Hl; lia). tauto.
    + split; [done|]. intros [?| ->]; done.
Qed.

(** The serial id of a method's responses. *)
Definition method_response (serial_id : Z) : option Z :=
  md_response_serial_id <$> findMethodByRequestSerialId serial_id.

(** The serial id that announces a message. *)
Definition message_serial_id (m : Message) : Z :=
  match m with
  | MEcho _ => kEchoResponseSerialId
  | MSubmitTask _ _ _ => kSubmitTaskResponseSerialId
  | MExecuteTask _ _ _ => kExecuteTaskResponseSerialId
  | MCancelTask _ _ => kCancelTaskResponseSerialId
  | MListTasks _ _ _ _ => kListTasksResponseSerialId
  | MListHistory _ _ _ _ => kListHistoryResponseSerialId
  | MListServices _ => kListServicesResponseSerialId
  | MUpdateTask _ _ => kUpdateTaskResponseSerialId
  | MEnableTask _ _ => kEnableTaskResponseSerialId
  | MDeleteTask _ _ => kDeleteTaskResponseSerialId
  | MRunTaskNow _ _ _ => kRunTaskNowResponseSerialId
  | MGetMetrics _ => kGetMetricsResponseSerialId
  | MHealthCheck _ _ _ _ => kHealthCheckResponseSerialId
  | MStreamMetrics _ _ _ => kStreamMetricsResponseSerialId
  | MRpcError _ _ => kRpcErrorSerialId
  end.

Section Safety.
Context (codec : Codec) (d : RpcDispatcher).
Context (utc_to_local local_to_utc : Z -> option Z) (cron_next : string -> Z -> option Z).

Abbreviation role := (do_role (dp_options d)).
Abbreviation dispatch_core := (dispatchCore codec d utc_to_local local_to_utc cron_next).

(** The pointers a call needs, and the roles that may make it. *)
Definition permitted (ev : Event DispE) : Prop :=
  match ev with
  | Called e _ =>
      match e with
      | DbWrite _ | DbGetTask _ | DbListTasks _ | DbListHistory _ => dp_has_db d = true /\ role <> Worker
      | RedisDiscover _ | WorkerCall _ _ _ _ => dp_has_redis d = true /\ role <> Worker
      | CancelRegistered _ => role <> Worker
      | ExecuteHandler _ _ _ => role <> ControlPlane
      | _ => True
      end
  end.

Definition writes_settled (ev : Event DispE) : Prop :=
  match ev with Called (DbWrite o) _ => op_ok o | _ => True end.

(** The calls that count requests. *)
Definition rpc_counter (ev : Event DispE) : bool :=
  match ev with
  | Called (DMetric (DIncRpcRequest | DIncRpcSuccess | DIncRpcError)) _ => true
  | _ => false
  end.

(** The calls that count requests, and the exceptions raised. *)
Definition notable (ev : Event DispE) : bool :=
  match ev with Called Throws (Some _) => true | _ => rpc_counter ev end.

Definition proper (ev : Event DispE) : Prop := permitted ev /\ writes_settled ev /\ notable ev = false.

(** A response that is the message its serial id says. *)
Definition replies (serial_id : Z) (r : RpcResponse) : Prop :=
  exists m, r = make_response codec (message_serial_id m) m /\
            (message_serial_id m = serial_id \/ message_serial_id m = kRpcErrorSerialId).

Ltac proper_call _ :=
  let x := fresh "x" in intros x; split; [split_and!; unfold permitted, writes_settled, op_ok; try done|].
Ltac proper_steps := repeat (always_step proper_call).
Ltac reply_one :=
  lazymatch goal with
  | |- replies _ ?r =>
      let r' := eval hnf in r in
      lazymatch r' with mkRpcResponse _ (_ ?m) => exists m; split; [reflexivity|first [by left | by right]] end
  end.
Ltac reply := try (apply always_ret; cbv beta); first [reply_one | match goal with |- replies _ (if ?b then _ else _) => destruct b; reply_one end].

Lemma uuid_proper (Q : string -> Prop) : (forall s, Q s) -> always proper generate_uuid Q.
Proof.
  intros HQ. eapply always_mono; [|intros s _; apply HQ].
  apply (always_pfold _ _ _ (fun _ => True)); [|done]. intros s i _ _. proper_steps; done.
Qed.

Lemma admit_proper {Req} (parse : string -> option Req) failed token payload k serial_id :
  (forall req, always proper (k req) (replies serial_id)) ->
  always proper (admit_request codec d parse failed token payload k) (replies serial_id).
Proof. intros Hk. unfold admit_request, bad_request. proper_steps; [apply Hk|reply..]. Qed.

Lemma available_proper handler (Q : bool -> Prop) : role <> Worker ->
  (forall b, Q b) -> always proper (handlerAvailable d handler) Q.
Proof.
  intros Hr HQ. unfold handlerAvailable. proper_steps; try apply HQ.
  all: split; [by destruct (dp_has_redis d)|done].
Qed.

Lemma invoke_proper id e handler params (Q : WorkerResult -> Prop) : role <> Worker ->
  (forall w, Q w) -> always proper (invokeWorker codec d id e handler params) Q.
Proof.
  intros Hr HQ. unfold invokeWorker. proper_steps; try apply HQ.
  all: try (by intros ?; congruence).
  all: try (split; [by destruct (dp_has_redis d)|done]).
Qed.

Lemma echo_proper payload : always proper (handleEcho codec d payload) (replies kEchoResponseSerialId).
Proof. apply admit_proper. intros req. reply. Qed.

Lemma submit_proper payload : role <> Worker ->
  always proper (handleSubmitTask codec d utc_to_local local_to_utc cron_next payload) (replies kSubmitTaskResponseSerialId).
Proof.
  intros Hr. apply admit_proper. intros req. unfold bad_request, handler_not_found, no_database.
  apply always_bind, uuid_proper. intros id. cbv beta. always_step proper_call; [reply|].
  apply always_bind, available_proper; [done|]. intros [].
  - proper_steps; try reply; by right.
  - proper_steps; reply.
Qed.

Lemma execute_proper payload : role <> ControlPlane ->
  always proper (handleExecuteTask codec d payload) (replies kExecuteTaskResponseSerialId).
Proof.
  intros Hr. apply admit_proper. intros req. unfold bad_request, handler_not_found. proper_steps; reply.
Qed.

Lemma with_task_id_proper id k serial_id :
  (dp_has_db d = true -> always proper k (replies serial_id)) ->
  always proper (with_task_id codec d id k) (replies serial_id).
Proof. intros Hk. unfold with_task_id, bad_request, no_database. proper_steps; [reply|by apply Hk|reply]. Qed.

Lemma with_task_proper id missing k serial_id : role <> Worker -> replies serial_id missing ->
  (dp_has_db d = true -> forall task, always proper (k task) (replies serial_id)) ->
  always proper (with_task codec d id missing k) (replies serial_id).
Proof.
  intros Hr Hm Hk. apply with_task_id_proper. intros Hd. proper_steps; [by apply Hk|done].
Qed.

Lemma cancel_proper payload : role <> Worker ->
  always proper (handleCancelTask codec d payload) (replies kCancelTaskResponseSerialId).
Proof.
  intros Hr. apply admit_proper. intros req. apply with_task_id_proper. intros Hd. proper_steps; reply.
Qed.

Lemma lists_proper payload : role <> Worker ->
  always proper (handleListTasks codec d payload) (replies kListTasksResponseSerialId) /\
  always proper (handleListHistory codec d payload) (replies kListHistoryResponseSerialId) /\
  always proper (handleListServices codec d payload) (replies kListServicesResponseSerialId).
Proof.
  intros Hr. split_and!; apply admit_proper; intros req; unfold no_database; proper_steps; reply.
Qed.

Lemma update_proper payload : role <> Worker ->
  always proper (handleUpdateTask codec d utc_to_local local_to_utc cron_next payload) (replies kUpdateTaskResponseSerialId).
Proof.
  intros Hr. apply admit_proper. intros req. unfold no_database, bad_request, handler_not_found, save_definition, update_reply.
  repeat (lazymatch goal with |- always _ (bindP (handlerAvailable _ _) _) _ => fail | _ => always_step proper_call end);
    try reply.
  all: apply always_bind, available_proper; [done|]; intros [].
  all: proper_steps; try reply; unfold settled; simpl; lia.
Qed.

Lemma enable_proper payload : role <> Worker ->
  always proper (handleEnableTask codec d utc_to_local local_to_utc cron_next payload) (replies kEnableTaskResponseSerialId).
Proof.
  intros Hr. apply admit_proper. intros req. apply with_task_proper; [done|reply|]. intros Hd task.
  proper_steps; try reply; by right.
Qed.

Lemma delete_proper payload : role <> Worker ->
  always proper (handleDeleteTask codec d payload) (replies kDeleteTaskResponseSerialId).
Proof.
  intros Hr. apply admit_proper. intros req. apply with_task_proper; [done|reply|]. intros Hd task. proper_steps; reply.
Qed.

Lemma run_claimed_proper task e node : role <> Worker -> dp_has_db d = true -> settled (TaskMeta.status task) ->
  always proper (run_claimed codec d utc_to_local task e node) (replies kRunTaskNowResponseSerialId).
Proof.
  intros Hr Hd Hs. unfold run_claimed. do 4 always_step proper_call. always_step proper_call. always_step proper_call.
  apply always_bind, invoke_proper; [done|]. intros w. proper_steps; first [by destruct (wr_success w)|reply].
Qed.

Lemma run_proper payload : role <> Worker ->
  always proper (handleRunTaskNow codec d utc_to_local payload) (replies kRunTaskNowResponseSerialId).
Proof.
  intros Hr. apply admit_proper. intros req. apply with_task_proper; [done|reply|]. intros Hd task.
  unfold handler_not_found.
  repeat (lazymatch goal with |- always _ (bindP (handlerAvailable _ _) _) _ => fail | _ => always_step proper_call end);
    try reply.
  all: apply always_bind, available_proper; [done|]; intros []; [|proper_steps; reply].
  all: cbv beta; always_step proper_call; apply always_bind, uuid_proper; intros uuid; proper_steps; try reply.
  1: by apply Z.eqb_neq.
  apply run_claimed_proper; [done..|unfold settled; lia].
Qed.

Lemma health_proper payload :
  always proper (handleGetMetrics codec d payload) (replies kGetMetricsResponseSerialId) /\
  always proper (handleHealthCheck codec d payload) (replies kHealthCheckResponseSerialId).
Proof.
  split; [apply admit_proper; intros req|unfold handleHealthCheck, bad_request]; proper_steps; reply.
Qed.

Lemma stream_proper payload :
  always proper (handleStreamMetrics codec d payload) (Forall (replies kStreamMetricsResponseSerialId)).
Proof.
  unfold handleStreamMetrics. proper_steps; [|repeat constructor; reply..].
  apply (always_pfold _ _ _ (Forall (replies kStreamMetricsResponseSerialId))); [|by constructor].
  intros l i _ Hl. proper_steps. apply Forall_app. split; [done|]. repeat constructor; reply.
Qed.

(** A response to [serial_id]: its method's message or an error. *)
Definition typed (serial_id : Z) (r : RpcResponse) : Prop :=
  exists m, r = make_response codec (message_serial_id m) m /\
    (message_serial_id m = kRpcErrorSerialId \/ method_response serial_id = Some (message_serial_id m)).

Lemma typed_serial serial_id r : typed serial_id r ->
  rsp_serial_id r = kRpcErrorSerialId \/ method_response serial_id = Some (rsp_serial_id r).
Proof. by intros (m & -> & H). Qed.

Lemma typed_error serial_id code message : typed serial_id (make_error_response codec code message).
Proof. exists (MRpcError code message). split; [done|by left]. Qed.

Lemma replies_method serial_id response_id p :
  method_response serial_id = Some response_id -> always proper p (replies response_id) ->
  always proper p (typed serial_id).
Proof.
  intros Hm Hp. eapply always_mono; [exact Hp|]. intros r (m & -> & [H|H]); exists m; (split; [done|]); [right|left].
  - by rewrite H.
  - done.
Qed.

Lemma dispatch_core_proper serial_id payload :
  always proper (dispatch_core serial_id payload) (typed serial_id).
Proof.
  unfold dispatchCore. always_step proper_call; [|apply typed_error].
  assert (Hrole : role = Worker -> methodAllowed Worker serial_id = true) by (by intros <-).
  assert (Hctl : serial_id = kExecuteTaskRequestSerialId -> role <> ControlPlane) by (intros -> Hc; by rewrite Hc in *).
  repeat match goal with |- always _ (if serial_id =? ?c then _ else _) _ =>
    destruct (Z.eqb_spec serial_id c) as [->|]; [eapply replies_method; [reflexivity|]|] end.
  all: try apply typed_error.
  all: lazymatch goal with
    | |- always _ (handleEcho _ _ _) _ => apply echo_proper
    | |- always _ (handleExecuteTask _ _ _) _ => apply execute_proper; auto
    | |- always _ (handleGetMetrics _ _ _) _ => apply health_proper
    | |- always _ (handleHealthCheck _ _ _) _ => apply health_proper
    | |- _ => assert (Hw : role <> Worker) by (intros Hw; by specialize (Hrole Hw))
    end.
  1: by apply submit_proper.
  1: by apply cancel_proper.
  1-3: by apply lists_proper.
  1: by apply update_proper.
  1: by apply enable_proper.
  1: by apply delete_proper.
  by apply run_proper.
Qed.
(** ** Admission *)

(** What a request shows for its admission: a payload that does not parse shows
    nothing, a health check is served without a token, and every other message
    has a field for one. *)
Inductive Credential : Set :=
  | Unparsed
  | TokenFree
  | Bears (token : string).

Definition bearing {Req} (token : Req -> string) (req : option Req) : Credential :=
  from_option (fun req => Bears (token req)) Unparsed req.

(** By method; [None] where there is no such method. *)
Definition request_token (serial_id : Z) (payload : string) : option Credential :=
  if serial_id =? kEchoRequestSerialId then Some (bearing ec_auth_token (parse_echo codec payload))
  else if serial_id =? kSubmitTaskRequestSerialId then Some (bearing st_auth_token (parse_submit codec payload))
  else if serial_id =? kExecuteTaskRequestSerialId then Some (bearing et_auth_token (parse_execute codec payload))
  else if serial_id =? kCancelTaskRequestSerialId then Some (bearing ti_auth_token (parse_cancel codec payload))
  else if serial_id =? kListTasksRequestSerialId then Some (bearing lt_auth_token (parse_list_tasks codec payload))
  else if serial_id =? kListHistoryRequestSerialId then Some (bearing lh_auth_token (parse_list_history codec payload))
  else if serial_id =? kListServicesRequestSerialId then Some (bearing ls_auth_token (parse_list_services codec payload))
  else if serial_id =? kUpdateTaskRequestSerialId then Some (bearing ut_auth_token (parse_update codec payload))
  else if serial_id =? kEnableTaskRequestSerialId then Some (bearing en_auth_token (parse_enable codec payload))
  else if serial_id =? kDeleteTaskRequestSerialId then Some (bearing ti_auth_token (parse_delete codec payload))
  else if serial_id =? kRunTaskNowRequestSerialId then Some (bearing ti_auth_token (parse_run_now codec payload))
  else if serial_id =? kGetMetricsRequestSerialId then Some (bearing gm_auth_token (parse_get_metrics codec payload))
  else if serial_id =? kHealthCheckRequestSerialId then Some (from_option (fun _ => TokenFree) Unparsed (parse_health codec payload))
  else None.

(** Why a request is turned away, if it is.  A node with an empty token asks
    for none. *)
Definition token_refusal (shown : Credential) : option ErrorCode :=
  match shown with
  | Unparsed => Some BAD_REQUEST
  | TokenFree => None
  | Bears token => if decide (dp_auth_token d = EmptyString \/ dp_auth_token d = token) then None else Some UNAUTHORIZED
  end.

Definition refusal (serial_id : Z) (payload : string) : option ErrorCode :=
  if negb (methodAllowed role serial_id) then Some UNKNOWN_METHOD
  else
    match request_token serial_id payload with
    | None => Some UNKNOWN_METHOD
    | Some shown => token_refusal shown
    end.

Lemma admit_refuses {Req} (parse : string -> option Req) failed token payload k code :
  token_refusal (bearing token (parse payload)) = Some code ->
  exists message, admit_request codec d parse failed token payload k = Ret (make_error_response codec code message).
Proof.
  unfold admit_request, bad_request, token_refusal, bearing. destruct (parse payload) as [req|]; simpl; [|intros [= <-]; by eexists].
  case_decide as Ht; [done|]. intros [= <-].
  destruct (authorized (dp_auth_token d) (token req)) eqn:Ha; [|by eexists]. by apply authorized_spec in Ha.
Qed.

Lemma request_is_refused serial_id payload code : refusal serial_id payload = Some code ->
  exists message, dispatch_core serial_id payload = Ret (make_error_response codec code message).
Proof.
  unfold refusal, dispatchCore, request_token.
  destruct (methodAllowed role serial_id); simpl; [|intros [= <-]; by eexists].
  repeat match goal with |- context [serial_id =? ?c] =>
    destruct (serial_id =? c); [try by apply admit_refuses|] end.
  - unfold token_refusal, handleHealthCheck, bad_request. destruct (parse_health codec payload); simpl; [done|intros [= <-]; by eexists].
  - intros [= <-]. by eexists.
Qed.

End Safety.

Section Theorems.
Context (codec : Codec) (d : RpcDispatcher).
Context (utc_to_local local_to_utc : Z -> option Z) (cron_next : string -> Z -> option Z).

Abbreviation dispatch_core := (dispatchCore codec d utc_to_local local_to_utc cron_next).

(** C21.  A request that the node's role does not serve or that does not parse,
    and, on a node with a non-empty token, a request other than a health check
    whose token is not exactly the node's, makes no call of any kind: it is
    answered at once with the error of its refusal.  A health check is served
    without a token, and a node whose token is empty asks for none. *)
Theorem refused_request_does_nothing serial_id payload code tr r :
  refusal codec d serial_id payload = Some code -> exec (dispatch_core serial_id payload) tr r ->
  tr = [] /\ exists message, r = make_error_response codec code message.
Proof.
  intros Hr He. destruct (request_is_refused codec d utc_to_local local_to_utc cron_next _ _ _ Hr) as [m Hm].
  rewrite Hm in He. destruct He as [-> ->]. split; [done|by exists m].
Qed.

(** C22.  Whatever a request asks, the dispatcher uses the database and the
    registry of workers only where it has them and never on a worker node, and
    never runs a task handler in its own process on a control-plane node. *)
Theorem calls_are_permitted serial_id payload tr r :
  exec (dispatch_core serial_id payload) tr r -> Forall (permitted d) tr.
Proof.
  intros He. destruct (always_sound _ _ _ _ _ (dispatch_core_proper codec d utc_to_local local_to_utc cron_next _ _) He)
    as [Hp _]. eapply Forall_impl; [exact Hp|]. intros ev (H & _). exact H.
Qed.

(** C23.  Responses are typed: whatever the handlers and the components they
    call do, the payload of every response is the serialized message that its
    serial id announces, and that message is an error or the response the
    method table gives for the request. *)
Theorem responses_are_typed serial_id payload tr r :
  exec (dispatch_core serial_id payload) tr r -> typed codec serial_id r.
Proof.
  intros He. by destruct (always_sound _ _ _ _ _ (dispatch_core_proper codec d utc_to_local local_to_utc cron_next _ _) He).
Qed.

End Theorems.

Module SafetyExample.
Import DispatcherExample.

(** The stored token is "secret", the node's is not. *)
Definition locked : RpcDispatcher := mkRpcDispatcher true true "other" "node1" (dp_options (node Combined)).

Lemma refused_request_does_nothing_witness :
  trace_of handle (dispatchCore codec locked Some Some next_day kDeleteTaskRequestSerialId "t1") () = [] /\
  exists message, (run handle (dispatchCore codec locked Some Some next_day kDeleteTaskRequestSerialId "t1") ()).1 =
    make_error_response codec UNAUTHORIZED message.
Proof.
  apply (refused_request_does_nothing codec locked Some Some next_day kDeleteTaskRequestSerialId "t1").
  - reflexivity.
  - apply run_exec.
Defined.

(** Only a health check gets past the token. *)
Example health_check_needs_no_token :
  refusal codec locked kEchoRequestSerialId "anything" = Some UNAUTHORIZED /\
  refusal codec locked kHealthCheckRequestSerialId "anything" = None.
Proof. by vm_compute. Qed.

Lemma calls_are_permitted_witness :
  Forall (permitted (node ControlPlane)) (trace ControlPlane kRunTaskNowRequestSerialId "t1").
Proof. apply (calls_are_permitted codec _ Some Some next_day _ "t1" _ _ (trace_exec _ _ _)). Defined.

Lemma responses_are_typed_witness :
  typed codec kRunTaskNowRequestSerialId (response ControlPlane kRunTaskNowRequestSerialId "t1").
Proof. apply (responses_are_typed codec _ Some Some next_day _ "t1" _ _ (trace_exec _ _ _)). Defined.

End SafetyExample.
