(* ===== verification/DispatcherOutcome.v ===== *)
(** What the dispatcher's requests come to: the calls of a manual run and of a
    submission, with the answer their caller gets. *)
From S2P Require Import Prelude Datetime Text Protocol TaskTable TaskProtocol RpcClientPool Metrics CronParser Effects HandlerRegistry Scheduler Dispatcher DispatcherSafety.

Open Scope prog_scope.

(** The calls that change something, run a task, read the task to run, the
    clocks or the random digits of an id. *)
Definition run_effect (ev : Event DispE) : bool :=
  match ev with
  | Called e _ =>
      match e with
      | DbWrite _ | DbGetTask _ | CancelRegistered _ | ExecuteHandler _ _ _ | WorkerCall _ _ _ _ | DMetric _ => true
      | DSystemNow | DSteadyNow | RandomDigit => true
      | _ => false
      end
  end.

(** The text of an id drawn as 32 random digits, in groups of 8, 4, 4, 4 and 12. *)
Fixpoint hex_text (digits : list Z) : string :=
  match digits with [] => EmptyString | n :: digits => String (hex_digit n) (hex_text digits) end.

Definition uuid_text (digits : list Z) : string :=
  hex_text (take 8 digits) +:+ "-" +:+ hex_text (take 4 (drop 8 digits)) +:+ "-" +:+
  hex_text (take 4 (drop 12 digits)) +:+ "-" +:+ hex_text (take 4 (drop 16 digits)) +:+ "-" +:+
  hex_text (drop 20 digits).

(** The draws, each call with the digit it answered. *)
Definition drawn (digits : list Z) : list (Event DispE) := map (Called RandomDigit) digits.

Section Outcome.
Context (codec : Codec) (d : RpcDispatcher).
Context (utc_to_local local_to_utc : Z -> option Z) (cron_next : string -> Z -> option Z).

Abbreviation wpC := (wp (collector run_effect)).

(** The deadline that the time read now gives. *)
Definition worker_deadline (now : Z) : Z := u64 (to_ms now + do_worker_timeout_ms (dp_options d)).

(** The one execution of a claimed task, if any, and what it comes to. *)
Inductive execution (task : TaskMeta.t) (execution_id : string) : list (Event DispE) -> WorkerResult -> Prop :=
| not_executed calls w : Forall (fun ev => exists now, ev = Called DSystemNow now) calls -> wr_success w = false ->
    execution task execution_id calls w
| executed_here now attempt w :
    do_role (dp_options d) = Combined ->
    match attempt with
    | Returned result => wr_success w = true /\ wr_result w = result /\ wr_error w = EmptyString
    | Threw what => wr_success w = false /\ wr_error w = default "Unknown handler exception" what
    end ->
    execution task execution_id
      [Called DSystemNow now;
       Called (ExecuteHandler (TaskMeta.handler task)
                 (mkTaskExecutionContext (TaskMeta.id task) execution_id (worker_deadline now)) (TaskMeta.params task)) attempt] w
| executed_by_worker endpoints now request r :
    endpoints <> [] ->
    serialize_execute codec (mkExecuteTaskRequest (TaskMeta.id task) execution_id (TaskMeta.params task)
      (TaskMeta.handler task) (dp_auth_token d) (worker_deadline now)) = Some request ->
    execution task execution_id
      [Called DSystemNow now;
       Called (WorkerCall endpoints kExecuteTaskRequestSerialId request (do_worker_timeout_ms (dp_options d))) r]
      (worker_result_of_response codec r).

Definition manual_id (task : TaskMeta.t) (digits : list Z) : string :=
  "manual:" +:+ TaskMeta.id task +:+ ":" +:+ uuid_text digits.

(** The node that a manual run is booked under. *)
Definition manual_node : string := or_else (dp_node_id d) "manual-rpc".

Definition claim_of (task : TaskMeta.t) (digits : list Z) : DispE bool :=
  DbWrite (OpClaim (TaskMeta.id task) (manual_id task digits) manual_node (TaskMeta.status task) EmptyString).

(** The calls and the answer of a manual run. *)
Inductive manual_run (task_id : string) : list (Event DispE) -> RpcResponse -> Prop :=
| run_not_begun l r :
    Forall (fun ev => exists x, ev = Called (DbGetTask task_id) x) l ->
    (rsp_serial_id r = kRpcErrorSerialId \/ exists error, r = run_reply codec false EmptyString error) ->
    manual_run task_id l r
| run_not_claimed task digits :
    length digits = 32%nat ->
    manual_run task_id
      (Called (DbGetTask task_id) (Some task) :: drawn digits ++ [Called (claim_of task digits) false])
      (run_reply codec false EmptyString "Task state changed before execution")
| run_claimed_and_ended task digits start steady_start calls w end_ steady_end saved completed error
    (execution_id := manual_id task digits)
    (history := run_history utc_to_local execution_id task manual_node w start end_) :
    length digits = 32%nat -> settled (TaskMeta.status task) -> execution task execution_id calls w ->
    manual_run task_id
      (Called (DbGetTask task_id) (Some task) :: drawn digits ++
       [Called (claim_of task digits) true; Called DSystemNow start; Called DSteadyNow steady_start] ++
       calls ++
       [Called DSystemNow end_; Called DSteadyNow steady_end;
        Called (DMetric (DObserveTaskDuration (u64 (to_ms (steady_end - steady_start))))) ();
        Called (DMetric (if wr_success w then DIncTaskSuccess else DIncTaskFailure)) ();
        Called (DbWrite (OpAddHistory history)) saved;
        Called (DbWrite (OpComplete (TaskMeta.id task) execution_id (TaskMeta.status task) (TaskMeta.next_run_at task)
                           (TaskHistory.end_time history) (TaskMeta.retry_count task))) completed])
      (run_reply codec (wr_success w && saved && completed) (wr_result w) error).

Ltac collect_do _ :=
  let x := fresh "x" in apply wp_do; intros x; eexists; split;
  [unfold collector; cbn [run_effect]; reflexivity|].
Ltac collect_call := prog_step collect_do.

Lemma collect_silent {A} (p : DP A) l Q :
  always (fun ev => run_effect ev = false) p Q -> wpC p l (fun a l' => l' = l /\ Q a).
Proof. apply wp_collector_always. Qed.

Ltac silent_call _ := let x := fresh "x" in intros x; split; [done|].
Ltac silent := repeat (always_step silent_call); try done.

Lemma uuid_wp l :
  wpC generate_uuid l (fun s l' => exists digits, length digits = 32%nat /\ l' = l ++ drawn digits /\ s = uuid_text digits).
Proof.
  unfold generate_uuid. cbn [seq pfold existsb Nat.eqb orb]. repeat collect_call.
  rewrite <- !app_assoc. cbn [app].
  eexists [_; _; _; _; _; _; _; _; _; _; _; _; _; _; _; _; _; _; _; _; _; _; _; _; _; _; _; _; _; _; _; _].
  split_and!; reflexivity.
Qed.

Lemma available_silent h : always (fun ev => run_effect ev = false) (handlerAvailable d h) (fun _ => True).
Proof. unfold handlerAvailable. silent. Qed.

Lemma invoke_execution task e l :
  wpC (invokeWorker codec d (TaskMeta.id task) e (TaskMeta.handler task) (TaskMeta.params task)) l
    (fun w l' => exists calls, l' = l ++ calls /\ execution task e calls w).
Proof.
  unfold invokeWorker. case_decide as Hr.
  all: repeat collect_call; rewrite <- ?app_assoc; cbn [app].
  all: try (exists []; rewrite app_nil_r; split; [done|by constructor]).
  all: try (eexists [_]; split; [reflexivity|]; constructor; [|done]; repeat constructor; by eexists).
  all: eexists [_; _]; split; [reflexivity|].
  all: try (eapply executed_by_worker; [|eassumption]; done).
  apply executed_here; [done..|]. by match goal with a : Attempt |- _ => destruct a as [?|[]] end.
Qed.

Lemma run_claimed_wp id task digits :
  length digits = 32%nat -> settled (TaskMeta.status task) ->
  wpC (run_claimed codec d utc_to_local task (manual_id task digits) manual_node)
    ((Called (DbGetTask id) (Some task) :: drawn digits) ++ [Called (claim_of task digits) true])
    (fun r l' => manual_run id l' r).
Proof.
  intros Hd Hs. unfold run_claimed. repeat collect_call.
  eapply wp_mono; [apply invoke_execution|]. cbv beta. intros w l (calls & -> & He).
  repeat collect_call.
  all: repeat match goal with u : () |- _ => destruct u end; rewrite <- !app_assoc; cbn [app];
    apply run_claimed_and_ended; done.
Qed.

Lemma run_wp payload l :
  l = [] ->
  wpC (handleRunTaskNow codec d utc_to_local payload) l
    (fun r l' => (l' = [] /\ rsp_serial_id r = kRpcErrorSerialId) \/
                 exists req, parse_run_now codec payload = Some req /\ manual_run (ti_task_id req) l' r).
Proof.
  intros ->. unfold handleRunTaskNow, admit_request, with_task, with_task_id, bad_request, no_database, handler_not_found.
  repeat (lazymatch goal with |- wp _ (bindP (handlerAvailable _ _) _) _ _ => fail | _ => collect_call end);
    try (by left); try (right; eexists; split; [done|]; apply run_not_begun;
      [repeat constructor; by eexists|first [by right; eexists|by left]]).
  all: apply wp_bind; eapply wp_mono; [apply collect_silent, available_silent|]; cbv beta; intros b l' [-> _];
    collect_call; [right; eexists; split; [done|]; apply run_not_begun; [repeat constructor; by eexists|by left]|].
  all: apply wp_bind; eapply wp_mono; [apply uuid_wp|]; cbv beta; intros uuid l' (digits & Hd & -> & ->); cbv zeta.
  all: repeat (lazymatch goal with |- wp _ (run_claimed _ _ _ _ _ _) _ _ => fail | _ => collect_call end).
  all: destruct x0; try done; cbn [app].
  - right. eexists. split; [done|]. by constructor.
  - eapply wp_mono; [apply run_claimed_wp; [done|unfold settled; lia]|]. cbv beta. intros r l' Hrun.
    right. eexists. by split.
Qed.

(** C24.  A manual run, whatever the stores, the workers and the handlers answer:
    unless it is refused or loses the claim, it draws 32 random digits, claims
    the stored task under the id they spell, runs it at most once under that id
    (in the node or by one worker request, with the deadline the clock gives),
    counts and times it once, adds one history record of the outcome between
    the two clock readings and completes its execution with the status, next
    run and retry count the task had; the reply is a success exactly when the
    task succeeded and both writes answered true. *)
Theorem manual_run_is_recorded_and_restored payload tr r :
  exec (handleRunTaskNow codec d utc_to_local payload) tr r ->
  (collect run_effect tr = [] /\ rsp_serial_id r = kRpcErrorSerialId) \/
  exists req, parse_run_now codec payload = Some req /\ manual_run (ti_task_id req) (collect run_effect tr) r.
Proof. intros He. exact (wp_collect _ _ _ _ _ (run_wp payload [] eq_refl) He). Qed.

(** ** Submission *)

(** A submission draws an id and writes at most one row, the one its answer
    names, to run at the next time of the expression after the time it read. *)
Inductive submission (req : SubmitTaskRequest) : list (Event DispE) -> RpcResponse -> Prop :=
| not_submitted digits clock r :
    length digits = 32%nat -> Forall (fun ev => exists now, ev = Called DSystemNow now) clock ->
    rsp_serial_id r = kRpcErrorSerialId \/
      r = make_response codec kSubmitTaskResponseSerialId (MSubmitTask EmptyString false "Invalid cron expression") ->
    submission req (drawn digits ++ clock) r
| submitted digits now (ok : bool) (next := next_ms utc_to_local local_to_utc cron_next (st_cron_expr req) (to_ms now)) :
    length digits = 32%nat -> st_cron_expr req <> EmptyString -> st_handler req <> EmptyString -> next <> 0 ->
    submission req
      (drawn digits ++ [Called DSystemNow now;
         Called (DbWrite (OpAdd (submitted_task (uuid_text digits) req (date_of_ms utc_to_local next)))) ok])
      (if ok then make_response codec kSubmitTaskResponseSerialId (MSubmitTask (uuid_text digits) true EmptyString)
       else make_error_response codec DB_ERROR "DB insert failed").

Lemma submit_wp payload :
  wpC (handleSubmitTask codec d utc_to_local local_to_utc cron_next payload) []
    (fun r l => (l = [] /\ rsp_serial_id r = kRpcErrorSerialId) \/
                exists req, parse_submit codec payload = Some req /\ submission req l r).
Proof.
  unfold handleSubmitTask, admit_request, no_database, bad_request, handler_not_found.
  collect_call; [|by left]. collect_call; [|by left].
  apply wp_bind. eapply wp_mono; [apply uuid_wp|]. cbv beta. intros id l (digits & Hd & -> & ->). cbn [app].
  assert (Hnot : forall r clock, Forall (fun ev => exists now, ev = Called DSystemNow now) clock ->
    rsp_serial_id r = kRpcErrorSerialId \/
      r = make_response codec kSubmitTaskResponseSerialId (MSubmitTask EmptyString false "Invalid cron expression") ->
    exists req, Some s = Some req /\ submission req (drawn digits ++ clock) r).
  { intros r clock Hc Hr. eexists. split; [done|]. by apply not_submitted. }
  collect_call; [right; rewrite <- (app_nil_r (drawn _)); apply Hnot; [done|by left]|].
  apply wp_bind. eapply wp_mono; [apply collect_silent, available_silent|]. cbv beta. intros b l [-> _].
  repeat collect_call; right.
  - rewrite <- (app_nil_r (drawn _)). apply Hnot; [done|by left].
  - apply Hnot; [repeat constructor; by eexists|by right].
  - apply Hnot; [repeat constructor; by eexists|by left].
  - eexists. split; [done|]. rewrite <- app_assoc. cbn [app].
    apply orb_false_iff in Heqb0 as [Hc Hh]. apply str_empty_false in Hc, Hh. apply Z.eqb_neq in Heqb2.
    by apply submitted.
Qed.

(** ** Remote execution *)

(** The answer to an execution request that is let in and whose handler exists. *)
Definition execution_reply (a : Attempt) : RpcResponse :=
  make_response codec kExecuteTaskResponseSerialId
    (MExecuteTask (str_empty (attempt_texts a).2) (attempt_texts a).1 (attempt_texts a).2).

Lemma execute_wp payload :
  wpC (handleExecuteTask codec d payload) []
    (fun r l => (Forall (fun ev => exists now, ev = Called DSystemNow now) l /\ rsp_serial_id r = kRpcErrorSerialId) \/
                exists req now a, parse_execute codec payload = Some req /\
                  (et_deadline_unix_ms req <= 0 \/ u64 (to_ms now) < et_deadline_unix_ms req) /\
                  l = [Called DSystemNow now;
                       Called (ExecuteHandler (et_handler req)
                         (mkTaskExecutionContext (et_task_id req) (et_execution_id req) (et_deadline_unix_ms req))
                         (et_params req)) a] /\ r = execution_reply a).
Proof.
  unfold handleExecuteTask, admit_request, bad_request, handler_not_found.
  repeat collect_call; try (left; split; [repeat constructor; by eexists|done]).
  right. eexists _, _, _. split; [done|]. split; [|split; [done|unfold execution_reply; by rewrite Heqp]].
  apply andb_false_iff in Heqb2 as [?%Z.ltb_ge|?%Z.leb_gt]; [by left|by right].
Qed.

(** ** Streams *)

Lemma stream_loop_exec n k m responses tr rs :
  exec (pfold (fun responses (i : nat) =>
          do* s := ask TakeSnapshot in
          Ret (responses ++ [make_response codec kStreamMetricsResponseSerialId
                               (MStreamMetrics (Z.of_nat i) (Nat.eqb (i + 1) n) s)]))
          responses (seq k m)) tr rs ->
  exists snapshots, length snapshots = m /\ tr = map (Called TakeSnapshot) snapshots /\
    rs = responses ++ imap (fun i s => make_response codec kStreamMetricsResponseSerialId
                              (MStreamMetrics (Z.of_nat (k + i)) (Nat.eqb (k + i + 1) n) s)) snapshots.
Proof.
  revert k responses tr. induction m as [|m IH]; intros k responses tr; cbn [seq pfold].
  - intros [-> ->]. exists []. by rewrite app_nil_r.
  - intros (s & tr' & -> & He). cbn in He. apply IH in He as (l & <- & -> & ->).
    exists (s :: l). split; [done|]. split; [done|]. cbn [imap].
    rewrite <- app_assoc. cbn [app]. f_equal. f_equal; [by rewrite !Nat.add_0_r|].
    apply imap_ext. intros i x _. cbn. by rewrite !Nat.add_succ_r.
Qed.

Lemma stream_exec payload req tr rs :
  parse_stream_metrics codec payload = Some req -> authorized (dp_auth_token d) (sm_auth_token req) = true ->
  exec (handleStreamMetrics codec d payload) tr rs ->
  exists snapshots, let n := stream_samples (sm_samples req) in
    1 <= n <= 10 /\ Z.of_nat (length snapshots) = n /\ tr = map (Called TakeSnapshot) snapshots /\
    rs = imap (fun i s => make_response codec kStreamMetricsResponseSerialId
                 (MStreamMetrics (Z.of_nat i) (Z.of_nat i + 1 =? n) s)) snapshots.
Proof.
  intros Hp Ha. unfold handleStreamMetrics. rewrite Hp, Ha. cbn [negb]. cbv zeta.
  intros (l & Hl & -> & ->)%stream_loop_exec. exists l.
  assert (Hn : 1 <= stream_samples (sm_samples req) <= 10).
  { unfold stream_samples. destruct (Z.ltb_spec 0 (sm_samples req)); lia. }
  split_and!; [lia..|done|]. apply imap_ext. intros i x _. cbn. do 2 f_equal.
  destruct (Nat.eqb_spec (i + 1) (Z.to_nat (stream_samples (sm_samples req)))),
    (Z.eqb_spec (Z.of_nat i + 1) (stream_samples (sm_samples req))); done || lia.
Qed.

End Outcome.

Module OutcomeExample.
Import DispatcherExample.

Lemma manual_run_is_recorded_and_restored_witness :
  (collect run_effect (trace Combined kRunTaskNowRequestSerialId "t1") = [] /\
   rsp_serial_id (response Combined kRunTaskNowRequestSerialId "t1") = kRpcErrorSerialId) \/
  exists req, parse_run_now codec "t1" = Some req /\
    manual_run codec (node Combined) Some (ti_task_id req) (collect run_effect (trace Combined kRunTaskNowRequestSerialId "t1"))
      (response Combined kRunTaskNowRequestSerialId "t1").
Proof.
  apply (manual_run_is_recorded_and_restored codec (node Combined) Some "t1").
  apply (trace_exec Combined kRunTaskNowRequestSerialId "t1").
Defined.

(** A handler that throws an exception with an empty text is reported as a success. *)
Definition throws_silently (X : Type) (e : DispE X) : X :=
  match e in DispE X return X -> X with
  | ExecuteHandler _ _ _ => fun _ => Threw (Some EmptyString)
  | _ => fun x => x
  end (answer X e).

Lemma silent_exception_reads_as_success :
  (run (fun X e => retM (throws_silently X e)) (handleExecuteTask codec (node Worker) "x") ()).1 =
  make_response codec kExecuteTaskResponseSerialId (MExecuteTask true "Exception: " EmptyString).
Proof. reflexivity. Qed.

End OutcomeExample.
