(* ===== verification/DispatcherEdits.v ===== *)
(** What the requests that change tasks come to: submission, edit, enabling and
    disabling, cancellation and deletion, with the writes they make and the
    answer their caller gets ([rpc/rpc_dispatcher.cpp]). *)
From S2P Require Import Prelude Datetime Text Protocol TaskTable TaskProtocol RpcClientPool Metrics CronParser Effects HandlerRegistry Scheduler Dispatcher DispatcherSafety DispatcherOutcome.

Open Scope prog_scope.

Section Edits.
Context (codec : Codec) (d : RpcDispatcher).
Context (utc_to_local local_to_utc : Z -> option Z) (cron_next : string -> Z -> option Z).

Abbreviation wpC := (wp (collector run_effect)).
Abbreviation next_run := (next_ms utc_to_local local_to_utc cron_next).
Abbreviation date := (date_of_ms utc_to_local).
Abbreviation reply := (unit_reply codec).

(** A request that was let in and changes nothing: an error, or its own
    response with a reason. *)
Definition declined (serial_id : Z) (m : bool -> string -> Message) (r : RpcResponse) : Prop :=
  rsp_serial_id r = kRpcErrorSerialId \/ exists error, error <> EmptyString /\ r = reply serial_id m false error.

(** The task and the time it looks up, if it gets that far. *)
Definition looked_up (task_id : string) (l : list (Event DispE)) : Prop :=
  l = [] \/ exists x, l = [Called (DbGetTask task_id) x] \/
    exists now, l = [Called (DbGetTask task_id) x; Called DSystemNow now].

Inductive cancellation (task_id : string) : list (Event DispE) -> RpcResponse -> Prop :=
| not_cancelled r : declined kCancelTaskResponseSerialId MCancelTask r -> cancellation task_id [] r
| cancelled x : cancellation task_id [Called (DbWrite (OpCancel task_id)) true; Called (CancelRegistered task_id) x]
    (reply kCancelTaskResponseSerialId MCancelTask true EmptyString)
| cancel_refused r : declined kCancelTaskResponseSerialId MCancelTask r ->
    cancellation task_id [Called (DbWrite (OpCancel task_id)) false] r.

Inductive deletion (task_id : string) : list (Event DispE) -> RpcResponse -> Prop :=
| not_deleted l r : looked_up task_id l -> declined kDeleteTaskResponseSerialId MDeleteTask r -> deletion task_id l r
| deleted task : TaskMeta.status task <> TASK_RUNNING ->
    deletion task_id [Called (DbGetTask task_id) (Some task); Called (DbWrite (OpDelete task_id)) true]
      (reply kDeleteTaskResponseSerialId MDeleteTask true EmptyString)
| delete_refused task r : declined kDeleteTaskResponseSerialId MDeleteTask r ->
    deletion task_id [Called (DbGetTask task_id) (Some task); Called (DbWrite (OpDelete task_id)) false] r.

(** Disabling is a cancellation; enabling sets the next run of the stored
    expression and keeps the rest. *)
Inductive enabling (task_id : string) (enabled : bool) : list (Event DispE) -> RpcResponse -> Prop :=
| not_switched l r : looked_up task_id l -> declined kEnableTaskResponseSerialId MEnableTask r -> enabling task_id enabled l r
| disabled task x : enabled = false ->
    enabling task_id enabled
      [Called (DbGetTask task_id) (Some task); Called (DbWrite (OpCancel task_id)) true; Called (CancelRegistered task_id) x]
      (reply kEnableTaskResponseSerialId MEnableTask true EmptyString)
| disable_refused task r : enabled = false -> declined kEnableTaskResponseSerialId MEnableTask r ->
    enabling task_id enabled [Called (DbGetTask task_id) (Some task); Called (DbWrite (OpCancel task_id)) false] r
| already_running task : enabled = true -> TaskMeta.status task = TASK_RUNNING ->
    enabling task_id enabled [Called (DbGetTask task_id) (Some task)] (reply kEnableTaskResponseSerialId MEnableTask true EmptyString)
| switched task now ok r (next := next_run (TaskMeta.cron_expr task) (to_ms now)) : enabled = true ->
    TaskMeta.status task <> TASK_RUNNING -> next <> 0 ->
    (if (ok : bool) then r = reply kEnableTaskResponseSerialId MEnableTask true EmptyString
     else declined kEnableTaskResponseSerialId MEnableTask r) ->
    enabling task_id enabled
      [Called (DbGetTask task_id) (Some task); Called DSystemNow now;
       Called (DbWrite (OpUpdateRuntime (TaskMeta.id task) TASK_SCHEDULED (date next) (TaskMeta.last_run_at task) (TaskMeta.retry_count task))) ok] r.

(** An edit keeps the last run and the retries; a scheduled task gets the next
    run of its new expression, a disabled one keeps the old. *)
Inductive edited_run (existing : TaskMeta.t) : Z -> string -> list (Event DispE) -> string -> Prop :=
| edited_disabled cron_expr : edited_run existing TASK_DISABLED cron_expr [] (TaskMeta.next_run_at existing)
| edited_scheduled cron_expr now : next_run cron_expr (to_ms now) <> 0 ->
    edited_run existing TASK_SCHEDULED cron_expr [Called DSystemNow now] (date (next_run cron_expr (to_ms now))).

Inductive edit (new : TaskMeta.t) : list (Event DispE) -> RpcResponse -> Prop :=
| not_edited l r : looked_up (TaskMeta.id new) l -> declined kUpdateTaskResponseSerialId MUpdateTask r -> edit new l r
| edited existing clock ok r (next : string) :
    TaskMeta.status existing <> TASK_RUNNING -> TaskMeta.cron_expr new <> EmptyString -> TaskMeta.handler new <> EmptyString ->
    edited_run existing (TaskMeta.status new) (TaskMeta.cron_expr new) clock next ->
    (if (ok : bool) then r = reply kUpdateTaskResponseSerialId MUpdateTask true EmptyString
     else declined kUpdateTaskResponseSerialId MUpdateTask r) ->
    edit new (Called (DbGetTask (TaskMeta.id new)) (Some existing) :: clock ++
              [Called (DbWrite (OpUpdateDefinition (updated_task new existing next))) ok]) r.

Ltac collect_do _ :=
  let x := fresh "x" in apply wp_do; intros x; eexists; split;
  [unfold collector; cbn [run_effect]; reflexivity|].
Ltac collect_call := prog_step collect_do.

(** An answer that changes nothing. *)
Ltac decline := first [by left | by right; eexists; split; [|reflexivity]].
Ltac let_in := right; eexists; split; [done|].

Lemma cancel_wp payload :
  wpC (handleCancelTask codec d payload) []
    (fun r l => (l = [] /\ rsp_serial_id r = kRpcErrorSerialId) \/
                exists req, parse_cancel codec payload = Some req /\ cancellation (ti_task_id req) l r).
Proof.
  unfold handleCancelTask, admit_request, with_task_id, bad_request, no_database.
  repeat collect_call; try by left.
  all: let_in; constructor; decline.
Qed.

(** Only the look-up was made. *)
Ltac only_looked :=
  first [by left | right; eexists; first [left; reflexivity | right; eexists; reflexivity]].

Lemma delete_wp payload :
  wpC (handleDeleteTask codec d payload) []
    (fun r l => (l = [] /\ rsp_serial_id r = kRpcErrorSerialId) \/
                exists req, parse_delete codec payload = Some req /\ deletion (ti_task_id req) l r).
Proof.
  unfold handleDeleteTask, admit_request, with_task, with_task_id, bad_request, no_database.
  repeat collect_call; try by left.
  all: let_in; try (apply not_deleted; [only_looked|decline]).
  destruct x0; [apply deleted; by apply Z.eqb_neq|apply delete_refused; decline].
Qed.

Lemma enable_wp payload :
  wpC (handleEnableTask codec d utc_to_local local_to_utc cron_next payload) []
    (fun r l => (l = [] /\ rsp_serial_id r = kRpcErrorSerialId) \/
                exists req, parse_enable codec payload = Some req /\ enabling (en_task_id req) (en_enabled req) l r).
Proof.
  unfold handleEnableTask, admit_request, with_task, with_task_id, bad_request, no_database.
  repeat collect_call; try by left.
  all: let_in; try (apply not_switched; [only_looked|decline]); cbn [app].
  all: match type of Heqb2 with negb _ = true => apply negb_true_iff in Heqb2 | _ => apply negb_false_iff in Heqb2 end.
  - by apply disabled.
  - apply disable_refused; [done|decline].
  - apply already_running; [done|by apply Z.eqb_eq].
  - apply switched; [done|by apply Z.eqb_neq|by apply Z.eqb_neq|]. destruct x1; [done|decline].
Qed.

Lemma update_wp payload :
  wpC (handleUpdateTask codec d utc_to_local local_to_utc cron_next payload) []
    (fun r l => (l = [] /\ rsp_serial_id r = kRpcErrorSerialId) \/
                exists req new, parse_update codec payload = Some req /\ ut_task req = Some new /\ edit new l r).
Proof.
  unfold handleUpdateTask, admit_request, with_task_id, bad_request, no_database, handler_not_found, save_definition.
  repeat (lazymatch goal with |- wp _ (bindP (handlerAvailable _ _) _) _ _ => fail | _ => collect_call end); try by left.
  all: try (right; eexists _, _; split_and!; [done|done|apply not_edited; [only_looked|decline]]).
  apply wp_bind; eapply wp_mono; [apply collect_silent, available_silent|]; cbv beta; intros b l' [-> _].
  repeat collect_call.
  all: right; eexists _, _; split_and!; [done|done|]; try (apply not_edited; [only_looked|decline]); cbn [app].
  all: apply orb_false_iff in Heqb3 as [Hc Hh]; apply str_empty_false in Hc, Hh; apply Z.eqb_neq in Heqb2.
  - apply (edited t t0 [_]); [done..| |destruct x1; [done|decline]].
    apply Z.eqb_eq in Heqb6 as ->. constructor. by apply Z.eqb_neq.
  - apply (edited t t0 []); [done..| |destruct x0; [done|decline]].
    rewrite andb_true_r in Heqb4. apply negb_false_iff, Z.eqb_eq in Heqb4 as ->. constructor.
Qed.

(** C25.  The requests that change tasks, whatever the stores and the registry
    answer.  One that is refused makes no call; one that is let in makes at
    most one write, the one it names on the task it names, after at most one
    look at that task, and answers success exactly when that call of the
    database client answered true, or, without a write, when the task to be
    enabled was read as running.  A task read as running is neither edited nor
    deleted; its execution is cancelled only after the cancelling write answered
    true; a submitted task is written under the id that the 32 digits drawn
    spell; and the run of a task that is submitted, enabled or edited as
    scheduled is the next time of its expression after the time read. *)
Theorem requests_write_what_they_name payload tr r :
  (exec (handleSubmitTask codec d utc_to_local local_to_utc cron_next payload) tr r ->
   (collect run_effect tr = [] /\ rsp_serial_id r = kRpcErrorSerialId) \/
   exists req, parse_submit codec payload = Some req /\
     submission codec utc_to_local local_to_utc cron_next req (collect run_effect tr) r) /\
  (exec (handleUpdateTask codec d utc_to_local local_to_utc cron_next payload) tr r ->
   (collect run_effect tr = [] /\ rsp_serial_id r = kRpcErrorSerialId) \/
   exists req new, parse_update codec payload = Some req /\ ut_task req = Some new /\ edit new (collect run_effect tr) r) /\
  (exec (handleEnableTask codec d utc_to_local local_to_utc cron_next payload) tr r ->
   (collect run_effect tr = [] /\ rsp_serial_id r = kRpcErrorSerialId) \/
   exists req, parse_enable codec payload = Some req /\ enabling (en_task_id req) (en_enabled req) (collect run_effect tr) r) /\
  (exec (handleCancelTask codec d payload) tr r ->
   (collect run_effect tr = [] /\ rsp_serial_id r = kRpcErrorSerialId) \/
   exists req, parse_cancel codec payload = Some req /\ cancellation (ti_task_id req) (collect run_effect tr) r) /\
  (exec (handleDeleteTask codec d payload) tr r ->
   (collect run_effect tr = [] /\ rsp_serial_id r = kRpcErrorSerialId) \/
   exists req, parse_delete codec payload = Some req /\ deletion (ti_task_id req) (collect run_effect tr) r).
Proof.
  split_and!; intros He.
  - exact (wp_collect _ _ _ _ _ (submit_wp codec d utc_to_local local_to_utc cron_next payload) He).
  - exact (wp_collect _ _ _ _ _ (update_wp payload) He).
  - exact (wp_collect _ _ _ _ _ (enable_wp payload) He).
  - exact (wp_collect _ _ _ _ _ (cancel_wp payload) He).
  - exact (wp_collect _ _ _ _ _ (delete_wp payload) He).
Qed.

End Edits.

(** A stored task is deleted. *)
Module EditsExample.
Import DispatcherExample.

Lemma requests_write_what_they_name_witness :
  (collect run_effect (trace Combined kDeleteTaskRequestSerialId "t1") = [] /\
   rsp_serial_id (response Combined kDeleteTaskRequestSerialId "t1") = kRpcErrorSerialId) \/
  exists req, parse_delete codec "t1" = Some req /\
    deletion codec (ti_task_id req) (collect run_effect (trace Combined kDeleteTaskRequestSerialId "t1"))
      (response Combined kDeleteTaskRequestSerialId "t1").
Proof.
  apply (requests_write_what_they_name codec (node Combined) Some Some next_day "t1").
  apply (trace_exec Combined kDeleteTaskRequestSerialId "t1").
Defined.

Example task_deleted :
  map (fun ev => match ev with Called (DbWrite (OpDelete id)) _ => id | _ => EmptyString end)
    (collect run_effect (trace Combined kDeleteTaskRequestSerialId "t1")) = [EmptyString; "t1"%string].
Proof. by vm_compute. Qed.

End EditsExample.
