(* ===== verification/Interceptor.v ===== *)
(** The interceptors around a call ([rpc/rpc_interceptor.cpp]) and the
    dispatcher's entry points ([dispatch], [dispatchWithContext],
    [dispatchStreamWithContext] of [rpc/rpc_dispatcher.cpp]).

    What an interceptor or the call itself gives is a response or an exception;
    the context is passed by reference, so each step returns it with what it
    wrote.  The dispatcher's handlers may throw at any of their calls and before
    they return ([may_throw]); the interceptors' own calls, which read a clock
    and count, do not.  The log lines are left out. *)
From S2P Require Import Prelude Datetime Text Protocol TaskTable RpcClientPool Metrics CronParser Effects HandlerRegistry Scheduler Dispatcher DispatcherSafety DispatcherOutcome.

Open Scope prog_scope.

Record RpcContext := mkRpcContext {
  cx_request_id : string; cx_remote : string;
  cx_request_serial_id : Z; cx_response_serial_id : Z;
  cx_method_name : string; cx_request_bytes : Z; cx_response_bytes : Z;
  cx_started_at : Z;  (* steady clock, nanoseconds *)
  cx_elapsed_ms : Z; cx_success : bool
}.

(** A response, or an exception: [Some what] for a [std::exception]. *)
Inductive Outcome := Responded (r : RpcResponse) | Raised (what : option string).

Definition RpcNext : Type := RpcContext -> DP (RpcContext * Outcome).
Definition RpcInterceptor : Type := RpcContext -> RpcNext -> DP (RpcContext * Outcome).

Definition fillMethodName (c : RpcContext) : RpcContext :=
  if negb (str_empty (cx_method_name c)) then c
  else
    mkRpcContext (cx_request_id c) (cx_remote c) (cx_request_serial_id c) (cx_response_serial_id c)
      (match findMethodByRequestSerialId (cx_request_serial_id c) with
       | Some method => md_name method
       | None => "unknown"
       end)
      (cx_request_bytes c) (cx_response_bytes c) (cx_started_at c) (cx_elapsed_ms c) (cx_success c).

Definition responded (r : RpcResponse) (elapsed_ms : Z) (c : RpcContext) : RpcContext :=
  mkRpcContext (cx_request_id c) (cx_remote c) (cx_request_serial_id c) (rsp_serial_id r) (cx_method_name c)
    (cx_request_bytes c) (slen (rsp_payload r)) (cx_started_at c) elapsed_ms
    (negb (rsp_serial_id r =? kRpcErrorSerialId)).

Definition fillResponseFields (c : RpcContext) (r : RpcResponse) : DP RpcContext :=
  if negb (cx_started_at c =? 0) then
    do* now := ask DSteadyNow in Ret (responded r (to_ms (now - cx_started_at c)) c)
  else Ret (responded r (cx_elapsed_ms c) c).

Definition set_request_bytes (n : Z) (c : RpcContext) : RpcContext :=
  mkRpcContext (cx_request_id c) (cx_remote c) (cx_request_serial_id c) (cx_response_serial_id c) (cx_method_name c)
    n (cx_response_bytes c) (cx_started_at c) (cx_elapsed_ms c) (cx_success c).
Definition set_started_at (t : Z) (c : RpcContext) : RpcContext :=
  mkRpcContext (cx_request_id c) (cx_remote c) (cx_request_serial_id c) (cx_response_serial_id c) (cx_method_name c)
    (cx_request_bytes c) (cx_response_bytes c) t (cx_elapsed_ms c) (cx_success c).

(** A context that its caller has not stamped starts now. *)
Definition ensure_started (c : RpcContext) : DP RpcContext :=
  if cx_started_at c =? 0 then do* now := ask DSteadyNow in Ret (set_started_at now c) else Ret c.

(** [RpcInterceptorChain::invoke]: the interceptors in the order they were added. *)
Fixpoint invoke (interceptors : list RpcInterceptor) (terminal : RpcNext) (context : RpcContext)
    : DP (RpcContext * Outcome) :=
  match interceptors with
  | [] => terminal context
  | i :: rest => i context (invoke rest terminal)
  end.

Section Interceptors.
Context (codec : Codec).

Definition RpcExceptionInterceptor : RpcInterceptor := fun context next =>
  do* (context, outcome) := next context in
  Ret (context,
       match outcome with
       | Responded r => Responded r
       | Raised (Some what) => Responded (make_error_response codec INTERNAL_ERROR what)
       | Raised None => Responded (make_error_response codec INTERNAL_ERROR "Unknown RPC exception")
       end).

Definition RpcMetricsInterceptor : RpcInterceptor := fun context next =>
  ask (DMetric DIncRpcRequest) ;;!
  do* (context, outcome) := next context in
  match outcome with
  | Raised what => Ret (context, Raised what)
  | Responded response =>
      do* context := fillResponseFields context response in
      ask (DMetric (if cx_success context then DIncRpcSuccess else DIncRpcError)) ;;!
      Ret (context, Responded response)
  end.

Definition RpcLoggingInterceptor : RpcInterceptor := fun context next =>
  do* (context, outcome) := next (fillMethodName context) in
  match outcome with
  | Raised what => Ret (context, Raised what)
  | Responded response =>
      do* context := fillResponseFields context response in Ret (context, Responded response)
  end.

Definition makeDefaultRpcInterceptorChain : list RpcInterceptor :=
  [RpcLoggingInterceptor; RpcMetricsInterceptor; RpcExceptionInterceptor].

Context (d : RpcDispatcher) (interceptors : list RpcInterceptor).
Context (utc_to_local local_to_utc : Z -> option Z) (cron_next : string -> Z -> option Z).

Definition terminal (payload : string) : RpcNext := fun current =>
  do* r := may_throw (dispatchCore codec d utc_to_local local_to_utc cron_next (cx_request_serial_id current) payload) in
  Ret (current, match r with inl response => Responded response | inr what => Raised what end).

Definition dispatchWithContext (context : RpcContext) (payload : string) : DP Outcome :=
  do* context := ensure_started (set_request_bytes (slen payload) context) in
  do* r := invoke interceptors (terminal payload) context in Ret r.2.

Definition dispatch (serial_id : Z) (payload : string) : DP Outcome :=
  do* now := ask DSteadyNow in
  dispatchWithContext
    (mkRpcContext EmptyString EmptyString serial_id 0 EmptyString (slen payload) 0 now 0 false) payload.

(** The responses of a stream; [None] where an exception leaves
    [dispatchWithContext]. *)
Definition dispatchStreamWithContext (context : RpcContext) (payload : string) : DP (option (list RpcResponse)) :=
  if negb (cx_request_serial_id context =? kStreamMetricsRequestSerialId) then
    do* outcome := dispatchWithContext context payload in
    Ret (match outcome with Responded r => Some [r] | Raised _ => None end)
  else if negb (methodAllowed (do_role (dp_options d)) (cx_request_serial_id context)) then
    Ret (Some [make_error_response codec UNKNOWN_METHOD "Method is not available on this node role"])
  else
    do* context := ensure_started context in
    ask (DMetric DIncRpcRequest) ;;!
    do* result := may_throw (handleStreamMetrics codec d payload) in
    let responses := match result with
                     | inl responses => responses
                     | inr (Some what) => [make_error_response codec INTERNAL_ERROR what]
                     | inr None => [make_error_response codec INTERNAL_ERROR "Unknown streaming RPC exception"]
                     end in
    let success := match responses with
                   | [] => false
                   | r :: _ => negb (rsp_serial_id r =? kRpcErrorSerialId)
                   end in
    ask (DMetric (if success then DIncRpcSuccess else DIncRpcError)) ;;!
    ask DSteadyNow ;;!
    Ret (Some responses).

(** ** Every request is answered, and counted once *)

(** What the caller is answered when the call itself gives [o]. *)
Definition answer_of (o : Outcome) : RpcResponse :=
  match o with
  | Responded r => r
  | Raised (Some what) => make_error_response codec INTERNAL_ERROR what
  | Raised None => make_error_response codec INTERNAL_ERROR "Unknown RPC exception"
  end.

Definition is_error (r : RpcResponse) : bool := rsp_serial_id r =? kRpcErrorSerialId.

(** The counters of one request answered with [r], around what else is noted. *)
Definition counted (noted : list (Event DispE)) (r : RpcResponse) : list (Event DispE) :=
  Called (DMetric DIncRpcRequest) () :: noted ++
  [Called (DMetric (if is_error r then DIncRpcError else DIncRpcSuccess)) ()].

Abbreviation quiet := (fun ev : Event DispE => notable ev = false).
Abbreviation wpC := (wp (collector notable)).

Ltac collect_do _ :=
  let x := fresh "x" in apply wp_do; intros x; eexists; split;
  [unfold collector; cbn [notable rpc_counter]; reflexivity|].
Ltac collect_call := prog_step collect_do.
Ltac quiet_call _ := let x := fresh "x" in intros x; split; [done|].
Ltac quiet_steps := repeat (always_step quiet_call); try done.

(** The exception that ended the code, if one did. *)
Definition noted_throw {A} (r : A + option string) : list (Event DispE) :=
  match r with inl _ => [] | inr what => [Called Throws (Some what)] end.

Lemma may_throw_wp {A} (p : DP A) (Q : A -> Prop) l :
  always quiet p Q ->
  wpC (may_throw p) l (fun r l' => l' = l ++ noted_throw r /\ match r with inl a => Q a | inr _ => True end).
Proof.
  induction p as [a|X e k IH]; intros Hp; cbn [may_throw].
  - apply wp_do. intros [what|]; eexists; (split; [reflexivity|]); apply wp_ret; [done|]. by rewrite app_nil_r.
  - apply wp_do. intros [what|]; eexists; (split; [reflexivity|]); [by apply wp_ret|].
    apply wp_do. intros x. destruct (Hp x) as [Hx Hk]. exists l. unfold collector. rewrite Hx. split; [done|]. by apply IH.
Qed.

Lemma fill_quiet c r : always quiet (fillResponseFields c r) (fun c' =>
  cx_success c' = negb (is_error r) /\ cx_response_serial_id c' = rsp_serial_id r).
Proof. unfold fillResponseFields. quiet_steps. Qed.

(** The exception an outcome stands for. *)
Definition noted (o : Outcome) : list (Event DispE) :=
  match o with Responded _ => [] | Raised what => [Called Throws (Some what)] end.

Lemma default_chain_wp (next : RpcNext) (T : Outcome -> Prop) context l :
  (forall c l, cx_request_serial_id c = cx_request_serial_id context ->
     wpC (next c) l (fun co l' => l' = l ++ noted co.2 /\ T co.2)) ->
  wpC (invoke makeDefaultRpcInterceptorChain next context) l (fun co l' =>
    exists o, T o /\ co.2 = Responded (answer_of o) /\ l' = l ++ counted (noted o) (answer_of o) /\
      cx_success co.1 = negb (is_error (answer_of o)) /\ cx_response_serial_id co.1 = rsp_serial_id (answer_of o)).
Proof.
  intros Hnext. cbn [invoke makeDefaultRpcInterceptorChain].
  unfold RpcLoggingInterceptor, RpcMetricsInterceptor, RpcExceptionInterceptor. repeat collect_call.
  eapply wp_mono; [apply Hnext; unfold fillMethodName; by case_match|].
  cbv beta. intros [c o] l' [-> HT]. cbn [snd] in HT.
  apply wp_ret. cbv beta iota zeta.
  destruct o as [r|[what|]]; cbv iota; apply wp_bind;
    (eapply wp_mono; [apply wp_collector_always, fill_quiet|]); cbv beta; intros c1 l1 [-> [Hs1 _]]; rewrite Hs1;
    apply wp_bind; collect_do (); do 2 (apply wp_ret; cbv beta iota zeta); apply wp_bind;
    (eapply wp_mono; [apply wp_collector_always, fill_quiet|]); cbv beta; intros c2 l2 [-> [Hs2 Hr2]];
    apply wp_ret; eexists; (split; [exact HT|]); destruct x, x0; unfold counted; cbn [answer_of] in *;
    split_and!; try done;
    match goal with |- context [is_error ?r] => destruct (is_error r) end; cbn [negb noted app];
    by rewrite <- !app_assoc.
Qed.
Abbreviation frame_of := (typed codec).

Lemma terminal_wp payload c l :
  wpC (terminal payload c) l (fun co l' => l' = l ++ noted co.2 /\
    match co.2 with Responded r => frame_of (cx_request_serial_id c) r | Raised _ => True end).
Proof.
  unfold terminal. apply wp_bind. eapply wp_mono.
  - apply may_throw_wp. eapply always_impl; [|apply dispatch_core_proper]. intros ev (_ & _ & H). exact H.
  - cbv beta. intros [r|what] l' [-> Hr]; by apply wp_ret.
Qed.

Lemma stream_frame_typed i b s : frame_of kStreamMetricsRequestSerialId
  (make_response codec kStreamMetricsResponseSerialId (MStreamMetrics i b s)).
Proof. exists (MStreamMetrics i b s). split; [done|by right]. Qed.

Lemma stream_quiet payload :
  always quiet (handleStreamMetrics codec d payload) (fun rs =>
    exists r rs', rs = r :: rs' /\ Forall (frame_of kStreamMetricsRequestSerialId) rs).
Proof.
  unfold handleStreamMetrics. quiet_steps;
    try (eexists _, _; split; [done|]; apply Forall_singleton, typed_error).
  assert (Hn : exists n, Z.to_nat (stream_samples (sm_samples s)) = S n).
  { unfold stream_samples. exists (pred (Z.to_nat (stream_samples (sm_samples s)))). unfold stream_samples.
    destruct (Z.ltb_spec 0 (sm_samples s)); lia. }
  destruct Hn as [n ->]. cbn [seq pfold]. quiet_steps.
  apply (always_pfold _ _ _ (fun rs => exists r rs', rs = r :: rs' /\ Forall (frame_of kStreamMetricsRequestSerialId) rs)).
  - intros rs i _ (r & rs' & -> & Hf). quiet_steps. eexists r, _. split; [done|].
    apply (Forall_app_2 _ (r :: rs')); [done|]. apply Forall_singleton, stream_frame_typed.
  - eexists _, _. split; [done|]. apply Forall_singleton, stream_frame_typed.
Qed.

Lemma ensure_started_quiet c :
  always quiet (ensure_started c) (fun c' => cx_request_serial_id c' = cx_request_serial_id c).
Proof. unfold ensure_started. quiet_steps. Qed.

End Interceptors.

Section Entry.
Context (codec : Codec) (d : RpcDispatcher).
Context (utc_to_local local_to_utc : Z -> option Z) (cron_next : string -> Z -> option Z).

Abbreviation dispatch_stream := (dispatchStreamWithContext codec d (makeDefaultRpcInterceptorChain codec)
  utc_to_local local_to_utc cron_next).

(** The text of the error that an exception is answered with. *)
Definition exception_text (serial_id : Z) (what : option string) : string :=
  default (if serial_id =? kStreamMetricsRequestSerialId then "Unknown streaming RPC exception"
           else "Unknown RPC exception") what.

(** The frames a request is answered with, and what is noted meanwhile. *)
Inductive answered_and_counted (serial_id : Z) : option (list RpcResponse) -> list (Event DispE) -> Prop :=
| answered r rs : Forall (typed codec serial_id) (r :: rs) -> answered_and_counted serial_id (Some (r :: rs)) (counted [] r)
| threw what (r := make_error_response codec INTERNAL_ERROR (exception_text serial_id what)) :
    answered_and_counted serial_id (Some [r]) (counted [Called Throws (Some what)] r).

Ltac collect_do _ :=
  let x := fresh "x" in apply wp_do; intros x; eexists; split;
  [unfold collector; cbn [notable rpc_counter]; reflexivity|].
Ltac collect_call := prog_step collect_do.

Lemma unary_wp context payload l :
  cx_request_serial_id context <> kStreamMetricsRequestSerialId ->
  wp (collector notable) (dispatchWithContext codec d (makeDefaultRpcInterceptorChain codec)
    utc_to_local local_to_utc cron_next context payload) l
    (fun o l' => exists r seen, o = Responded r /\ l' = l ++ seen /\
       answered_and_counted (cx_request_serial_id context) (Some [r]) seen).
Proof.
  intros Hs. unfold dispatchWithContext. apply wp_bind.
  eapply wp_mono; [apply wp_collector_always, ensure_started_quiet|]. cbv beta. intros c l1 [-> Hc].
  apply wp_bind. eapply wp_mono.
  { apply (default_chain_wp _ _ (fun o => match o with Responded r => typed codec (cx_request_serial_id context) r | Raised _ => True end)).
    intros c' l' Hc'. eapply wp_mono; [apply terminal_wp|]. cbv beta. intros [c2 o] l2 Ho. by rewrite Hc', Hc in Ho. }
  cbv beta. intros [c' o'] l' (o & HT & Ho & -> & _). cbn [snd] in *. subst o'. apply wp_ret.
  exists (answer_of codec o). eexists. split; [done|]. split; [done|].
  destruct o as [r|what]; cbn [noted answer_of].
  - constructor. by apply Forall_singleton.
  - pose proof (threw (cx_request_serial_id context) what) as H. unfold exception_text in H.
    apply Z.eqb_neq in Hs. rewrite Hs in H. by destruct what.
Qed.

Lemma dispatch_stream_wp context payload :
  wp (collector notable) (dispatch_stream context payload) []
    (answered_and_counted (cx_request_serial_id context)).
Proof.
  unfold dispatchStreamWithContext. collect_call.
  - apply negb_true_iff, Z.eqb_neq in Heqb. apply wp_bind. eapply wp_mono; [by apply unary_wp|].
    cbv beta. intros o l (r & seen & -> & -> & H). by apply wp_ret.
  - apply negb_false_iff, Z.eqb_eq in Heqb as ->. unfold methodAllowed at 1.
    replace (negb _) with false by (by destruct (do_role (dp_options d))). cbv iota.
    apply wp_bind. eapply wp_mono; [apply wp_collector_always, ensure_started_quiet|]. cbv beta. intros c l [-> Hc].
    apply wp_bind. collect_do (). apply wp_ret. cbv beta.
    apply wp_bind. eapply wp_mono; [apply may_throw_wp, stream_quiet|]. cbv beta.
    intros result l [-> Hr]. cbv zeta. repeat collect_call. destruct x, x0.
    destruct result as [rs|what]; cbn [noted_throw app].
    + destruct Hr as (r & rs' & -> & Hf). pose proof (answered _ _ _ Hf) as H. unfold counted, is_error in H.
      by destruct (rsp_serial_id r =? kRpcErrorSerialId).
    + pose proof (threw kStreamMetricsRequestSerialId what) as H. by destruct what.
Qed.

(** C26.  The dispatcher behind the default interceptors answers every request,
    whatever the method, the payload and the components below it do: an
    exception raised anywhere in its handlers is answered with one frame, an
    internal error with its text; otherwise there is at least one frame, and
    each is a message of the method's response type or an error.  No exception
    leaves it, and the request is counted exactly once as received, before
    anything can throw, and once, at the end, as a success or an error according
    to its first frame. *)
Theorem every_request_is_answered_and_counted context payload tr o :
  exec (dispatch_stream context payload) tr o ->
  answered_and_counted (cx_request_serial_id context) o (collect notable tr).
Proof. intros He. exact (wp_collect _ _ _ _ _ (dispatch_stream_wp context payload) He). Qed.

End Entry.

Module InterceptorExample.
Import DispatcherExample.

Definition context : RpcContext := mkRpcContext "r1" "peer" kEchoRequestSerialId 0 EmptyString 0 0 0 0 false.
Definition echo : DP (option (list RpcResponse)) :=
  dispatchStreamWithContext codec (node Worker) (makeDefaultRpcInterceptorChain codec) Some Some next_day context "hi".

(** The node answers as before, but its handlers throw. *)
Definition failing (X : Type) (e : DispE X) : M () X :=
  retM (match e in DispE X return X -> X with Throws => fun _ => Some (Some "out of memory") | _ => fun x => x end (answer X e)).

Lemma every_request_is_answered_and_counted_witness :
  answered_and_counted codec kEchoRequestSerialId (run failing echo ()).1 (collect notable (trace_of failing echo ())) /\
  (run failing echo ()).1 = Some [make_error_response codec INTERNAL_ERROR "out of memory"].
Proof.
  split; [|reflexivity].
  apply (every_request_is_answered_and_counted codec (node Worker) Some Some next_day context "hi"). apply run_exec.
Defined.

End InterceptorExample.
