(* ===== verification/Cluster.v ===== *)
(** All the writers of the [tasks] and [task_history] tables together: the
    dispatchers and the schedulers of any number of nodes, each program cut
    into the statements it issues, interleaved in any order. *)
From S2P Require Import Prelude Datetime Text StorageError TaskTable TaskProtocol Protocol RpcClientPool Metrics CronParser Config Cancellation LockRenewer Effects HandlerRegistry Scheduler Dispatcher DispatcherSafety.

Open Scope prog_scope.

(** The statement a call of the scheduler runs. *)
Definition scheduler_write (ev : Effects.Event SchedE) : option Op :=
  match ev with
  | Called e _ =>
      match e with
      | UpdateTaskRuntime id st nr lr rc => Some (OpUpdateRuntime id st nr lr rc)
      | ClaimTaskExecution id e node st nr => Some (OpClaim id e node st nr)
      | CompleteTaskExecution id e st nr lr rc => Some (OpComplete id e st nr lr rc)
      | RecoverTaskExecution id e => Some (OpRecover id e)
      | AddHistory h => Some (OpAddHistory h)
      | _ => None
      end
  end.

Definition dispatcher_write (ev : Effects.Event DispE) : option Op :=
  match ev with Called (DbWrite o) _ => Some o | _ => None end.

(** The statements of some run of some node's programs. *)
Inductive issued : Op -> Prop :=
| issued_by_dispatcher codec d utc_to_local local_to_utc cron_next serial_id payload tr r ev o :
    exec (dispatchCore codec d utc_to_local local_to_utc cron_next serial_id payload) tr r ->
    ev ∈ tr -> dispatcher_write ev = Some o -> issued o
| issued_by_scan config node_id service_name utc_to_local local_to_utc cron_next tr ev o :
    exec (scanAndDispatch config node_id service_name utc_to_local local_to_utc cron_next) tr () ->
    ev ∈ tr -> scheduler_write ev = Some o -> issued o
| issued_by_job config node_id service_name utc_to_local local_to_utc cron_next ser perr presp j tr ev o :
    exec (run_job config node_id service_name utc_to_local local_to_utc cron_next ser perr presp j) tr () ->
    ev ∈ tr -> scheduler_write ev = Some o -> issued o.

Definition writes_ok (ev : Effects.Event SchedE) : Prop :=
  match scheduler_write ev with Some o => op_ok o | None => True end.

Section Scheduler.
Context (config : Config) (node_id service_name : string).
Context (utc_to_local local_to_utc : Z -> option Z) (cron_next : string -> Z -> option Z).
Context (SerializeExecuteTask : ExecuteTaskRequest -> option string)
        (ParseRpcError : string -> option (Z * string))
        (ParseExecuteTaskResponse : string -> option ExecuteTaskResponse).

Ltac settled_call _ := let x := fresh "x" in intros x; split; [unfold writes_ok; simpl; try done; by (left + right)|].
Ltac settles := repeat (always_step settled_call); try done.

Lemma enqueue_cleanup_ok j claimed : always writes_ok (enqueue_cleanup j claimed) (fun _ => True).
Proof. unfold enqueue_cleanup. settles. Qed.

Lemma dispatch_task_ok task : always writes_ok (dispatch_task node_id local_to_utc task) (fun _ => True).
Proof.
  unfold dispatch_task, observe_delay, next_execution_id, claim_and_enqueue.
  settles; apply enqueue_cleanup_ok.
Qed.

Lemma scan_task_ok h task :
  always writes_ok (scan_task config node_id service_name utc_to_local local_to_utc cron_next h task) (fun _ => True).
Proof.
  unfold scan_task, skip_misfire, handler_available.
  settles; (eapply always_mono; [apply dispatch_task_ok|]; intros; done).
Qed.

Lemma scan_ok :
  always writes_ok (scanAndDispatch config node_id service_name utc_to_local local_to_utc cron_next) (fun _ => True).
Proof.
  unfold scanAndDispatch, recoverStaleExecutions. settles.
  eapply always_mono; [apply always_pfor|].
  - intros task _. unfold recover_task, scope_exit. settles.
  - intros _ _. settles. eapply always_mono; [|done].
    apply (always_pfold _ _ _ (fun _ => True)); [|done]. intros h task _ _. apply scan_task_ok.
Qed.

Lemma next_state_settled shutdown o task end_ns :
  settled (next_state utc_to_local local_to_utc cron_next shutdown o task end_ns).1.1.
Proof. unfold next_state, settled. repeat case_match; simpl; tauto. Qed.

Lemma executeTask_ok task e c (Q : ExecutionOutcome -> Prop) : (forall o, Q o) ->
  always writes_ok (executeTask config service_name SerializeExecuteTask ParseRpcError ParseExecuteTaskResponse task e c) Q.
Proof. intros HQ. unfold executeTask. settles. Qed.

Lemma job_ok j :
  always writes_ok (run_job config node_id service_name utc_to_local local_to_utc cron_next
                      SerializeExecuteTask ParseRpcError ParseExecuteTaskResponse j) (fun _ => True).
Proof.
  unfold run_job, scope_exit, execution_cleanup, shutdown_requested.
  apply always_bind. settles. apply executeTask_ok. intros o. settles.
  all: match goal with H : next_state _ _ _ ?b ?o ?t ?e = _ |- _ =>
         pose proof (next_state_settled b o t e) as Hs; rewrite H in Hs end; subst; settles.
Qed.

End Scheduler.

Lemma issued_ok o : issued o -> op_ok o.
Proof.
  intros [codec d ul lu cn id payload tr r ev o' He Hev Ho|c n s ul lu cn tr ev o' He Hev Ho|c n s ul lu cn se pe pr j tr ev o' He Hev Ho].
  - destruct (always_sound _ _ _ _ _ (dispatch_core_proper codec d ul lu cn id payload) He) as [Hp _].
    rewrite Forall_forall in Hp. destruct (Hp _ Hev) as (_ & Hw & _).
    destruct ev as [X [] x]; simplify_eq/=; done.
  - destruct (always_sound _ _ _ _ _ (scan_ok c n s ul lu cn) He) as [Hp _].
    rewrite Forall_forall in Hp. specialize (Hp _ Hev). unfold writes_ok in Hp. by rewrite Ho in Hp.
  - destruct (always_sound _ _ _ _ _ (job_ok c n s ul lu cn se pe pr j) He) as [Hp _].
    rewrite Forall_forall in Hp. specialize (Hp _ Hev). unfold writes_ok in Hp. by rewrite Ho in Hp.
Qed.

(** C3.  Whatever the dispatchers and schedulers of all the nodes write, in
    whatever order their statements reach the server, every task row stays well
    formed (its status is one of the three, and it is [RUNNING] exactly when it
    carries an execution id, a node and a start time), and an execution id
    occurs in at most one history row. *)
Theorem nodes_keep_tables_well_formed {D : Type} `{DT : Datetime D} (t : Tables D) (evs : list (TaskTable.Event D)) :
  Forall (fun ev => issued ev.2) evs -> tables_wf t -> tables_wf (exec_trace t evs).
Proof.
  intros Hi. revert t. induction Hi as [|ev evs Ho _ IH]; intros t Ht; [done|].
  apply IH, exec_event_wf; [by apply issued_ok|done].
Qed.

Module ClusterExample.
Import DispatcherExample.

Lemma cancel_is_issued : issued (OpCancel "t1").
Proof.
  eapply (issued_by_dispatcher codec (node Combined) Some Some next_day kCancelTaskRequestSerialId "t1").
  - apply (trace_exec Combined).
  - by left.
  - done.
Defined.

Lemma nodes_keep_tables_well_formed_witness :
  tables_wf (exec_trace (mkTables ∅ [] : Tables civil) [(true, ProtocolExample.noon, OpCancel "t1")]).
Proof.
  apply nodes_keep_tables_well_formed.
  - apply Forall_cons; split; [apply cancel_is_issued|done].
  - split; [apply map_Forall_empty|constructor].
Defined.

End ClusterExample.
