(* ===== verification/SchedulerProgress.v ===== *)
(** No due task is forgotten: what a scan does about each of the tasks the
    database handed it. *)
From S2P Require Import Prelude TaskTable Cancellation LockRenewer Effects Config CronParser Text Datetime Protocol RpcClientPool Scheduler.

Section Progress.
Context (config : Config) (node_id service_name : string).
Context (utc_to_local local_to_utc : Z -> option Z) (cron_next : string -> Z -> option Z).

Abbreviation no_worker handler := (Called (DiscoverServices (service_name +:+ ":" +:+ handler)) []).

(** What [skip_misfire] writes about a task that is found overdue at [now]: its
    next time after [now], or that it has none. *)
Definition misfire_write (task : TaskMeta.t) (now : Z) : SchedE bool :=
  let next := next_ms utc_to_local local_to_utc cron_next (TaskMeta.cron_expr task) (to_ms now) in
  UpdateTaskRuntime (TaskMeta.id task) (if next =? 0 then TASK_DISABLED else TASK_SCHEDULED)
    (if next =? 0 then TaskMeta.next_run_at task else date_of_ms utc_to_local next)
    (TaskMeta.last_run_at task) (TaskMeta.retry_count task).

(** The calls from the acquired lock to the answer of the claim of execution
    [e], with the cancellation source [c] made for it. *)
Definition lock_of (task : TaskMeta.t) : string := "task:" +:+ TaskMeta.id task.
Definition claim_calls (task : TaskMeta.t) (e : string) (c : CancellationSource) (claimed : bool) : list (Event SchedE) :=
  [Called NewSource c; Called (LeaseAdd (lock_of task) (node_id +:+ ":" +:+ e) kTaskLockTtlSec c) ();
   Called (RegisterTask (TaskMeta.id task) e c) ();
   Called (ClaimTaskExecution (TaskMeta.id task) e node_id TASK_SCHEDULED (TaskMeta.next_run_at task)) claimed].
Definition job_for (task : TaskMeta.t) (e : string) (c : CancellationSource) : Job :=
  mkJob task (lock_of task) (node_id +:+ ":" +:+ e) e c.

(** What a scan may do about a task: hand it to the pool, or one of the reasons
    why it is left for a later scan or was moved to its next time, as the calls
    made one after the other. *)
Inductive decision (task : TaskMeta.t) : list (Event SchedE) -> Prop :=
| enqueued e c :
    decision task (claim_calls task e c true ++ [Called (IsCanceled (token c)) false; Called (Enqueue (job_for task e c)) true])
| pool_refused e c :
    decision task (claim_calls task e c true ++ [Called (IsCanceled (token c)) false; Called (Enqueue (job_for task e c)) false])
| misfired due_at now updated :
    misfire_policy config = "skip" ->
    parse_datetime local_to_utc (TaskMeta.next_run_at task) = Some due_at ->
    misfire_grace_seconds config < to_sec (now - due_at * ns_per_sec) ->
    decision task [Called SystemNow now; Called (misfire_write task now) updated]
| without_worker : decision task [no_worker (TaskMeta.handler task)]
| locked_elsewhere e :
    decision task [Called (RedisLock (lock_of task) (node_id +:+ ":" +:+ e) kTaskLockTtlSec 100) false]
| claimed_elsewhere e c : decision task (claim_calls task e c false)
| canceled_meanwhile e c : decision task (claim_calls task e c true ++ [Called (IsCanceled (token c)) true]).

(** The decision is made somewhere in the calls [l]. *)
Definition decided (task : TaskMeta.t) (l : list (Event SchedE)) : Prop :=
  exists a d b, l = a ++ d ++ b /\ decision task d.

Lemma decided_app task l l' : decided task l -> decided task (l ++ l').
Proof.
  intros (a & d & b & -> & Hd). exists a, d, (b ++ l'). split; [|done]. by rewrite <- !app_assoc.
Qed.

Lemma decided_last task l d l' : decision task d -> decided task ((l ++ d) ++ l').
Proof. intros Hd. exists l, d, l'. split; [|done]. by rewrite <- app_assoc. Qed.

(** Handlers known to have no worker were asked for. *)
Definition cache_ok (available : gmap string bool) (l : list (Event SchedE)) : Prop :=
  forall handler, available !! handler = Some false -> no_worker handler ∈ l.

Lemma cache_ok_app available l l' : cache_ok available l -> cache_ok available (l ++ l').
Proof. intros H h Hh. apply elem_of_app. left. by apply H. Qed.

Abbreviation wpA := (wp (collector (fun _ => true))).

Ltac all_do _ :=
  let x := fresh "x" in apply wp_do; intros x; eexists; split; [unfold collector; cbv iota; reflexivity|].
Ltac all_call := prog_step all_do.

(** The calls of [p] follow those before, and [Q] holds of the whole. *)
Definition follows (l : list (Event SchedE)) (Q : list (Event SchedE) -> Prop) (l' : list (Event SchedE)) : Prop :=
  (exists s, l' = l ++ s) /\ Q l'.

Lemma follows_refl l (Q : _ -> Prop) : Q l -> follows l Q l.
Proof. split; [by exists []; rewrite app_nil_r|done]. Qed.

Ltac bools := repeat match goal with
  | H : negb ?b = _ |- _ => is_var b; destruct b; cbn [negb] in H; try discriminate H; clear H
  | H : ?b = true |- _ => is_var b; subst b
  | H : ?b = false |- _ => is_var b; subst b
  end.
Ltac followed := split; [first [by eexists | eexists; by rewrite <- !app_assoc]|].

Lemma cleanup_follows j claimed l : wpA (enqueue_cleanup j claimed) l (fun _ l' => follows l (fun _ => True) l').
Proof. unfold enqueue_cleanup. repeat all_call; by followed. Qed.

Ltac decides :=
  repeat match goal with u : () |- _ => destruct u end;
  unfold claim_calls, job_for; cbn [app]; rewrite <- ?app_assoc; cbn [app]; reflexivity.

Lemma claim_decides task e l :
  wpA (claim_and_enqueue node_id task (lock_of task) (node_id +:+ ":" +:+ e) e) l (fun _ l' => follows l (decided task) l').
Proof.
  unfold claim_and_enqueue. repeat (lazymatch goal with |- wp _ (enqueue_cleanup _ _) _ _ => fail | _ => all_call end).
  all: bools.
  - eapply wp_mono; [apply cleanup_follows|]. cbv beta. intros _ l' [[s ->] _]. followed.
    eexists l, _, s. split; [|apply (claimed_elsewhere task e)]. decides.
  - eapply wp_mono; [apply cleanup_follows|]. cbv beta. intros _ l' [[s ->] _]. followed.
    eexists l, _, s. split; [|apply (canceled_meanwhile task e)]. decides.
  - followed. eexists l, _, []. split; [|apply (enqueued task e)]. rewrite app_nil_r. decides.
  - eapply wp_mono; [apply cleanup_follows|]. cbv beta. intros _ l' [[s ->] _]. followed.
    eexists l, _, s. split; [|apply (pool_refused task e)]. decides.
Qed.
Lemma dispatch_decides task l :
  wpA (dispatch_task node_id local_to_utc task) l (fun _ l' => follows l (decided task) l').
Proof.
  unfold dispatch_task, observe_delay, next_execution_id.
  repeat (lazymatch goal with |- wp _ (claim_and_enqueue _ _ _ _ _) _ _ => fail | _ => all_call end).
  all: try (eapply wp_mono; [apply claim_decides|]; cbv beta; intros _ l' [[s ->] Hd];
    split; [eexists; by rewrite <- !app_assoc|done]).
  all: followed; bools.
  all: apply decided_last; constructor.
Qed.

Lemma misfire_decides task l : misfire_policy config = "skip" ->
  wpA (skip_misfire utc_to_local local_to_utc cron_next (misfire_grace_seconds config) task) l
    (fun skipped l' => follows l (fun l' => skipped = true -> decided task l') l').
Proof.
  intros Hp. unfold skip_misfire.
  destruct (parse_datetime local_to_utc (TaskMeta.next_run_at task)) as [due_at|] eqn:Hd; [|by apply wp_ret, follows_refl].
  apply wp_bind. unfold ask. all_do (). rename x into now. apply wp_ret.
  destruct (Z.ltb_spec (misfire_grace_seconds config) (to_sec (now - due_at * ns_per_sec))) as [Ho|_]; [|apply wp_ret; by followed].
  assert (Hw : forall b, decided task ((l ++ [Called SystemNow now]) ++ [Called (misfire_write task now) b])).
  { intros b. exists l, [Called SystemNow now; Called (misfire_write task now) b], [].
    split; [by rewrite <- app_assoc|by apply (misfired task due_at)]. }
  unfold misfire_write in Hw. cbv zeta in Hw. apply wp_bind.
  destruct (next_ms utc_to_local local_to_utc cron_next (TaskMeta.cron_expr task) (to_ms now) =? 0); cbn [negb];
    all_do (); apply wp_ret, wp_ret; followed; intros _; apply Hw.
Qed.

Lemma scan_task_decides available task l :
  cache_ok available l ->
  wpA (scan_task config node_id service_name utc_to_local local_to_utc cron_next available task) l
    (fun available' l' => follows l (fun l' => decided task l' /\ cache_ok available' l') l').
Proof.
  intros Hc. unfold scan_task. apply wp_bind.
  assert (Hs : wpA (if String.eqb (misfire_policy config) "skip"
                    then skip_misfire utc_to_local local_to_utc cron_next (misfire_grace_seconds config) task
                    else Ret false) l
    (fun skipped l' => follows l (fun l' => skipped = true -> decided task l') l')).
  { destruct (String.eqb_spec (misfire_policy config) "skip") as [Hp|_]; [|by apply wp_ret, follows_refl].
    by apply misfire_decides. }
  eapply wp_mono; [exact Hs|]. cbv beta. intros [] l1 [[s ->] Hd].
  { apply wp_ret. split; [by eexists|]. split; [auto|by apply cache_ok_app]. }
  apply wp_bind. unfold handler_available. destruct (available !! TaskMeta.handler task) as [[]|] eqn:Ea.
  - apply wp_ret. cbn [fst snd negb]. cbv iota.
    apply wp_bind. eapply wp_mono; [apply dispatch_decides|]. cbv beta. intros _ l' [[s' ->] Ht]. apply wp_ret.
    followed. split; [done|]. by apply cache_ok_app, cache_ok_app.
  - apply wp_ret. cbn [fst snd negb]. cbv iota. apply wp_ret. split; [by eexists|].
    split; [|by apply cache_ok_app]. apply decided_app.
    destruct (list_elem_of_split _ _ (Hc _ Ea)) as (a & b & ->). exists a, [no_worker (TaskMeta.handler task)], b.
    split; [done|constructor].
  - apply wp_bind. unfold ask. all_do (). apply wp_ret, wp_ret. cbn [fst snd].
    assert (Hc' : forall b, (b = false -> x = []) ->
      cache_ok (<[TaskMeta.handler task := b]> available) ((l ++ s) ++ [Called (DiscoverServices (service_name +:+ ":" +:+ TaskMeta.handler task)) x])).
    { intros b Hb h. destruct (decide (h = TaskMeta.handler task)) as [->|Hn].
      - rewrite lookup_insert_eq. intros [= ->]. rewrite (Hb eq_refl). apply elem_of_app. right. by left.
      - rewrite lookup_insert_ne by congruence. intros Hh. exact (cache_ok_app _ _ _ (cache_ok_app _ _ _ Hc) h Hh). }
    destruct x as [|endpoint x]; cbn [negb]; cbv iota.
    + apply wp_ret. followed. split; [|by apply Hc'].
      rewrite <- (app_nil_r (_ ++ [_])). apply decided_last, without_worker.
    + apply wp_bind. eapply wp_mono; [apply dispatch_decides|]. cbv beta. intros _ l' [[s' ->] Ht]. apply wp_ret.
      followed. split; [done|]. by apply cache_ok_app, Hc'.
Qed.

Lemma scan_tasks_decide tasks available l :
  cache_ok available l ->
  wpA (pfold (scan_task config node_id service_name utc_to_local local_to_utc cron_next) available tasks) l
    (fun _ l' => follows l (fun l' => Forall (fun task => decided task l') tasks) l').
Proof.
  revert available l. induction tasks as [|task tasks IH]; intros available l Hc; cbn [pfold].
  - by apply wp_ret, follows_refl.
  - apply wp_bind. eapply wp_mono; [by apply scan_task_decides|]. cbv beta. intros available' l' [[s ->] [Hd Hc']].
    eapply wp_mono; [by apply IH|]. cbv beta. intros _ l'' [[s' ->] Hf]. followed.
    constructor; [by apply decided_app|done].
Qed.
(** C11.  No due task is forgotten: of the tasks that the database hands to a
    scan, every single one is handed to the thread pool in that very scan, or
    the scan met, for that task, one of the conditions under which it must
    leave it: no worker serves its handler, another node holds its lock or its
    claim, it was canceled after its claim, the pool refuses it, or the misfire
    policy is to skip, the task is overdue by more than the grace period, and
    the scan moves it to its next time after now (disables it when it has
    none). *)
Theorem every_due_task_is_decided tr :
  exec (scanAndDispatch config node_id service_name utc_to_local local_to_utc cron_next) tr () ->
  exists tasks before after, tr = before ++ Called (GetDueTasks 100) tasks :: after /\
    Forall (fun task => decided task after) tasks.
Proof.
  intros (t1 & [] & t2 & -> & _ & He)%exec_bind. destruct He as (tasks & t3 & -> & He). cbn in He.
  exists tasks, t1, t3. split; [done|].
  apply exec_bind in He as (t4 & h & t5 & -> & He & [-> _]). rewrite app_nil_r.
  destruct (wp_sound _ _ _ _ _ _ (scan_tasks_decide tasks ∅ [] ltac:(intros h' Hh; by rewrite lookup_empty in Hh)) He)
    as (l' & Hm & [_ Hf]).
  rewrite monitor_collector in Hm. simplify_eq. cbn [app] in Hf.
  assert (Hall : collect (fun _ => true) t4 = t4) by (clear; by induction t4 as [|ev t4 IH]; simpl; [|rewrite IH]).
  by rewrite Hall in Hf.
Qed.

End Progress.

Module ProgressExample.
Import SchedulerExample.

Lemma every_due_task_is_decided_witness :
  exists tasks before after, trace_of handle scan () = before ++ Called (GetDueTasks 100) tasks :: after /\
    Forall (fun task => decided config "node1" "rpc" Some Some next_day task after) tasks.
Proof. apply (every_due_task_is_decided config "node1" "rpc" Some Some next_day), scan_trace. Defined.

End ProgressExample.
