(* ===== verification/Takeover.v ===== *)
(** Progress: one scan of a node whose stores answer starts every task that is
    due, also one that a dead node left running.

    The other nodes and the other threads of the process go on with their own
    tasks meanwhile; what is asked of them is that they leave this task alone
    until its job is handed to the pool.  [Database] and [Server] follow the
    two stores through calls that succeed, [Scan] the node through the scan. *)
From S2P Require Import Prelude Datetime StorageError TaskTable TaskProtocol MySQLClient Redis Discovery RedisClient Cancellation Text Config ThreadPool RpcClient RpcClientPool Metrics CronParser LockRenewer Effects Scheduler Node.

(** ** The database *)

Section Database.
Context {D : Type} `{DT : Datetime D}.
Context (found_rows : bool) (driver : nat -> @Tick D) (id : string).

(** The task a statement is about. *)
Definition op_task (o : Op) : string :=
  match o with
  | OpAdd task | OpUpdateDefinition task => TaskMeta.id task
  | OpDelete j | OpClaim j _ _ _ _ | OpRecover j _ | OpComplete j _ _ _ _ _ | OpUpdateSchedule j _ _ _
  | OpUpdateRuntime j _ _ _ _ | OpCancel j => j
  | OpAddHistory _ => EmptyString
  end.

(** A statement that leaves the row of [id] alone and adds no task. *)
Definition elsewhere (o : Op) : Prop :=
  match o with
  | OpAdd _ => False
  | OpAddHistory _ => True
  | _ => op_task o <> id
  end.

(** A row of the task, among few enough that one batch holds them all. *)
Definition row_is (r : TaskRow D) (t : Tables D) : Prop :=
  tasks t !! id = Some r /\ (size (tasks t) <= 50)%nat.

Lemma row_update_ne j (P : TaskRow D -> bool) f r : j <> id -> row_update j P f id r = Some r.
Proof. intros Hj. unfold row_update. by rewrite (proj2 (String.eqb_neq j id)). Qed.

Lemma row_after_elsewhere now o r : elsewhere o -> row_after now o id r = Some r.
Proof.
  intros He. destruct o; cbn [elsewhere op_task] in He; try done; cbn [row_after]; unfold bind2;
    repeat case_match; rewrite ?row_update_ne by done; try done.
  all: by rewrite (proj2 (String.eqb_neq _ _)) in * by done.
Qed.

(** Statements other than [INSERT] add no row. *)
Lemma size_op fr now o t : (forall task, o <> OpAdd task) ->
  (size (tasks (exec_event t (fr, now, o))) <= size (tasks t))%nat.
Proof.
  intros Ho. rewrite <- !size_dom. apply subseteq_size. intros j. rewrite !elem_of_dom, exec_event_lookup.
  unfold row_next. destruct (tasks t !! j) as [x|]; [by eauto|]. destruct o; try by intros [? [=]].
  by destruct (Ho task).
Qed.

Lemma row_is_elsewhere r t ev : elsewhere ev.2 -> row_is r t -> row_is r (exec_event t ev).
Proof.
  destruct ev as [[fr now] o]. cbn [snd]. intros He [Hr Hs]. split.
  - rewrite exec_event_lookup, Hr. by apply row_after_elsewhere.
  - etrans; [apply size_op|done]. intros task ->. done.
Qed.

Lemma row_is_trace r evs t : Forall (fun ev => elsewhere ev.2) evs -> row_is r t -> row_is r (exec_trace t evs).
Proof.
  intros He. revert t. induction He as [|ev evs Hev _ IH]; intros t Ht; [done|].
  exact (IH _ (row_is_elsewhere r t ev Hev Ht)).
Qed.

(** The driver's calls succeed, and other clients leave the row alone. *)
Context (since : Z).
Record db_answers : Prop := mkDbAnswers {
  da_ok k : tk_answer (driver k) = Ok;
  da_open k : tk_closed (driver k) = inr false;
  da_others k : Forall (fun ev => elsewhere ev.2) (tk_others (driver k));
  da_now k : since <= dt_sec (tk_now (driver k))
}.

Context (HD : db_answers).

(** A client with its pool, and the row in the tables. *)
Definition db_holds (r : TaskRow D) (d : @Db D) : Prop := row_is r (db_tables d) /\ db_slots d <> [].

Lemma row_is_quiet r d d' : quiet driver d d' -> row_is r (db_tables d) -> row_is r (db_tables d').
Proof.
  intros [_ ->] H. apply row_is_trace; [|done]. unfold interference. apply Forall_concat, Forall_map, Forall_true.
  intros k. cbn. apply da_others, HD.
Qed.

Lemma connectSlot_ok slot d : exists d', MySQLClient.connectSlotLocked driver slot d = ((true, Some true), d').
Proof.
  unfold MySQLClient.connectSlotLocked, side_call, sql_call. rewrite !(da_ok HD). by eexists.
Qed.

Lemma ensureConnected_ok slot d : exists slot' d', MySQLClient.ensureConnected driver slot d = ((true, slot'), d').
Proof.
  unfold MySQLClient.ensureConnected. destruct slot as [b|].
  - unfold is_closed. rewrite (da_open HD). by eexists _, _.
  - destruct (connectSlot_ok None d) as [d' ->]. by eexists _, _.
Qed.

(** A lease is granted. *)
Lemma acquire_ok r d : db_holds r d ->
  exists i d', acquireConnection driver d = (Some i, d') /\ db_holds r d'.
Proof.
  intros [Hr Hs]. pose proof (quiet_acquire driver d) as Hq.
  unfold acquireConnection in *. destruct (db_slots d) as [|s l] eqn:E; [done|].
  unfold lease_slot in *. cbv zeta in *. cbn [db_slots set_next_slot] in *.
  destruct (ensureConnected_ok (default None (db_slots d !! Z.to_nat (u64 (db_next_slot d) mod Z.of_nat (length (db_slots d)))))
              (set_next_slot (u64 (db_next_slot d + 1)) d)) as (slot' & d' & H).
  rewrite E in *. rewrite H in *. eexists _, _. split; [done|]. split.
  - by eapply row_is_quiet.
  - cbn [db_slots set_slots]. intros Hn. apply (f_equal length) in Hn. rewrite length_insert in Hn.
    assert (Hd : db_slots d' = db_slots d).
    { revert H. unfold MySQLClient.ensureConnected, is_closed. case_match.
      - rewrite (da_open HD). by intros [= _ <-].
      - unfold MySQLClient.connectSlotLocked, side_call, sql_call. rewrite !(da_ok HD). by intros [= _ <-]. }
    rewrite Hd, E in Hn. done.
Qed.

(** A statement runs on tables that hold the row. *)
Lemma run_stmt_ok {A} (dflt : A) (s : D -> Stmt D A) r d : db_holds r d ->
  exists t now, row_is r t /\ since <= dt_sec now /\
    match s now t with
    | (inr a, t') => exists d', with_lease driver dflt (run_stmt driver s) d = (a, d') /\
        db_tables d' = t' /\ db_slots d' <> []
    | (inl _, _) => True
    end.
Proof.
  intros Hd. destruct (acquire_ok r d Hd) as (i & d1 & Ha & [Hr Hs]).
  exists (exec_trace (db_tables d1) (tk_others (driver (db_clock d1)))), (tk_now (driver (db_clock d1))).
  split; [apply row_is_trace; [apply da_others, HD|done]|]. split; [apply da_now, HD|].
  unfold with_lease, bindM. rewrite Ha. unfold try_sql, run_stmt, sql_call. rewrite (da_ok HD).
  cbn [db_tables advance]. destruct (s _ _) as [[e|a] t']; [done|]. eexists. split; [done|]. by split.
Qed.

Lemma query_ok {A} (dflt : A) (q : D -> Tables D -> A) r d : db_holds r d ->
  exists t now d', row_is r t /\ since <= dt_sec now /\
    with_lease driver dflt (run_query driver q) d = (q now t, d') /\ db_holds r d'.
Proof.
  intros Hd. destruct (run_stmt_ok dflt (fun now t => (inr (q now t), t)) r d Hd) as (t & now & Hr & Hn & d' & H & Ht & Hs).
  exists t, now, d'. split_and!; [done|done|done|]. split; [by rewrite Ht|done].
Qed.

(** Statements that keep the row. *)
Definition keeps_row {A} (s : D -> Stmt D A) : Prop := forall r now t, row_is r t -> row_is r (s now t).2.

Lemma keeps_elsewhere o : elsewhere o -> keeps_row (fun now => op_stmt found_rows now o).
Proof. intros Ho r now t. apply (row_is_elsewhere r t (found_rows, now, o) Ho). Qed.

Lemma keeps_upd_runtime j st nr lr rc : j <> id -> keeps_row (fun _ => upd_runtime found_rows j st nr lr rc).
Proof.
  intros Hj r now t Ht. pose proof (keeps_elsewhere (OpUpdateRuntime j st nr lr rc) Hj r now t Ht) as H.
  cbn [op_stmt] in H. unfold stmt_update_runtime, updated_or in H. by destruct (upd_runtime _ _ _ _ _ _ t) as [[] t'].
Qed.

Lemma run_stmt_keeps {A} (s : D -> Stmt D A) r d : keeps_row s -> db_holds r d -> db_holds r (run_stmt driver s d).2.
Proof.
  intros Hk [Hr Hs]. unfold run_stmt, sql_call. rewrite (da_ok HD). cbn [db_tables advance].
  pose proof (Hk r (tk_now (driver (db_clock d))) (exec_trace (db_tables d) (tk_others (driver (db_clock d))))) as Ht.
  specialize (Ht (row_is_trace r _ _ (da_others HD _) Hr)).
  destruct (s _ (exec_trace _ _)) as [a t']. by split.
Qed.

Lemma with_lease_keeps {A} (dflt : A) (m : X A) r d : (forall d, db_holds r d -> db_holds r (m d).2) ->
  db_holds r d -> db_holds r (with_lease driver dflt m d).2.
Proof.
  intros Hm Hd. destruct (acquire_ok r d Hd) as (i & d1 & Ha & H1). unfold with_lease, bindM. rewrite Ha.
  specialize (Hm d1 H1). unfold try_sql. destruct (m d1) as [[e|a] d2]; exact Hm.
Qed.

Lemma write_keeps {A} (dflt : A) (s : D -> Stmt D A) r d : keeps_row s -> db_holds r d ->
  db_holds r (with_lease driver dflt (run_stmt driver s) d).2.
Proof. intros Hk. apply with_lease_keeps. intros d'. by apply run_stmt_keeps. Qed.

Lemma update_keeps (s : D -> Stmt D Z) check r d : keeps_row s -> db_holds r d ->
  db_holds r (with_lease driver false (run_update driver s check) d).2.
Proof.
  intros Hk. apply with_lease_keeps. intros d' Hd. unfold run_update, bindX.
  pose proof (run_stmt_keeps s r d' Hk Hd) as H1. destruct (run_stmt driver s d') as [[e|n] d1]; [done|].
  cbn [snd] in H1. destruct (0 <? n); [done|]. apply run_stmt_keeps; [by intros r' now t Ht|done].
Qed.

Lemma query_keeps {A} (dflt : A) (q : D -> Tables D -> A) r d : db_holds r d ->
  db_holds r (with_lease driver dflt (run_query driver q) d).2.
Proof. apply write_keeps. by intros r' now t Ht. Qed.

End Database.

(** ** The Redis server *)

Section Server.
Context {R : Type} `{RS : RedisServer R}.
Context (hiredis : nat -> RTick) (key service endpoint : string) (t0 lasts : Z).

(** The time up to which the server has been followed before call [k]. *)
Definition redis_before (k : nat) : Z := match k with O => t0 | S k' => rk_now (hiredis k') end.

(** A script of somebody else: it is not about the task's lock, and leaves the
    worker registered until [lasts]. *)
Definition calm_at (now : Z) (c : ScriptCall) : Prop :=
  on_lock key c = false /\ spares service endpoint c /\ lasts <= renewed service endpoint now c lasts.

Fixpoint calm_between (t : Z) (l : list (Z * ScriptCall)) (t' : Z) : Prop :=
  match l with
  | [] => t <= t'
  | (u, c) :: l' => t <= u /\ calm_at u c /\ calm_between u l' t'
  end.

Record redis_answers : Prop := mkRedisAnswers {
  ra_ok k : rk_answer (hiredis k) = ROk;
  ra_others k : calm_between (redis_before k) (rk_others (hiredis k)) (rk_now (hiredis k));
  ra_lasts k : rk_now (hiredis k) < lasts
}.

(** The lock is free, or at most held by [v]. *)
Definition lock_of (v : option string) (r : R) (t : Z) : Prop :=
  look r t (lock_key key) = None \/ exists v' x, v = Some v' /\ look r t (lock_key key) = Some (VStr v', x).

Definition server_holds (v : option string) (r : R) (t : Z) : Prop :=
  lock_of v r t /\ exists u, lasts <= u /\ registered service endpoint u r t.

Definition redis_holds (v : option string) (c : Rc R) : Prop :=
  server_holds v (rc_server c) (redis_before (rc_clock c)).

Lemma lock_of_later v r t t' : t <= t' -> lock_of v r t -> lock_of v r t'.
Proof.
  intros Ht [H|(v' & x & Hv & H)]; unfold lock_of; rewrite (look_later r t t') by done; rewrite H; [by left|].
  unfold unexpired. destruct x as [x|]; [|right; by eauto]. destruct (x <=? t'); [by left|right; by eauto].
Qed.

Lemma server_holds_later v r t t' : t <= t' -> server_holds v r t -> server_holds v r t'.
Proof.
  intros Ht [Hl (u & Hu & Hr)]. split; [by eapply lock_of_later|]. exists u. split; [done|].
  by eapply registered_later.
Qed.

Lemma lock_of_frame v r t c : on_lock key c = false -> lock_of v r t -> lock_of v (run_script t c r).2 t.
Proof.
  intros Hc Hl. pose proof (frames_script key c Hc t r) as Hf. unfold lock_of, run_script in *.
  destruct (script_of c t r) as [[] r']; cbn [snd] in *; by rewrite Hf.
Qed.

Lemma server_holds_calm v r t c : calm_at t c -> server_holds v r t -> server_holds v (run_script t c r).2 t.
Proof.
  intros (Hl & Hs & Hb) [Hk (u & Hu & Hr)]. split; [by apply lock_of_frame|].
  exists (renewed service endpoint t c u). split; [|by apply registered_step].
  unfold renewed in *. by destruct (own_beat service endpoint c).
Qed.

Lemma server_holds_calls v l r t t' : calm_between t l t' -> server_holds v r t ->
  server_holds v (run_calls l r) t' /\ t <= t'.
Proof.
  revert r t. induction l as [|[u c] l IH]; intros r t; cbn [calm_between run_calls].
  - intros Ht H. split; [by eapply server_holds_later|done].
  - intros (Hu & Hc & Hl) H. destruct (IH (run_script u c r).2 u Hl) as [H1 H2]; [|split; [done|lia]].
    apply server_holds_calm; [done|]. by eapply server_holds_later.
Qed.

Context (HR : redis_answers).

Lemma radvance_holds v c : redis_holds v c -> redis_holds v (radvance hiredis c).
Proof. intros H. by destruct (server_holds_calls v _ _ _ _ (ra_others HR (rc_clock c)) H). Qed.

Lemma connect_ok v i c : redis_holds v c ->
  exists c', RedisClient.connectSlotLocked hiredis i c = (true, c') /\ redis_holds v c'.
Proof.
  intros H. unfold RedisClient.connectSlotLocked, bindM, modify, plain_call. cbn [rc_clock set_rslot].
  cbn. rewrite !(ra_ok HR). cbn. rewrite ?(ra_ok HR). eexists. split; [done|].
  apply (radvance_holds v) in H. apply (radvance_holds v) in H. exact H.
Qed.

(** A command runs its script once, on a server that is as it was. *)
Lemma command_ok v s c : redis_holds v c ->
  exists r t reply c', server_holds v r t /\ t < lasts /\ run_script t s r = (reply, rc_server c') /\
    redis_before (rc_clock c') = t /\ command hiredis s c = (Some reply, c').
Proof.
  intros H. unfold command, bindM, pickSlot. cbn [fst snd rc_slots].
  set (c0 := mkRc _ _ _ _ _). set (i := Z.to_nat _).
  assert (H0 : redis_holds v c0) by exact H. clearbody c0 i.
  assert (Hsend : forall c1, redis_holds v c1 -> exists r t reply c', server_holds v r t /\ t < lasts /\
    run_script t s r = (reply, rc_server c') /\ redis_before (rc_clock c') = t /\
    send_command hiredis i s c1 = (Some reply, c')).
  { intros c1 H1. apply (radvance_holds v) in H1. unfold send_command, bindM, eval_call.
    rewrite (ra_ok HR). unfold redis_holds in H1. cbn [rc_clock radvance redis_before] in H1.
    destruct (run_script (rk_now (hiredis (rc_clock c1))) s (rc_server (radvance hiredis c1))) as [reply r'] eqn:E.
    exists (rc_server (radvance hiredis c1)), (rk_now (hiredis (rc_clock c1))), reply.
    destruct (note_reply reply (set_server r' (radvance hiredis c1))) as [u c'] eqn:En. exists c'.
    assert (Hc' : rc_server c' = r' /\ rc_clock c' = S (rc_clock c1)) by (unfold note_reply, RedisClient.setLastError, modify in En; destruct reply; by simplify_eq/=).
    destruct Hc' as [-> ->]. split_and!; [done|apply ra_lasts, HR|done|done|done]. }
  assert (Hready : exists c1, slot_ready hiredis i c0 = (true, c1) /\ redis_holds v c1).
  { unfold slot_ready, bindM, gets. destruct (default false (rc_slots c0 !! i)); [by exists c0|by apply connect_ok]. }
  destruct Hready as (c1 & -> & H1). by apply Hsend.
Qed.

(** Scripts of the node about other tasks. *)
Lemma command_calm v s c : (forall t, calm_at t s) -> redis_holds v c -> redis_holds v (command hiredis s c).2.
Proof.
  intros Hs H. destruct (command_ok v s c H) as (r & t & reply & c' & Hr & _ & Hrun & Ht & ->).
  unfold redis_holds. cbn [snd]. rewrite Ht. pose proof (server_holds_calm v r t s (Hs t) Hr) as Hc. by rewrite Hrun in Hc.
Qed.

Lemma registered_discover u s r t : t < u -> registered service endpoint u r t ->
  registered service endpoint u (run_script t (Discover s) r).2 t.
Proof.
  intros Ht Hr. destruct (decide (s = service)) as [->|Hne].
  { destruct (discover_spec _ _ _ _ _ Hr) as (alive & r' & -> & _ & H). exact H. }
  destruct (decide (set_key s = node_key service endpoint)) as [He|Hn].
  - destruct Hr as [Hset Hnode]. rewrite (proj2 (Z.leb_gt _ _)) in Hnode by done.
    assert (Hsame : forall k, look (run_script t (Discover s) r).2 t k = look r t k).
    { intros k. unfold run_script. cbn [script_of]. unfold discover_script, sbind.
      pose proof (exec_reply t (SMEMBERS (set_key s)) r) as Hrep.
      assert (Hread : look (Redis.exec t (SMEMBERS (set_key s)) r).2 t k = look r t k).
      { apply exec_read. cbn [cmd_key]. rewrite He, Hnode. cbn. unfold unexpired. by rewrite (proj2 (Z.leb_gt _ _)). }
      assert (Hl : look r t (set_key s) = Some (VStr endpoint, Some u)) by (by rewrite He).
      cbn [cmd_key cmd_spec] in Hrep. rewrite Hl in Hrep.
      unfold scall. destruct (Redis.exec t (SMEMBERS (set_key s)) r) as [[] r']; cbn in Hrep; try discriminate Hrep.
      exact Hread. }
    split; [|by rewrite Hsame, Hnode, (proj2 (Z.leb_gt _ _))]. destruct Hset as (g & Hg & Hin). exists g.
    split; [|done]. unfold set_is. by rewrite Hsame.
  - apply registered_frame; cbn [writes]; [|by intros H; apply Hn|done].
    intros H. apply Hne. unfold set_key in H. by apply append_inj_r in H.
Qed.

(** The worker is found, and asking disturbs nothing. *)
Lemma discover_ok v s c : redis_holds v c ->
  redis_holds v (discoverServices hiredis s c).2 /\ (s = service -> s <> EmptyString -> (discoverServices hiredis s c).1 <> []).
Proof.
  intros H. unfold discoverServices. destruct (str_empty s) eqn:Es; [split; [done|by destruct s]|].
  unfold bindM. destruct (command_ok v (Discover s) c H) as (r & t & reply & c' & [Hl (u & Hu & Hr)] & Ht & Hrun & Hc & ->).
  cbn [fst snd retM]. split.
  - unfold redis_holds. rewrite Hc. replace (rc_server c') with (run_script t (Discover s) r).2 by (by rewrite Hrun).
    split; [by apply lock_of_frame|]. exists u. split; [done|]. apply registered_discover; [lia|done].
  - intros -> _. destruct (discover_spec _ _ _ _ _ Hr) as (alive & r' & Hd & Hin & _). rewrite Hd in Hrun.
    injection Hrun as <- _. cbn. intros ->. apply (not_elem_of_nil endpoint), Hin. lia.
Qed.

(** The task's own lock: it is obtained when it is free, and given back. *)
Lemma lock_ok elapsed value ttl timeout c : key <> EmptyString -> value <> EmptyString -> 0 < ttl ->
  redis_holds None c ->
  exists c', lock hiredis elapsed key value ttl timeout c = (true, c') /\ redis_holds (Some value) c'.
Proof.
  intros Hk Hv Ht H. unfold lock. apply str_empty_false in Hk, Hv. rewrite Hk, Hv, (proj2 (Z.leb_gt _ _)) by lia. cbn [orb].
  unfold lock_fuel. rewrite Nat.add_comm. cbn [lock_loop Nat.add]. unfold bindM.
  destruct (command_ok None (Lock key value ttl) c H) as (r & t & reply & c' & [Hl (u & Hu & Hr)] & Hlt & Hrun & Hc & ->).
  destruct Hl as [Hl|(? & ? & [=] & _)].
  destruct (lock_free_spec t (lock_key key) value ttl r Ht Hl) as (r' & Hs & Hown).
  pose proof Hrun as Hrun'. unfold run_script in Hrun'. cbn [script_of] in Hrun'. rewrite Hs in Hrun'. injection Hrun' as <- Hr'.
  cbn. eexists. split; [done|]. unfold redis_holds. rewrite Hc. split.
  - right. exists value, (Some (t + ttl * 1000)). split; [done|]. by rewrite <- Hr'.
  - exists u. split; [done|]. replace (rc_server c') with (run_script t (Lock key value ttl) r).2 by (by rewrite Hrun).
    apply (registered_step service endpoint u (Lock key value ttl)); done.
Qed.

Lemma unlock_ok value c : key <> EmptyString -> value <> EmptyString -> redis_holds (Some value) c ->
  redis_holds None (unlock hiredis key value c).2.
Proof.
  intros Hk Hv H. unfold unlock. apply str_empty_false in Hk, Hv. rewrite Hk, Hv. cbn [orb]. unfold bindM.
  destruct (command_ok (Some value) (Unlock key value) c H) as (r & t & reply & c' & [Hl (u & Hu & Hr)] & Hlt & Hrun & Hc & ->).
  cbn [snd retM]. unfold redis_holds. rewrite Hc.
  replace (rc_server c') with (run_script t (Unlock key value) r).2 by (by rewrite Hrun). split.
  - left. unfold run_script. cbn [script_of]. unfold unlock_script.
    destruct Hl as [Hl|(v' & x & [= <-] & Hl)].
    + unfold owner_script, sbind.
      destruct (scall_spec t (GET (lock_key key)) r RNil None) as (r1 & -> & H1); [cbn [cmd_key cmd_spec]; by rewrite Hl|done..].
    + destruct (owner_spec t (lock_key key) (DEL (lock_key key)) r value x (RInt 1) None Hl eq_refl eq_refl) as (r1 & -> & H1); done.
  - exists u. split; [done|]. apply (registered_step service endpoint u (Unlock key value)); done.
Qed.

(** Locks of other tasks. *)
Lemma calm_other_lock t s : on_lock key s = false ->
  match s with Lock _ _ _ | Renew _ _ _ | Unlock _ _ => True | _ => False end -> calm_at t s.
Proof. intros Hs Hk. destruct s; try done; (split; [done|]; split; [done|]; unfold renewed; cbn; lia). Qed.

Lemma other_lock_ok v elapsed k value ttl timeout c : k <> key -> redis_holds v c ->
  redis_holds v (lock hiredis elapsed k value ttl timeout c).2.
Proof.
  intros Hk H. unfold lock. destruct (str_empty k || str_empty value || (ttl <=? 0)); [done|]. unfold bindM.
  cut (forall fuel n c, redis_holds v c -> redis_holds v (lock_loop hiredis elapsed k value ttl timeout n fuel c).2).
  { intros Hc. specialize (Hc (lock_fuel timeout) 0%nat c H). by destruct (lock_loop _ _ _ _ _ _ _ _ c). }
  clear c H. induction fuel as [|fuel IH]; intros n c H; cbn [lock_loop]; [done|]. unfold bindM.
  pose proof (command_calm v (Lock k value ttl) c
    (fun t => calm_other_lock t (Lock k value ttl) (proj2 (String.eqb_neq _ _) Hk) I) H) as H1.
  destruct (command hiredis (Lock k value ttl) c) as [reply c1]. cbn [snd] in H1.
  repeat case_match; try done; by apply IH.
Qed.

Lemma other_unlock_ok v k value c : k <> key -> redis_holds v c -> redis_holds v (unlock hiredis k value c).2.
Proof.
  intros Hk H. unfold unlock. destruct (str_empty k || str_empty value); [done|]. unfold bindM.
  pose proof (command_calm v (Unlock k value) c
    (fun t => calm_other_lock t (Unlock k value) (proj2 (String.eqb_neq _ _) Hk) I) H) as H1.
  by destruct (command hiredis (Unlock k value) c) as [reply c1].
Qed.

End Server.

(** ** The scan *)

Section Scan.
Context {D : Type} `{DT : Datetime D} {R : Type} `{RS : RedisServer R}.
Context {W C : Type} `{TR : Transport W C}.
Context (found_rows : bool) (driver : nat -> @Tick D) (hiredis : nat -> RTick)
        (elapsed : nat -> nat -> Z) (system_clock steady_clock : nat -> Z) (room : nat -> nat)
        (health_request : string -> string) (health_serving : string -> option bool).
Context (env : nat -> @Node D R W C -> @Node D R W C).
Context (config : Config) (node_id service_name : string).
Context (utc_to_local local_to_utc : Z -> option Z) (cron_next : string -> Z -> option Z).

(** The task, a worker that serves its handler, the time since which the
    server's clock is past what makes the task due, and the Redis times between
    which the scan happens. *)
Context (id handler endpoint : string) (since t0 lasts : Z).

Abbreviation handle_call := (handle found_rows driver hiredis elapsed system_clock steady_clock room
  health_request health_serving env).
Abbreviation key := ("task:" +:+ id).
Abbreviation service := (service_name +:+ ":" +:+ handler).
Abbreviation holds_in_redis := (redis_holds hiredis key service endpoint t0 lasts).

Definition no_job (n : @Node D R W C) : Prop :=
  Forall (fun j => TaskMeta.id (job_task j) <> id) (p_accepted (nd_pool n)).

(** What the other threads leave alone: the task's row, its lock, the worker's
    registration, the pool's queue and the cancellation flags. *)
Record undisturbed (n n' : @Node D R W C) : Prop := mkUndisturbed {
  un_row : tasks (db_tables (nd_db n')) !! id = tasks (db_tables (nd_db n)) !! id;
  un_size : (size (tasks (db_tables (nd_db n'))) <= size (tasks (db_tables (nd_db n))))%nat;
  un_slots : db_slots (nd_db n) <> [] -> db_slots (nd_db n') <> [];
  un_redis v : holds_in_redis v (nd_redis n) -> holds_in_redis v (nd_redis n');
  un_stopping : p_stopping (nd_pool n) = false -> p_stopping (nd_pool n') = false;
  un_pending : p_max_pending_tasks (nd_pool n') = p_max_pending_tasks (nd_pool n);
  un_accepted : p_accepted (nd_pool n') = p_accepted (nd_pool n);
  un_flags : nd_flags n `prefix_of` nd_flags n'
}.

(** The stores answer, and until the job is in the pool nobody else touches the
    task. *)
Record calm_world : Prop := mkCalmWorld {
  cw_db : db_answers driver id since;
  cw_redis : redis_answers hiredis key service endpoint t0 lasts;
  cw_env k n : no_job n -> undisturbed n (env k n)
}.

(** The node while the task waits: its row, who holds its lock, and the flags
    that are down. *)
Record scene (r : TaskRow D) (v : option string) (down : list CancellationSource) (n : @Node D R W C) : Prop := mkScene {
  sc_db : db_holds id r (nd_db n);
  sc_redis : holds_in_redis v (nd_redis n);
  sc_stopping : p_stopping (nd_pool n) = false;
  sc_pending : p_max_pending_tasks (nd_pool n) <= 0;
  sc_job : no_job n;
  sc_down : Forall (fun s => (s < length (nd_flags n))%nat /\ Cancellation.load (nd_flags n) s = false) down
}.

Context (HW : calm_world).

Lemma scene_env r v down n : scene r v down n -> scene r v down (count_call (env (nd_calls n) n)).
Proof.
  intros [[[Hr Hsz] Hs] Hrd Hst Hp Hj Hd]. destruct (cw_env HW (nd_calls n) n Hj) as [U1 U2 U3 U4 U5 U6 U7 [fl U8]].
  split; cbn [nd_db nd_redis nd_pool nd_flags count_call].
  - split; [|by apply U3]. split; [by rewrite U1|]. etrans; [exact U2|done].
  - by apply U4.
  - by apply U5.
  - by rewrite U6.
  - unfold no_job. cbn [nd_pool count_call]. by rewrite U7.
  - rewrite U8. eapply Forall_impl; [exact Hd|]. intros s [Hs' Hl]. rewrite length_app. split; [lia|].
    unfold Cancellation.load in *. by rewrite lookup_app_l.
Qed.

Lemma scene_on_db {A} (m : M (@Db D) A) r v down n :
  (forall d, db_holds id r d -> db_holds id r (m d).2) -> scene r v down n -> scene r v down (on_db m n).2.
Proof.
  intros Hm [H1 H2 H3 H4 H5 H6]. unfold on_db, zoom. specialize (Hm _ H1). destruct (m (nd_db n)) as [a d]. by split.
Qed.

Lemma scene_on_redis {A} (m : M (Rc R) A) r v v' down n :
  (holds_in_redis v (nd_redis n) -> holds_in_redis v' (m (nd_redis n)).2) -> scene r v down n -> scene r v' down (on_redis m n).2.
Proof.
  intros Hm [H1 H2 H3 H4 H5 H6]. unfold on_redis, zoom. specialize (Hm H2). destruct (m (nd_redis n)) as [a c]. by split.
Qed.

(** Calls that say nothing of this task. *)
Definition harmless {X} (e : SchedE X) : Prop :=
  match e with
  | UpdateTaskRuntime j _ _ _ _ | ClaimTaskExecution j _ _ _ _ | CompleteTaskExecution j _ _ _ _ _
  | RecoverTaskExecution j _ => j <> id
  | RedisLock k _ _ _ | RedisUnlock k _ => k <> key
  | Enqueue j => TaskMeta.id (job_task j) <> id
  | RedisRenew _ _ _ | SettleLeases _ _ | PoolCall _ _ _ _ _ | AddHistory _ => False
  | _ => True
  end.

Lemma accepted_adjust n (p : Pool Job) :
  p_accepted (adjustPoolSize n p) = p_accepted p /\ p_stopping (adjustPoolSize n p) = p_stopping p /\
  p_max_pending_tasks (adjustPoolSize n p) = p_max_pending_tasks p.
Proof.
  assert (Hs : forall k m (q : Pool Job), p_accepted (start_workers k m q) = p_accepted q /\
    p_stopping (start_workers k m q) = p_stopping q /\ p_max_pending_tasks (start_workers k m q) = p_max_pending_tasks q).
  { induction k as [|k IH]; intros [|m] q; cbn [start_workers]; try done.
    match goal with |- context [start_workers k m ?q'] => destruct (IH m q') as (-> & -> & ->) end. done. }
  unfold adjustPoolSize. destruct (p_stopping p) eqn:E; [done|]. case_match; [|by cbn; rewrite E].
  destruct (Hs (Z.to_nat (Z.min (p_max_threads (reap p)) (p_current_threads (reap p) + 2) - p_current_threads (reap p))) n (reap p))
    as (-> & -> & ->). by cbn; rewrite E.
Qed.

(** The pool takes the job. *)
Lemma enqueue_ok k j r v down n : scene r v down n ->
  (enqueue_job room k j (nd_pool n)).1 = true /\
  (TaskMeta.id (job_task j) <> id -> scene r v down (on_pool (enqueue_job room k j) n).2).
Proof.
  intros [H1 H2 H3 H4 H5 H6]. unfold on_pool, zoom, enqueue_job, enqueue.
  rewrite H3, (proj2 (Z.ltb_ge _ _)) by done. cbn [andb]. split; [done|]. intros Hj.
  split; cbn [snd nd_db nd_redis nd_pool nd_flags]; try done;
    unfold no_job; cbn [nd_pool];
    match goal with |- context [adjustPoolSize _ ?p] => destruct (accepted_adjust (room k) p) as (Ha & Hb & Hc) end.
  - by rewrite Hb.
  - by rewrite Hc.
  - rewrite Ha. cbn [p_accepted]. apply Forall_app. split; [done|]. by constructor.
Qed.

Lemma scene_call {X} (e : SchedE X) r v down n : harmless e -> scene r v down n -> scene r v down (handle_call X e n).2.
Proof.
  intros He Hn. unfold handle. apply scene_env in Hn. generalize dependent (count_call (env (nd_calls n) n)).
  intros n' Hn. pose proof (cw_db HW) as HD. pose proof (cw_redis HW) as HR.
  destruct e; cbn [harmless] in He; try done; cbn [answer];
    try (destruct Hn as [H1 H2 H3 H4 H5 H6]; split; assumption).
  - apply scene_on_db; [|done]. intros d. by apply (query_keeps driver id since).
  - apply scene_on_db; [|done]. intros d. by apply (query_keeps driver id since).
  - apply scene_on_db; [|done]. intros d. apply (update_keeps driver id since HD). by apply keeps_upd_runtime.
  - apply scene_on_db; [|done]. intros d. apply (write_keeps driver id since HD).
    by apply (keeps_elsewhere found_rows id (OpClaim _ _ _ _ _)).
  - apply scene_on_db; [|done]. intros d. apply (write_keeps driver id since HD).
    by apply (keeps_elsewhere found_rows id (OpComplete _ _ _ _ _ _)).
  - apply scene_on_db; [|done]. intros d. apply (write_keeps driver id since HD).
    by apply (keeps_elsewhere found_rows id (OpRecover _ _)).
  - eapply scene_on_redis; [|done]. intros H. by apply discover_ok.
  - eapply scene_on_redis; [|done]. intros H. by apply other_lock_ok.
  - eapply scene_on_redis; [|done]. intros H. by apply other_unlock_ok.
  - destruct Hn as [H1 H2 H3 H4 H5 H6]. split; try done. cbn. eapply Forall_impl; [exact H6|]. intros s [Hs Hl].
    rewrite length_app. split; [lia|]. unfold Cancellation.load in *. by rewrite lookup_app_l.
  - by apply enqueue_ok.
Qed.

Abbreviation run_ p := (run handle_call p).
Abbreviation trace_ p := (trace_of handle_call p).

Definition says_nothing (ev : Effects.Event SchedE) : Prop := match ev with Called e _ => harmless e end.

Lemma scene_always {A} (p : SP A) Q r v down n : always says_nothing p Q -> scene r v down n ->
  scene r v down (run_ p n).2 /\ Q (run_ p n).1.
Proof.
  revert n. induction p as [a|X e k IH]; intros n Hp Hn; cbn [run]; [done|].
  pose proof (scene_call e r v down n (proj1 (Hp (handle_call X e n).1)) Hn) as Hc.
  destruct (handle_call X e n) as [x n']. apply IH; [apply Hp|done].
Qed.

(** ** The task's own calls *)

Lemma value_nonempty a b : a <> EmptyString -> a +:+ b <> EmptyString.
Proof. by destruct a. Qed.

Lemma scene_lock value ttl timeout r down n : value <> EmptyString -> 0 < ttl -> scene r None down n ->
  exists n', handle_call _ (RedisLock key value ttl timeout) n = (true, n') /\ scene r (Some value) down n'.
Proof.
  intros Hv Ht Hn. apply scene_env in Hn. unfold handle. cbn [answer]. set (n0 := count_call _) in *. clearbody n0.
  destruct (lock_ok hiredis key service endpoint t0 lasts (cw_redis HW) (elapsed (nd_calls n)) value ttl timeout
    (nd_redis n0) ltac:(by apply value_nonempty) Hv Ht (sc_redis _ _ _ _ Hn)) as (c & Hl & Hc).
  pose proof (scene_on_redis (lock hiredis (elapsed (nd_calls n)) key value ttl timeout) r None (Some value) down n0) as Hs.
  rewrite Hl in Hs. specialize (Hs (fun _ => Hc) Hn). unfold on_redis, zoom in *. rewrite Hl in *. by eexists.
Qed.

Lemma scene_unlock value r down n : value <> EmptyString -> scene r (Some value) down n ->
  scene r None down (handle_call _ (RedisUnlock key value) n).2.
Proof.
  intros Hv Hn. apply scene_env in Hn. unfold handle. cbn [answer]. eapply scene_on_redis; [|exact Hn].
  apply unlock_ok; [apply (cw_redis HW)|by apply value_nonempty|done].
Qed.

(** A statement of the task itself gives it the row [r']. *)
Lemma scene_statement (dflt : bool) (s : D -> Stmt D bool) r r' v down n :
  (forall now t, row_is id r t -> since <= dt_sec now -> exists t', s now t = (inr true, t') /\ row_is id r' t') ->
  scene r v down n ->
  (on_db (with_lease driver dflt (run_stmt driver s)) n).1 = true /\
  scene r' v down (on_db (with_lease driver dflt (run_stmt driver s)) n).2.
Proof.
  intros Hs [H1 H2 H3 H4 H5 H6]. destruct (run_stmt_ok driver id since (cw_db HW) dflt s r (nd_db n) H1) as (t & now & Ht & Hnow & H).
  destruct (Hs now t Ht Hnow) as (t' & E & Ht'). rewrite E in H. destruct H as (d' & Hd & Hdt & Hds).
  unfold on_db, zoom. rewrite Hd. split; [done|]. split; cbn [snd nd_db]; try done. split; [by rewrite Hdt|done].
Qed.

Lemma row_is_op r r' t now o : row_is id r t -> (forall task, o <> OpAdd task) -> row_after now o id r = Some r' ->
  row_is id r' (exec_event t (found_rows, now, o)).
Proof.
  intros [Hr Hs] Ho Ha. split; [by rewrite exec_event_lookup, Hr|]. etrans; [by apply size_op|done].
Qed.

Lemma sql_update_true fr (P : TaskRow D -> bool) f r t : tasks t !! id = Some r -> P r = true -> f r <> r ->
  updated (sql_update fr id P f t) = (inr true, (sql_update fr id P f t).2).
Proof.
  intros Hr Hp Hf. unfold updated, sql_update. rewrite Hr, Hp, bool_decide_eq_false_2 by done. by rewrite orb_true_r.
Qed.

(** What recovery makes of a row. *)
Definition recovered (r : TaskRow D) : TaskRow D :=
  release_row TASK_SCHEDULED (r_next_run_at r) (r_last_run_at r) (r_retry_count r) r.

Lemma scene_recover r v down n : r_status r = TASK_RUNNING -> scene r v down n ->
  scene (recovered r) v down (handle_call _ (RecoverTaskExecution id (getString (r_current_execution_id r))) n).2.
Proof.
  intros Hst Hn. apply scene_env in Hn. unfold handle. cbn [answer]. eapply scene_statement; [|exact Hn].
  intros now t Ht _.
  assert (Hg : recover_guard (getString (r_current_execution_id r)) r = true).
  { unfold recover_guard, getString. rewrite Hst. destruct (r_current_execution_id r); [apply String.eqb_refl|done]. }
  assert (Hne : recovered r <> r) by (intros H; apply (f_equal r_status) in H; cbn in H; by rewrite Hst in H).
  pose proof (row_is_op r (recovered r) t now (OpRecover id (getString (r_current_execution_id r))) Ht) as Hop.
  unfold stmt_recover. rewrite (sql_update_true _ _ _ r) by (try apply Ht; done). eexists. split; [done|].
  apply Hop; [done|]. cbn [row_after]. unfold row_update. by rewrite String.eqb_refl, Hg.
Qed.

Definition due_row (r : TaskRow D) : Prop :=
  r_status r = TASK_SCHEDULED /\ match r_next_run_at r with None => True | Some d => dt_sec d <= since end.

Lemma scene_claim e r v down n : due_row r -> scene r v down n ->
  exists n' r', handle_call _ (ClaimTaskExecution id e node_id TASK_SCHEDULED (getString_dt (r_next_run_at r))) n = (true, n') /\
    scene r' v down n'.
Proof.
  intros [Hst Hdue] Hn. apply scene_env in Hn. unfold handle. cbn [answer]. set (n0 := count_call _) in *. clearbody n0.
  assert (Hs : forall now t, row_is id r t -> since <= dt_sec now ->
    stmt_claim found_rows now id e node_id TASK_SCHEDULED (getString_dt (r_next_run_at r)) t =
      (inr true, exec_event t (found_rows, now, OpClaim id e node_id TASK_SCHEDULED (getString_dt (r_next_run_at r)))) /\
    row_after now (OpClaim id e node_id TASK_SCHEDULED (getString_dt (r_next_run_at r))) id r = Some (claim_row now e node_id r)).
  { intros now t [Hr _] Hnow. unfold exec_event. cbn [op_stmt fst snd row_after]. unfold stmt_claim, row_update.
    assert (Hne : claim_row now e node_id r <> r) by (apply claim_row_neq; by rewrite Hst).
    destruct (r_next_run_at r) as [d|] eqn:En; cbn [getString_dt].
    - destruct (str_empty (dt_text d)) eqn:Ee; [apply str_empty_true in Ee; by destruct (dt_text_nonempty d)|].
      rewrite dt_parse_text.
      assert (Hm : (r_status r =? TASK_SCHEDULED) && slot_matches now d r = true).
      { unfold slot_matches. rewrite Hst, En, bool_decide_eq_true_2 by done. cbn [andb Z.eqb]. apply andb_true_iff.
        split; [done|]. apply Z.leb_le. lia. }
      rewrite (sql_update_true _ _ _ r) by done. by rewrite String.eqb_refl, Hm.
    - cbn [str_empty]. assert (Hm : (r_status r =? TASK_SCHEDULED) = true) by (by rewrite Hst).
      rewrite (sql_update_true _ _ _ r) by done. by rewrite String.eqb_refl, Hm. }
  destruct Hn as [H1 H2 H3 H4 H5 H6].
  destruct (run_stmt_ok driver id since (cw_db HW) false (fun now => stmt_claim found_rows now id e node_id TASK_SCHEDULED
    (getString_dt (r_next_run_at r))) r (nd_db n0) H1) as (t & now & Ht & Hnow & H).
  destruct (Hs now t Ht Hnow) as [E Ha]. rewrite E in H. destruct H as (d' & Hd & Hdt & Hds).
  unfold on_db, zoom, claimTaskExecution. rewrite Hd. eexists _, (claim_row now e node_id r). split; [done|].
  split; cbn [nd_db]; try done. split; [|done]. rewrite Hdt. by apply (row_is_op r).
Qed.

(** ** The two lists *)

(** With few enough rows, a batch lists all that qualify, each once. *)
Lemma select_all (P : string * TaskRow D -> bool) le limit t : (size (tasks t) <= 50)%nat -> 50 <= limit < 2 ^ 32 ->
  sql_select P le limit 0 t ≡ₚ filter (fun x => P x = true) (map_to_list (tasks t)).
Proof.
  intros Hs Hl. unfold sql_select. rewrite !u32_small by (unfold is_u32; lia). cbn [Z.to_nat]. rewrite drop_0.
  rewrite take_ge; [apply sort_by_perm|]. rewrite length_sort_by.
  pose proof (length_filter (fun x => P x = true) (map_to_list (tasks t))). rewrite length_map_to_list in *. lia.
Qed.

Lemma listed_split (P : string * TaskRow D -> bool) le limit r t : row_is id r t -> 50 <= limit < 2 ^ 32 -> P (id, r) = true ->
  exists l1 l2, map (fun x => task_from_result x.1 x.2) (sql_select P le limit 0 t) = l1 ++ task_from_result id r :: l2 /\
    Forall (fun task => TaskMeta.id task <> id) l1 /\ Forall (fun task => TaskMeta.id task <> id) l2.
Proof.
  intros [Hr Hs] Hl Hp. pose proof (select_all P le limit t Hs Hl) as Hperm.
  assert (Hin : (id, r) ∈ sql_select P le limit 0 t).
  { rewrite Hperm. apply list_elem_of_filter. split; [done|]. by apply elem_of_map_to_list. }
  assert (Hnd : NoDup (sql_select P le limit 0 t).*1).
  { rewrite Hperm. assert (Hsub : forall l : list (string * TaskRow D), NoDup l.*1 -> NoDup (filter (fun x => P x = true) l).*1).
    { induction l as [|x l IH]; [done|]. rewrite fmap_cons, NoDup_cons. intros [Hx Hnd]. rewrite filter_cons.
      case_decide; [|by apply IH]. rewrite fmap_cons. apply NoDup_cons. split; [|by apply IH]. intros Hx'. apply Hx.
      apply list_elem_of_fmap in Hx' as (y & -> & Hy). apply list_elem_of_filter in Hy as [_ Hy].
      by apply list_elem_of_fmap_2. }
    apply Hsub, NoDup_fst_map_to_list. }
  apply list_elem_of_split in Hin as (k1 & k2 & E). rewrite E in *. exists (map (fun x => task_from_result x.1 x.2) k1),
    (map (fun x => task_from_result x.1 x.2) k2). rewrite map_app. split; [done|].
  rewrite fmap_app in Hnd. cbn in Hnd. apply NoDup_app in Hnd as (_ & H1 & H2). apply NoDup_cons in H2 as [H2 _].
  split; apply Forall_map, Forall_forall; intros x Hx; cbn; intros He.
  - apply (H1 x.1); [by apply list_elem_of_fmap_2|]. rewrite He. by left.
  - apply H2. rewrite <- He. by apply list_elem_of_fmap_2.
Qed.

Lemma others_only (P : string * TaskRow D -> bool) le limit r t : row_is id r t -> 50 <= limit < 2 ^ 32 -> P (id, r) = false ->
  Forall (fun task => TaskMeta.id task <> id) (map (fun x => task_from_result x.1 x.2) (sql_select P le limit 0 t)).
Proof.
  intros [Hr Hs] Hl Hp. apply Forall_map, Forall_forall. intros [j x]. rewrite (select_all P le limit t Hs Hl).
  rewrite list_elem_of_filter, elem_of_map_to_list. cbn. intros [Hx Hj] ->. simplify_eq. by rewrite Hp in Hx.
Qed.

Lemma is_due_row r now : due_row r -> since <= dt_sec now -> is_due now r = true.
Proof.
  intros [Hs Hd] Hn. unfold is_due. rewrite Hs. cbn [andb Z.eqb]. destruct (r_next_run_at r); [apply Z.leb_le; lia|done].
Qed.

(** Left running by a node that died: past the stale timeout, and due again
    once it is recovered. *)
Definition stranded_row (r : TaskRow D) : Prop :=
  r_status r = TASK_RUNNING /\
  match r_started_at r with Some d => dt_sec d + stale_after_sec config <= since | None => False end /\
  due_row (recovered r).

Lemma stale_after_positive : 120 <= stale_after_sec config.
Proof. unfold stale_after_sec, kTaskLockTtlSec. lia. Qed.

Lemma is_stale_row r now : stranded_row r -> since <= dt_sec now -> is_stale now (stale_after_sec config) r = true.
Proof.
  intros (Hs & Hd & _) Hn. unfold is_stale. rewrite Hs. cbn [andb Z.eqb TASK_RUNNING].
  destruct (r_started_at r); [|done]. apply Z.leb_le. lia.
Qed.

(** ** Tasks other than this one *)

Lemma task_key_neq j : j <> id -> "task:" +:+ j <> key.
Proof. intros Hj H. by apply append_inj_r in H. Qed.

Ltac nothing_call _ := intros ?; split; [cbn; try done; by apply task_key_neq|].
Ltac says_nothing_about := repeat (always_step nothing_call); try done.

Lemma recover_other task : TaskMeta.id task <> id -> always says_nothing (recover_task node_id task) (fun _ => True).
Proof. intros Hj. unfold recover_task, scope_exit. says_nothing_about. Qed.

Lemma dispatch_other task : TaskMeta.id task <> id ->
  always says_nothing (dispatch_task node_id local_to_utc task) (fun _ => True).
Proof.
  intros Hj. unfold dispatch_task, observe_delay, next_execution_id, claim_and_enqueue, enqueue_cleanup.
  says_nothing_about.
Qed.

Lemma recover_others l r v down n : Forall (fun task => TaskMeta.id task <> id) l -> scene r v down n ->
  scene r v down (run_ (pfor (recover_task node_id) l) n).2.
Proof.
  intros Hl Hn. apply (scene_always (pfor (recover_task node_id) l) (fun _ => True)); [|done].
  apply always_pfor. intros task Ht. apply recover_other. rewrite Forall_forall in Hl. by apply Hl.
Qed.

(** ** Recovery *)

Lemma call_query {A} (e : SchedE A) (dflt : A) (q : D -> Tables D -> A) r v down n :
  (forall k, answer found_rows driver hiredis elapsed system_clock steady_clock room health_request health_serving k e =
             on_db (with_lease driver dflt (run_query driver q))) ->
  scene r v down n ->
  exists t now n', row_is id r t /\ since <= dt_sec now /\ handle_call A e n = (q now t, n') /\ scene r v down n'.
Proof.
  intros He Hn. apply scene_env in Hn. unfold handle. rewrite He. destruct Hn as [H1 H2 H3 H4 H5 H6].
  destruct (query_ok driver id since (cw_db HW) dflt q r _ H1) as (t & now & d' & Ht & Hn & Hq & Hd).
  unfold on_db, zoom. rewrite Hq. eexists t, now, _. split_and!; [done|done|done|]. by split.
Qed.

Lemma recover_this r n down : stranded_row r -> scene r None down n ->
  scene (recovered r) None down (run_ (recover_task node_id (task_from_result id r)) n).2.
Proof.
  intros (Hst & _ & _) Hn. unfold recover_task, ask. cbn [bindP run TaskMeta.id TaskMeta.current_execution_id task_from_result].
  match goal with |- context [RedisLock _ ?v ?t ?o] =>
    destruct (scene_lock v t o r down n ltac:(done) ltac:(done) Hn) as (n1 & -> & H1) end.
  cbn [negb scope_exit bindP run].
  pose proof (scene_recover r _ down n1 Hst H1) as H2.
  destruct (handle_call _ (RecoverTaskExecution id _) n1) as [b n2]. cbn [snd fst] in *.
  match goal with |- context [RedisUnlock _ ?v] => pose proof (scene_unlock v _ down n2 ltac:(done) H2) as H3 end.
  cbn [run]. by destruct (handle_call _ (RedisUnlock _ _) n2) as [b' n3].
Qed.

Lemma recovery_makes_due r n down : stranded_row r \/ due_row r -> scene r None down n ->
  exists r', due_row r' /\ r_handler r' = r_handler r /\ scene r' None down (run_ (recoverStaleExecutions config node_id) n).2.
Proof.
  intros Hr Hn. unfold recoverStaleExecutions, ask. cbn [bindP run].
  destruct (call_query (GetStaleRunningTasks (stale_after_sec config) kStaleRecoveryBatchSize) [] _ r None down n (fun _ => eq_refl) Hn)
    as (t & now & n1 & Ht & Hnow & -> & Hs).
  unfold query_stale. rewrite (proj2 (Z.ltb_ge _ _)) by (pose proof stale_after_positive; lia).
  destruct Hr as [Hr|Hr].
  - destruct (listed_split (fun x => is_stale now (stale_after_sec config) x.2)
      (fun a b => dt_key_le (r_started_at a.2) (r_started_at b.2)) kStaleRecoveryBatchSize r t Ht ltac:(unfold kStaleRecoveryBatchSize; lia)
      (is_stale_row r now Hr Hnow)) as (l1 & l2 & -> & H1 & H2).
    exists (recovered r). split; [apply Hr|]. split; [done|].
    assert (Hsplit : forall l1 l2 n, run_ (pfor (recover_task node_id) (l1 ++ l2)) n =
      run_ (pfor (recover_task node_id) l2) (run_ (pfor (recover_task node_id) l1) n).2).
    { clear. induction l1 as [|a l1 IH]; intros l2 n; [done|]. cbn [app pfor]. by rewrite !run_bind, IH. }
    rewrite Hsplit. cbn [pfor]. rewrite run_bind. apply recover_others; [done|]. apply recover_this; [done|].
    by apply recover_others.
  - exists r. split; [done|]. split; [done|]. apply recover_others; [|done].
    apply (others_only _ _ kStaleRecoveryBatchSize r t Ht ltac:(unfold kStaleRecoveryBatchSize; lia)).
    unfold is_stale. cbn. by rewrite (proj1 Hr).
Qed.

(** ** Dispatch *)

(** The job of this task was handed to the pool. *)
Definition started (tr : list (Effects.Event SchedE)) : Prop :=
  exists j, Called (Enqueue j) true ∈ tr /\ TaskMeta.id (job_task j) = id.

Lemma started_app_l tr tr' : started tr -> started (tr ++ tr').
Proof. intros (j & Hj & Hi). exists j. split; [set_solver|done]. Qed.
Lemma started_app_r tr tr' : started tr' -> started (tr ++ tr').
Proof. intros (j & Hj & Hi). exists j. split; [set_solver|done]. Qed.
Lemma started_cons ev tr : started tr -> started (ev :: tr).
Proof. apply (started_app_r [ev]). Qed.

Lemma claim_starts value e r n : value <> EmptyString -> due_row r -> scene r (Some value) [] n ->
  started (trace_ (claim_and_enqueue node_id (task_from_result id r) key value e) n).
Proof.
  intros Hv Hr Hn. unfold claim_and_enqueue, ask.
  cbn [bindP trace_of TaskMeta.id TaskMeta.next_run_at task_from_result].
  (* NewSource *)
  assert (Hnew : exists s n1, handle_call _ NewSource n = (s, n1) /\ scene r (Some value) [s] n1).
  { apply scene_env in Hn. unfold handle. cbn [answer]. set (n0 := count_call _) in *. clearbody n0.
    destruct Hn as [H1 H2 H3 H4 H5 H6]. eexists _, _. split; [done|]. split; try done. apply Forall_singleton.
    cbn. rewrite length_app. cbn. split; [lia|]. unfold Cancellation.load. by rewrite lookup_app_r, Nat.sub_diag by done. }
  destruct Hnew as (s & n1 & -> & H1). apply started_cons.
  pose proof (scene_call (LeaseAdd key value kTaskLockTtlSec s) _ _ _ n1 ltac:(done) H1) as H2.
  destruct (handle_call _ (LeaseAdd _ _ _ _) n1) as [[] n2]. apply started_cons.
  pose proof (scene_call (RegisterTask id e s) _ _ _ n2 ltac:(done) H2) as H3.
  destruct (handle_call _ (RegisterTask _ _ _) n2) as [[] n3]. apply started_cons.
  destruct (scene_claim e r _ _ n3 Hr H3) as (n4 & r' & -> & H4). cbn [negb bindP trace_of]. apply started_cons.
  (* IsCanceled *)
  assert (Hc : exists n5, handle_call _ (IsCanceled (token s)) n4 = (false, n5) /\ scene r' (Some value) [s] n5).
  { pose proof (scene_call (IsCanceled (token s)) _ _ _ n4 ltac:(done) H4) as H5. apply scene_env in H4.
    unfold handle in *. cbn [answer] in *. set (n0 := count_call _) in *. clearbody n0. unfold on_flags, zoom, gets in *.
    destruct (Forall_inv (sc_down _ _ _ _ H4)) as [_ Hs]. cbn [isCancellationRequested token existsb] in *. rewrite Hs in *.
    by eexists. }
  destruct Hc as (n5 & -> & H5). cbn [bindP trace_of]. apply started_cons.
  apply scene_env in H5. unfold handle. cbn [answer]. set (n0 := count_call _) in *. clearbody n0.
  match goal with |- context [enqueue_job room ?k ?j] => destruct (enqueue_ok k j _ _ _ n0 H5) as [He _] end.
  unfold on_pool, zoom. destruct (enqueue_job _ _ _ _) as [b p]. cbn [fst] in He. subst b.
  eexists. split; [by left|done].
Qed.

Lemma dispatch_starts r n : node_id <> EmptyString -> due_row r -> scene r None [] n ->
  started (trace_ (dispatch_task node_id local_to_utc (task_from_result id r)) n).
Proof.
  intros Hid Hr Hn. unfold dispatch_task. rewrite trace_bind. apply started_app_r.
  assert (Ho : always says_nothing (observe_delay local_to_utc (task_from_result id r)) (fun _ => True))
    by (unfold observe_delay; says_nothing_about).
  apply (scene_always _ _ _ _ _ _ Ho) in Hn as [Hn _]. set (n1 := (run_ _ n).2) in *. clearbody n1.
  rewrite trace_bind. apply started_app_r.
  assert (He : always says_nothing (next_execution_id (TaskMeta.id (task_from_result id r))) (fun _ => True))
    by (unfold next_execution_id; says_nothing_about).
  apply (scene_always _ _ _ _ _ _ He) in Hn as [Hn _]. set (e := (run_ _ n1).1). set (n2 := (run_ _ n1).2) in *. clearbody n2 e.
  unfold ask. cbn [bindP trace_of TaskMeta.id task_from_result].
  match goal with |- context [RedisLock _ ?v ?t ?o] =>
    destruct (scene_lock v t o r [] n2 ltac:(by apply value_nonempty) ltac:(done) Hn) as (n3 & -> & H3);
    assert (Hv : v <> EmptyString) by (by apply value_nonempty) end.
  apply started_cons. cbn [bindP trace_of].
  pose proof (scene_call (Metric IncLockAcquireSuccess) _ _ _ n3 ltac:(done) H3) as H4.
  destruct (handle_call _ (Metric _) n3) as [[] n4]. apply started_cons. by apply claim_starts.
Qed.

(** ** The tasks of a scan *)

(** The scan has not concluded that nobody serves the handler. *)
Definition cache_ok (h : gmap string bool) : Prop := h !! handler <> Some false.

Lemma service_nonempty : service <> EmptyString.
Proof. by destruct service_name. Qed.

Lemma available_ok h hd r down n : cache_ok h -> scene r None down n ->
  let x := run_ (handler_available service_name h hd) n in
  scene r None down x.2 /\ cache_ok x.1.2 /\ (hd = handler -> x.1.1 = true).
Proof.
  intros Hc Hn. unfold handler_available. destruct (h !! hd) as [b|] eqn:E.
  - split; [done|]. split; [done|]. intros ->. cbn. destruct b; [done|]. by destruct Hc.
  - unfold ask. cbn [bindP run]. pose proof (scene_call (DiscoverServices (service_name +:+ ":" +:+ hd)) _ _ _ n ltac:(done) Hn) as H1.
    apply scene_env in Hn. unfold handle in *. cbn [answer] in *. set (n0 := count_call _) in *. clearbody n0.
    pose proof (discover_ok hiredis key service endpoint t0 lasts (cw_redis HW) None (service_name +:+ ":" +:+ hd) (nd_redis n0)
      (sc_redis _ _ _ _ Hn)) as [_ Hd].
    unfold on_redis, zoom in *. destruct (discoverServices hiredis (service_name +:+ ":" +:+ hd) (nd_redis n0)) as [l c].
    cbn [fst snd run retM] in *. split; [done|].
    assert (Hl : hd = handler -> l <> []) by (intros ->; apply Hd; [done|apply service_nonempty]). split.
    + unfold cache_ok. destruct (decide (hd = handler)) as [->|Hne]; [|by rewrite lookup_insert_ne].
      rewrite lookup_insert_eq. specialize (Hl eq_refl). by destruct l.
    + intros ->. specialize (Hl eq_refl). by destruct l.
Qed.

Context (Hpolicy : misfire_policy config <> "skip"%string).

Abbreviation scan_one := (scan_task config node_id service_name utc_to_local local_to_utc cron_next).

Lemma scan_other h task r n : TaskMeta.id task <> id -> cache_ok h -> scene r None [] n ->
  scene r None [] (run_ (scan_one h task) n).2 /\ cache_ok (run_ (scan_one h task) n).1.
Proof.
  intros Hj Hc Hn. unfold scan_task. rewrite (proj2 (String.eqb_neq _ _)) by done. cbn [bindP]. rewrite run_bind.
  destruct (available_ok h (TaskMeta.handler task) r [] n Hc Hn) as (H1 & H2 & _).
  destruct (run_ (handler_available service_name h (TaskMeta.handler task)) n) as [[b h'] n1]. cbn [fst snd] in *.
  destruct b; cbn [negb]; [|done]. rewrite run_bind. cbn [run retM fst snd].
  by destruct (scene_always _ _ _ _ _ n1 (dispatch_other task Hj) H1).
Qed.

Lemma scan_this h r n : node_id <> EmptyString -> r_handler r = handler -> due_row r -> cache_ok h -> scene r None [] n ->
  started (trace_ (scan_one h (task_from_result id r)) n).
Proof.
  intros Hid Hh Hr Hc Hn. unfold scan_task. rewrite (proj2 (String.eqb_neq _ _)) by done. cbn [bindP]. rewrite trace_bind.
  apply started_app_r. destruct (available_ok h (TaskMeta.handler (task_from_result id r)) r [] n Hc Hn) as (H1 & _ & H3).
  rewrite (H3 Hh). cbn [negb]. rewrite trace_bind. apply started_app_l. by apply dispatch_starts.
Qed.

Lemma scan_reaches l1 l2 h r n : node_id <> EmptyString -> r_handler r = handler -> due_row r ->
  Forall (fun task => TaskMeta.id task <> id) l1 -> cache_ok h -> scene r None [] n ->
  started (trace_ (pfold scan_one h (l1 ++ task_from_result id r :: l2)) n).
Proof.
  intros Hid Hh Hr Hl. revert h n. induction Hl as [|task l1 Ht _ IH]; intros h n Hc Hn; cbn [app pfold]; rewrite trace_bind.
  - apply started_app_l. by apply scan_this.
  - apply started_app_r. destruct (scan_other h task r n Ht Hc Hn) as [H1 H2]. by apply IH.
Qed.


End Scan.

(** A task that node1 claimed and never finished, a scan of node2 two hours
    later, and a worker whose heartbeat comes in meanwhile. *)
Module TakeoverExample.
Import ProtocolExample MySQLExample RedisClientExample NodeExample.

#[local] Existing Instance transport.

Abbreviation worker := "127.0.0.1:9000"%string.

Definition three : civil := exist _ 1715958000 eq_refl.

Definition later (k : nat) : Tick civil := mkTick three [] (inr false) Ok.
Definition beat : nat -> RTick := hold [mkRTick [(4000, Register "rpc:backup" worker 30)] 5000 ROk].

Definition survivor : @Node civil Store () () :=
  mkNode (connected [Some true] running) (mkRc redis 0 [true] 0 no_error)
    (new_pool (mkPoolOptions 4 2 3000 true 500 "rpc"), ()) [false] ∅ (mkRenewer ∅ true)
    (newPool 2 8 50 0) zero_metrics 0 7 true 0.

Definition left_running : TaskRow civil :=
  mkTaskRow "0 0 12 * * *" "{}" "backup" TASK_RUNNING (Some noon) None 0 3 (Some "e1"%string) (Some "node1"%string) (Some one) noon.

Abbreviation answers_of_survivor :=
  (handle true later beat (fun _ i => 50 * Z.of_nat i) (fun _ => 1715958000 * ns_per_sec) (fun _ => 0)
     (fun _ => 8%nat) (fun s => s) (fun _ => None) (fun _ n => n)).
Abbreviation survivor_scan :=
  (scanAndDispatch (mkConfig (fun _ => None) ∅) "node2" "rpc" Some Some (fun _ t => Some (t + 86400))).

Lemma beat_ok : redis_answers beat "task:t1" "rpc:backup" worker 0 30000.
Proof.
  split.
  - intros [|k]; reflexivity.
  - intros [|k].
    + cbn. split; [lia|]. split; [|lia]. split; [done|]. split; [left; split; [done|lia]|].
      unfold renewed. cbn [own_beat]. rewrite decide_True by done. lia.
    + destruct k; vm_compute; discriminate.
  - intros [|k]; reflexivity.
Defined.

Lemma survivor_calm : calm_world later beat (fun _ (n : @Node civil Store () ()) => n) "rpc" "t1" "backup" worker 1715958000 0 30000.
Proof.
  split.
  - split; [done|done|intros k; constructor|]. intros k. cbn. lia.
  - apply beat_ok.
  - intros k n Hn. by split.
Defined.

Lemma survivor_scene : scene beat "rpc" "t1" "backup" worker 0 30000 left_running None [] survivor.
Proof.
  split; try done.
  - split; [split; [reflexivity|vm_compute; lia]|done].
  - split; [left; reflexivity|]. exists 30000. split; [lia|]. split; [|reflexivity].
    exists {[worker]}. split; [reflexivity|]. intros _. set_solver.
  - constructor.
Defined.


End TakeoverExample.
