(* ===== verification/EpollLoop.v ===== *)
(** The event loop ([net/epoll_loop.cpp]) and the coroutines suspended on it
    ([coroutine/task.hpp]).

    Callbacks and coroutines are opaque values: what one does when it is run is
    a sequence of calls of the loop's own methods, given by [callback_ops] and
    [coroutine_ops], and whether it throws.  Everything here runs on the loop's
    thread, except [stop], whose two parts, the flag and the write to the wake
    descriptor, another thread may also make while the loop waits.  Of the
    kernel: [epoll_wait] without a time limit returns only when a descriptor it
    watches is ready, when it is interrupted, or with an error; an eventfd is
    ready from a write until it is read. *)
From S2P Require Import Prelude.

Section EpollLoop.
Context {Callback Coroutine : Type}.

(** What is called for a descriptor: the callback of the wake descriptor, which
    reads it empty, or one that was given to [addFd]. *)
Inductive Watcher := Drain | User (cb : Callback).

(** [lp_interest] is the kernel's interest list, [lp_signalled] whether the
    counter of the wake descriptor is above zero.  The three logs are not in the
    code: every coroutine that was ever suspended, resumed, or dropped with its
    descriptor. *)
Record Loop := mkLoop {
  lp_open : bool;                       (* epoll_fd_ != -1 *)
  lp_wake : option Z;                   (* wake_fd_, [None] for -1 *)
  lp_signalled : bool;
  lp_stop_requested : bool;
  lp_callbacks : gmap Z Watcher;
  lp_coro_callbacks : gmap Z Coroutine;
  lp_interest : gset Z;
  lp_suspended_log : list Coroutine;
  lp_resumed_log : list Coroutine;
  lp_dropped_log : list Coroutine
}.

Definition new_loop : Loop := mkLoop false None false false ∅ ∅ ∅ [] [] [].

Definition set_callbacks (f : gmap Z Watcher -> gmap Z Watcher) (s : Loop) : Loop :=
  mkLoop (lp_open s) (lp_wake s) (lp_signalled s) (lp_stop_requested s) (f (lp_callbacks s)) (lp_coro_callbacks s) (lp_interest s)
    (lp_suspended_log s) (lp_resumed_log s) (lp_dropped_log s).
Definition set_interest (f : gset Z -> gset Z) (s : Loop) : Loop :=
  mkLoop (lp_open s) (lp_wake s) (lp_signalled s) (lp_stop_requested s) (lp_callbacks s) (lp_coro_callbacks s) (f (lp_interest s))
    (lp_suspended_log s) (lp_resumed_log s) (lp_dropped_log s).

Definition log_resumed (c : Coroutine) (s : Loop) : Loop :=
  mkLoop (lp_open s) (lp_wake s) (lp_signalled s) (lp_stop_requested s) (lp_callbacks s) (lp_coro_callbacks s) (lp_interest s)
    (lp_suspended_log s) (lp_resumed_log s ++ [c]) (lp_dropped_log s).
Definition log_dropped (cs : list Coroutine) (s : Loop) : Loop :=
  mkLoop (lp_open s) (lp_wake s) (lp_signalled s) (lp_stop_requested s) (lp_callbacks s) (lp_coro_callbacks s) (lp_interest s)
    (lp_suspended_log s) (lp_resumed_log s) (lp_dropped_log s ++ cs).

(** [epoll_ctl(EPOLL_CTL_ADD)]: refused for a descriptor that is in the list,
    and whenever the kernel says so ([ok]). *)
Definition ctl_add (ok : bool) (fd : Z) (s : Loop) : bool := ok && bool_decide (fd ∉ lp_interest s).

Definition may_add (fd : Z) (s : Loop) : bool := lp_open s && (0 <=? fd) && negb (lp_stop_requested s).

Definition addFd (ok : bool) (fd : Z) (cb : Watcher) (s : Loop) : bool * Loop :=
  if may_add fd s && ctl_add ok fd s then
    (true, set_callbacks <[fd := cb]> (set_interest (fun i => {[fd]} ∪ i) s))
  else (false, s).

(** [EPOLL_CTL_MOD] fails for a descriptor that is not in the list. *)
Definition modFd (ok : bool) (fd : Z) (s : Loop) : bool := may_add fd s && ok && bool_decide (fd ∈ lp_interest s).

Definition addCoroutine (ok : bool) (fd : Z) (c : Coroutine) (s : Loop) : bool * Loop :=
  if may_add fd s && ctl_add ok fd s then
    (true, mkLoop (lp_open s) (lp_wake s) (lp_signalled s) (lp_stop_requested s) (lp_callbacks s) (<[fd := c]> (lp_coro_callbacks s))
             ({[fd]} ∪ lp_interest s) (lp_suspended_log s ++ [c]) (lp_resumed_log s) (lp_dropped_log s))
  else (false, s).

Definition dropped_with (fd : Z) (s : Loop) : list Coroutine :=
  match lp_coro_callbacks s !! fd with Some c => [c] | None => [] end.

Definition delFd (fd : Z) (s : Loop) : Loop :=
  mkLoop (lp_open s) (lp_wake s) (lp_signalled s) (lp_stop_requested s) (delete fd (lp_callbacks s)) (delete fd (lp_coro_callbacks s))
    (lp_interest s ∖ {[fd]}) (lp_suspended_log s) (lp_resumed_log s) (lp_dropped_log s ++ dropped_with fd s).

(** The parts of [stop]: [stop_requested_.exchange(true)], which answers what
    the flag was, and the write to the wake descriptor. *)
Definition exchange_stop (s : Loop) : bool * Loop :=
  (lp_stop_requested s,
   mkLoop (lp_open s) (lp_wake s) (lp_signalled s) true (lp_callbacks s) (lp_coro_callbacks s) (lp_interest s)
     (lp_suspended_log s) (lp_resumed_log s) (lp_dropped_log s)).
Definition write_wake (s : Loop) : Loop :=
  match lp_wake s with
  | Some _ =>
      mkLoop (lp_open s) (lp_wake s) true (lp_stop_requested s) (lp_callbacks s) (lp_coro_callbacks s) (lp_interest s)
        (lp_suspended_log s) (lp_resumed_log s) (lp_dropped_log s)
  | None => s
  end.

Definition stop (s : Loop) : Loop :=
  let '(was, s) := exchange_stop s in if (was : bool) then s else write_wake s.

Definition isStopping (s : Loop) : bool := lp_stop_requested s.

(** [init]: the descriptors of [epoll_create1] and [eventfd], negative on an
    error, and the outcome of the first [epoll_ctl]. *)
Definition opened (wake_fd : Z) (s : Loop) : Loop :=
  mkLoop true (Some wake_fd) false (lp_stop_requested s) (lp_callbacks s) (lp_coro_callbacks s) (lp_interest s)
    (lp_suspended_log s) (lp_resumed_log s) (lp_dropped_log s).

Definition init (epoll_fd wake_fd : Z) (ok : bool) (s : Loop) : bool * Loop :=
  if lp_open s then (negb (lp_stop_requested s), s)
  else if lp_stop_requested s then (false, s)
  else if epoll_fd <? 0 then (false, s)
  else if wake_fd <? 0 then (false, s)
  else
    match addFd ok wake_fd Drain (opened wake_fd s) with
    | (true, s') => (true, s')
    | (false, _) => (false, s)
    end.

(** ** Running *)

(** The methods a callback or a coroutine may call. *)
Inductive LoopOp :=
| OAddFd (ok : bool) (fd : Z) (cb : Callback)
| OModFd (ok : bool) (fd : Z)
| OAddCoroutine (ok : bool) (fd : Z) (c : Coroutine)
| ODelFd (fd : Z)
| OStop.

Definition run_op (s : Loop) (o : LoopOp) : Loop :=
  match o with
  | OAddFd ok fd cb => (addFd ok fd (User cb) s).2
  | OModFd _ _ => s
  | OAddCoroutine ok fd c => (addCoroutine ok fd c s).2
  | ODelFd fd => delFd fd s
  | OStop => stop s
  end.

Definition run_ops (ops : list LoopOp) (s : Loop) : Loop := foldl run_op s ops.

Context (callback_ops : Callback -> Z -> Loop -> list LoopOp * bool)
        (coroutine_ops : Coroutine -> Loop -> list LoopOp * bool).

(** The reads of the wake descriptor, until it is empty. *)
Definition drain (s : Loop) : Loop :=
  mkLoop (lp_open s) (lp_wake s) false (lp_stop_requested s) (lp_callbacks s) (lp_coro_callbacks s) (lp_interest s)
    (lp_suspended_log s) (lp_resumed_log s) (lp_dropped_log s).

(** The answer is whether it returned without throwing. *)
Definition call_callback (cb : Watcher) (fd : Z) : M Loop bool := fun s =>
  match cb with
  | Drain => (true, drain s)
  | User cb => let '(ops, ok) := callback_ops cb fd s in (ok, run_ops ops s)
  end.
Definition resume (c : Coroutine) : M Loop bool := fun s =>
  let '(ops, ok) := coroutine_ops c s in (ok, run_ops ops s).

(** The coroutine waiting for [fd] is taken out of the table. *)
Definition take_coroutine (fd : Z) (c : Coroutine) (s : Loop) : Loop :=
  mkLoop (lp_open s) (lp_wake s) (lp_signalled s) (lp_stop_requested s) (delete fd (lp_callbacks s)) (delete fd (lp_coro_callbacks s))
    (lp_interest s ∖ {[fd]}) (lp_suspended_log s) (lp_resumed_log s ++ [c]) (lp_dropped_log s).

(** One event; [false]: an exception. *)
Definition handle_event (fd : Z) : M Loop bool := fun s =>
  let '(ok, s) := match lp_callbacks s !! fd with
                  | Some callback => call_callback callback fd s
                  | None => (true, s)
                  end in
  if negb ok then (false, s)
  else
    match lp_coro_callbacks s !! fd with
    | Some cb => resume cb (take_coroutine fd cb s)
    | None => (true, s)
    end.

Fixpoint handle_events (fds : list Z) : M Loop bool :=
  match fds with
  | [] => retM true
  | fd :: fds' => let* ok := handle_event fd in if (ok : bool) then handle_events fds' else retM false
  end.

(** What ends a wait, or may: a signal, an error, or that these descriptors are
    ready (the wake descriptor is only when it was written to). *)
Inductive WaitResult := Interrupted | WaitFailed | Ready (fds : list Z).

(** What another thread does meanwhile: a part of its call of [stop]. *)
Inductive Meanwhile := Nothing | Exchange | Wake.

Definition between (m : Meanwhile) (s : Loop) : Loop :=
  match m with Nothing => s | Exchange => (exchange_stop s).2 | Wake => write_wake s end.

Definition wake_ready (s : Loop) : bool :=
  lp_signalled s && match lp_wake s with Some fd => bool_decide (fd ∈ lp_interest s) | None => false end.

(** What [epoll_wait] reports when [fds] are ready: those it watches; and it
    does not stay blocked while the wake descriptor is ready. *)
Definition reported (fds : list Z) (s : Loop) : list Z :=
  match filter (fun fd => fd ∈ lp_interest s /\ (lp_wake s = Some fd -> lp_signalled s = true)) fds with
  | [] => if wake_ready s then match lp_wake s with Some fd => [fd] | None => [] end else []
  | l => l
  end.

(** The rounds of [run]; [blocked]: inside [epoll_wait], which goes on waiting
    while there is nothing to report.  [None]: still running after all that
    has happened. *)
Fixpoint rounds (blocked : bool) (waits : list (Meanwhile * WaitResult)) : M Loop (option bool) := fun s =>
  if negb blocked && lp_stop_requested s then (Some true, s)
  else
    match waits with
    | [] => (None, s)
    | (meanwhile, w) :: waits' =>
        let s := between meanwhile s in
        match w with
        | Interrupted => rounds false waits' s
        | WaitFailed => (Some false, s)
        | Ready fds =>
            match reported fds s with
            | [] => rounds true waits' s
            | l => let '(ok, s) := handle_events l s in if (ok : bool) then rounds false waits' s else (Some false, s)
            end
        end
    end.

(** The callbacks of [pending] in turn; an exception leaves the loop, and
    destroys those after it. *)
Fixpoint resume_all (pending : list Coroutine) : M Loop bool :=
  match pending with
  | [] => retM true
  | c :: pending' => fun s =>
      let '(ok, s) := resume c (log_resumed c s) in
      if (ok : bool) then resume_all pending' s else (false, log_dropped pending' s)
  end.

Definition resumePendingCoroutines : M Loop bool := fun s =>
  let pending := map snd (map_to_list (lp_coro_callbacks s)) in
  resume_all pending
    (mkLoop (lp_open s) (lp_wake s) (lp_signalled s) (lp_stop_requested s) (lp_callbacks s) ∅
       (lp_interest s ∖ dom (lp_coro_callbacks s))
       (lp_suspended_log s) (lp_resumed_log s) (lp_dropped_log s)).

(** What became of a call of [run]. *)
Inductive RunResult := Returned (success : bool) | Threw | Running.

Definition after_pending (success : bool) : M Loop RunResult :=
  let* ok := resumePendingCoroutines in retM (if (ok : bool) then Returned success else Threw).

Definition run (waits : list (Meanwhile * WaitResult)) : M Loop RunResult := fun s =>
  if negb (lp_open s) || lp_stop_requested s then after_pending (lp_open s) s
  else
    match rounds false waits s with
    | (None, s) => (Running, s)
    | (Some success, s) => after_pending success s
    end.

(** ** Invariant *)

Abbreviation waiting_coros s := (map snd (map_to_list (lp_coro_callbacks s))).

(** [pending]: taken out of the table and not resumed yet. *)
Record loop_ok_with (pending : list Coroutine) (s : Loop) : Prop := {
  interest_exact : lp_interest s = dom (lp_callbacks s) ∪ dom (lp_coro_callbacks s);
  tables_disjoint : dom (lp_callbacks s) ## dom (lp_coro_callbacks s);
  every_coroutine : lp_suspended_log s ≡ₚ lp_resumed_log s ++ lp_dropped_log s ++ waiting_coros s ++ pending;
  wake_watched fd : lp_wake s = Some fd -> lp_callbacks s !! fd = Some Drain
}.
Abbreviation loop_ok := (loop_ok_with []).

Lemma new_loop_ok : loop_ok new_loop.
Proof. split; simpl; [by rewrite !dom_empty_L, union_empty_l_L|set_solver|by rewrite !map_to_list_empty|done]. Qed.

Lemma waiting_insert fd c m : m !! fd = None ->
  map snd (map_to_list (<[fd := c]> m)) ≡ₚ c :: map snd (map_to_list (m : gmap Z Coroutine)).
Proof. intros H. by rewrite map_to_list_insert. Qed.

Lemma waiting_delete fd c m : m !! fd = Some c ->
  map snd (map_to_list (m : gmap Z Coroutine)) ≡ₚ c :: map snd (map_to_list (delete fd m)).
Proof. intros H. by rewrite <- (map_to_list_delete m fd c). Qed.

Lemma wake_in_interest pn s fd : loop_ok_with pn s -> lp_wake s = Some fd -> fd ∈ lp_interest s.
Proof. intros [Hi _ _ Hw] E. rewrite Hi. apply elem_of_union_l, elem_of_dom. rewrite (Hw fd E). eauto. Qed.

Lemma addFd_ok pn ok fd cb s : loop_ok_with pn s -> loop_ok_with pn (addFd ok fd cb s).2.
Proof.
  intros H. pose proof (wake_in_interest pn s) as Hwi. pose proof H as [Hi Hd Hc Hw].
  unfold addFd, ctl_add. destruct (_ && _) eqn:E; [|done].
  rewrite !andb_true_iff, bool_decide_eq_true in E. destruct E as (_ & _ & Hn).
  split; simpl; [set_solver|rewrite Hi in Hn; set_solver|done|].
  intros w E. rewrite lookup_insert_ne; [by apply Hw|]. intros ->. apply Hn. by apply Hwi.
Qed.

Lemma addCoroutine_ok pn ok fd c s : loop_ok_with pn s -> loop_ok_with pn (addCoroutine ok fd c s).2.
Proof.
  intros [Hi Hd Hc Hw]. unfold addCoroutine, ctl_add. destruct (_ && _) eqn:E; [|done].
  rewrite !andb_true_iff, bool_decide_eq_true, Hi in E. destruct E as (_ & _ & Hn).
  split; simpl; [set_solver|set_solver| |done].
  rewrite waiting_insert by (apply not_elem_of_dom; set_solver). rewrite Hc.
  rewrite <- !app_assoc. apply Permutation_app_head. solve_Permutation.
Qed.

Lemma delFd_ok pn fd s : lp_wake s <> Some fd -> loop_ok_with pn s -> loop_ok_with pn (delFd fd s).
Proof.
  intros Hne [Hi Hd Hc Hw]. split; simpl.
  - rewrite !dom_delete_L, Hi. set_solver.
  - set_solver.
  - rewrite Hc. unfold dropped_with. destruct (lp_coro_callbacks s !! fd) as [c|] eqn:Ec.
    + rewrite (waiting_delete _ _ _ Ec). by rewrite <- !app_assoc.
    + by rewrite delete_id, app_nil_r.
  - intros w E. rewrite lookup_delete_ne by congruence. by apply Hw.
Qed.

Lemma take_coroutine_ok pn fd c s : lp_coro_callbacks s !! fd = Some c -> loop_ok_with pn s -> loop_ok_with pn (take_coroutine fd c s).
Proof.
  intros Ec [Hi Hd Hc Hw]. split; simpl.
  - rewrite !dom_delete_L, Hi. set_solver.
  - set_solver.
  - rewrite Hc, (waiting_delete _ _ _ Ec). solve_Permutation.
  - intros w E. rewrite lookup_delete_ne; [by apply Hw|]. intros ->.
    apply (Hd w); apply elem_of_dom; [rewrite (Hw w E)|rewrite Ec]; eauto.
Qed.

Lemma between_ok pn m s : loop_ok_with pn s -> loop_ok_with pn (between m s).
Proof. intros [Hi Hd Hc Hw]. destruct m; simpl; [done|done|]. unfold write_wake. by destruct (lp_wake s) eqn:E; split; simpl; rewrite ?E. Qed.

Lemma stop_ok pn s : loop_ok_with pn s -> loop_ok_with pn (stop s).
Proof.
  intros H. unfold stop. pose proof (between_ok pn Exchange s H) as H1. cbn [between] in H1.
  destruct (exchange_stop s) as [[] s']; [done|]. by apply (between_ok pn Wake).
Qed.

Lemma drain_ok pn s : loop_ok_with pn s -> loop_ok_with pn (drain s).
Proof. by intros [Hi Hd Hc Hw]. Qed.

(** Once asked to stop, a loop takes no coroutine. *)
Definition winding_down (s : Loop) : Prop := lp_stop_requested s = true /\ lp_coro_callbacks s = ∅.

Lemma stop_requests s : lp_stop_requested (stop s) = true /\ lp_coro_callbacks (stop s) = lp_coro_callbacks s /\ lp_wake (stop s) = lp_wake s.
Proof. unfold stop, exchange_stop, write_wake. simpl. by destruct (lp_stop_requested s), (lp_wake s). Qed.

Lemma stop_interest s : lp_interest (stop s) = lp_interest s.
Proof. unfold stop, exchange_stop, write_wake. simpl. by destruct (lp_stop_requested s), (lp_wake s). Qed.

(** The wake descriptor is private to the loop: what the callbacks remove is
    another one. *)
Definition spares_wake (s : Loop) (o : LoopOp) : Prop := match o with ODelFd fd => lp_wake s <> Some fd | _ => True end.

Context (callbacks_spare : forall cb fd s, Forall (spares_wake s) (callback_ops cb fd s).1)
        (coroutines_spare : forall c s, Forall (spares_wake s) (coroutine_ops c s).1).

(** What running a callback keeps; a request to stop is never taken back. *)
Record keeps (pending : list Coroutine) (s s' : Loop) : Prop := mkKeeps {
  keeps_ok : loop_ok_with pending s';
  keeps_stop : lp_stop_requested s = true -> lp_stop_requested s' = true;
  keeps_wake : lp_wake s' = lp_wake s
}.

Lemma keeps_refl pn s : loop_ok_with pn s -> keeps pn s s.
Proof. by split. Qed.
Lemma keeps_trans pn s1 s2 s3 : keeps pn s1 s2 -> keeps pn s2 s3 -> keeps pn s1 s3.
Proof. intros [? ? ?] [? ? ?]. split; auto; congruence. Qed.

Lemma run_op_ok pn s o : loop_ok_with pn s -> spares_wake s o ->
  loop_ok_with pn (run_op s o) /\ (lp_stop_requested s = true -> lp_stop_requested (run_op s o) = true) /\
  (winding_down s -> winding_down (run_op s o)) /\ lp_wake (run_op s o) = lp_wake s.
Proof.
  intros Hs Ho. destruct (stop_requests s) as (Hs1 & Hs2 & Hs3). split_and!.
  - destruct o; simpl; auto using addFd_ok, addCoroutine_ok, delFd_ok, stop_ok.
  - intros H. destruct o; simpl; unfold addFd, addCoroutine; repeat case_match; done.
  - intros [H He]. destruct o; simpl; unfold winding_down; rewrite ?Hs1, ?Hs2, ?He; unfold addFd, addCoroutine, may_add; rewrite ?H, ?andb_false_r; simpl;
      rewrite ?He, ?delete_empty; done.
  - destruct o; simpl; unfold addFd, addCoroutine; repeat case_match; done.
Qed.

Lemma run_ops_ok pn ops s : loop_ok_with pn s -> Forall (spares_wake s) ops ->
  keeps pn s (run_ops ops s) /\ (winding_down s -> winding_down (run_ops ops s)).
Proof.
  revert s. induction ops as [|o ops IH]; intros s Hs Hf; [done|]. cbn [run_ops foldl]. apply Forall_cons in Hf as [Ho Hf].
  destruct (run_op_ok _ s o Hs Ho) as (H1 & H2 & H3 & H4).
  assert (Hf' : Forall (spares_wake (run_op s o)) ops).
  { eapply Forall_impl; [exact Hf|]. intros []; simpl; by rewrite ?H4. }
  destruct (IH _ H1 Hf') as [[H5 H6 H7] H8]. split; [split; [done|by auto|etrans; [exact H7|exact H4]]|by auto].
Qed.

Lemma resume_ok pn c s : loop_ok_with pn s ->
  keeps pn s (resume c s).2 /\ (winding_down s -> winding_down (resume c s).2).
Proof.
  intros Hs. unfold resume. pose proof (coroutines_spare c s) as Hc. destruct (coroutine_ops c s) as [ops ok]. by apply run_ops_ok.
Qed.

Lemma call_callback_ok pn cb fd s : loop_ok_with pn s -> keeps pn s (call_callback cb fd s).2.
Proof.
  intros Hs. destruct cb as [|cb]; simpl; [split; [by apply drain_ok|done|done]|].
  pose proof (callbacks_spare cb fd s) as Hc. destruct (callback_ops cb fd s) as [ops ok]. by apply run_ops_ok.
Qed.

Lemma handle_event_ok pn fd s : loop_ok_with pn s -> keeps pn s (handle_event fd s).2.
Proof.
  intros Hs. unfold handle_event. set (r := match lp_callbacks s !! fd with Some _ => _ | None => _ end).
  assert (H1 : keeps pn s r.2) by (unfold r; destruct (lp_callbacks s !! fd); [by apply call_callback_ok|by apply keeps_refl]).
  clearbody r. destruct r as [[] s1]; simpl in *; [|done].
  destruct (lp_coro_callbacks s1 !! fd) as [c|] eqn:Ec; [|done].
  destruct (resume_ok pn c _ (take_coroutine_ok _ _ _ _ Ec (keeps_ok _ _ _ H1))) as [[H2 H3 H4] _].
  eapply keeps_trans; [exact H1|by split].
Qed.

Lemma handle_events_ok pn fds s : loop_ok_with pn s -> keeps pn s (handle_events fds s).2.
Proof.
  revert s. induction fds as [|fd fds IH]; intros s Hs; [by apply keeps_refl|]. cbn [handle_events]. unfold bindM.
  pose proof (handle_event_ok pn fd s Hs) as H1. destruct (handle_event fd s) as [[] s']; simpl in *; [|done].
  eapply keeps_trans; [exact H1|]. apply IH, H1.
Qed.

Lemma rounds_ok pn blocked waits s : loop_ok_with pn s -> loop_ok_with pn (rounds blocked waits s).2.
Proof.
  revert blocked s. induction waits as [|[m w] waits IH]; intros blocked s Hs; cbn [rounds]; destruct (negb blocked && lp_stop_requested s); try done.
  pose proof (between_ok pn m s Hs) as Hb. destruct w as [| |fds]; [by apply IH|done|].
  destruct (reported fds (between m s)) as [|fd l]; [by apply IH|].
  destruct (handle_events_ok pn (fd :: l) _ Hb) as [H _ _]. destruct (handle_events (fd :: l) _) as [[] s']; [by apply IH|done].
Qed.

Lemma log_resumed_ok pn c s : loop_ok_with (c :: pn) s -> loop_ok_with pn (log_resumed c s).
Proof. intros [Hi Hd Hc Hw]. split; simpl; try done. rewrite Hc. solve_Permutation. Qed.

Lemma log_dropped_ok cs s : loop_ok_with cs s -> loop_ok (log_dropped cs s).
Proof. intros [Hi Hd Hc Hw]. split; simpl; try done. rewrite Hc. solve_Permutation. Qed.

Lemma resume_all_ok pending s : loop_ok_with pending s ->
  loop_ok (resume_all pending s).2 /\ (winding_down s -> winding_down (resume_all pending s).2).
Proof.
  revert s. induction pending as [|c pending IH]; intros s Hs; [done|]. cbn [resume_all].
  destruct (resume_ok _ c _ (log_resumed_ok _ _ _ Hs)) as [[H1 _ _] H2].
  destruct (resume c _) as [[] s']; simpl in *; [|split; [by apply log_dropped_ok|by intros; apply H2]].
  destruct (IH s' H1). auto.
Qed.

Lemma resumePending_ok s : loop_ok s ->
  loop_ok (resumePendingCoroutines s).2 /\
  (lp_stop_requested s = true -> winding_down (resumePendingCoroutines s).2).
Proof.
  intros [Hi Hd Hc Hw]. unfold resumePendingCoroutines.
  match goal with |- context [resume_all _ ?s] => set (s' := s) end.
  assert (Hs' : loop_ok_with (waiting_coros s) s').
  { split; simpl; [rewrite dom_empty_L, Hi; set_solver|set_solver| |done].
    rewrite map_to_list_empty, Hc. simpl. by rewrite app_nil_r. }
  destruct (resume_all_ok _ s' Hs') as [H1 H2]. split; [done|]. intros Hst. by apply H2.
Qed.

(** ** Termination and the end of a run *)

Lemma rounds_requested waits s : lp_stop_requested s = true -> rounds false waits s = (Some true, s).
Proof. intros H. destruct waits as [|[? ?] ?]; cbn [rounds]; by rewrite H. Qed.

Lemma between_stop m s : lp_stop_requested s = true -> lp_stop_requested (between m s) = true.
Proof. intros H. destruct m; simpl; [done|done|]. unfold write_wake. by destruct (lp_wake s). Qed.

Lemma between_wake m s : lp_wake (between m s) = lp_wake s.
Proof. destruct m; simpl; [done|done|]. unfold write_wake. by destruct (lp_wake s) eqn:E; rewrite ?E. Qed.

(** While the wake descriptor is ready [epoll_wait] does not block. *)
Lemma reported_awake pn s fds : loop_ok_with pn s -> is_Some (lp_wake s) -> lp_signalled s = true -> reported fds s <> [].
Proof.
  intros Hs [fd Ew] Hg. unfold reported, wake_ready. destruct (filter _ fds); [|done].
  rewrite Hg, Ew. by rewrite bool_decide_true by by eapply wake_in_interest.
Qed.

(** The flag is set: the write that follows it ends the wait. *)
Lemma rounds_woken pn blocked waits s : loop_ok_with pn s -> is_Some (lp_wake s) -> lp_stop_requested s = true ->
  Wake ∈ map fst waits -> (rounds blocked waits s).1 <> None.
Proof.
  revert blocked s. induction waits as [|[m w] waits IH]; intros blocked s Hs Hw Hst Hin; [by apply elem_of_nil in Hin|].
  cbn [rounds]. rewrite Hst, andb_true_r. destruct blocked; cbn [negb]; [|done].
  pose proof (between_ok pn m s Hs) as Hb. pose proof (between_stop m s Hst) as Hbs.
  assert (Hbw : is_Some (lp_wake (between m s))) by by rewrite between_wake.
  destruct w as [| |fds]; [by rewrite rounds_requested|done|].
  destruct (reported fds (between m s)) as [|fd l] eqn:Er.
  - apply elem_of_cons in Hin as [Hin|Hin]; [|by apply IH]. simpl in Hin. subst m. exfalso.
    apply (reported_awake pn _ fds Hb Hbw); [|done]. simpl. unfold write_wake. by destruct Hw as [fd ->].
  - destruct (handle_events_ok pn (fd :: l) _ Hb) as [_ H _]. destruct (handle_events (fd :: l) _) as [[] s']; [|done].
    rewrite rounds_requested; [done|by apply H].
Qed.

(** A whole call of [stop] by another thread: the exchange, and later the write. *)
Definition stop_called (waits : list (Meanwhile * WaitResult)) : Prop :=
  exists before after w, waits = before ++ (Exchange, w) :: after /\ Wake ∈ map fst after.

Lemma rounds_end pn blocked waits s : loop_ok_with pn s -> is_Some (lp_wake s) ->
  stop_called waits -> (rounds blocked waits s).1 <> None.
Proof.
  intros Hs Hw (before & after & w0 & -> & Hin). revert blocked s Hs Hw.
  induction before as [|[m w] before IH]; intros blocked s Hs Hw; cbn [app rounds]; destruct (negb blocked && lp_stop_requested s); try done.
  - pose proof (between_ok pn Exchange s Hs) as Hb. assert (Hst : lp_stop_requested (between Exchange s) = true) by done.
    destruct w0 as [| |fds]; [by rewrite rounds_requested|done|].
    destruct (reported fds (between Exchange s)) as [|fd l]; [by apply (rounds_woken pn)|].
    destruct (handle_events_ok pn (fd :: l) _ Hb) as [_ H _]. destruct (handle_events (fd :: l) _) as [[] s']; [|done].
    rewrite rounds_requested; [done|by apply H].
  - pose proof (between_ok pn m s Hs) as Hb. assert (Hbw : is_Some (lp_wake (between m s))) by by rewrite between_wake.
    destruct w as [| |fds]; [by apply IH|done|].
    destruct (reported fds (between m s)) as [|fd l]; [by apply IH|].
    destruct (handle_events_ok pn (fd :: l) _ Hb) as [H1 _ H3]. destruct (handle_events (fd :: l) _) as [[] s']; [|done].
    apply IH; [done|]. simpl in H3. by rewrite H3.
Qed.

Lemma after_pending_ok success s : loop_ok s ->
  loop_ok (after_pending success s).2 /\ (after_pending success s).1 <> Running /\
  (lp_stop_requested s = true -> winding_down (after_pending success s).2).
Proof.
  intros Hs. destruct (resumePending_ok s Hs). unfold after_pending, bindM, retM.
  by destruct (resumePendingCoroutines s) as [[] s'].
Qed.

(** A coroutine can only be left waiting by a loop that nobody asked to stop. *)
Lemma rounds_unasked blocked waits s s' : rounds blocked waits s = (Some true, s') -> lp_stop_requested s' = true.
Proof.
  revert blocked s. induction waits as [|[m w] waits IH]; intros blocked s; cbn [rounds].
  - destruct blocked, (lp_stop_requested s) eqn:E; try done. by intros [= <-].
  - destruct (negb blocked && lp_stop_requested s) eqn:E; [intros [= <-]; by apply andb_true_iff in E as [_ E]|].
    destruct w as [| |fds]; [apply IH|done|]. destruct (reported fds _) as [|fd l]; [apply IH|].
    by destruct (handle_events (fd :: l) _) as [[] ?]; [apply IH|].
Qed.

(** C17.  The event loop strands no coroutine: whatever the callbacks and the
    coroutines do when they are run (short of removing the loop's private wake
    descriptor), the loop's tables agree with what the kernel watches; when
    another thread calls [stop], its flag and its write to the wake descriptor
    end [run] even if nothing else ever becomes ready; and when [run] returns
    success the loop was asked to stop and every coroutine ever suspended on it
    has been resumed, or dropped with its descriptor by [delFd], exactly
    once. *)
Theorem stopped_loop_strands_no_coroutine waits s :
  loop_ok s -> lp_open s = true -> is_Some (lp_wake s) ->
  loop_ok (run waits s).2 /\
  (stop_called waits -> (run waits s).1 <> Running) /\
  ((run waits s).1 = Returned true ->
     lp_stop_requested (run waits s).2 = true /\
     lp_coro_callbacks (run waits s).2 = ∅ /\
     lp_suspended_log (run waits s).2 ≡ₚ lp_resumed_log (run waits s).2 ++ lp_dropped_log (run waits s).2).
Proof.
  intros Hs Ho Hw. unfold run. rewrite Ho. cbn [negb orb].
  assert (Hend : forall success s1, loop_ok s1 -> (success = true -> lp_stop_requested s1 = true) ->
    (after_pending success s1).1 = Returned true -> winding_down (after_pending success s1).2).
  { intros success s1 H1 H2 Hr. apply after_pending_ok; [done|]. apply H2. revert Hr.
    unfold after_pending, bindM, retM. destruct (resumePendingCoroutines s1) as [[] ?]; by intros [= ->]. }
  assert (Hwd : forall s1, loop_ok s1 -> winding_down s1 ->
    lp_stop_requested s1 = true /\ lp_coro_callbacks s1 = ∅ /\ lp_suspended_log s1 ≡ₚ lp_resumed_log s1 ++ lp_dropped_log s1).
  { intros s1 [_ _ Hc _] [Hst He]. split; [done|]. split; [done|]. rewrite Hc, He, map_to_list_empty. simpl. by rewrite app_nil_r. }
  destruct (lp_stop_requested s) eqn:Est.
  - destruct (after_pending_ok true s Hs) as (H1 & H2 & H3). split_and!; [done|done|]. intros Hr. apply Hwd; auto.
  - pose proof (rounds_ok _ false waits s Hs) as Hr. pose proof (rounds_end _ false waits s Hs Hw) as Hn.
    pose proof (rounds_unasked false waits s) as Hu.
    destruct (rounds false waits s) as [[success|] s1]; simpl in Hr, Hn.
    + destruct (after_pending_ok success s1 Hr) as (H1 & H2 & _). split_and!; [done|done|].
      intros He. apply Hwd; [done|]. apply Hend; [done| |done]. intros ->. by apply (Hu s1).
    + split_and!; [done|by intros ?%Hn|done].
Qed.

End EpollLoop.

Arguments Loop : clear implicits.

(** Coroutines that wait for their own descriptor again whenever they may, as a
    connection's handler does when a read would block. *)
Module LoopExample.

Definition callback_ops (cb : Z) (fd : Z) (s : Loop Z Z) : list (@LoopOp Z Z) * bool :=
  ([OAddCoroutine true (cb + 10) (cb + 10); OAddCoroutine true (cb + 11) (cb + 11)], true).
Definition coroutine_ops (c : Z) (s : Loop Z Z) : list (@LoopOp Z Z) * bool :=
  (if isStopping s || bool_decide (lp_wake s = Some 14) then [] else [OAddCoroutine true c c; ODelFd 14], true).

(** The wake descriptor is 3, the listening socket 4. *)
Definition listening : Loop Z Z := (addFd true 4 (User 4) (init 2 3 true new_loop).2).2.
Definition loop_run (waits : list (Meanwhile * WaitResult)) := run callback_ops coroutine_ops waits listening.

Lemma listening_ok : loop_ok_with [] listening.
Proof.
  unfold listening. apply addFd_ok.
  split; simpl; [set_solver|set_solver|reflexivity|by intros fd [= <-]].
Qed.

Lemma callbacks_spare cb fd s : Forall (spares_wake s) (callback_ops cb fd s).1.
Proof. repeat constructor. Qed.
Lemma coroutines_spare c s : Forall (spares_wake s) (coroutine_ops c s).1.
Proof. unfold coroutine_ops. destruct (isStopping s); simpl; [constructor|]. case_bool_decide; repeat constructor. done. Qed.

(** The listening socket becomes ready, then the two connections; then the loop
    waits with nothing to do while another thread stops it. *)
Definition served : list (Meanwhile * WaitResult) :=
  [(Nothing, Ready [4]); (Nothing, Interrupted); (Nothing, Ready [15; 14]); (Nothing, Ready []); (Exchange, Ready []);
   (Wake, Ready [])].

Lemma stopped_loop_strands_no_coroutine_witness :
  loop_ok_with [] (loop_run served).2 /\
  (loop_run served).1 <> Running /\
  lp_coro_callbacks (loop_run served).2 = ∅ /\
  lp_suspended_log (loop_run served).2 ≡ₚ lp_resumed_log (loop_run served).2 ++ lp_dropped_log (loop_run served).2.
Proof.
  destruct (stopped_loop_strands_no_coroutine callback_ops coroutine_ops callbacks_spare coroutines_spare served listening
    listening_ok eq_refl (ex_intro _ 3 eq_refl)) as (H1 & H2 & H3).
  split; [exact H1|]. split.
  - apply H2. exists (take 4 served), [(Wake, Ready [])], (Ready []). split; [reflexivity|]. by left.
  - apply H3. reflexivity.
Defined.

(** One of the two was dropped with its descriptor, the other resumed twice. *)
Example served_logs :
  lp_suspended_log (loop_run served).2 = [14; 15; 15] /\
  lp_resumed_log (loop_run served).2 = [15; 15] /\ lp_dropped_log (loop_run served).2 = [14].
Proof. by vm_compute. Qed.

(** Before the write, the loop still waits although the flag is set. *)
Example waits_for_the_write : (loop_run (take 5 served)).1 = Running.
Proof. by vm_compute. Qed.

(** Without a request to stop, the claim fails: when [epoll_wait] fails,
    [resumePendingCoroutines] resumes each coroutine with [isStopping()] still
    false, so it suspends again, on a loop that has returned. *)
Example failed_loop_strands_coroutines :
  let waits := [(Nothing, Ready [4]); (Nothing, WaitFailed)] in
  (loop_run waits).1 = Returned false /\
  lp_resumed_log (loop_run waits).2 = [15; 14] /\
  map snd (map_to_list (lp_coro_callbacks (loop_run waits).2)) = [15].
Proof. by vm_compute. Qed.

End LoopExample.
