(* ===== verification/Task.v ===== *)
(** Coroutine frames and the [Task] objects that own them, and what a coroutine
    waits for on the event loop ([coroutine/task.hpp]). *)
From S2P Require Import Prelude EpollLoop.

(** ** Frames *)

(** A frame that has not been destroyed. *)
Record Frame := mkFrame { fr_done : bool; fr_detached : bool }.

(** [tk_objects]: the live [Task] objects with their [handle].  [tk_destroyed]
    lists the frames destroyed. *)
Record Tasks := mkTasks {
  tk_frames : gmap nat Frame;
  tk_objects : gmap nat (option nat);
  tk_destroyed : list nat
}.

Definition no_tasks : Tasks := mkTasks ∅ ∅ [].

(** [handle.destroy()]; [None]: the frame does not exist. *)
Definition destroy (h : nat) (s : Tasks) : option Tasks :=
  match tk_frames s !! h with
  | Some _ => Some (mkTasks (delete h (tk_frames s)) (tk_objects s) (tk_destroyed s ++ [h]))
  | None => None
  end.

Definition set_object (t : nat) (handle : option nat) (s : Tasks) : Tasks :=
  mkTasks (tk_frames s) (<[t := handle]> (tk_objects s)) (tk_destroyed s).
Definition set_frame (h : nat) (f : Frame) (s : Tasks) : Tasks :=
  mkTasks (<[h := f]> (tk_frames s)) (tk_objects s) (tk_destroyed s).
Definition forget_object (t : nat) (s : Tasks) : Tasks :=
  mkTasks (tk_frames s) (delete t (tk_objects s)) (tk_destroyed s).

(** [initial_suspend] does not suspend: when the call returns the coroutine has
    run to its first suspension, or to its end. *)
Definition get_return_object (t h : nat) (finished : bool) (s : Tasks) : Tasks :=
  set_object t (Some h) (set_frame h (mkFrame finished false) s).

(** [~Task] *)
Definition destroy_task (t : nat) (s : Tasks) : option Tasks :=
  match tk_objects s !! t with
  | Some (Some h) => s ← destroy h s; Some (forget_object t s)
  | Some None => Some (forget_object t s)
  | None => None
  end.

(** [Task(Task&&)] makes the object [t] out of [other]. *)
Definition move_construct (t other : nat) (s : Tasks) : option Tasks :=
  match tk_objects s !! other with
  | Some handle => Some (set_object t handle (set_object other None s))
  | None => None
  end.

(** [operator=(Task&&)] *)
Definition move_assign (t other : nat) (s : Tasks) : option Tasks :=
  if decide (t = other) then Some s
  else
    match tk_objects s !! t, tk_objects s !! other with
    | Some handle, Some handle' =>
        s ← match handle with Some h => destroy h s | None => Some s end;
        Some (set_object t handle' (set_object other None s))
    | _, _ => None
    end.

(** [spawn] *)
Definition spawn (t : nat) (s : Tasks) : option Tasks :=
  match tk_objects s !! t with
  | Some (Some owned) =>
      match tk_frames s !! owned with
      | Some f =>
          let s := set_object t None s in
          if fr_done f then destroy owned s else Some (set_frame owned (mkFrame (fr_done f) true) s)
      | None => None
      end
  | Some None => Some s
  | None => None
  end.

(** [FinalAwaiter::await_suspend]: the coroutine [h] comes to its end. *)
Definition final_suspend (h : nat) (s : Tasks) : option Tasks :=
  match tk_frames s !! h with
  | Some f =>
      let s := set_frame h (mkFrame true (fr_detached f)) s in
      if fr_detached f then destroy h s else Some s
  | None => None
  end.

(** What a program does with tasks. *)
Inductive TaskOp :=
| Call (t h : nat) (finished : bool)
| Destruct (t : nat)
| MoveConstruct (t other : nat)
| MoveAssign (t other : nat)
| Spawn (t : nat)
| Finish (h : nat).

(** An object is made once and used while it lives; a frame is made once; and a
    coroutine that comes to its end was suspended, in a frame that exists. *)
Definition possible (o : TaskOp) (s : Tasks) : Prop :=
  match o with
  | Call t h _ => tk_objects s !! t = None /\ tk_frames s !! h = None /\ h ∉ tk_destroyed s
  | Destruct t | Spawn t => is_Some (tk_objects s !! t)
  | MoveConstruct t other => tk_objects s !! t = None /\ is_Some (tk_objects s !! other)
  | MoveAssign t other => is_Some (tk_objects s !! t) /\ is_Some (tk_objects s !! other)
  | Finish h => exists f, tk_frames s !! h = Some f /\ fr_done f = false
  end.

Definition task_op (o : TaskOp) (s : Tasks) : option Tasks :=
  match o with
  | Call t h finished => Some (get_return_object t h finished s)
  | Destruct t => destroy_task t s
  | MoveConstruct t other => move_construct t other s
  | MoveAssign t other => move_assign t other s
  | Spawn t => spawn t s
  | Finish h => final_suspend h s
  end.

(** A run; [None]: a frame was destroyed twice. *)
Inductive task_run : list TaskOp -> Tasks -> option Tasks -> Prop :=
| run_nil s : task_run [] s (Some s)
| run_wrong o ops s : possible o s -> task_op o s = None -> task_run (o :: ops) s None
| run_cons o ops s s' r : possible o s -> task_op o s = Some s' -> task_run ops s' r -> task_run (o :: ops) s r.

(** ** Ownership *)

(** [loose]: frames that no object owns for a moment. *)
Record tasks_ok_with (loose : gset nat) (s : Tasks) : Prop := {
  owned_alive t h : tk_objects s !! t = Some (Some h) ->
    (h ∉ loose) /\ (exists f, tk_frames s !! h = Some f /\ fr_detached f = false);
  one_owner t u h : tk_objects s !! t = Some (Some h) -> tk_objects s !! u = Some (Some h) -> t = u;
  frame_kept h f : tk_frames s !! h = Some f ->
    if fr_detached f then fr_done f = false else (h ∈ loose \/ exists t, tk_objects s !! t = Some (Some h));
  loose_alive h : h ∈ loose -> exists f, tk_frames s !! h = Some f /\ fr_detached f = false;
  destroyed_gone h : h ∈ tk_destroyed s -> tk_frames s !! h = None;
  destroyed_once : NoDup (tk_destroyed s)
}.
Abbreviation tasks_ok := (tasks_ok_with ∅).

Definition held (handle : option nat) : gset nat := if handle is Some h then {[h]} else ∅.

Lemma no_tasks_ok : tasks_ok no_tasks.
Proof. split; simpl; try set_solver. constructor. Qed.

Lemma release_ok loose t handle s : tk_objects s !! t = Some handle ->
  tasks_ok_with loose s -> tasks_ok_with (held handle ∪ loose) (set_object t None s).
Proof.
  intros Ht [H1 H2 H3 H4 H5 H6]. split; simpl; try done.
  - intros u h [[? ?]|[Hn Hu]]%lookup_insert_Some; [done|]. destruct (H1 u h Hu) as [Hl Hf]. split; [|done].
    destruct handle as [h'|]; simpl; [|set_solver]. intros [->%elem_of_singleton|?]%elem_of_union; [|done]. by apply Hn, (H2 t u h').
  - intros u v h [[? ?]|[_ Hu]]%lookup_insert_Some [[? ?]|[_ Hv]]%lookup_insert_Some; try done. by apply (H2 u v h).
  - intros h f Hf. specialize (H3 h f Hf). destruct (fr_detached f); [done|].
    destruct H3 as [Hl|[u Hu]]; [set_solver|]. destruct (decide (t = u)) as [->|Hn].
    + rewrite Ht in Hu. simplify_eq. set_solver.
    + right. exists u. by rewrite lookup_insert_ne.
  - intros h [Hh|Hh]%elem_of_union; [|by apply H4]. destruct handle; simpl in Hh; [|set_solver].
    apply elem_of_singleton in Hh as ->. by apply (H1 t).
Qed.

Lemma forget_ok loose t s : tk_objects s !! t = Some None ->
  tasks_ok_with loose s -> tasks_ok_with loose (forget_object t s).
Proof.
  intros Ht [H1 H2 H3 H4 H5 H6]. split; simpl; try done.
  - intros u h [_ Hu]%lookup_delete_Some. by apply (H1 u).
  - intros u v h [_ Hu]%lookup_delete_Some [_ Hv]%lookup_delete_Some. by apply (H2 u v h).
  - intros h f Hf. specialize (H3 h f Hf). destruct (fr_detached f); [done|].
    destruct H3 as [Hl|[u Hu]]; [by left|]. right. exists u. rewrite lookup_delete_ne; [done|]. intros ->. by rewrite Ht in Hu.
Qed.

Lemma give_ok loose t h s : h ∈ loose -> (forall h', tk_objects s !! t <> Some (Some h')) ->
  tasks_ok_with loose s -> tasks_ok_with (loose ∖ {[h]}) (set_object t (Some h) s).
Proof.
  intros Hl Ht [H1 H2 H3 H4 H5 H6]. split; simpl; try done.
  - intros u k [[_ [= <-]]|[_ Hu]]%lookup_insert_Some; [set_solver|]. destruct (H1 u k Hu). set_solver.
  - intros u v k [[<- [= <-]]|[_ Hu]]%lookup_insert_Some [[<- Hk]|[_ Hv]]%lookup_insert_Some; try done.
    + by destruct (H1 v h Hv).
    + injection Hk as ->. by destruct (H1 u k Hu).
    + by apply (H2 u v k).
  - intros k f Hf. specialize (H3 k f Hf). destruct (fr_detached f); [done|].
    destruct (decide (k = h)) as [->|Hn]; [right; exists t; by rewrite lookup_insert_eq|].
    destruct H3 as [?|[u Hu]]; [left; set_solver|]. right. exists u. rewrite lookup_insert_ne; [done|]. intros <-. by apply (Ht k).
  - intros k Hk. apply H4. set_solver.
Qed.

Lemma destroy_ok loose h f s : tk_frames s !! h = Some f -> (forall t, tk_objects s !! t <> Some (Some h)) ->
  tasks_ok_with loose s ->
  destroy h s = Some (mkTasks (delete h (tk_frames s)) (tk_objects s) (tk_destroyed s ++ [h])) /\
  tasks_ok_with (loose ∖ {[h]}) (mkTasks (delete h (tk_frames s)) (tk_objects s) (tk_destroyed s ++ [h])).
Proof.
  intros Hf Hno [H1 H2 H3 H4 H5 H6]. unfold destroy. rewrite Hf.
  split; [done|]. split; simpl; try done.
  - intros t k Ht. destruct (H1 t k Ht) as (Hk & f' & Hf' & Hd). split; [set_solver|]. exists f'.
    split; [|done]. rewrite lookup_delete_ne; [done|]. intros ->. by apply (Hno t).
  - intros k f' [Hn Hk]%lookup_delete_Some. specialize (H3 k f' Hk). destruct (fr_detached f'); [done|].
    destruct H3 as [?|?]; [left; set_solver|by right].
  - intros k Hk. destruct (H4 k) as (f' & Hf' & Hd); [set_solver|]. exists f'. split; [|done].
    rewrite lookup_delete_ne; [done|]. set_solver.
  - intros k [Hk| ->%list_elem_of_singleton]%elem_of_app; [|by rewrite lookup_delete_eq].
    apply lookup_delete_None. right. by apply H5.
  - apply NoDup_app. split_and!; [done| |by apply NoDup_singleton].
    intros k Hk ->%list_elem_of_singleton. by rewrite H5 in Hf.
Qed.

Lemma detach_ok loose h s : h ∈ loose -> tasks_ok_with loose s ->
  tasks_ok_with (loose ∖ {[h]}) (set_frame h (mkFrame false true) s).
Proof.
  intros Hl [H1 H2 H3 H4 H5 H6]. split; simpl; try done.
  - intros t k Ht. destruct (H1 t k Ht) as (Hk & f & Hf & Hd). split; [set_solver|]. exists f.
    split; [|done]. rewrite lookup_insert_ne; [done|]. by intros ->.
  - intros k f [[<- <-]|[Hn Hk]]%lookup_insert_Some; [done|]. specialize (H3 k f Hk).
    destruct (fr_detached f); [done|]. destruct H3; [left; set_solver|by right].
  - intros k Hk. destruct (H4 k) as (f & Hf & Hd); [set_solver|]. exists f. split; [|done].
    rewrite lookup_insert_ne; [done|]. set_solver.
  - intros k Hk. rewrite lookup_insert_ne; [by apply H5|]. intros ->. destruct (H4 k Hl) as (? & Hf & _). by rewrite H5 in Hf.
Qed.

Lemma finish_ok loose h f s : tk_frames s !! h = Some f -> fr_detached f = false -> tasks_ok_with loose s ->
  tasks_ok_with loose (set_frame h (mkFrame true false) s).
Proof.
  intros Hf Hd [H1 H2 H3 H4 H5 H6].
  assert (Hp : forall k, (exists f, tk_frames s !! k = Some f /\ fr_detached f = false) ->
    exists f, <[h := mkFrame true false]> (tk_frames s) !! k = Some f /\ fr_detached f = false).
  { intros k (f' & Hf' & Hd'). destruct (decide (h = k)) as [->|Hn]; [rewrite lookup_insert_eq|rewrite lookup_insert_ne by done]; eauto. }
  split; simpl; try done.
  - intros t k Ht. destruct (H1 t k Ht). auto.
  - intros k f' [[<- <-]|[Hn Hk]]%lookup_insert_Some; [|by apply H3]. specialize (H3 h f Hf). by rewrite Hd in H3.
  - intros k Hk. auto.
  - intros k Hk. rewrite lookup_insert_ne; [by apply H5|]. intros ->. by rewrite H5 in Hf.
Qed.

Lemma new_frame_ok t h finished s : tk_objects s !! t = None -> tk_frames s !! h = None -> h ∉ tk_destroyed s ->
  tasks_ok s -> tasks_ok (get_return_object t h finished s).
Proof.
  intros Ht Hh Hd [H1 H2 H3 H4 H5 H6].
  assert (Hno : forall u, tk_objects s !! u <> Some (Some h)).
  { intros u Hu. destruct (H1 u h Hu) as (_ & f & Hf & _). by rewrite Hf in Hh. }
  split; simpl; try done.
  - intros u k [[<- [= <-]]|[Hn Hu]]%lookup_insert_Some; (split; [set_solver|]).
    + rewrite lookup_insert_eq. eauto.
    + rewrite lookup_insert_ne; [by apply (H1 u)|]. intros ->. by apply (Hno u).
  - intros u v k [[<- [= <-]]|[_ Hu]]%lookup_insert_Some [[<- Hk]|[_ Hv]]%lookup_insert_Some; try done.
    + by destruct (Hno v).
    + injection Hk as ->. by destruct (Hno u).
    + by apply (H2 u v k).
  - intros k f [[<- <-]|[Hn Hk]]%lookup_insert_Some; simpl; [right; exists t; by rewrite lookup_insert_eq|].
    specialize (H3 k f Hk). destruct (fr_detached f); [done|]. destruct H3 as [?|[u Hu]]; [by left|]. right. exists u.
    rewrite lookup_insert_ne; [done|]. intros ->. by rewrite Ht in Hu.
  - intros k Hk. rewrite lookup_insert_ne; [by apply H5|]. by intros ->.
Qed.

Lemma no_owner loose t h s : tasks_ok_with loose s -> h ∈ loose -> tk_objects s !! t <> Some (Some h).
Proof. intros [H1 _ _ _ _ _] Hl Ht. by destruct (H1 t h Ht). Qed.

Lemma released_empty h : held (Some h) ∪ ∅ ∖ {[h]} = {[h]}.
Proof. set_solver. Qed.

Lemma destroy_loose h s : tasks_ok_with {[h]} s -> exists s', destroy h s = Some s' /\ tasks_ok s'.
Proof.
  intros Hs. destruct (loose_alive _ _ Hs h) as (f & Hf & _); [set_solver|].
  destruct (destroy_ok _ h f s Hf (fun t => no_owner _ t h s Hs ltac:(set_solver)) Hs) as [H1 H2].
  eexists. split; [done|]. by rewrite difference_diag_L in H2.
Qed.

(** What [destroy] does does not depend on the objects. *)
Lemma destroy_objects h s s' ob : destroy h (mkTasks (tk_frames s) ob (tk_destroyed s)) = Some s' ->
  destroy h s = Some (mkTasks (tk_frames s') (tk_objects s) (tk_destroyed s')) /\ tk_objects s' = ob.
Proof. unfold destroy. simpl. destruct (tk_frames s !! h); [|done]. by intros [= <-]. Qed.

Lemma destroy_held loose handle ob s : tasks_ok_with (held handle ∪ loose) (mkTasks (tk_frames s) ob (tk_destroyed s)) ->
  held handle ## loose ->
  exists s', match handle with Some h => destroy h s | None => Some s end = Some s' /\ tk_objects s' = tk_objects s /\
    tasks_ok_with loose (mkTasks (tk_frames s') ob (tk_destroyed s')).
Proof.
  intros Hs Hd. destruct handle as [h|]; simpl in *; [|rewrite union_empty_l_L in Hs; eauto].
  destruct (loose_alive _ _ Hs h) as (f & Hf & _); [set_solver|].
  destruct (destroy_ok _ h f _ Hf (fun t => no_owner _ t h _ Hs ltac:(set_solver)) Hs) as [H1 H2].
  destruct (destroy_objects _ _ _ _ H1) as [H3 _]. eexists. split_and!; [done|done|]. simpl.
  replace (({[h]} ∪ loose) ∖ {[h]}) with loose in H2 by set_solver. done.
Qed.

(** No possible step destroys a frame twice, and each keeps the invariant. *)
Lemma destroy_task_ok t s : tasks_ok s -> is_Some (tk_objects s !! t) ->
  exists s', destroy_task t s = Some s' /\ tasks_ok s'.
Proof.
  intros Hs [handle Ht]. pose proof (release_ok _ t _ s Ht Hs) as Hr.
  apply forget_ok with (t := t) in Hr; [|apply lookup_insert_eq].
  destruct (destroy_held ∅ handle _ s Hr) as (s' & Hd & Ho & Hok); [set_solver|].
  exists (forget_object t s'). unfold destroy_task. rewrite Ht. split; [destruct handle; simplify_eq; by rewrite ?Hd|].
  unfold forget_object. rewrite Ho. simpl in Hok. by rewrite delete_insert_eq in Hok.
Qed.

Lemma move_in_ok loose t other handle s : t <> other -> tk_objects s !! other = Some handle ->
  (forall h, tk_objects s !! t <> Some (Some h)) -> tasks_ok_with loose s ->
  tasks_ok_with loose (set_object t handle (set_object other None s)).
Proof.
  intros Hn Ho Ht Hs. pose proof (release_ok _ other _ s Ho Hs) as Hr.
  destruct handle as [h|]; simpl in *.
  - destruct (owned_alive _ _ Hs other h Ho) as [Hl _].
    apply (give_ok _ t h) in Hr; [|set_solver|simpl; intros h'; rewrite lookup_insert_ne by done; apply Ht].
    by replace (({[h]} ∪ loose) ∖ {[h]}) with loose in Hr by set_solver.
  - rewrite union_empty_l_L in Hr. destruct Hr as [H1 H2 H3 H4 H5 H6]. split; simpl in *; try done.
    + intros u h [[? ?]|[_ Hu]]%lookup_insert_Some; [done|by apply (H1 u)].
    + intros u v h [[? ?]|[_ Hu]]%lookup_insert_Some [[? ?]|[_ Hv]]%lookup_insert_Some; try done. by apply (H2 u v h).
    + intros h f Hf. specialize (H3 h f Hf). destruct (fr_detached f); [done|]. destruct H3 as [?|[u Hu]]; [by left|].
      right. exists u. rewrite lookup_insert_ne; [done|]. intros ->. rewrite lookup_insert_ne in Hu by done. by apply (Ht h).
Qed.

Lemma move_assign_ok t other s : tasks_ok s -> is_Some (tk_objects s !! t) -> is_Some (tk_objects s !! other) ->
  exists s', move_assign t other s = Some s' /\ tasks_ok s'.
Proof.
  intros Hs [handle Ht] [handle' Ho]. unfold move_assign. destruct (decide (t = other)); [by exists s|].
  rewrite Ht, Ho. pose proof (release_ok _ t _ s Ht Hs) as Hr.
  assert (Hm : tasks_ok_with (held handle ∪ ∅) (set_object t handle' (set_object other None (set_object t None s)))).
  { apply move_in_ok; [done|simpl; by rewrite lookup_insert_ne|intros h; simpl; by rewrite lookup_insert_eq|done]. }
  destruct (destroy_held ∅ handle _ s Hm) as (s' & -> & Hob & Hok); [set_solver|]. cbn [mbind option_bind].
  eexists. split; [done|]. unfold set_object in *. simpl in *.
  rewrite Hob. by rewrite (insert_insert_ne _ other t), insert_insert_eq in Hok by done.
Qed.

Lemma spawn_ok t s : tasks_ok s -> is_Some (tk_objects s !! t) -> exists s', spawn t s = Some s' /\ tasks_ok s'.
Proof.
  intros Hs [[h|] Ht]; unfold spawn; rewrite Ht; [|by exists s].
  destruct (owned_alive _ _ Hs t h Ht) as (_ & f & Hf & Hd). rewrite Hf.
  pose proof (release_ok _ t _ s Ht Hs) as Hr. destruct (fr_done f) eqn:Ef.
  - destruct (destroy_held ∅ (Some h) _ (set_object t None s) Hr) as (s' & -> & Hob & Hok); [set_solver|].
    eexists. split; [done|]. simpl in Hob, Hok. rewrite <- Hob in Hok. by destruct s'.
  - eexists. split; [done|]. apply (detach_ok _ h) in Hr; [|set_solver].
    by replace ((held (Some h) ∪ ∅) ∖ {[h]}) with (∅ : gset nat) in Hr by (simpl; set_solver).
Qed.

Lemma final_suspend_ok h f s : tasks_ok s -> tk_frames s !! h = Some f ->
  exists s', final_suspend h s = Some s' /\ tasks_ok s'.
Proof.
  intros Hs Hf. unfold final_suspend. rewrite Hf. destruct (fr_detached f) eqn:Ed.
  - assert (Hno : forall t, tk_objects s !! t <> Some (Some h)).
    { intros t Ht. destruct (owned_alive _ _ Hs t h Ht) as (_ & f' & Hf' & Hd). congruence. }
    destruct (destroy_ok ∅ h f s Hf Hno Hs) as [_ H2].
    unfold destroy, set_frame. simpl. rewrite lookup_insert_eq, delete_insert_eq. eexists. split; [done|].
    by replace (∅ ∖ {[h]}) with (∅ : gset nat) in H2 by set_solver.
  - eexists. split; [done|]. by apply finish_ok with (f := f).
Qed.

Lemma task_op_ok o s : tasks_ok s -> possible o s -> exists s', task_op o s = Some s' /\ tasks_ok s'.
Proof.
  intros Hs Hp. destruct o as [t h finished|t|t other|t other|t|h]; simpl in *.
  - destruct Hp as (Ht & Hh & Hd). eexists. split; [done|]. by apply new_frame_ok.
  - by apply destroy_task_ok.
  - destruct Hp as [Ht [handle Ho]]. unfold move_construct. rewrite Ho. eexists. split; [done|].
    apply move_in_ok; [|done|intros h; by rewrite Ht|done].
    intros E. rewrite E in Ht. congruence.
  - destruct Hp. by apply move_assign_ok.
  - by apply spawn_ok.
  - destruct Hp as (f & Hf & _). by apply final_suspend_ok with (f := f).
Qed.

(** C19.  Coroutine frames are neither destroyed twice nor leaked, whatever a
    program does with its [Task]s: every run of possible operations goes
    through, no frame is ever destroyed twice, and once no [Task] object is
    left and every coroutine has come to its end no frame is left. *)
Theorem frames_are_destroyed_once ops r :
  task_run ops no_tasks r ->
  exists s, r = Some s /\ NoDup (tk_destroyed s) /\
    (tk_objects s = ∅ -> (forall h f, tk_frames s !! h = Some f -> fr_done f = true) -> tk_frames s = ∅).
Proof.
  intros Hr. assert (Hok : exists s, r = Some s /\ tasks_ok s).
  { pose proof no_tasks_ok as Hs. revert Hs. induction Hr as [s|o ops s Hp He|o ops s s' r Hp He _ IH]; intros Hs.
    - by exists s.
    - destruct (task_op_ok o s Hs Hp) as (s' & He' & _). congruence.
    - destruct (task_op_ok o s Hs Hp) as (s1 & He' & Hs1). simplify_eq. auto. }
  destruct Hok as (s & -> & Hs). exists s. split_and!; [done|apply Hs|]. intros Ho Hdone.
  apply map_empty. intros h. destruct (tk_frames s !! h) as [f|] eqn:Hf; [|done]. exfalso.
  pose proof (frame_kept _ _ Hs h f Hf) as Hk. specialize (Hdone h f Hf).
  destruct (fr_detached f); [congruence|]. destruct Hk as [?|[t Ht]]; [set_solver|]. by rewrite Ho in Ht.
Qed.

(** A connection's handler that waits, and one that ends before it waits. *)
Definition two_handlers : list TaskOp :=
  [Call 1 10 false; Spawn 1; Destruct 1; Call 2 11 true; MoveConstruct 3 2; Destruct 2; Spawn 3; Destruct 3; Finish 10].

Lemma frames_are_destroyed_once_witness : exists s,
  foldl (fun s o => s ← s; task_op o s) (Some no_tasks) two_handlers = Some s /\ tk_destroyed s = [11; 10]%nat /\
  tk_frames s = ∅.
Proof.
  destruct (frames_are_destroyed_once two_handlers (foldl (fun s o => s ← s; task_op o s) (Some no_tasks) two_handlers))
    as (s & Hs & _ & Hleak).
  - unfold two_handlers. repeat match goal with |- task_run (?o :: _) ?s _ =>
      let v := eval vm_compute in (default no_tasks (task_op o s)) in
      apply (run_cons o _ s v); [vm_compute; split_and?; eauto; intros ?%elem_of_nil; done|vm_compute; reflexivity|] end.
    vm_compute. constructor.
  - exists s. split; [exact Hs|]. vm_compute in Hs. injection Hs as <-. split; [reflexivity|]. apply Hleak; [reflexivity|].
    intros h f Hf. exfalso. exact (lookup_empty_Some (M := gmap nat) h f Hf).
Defined.

(** ** Waiting for a descriptor *)

(** [SocketAwaitable]: [await_suspend] answers whether the coroutine has been
    suspended, which is what [registered_] remembers, and [await_resume] whether
    it may go on. *)
Section SocketAwaitable.
Context {Callback Coroutine : Type}.

Definition await_ready : bool := false.
Definition await_suspend (ok : bool) (fd : Z) (h : Coroutine) (s : Loop Callback Coroutine) :
    bool * Loop Callback Coroutine := addCoroutine ok fd h s.
Definition await_resume (registered : bool) (s : Loop Callback Coroutine) : bool := registered && negb (isStopping s).

End SocketAwaitable.
