(* ===== verification/Connection.v ===== *)
(** One client connection of the server: the coroutine [clientHandler] of
    [net/tcp_server.cpp].

    The handler is a program over the calls it makes; a [co_await] is a call
    that answers what the coroutine is resumed with.  [rounds] and [fuel] bound
    the loops that only the peer ends: when they are used up the handler is
    still running, and what is proved holds of its calls so far. *)
From S2P Require Import Prelude Protocol Effects Text Dispatcher Interceptor.

Open Scope prog_scope.

(** [RBytes chunk]: [read] returned [chunk.size()], zero at the end of the
    stream; [RRetry]: [EINTR], [EAGAIN] or [EWOULDBLOCK]. *)
Inductive ReadResult := RBytes (chunk : string) | RRetry | RError.
Inductive SendResult := Wrote (w : Z) | SAgain | SIntr | SError.

Inductive ConnMetric := BytesIn (n : Z) | BytesOut (n : Z) | MalformedFrame | ActiveDecremented.

Inductive ConnE : Type -> Type :=
| IsStopping : ConnE bool
| AwaitReadable : ConnE bool
| AwaitWritable : ConnE bool
| SockRead : ConnE ReadResult
| SockSend (data : string) : ConnE SendResult
| NextRequestId : ConnE string
| ConnSteadyNow : ConnE Z
| AwaitDispatch (context : RpcContext) (payload : string) : ConnE (list RpcResponse)
| CMetric (op : ConnMetric) : ConnE ()
(* [~ClientConnectionGuard] *)
| GuardDelFd : ConnE ()
| GuardClose : ConnE ()
| GuardRelease : ConnE ().

Abbreviation CP := (Prog ConnE).

Section Connection.
Context (codec : Codec) (remote : string).

(** The bytes of a response; a response too large to be framed is replaced by
    an error, and [None] is an error that cannot be framed either. *)
Definition encode_response (r : RpcResponse) : option string :=
  match tryEncode (rsp_serial_id r) (rsp_payload r) with
  | Some buffer => Some buffer
  | None =>
      let e := make_error_response codec PAYLOAD_TOO_LARGE "Response payload too large" in
      tryEncode (rsp_serial_id e) (rsp_payload e)
  end.

(** The rest of [response] from [sent] on; answers [closed]. *)
Fixpoint send_response (fuel : nat) (response : string) (sent : nat) : CP (option bool) :=
  match fuel with
  | O => Ret None
  | S fuel' =>
      if Z.of_nat sent <? slen response then
        do* w := ask (SockSend (str_drop sent response)) in
        match w with
        | Wrote w =>
            if 0 <? w then
              ask (CMetric (BytesOut (u64 w))) ;;! send_response fuel' response (sent + Z.to_nat w)
            else Ret (Some true)
        | SAgain =>
            do* writable := ask AwaitWritable in
            if (writable : bool) then send_response fuel' response sent else Ret (Some true)
        | SIntr => send_response fuel' response sent
        | SError => Ret (Some true)
        end
      else Ret (Some false)
  end.

Fixpoint send_responses (fuel : nat) (responses : list RpcResponse) : CP (option bool) :=
  match responses with
  | [] => Ret (Some false)
  | r :: rest =>
      match encode_response r with
      | None => Ret (Some true)
      | Some response =>
          do* closed := send_response fuel response 0 in
          match closed with
          | Some false => send_responses fuel rest
          | _ => Ret closed
          end
      end
  end.

Definition no_empty (responses : list RpcResponse) : list RpcResponse :=
  match responses with
  | [] => [make_error_response codec INTERNAL_ERROR "Empty RPC response"]
  | _ => responses
  end.

(** The complete frames of the buffer; answers the rest of it and [closed]. *)
Fixpoint serve_frames (fuel : nat) (read_buffer : string) : CP (option (string * bool)) :=
  match fuel with
  | O => Ret None
  | S fuel' =>
      let d := tryDecodeFrame read_buffer in
      match dec_status d, dec_frame d with
      | Incomplete, _ => Ret (Some (read_buffer, false))
      | Complete, Some (serial_id, payload) =>
          let read_buffer := str_drop (Z.to_nat (dec_frame_size d)) read_buffer in
          do* request_id := ask NextRequestId in
          do* now := ask ConnSteadyNow in
          let context := mkRpcContext request_id remote serial_id 0 EmptyString (slen payload) 0 now 0 false in
          do* responses := ask (AwaitDispatch context payload) in
          do* closed := send_responses fuel (no_empty responses) in
          match closed with
          | None => Ret None
          | Some true => Ret (Some (read_buffer, true))
          | Some false => serve_frames fuel' read_buffer
          end
      | _, _ => ask (CMetric MalformedFrame) ;;! Ret (Some (read_buffer, true))
      end
  end.

Fixpoint client_loop (rounds fuel : nat) (read_buffer : string) : CP (option ()) :=
  match rounds with
  | O => Ret None
  | S rounds' =>
      do* stopping := ask IsStopping in
      if (stopping : bool) then Ret (Some ())
      else
        do* readable := ask AwaitReadable in
        if negb readable then Ret (Some ())
        else
          do* n := ask SockRead in
          match n with
          | RBytes EmptyString | RError => Ret (Some ())
          | RRetry => client_loop rounds' fuel read_buffer
          | RBytes chunk =>
              ask (CMetric (BytesIn (slen chunk))) ;;!
              do* served := serve_frames fuel (read_buffer +:+ chunk) in
              match served with
              | None => Ret None
              | Some (_, true) => Ret (Some ())
              | Some (rest, false) => client_loop rounds' fuel rest
              end
          end
  end.

(** [connection_guard]: answers whether the handler has ended. *)
Definition clientHandler (rounds fuel : nat) : CP bool :=
  do* r := client_loop rounds fuel EmptyString in
  match r with
  | None => Ret false
  | Some _ =>
      ask GuardDelFd ;;! ask GuardClose ;;! ask GuardRelease ;;! ask (CMetric ActiveDecremented) ;;! Ret true
  end.

(** ** The frames of a stream of bytes *)

(** The complete frames at the start of [data], what follows them, and whether
    that can never start a frame. *)
Fixpoint drain (fuel : nat) (data : string) : list (Z * string) * string * bool :=
  match fuel with
  | O => ([], data, false)
  | S fuel' =>
      let d := tryDecodeFrame data in
      match dec_status d, dec_frame d with
      | Incomplete, _ => ([], data, false)
      | Complete, Some f =>
          let '(fs, rest, bad) := drain fuel' (str_drop (Z.to_nat (dec_frame_size d)) data) in (f :: fs, rest, bad)
      | _, _ => ([], data, true)
      end
  end.

Definition frames (data : string) : list (Z * string) * string * bool := drain (S (String.length data)) data.

Lemma complete_drop data :
  dec_status (tryDecodeFrame data) = Complete ->
  (String.length (str_drop (Z.to_nat (dec_frame_size (tryDecodeFrame data))) data) < String.length data)%nat.
Proof.
  intros H. destruct (decode_complete_size _ H) as [Hs _]. rewrite length_str_drop.
  unfold kHeaderSize, slen in Hs. lia.
Qed.

Lemma drain_fuel n m data :
  (String.length data < n)%nat -> (String.length data < m)%nat -> drain n data = drain m data.
Proof.
  revert m data. induction n as [|n IH]; intros m data Hn Hm; [lia|]. destruct m as [|m]; [lia|]. cbn [drain].
  destruct (dec_status (tryDecodeFrame data)) eqn:Es; try done.
  destruct (dec_frame (tryDecodeFrame data)) as [f|]; [|done].
  pose proof (complete_drop data Es). rewrite (IH m) by lia. done.
Qed.

Lemma frames_step data :
  frames data =
  let d := tryDecodeFrame data in
  match dec_status d, dec_frame d with
  | Incomplete, _ => ([], data, false)
  | Complete, Some f =>
      let '(fs, rest, bad) := frames (str_drop (Z.to_nat (dec_frame_size d)) data) in (f :: fs, rest, bad)
  | _, _ => ([], data, true)
  end.
Proof.
  unfold frames at 1. cbn [drain].
  destruct (dec_status (tryDecodeFrame data)) eqn:Es; try done.
  destruct (dec_frame (tryDecodeFrame data)) as [f|]; [|done].
  pose proof (complete_drop data Es). unfold frames.
  by rewrite (drain_fuel (String.length data) (S (String.length (str_drop (Z.to_nat (dec_frame_size (tryDecodeFrame data))) data)))) by lia.
Qed.

Lemma frames_ind (P : string -> Prop) :
  (forall data, (dec_status (tryDecodeFrame data) = Complete ->
     P (str_drop (Z.to_nat (dec_frame_size (tryDecodeFrame data))) data)) -> P data) ->
  forall data, P data.
Proof.
  intros H data. remember (String.length data) as n eqn:Hn. revert data Hn.
  induction n as [n IH] using lt_wf_ind. intros data ->. apply H. intros Hc.
  eapply IH; [|reflexivity]. by apply complete_drop.
Qed.

(** More bytes do not change the frames already there. *)
Lemma frames_app data more :
  frames (data +:+ more) =
  let '(fs, rest, bad) := frames data in
  if bad then (fs, rest +:+ more, true)
  else let '(fs', rest', bad') := frames (rest +:+ more) in (fs ++ fs', rest', bad').
Proof.
  revert more. induction data as [data IH] using frames_ind. intros more.
  rewrite (frames_step data). cbv zeta.
  destruct (dec_status (tryDecodeFrame data)) eqn:Es.
  - destruct (decode_complete_size _ Es) as [Hs [f Hf]]. rewrite Hf.
    rewrite (frames_step (data +:+ more)). cbv zeta. rewrite decode_app, Es, Hf by congruence.
    rewrite str_drop_app_le by (unfold slen in Hs; lia). rewrite (IH eq_refl).
    destruct (frames (str_drop _ data)) as [[fs rest] bad]. destruct bad; [done|].
    by destruct (frames (rest +:+ more)) as [[fs' rest'] bad'].
  - cbn [app]. by destruct (frames (data +:+ more)) as [[fs' rest'] bad'].
  - rewrite (frames_step (data +:+ more)). cbv zeta. rewrite decode_app, Es by congruence. by destruct (dec_frame (tryDecodeFrame data)).
  - rewrite (frames_step (data +:+ more)). cbv zeta. rewrite decode_app, Es by congruence. by destruct (dec_frame (tryDecodeFrame data)).
Qed.
(** ** The wire *)

(** What has come in, been dispatched, is owed to the peer and has gone out. *)
Inductive Phase := Open | Refused | Guarded (steps : nat).
Record Wire := mkWire {
  w_in : string; w_reqs : list (Z * string); w_owed : string; w_out : string; w_phase : Phase
}.

Definition start_wire : Wire := mkWire EmptyString [] EmptyString EmptyString Open.

#[global] Instance Phase_eq_dec : EqDecision Phase.
Proof. solve_decision. Defined.

(** Every request dispatched has been answered in full. *)
Definition settled_wire (l : Wire) : Prop := w_phase l = Open /\ w_out l = w_owed l.

Definition str_prefix (p s : string) : Prop := str_take (String.length p) s = p.

#[global] Instance str_prefix_dec p s : Decision (str_prefix p s).
Proof. unfold str_prefix. apply _. Defined.
#[global] Instance settled_wire_dec l : Decision (settled_wire l).
Proof. unfold settled_wire. apply _. Defined.

(** And no complete frame is left to dispatch. *)
Definition drained (l : Wire) : Prop := settled_wire l /\ (frames (w_in l)).1.1 = w_reqs l.

#[global] Instance drained_dec l : Decision (drained l).
Proof. unfold drained. apply _. Defined.

Fixpoint wire_of (responses : list RpcResponse) : string :=
  match responses with
  | [] => EmptyString
  | r :: rest =>
      match encode_response r with Some response => response +:+ wire_of rest | None => EmptyString end
  end.

(** The next step of leaving the handler. *)
Definition guard_count (p : Phase) : nat := match p with Guarded m => m | _ => 0%nat end.

Definition guard_step (n : nat) (l : Wire) : option Wire :=
  if decide (guard_count (w_phase l) = n)
  then Some (mkWire (w_in l) (w_reqs l) (w_owed l) (w_out l) (Guarded (S n))) else None.

Definition wire_step (l : Wire) (ev : Event ConnE) : option Wire :=
  match ev with
  | @Called _ X e x =>
      match e in ConnE X return X -> option Wire with
      | IsStopping | AwaitReadable => fun _ => if decide (drained l) then Some l else None
      | SockRead => fun n =>
          if decide (drained l /\ (frames (w_in l)).2 = false) then
            Some (mkWire (match n with RBytes chunk => w_in l +:+ chunk | _ => w_in l end)
                    (w_reqs l) (w_owed l) (w_out l) (w_phase l))
          else None
      | AwaitDispatch context payload => fun responses =>
          let reqs := w_reqs l ++ [(cx_request_serial_id context, payload)] in
          if decide (settled_wire l /\ reqs = take (length reqs) (frames (w_in l)).1.1) then
            Some (mkWire (w_in l) reqs (w_owed l +:+ wire_of (no_empty responses)) (w_out l) (w_phase l))
          else None
      | SockSend data => fun n =>
          if decide (w_phase l = Open /\ data <> EmptyString /\ str_prefix (w_out l +:+ data) (w_owed l)) then
            Some (mkWire (w_in l) (w_reqs l) (w_owed l)
                    (match n with Wrote w => w_out l +:+ str_take (Z.to_nat w) data | _ => w_out l end) (w_phase l))
          else None
      | CMetric MalformedFrame => fun _ =>
          if decide (drained l /\ (frames (w_in l)).2 = true) then
            Some (mkWire (w_in l) (w_reqs l) (w_owed l) (w_out l) Refused)
          else None
      | GuardDelFd => fun _ => guard_step 0 l
      | GuardClose => fun _ => guard_step 1 l
      | GuardRelease => fun _ => guard_step 2 l
      | CMetric ActiveDecremented => fun _ => guard_step 3 l
      | _ => fun _ => if decide (w_phase l = Open) then Some l else None
      end x
  end.

(** ** The handler keeps to the wire *)

Abbreviation wpW := (wp wire_step).

Lemma str_prefix_app p s : str_prefix p (p +:+ s).
Proof. unfold str_prefix. apply str_take_app_length. Qed.

Lemma str_prefix_inv p s : str_prefix p s -> s = p +:+ str_drop (String.length p) s.
Proof. unfold str_prefix. intros H. by rewrite <- H, str_take_drop at 1. Qed.

Ltac wire_do _ := let x := fresh "x" in apply wp_do; intros x; unfold wire_step; cbv beta iota.
Ltac allowed := rewrite decide_True by (split_and!; done).

(** A step that only needs the connection to be open. *)
Lemma wp_open {A X} (e : ConnE X) (k : X -> CP A) l Q :
  w_phase l = Open ->
  (forall x, wire_step l (Called e x) = if decide (w_phase l = Open) then Some l else None) ->
  (forall x, wpW (k x) l Q) -> wpW (Do e k) l Q.
Proof. intros Ho He Hk x. exists l. rewrite He, decide_True by done. auto. Qed.
Lemma str_take_all n s : (String.length s <= n)%nat -> str_take n s = s.
Proof. revert n. induction s as [|c s IH]; intros [|n]; simpl; try done; [lia|]. intros. by rewrite IH by lia. Qed.

Lemma str_take_add n m s : str_take n s +:+ str_take m (str_drop n s) = str_take (n + m) s.
Proof. revert s. induction n as [|n IH]; intros [|c s]; simpl; try done; [by destruct m|]. by rewrite IH. Qed.

Lemma str_prefix_intro p s x : s = p +:+ x -> str_prefix p s.
Proof. intros ->. apply str_prefix_app. Qed.

(** While a response is sent: [before] is out and [sent] bytes of [response] are,
    [after] is owed beyond it. *)
Definition sending (before response after : string) (sent : nat) (l : Wire) : Prop :=
  w_phase l = Open /\ w_owed l = before +:+ response +:+ after /\ w_out l = before +:+ str_take sent response.

(** Only output, and only of what is owed. *)
Definition sent_more (l l' : Wire) : Prop :=
  w_in l' = w_in l /\ w_reqs l' = w_reqs l /\ w_owed l' = w_owed l /\ w_phase l' = Open /\
  str_prefix (w_out l') (w_owed l').

Lemma sending_prefix before response after sent l : sending before response after sent l ->
  str_prefix (w_out l) (w_owed l) /\ str_prefix (w_out l +:+ str_drop sent response) (w_owed l).
Proof.
  intros (_ & -> & ->). split.
  - apply (str_prefix_intro _ _ (str_drop sent response +:+ after)).
    by rewrite append_assoc_str, <- (append_assoc_str (str_take _ _)), str_take_drop.
  - apply (str_prefix_intro _ _ after). by rewrite !append_assoc_str, <- (append_assoc_str (str_take _ _)), str_take_drop.
Qed.

Lemma sending_wrote before response after sent w l : sending before response after sent l -> 0 < w ->
  sending before response after (sent + Z.to_nat w)
    (mkWire (w_in l) (w_reqs l) (w_owed l) (w_out l +:+ str_take (Z.to_nat w) (str_drop sent response)) (w_phase l)).
Proof.
  intros (Hp & Ho & Hu) _. split_and!; [done..|]. cbn [w_out]. by rewrite Hu, append_assoc_str, str_take_add.
Qed.

Lemma sending_more before response after sent l : sending before response after sent l -> sent_more l l.
Proof. intros Hs. pose proof (sending_prefix _ _ _ _ _ Hs) as [? _]. by destruct Hs. Qed.

Lemma sent_more_trans l1 l2 l3 : sent_more l1 l2 -> sent_more l2 l3 -> sent_more l1 l3.
Proof. intros (H1 & H2 & H3 & _) (K1 & K2 & K3 & K4 & K5). split_and!; congruence || done. Qed.

Lemma send_response_wp fuel before response after sent l :
  sending before response after sent l ->
  wpW (send_response fuel response sent) l (fun c l' =>
    sent_more l l' /\ (c = Some false -> w_out l' = before +:+ response)).
Proof.
  revert sent l. induction fuel as [|fuel IH]; intros sent l Hs; cbn [send_response];
    pose proof (sending_more _ _ _ _ _ Hs) as Hm.
  { by apply wp_ret. }
  destruct (Z.ltb_spec (Z.of_nat sent) (slen response)) as [Hlt|Hge].
  2:{ apply wp_ret. split; [done|]. intros _. destruct Hs as (_ & _ & ->).
      by rewrite str_take_all by (unfold slen in Hge; lia). }
  apply wp_bind. unfold ask. wire_do ().
  assert (Hne : str_drop sent response <> EmptyString).
  { intros E. pose proof (length_str_drop sent response) as Hl. rewrite E in Hl. unfold slen in Hlt. simpl in Hl. lia. }
  pose proof (sending_prefix _ _ _ _ _ Hs) as [_ Hp']. pose proof Hs as (Ho & _).
  rewrite decide_True by done. eexists. split; [reflexivity|]. apply wp_ret.
  assert (Hl : mkWire (w_in l) (w_reqs l) (w_owed l) (w_out l) (w_phase l) = l) by (by destruct l).
  destruct x as [w| | |]; rewrite ?Hl.
  - destruct (Z.ltb_spec 0 w) as [Hw|Hw].
    + pose proof (sending_wrote _ _ _ _ w _ Hs Hw) as Hs'. pose proof (sending_more _ _ _ _ _ Hs') as Hm'.
      apply wp_bind. unfold ask. apply wp_open; [done|done|]. intros ?. apply wp_ret.
      eapply wp_mono; [by apply IH|]. cbv beta. intros c l' [H1 H2]. split; [|done]. exact (sent_more_trans l _ _ Hm' H1).
    + apply wp_ret. split; [|done]. destruct Hm as (_ & _ & _ & _ & Hp). split_and!; try done. cbn [w_owed w_out].
      replace (Z.to_nat w) with 0%nat by lia. cbn [str_take]. by rewrite append_nil_r.
  - apply wp_bind. unfold ask. apply wp_open; [done|done|]. intros b. apply wp_ret. destruct b; [by apply IH|].
    by apply wp_ret.
  - by apply IH.
  - by apply wp_ret.
Qed.
Lemma send_responses_wp fuel responses l :
  w_phase l = Open -> w_owed l = w_out l +:+ wire_of responses ->
  wpW (send_responses fuel responses) l (fun c l' => sent_more l l' /\ (c = Some false -> w_out l' = w_owed l')).
Proof.
  revert l. induction responses as [|r responses IH]; intros l Hp Ho; cbn [send_responses wire_of] in *.
  - rewrite append_nil_r in Ho. apply wp_ret. split; [|done]. split_and!; try done. rewrite Ho.
    apply (str_prefix_intro _ _ EmptyString). by rewrite append_nil_r.
  - destruct (encode_response r) as [response|].
    + apply wp_bind. eapply wp_mono.
      { apply (send_response_wp _ (w_out l) response (wire_of responses)). split_and!; [done..|].
        cbn [str_take]. by destruct response; rewrite append_nil_r. }
      cbv beta. intros c l' [Hm Hc]. destruct c as [[]|]; try by apply wp_ret. specialize (Hc eq_refl).
      pose proof Hm as (_ & _ & Hw & Hp' & _).
      eapply wp_mono; [apply IH; [done|]|].
      { by rewrite Hw, Ho, Hc, append_assoc_str. }
      cbv beta. intros c l'' [H1 H2]. split; [by eapply sent_more_trans|done].
    + apply wp_ret. split; [|done]. split_and!; try done. rewrite Ho. apply str_prefix_app.
Qed.

(** ** Serving *)

Definition wire_ok (l : Wire) : Prop :=
  guard_count (w_phase l) = 0%nat /\ str_prefix (w_out l) (w_owed l) /\
  w_reqs l = take (length (w_reqs l)) (frames (w_in l)).1.1.

(** [buffer] is what the frames dispatched so far leave of the input. *)
Definition buffered (buffer : string) (l : Wire) : Prop :=
  settled_wire l /\
  frames (w_in l) = let '(fs, rest, bad) := frames buffer in (w_reqs l ++ fs, rest, bad).

(** Nothing of the buffer can be dispatched before more comes in. *)
Definition waiting (buffer : string) (l : Wire) : Prop := buffered buffer l /\ frames buffer = ([], buffer, false).

Lemma settled_prefix l : settled_wire l -> str_prefix (w_out l) (w_owed l).
Proof. intros [_ ->]. apply (str_prefix_intro _ _ EmptyString). by rewrite append_nil_r. Qed.

Lemma buffered_reqs buffer l : buffered buffer l ->
  exists fs, (frames (w_in l)).1.1 = w_reqs l ++ fs /\ fs = (frames buffer).1.1 /\ (frames (w_in l)).2 = (frames buffer).2.
Proof. intros [_ ->]. destruct (frames buffer) as [[fs rest] bad]. by exists fs. Qed.

Lemma buffered_ok buffer l : buffered buffer l -> wire_ok l.
Proof.
  intros Hb. pose proof (buffered_reqs _ _ Hb) as (fs & Hf & _). destruct Hb as [Hs _].
  split_and!; [by destruct Hs as [-> _]|by apply settled_prefix|]. by rewrite Hf, take_app_length.
Qed.

Lemma waiting_drained buffer l : waiting buffer l -> drained l /\ (frames (w_in l)).2 = false.
Proof.
  intros [Hb Hf]. unfold drained. pose proof (buffered_reqs _ _ Hb) as (fs & -> & Hfs & ->). rewrite Hf in *. cbn in Hfs. subst fs.
  rewrite app_nil_r. split; [split; [apply Hb|done]|done].
Qed.

Lemma waiting_read buffer chunk l : waiting buffer l ->
  buffered (buffer +:+ chunk) (mkWire (w_in l +:+ chunk) (w_reqs l) (w_owed l) (w_out l) (w_phase l)).
Proof.
  intros [[Hs Hb] Hf]. split; [done|]. cbn [w_in w_reqs]. rewrite Hf in Hb. rewrite app_nil_r in Hb.
  rewrite frames_app, Hb. cbv iota. by destruct (frames (buffer +:+ chunk)) as [[fs rest] bad].
Qed.

(** The frame at the head of the buffer is dispatched. *)
Lemma buffered_dispatch buffer f responses l :
  buffered buffer l -> dec_status (tryDecodeFrame buffer) = Complete -> dec_frame (tryDecodeFrame buffer) = Some f ->
  let l' := mkWire (w_in l) (w_reqs l ++ [f]) (w_owed l +:+ wire_of responses) (w_out l) (w_phase l) in
  w_reqs l ++ [f] = take (length (w_reqs l ++ [f])) (frames (w_in l)).1.1 /\
  forall l'', sent_more l' l'' -> w_out l'' = w_owed l'' ->
    buffered (str_drop (Z.to_nat (dec_frame_size (tryDecodeFrame buffer))) buffer) l''.
Proof.
  intros [Hs Hb] Es Ef. rewrite (frames_step buffer) in Hb. cbv zeta in Hb. rewrite Es, Ef in Hb.
  destruct (frames (str_drop _ buffer)) as [[fs rest] bad] eqn:Er. split.
  - rewrite Hb. cbn [fst]. replace (w_reqs l ++ f :: fs) with ((w_reqs l ++ [f]) ++ fs) by by rewrite <- app_assoc.
    by rewrite take_app_length.
  - intros l'' (Hi & Hr & _ & Hp & _) Ho. cbn [w_in w_reqs] in *. split; [done|].
    rewrite Er, Hi, Hr, Hb. by rewrite <- app_assoc.
Qed.
Lemma wire_id l : mkWire (w_in l) (w_reqs l) (w_owed l) (w_out l) (w_phase l) = l.
Proof. by destruct l. Qed.

(** After serving: all frames dispatched and answered, or the connection is to
    be closed, or the fuel ran out. *)
Definition served (l : Wire) (r : option (string * bool)) (l' : Wire) : Prop :=
  wire_ok l' /\ match r with Some (rest, false) => waiting rest l' | _ => True end.

Lemma serve_malformed buffer l :
  buffered buffer l -> frames buffer = ([], buffer, true) ->
  wpW (ask (CMetric MalformedFrame) ;;! Ret (Some (buffer, true))) l (served l).
Proof.
  intros Hb Hf. pose proof (buffered_reqs _ _ Hb) as (fs & H1 & -> & H2). pose proof (buffered_ok _ _ Hb) as (Hg & Hp & Hr).
  rewrite Hf in *. cbn in H1. rewrite app_nil_r in H1.
  apply wp_bind. unfold ask. wire_do (). rewrite decide_True by (split; [split; [apply Hb|done]|done]).
  eexists. split; [reflexivity|]. apply wp_ret, wp_ret. by split_and!.
Qed.

Lemma serve_frames_wp fuel buffer l :
  buffered buffer l -> wpW (serve_frames fuel buffer) l (served l).
Proof.
  revert buffer l. induction fuel as [|fuel IH]; intros buffer l Hb; cbn [serve_frames].
  { apply wp_ret. split; [by eapply buffered_ok|done]. }
  pose proof (frames_step buffer) as Hf. cbv zeta in *.
  destruct (dec_status (tryDecodeFrame buffer)) eqn:Es.
  - destruct (decode_complete_size _ Es) as [_ [[serial_id payload] Ef]]. rewrite Ef. clear Hf. pose proof Hb as [[Hp Ho] _].
    do 2 (apply wp_bind; unfold ask; apply wp_open; [done|done|]; intros ?; apply wp_ret).
    apply wp_bind. unfold ask. wire_do (). cbn [cx_request_serial_id].
    destruct (buffered_dispatch _ _ (no_empty x1) _ Hb Es Ef) as [Hreq Hnext].
    rewrite decide_True by (split; [apply Hb|exact Hreq]). eexists. split; [reflexivity|]. apply wp_ret.
    apply wp_bind. eapply wp_mono.
    { apply send_responses_wp; [done|]. cbn [w_owed w_out]. by rewrite Ho. }
    cbv beta. intros c l' [Hs Hc]. pose proof Hs as (Hi & Hr & _ & Hp' & Hpre).
    assert (Hok : wire_ok l').
    { split_and!; [by rewrite Hp'|done|]. rewrite Hr, Hi. cbn [w_in w_reqs]. exact Hreq. }
    destruct c as [[]|]; [by apply wp_ret| |by apply wp_ret].
    apply (IH _ l'). apply Hnext; [done|by apply Hc].
  - apply wp_ret. split; [by eapply buffered_ok|]. split; [done|]. done.
  - destruct (dec_frame (tryDecodeFrame buffer)); by apply serve_malformed.
  - destruct (dec_frame (tryDecodeFrame buffer)); by apply serve_malformed.
Qed.

Lemma client_loop_wp rounds fuel buffer l :
  waiting buffer l -> wpW (client_loop rounds fuel buffer) l (fun _ l' => wire_ok l').
Proof.
  revert buffer l. induction rounds as [|rounds IH]; intros buffer l Hw; cbn [client_loop];
    pose proof (buffered_ok _ _ (proj1 Hw)) as Hok; pose proof (waiting_drained _ _ Hw) as [Hd Hn].
  { by apply wp_ret. }
  apply wp_bind. unfold ask. wire_do (). rewrite decide_True by done. eexists. split; [reflexivity|]. apply wp_ret.
  destruct x; [by apply wp_ret|].
  apply wp_bind. wire_do (). rewrite decide_True by done. eexists. split; [reflexivity|]. apply wp_ret.
  destruct x; cbn [negb]; [|by apply wp_ret].
  apply wp_bind. wire_do (). rewrite decide_True by done. eexists. split; [reflexivity|]. apply wp_ret.
  destruct x as [chunk| |]; rewrite ?wire_id; [|by apply IH|by apply wp_ret].
  pose proof (waiting_read _ chunk _ Hw) as Hb. destruct chunk as [|c chunk].
  { apply wp_ret. by eapply buffered_ok. }
  apply wp_bind. unfold ask. apply wp_open; [apply Hd|done|]. intros ?. apply wp_ret.
  apply wp_bind. eapply wp_mono; [by apply serve_frames_wp|]. cbv beta. intros r l' [Hok' Hr].
  destruct r as [[rest []]|]; [by apply wp_ret|by apply IH|by apply wp_ret].
Qed.

Lemma clientHandler_wp rounds fuel :
  wpW (clientHandler rounds fuel) start_wire (fun ended l =>
    str_prefix (w_out l) (w_owed l) /\ w_reqs l = take (length (w_reqs l)) (frames (w_in l)).1.1 /\
    guard_count (w_phase l) = (if ended : bool then 4 else 0)%nat).
Proof.
  unfold clientHandler. apply wp_bind. eapply wp_mono; [by apply (client_loop_wp _ _ EmptyString)|]. cbv beta.
  intros [_|] l (Hg & Hp & Hr); [|by apply wp_ret].
  do 4 (apply wp_bind; unfold ask; wire_do (); unfold guard_step; cbn [w_phase guard_count]; rewrite decide_True by done;
        eexists; split; [reflexivity|]; apply wp_ret).
  by apply wp_ret.
Qed.

(** C14.  A connection, whatever the peer sends, in whatever pieces, and
    whatever the socket and the dispatcher answer: requests are dispatched one
    at a time, in order, each exactly once and exactly as framed in the bytes
    received; no request is dispatched, and no more input is read, before the
    responses to those before it are out in full; what is sent is at any time a
    prefix of the framed responses in that order; a connection is refused as
    malformed only when its input is; and when the handler ends the guard
    releases the connection, once, as its last act. *)
Theorem connection_serves_in_order rounds fuel tr ended :
  exec (clientHandler rounds fuel) tr ended ->
  exists l, monitor wire_step start_wire tr = Some l /\
    str_prefix (w_out l) (w_owed l) /\ w_reqs l = take (length (w_reqs l)) (frames (w_in l)).1.1 /\
    guard_count (w_phase l) = (if ended : bool then 4 else 0)%nat.
Proof. intros He. exact (wp_sound _ _ _ _ _ _ (clientHandler_wp rounds fuel) He). Qed.
(** ** Pieces do not matter *)

(** The bytes read and the requests dispatched along a trace. *)
Fixpoint received (tr : list (Event ConnE)) : string :=
  match tr with
  | [] => EmptyString
  | Called SockRead (RBytes chunk) :: tr' => chunk +:+ received tr'
  | _ :: tr' => received tr'
  end.

Fixpoint dispatched (tr : list (Event ConnE)) : list (Z * string) :=
  match tr with
  | [] => []
  | Called (AwaitDispatch context payload) _ :: tr' => (cx_request_serial_id context, payload) :: dispatched tr'
  | _ :: tr' => dispatched tr'
  end.

Lemma wire_step_reads l ev l' : wire_step l ev = Some l' ->
  w_in l' = w_in l +:+ received [ev] /\ w_reqs l' = w_reqs l ++ dispatched [ev].
Proof.
  destruct ev as [X e x]. destruct e; cbn [received dispatched wire_step]; unfold guard_step;
    try destruct op; try case_decide; intros; simplify_eq; cbn [w_in w_reqs];
    rewrite ?append_nil_r, ?app_nil_r; try done.
  destruct x; rewrite ?append_nil_r; done.
Qed.

Lemma received_cons ev tr : received (ev :: tr) = received [ev] +:+ received tr.
Proof. destruct ev as [X e x]. destruct e; try done. destruct x; try done. cbn [received]. by rewrite append_nil_r. Qed.
Lemma dispatched_cons ev tr : dispatched (ev :: tr) = dispatched [ev] ++ dispatched tr.
Proof. destruct ev as [X e x]. by destruct e. Qed.

Lemma monitor_reads tr l l' : monitor wire_step l tr = Some l' ->
  w_in l' = w_in l +:+ received tr /\ w_reqs l' = w_reqs l ++ dispatched tr.
Proof.
  revert l. induction tr as [|ev tr IH]; intros l; cbn [monitor].
  - intros [= <-]. cbn [received dispatched]. by rewrite append_nil_r, app_nil_r.
  - destruct (wire_step l ev) as [l1|] eqn:Es; [|done]. intros Hm.
    destruct (wire_step_reads _ _ _ Es) as [H1 H2]. destruct (IH _ Hm) as [H3 H4].
    rewrite received_cons, dispatched_cons, H3, H4, H1, H2. by rewrite append_assoc_str, app_assoc.
Qed.

(** C15.  Incremental framing is equivalent to framing at once: each time the
    handler waits for input, the requests it has dispatched are exactly the
    frames that the decoder finds in all the bytes received so far, however
    the network cut them up. *)
Theorem framing_ignores_pieces rounds fuel before b after ended :
  exec (clientHandler rounds fuel) (before ++ Called AwaitReadable b :: after) ended ->
  dispatched before = (frames (received before)).1.1.
Proof.
  intros He. destruct (wp_sound _ _ _ _ _ _ (clientHandler_wp rounds fuel) He) as (l & Hm & _).
  rewrite monitor_app in Hm. destruct (monitor wire_step start_wire before) as [l0|] eqn:E0; [|done].
  destruct (monitor_reads _ _ _ E0) as [Hi Hr]. cbn [mbind option_bind monitor] in Hm.
  unfold wire_step in Hm at 1. cbv beta iota in Hm. case_decide as Hd; [|done]. destruct Hd as [_ Hd].
  by rewrite Hi, Hr in Hd.
Qed.

End Connection.

(** A peer that sends two requests in three pieces and takes three bytes at a time. *)
Module ConnectionExample.

Definition codec : Codec := DispatcherExample.codec.

Definition two_requests : list ReadResult :=
  let bytes := put_be32 6 +:+ put_be32 1 +:+ "hi" +:+ put_be32 7 +:+ put_be32 9 +:+ "you" in
  [RBytes (str_take 3 bytes); RRetry; RBytes (str_take 9 (str_drop 3 bytes)); RBytes (str_drop 12 bytes); RBytes EmptyString].

Definition handle (X : Type) (e : ConnE X) : M (list ReadResult) X :=
  match e with
  | IsStopping => retM false
  | AwaitReadable | AwaitWritable => retM true
  | SockRead => fun l => match l with n :: l' => (n, l') | [] => (RError, []) end
  | SockSend data => retM (Wrote (Z.min 3 (slen data)))
  | NextRequestId => retM "id"
  | ConnSteadyNow => retM 5
  | AwaitDispatch c payload => retM [mkRpcResponse (cx_request_serial_id c + 1) payload]
  | CMetric _ | GuardDelFd | GuardClose | GuardRelease => retM ()
  end.

Definition connection : CP bool := clientHandler codec "peer" 10 20.
Definition conn_trace : list (Event ConnE) := trace_of handle connection two_requests.

Lemma conn_exec : exec connection conn_trace (run handle connection two_requests).1.
Proof. apply run_exec. Qed.

Lemma connection_serves_in_order_witness :
  exists l, monitor (wire_step codec) start_wire conn_trace = Some l /\
    str_prefix (w_out l) (w_owed l) /\ w_reqs l = take (length (w_reqs l)) (frames (w_in l)).1.1 /\
    guard_count (w_phase l) = 4%nat.
Proof. apply (connection_serves_in_order codec "peer" 10 20 _ true). apply conn_exec. Defined.

Lemma framing_ignores_pieces_witness :
  dispatched (take 38 conn_trace) = (frames (received (take 38 conn_trace))).1.1.
Proof.
  apply (framing_ignores_pieces codec "peer" 10 20 _ true (drop 39 conn_trace) true).
  replace (take 38 conn_trace ++ _) with conn_trace by (vm_compute; reflexivity). apply conn_exec.
Defined.

Example both_served : dispatched conn_trace = [(1, "hi"%string); (9, "you"%string)].
Proof. reflexivity. Qed.

End ConnectionExample.
