(* ===== verification/RpcStub.v ===== *)
(** The typed layer of the RPC bindings ([generated/rpc_service.hpp]): the stub
    that calls a method over an [RpcClient], and the skeleton that serves typed
    handlers.

    The messages of a method, with the code that serializes and parses them,
    are an instance of [Method]; [MethodLaws] says that what was serialized is
    parsed back. *)
From S2P Require Import Prelude Text Protocol RpcClient RpcClientPool Effects Dispatcher Connection.

Class Method (Request Response : Type) := {
  auth_token : Request -> string;
  set_auth_token : string -> Request -> Request;
  ser_request : Request -> option string;
  parse_request : string -> option Request;
  ser_response : Response -> option string;
  parse_response : string -> option Response
}.

Class MethodLaws (Request Response : Type) `{Method Request Response} := {
  parse_ser_request r s : ser_request r = Some s -> parse_request s = Some r;
  parse_ser_response r s : ser_response r = Some s -> parse_response s = Some r
}.

(** A response that is one of a stream. *)
Class StreamResponse (Response : Type) := {
  end_of_stream : Response -> bool;
  set_end_of_stream : bool -> Response -> Response;
  success_response : Response;                (* [set_success(true)] on a new one *)
  set_end_of_stream_twice a b r : set_end_of_stream a (set_end_of_stream b r) = set_end_of_stream a r;
  end_of_stream_set b r : end_of_stream (set_end_of_stream b r) = b
}.

Definition findMethodByName (name : string) : option RpcMethodDescriptor :=
  List.find (fun m => String.eqb name (md_name m)) kCorpCronRpcMethods.

(** The methods of the stub: what each passes to [call]; [StreamMetrics] calls
    [callStream]. *)
Definition stub_methods : list RpcMethodDescriptor := [
  mkMethod "Echo" kEchoRequestSerialId kEchoResponseSerialId;
  mkMethod "SubmitTask" kSubmitTaskRequestSerialId kSubmitTaskResponseSerialId;
  mkMethod "ExecuteTask" kExecuteTaskRequestSerialId kExecuteTaskResponseSerialId;
  mkMethod "CancelTask" kCancelTaskRequestSerialId kCancelTaskResponseSerialId;
  mkMethod "ListTasks" kListTasksRequestSerialId kListTasksResponseSerialId;
  mkMethod "ListHistory" kListHistoryRequestSerialId kListHistoryResponseSerialId;
  mkMethod "ListServices" kListServicesRequestSerialId kListServicesResponseSerialId;
  mkMethod "UpdateTask" kUpdateTaskRequestSerialId kUpdateTaskResponseSerialId;
  mkMethod "EnableTask" kEnableTaskRequestSerialId kEnableTaskResponseSerialId;
  mkMethod "DeleteTask" kDeleteTaskRequestSerialId kDeleteTaskResponseSerialId;
  mkMethod "RunTaskNow" kRunTaskNowRequestSerialId kRunTaskNowResponseSerialId;
  mkMethod "GetMetrics" kGetMetricsRequestSerialId kGetMetricsResponseSerialId;
  mkMethod "HealthCheck" kHealthCheckRequestSerialId kHealthCheckResponseSerialId
].
Definition stub_stream_method : RpcMethodDescriptor :=
  mkMethod "StreamMetrics" kStreamMetricsRequestSerialId kStreamMetricsResponseSerialId.

(** What the skeleton's [register...] methods pass on, in the same way. *)
Definition skeleton_methods : list RpcMethodDescriptor := [
  mkMethod "Echo" kEchoRequestSerialId kEchoResponseSerialId;
  mkMethod "SubmitTask" kSubmitTaskRequestSerialId kSubmitTaskResponseSerialId;
  mkMethod "ExecuteTask" kExecuteTaskRequestSerialId kExecuteTaskResponseSerialId;
  mkMethod "CancelTask" kCancelTaskRequestSerialId kCancelTaskResponseSerialId;
  mkMethod "ListTasks" kListTasksRequestSerialId kListTasksResponseSerialId;
  mkMethod "ListHistory" kListHistoryRequestSerialId kListHistoryResponseSerialId;
  mkMethod "ListServices" kListServicesRequestSerialId kListServicesResponseSerialId;
  mkMethod "UpdateTask" kUpdateTaskRequestSerialId kUpdateTaskResponseSerialId;
  mkMethod "EnableTask" kEnableTaskRequestSerialId kEnableTaskResponseSerialId;
  mkMethod "DeleteTask" kDeleteTaskRequestSerialId kDeleteTaskResponseSerialId;
  mkMethod "RunTaskNow" kRunTaskNowRequestSerialId kRunTaskNowResponseSerialId;
  mkMethod "GetMetrics" kGetMetricsRequestSerialId kGetMetricsResponseSerialId;
  mkMethod "HealthCheck" kHealthCheckRequestSerialId kHealthCheckResponseSerialId;
  mkMethod "StreamMetrics" kStreamMetricsRequestSerialId kStreamMetricsResponseSerialId
].

Lemma methods_agree : stub_methods ++ [stub_stream_method] = kCorpCronRpcMethods /\ skeleton_methods = kCorpCronRpcMethods.
Proof. done. Qed.

Lemma findMethodByName_known : Forall (fun m => findMethodByName (md_name m) = Some m) kCorpCronRpcMethods.
Proof. repeat (apply Forall_cons; split; [done|]). done. Qed.

Section Typed.
Context (codec : Codec).

(** ** The skeleton *)

Record Skeleton := mkSkeleton {
  handlers : gmap Z (string -> RpcResponse);
  stream_handlers : gmap Z (string -> list RpcResponse)
}.

Definition empty_skeleton : Skeleton := mkSkeleton ∅ ∅.

Section Method.
Context {Request Response : Type} `{MD : Method Request Response}.

Definition unary_handler (response_serial_id : Z) (handler : Request -> Response) (payload : string) : RpcResponse :=
  match parse_request payload with
  | None => make_error_response codec BAD_REQUEST "parse request failed"
  | Some request =>
      mkRpcResponse response_serial_id (default EmptyString (ser_response (handler request)))
  end.

Definition registerUnary (m : RpcMethodDescriptor) (handler : Request -> Response) (sk : Skeleton) : Skeleton :=
  mkSkeleton (<[md_request_serial_id m := unary_handler (md_response_serial_id m) handler]> (handlers sk))
    (stream_handlers sk).

(** The last one ends the stream. *)
Fixpoint end_last `{StreamResponse Response} (responses : list Response) : list Response :=
  match responses with
  | [] => []
  | [r] => [set_end_of_stream true r]
  | r :: rest => r :: end_last rest
  end.

Definition stream_of `{StreamResponse Response} (responses : list Response) : list Response :=
  let responses := match responses with
                   | [] => [set_end_of_stream true success_response]
                   | _ => responses
                   end in
  end_last (map (set_end_of_stream false) responses).

(** All the payloads, or none when one cannot be serialized. *)
Fixpoint ser_all (response_serial_id : Z) (responses : list Response) : option (list RpcResponse) :=
  match responses with
  | [] => Some []
  | r :: rest =>
      match ser_response r with
      | None => None
      | Some payload =>
          match ser_all response_serial_id rest with
          | None => None
          | Some l => Some (mkRpcResponse response_serial_id payload :: l)
          end
      end
  end.

Definition stream_handler `{StreamResponse Response} (response_serial_id : Z)
    (handler : Request -> list Response) (payload : string) : list RpcResponse :=
  match parse_request payload with
  | None => [make_error_response codec BAD_REQUEST "parse request failed"]
  | Some request =>
      match ser_all response_serial_id (stream_of (handler request)) with
      | None => [make_error_response codec INTERNAL_ERROR "serialize response failed"]
      | Some responses => responses
      end
  end.

Definition registerServerStream `{StreamResponse Response} (m : RpcMethodDescriptor)
    (handler : Request -> list Response) (sk : Skeleton) : Skeleton :=
  mkSkeleton (handlers sk)
    (<[md_request_serial_id m := stream_handler (md_response_serial_id m) handler]> (stream_handlers sk)).

End Method.

Definition skeleton_dispatch (sk : Skeleton) (serial_id : Z) (payload : string) : RpcResponse :=
  match handlers sk !! serial_id with
  | None => make_error_response codec UNKNOWN_METHOD ("Unknown serial_id: " +:+ to_string serial_id)
  | Some handler => handler payload
  end.

Definition skeleton_dispatchStream (sk : Skeleton) (serial_id : Z) (payload : string) : list RpcResponse :=
  match stream_handlers sk !! serial_id with
  | Some handler => handler payload
  | None => [skeleton_dispatch sk serial_id payload]
  end.

(** ** The stub *)

Section Stub.
Context (sys : nat -> Sys) (peer : nat -> string).
Context {Request Response : Type} `{MD : Method Request Response}.

(** The request is passed by reference and keeps the token it is given. *)
Definition with_token (token : string) (request : Request) : Request :=
  if negb (str_empty token) && str_empty (auth_token request) then set_auth_token token request else request.

Definition rpc_error_text (payload : string) : string :=
  match parse_rpc_error codec payload with
  | Some (_, message) => message
  | None => "parse RpcError failed"
  end.

(** What a frame of the peer is, as a response with the serial id expected. *)
Definition typed_response (unexpected unparsed : string) (expected serial_id : Z) (payload : string) : string + Response :=
  if serial_id =? kRpcErrorSerialId then inl (rpc_error_text payload)
  else if negb (serial_id =? expected) then inl (unexpected +:+ to_string serial_id)
  else match parse_response payload with None => inl unparsed | Some response => inr response end.

Definition unary_response : Z -> Z -> string -> string + Response :=
  typed_response "unexpected response serial_id: " "parse response failed".
Definition stream_response : Z -> Z -> string -> string + Response :=
  typed_response "unexpected stream response serial_id: " "parse stream response failed".

(** [call]: the error text or the response. *)
Definition stub_call (fuel : nat) (token : string) (m : RpcMethodDescriptor) (request : Request) (timeout_ms : Z)
    (c : RpcClient) : option (string + Response) * RpcClient :=
  match ser_request (with_token token request) with
  | None => (Some (inl "serialize request failed"%string), c)
  | Some payload =>
      match call sys peer fuel (md_request_serial_id m) payload (fromTimeout (sy_now (cur sys c)) timeout_ms) c with
      | (None, c') => (None, c')
      | (Some None, c') => (Some (inl (or_else (lastError c') "rpc transport failed")), c')
      | (Some (Some (serial_id, response)), c') => (Some (unary_response (md_response_serial_id m) serial_id response), c')
      end
  end.

(** [callStream]: the callback's locals [error] and [saw_end], over the frames
    it saw, and whether it asks for more. *)
Context `{SR : StreamResponse Response}.

Definition wants_more (on_response : Response -> bool) (expected serial_id : Z) (payload : string) : bool :=
  match stream_response expected serial_id payload with
  | inl _ => false
  | inr response => on_response response && negb (end_of_stream response)
  end.

Definition saw (expected : Z) (st : string * bool) (f : Z * string) : string * bool :=
  match stream_response expected f.1 f.2 with
  | inl error => (error, st.2)
  | inr response => (st.1, end_of_stream response)
  end.

Definition delivered_response (expected : Z) (f : Z * string) : option Response :=
  match stream_response expected f.1 f.2 with inl _ => None | inr response => Some response end.

(** Whether the stream came to its end, the error text, and the responses
    [on_response] saw. *)
Record StreamOutcome := mkStreamOutcome { so_ok : bool; so_error : string; so_seen : list Response }.

Definition stub_callStream (fuel : nat) (token : string) (m : RpcMethodDescriptor) (request : Request)
    (on_response : Response -> bool) (timeout_ms : Z) (c : RpcClient) : option StreamOutcome * RpcClient :=
  match ser_request (with_token token request) with
  | None => (Some (mkStreamOutcome false "serialize request failed" []), c)
  | Some payload =>
      let expected := md_response_serial_id m in
      match callStream sys peer fuel (md_request_serial_id m) payload (wants_more on_response expected)
              (fromTimeout (sy_now (cur sys c)) timeout_ms) c with
      | (None, _, c') => (None, c')
      | (Some ok, frames, c') =>
          let '(error, saw_end) := foldl (saw expected) (EmptyString, false) frames in
          (Some (mkStreamOutcome (ok && saw_end) (if negb ok then or_else error "rpc stream transport failed" else error)
                   (omap (delivered_response expected) frames)), c')
      end
  end.

(** ** Frames off the wire *)

Lemma recv_one fuel e1 e2 o c f frame more :
  is_u32 f.1 -> tryEncode f.1 f.2 = Some frame -> rp_rx c = frame +:+ more ->
  match recv_frame sys fuel e1 e2 o c with
  | (RFrame s p, c') =>
      (s, p) = f /\ rp_rx c' = more /\ rp_connected c' = rp_connected c /\ rp_tx c' = rp_tx c
  | (RFailed, c') => rp_connected c' = false
  | (ROutOfFuel, _) => True
  end.
Proof.
  intros Hid He Hrx. pose proof (recv_frame_spec sys fuel e1 e2 o c) as Hr.
  destruct (recv_frame sys fuel e1 e2 o c) as [[s p| |] c']; [|done..].
  destruct Hr as (Hc & Ht & fr & [Hd Hl] & Hfr). pose proof (decode_encoded _ _ _ more Hid He) as Hde.
  assert (Hst : dec_status (tryDecodeFrame fr) = Complete) by (unfold decode in Hd; by destruct (dec_status _)).
  rewrite <- Hrx, Hfr, decode_app in Hde by congruence. rewrite Hde in Hl. unfold decode in Hd. rewrite Hde in Hd.
  cbn in Hd, Hl. rewrite Hrx in Hfr. apply append_eq_inv in Hfr as [_ Hm]; [|unfold slen in Hl; lia].
  split_and!; [destruct f; cbn in Hd; congruence|done..].
Qed.

(** A response that is framed as it is. *)
Definition fits (r : RpcResponse) : Prop := is_u32 (rsp_serial_id r) /\ slen (rsp_payload r) <= kMaxPayloadSize.

Definition frame_of (r : RpcResponse) : Z * string := (rsp_serial_id r, rsp_payload r).

Lemma fits_encoded r : fits r -> exists frame, tryEncode (rsp_serial_id r) (rsp_payload r) = Some frame.
Proof. intros [_ H]. unfold tryEncode. destruct (Z.ltb_spec kMaxPayloadSize (slen (rsp_payload r))); [lia|]. eauto. Qed.

Lemma wire_of_cons r rest frame : tryEncode (rsp_serial_id r) (rsp_payload r) = Some frame ->
  wire_of codec (r :: rest) = frame +:+ wire_of codec rest.
Proof. intros H. cbn [wire_of]. unfold encode_response. by rewrite H. Qed.

(** The loop over a stream of which only the last frame asks for no more. *)
Lemma stream_loop_wire rounds fuel P o c rs r more :
  Forall fits (rs ++ [r]) -> Forall (fun x => P (rsp_serial_id x) (rsp_payload x) = true) rs ->
  P (rsp_serial_id r) (rsp_payload r) = false -> rp_rx c = wire_of codec (rs ++ [r]) +:+ more ->
  match stream_loop sys rounds fuel P o c with
  | (Some ok, seen, c') =>
      rp_connected c' = false /\ if ok then seen = map frame_of (rs ++ [r]) else seen `prefix_of` map frame_of rs
  | _ => True
  end.
Proof.
  revert c rs. induction rounds as [|rounds IH]; intros c rs Hf Hrs Hr Hrx; [done|]. cbn [stream_loop].
  destruct rs as [|x rs]; cbn [app map] in *; apply Forall_cons in Hf as [Hx Hf];
    destruct (fits_encoded _ Hx) as [frame He]; rewrite (wire_of_cons _ _ _ He), append_assoc_str in Hrx;
    pose proof (fun e1 e2 => recv_one fuel e1 e2 o c (frame_of _) _ _ (proj1 Hx) He Hrx) as Hone;
    match goal with |- context [recv_frame sys fuel ?a ?b o c] =>
      specialize (Hone a b); destruct (recv_frame sys fuel a b o c) as [[s p| |] c1] end; try done;
    try (by split; [|apply prefix_nil]); destruct Hone as ([= -> ->] & Hrx1 & _).
  - by rewrite Hr.
  - apply Forall_cons in Hrs as [-> Hrs]. specialize (IH c1 rs Hf Hrs Hr Hrx1).
    destruct (stream_loop sys rounds fuel P o c1) as [[[[]|] seen] c2]; try done.
    + by destruct IH as [? ->].
    + destruct IH as [? Hp]. split; [done|]. by apply prefix_cons.
Qed.

Lemma end_last_shape (l : list Response) : Forall (fun r => end_of_stream r = false) l -> l <> [] ->
  exists rs r, end_last l = rs ++ [r] /\ Forall (fun r => end_of_stream r = false) rs /\ end_of_stream r = true.
Proof.
  induction 1 as [|x l Hx Hl IH]; [done|]. intros _. destruct l as [|y l].
  - exists [], (set_end_of_stream true x). split_and!; [done..|apply end_of_stream_set].
  - destruct IH as (rs & r & H1 & H2 & H3); [done|]. exists (x :: rs), r. cbn [end_last app] in *.
    by rewrite H1; split_and!; [|constructor|].
Qed.

(** A stream has a last response, the only one that ends it. *)
Lemma stream_of_shape (l : list Response) :
  exists rs r, stream_of l = rs ++ [r] /\ Forall (fun r => end_of_stream r = false) rs /\ end_of_stream r = true.
Proof.
  unfold stream_of. apply end_last_shape; [|by destruct l].
  apply Forall_map, Forall_forall. intros r _. apply end_of_stream_set.
Qed.

Lemma ser_all_spec serial_id (l : list Response) rs : ser_all serial_id l = Some rs ->
  Forall2 (fun r x => rsp_serial_id x = serial_id /\ ser_response r = Some (rsp_payload x)) l rs.
Proof.
  revert rs. induction l as [|r l IH]; intros rs; cbn [ser_all]; [by intros [= <-]|].
  destruct (ser_response r) as [payload|] eqn:Er; [|done]. destruct (ser_all serial_id l) as [rs'|]; [|done].
  intros [= <-]. constructor; [done|by apply IH].
Qed.

(** ** The stub meets the skeleton *)

Context `{!MethodLaws Request Response}.
Context (m : RpcMethodDescriptor) (known_method : m ∈ kCorpCronRpcMethods).

Lemma known_serials : is_u32 (md_response_serial_id m) /\ (md_response_serial_id m =? kRpcErrorSerialId) = false.
Proof.
  assert (H : Forall (fun m => is_u32 (md_response_serial_id m) /\ (md_response_serial_id m =? kRpcErrorSerialId) = false)
                kCorpCronRpcMethods).
  { unfold kCorpCronRpcMethods. repeat (apply Forall_cons; split; [by split|]). done. }
  rewrite Forall_forall in H. by apply H.
Qed.

Lemma typed_response_parsed unexpected unparsed r x :
  rsp_serial_id x = md_response_serial_id m -> ser_response r = Some (rsp_payload x) ->
  typed_response unexpected unparsed (md_response_serial_id m) (rsp_serial_id x) (rsp_payload x) = inr r.
Proof.
  intros Hid Hs. destruct known_serials as [_ He]. unfold typed_response. rewrite Hid, He, Z.eqb_refl. cbn [negb].
  by rewrite (parse_ser_response _ _ Hs).
Qed.

(** The frames of responses that were serialized, as the callback takes them. *)
Lemma saw_all (l : list Response) rs st :
  Forall2 (fun r x => rsp_serial_id x = md_response_serial_id m /\ ser_response r = Some (rsp_payload x)) l rs ->
  foldl (saw (md_response_serial_id m)) st (map frame_of rs) =
    (st.1, match last l with Some r => end_of_stream r | None => st.2 end) /\
  omap (delivered_response (md_response_serial_id m)) (map frame_of rs) = l.
Proof.
  intros H. revert st. induction H as [|r x l rs [Hid Hs] _ IH]; intros st; [by destruct st|].
  cbn [map foldl omap list_omap]. unfold saw at 2, delivered_response at 1. cbn [fst snd frame_of].
  unfold stream_response. rewrite (typed_response_parsed _ _ r x Hid Hs).
  destruct (IH (st.1, end_of_stream r)) as [-> ->]. split; [|done]. cbn [fst snd]. rewrite last_cons. by destruct (last l).
Qed.

(** When the whole of the request is sent. *)
Lemma send_request_connected fuel serial_id request o c c' : rp_connected c = true ->
  send_request sys peer fuel serial_id request o c = (Some true, c') ->
  rp_rx c' = rp_rx c /\ exists data, tryEncode serial_id request = Some data /\ rp_tx c' = rp_tx c +:+ data.
Proof.
  intros Hc Hs. pose proof (send_request_spec sys peer fuel serial_id request o c) as H. rewrite Hs in H.
  destruct H as (_ & data & Hd & [(_ & Hrx & Htx)|(Hf & _)]); [by split; [|exists data]|congruence].
Qed.

Lemma or_else_nonempty s dflt : dflt <> EmptyString -> or_else s dflt <> EmptyString.
Proof. unfold or_else. by destruct s. Qed.

(** A typed call to a skeleton gives the handler's response to the typed
    request, and takes one response off the connection for the one request it
    wrote; or its transport failed, and the connection is closed. *)
Theorem stub_call_is_handler_call handler sk token request timeout_ms payload fuel c more :
  ser_request (with_token token request) = Some payload ->
  fits (unary_handler (md_response_serial_id m) handler payload) ->
  is_Some (ser_response (handler (with_token token request))) ->
  rp_connected c = true ->
  rp_rx c = wire_of codec [skeleton_dispatch (registerUnary m handler sk) (md_request_serial_id m) payload] +:+ more ->
  match stub_call fuel token m request timeout_ms c with
  | (Some (inr response), c') =>
      response = handler (with_token token request) /\ rp_rx c' = more /\
      exists data, tryEncode (md_request_serial_id m) payload = Some data /\ rp_tx c' = rp_tx c +:+ data
  | (Some (inl error), c') => error <> EmptyString /\ rp_connected c' = false
  | (None, _) => True
  end.
Proof.
  intros Hser Hfits [rp Hrp] Hc Hrx. unfold stub_call. rewrite Hser.
  unfold skeleton_dispatch, registerUnary in Hrx. cbn [handlers] in Hrx. rewrite lookup_insert_eq in Hrx.
  assert (Hu : unary_handler (md_response_serial_id m) handler payload = mkRpcResponse (md_response_serial_id m) rp).
  { unfold unary_handler. by rewrite (parse_ser_request _ _ Hser), Hrp. }
  rewrite Hu in *. destruct (fits_encoded _ Hfits) as [frame He].
  rewrite (wire_of_cons _ _ _ He) in Hrx. cbn [wire_of] in Hrx. rewrite append_nil_r in Hrx.
  unfold call. set (o := ensureDeadline _ _). pose proof (send_request_connected fuel (md_request_serial_id m) payload o c) as Hs.
  destruct (send_request sys peer fuel (md_request_serial_id m) payload o c) as [[[]|] c1] eqn:Es; [| |done].
  - destruct (Hs c1 Hc eq_refl) as (Hrx1 & data & Hdata & Htx). rewrite Hrx in Hrx1.
    pose proof (fun e1 e2 => recv_one fuel e1 e2 o c1 (frame_of _) frame more (proj1 Hfits) He Hrx1) as Hone.
    match goal with |- context [recv_frame sys fuel ?a ?b o c1] => pose proof (recv_frame_spec sys fuel a b o c1) as Hf;
      specialize (Hone a b); destruct (recv_frame sys fuel a b o c1) as [[s p| |] c2] end; [| |done].
    + destruct Hone as ([= -> ->] & Hrx2 & _ & Htx2). unfold unary_response.
      rewrite (typed_response_parsed _ _ _ (mkRpcResponse (md_response_serial_id m) rp) eq_refl Hrp).
      split_and!; [done..|]. exists data. split; [done|]. cbn [rp_tx setLastError]. congruence.
    + split; [by apply or_else_nonempty|done].
  - pose proof (send_request_spec sys peer fuel (md_request_serial_id m) payload o c) as Hf. rewrite Es in Hf.
    split; [by apply or_else_nonempty|done].
Qed.

(** The responses that a callback takes of a stream: up to the first one it
    does not want more after. *)
Fixpoint taken (on_response : Response -> bool) (l : list Response) : list Response :=
  match l with
  | [] => []
  | r :: l => if on_response r then r :: taken on_response l else [r]
  end.

(** A stream: its last response ends it, and no other. *)
Definition ends_last (l : list Response) : Prop :=
  exists rs r, l = rs ++ [r] /\ Forall (fun r => end_of_stream r = false) rs /\ end_of_stream r = true.

Lemma ends_last_cons r l : ends_last (r :: l) ->
  (l = [] /\ end_of_stream r = true) \/ (end_of_stream r = false /\ ends_last l).
Proof.
  intros ([|x rs] & y & E & Hrs & Hy); cbn [app] in E; injection E as -> ->; [by left|].
  apply Forall_cons in Hrs as [Hx Hrs]. right. split; [done|]. by exists rs, y.
Qed.

(** A callback that takes the response that ends the stream has taken all. *)
Lemma taken_all f l : ends_last l ->
  exists r, last (taken f l) = Some r /\ (if end_of_stream r then taken f l = l else taken f l <> l).
Proof.
  induction l as [|x l IH]; intros Hl; [by destruct Hl as ([] & ? & ? & _)|].
  destruct (ends_last_cons x l Hl) as [[-> Hx]|[Hx Hl']]; cbn [taken].
  - exists x. by destruct (f x); rewrite Hx.
  - destruct (IH Hl') as (r & Hr & H). destruct (f x).
    + exists r. rewrite last_cons, Hr. split; [done|]. destruct (end_of_stream r); congruence.
    + exists x. rewrite Hx. split; [done|]. destruct Hl' as (rs & y & -> & _). by destruct rs.
Qed.

(** The frames of what is taken: only the last of them asks for no more. *)
Lemma taken_frames f (l : list Response) rs : ends_last l ->
  Forall2 (fun r x => rsp_serial_id x = md_response_serial_id m /\ ser_response r = Some (rsp_payload x)) l rs ->
  exists xs x rest, rs = (xs ++ [x]) ++ rest /\
    Forall (fun x => wants_more f (md_response_serial_id m) (rsp_serial_id x) (rsp_payload x) = true) xs /\
    wants_more f (md_response_serial_id m) (rsp_serial_id x) (rsp_payload x) = false /\
    Forall2 (fun r x => rsp_serial_id x = md_response_serial_id m /\ ser_response r = Some (rsp_payload x))
      (taken f l) (xs ++ [x]).
Proof.
  intros Hl Hall. revert Hl. induction Hall as [|r x l rs [Hid Hx] Hall IH]; intros Hl; [by destruct Hl as ([] & ? & ? & _)|].
  assert (Hw : wants_more f (md_response_serial_id m) (rsp_serial_id x) (rsp_payload x) = f r && negb (end_of_stream r)).
  { unfold wants_more, stream_response. by rewrite (typed_response_parsed _ _ r x Hid Hx). }
  assert (Hstop : f r && negb (end_of_stream r) = false -> taken f (r :: l) = [r] ->
    exists xs y rest, x :: rs = (xs ++ [y]) ++ rest /\
      Forall (fun x => wants_more f (md_response_serial_id m) (rsp_serial_id x) (rsp_payload x) = true) xs /\
      wants_more f (md_response_serial_id m) (rsp_serial_id y) (rsp_payload y) = false /\
      Forall2 (fun r x => rsp_serial_id x = md_response_serial_id m /\ ser_response r = Some (rsp_payload x))
        (taken f (r :: l)) (xs ++ [y])).
  { intros Hf ->. exists [], x, rs. rewrite Hw. split_and!; [done..|]. by repeat constructor. }
  destruct (ends_last_cons r l Hl) as [[-> Hr]|[Hr Hl']].
  - apply Hstop; [by rewrite Hr, andb_false_r|cbn; by destruct (f r)].
  - destruct (f r) eqn:Hf; [|apply Hstop; [done|cbn; by rewrite Hf]].
    destruct (IH Hl') as (xs & y & rest & -> & Hxs & Hy & H2). exists (x :: xs), y, rest.
    split_and!; [done|constructor; [by rewrite Hw, Hr|done]|done|]. cbn [taken app]. rewrite Hf. by constructor.
Qed.

Lemma wire_of_app rs rs' : Forall fits rs -> wire_of codec (rs ++ rs') = wire_of codec rs +:+ wire_of codec rs'.
Proof.
  induction 1 as [|r rs Hr _ IH]; [done|]. destruct (fits_encoded _ Hr) as [frame He]. cbn [app].
  by rewrite !(wire_of_cons _ _ _ He), IH, append_assoc_str.
Qed.

Lemma seen_prefix {R : Response -> RpcResponse -> Prop} l rs seen :
  Forall2 R l rs -> seen `prefix_of` map frame_of rs ->
  exists l' rs', l' `prefix_of` l /\ Forall2 R l' rs' /\ seen = map frame_of rs'.
Proof.
  intros H. revert seen. induction H as [|r x l rs HR _ IH]; intros [|f seen] Hp;
    try (by exists [], []; split_and!; [apply prefix_nil|constructor|]); [by apply prefix_nil_not in Hp|].
  pose proof (prefix_cons_inv_1 _ _ _ _ Hp) as ->. apply prefix_cons_inv_2 in Hp.
  destruct (IH seen Hp) as (l' & rs' & H1 & H2 & ->). exists (r :: l'), (x :: rs').
  split_and!; [by apply prefix_cons|by constructor|done].
Qed.

(** The bytes of the peer on the connection of [c], or on the one it makes. *)
Definition receives (c : RpcClient) (bytes : string) : Prop :=
  if rp_connected c then rp_rx c = bytes else forall k, peer k = bytes.

Lemma send_request_receives fuel serial_id request o c bytes : receives c bytes ->
  match send_request sys peer fuel serial_id request o c with
  | (Some true, c') => rp_rx c' = bytes
  | (Some false, c') => rp_connected c' = false
  | (None, _) => True
  end.
Proof.
  unfold receives. intros Hb. pose proof (send_request_spec sys peer fuel serial_id request o c) as H.
  destruct (send_request sys peer fuel serial_id request o c) as [[[]|] c1]; [|done..].
  destruct H as (_ & data & _ & [(Hc & -> & _)|(Hc & _ & k & ->)]); by rewrite Hc in Hb.
Qed.

(** C40.  A typed stream call to a skeleton, over a connection that is open or
    that it makes, returns (on fuel for the nanoseconds left to its deadline)
    with the connection closed.  If it says that the stream ended, the callback
    was given exactly the handler's responses, in order, each once, the last of
    them marked as the end and no other, and there is no error text.  If not,
    then either the callback, which decides by the response it is given, has
    stopped the stream before its end, after exactly the responses up to the one
    it stopped at, and the error text is empty; or the transport failed, the
    error text is not empty, and the callback was given a prefix of those. *)
Theorem stub_stream_is_handler_stream handler sk token request on_response timeout_ms payload rs fuel c more
    (stream := stream_of (handler (with_token token request))) :
  ser_request (with_token token request) = Some payload ->
  ser_all (md_response_serial_id m) stream = Some rs ->
  Forall fits rs ->
  receives c (wire_of codec (skeleton_dispatchStream (registerServerStream m handler sk) (md_request_serial_id m) payload) +:+ more) ->
  clock_ticks sys ->
  enough sys fuel (ensureDeadline (sy_now (cur sys c)) (fromTimeout (sy_now (cur sys c)) timeout_ms)) c ->
  exists out c', stub_callStream fuel token m request on_response timeout_ms c = (Some out, c') /\
    rp_connected c' = false /\ ends_last stream /\
    if so_ok out then so_error out = EmptyString /\ so_seen out = stream
    else (so_error out = EmptyString /\ so_seen out = taken on_response stream /\ taken on_response stream <> stream) \/
         (so_error out <> EmptyString /\ so_seen out `prefix_of` taken on_response stream).
Proof.
  intros Hser Hall Hfits Hrx Ht He. unfold stub_callStream. rewrite Hser.
  unfold skeleton_dispatchStream, registerServerStream in Hrx. cbn [stream_handlers] in Hrx. rewrite lookup_insert_eq in Hrx.
  unfold stream_handler in Hrx. rewrite (parse_ser_request _ _ Hser) in Hrx. fold stream in Hrx. rewrite Hall in Hrx.
  assert (Hends : ends_last stream) by apply stream_of_shape.
  destruct (taken_frames on_response stream rs Hends (ser_all_spec _ _ _ Hall)) as (xs & x & rest & -> & Hxs & Hx & HR).
  set (P := wants_more _ _) in *. set (o0 := fromTimeout _ _) in *. apply Forall_app in Hfits as [Hfits _].
  rewrite wire_of_app, append_assoc_str in Hrx by done.
  pose proof (callStream_returns sys peer fuel (md_request_serial_id m) payload P o0 c Ht He) as Hret.
  unfold callStream in *. set (o := ensureDeadline _ o0) in *.
  pose proof (send_request_receives fuel (md_request_serial_id m) payload o c _ Hrx) as Hs.
  destruct (send_request sys peer fuel (md_request_serial_id m) payload o c) as [[[]|] c1]; [| |done].
  - pose proof (stream_loop_wire fuel fuel P o c1 xs x _ Hfits Hxs Hx Hs) as Hloop.
    destruct (stream_loop sys fuel fuel P o c1) as [[[[]|] seen] c2]; [| |done]; destruct Hloop as [Hc2 Hseen].
    + subst seen. destruct (saw_all _ _ (EmptyString, false) HR) as [-> ->].
      destruct (taken_all on_response stream Hends) as (r & -> & Hr). eexists _, _. split_and!; [done..|]. cbn.
      destruct (end_of_stream r); [by rewrite Hr|by left].
    + apply (prefix_app_r _ _ [frame_of x]) in Hseen. change [frame_of x] with (map frame_of [x]) in Hseen.
      rewrite <- map_app in Hseen.
      destruct (seen_prefix _ _ _ HR Hseen) as (l' & rs' & Hp & HR' & ->).
      destruct (saw_all _ _ (EmptyString, false) HR') as [-> ->]. eexists _, _. split_and!; [done..|]. by right.
  - exists (mkStreamOutcome false "rpc stream transport failed" []), c1. split_and!; [done..|].
    right. split; [done|apply prefix_nil].
Qed.

End Stub.
End Typed.

(** A stream method whose request is its token and whose responses are texts,
    served over a connection that gives three bytes at a time. *)
Module StubExample.

#[local] Instance token_method : Method string (bool * string) := {
  auth_token r := r;
  set_auth_token token _ := token;
  ser_request r := Some r;
  parse_request s := Some s;
  ser_response r := Some (String (if r.1 then "!" else ".")%char r.2);
  parse_response s := match s with String c s' => Some (Ascii.eqb c "!", s') | EmptyString => None end
}.

#[local] Instance token_laws : MethodLaws string (bool * string).
Proof. split; [by intros r s [= <-]|]. intros [[] r] s [= <-]; done. Qed.

#[local] Instance text_stream : StreamResponse (bool * string) := {
  end_of_stream r := r.1;
  set_end_of_stream b r := (b, r.2);
  success_response := (false, EmptyString);
  set_end_of_stream_twice a b r := eq_refl;
  end_of_stream_set b r := eq_refl
}.

Definition echo : RpcMethodDescriptor := mkMethod "Echo" kEchoRequestSerialId kEchoResponseSerialId.
Abbreviation metrics := stub_stream_method.

Lemma echo_known : echo ∈ kCorpCronRpcMethods.
Proof. by apply (list_elem_of_lookup_2 _ 0). Qed.
Lemma metrics_known : metrics ∈ kCorpCronRpcMethods.
Proof. by apply (list_elem_of_lookup_2 _ 13). Qed.

Definition greet (token : string) : bool * string := (false, "hello " +:+ token).
Definition three (token : string) : list (bool * string) := [(true, token); (false, "two"); (false, "three")]%string.

Definition sys (k : nat) : Sys := mkSys (1000 + Z.of_nat k) false (fun _ => PReady) (IoSome 3) CnInProgress None.
Definition peer (k : nat) : string := EmptyString.
Definition codec : Codec := DispatcherExample.codec.
Definition served (responses : list RpcResponse) : RpcClient :=
  mkRpcClient "127.0.0.1" 9000 true CS_OK EmptyString (wire_of codec responses +:+ "more") EmptyString 0.

Definition stream_client : RpcClient :=
  served (skeleton_dispatchStream codec (registerServerStream codec metrics three empty_skeleton) 27 "secret").
Definition echo_client : RpcClient :=
  served [skeleton_dispatch codec (registerUnary codec echo greet empty_skeleton) 1 "secret"].

Example three_frames :
  (stub_callStream codec sys peer 60 "secret" metrics EmptyString (fun _ => true) 3000 stream_client).1 =
  Some (mkStreamOutcome true EmptyString [(false, "secret"); (false, "two"); (true, "three")]%string).
Proof. reflexivity. Qed.

Lemma clock : clock_ticks sys.
Proof. intros k. unfold sys, sy_now. lia. Qed.

(** A millisecond, in nanoseconds. *)
Definition fuel : nat := Z.to_nat 1000001.

Lemma fuel_enough c : rp_clock c = 0%nat ->
  enough sys fuel (ensureDeadline (sy_now (cur sys c)) (fromTimeout (sy_now (cur sys c)) 1)) c.
Proof.
  intros Hc. unfold enough, fuel, now_of, cur. rewrite Hc, Z2Nat.id by lia. split_and!; [done|lia|].
  vm_compute. reflexivity.
Qed.

(** A callback that stops at the second response: no end, and no error text. *)
Definition not_two (r : bool * string) : bool := negb (String.eqb r.2 "two").

Example stopped_early :
  (stub_callStream codec sys peer 60 "secret" metrics EmptyString not_two 3000 stream_client).1 =
  Some (mkStreamOutcome false EmptyString [(false, "secret"); (false, "two")]%string).
Proof. reflexivity. Qed.

Lemma stub_stream_is_handler_stream_witness :
  exists out c',
    stub_callStream codec sys peer fuel "secret" metrics EmptyString not_two 1 stream_client = (Some out, c') /\
    rp_connected c' = false /\ ends_last (stream_of (three (with_token "secret" EmptyString))) /\
    if so_ok out then so_error out = EmptyString /\ so_seen out = stream_of (three (with_token "secret" EmptyString))
    else (so_error out = EmptyString /\ so_seen out = taken not_two (stream_of (three (with_token "secret" EmptyString))) /\
          taken not_two (stream_of (three (with_token "secret" EmptyString))) <> stream_of (three (with_token "secret" EmptyString))) \/
         (so_error out <> EmptyString /\ so_seen out `prefix_of` taken not_two (stream_of (three (with_token "secret" EmptyString)))).
Proof.
  eapply (stub_stream_is_handler_stream codec sys peer metrics metrics_known three
            empty_skeleton "secret" EmptyString not_two 1 "secret" _ fuel stream_client "more").
  - reflexivity.
  - reflexivity.
  - repeat (apply Forall_cons; split; [by split|]). apply Forall_nil. exact I.
  - reflexivity.
  - apply clock.
  - by apply fuel_enough.
Defined.

Definition echo_result : option (string + (bool * string)) * RpcClient :=
  stub_call codec sys peer 60 "secret" echo EmptyString 3000 echo_client.

Example echoed : echo_result.1 = Some (inr (false, "hello secret"%string)).
Proof. vm_compute. reflexivity. Qed.

Lemma stub_call_is_handler_call_witness :
  match echo_result with
  | (Some (inr response), c') =>
      response = greet (with_token "secret" EmptyString) /\ rp_rx c' = "more"%string /\
      exists data, tryEncode kEchoRequestSerialId "secret" = Some data /\ rp_tx c' = rp_tx echo_client +:+ data
  | (Some (inl error), c') => error <> EmptyString /\ rp_connected c' = false
  | (None, _) => True
  end.
Proof.
  apply (stub_call_is_handler_call codec sys peer echo echo_known greet empty_skeleton "secret" EmptyString 3000 "secret"
           60 echo_client "more"); [done|by split|by eexists|done|done].
Defined.

End StubExample.
