(* ===== verification/DispatchAwait.v ===== *)
(** Handing a request to the executor and waiting for its responses: the
    [RpcDispatchAwaitable] of [net/tcp_server.cpp], between the event loop, the
    thread pool and the closure a worker runs.

    The loop's thread, the workers and whoever stops the server interleave; a
    step is a critical section of one of them.  Requests are numbers; the
    coroutine and the task of a request have its number. *)
From S2P Require Import Prelude EpollLoop ThreadPool Dispatcher.

Section DispatchAwait.
Context (codec : Codec) {Callback : Type}.

Record DispatchState := mkDispatchState {
  ds_result : list RpcResponse;
  ds_completion_fd : Z;
  ds_ready : bool
}.

Definition setResult (result : list RpcResponse) (ds : DispatchState) : DispatchState :=
  mkDispatchState result (ds_completion_fd ds) true.

(** The constructor; [completion_fd] is what [eventfd] answers and [strerror]
    the system's words for [errno]. *)
Definition RpcDispatchAwaitable (completion_fd : Z) (strerror : string) : DispatchState :=
  let ds := mkDispatchState [] completion_fd false in
  if completion_fd <? 0
  then setResult [make_error_response codec INTERNAL_ERROR ("eventfd: " +:+ strerror)] ds
  else ds.

Definition await_ready (ds : DispatchState) : bool := ds_ready ds.

Definition refused (code : ErrorCode) (message : string) : list RpcResponse := [make_error_response codec code message].

(** [attached]: the executor, the loop and the dispatcher are there. *)
Definition await_suspend (attached ctl_ok : bool) (r : nat) (ds : DispatchState)
    (loop : Loop Callback nat) (pool : Pool nat) : bool * DispatchState * Loop Callback nat * Pool nat :=
  if negb attached then (false, setResult (refused UNAVAILABLE "RPC executor is not available") ds, loop, pool)
  else
    match addCoroutine ctl_ok (ds_completion_fd ds) r loop with
    | (false, loop) => (false, setResult (refused UNAVAILABLE "Event loop is stopping") ds, loop, pool)
    | (true, loop) =>
        match enqueue r pool with
        | (false, pool) =>
            (false, setResult (refused RESOURCE_EXHAUSTED "RPC execution queue is full") ds,
             delFd (ds_completion_fd ds) loop, pool)
        | (true, pool) => (true, ds, loop, pool)
        end
    end.

(** [dispatchStreamWithContext], from the closure's point of view. *)
Inductive Dispatched := Responses (responses : list RpcResponse) | Threw (what : string) | ThrewUnknown.

Definition closure_result (o : Dispatched) : list RpcResponse :=
  match o with
  | Responses responses => responses
  | Threw what => refused INTERNAL_ERROR what
  | ThrewUnknown => refused INTERNAL_ERROR "Unknown RPC execution exception"
  end.

Definition interrupted : list RpcResponse := refused UNAVAILABLE "RPC execution interrupted by shutdown".

Definition never_empty (result : list RpcResponse) : list RpcResponse :=
  match result with
  | [] => refused INTERNAL_ERROR "Empty RPC response"
  | _ => result
  end.

Definition await_resume (ds : DispatchState) : list RpcResponse :=
  if negb (ds_ready ds) then interrupted else never_empty (ds_result ds).

(** ** The requests in flight *)

(** How far the closure of a request is: it has stored the result, it has
    written the descriptor. *)
Inductive Closure := NoClosure | NotRun | Stored | Signalled.
Inductive Awaiting := Suspended | Answered (responses : list RpcResponse).

Record Request := mkRequest { rq_state : DispatchState; rq_closure : Closure; rq_await : Awaiting }.

(** [sy_ended]: the rounds of the loop's [run] are over. *)
Record Sys := mkSys {
  sy_loop : Loop Callback nat;
  sy_pool : Pool nat;
  sy_requests : gmap nat Request;
  sy_ended : bool
}.

Definition set_request (r : nat) (q : Request) (s : Sys) : Sys :=
  mkSys (sy_loop s) (sy_pool s) (<[r := q]> (sy_requests s)) (sy_ended s).

(** [co_await RpcDispatchAwaitable(...)], up to the suspension. *)
Definition co_await (r : nat) (completion_fd : Z) (strerror : string) (attached ctl_ok : bool) (s : Sys) : Sys :=
  let ds := RpcDispatchAwaitable completion_fd strerror in
  if await_ready ds then set_request r (mkRequest ds NoClosure (Answered (await_resume ds))) s
  else
    let '(suspended, ds, loop, pool) := await_suspend attached ctl_ok r ds (sy_loop s) (sy_pool s) in
    let q := if (suspended : bool) then mkRequest ds NotRun Suspended
             else mkRequest ds NoClosure (Answered (await_resume ds)) in
    mkSys loop pool (<[r := q]> (sy_requests s)) (sy_ended s).

(** The coroutine of [r] is resumed. *)
Definition resumed (r : nat) (q : Request) (s : Sys) : Sys :=
  mkSys (take_coroutine (ds_completion_fd (rq_state q)) r (sy_loop s)) (sy_pool s)
    (<[r := mkRequest (rq_state q) (rq_closure q) (Answered (await_resume (rq_state q)))]> (sy_requests s))
    (sy_ended s).

Context (outcome : nat -> Dispatched).

Definition stored (r : nat) (q : Request) : Request :=
  mkRequest (setResult (closure_result (outcome r)) (rq_state q)) Stored (rq_await q).

Inductive sys_step : Sys -> Sys -> Prop :=
(* the handler of a connection awaits a new request *)
| sys_await r completion_fd strerror attached ctl_ok s :
    sy_requests s !! r = None ->
    sys_step s (co_await r completion_fd strerror attached ctl_ok s)
(* a worker runs the closure, then returns to its loop *)
| sys_store i r q s :
    p_workers (sy_pool s) !! i = Some (Busy r) -> sy_requests s !! r = Some q -> rq_closure q = NotRun ->
    sys_step s (set_request r (stored r q) s)
| sys_signal i r q s :
    p_workers (sy_pool s) !! i = Some (Busy r) -> sy_requests s !! r = Some q -> rq_closure q = Stored ->
    sys_step s (set_request r (mkRequest (rq_state q) Signalled (rq_await q)) s)
| sys_return i r q s :
    p_workers (sy_pool s) !! i = Some (Busy r) -> sy_requests s !! r = Some q -> rq_closure q = Signalled ->
    sys_step s (mkSys (sy_loop s) (worker_done i r (sy_pool s)) (sy_requests s) (sy_ended s))
(* anything else the pool's threads do *)
| sys_pool pool s :
    pool_step (sy_pool s) pool ->
    p_accepted pool = p_accepted (sy_pool s) -> p_finished pool = p_finished (sy_pool s) ->
    sys_step s (mkSys (sy_loop s) pool (sy_requests s) (sy_ended s))
(* the loop reports the descriptor, which has been written *)
| sys_event r q s :
    sy_requests s !! r = Some q -> rq_closure q = Signalled ->
    lp_coro_callbacks (sy_loop s) !! ds_completion_fd (rq_state q) = Some r ->
    sys_step s (resumed r q s)
(* the loop is stopped, and resumes what is suspended *)
| sys_stop s : sys_step s (mkSys (stop (sy_loop s)) (sy_pool s) (sy_requests s) (sy_ended s))
| sys_end s : sys_step s (mkSys (sy_loop s) (sy_pool s) (sy_requests s) true)
| sys_pending r q s :
    sy_ended s = true -> sy_requests s !! r = Some q ->
    lp_coro_callbacks (sy_loop s) !! ds_completion_fd (rq_state q) = Some r ->
    sys_step s (resumed r q s).

(** ** Invariant *)

Definition request_ok (s : Sys) (r : nat) (q : Request) : Prop :=
  match rq_closure q with
  | NoClosure => (r ∉ p_accepted (sy_pool s)) /\ exists code message, rq_await q = Answered (refused code message)
  | NotRun => r ∈ p_accepted (sy_pool s) /\ ds_ready (rq_state q) = false /\
      (rq_await q = Suspended \/ sy_ended s = true /\ rq_await q = Answered interrupted)
  | _ => r ∈ p_accepted (sy_pool s) /\ ds_ready (rq_state q) = true /\
      ds_result (rq_state q) = closure_result (outcome r) /\
      (rq_await q = Suspended \/ rq_await q = Answered (never_empty (closure_result (outcome r))) \/
       sy_ended s = true /\ rq_await q = Answered interrupted)
  end.

Record sys_ok (s : Sys) : Prop := {
  pool_good : pool_inv (sy_pool s);
  known : forall r, r ∈ p_accepted (sy_pool s) -> is_Some (sy_requests s !! r);
  once : NoDup (p_accepted (sy_pool s));
  signalled_before_return : forall r, r ∈ p_finished (sy_pool s) ->
    exists q, sy_requests s !! r = Some q /\ rq_closure q = Signalled;
  requests_ok : forall r q, sy_requests s !! r = Some q -> request_ok s r q;
  suspended_waits : forall r q, sy_requests s !! r = Some q -> rq_await q = Suspended ->
    lp_coro_callbacks (sy_loop s) !! ds_completion_fd (rq_state q) = Some r;
  waits_suspended : forall fd r, lp_coro_callbacks (sy_loop s) !! fd = Some r ->
    exists q, sy_requests s !! r = Some q /\ rq_await q = Suspended /\ ds_completion_fd (rq_state q) = fd;
  watched : forall fd r, lp_coro_callbacks (sy_loop s) !! fd = Some r -> fd ∈ lp_interest (sy_loop s)
}.

Lemma request_ok_pool s s' r q :
  p_accepted (sy_pool s') = p_accepted (sy_pool s) -> (sy_ended s = true -> sy_ended s' = true) ->
  request_ok s r q -> request_ok s' r q.
Proof.
  intros Ha He. unfold request_ok. rewrite Ha. destruct (rq_closure q); [done|..]; naive_solver.
Qed.

(** A change of a request that does not concern its coroutine. *)
Lemma update_ok s r q q' : sys_ok s -> sy_requests s !! r = Some q ->
  rq_await q' = rq_await q -> ds_completion_fd (rq_state q') = ds_completion_fd (rq_state q) ->
  (rq_closure q = Signalled -> rq_closure q' = Signalled) -> request_ok s r q' ->
  sys_ok (set_request r q' s).
Proof.
  intros [H1 H2 H3 H4 H5 H6 H7 H8] Hr Ha Hfd Hs Hq. split; simpl; try done.
  - intros r' Hr'. destruct (decide (r = r')) as [->|]; [rewrite lookup_insert_eq; eauto|]. rewrite lookup_insert_ne by done. auto.
  - intros r' Hr'. destruct (H4 r' Hr') as (q1 & Hq1 & Hc). destruct (decide (r = r')) as [->|].
    + rewrite lookup_insert_eq. simplify_eq. eauto.
    + rewrite lookup_insert_ne by done. eauto.
  - intros r' q1 [[<- <-]|[_ Hq1]]%lookup_insert_Some; [|apply H5 in Hq1]; eapply request_ok_pool; try done.
  - intros r' q1 [[<- <-]|[_ Hq1]]%lookup_insert_Some; [|by auto]. rewrite Ha, Hfd. auto.
  - intros fd r' Hfd'. destruct (H7 fd r' Hfd') as (q1 & Hq1 & Haw & Hf). destruct (decide (r = r')) as [->|].
    + rewrite lookup_insert_eq. simplify_eq. exists q'. split_and!; congruence.
    + rewrite lookup_insert_ne by done. eauto.
Qed.

(** A change of the pool that neither accepts nor finishes a task. *)
Lemma pool_ok s pool : sys_ok s -> pool_inv pool -> p_accepted pool = p_accepted (sy_pool s) ->
  (forall r, r ∈ p_finished pool -> exists q, sy_requests s !! r = Some q /\ rq_closure q = Signalled) ->
  sys_ok (mkSys (sy_loop s) pool (sy_requests s) (sy_ended s)).
Proof.
  intros [H1 H2 H3 H4 H5 H6 H7 H8] Hp Ha Hf. split; simpl; rewrite ?Ha; try done.
  intros r q Hq. eapply request_ok_pool; [| |by apply H5]; done.
Qed.

Lemma resumed_ok s r q : sys_ok s -> sy_requests s !! r = Some q ->
  lp_coro_callbacks (sy_loop s) !! ds_completion_fd (rq_state q) = Some r ->
  rq_closure q = Signalled \/ sy_ended s = true -> sys_ok (resumed r q s).
Proof.
  intros [H1 H2 H3 H4 H5 H6 H7 H8] Hr Hfd Hwhy.
  destruct (H7 _ _ Hfd) as (q0 & Hq0 & Haw & _). simplify_eq.
  split; simpl; try done.
  - intros r' Hr'. destruct (decide (r = r')) as [->|]; [rewrite lookup_insert_eq; eauto|]. rewrite lookup_insert_ne by done. auto.
  - intros r' Hr'. destruct (H4 r' Hr') as (q1 & Hq1 & Hc). destruct (decide (r = r')) as [->|].
    + rewrite lookup_insert_eq. simplify_eq. eexists. by split.
    + rewrite lookup_insert_ne by done. eauto.
  - intros r' q1 [[<- <-]|[_ Hq1]]%lookup_insert_Some; [|by eapply request_ok_pool, H5].
    pose proof (H5 r q Hr) as Hq. revert Hq Hwhy. unfold request_ok, await_resume, resumed. simpl.
    destruct (rq_closure q); rewrite Haw.
    + by intros (_ & ? & ? & ?).
    + intros (? & -> & _) [?|?]; [done|]. split_and!; auto.
    + intros (? & -> & -> & _) _. split_and!; auto.
    + intros (? & -> & -> & _) _. split_and!; auto.
  - intros r' q1 [[<- <-]|[Hne Hq1]]%lookup_insert_Some; [done|]. intros Haw1.
    pose proof (H6 _ _ Hq1 Haw1) as Hw. rewrite lookup_delete_ne; [done|]. intros Hfe. rewrite <- Hfe, Hfd in Hw. congruence.
  - intros fd r' [Hne Hfd']%lookup_delete_Some. destruct (H7 _ _ Hfd') as (q1 & Hq1 & Haw1 & Hf1).
    exists q1. split; [|done]. rewrite lookup_insert_ne; [done|]. intros <-. simplify_eq.
  - intros fd r' [Hne Hfd']%lookup_delete_Some. apply H8 in Hfd'. set_solver.
Qed.

(** A request that is answered at once. *)
Lemma answered_ok s r ds code message : sys_ok s -> sy_requests s !! r = None ->
  await_resume ds = refused code message ->
  sys_ok (set_request r (mkRequest ds NoClosure (Answered (await_resume ds))) s).
Proof.
  intros [H1 H2 H3 H4 H5 H6 H7 H8] Hr Hd.
  assert (Hna : r ∉ p_accepted (sy_pool s)) by (intros Hin; destruct (H2 r Hin); congruence).
  split; simpl; try done.
  - intros r' Hr'. rewrite lookup_insert_ne; [auto|]. by intros ->.
  - intros r' Hr'. destruct (H4 r' Hr') as (q1 & Hq1 & Hc). exists q1. rewrite lookup_insert_ne; [done|]. intros ->. congruence.
  - intros r' q1 [[<- <-]|[_ Hq1]]%lookup_insert_Some; [|by eapply request_ok_pool, H5].
    split; [done|]. exists code, message. simpl. by rewrite Hd.
  - intros r' q1 [[<- <-]|[_ Hq1]]%lookup_insert_Some; [done|]. auto.
  - intros fd r' Hfd'. destruct (H7 _ _ Hfd') as (q1 & Hq1 & Haw1 & Hf1).
    exists q1. split; [|done]. rewrite lookup_insert_ne; [done|]. intros ->. congruence.
Qed.

(** The invariant looks at the loop's table only. *)
Lemma loop_ok s loop : sys_ok s -> lp_coro_callbacks loop = lp_coro_callbacks (sy_loop s) ->
  (forall fd, fd ∈ dom (lp_coro_callbacks (sy_loop s)) -> fd ∈ lp_interest loop) ->
  sys_ok (mkSys loop (sy_pool s) (sy_requests s) (sy_ended s)).
Proof.
  intros [H1 H2 H3 H4 H5 H6 H7 H8] Hc Hi. split; simpl; rewrite ?Hc; try done.
  intros fd r Hfd. apply Hi. by apply elem_of_dom.
Qed.

(** A request the pool accepts. *)
Lemma accepted_ok s r ds loop pool : sys_ok s -> sy_requests s !! r = None ->
  addCoroutine true (ds_completion_fd ds) r (sy_loop s) = (true, loop) ->
  enqueue r (sy_pool s) = (true, pool) -> ds_ready ds = false ->
  sys_ok (mkSys loop pool (<[r := mkRequest ds NotRun Suspended]> (sy_requests s)) (sy_ended s)).
Proof.
  intros [H1 H2 H3 H4 H5 H6 H7 H8] Hr Hl Hp Hd.
  assert (Hna : r ∉ p_accepted (sy_pool s)) by (intros Hin; destruct (H2 r Hin); congruence).
  pose proof (inv_enqueue (sy_pool s) r H1) as Hinv. rewrite Hp in Hinv. simpl in Hinv.
  assert (Hpool : p_accepted pool = p_accepted (sy_pool s) ++ [r] /\ p_finished pool = p_finished (sy_pool s)).
  { revert Hp. unfold enqueue. destruct (p_stopping _); [done|]. destruct (_ && _); [done|]. by intros [= <-]. }
  destruct Hpool as [Hacc Hfin].
  assert (Hloop : lp_coro_callbacks loop = <[ds_completion_fd ds := r]> (lp_coro_callbacks (sy_loop s)) /\
    lp_interest loop = {[ds_completion_fd ds]} ∪ lp_interest (sy_loop s) /\
    ds_completion_fd ds ∉ lp_interest (sy_loop s)).
  { revert Hl. unfold addCoroutine, ctl_add. destruct (_ && _) eqn:E; [|done]. intros [= <-].
    rewrite !andb_true_iff, bool_decide_eq_true in E. by destruct E as (_ & _ & E). }
  destruct Hloop as (Hc & Hi & Hn).
  assert (Hfresh : lp_coro_callbacks (sy_loop s) !! ds_completion_fd ds = None).
  { destruct (lp_coro_callbacks (sy_loop s) !! ds_completion_fd ds) eqn:E; [|done]. by apply H8 in E. }
  split; simpl; rewrite ?Hacc, ?Hfin, ?Hc, ?Hi; try done.
  - intros r' [Hr'| ->%list_elem_of_singleton]%elem_of_app; [|rewrite lookup_insert_eq; eauto].
    rewrite lookup_insert_ne; [auto|]. by intros ->.
  - apply NoDup_app. split_and!; [done| |by apply NoDup_singleton]. by intros r' Hr' ->%list_elem_of_singleton.
  - intros r' Hr'. destruct (H4 r' Hr') as (q1 & Hq1 & ?). exists q1. rewrite lookup_insert_ne; [done|]. intros ->. congruence.
  - intros r' q1 [[<- <-]|[Hne Hq1]]%lookup_insert_Some; unfold request_ok; simpl; rewrite Hacc.
    + split_and!; [set_solver|done|by left].
    + specialize (H5 r' q1 Hq1). unfold request_ok in H5. destruct (rq_closure q1); rewrite ?elem_of_app, ?list_elem_of_singleton; naive_solver.
  - intros r' q1 [[<- <-]|[Hne Hq1]]%lookup_insert_Some Haw; [by rewrite lookup_insert_eq|].
    specialize (H6 _ _ Hq1 Haw). rewrite lookup_insert_ne; [done|]. intros Hf. rewrite <- Hf in H6. congruence.
  - intros fd r' [[<- <-]|[Hne Hfd]]%lookup_insert_Some; [rewrite lookup_insert_eq; eauto|].
    destruct (H7 _ _ Hfd) as (q1 & Hq1 & ?). exists q1. split; [|done]. rewrite lookup_insert_ne; [done|]. intros ->. congruence.
  - intros fd r' [[<- <-]|[Hne Hfd]]%lookup_insert_Some; [set_solver|]. apply H8 in Hfd. set_solver.
Qed.

Lemma co_await_ok s r fd strerror attached ctl_ok : sys_ok s -> sy_requests s !! r = None ->
  sys_ok (co_await r fd strerror attached ctl_ok s).
Proof.
  intros Hs Hr. unfold co_await, await_ready, RpcDispatchAwaitable.
  destruct (fd <? 0) eqn:Efd; simpl; [by eapply answered_ok|].
  unfold await_suspend. destruct attached; simpl; [|by eapply answered_ok].
  destruct (addCoroutine ctl_ok fd r (sy_loop s)) as [[] loop] eqn:El; cycle 1.
  { assert (loop = sy_loop s) as -> by (revert El; unfold addCoroutine; destruct (_ && _); by intros [= <-]).
    by eapply answered_ok. }
  assert (ctl_ok = true) as ->.
  { revert El. unfold addCoroutine, ctl_add. destruct ctl_ok; [done|]. by rewrite andb_false_r. }
  destruct (enqueue r (sy_pool s)) as [[] pool] eqn:Ep; [by eapply accepted_ok|].
  assert (pool = sy_pool s) as ->.
  { revert Ep. unfold enqueue. destruct (p_stopping _); [by intros [= <-]|]. destruct (_ && _); by intros [= <-]. }
  eapply (answered_ok (mkSys _ _ _ _)); [|done|done].
  apply loop_ok; [done| |].
  - revert El. unfold addCoroutine, ctl_add. destruct (_ && _) eqn:E; [|done]. intros [= <-]. simpl.
    apply delete_insert_id. destruct (lp_coro_callbacks (sy_loop s) !! fd) eqn:E'; [|done]. apply (watched s Hs) in E'.
    rewrite !andb_true_iff, bool_decide_eq_true in E. tauto.
  - revert El. unfold addCoroutine, ctl_add. destruct (_ && _) eqn:E; [|done]. intros [= <-]. simpl.
    rewrite !andb_true_iff, bool_decide_eq_true in E. intros fd' [r' Hfd']%elem_of_dom. apply (watched s Hs) in Hfd'.
    destruct E as (_ & _ & E). set_solver.
Qed.

Lemma sys_step_ok s s' : sys_step s s' -> sys_ok s -> sys_ok s'.
Proof.
  intros Hstep Hs. destruct Hstep as [r fd e a c s Hr|i r q s Hb Hr Hc|i r q s Hb Hr Hc|i r q s Hb Hr Hc
    |pool s Hp Ha Hf|r q s Hr Hc Hfd|s|s|r q s He Hr Hfd].
  - by apply co_await_ok.
  - apply (update_ok s r q); try done; [by rewrite Hc|].
    pose proof (requests_ok s Hs r q Hr) as Hq. unfold request_ok in *. rewrite Hc in Hq. destruct Hq as (? & ? & [?|[? ?]]); simpl; split_and!; auto.
  - apply (update_ok s r q); try done.
    pose proof (requests_ok s Hs r q Hr) as Hq. unfold request_ok in *. by rewrite Hc in Hq.
  - apply pool_ok; [done|apply (pool_step_inv (sy_pool s)); [by apply step_done|apply Hs]|done|].
    intros r' [Hr'| ->%list_elem_of_singleton]%elem_of_app; [by apply Hs|eauto].
  - apply pool_ok; [done|apply (pool_step_inv (sy_pool s)); [done|apply Hs]|done|]. rewrite Hf. apply Hs.
  - apply resumed_ok; auto.
  - apply loop_ok; [done|apply stop_requests|]. intros fd [r Hfd]%elem_of_dom. rewrite stop_interest.
    by apply (watched s Hs fd r).
  - destruct Hs as [H1 H2 H3 H4 H5 H6 H7 H8]. split; simpl; try done. intros r q Hq. eapply request_ok_pool; [| |by apply H5]; done.
  - apply resumed_ok; auto.
Qed.

Definition started (loop : Loop Callback nat) (init max backlog pending : Z) : Sys :=
  mkSys loop (newPool init max backlog pending) ∅ false.

(** C16.  However the loop, the workers and a stop interleave, a request gets
    one answer and is not forgotten: a request that was not handed to the pool
    is answered with one error at once; one that was is answered with what the
    dispatcher returned (never nothing), unless the loop had ended, when it may
    be told of the shutdown; as long as it has no answer, its coroutine is
    suspended on its own descriptor; and once its task has returned, or the
    pool has stopped, that descriptor has been written, so that the loop will
    report it. *)
Theorem every_request_gets_its_answer loop i m b p s r q :
  lp_coro_callbacks loop = ∅ ->
  rtc sys_step (started loop i m b p) s -> sy_requests s !! r = Some q ->
  (r ∉ p_accepted (sy_pool s) -> exists code message, rq_await q = Answered (refused code message)) /\
  (r ∈ p_accepted (sy_pool s) ->
     rq_await q = Suspended \/ rq_await q = Answered (never_empty (closure_result (outcome r))) \/
     sy_ended s = true /\ rq_await q = Answered interrupted) /\
  (rq_await q = Suspended -> lp_coro_callbacks (sy_loop s) !! ds_completion_fd (rq_state q) = Some r /\
     (r ∈ p_finished (sy_pool s) \/ p_stopped (sy_pool s) = true -> rq_closure q = Signalled)).
Proof.
  intros Hl Hsteps Hr. assert (Hs : sys_ok s).
  { clear Hr. remember (started loop i m b p) as s0 eqn:E0. assert (H0 : sys_ok s0).
    { subst s0. split; simpl; rewrite ?Hl; try done; [apply inv_new|intros ? ?%elem_of_nil; done|constructor|intros ? ?%elem_of_nil; done]. }
    clear E0. induction Hsteps as [|s1 s2 s3 H1 _ IH]; [done|]. apply IH. by eapply sys_step_ok. }
  pose proof (requests_ok s Hs r q Hr) as Hq. unfold request_ok in Hq. split_and!.
  - intros Hna. destruct (rq_closure q); naive_solver.
  - intros Ha. destruct (rq_closure q); naive_solver.
  - intros Haw. split; [by apply (suspended_waits s Hs)|].
    assert (Hfin : r ∈ p_finished (sy_pool s) -> rq_closure q = Signalled).
    { intros Hf. destruct (signalled_before_return s Hs r Hf) as (q' & Hq' & ?). congruence. }
    intros [?|Hst]; [auto|]. apply Hfin. destruct (pool_good s Hs) as []. destruct (inv_stopped Hst) as (_ & Hw & Ht).
    assert (Hacc : r ∈ p_accepted (sy_pool s)) by (destruct (rq_closure q); [destruct Hq as (_ & ? & ? & E); congruence|apply Hq..]).
    rewrite inv_fifo, Ht, app_nil_r, inv_busy, Hw, app_nil_r in Hacc. done.
Qed.

End DispatchAwait.

(** Two requests and one worker: the first is answered, the second is still
    queued when the server is stopped. *)
Module AwaitExample.

Definition codec : Codec := DispatcherExample.codec.
Definition outcome (r : nat) : Dispatched := Responses [mkRpcResponse 2 "pong"].
Abbreviation step := (sys_step (Callback := ()) codec outcome).

Definition q (r : nat) (s : Sys (Callback := ())) : Request :=
  default (mkRequest (mkDispatchState [] 0 false) NoClosure Suspended) (sy_requests s !! r).

Definition s0 : Sys := started (opened 9 (new_loop (Callback := ()))) 1 1 50 4.
Definition s1 : Sys := co_await codec 1 11 "" true true s0.
Definition s2 : Sys := co_await codec 2 12 "" true true s1.
Definition s3 : Sys := mkSys (sy_loop s2) (worker_enter 0 (sy_pool s2)) (sy_requests s2) (sy_ended s2).
Definition s4 : Sys := set_request 1 (stored codec outcome 1 (q 1 s3)) s3.
Definition s5 : Sys := set_request 1 (mkRequest (rq_state (q 1 s4)) Signalled (rq_await (q 1 s4))) s4.
Definition s6 : Sys := resumed codec 1 (q 1 s5) s5.
Definition s7 : Sys := mkSys (stop (sy_loop s6)) (sy_pool s6) (sy_requests s6) (sy_ended s6).
Definition s8 : Sys := mkSys (sy_loop s7) (sy_pool s7) (sy_requests s7) true.
Definition s9 : Sys := resumed codec 2 (q 2 s8) s8.

Lemma run_to_s9 : rtc step s0 s9.
Proof.
  apply (rtc_l _ _ s1); [by apply sys_await|]. apply (rtc_l _ _ s2); [by apply sys_await|].
  apply (rtc_l _ _ s3); [by apply (sys_pool _ _ (worker_enter 0 (sy_pool s2))); [apply step_enter| |]|].
  apply (rtc_l _ _ s4); [by apply (sys_store _ _ 0)|]. apply (rtc_l _ _ s5); [by apply (sys_signal _ _ 0)|].
  apply (rtc_l _ _ s6); [by apply sys_event|]. apply (rtc_l _ _ s7); [by apply sys_stop|].
  apply (rtc_l _ _ s8); [by apply sys_end|]. apply rtc_once. by apply sys_pending.
Qed.

Lemma every_request_gets_its_answer_witness :
  rq_await (q 1 s9) = Answered [mkRpcResponse 2 "pong"] /\ rq_await (q 2 s9) = Answered (interrupted codec) /\
  (rq_await (q 2 s9) = Suspended \/ rq_await (q 2 s9) = Answered (never_empty codec (closure_result codec (outcome 2))) \/
   sy_ended s9 = true /\ rq_await (q 2 s9) = Answered (interrupted codec)).
Proof.
  split; [reflexivity|]. split; [reflexivity|].
  eapply (every_request_gets_its_answer codec outcome _ 1 1 50 4 s9 2 (q 2 s9));
    [|apply run_to_s9|reflexivity|vm_compute; set_solver].
  reflexivity.
Defined.

End AwaitExample.
