(* ===== verification/TcpServer.v ===== *)
(** The listening side of the server: [TcpServer] of [net/tcp_server.cpp] and
    the [ClientConnectionGuard] of its connections.

    The connection handlers are the coroutines of [Connection]; here they are
    opaque, each with the socket its guard will close.  Everything but [stop]
    runs on the loop's thread. *)
From S2P Require Import Prelude Text Metrics EpollLoop.

(** [RpcExecutorOptions] *)
Record RpcExecutorOptions := mkRpcExecutorOptions {
  xo_min_threads : Z; xo_max_threads : Z; xo_backlog_threshold : Z; xo_idle_timeout_sec : Z;
  xo_max_pending_requests : Z
}.
Definition default_executor_options : RpcExecutorOptions := mkRpcExecutorOptions 2 8 8 5 256.

Inductive ServerCallback := HandleAccept.

(** [sv_sockets_opened] and [sv_sockets_closed] list the sockets made and the
    calls of [close]. *)
Record Server := mkServer {
  sv_addr : string;
  sv_port : Z;
  sv_listen_fd : Z;
  sv_loop : Loop ServerCallback Z;
  sv_executor_stopped : bool;
  sv_max_connections : Z;
  sv_active_connections : Z;
  sv_metrics : Metrics;
  sv_handlers : list (Z * string);           (* running handlers: socket, peer *)
  sv_sockets_opened : list Z;
  sv_sockets_closed : list Z
}.

Definition newServer (addr : string) (port max_connections : Z) (m : Metrics) : Server :=
  mkServer addr port (-1) new_loop false max_connections 0 m [] [] [].

Definition set_loop (loop : Loop ServerCallback Z) (s : Server) : Server :=
  mkServer (sv_addr s) (sv_port s) (sv_listen_fd s) loop (sv_executor_stopped s) (sv_max_connections s)
    (sv_active_connections s) (sv_metrics s) (sv_handlers s) (sv_sockets_opened s) (sv_sockets_closed s).
Definition open_socket (fd : Z) (s : Server) : Server :=
  mkServer (sv_addr s) (sv_port s) (sv_listen_fd s) (sv_loop s) (sv_executor_stopped s) (sv_max_connections s)
    (sv_active_connections s) (sv_metrics s) (sv_handlers s) (sv_sockets_opened s ++ [fd]) (sv_sockets_closed s).
(** [close] also takes the descriptor out of the kernel's interest list. *)
Definition close_socket (fd : Z) (s : Server) : Server :=
  mkServer (sv_addr s) (sv_port s) (sv_listen_fd s) (set_interest (fun i => i ∖ {[fd]}) (sv_loop s)) (sv_executor_stopped s) (sv_max_connections s)
    (sv_active_connections s) (sv_metrics s) (sv_handlers s) (sv_sockets_opened s) (sv_sockets_closed s ++ [fd]).
Definition set_listen (fd : Z) (s : Server) : Server :=
  mkServer (sv_addr s) (sv_port s) fd (sv_loop s) (sv_executor_stopped s) (sv_max_connections s)
    (sv_active_connections s) (sv_metrics s) (sv_handlers s) (sv_sockets_opened s) (sv_sockets_closed s).
Definition count_active (n : Z) (m : Metrics -> Metrics) (s : Server) : Server :=
  mkServer (sv_addr s) (sv_port s) (sv_listen_fd s) (sv_loop s) (sv_executor_stopped s) (sv_max_connections s)
    (u64 (sv_active_connections s + n)) (m (sv_metrics s)) (sv_handlers s) (sv_sockets_opened s) (sv_sockets_closed s).
Definition set_handlers (hs : list (Z * string)) (s : Server) : Server :=
  mkServer (sv_addr s) (sv_port s) (sv_listen_fd s) (sv_loop s) (sv_executor_stopped s) (sv_max_connections s)
    (sv_active_connections s) (sv_metrics s) hs (sv_sockets_opened s) (sv_sockets_closed s).

(** [~ClientConnectionGuard] *)
Definition drop_guard (fd : Z) (s : Server) : Server :=
  let s := set_loop (delFd fd (sv_loop s)) s in
  let s := if 0 <=? fd then close_socket fd s else s in
  count_active (-1) decActiveConnection s.

(** The handler at place [i] comes to its end. *)
Definition end_handler (i : nat) (s : Server) : Server :=
  match sv_handlers s !! i with
  | Some (fd, _) => drop_guard fd (set_handlers (take i (sv_handlers s) ++ drop (S i) (sv_handlers s)) s)
  | None => s
  end.

(** [Task::spawn(clientHandler(...))]: the handler is suspended, has ended
    already, or could not be started ([bad_alloc]). *)
Inductive SpawnOutcome := HandlerSuspended | HandlerEnded | HandlerFailed.

(** [accept4] and, of a peer, its address where [inet_ntop] knows it, and its port. *)
Inductive AcceptResult :=
| AcceptAgain | AcceptIntr | AcceptError
| Accepted (client_fd : N) (ip : option string) (port : Z) (outcome : SpawnOutcome).

Definition remote_of (ip : option string) (port : Z) : string :=
  default "unknown"%string ip +:+ ":" +:+ to_string port.

Definition accept_client (client_fd : Z) (ip : option string) (port : Z) (outcome : SpawnOutcome) (s : Server) : Server :=
  let s := open_socket client_fd s in
  if sv_max_connections s <=? sv_active_connections s then
    close_socket client_fd
      (mkServer (sv_addr s) (sv_port s) (sv_listen_fd s) (sv_loop s) (sv_executor_stopped s) (sv_max_connections s)
         (sv_active_connections s) (incRejectedConnection (sv_metrics s)) (sv_handlers s) (sv_sockets_opened s)
         (sv_sockets_closed s))
  else
    let s := count_active 1 incActiveConnection s in
    match outcome with
    | HandlerSuspended => set_handlers (sv_handlers s ++ [(client_fd, remote_of ip port)]) s
    | HandlerEnded => drop_guard client_fd s
    | HandlerFailed => count_active (-1) decActiveConnection (close_socket client_fd s)
    end.

Definition request_stop (s : Server) : Server := set_loop (stop (sv_loop s)) s.

(** One call for each [accept4]; before it another thread may have stopped the
    loop.  Answers whether it has
    returned. *)
Fixpoint handleAccept (accepts : list (bool * AcceptResult)) (s : Server) : bool * Server :=
  if isStopping (sv_loop s) then (true, s)
  else
    match accepts with
    | [] => (false, s)
    | (stopped, a) :: accepts' =>
        let s := if (stopped : bool) then request_stop s else s in
        match a with
        | AcceptAgain | AcceptError => (true, s)
        | AcceptIntr => handleAccept accepts' s
        | Accepted client_fd ip port outcome => handleAccept accepts' (accept_client (Z.of_N client_fd) ip port outcome s)
        end
    end.

Definition closeListenSocket (s : Server) : Server :=
  if sv_listen_fd s =? -1 then s else set_listen (-1) (close_socket (sv_listen_fd s) s).

(** [request_executor_->stop()] returns when its workers have. *)
Definition server_stop (s : Server) : Server :=
  let s := request_stop s in
  mkServer (sv_addr s) (sv_port s) (sv_listen_fd s) (sv_loop s) true (sv_max_connections s)
    (sv_active_connections s) (sv_metrics s) (sv_handlers s) (sv_sockets_opened s) (sv_sockets_closed s).

(** What happens on the loop while it runs. *)
Inductive ServerEvent :=
| EvAccept (accepts : list (bool * AcceptResult))
| EvHandlerEnds (i : nat)
| EvStop.

Definition serve_event (s : Server) (e : ServerEvent) : Server :=
  match e with
  | EvAccept accepts => (handleAccept accepts s).2
  | EvHandlerEnds i => end_handler i s
  | EvStop => request_stop s
  end.
Definition serve (es : list ServerEvent) (s : Server) : Server := foldl serve_event s es.

(** ** Starting *)

(** [htons] *)
Definition htons (port : Z) : Z := port mod 2 ^ 16.

Inductive Hook := NoHook | HookAnswers (ok : bool) | HookThrows.

(** What the system answers to [start]: the descriptors of [init], its
    [epoll_ctl], [socket], [setsockopt], [inet_pton], [bind] for an address and
    a port, [listen], the second [epoll_ctl]; the hook; and what happens in the
    loop, with what its [run] returns. *)
Record StartEnv := mkStartEnv {
  se_epoll_fd : Z; se_wake_fd : Z; se_wake_ok : bool;
  se_socket : Z; se_setsockopt : bool; se_inet_pton : string -> bool; se_bind : string -> Z -> bool;
  se_listen : bool; se_add_ok : bool; se_hook : Hook;
  se_events : list ServerEvent; se_loop_ok : bool
}.

Definition hook_ok (h : Hook) : bool := match h with NoHook => true | HookAnswers ok => ok | HookThrows => false end.

Definition start (e : StartEnv) (s : Server) : bool * Server :=
  match init (se_epoll_fd e) (se_wake_fd e) (se_wake_ok e) (sv_loop s) with
  | (false, loop) => (false, set_loop loop s)
  | (true, loop) =>
      let s := set_loop loop s in
      if se_socket e =? -1 then (false, set_listen (-1) s)
      else
        let s := set_listen (se_socket e) (open_socket (se_socket e) s) in
        if negb (se_setsockopt e) then (false, closeListenSocket s)
        else if negb (se_inet_pton e (sv_addr s)) then (false, closeListenSocket s)
        else if negb (se_bind e (sv_addr s) (htons (sv_port s))) then (false, closeListenSocket s)
        else if negb (se_listen e) then (false, closeListenSocket s)
        else
          match addFd (se_add_ok e) (sv_listen_fd s) (User HandleAccept) (sv_loop s) with
          | (false, loop) => (false, closeListenSocket (set_loop loop s))
          | (true, loop) =>
              let s := set_loop loop s in
              if negb (hook_ok (se_hook e))
              then (false, closeListenSocket (set_loop (delFd (sv_listen_fd s) (sv_loop s)) s))
              else
                let s := serve (se_events e) s in
                (se_loop_ok e, closeListenSocket s)
          end
  end.

(** ** Sockets and connections *)

Definition listening (s : Server) : list Z := if sv_listen_fd s =? -1 then [] else [sv_listen_fd s].

(** [g]: the gauge without this server's connections. *)
Record server_ok (g : Z) (s : Server) : Prop := {
  limit_range : is_u64 (sv_max_connections s);
  active_exact : sv_active_connections s = Z.of_nat (length (sv_handlers s));
  active_bounded : sv_active_connections s <= sv_max_connections s;
  gauge_exact : mt_counter (sv_metrics s) active_connections = u64 (g + sv_active_connections s);
  every_socket : sv_sockets_opened s ≡ₚ sv_sockets_closed s ++ map fst (sv_handlers s) ++ listening s;
  sockets_real : Forall (fun h => 0 <= h.1) (sv_handlers s)
}.

Lemma newServer_ok addr port max m : is_u64 max -> is_u64 (mt_counter m active_connections) ->
  server_ok (mt_counter m active_connections) (newServer addr port max m).
Proof.
  intros Hm Hg. split; simpl; try done; [apply Hm|]. by rewrite Z.add_0_r, u64_small.
Qed.

Lemma u64_add a b : u64 (u64 a + b) = u64 (a + b).
Proof. unfold u64. by rewrite Zplus_mod_idemp_l. Qed.

(** What the invariant reads. *)
Lemma server_ok_ext g s s' : server_ok g s ->
  sv_max_connections s' = sv_max_connections s -> sv_active_connections s' = sv_active_connections s ->
  mt_counter (sv_metrics s') active_connections = mt_counter (sv_metrics s) active_connections ->
  sv_handlers s' = sv_handlers s ->
  sv_sockets_opened s' ≡ₚ sv_sockets_closed s' ++ map fst (sv_handlers s) ++ listening s' ->
  server_ok g s'.
Proof. intros [H1 H2 H3 H4 H5 H6] E1 E2 E3 E4 E5. split; rewrite ?E1, ?E2, ?E3, ?E4; done. Qed.

Lemma accept_client_ok g fd ip port o s : 0 <= fd -> server_ok g s -> server_ok g (accept_client fd ip port o s).
Proof.
  intros Hfd Hs. pose proof Hs as [H1 H2 H3 H4 H5 H6]. unfold accept_client. cbn [sv_max_connections sv_active_connections open_socket].
  assert (Hgone : sv_sockets_opened s ++ [fd] ≡ₚ (sv_sockets_closed s ++ [fd]) ++ map fst (sv_handlers s) ++ listening s)
    by (rewrite H5; solve_Permutation).
  destruct (sv_max_connections s <=? sv_active_connections s) eqn:E; [by apply (server_ok_ext g s)|].
  apply Z.leb_gt in E. unfold is_u64 in H1.
  assert (Hu : u64 (u64 (sv_active_connections s + 1) + -1) = sv_active_connections s).
  { rewrite u64_add, u64_small; [|unfold is_u64]; lia. }
  assert (Hg : u64 (u64 (u64 (g + sv_active_connections s) + 1) + -1) = u64 (g + sv_active_connections s)).
  { rewrite (u64_add (g + _) 1), u64_add. f_equal. lia. }
  destruct o; unfold drop_guard; rewrite ?(proj2 (Z.leb_le 0 fd) Hfd).
  - split; simpl; rewrite ?length_app; simpl; rewrite ?H4, ?u64_add; try done.
    + rewrite u64_small by (unfold is_u64; lia). lia.
    + rewrite u64_small by (unfold is_u64; lia). lia.
    + rewrite (u64_small (sv_active_connections s + 1)) by (unfold is_u64; lia). f_equal. lia.
    + rewrite map_app, H5. simpl. unfold listening. simpl. solve_Permutation.
    + apply Forall_app. split; [done|]. by constructor.
  - apply (server_ok_ext g s); simpl; rewrite ?H4; done.
  - apply (server_ok_ext g s); simpl; rewrite ?H4; done.
Qed.

Lemma request_stop_ok g s : server_ok g s -> server_ok g (request_stop s).
Proof. intros Hs. pose proof (every_socket _ _ Hs). by apply (server_ok_ext g s). Qed.

Lemma handleAccept_ok g accepts s : server_ok g s -> server_ok g (handleAccept accepts s).2.
Proof.
  revert s. induction accepts as [|[stopped a] accepts IH]; intros s Hs; cbn [handleAccept]; destruct (isStopping _); try done.
  assert (Hr : server_ok g (if stopped then request_stop s else s)) by (destruct stopped; [by apply request_stop_ok|done]).
  destruct a; [done|by apply IH|done|]. apply IH. apply accept_client_ok; [lia|done].
Qed.

Lemma end_handler_ok g i s : server_ok g s -> server_ok g (end_handler i s).
Proof.
  intros Hs. pose proof Hs as [H1 H2 H3 H4 H5 H6]. unfold end_handler. destruct (sv_handlers s !! i) as [[fd peer]|] eqn:Ei; [|done].
  pose proof (take_drop_middle _ _ _ Ei) as Hsplit. rewrite <- Hsplit, length_app in H2. simpl in H2.
  pose proof (Forall_lookup_1 _ _ _ _ H6 Ei) as Hfd. simpl in Hfd.
  unfold drop_guard. rewrite (proj2 (Z.leb_le 0 fd) Hfd). unfold is_u64 in H1.
  split; simpl; rewrite ?H4; try done.
  - rewrite u64_small by (unfold is_u64; lia). rewrite length_app. lia.
  - rewrite u64_small by (unfold is_u64; lia). lia.
  - rewrite u64_add, (u64_small (sv_active_connections s + -1)) by (unfold is_u64; lia). f_equal. lia.
  - rewrite H5. rewrite <- Hsplit at 1. rewrite !map_app. simpl. unfold listening. simpl. solve_Permutation.
  - rewrite <- Hsplit in H6. apply Forall_app in H6 as [Ha Hb]. inversion Hb. by apply Forall_app.
Qed.

Lemma serve_ok g es s : server_ok g s -> server_ok g (serve es s).
Proof.
  revert s. induction es as [|e es IH]; intros s Hs; [done|]. apply IH. destruct e; simpl.
  - by apply handleAccept_ok.
  - by apply end_handler_ok.
  - by apply request_stop_ok.
Qed.

Lemma set_loop_ok g loop s : server_ok g s -> server_ok g (set_loop loop s).
Proof. intros Hs. pose proof (every_socket _ _ Hs). by apply (server_ok_ext g s). Qed.

Lemma close_listen_ok g s : server_ok g s -> server_ok g (closeListenSocket s) /\ sv_listen_fd (closeListenSocket s) = -1.
Proof.
  intros Hs. pose proof (every_socket _ _ Hs) as H. revert H. unfold closeListenSocket, listening.
  destruct (sv_listen_fd s =? -1) eqn:E; [by apply Z.eqb_eq in E|]. intros H. split; [|done].
  apply (server_ok_ext g s); try done. simpl. rewrite H. unfold listening. simpl. solve_Permutation.
Qed.

Lemma open_listen_ok g fd s : fd <> -1 -> sv_listen_fd s = -1 -> server_ok g s ->
  server_ok g (set_listen fd (open_socket fd s)).
Proof.
  intros Hfd Hl Hs. apply (server_ok_ext g s); try done. simpl. rewrite (every_socket _ _ Hs). unfold listening. simpl.
  rewrite Hl. simpl. rewrite (proj2 (Z.eqb_neq fd (-1)) Hfd). solve_Permutation.
Qed.

(** The socket listens, on the address and port asked for, when the hook is called. *)
Definition listens (e : StartEnv) (s : Server) : bool :=
  negb (se_socket e =? -1) && se_setsockopt e && se_inet_pton e (sv_addr s) &&
  se_bind e (sv_addr s) (htons (sv_port s)) && se_listen e.

Lemma start_ok g e s : server_ok g s -> sv_listen_fd s = -1 ->
  server_ok g (start e s).2 /\ sv_listen_fd (start e s).2 = -1 /\
  ((start e s).1 = true -> listens e s = true /\ hook_ok (se_hook e) = true /\ se_loop_ok e = true) /\
  (hook_ok (se_hook e) = false -> sv_handlers (start e s).2 = sv_handlers s).
Proof.
  intros Hs Hl. unfold start, listens. destruct (init _ _ _ _) as [[] loop]; [|split_and!; try done; by apply set_loop_ok].
  destruct (se_socket e =? -1) eqn:Efd.
  { split_and!; try done. apply (server_ok_ext g s); try done. rewrite (every_socket _ _ Hs). unfold listening. by rewrite Hl. }
  apply Z.eqb_neq in Efd.
  pose proof (open_listen_ok g _ (set_loop loop s) Efd Hl (set_loop_ok g loop s Hs)) as Ho.
  cbn [sv_addr sv_port set_listen open_socket set_loop sv_listen_fd sv_loop].
  assert (Hkeep : forall s1, sv_handlers (closeListenSocket s1) = sv_handlers s1)
    by (intros s1; unfold closeListenSocket; by destruct (_ =? _)).
  assert (Hfail : forall s1, server_ok g s1 -> sv_handlers s1 = sv_handlers s ->
    server_ok g (closeListenSocket s1) /\ sv_listen_fd (closeListenSocket s1) = -1 /\
    (false = true -> False) /\ sv_handlers (closeListenSocket s1) = sv_handlers s).
  { intros s1 H1 H2. destruct (close_listen_ok g s1 H1). split_and!; try done. by rewrite Hkeep. }
  destruct (se_setsockopt e); cbn [negb]; [|destruct (Hfail _ Ho eq_refl) as (? & ? & _ & ?); split_and!; done].
  destruct (se_inet_pton e _); cbn [negb]; [|destruct (Hfail _ Ho eq_refl) as (? & ? & _ & ?); split_and!; done].
  destruct (se_bind e _ _); cbn [negb]; [|destruct (Hfail _ Ho eq_refl) as (? & ? & _ & ?); split_and!; done].
  destruct (se_listen e); cbn [negb]; [|destruct (Hfail _ Ho eq_refl) as (? & ? & _ & ?); split_and!; done].
  destruct (addFd _ _ _ _) as [[] loop2]; cbn [negb].
  2: { destruct (Hfail _ (set_loop_ok g loop2 _ Ho) eq_refl) as (? & ? & _ & ?); split_and!; done. }
  destruct (hook_ok (se_hook e)) eqn:Eh; cbn [negb].
  - cbn [fst snd]. destruct (close_listen_ok g (serve (se_events e) (set_loop loop2 (set_listen (se_socket e)
      (open_socket (se_socket e) (set_loop loop s)))))) as [H1 H2]; [by apply serve_ok, set_loop_ok|].
    by split_and!.
  - destruct (Hfail (set_loop (delFd (se_socket e) loop2) (set_loop loop2 (set_listen (se_socket e)
      (open_socket (se_socket e) (set_loop loop s))))) ltac:(by apply set_loop_ok, set_loop_ok) eq_refl) as (? & ? & _ & ?).
    split_and!; done.
Qed.

Lemma accept_client_keeps fd ip port o s :
  sv_max_connections (accept_client fd ip port o s) = sv_max_connections s /\
  sv_listen_fd (accept_client fd ip port o s) = sv_listen_fd s.
Proof. unfold accept_client, drop_guard. destruct (_ <=? _); [done|]. by destruct o; [|destruct (_ <=? _)|]. Qed.

Lemma serve_event_keeps s e :
  sv_max_connections (serve_event s e) = sv_max_connections s /\ sv_listen_fd (serve_event s e) = sv_listen_fd s.
Proof.
  destruct e as [accepts|i|]; simpl; [|unfold end_handler, drop_guard; by repeat case_match|done].
  revert s. induction accepts as [|[stopped a] accepts IH]; intros s; cbn [handleAccept]; destruct (isStopping _); try done.
  destruct a; [by destruct stopped|rewrite !(proj1 (IH _)), !(proj2 (IH _)); by destruct stopped|by destruct stopped|].
  destruct (IH (accept_client (Z.of_N client_fd) ip port outcome (if stopped then request_stop s else s))) as [-> ->].
  destruct (accept_client_keeps (Z.of_N client_fd) ip port outcome (if stopped then request_stop s else s)) as [-> ->].
  by destruct stopped.
Qed.

Lemma serve_keeps es s :
  sv_max_connections (serve es s) = sv_max_connections s /\ sv_listen_fd (serve es s) = sv_listen_fd s.
Proof.
  revert s. induction es as [|e es IH]; intros s; [done|]. change (serve (e :: es) s) with (serve es (serve_event s e)).
  destruct (IH (serve_event s e)) as [-> ->]. apply serve_event_keeps.
Qed.

(** C18.  The listening server keeps to its limit and loses no socket: whatever
    is accepted, whenever handlers end or fail to start and whenever it is
    stopped, the number of connections counted is the number of handlers
    running and never above [max_connections]; the gauge of the metrics moves
    with it; and every socket ever made is held by exactly one handler, is the
    listening one, or has been closed, once. *)
Theorem connections_keep_to_the_limit addr port max m fd loop es :
  is_u64 max -> is_u64 (mt_counter m active_connections) -> fd <> -1 ->
  let s := serve es (set_listen fd (open_socket fd (set_loop loop (newServer addr port max m)))) in
  sv_active_connections s = Z.of_nat (length (sv_handlers s)) /\ sv_active_connections s <= max /\
  mt_counter (sv_metrics s) active_connections = u64 (mt_counter m active_connections + sv_active_connections s) /\
  sv_sockets_opened s ≡ₚ sv_sockets_closed s ++ map fst (sv_handlers s) ++ [fd].
Proof.
  intros Hm Hg Hfd s.
  assert (Hs : server_ok (mt_counter m active_connections) s).
  { apply serve_ok, open_listen_ok; [done|done|]. by apply set_loop_ok, newServer_ok. }
  destruct Hs as [_ H2 H3 H4 H5 _]. destruct (serve_keeps es (set_listen fd (open_socket fd (set_loop loop (newServer addr port max m))))) as [Hx Hl].
  fold s in Hx, Hl. rewrite Hx in H3. unfold listening in H5. rewrite Hl in H5. simpl in H5.
  rewrite (proj2 (Z.eqb_neq fd (-1)) Hfd) in H5. split_and!; done.
Qed.

(** [start] leaves no listening socket behind, however it ends: at the
    first call the system refuses, at a hook that refuses or throws, or when
    the loop has run; no connection is accepted unless the hook agreed; and it
    answers [true] only if the socket was bound to the address and the port,
    taken modulo 2^16, and listened, the hook agreed and the loop ended
    well. *)
Theorem start_closes_its_socket addr port max m e :
  is_u64 max -> is_u64 (mt_counter m active_connections) ->
  let '(ok, s) := start e (newServer addr port max m) in
  sv_listen_fd s = -1 /\
  sv_sockets_opened s ≡ₚ sv_sockets_closed s ++ map fst (sv_handlers s) /\
  (hook_ok (se_hook e) = false -> sv_handlers s = []) /\
  (ok = true -> se_bind e addr (htons port) = true /\ se_listen e = true /\ hook_ok (se_hook e) = true /\ se_loop_ok e = true).
Proof.
  intros Hm Hg. destruct (start_ok _ e _ (newServer_ok addr port max m Hm Hg) eq_refl) as (H1 & H2 & H3 & H4).
  destruct (start e (newServer addr port max m)) as [ok s]. cbn [fst snd] in *. pose proof (every_socket _ _ H1) as H5.
  unfold listening in H5. rewrite H2, app_nil_r in H5. split_and!; try done. intros Hok. destruct (H3 Hok) as (Hl & ? & ?).
  unfold listens in Hl. rewrite !andb_true_iff in Hl. tauto.
Qed.

(** Three peers and room for two; one handler ends, then the server is stopped. *)
Module ServerExample.

Definition events : list ServerEvent :=
  [EvAccept [(false, Accepted 10 (Some "10.0.0.1") 4001 HandlerSuspended);
             (false, AcceptIntr);
             (false, Accepted 11 (Some "10.0.0.2") 4002 HandlerSuspended);
             (false, Accepted 12 None 4003 HandlerSuspended); (false, AcceptAgain)];
   EvHandlerEnds 0; EvAccept [(false, Accepted 10 None 4004 HandlerFailed); (true, AcceptAgain)]].

Definition env : StartEnv :=
  mkStartEnv 3 4 true 5 true (fun a => String.eqb a "127.0.0.1") (fun _ port => port =? 8080) true true NoHook events true.

Definition served : Server := serve events (set_listen 5 (open_socket 5 (newServer "127.0.0.1" 8080 2 zero_metrics))).
Definition run_result : bool * Server := start env (newServer "127.0.0.1" 8080 2 zero_metrics).

Lemma connections_keep_to_the_limit_witness :
  sv_handlers served = [(11, "10.0.0.2:4002"%string)] /\ sv_active_connections served = 1 /\
  mt_counter (sv_metrics served) rejected_connections = 1 /\
  sv_sockets_opened served ≡ₚ sv_sockets_closed served ++ map fst (sv_handlers served) ++ [5].
Proof.
  split; [reflexivity|]. split; [reflexivity|]. split; [reflexivity|].
  apply (connections_keep_to_the_limit "127.0.0.1" 8080 2 zero_metrics 5 new_loop events); done.
Defined.

Lemma start_closes_its_socket_witness :
  run_result.1 = true /\ sv_listen_fd run_result.2 = -1 /\ sv_handlers run_result.2 = [(11, "10.0.0.2:4002"%string)] /\
  sv_sockets_closed run_result.2 = [12; 10; 10; 5].
Proof.
  split; [reflexivity|]. split; [|by split].
  assert (H2 : is_u64 2) by done. assert (H0 : is_u64 (mt_counter zero_metrics active_connections)) by done.
  pose proof (start_closes_its_socket "127.0.0.1" 8080 2 zero_metrics env H2 H0) as H.
  unfold run_result. destruct (start env _) as [ok s]. apply H.
Defined.

(** A port above 65535 is taken modulo 2^16. *)
Example port_wraps : (start env (newServer "127.0.0.1" (8080 + 65536) 2 zero_metrics)).1 = true.
Proof. reflexivity. Qed.

End ServerExample.
