(* ===== verification/Logger.v ===== *)
(** The log lines ([common/logger.cpp]).  What other components log is left out
    of their models; this is the text of a line and when it is written. *)
From S2P Require Import Prelude Text Datetime.

Inductive LogLevel := DEBUG | INFO | WARN | ERROR.

Definition level_value (level : LogLevel) : Z :=
  match level with DEBUG => 0 | INFO => 1 | WARN => 2 | ERROR => 3 end.

Definition levelToString (level : LogLevel) : string :=
  match level with DEBUG => "DEBUG" | INFO => "INFO" | WARN => "WARN" | ERROR => "ERROR" end.

(** The double quote and the backslash, by their codes. *)
Definition quote : ascii := "034".
Definition backslash : ascii := "092".

Fixpoint quote_chars (value : string) : string :=
  match value with
  | EmptyString => EmptyString
  | String ch rest =>
      let more := quote_chars rest in
      if Ascii.eqb ch backslash then String backslash (String backslash more)
      else if Ascii.eqb ch quote then String backslash (String quote more)
      else if Ascii.eqb ch "010" then String backslash (String "n" more)
      else if Ascii.eqb ch "013" then String backslash (String "r" more)
      else if Ascii.eqb ch "009" then String backslash (String "t" more)
      else String ch more
  end.

Definition quoteValue (value : string) : string :=
  String quote (quote_chars value +:+ String quote EmptyString).

Fixpoint fields_text (fields : list (string * string)) : string :=
  match fields with
  | [] => EmptyString
  | (key, value) :: rest => " " +:+ key +:+ "=" +:+ quoteValue value +:+ fields_text rest
  end.

(** The message of an event. *)
Definition event_message (event : string) (fields : list (string * string)) : string :=
  "event=" +:+ quoteValue event +:+
  fields_text fields.

(** [now] is what [localtime_r] makes of the clock, as
    [%Y-%m-%d %H:%M:%S]; [None] if it fails. *)
Definition log_line (now : option string) (level : LogLevel) (msg : string) : string :=
  default "0000-00-00 00:00:00"%string now +:+ " [" +:+ levelToString level +:+ "] " +:+ msg.

(** The logger: its level, and the lines written. *)
Record Logger := mkLogger { lg_current_level : LogLevel; lg_out : list string }.

Definition new_logger : Logger := mkLogger INFO [].

Definition setLevel (level : LogLevel) (l : Logger) : Logger := mkLogger level (lg_out l).

Definition log (now : option string) (level : LogLevel) (msg : string) (l : Logger) : Logger :=
  if level_value level <? level_value (lg_current_level l) then l
  else mkLogger (lg_current_level l) (lg_out l ++ [log_line now level msg]).

(** Another thread may change the level between the two tests of an event. *)
Definition log_event (now : option string) (level : LogLevel) (event : string) (fields : list (string * string))
    (between : LogLevel) (l : Logger) : Logger :=
  if level_value level <? level_value (lg_current_level l) then l
  else log now level (event_message event fields) (setLevel between l).

(** ** Reading a line back *)

(** A quoted value, from after its opening quote, and what follows it. *)
Fixpoint unquote (s : string) : option (string * string) :=
  match s with
  | EmptyString => None
  | String ch rest =>
      if Ascii.eqb ch quote then Some (EmptyString, rest)
      else if Ascii.eqb ch backslash then
        match rest with
        | EmptyString => None
        | String e rest =>
            let c := if Ascii.eqb e "n" then "010"%char else if Ascii.eqb e "r" then "013"%char
                     else if Ascii.eqb e "t" then "009"%char else e in
            match unquote rest with Some (v, rest) => Some (String c v, rest) | None => None end
        end
      else match unquote rest with Some (v, rest) => Some (String ch v, rest) | None => None end
  end.

Fixpoint upto (c : ascii) (s : string) : option (string * string) :=
  match s with
  | EmptyString => None
  | String ch rest =>
      if Ascii.eqb ch c then Some (EmptyString, rest)
      else match upto c rest with Some (v, rest) => Some (String ch v, rest) | None => None end
  end.

(** One [key="value"] and what follows it. *)
Definition read_field (s : string) : option (string * string * string) :=
  match upto "=" s with
  | Some (key, String q rest) =>
      if Ascii.eqb q quote then
        match unquote rest with Some (value, rest) => Some (key, value, rest) | None => None end
      else None
  | _ => None
  end.

Fixpoint read_fields (fuel : nat) (s : string) : option (list (string * string)) :=
  match fuel, s with
  | _, EmptyString => Some []
  | S fuel', String " " rest =>
      match read_field rest with
      | Some (key, value, rest) =>
          match read_fields fuel' rest with Some fs => Some ((key, value) :: fs) | None => None end
      | None => None
      end
  | _, _ => None
  end.

(** The event and the fields of a message. *)
Definition read_message (msg : string) : option (string * list (string * string)) :=
  match read_field msg with
  | Some (key, event, rest) =>
      if String.eqb key "event" then
        match read_fields (String.length rest) rest with Some fs => Some (event, fs) | None => None end
      else None
  | None => None
  end.

Fixpoint lacks_char (c : ascii) (s : string) : bool :=
  match s with EmptyString => true | String ch rest => negb (Ascii.eqb ch c) && lacks_char c rest end.

Lemma lacks_char_app c a b : lacks_char c (a +:+ b) = lacks_char c a && lacks_char c b.
Proof. induction a as [|ch a IH]; simpl; [done|]. by rewrite IH, andb_assoc. Qed.

Lemma unquote_quote value rest : unquote (quote_chars value +:+ String quote rest) = Some (value, rest).
Proof.
  induction value as [|ch value IH]; [done|]. cbn [quote_chars].
  repeat match goal with |- context [if Ascii.eqb ch ?c then _ else _] => destruct (Ascii.eqb_spec ch c) as [->|] end;
    cbn [String.append unquote]; try (rewrite IH; by vm_compute).
  rewrite (proj2 (Ascii.eqb_neq ch quote)), (proj2 (Ascii.eqb_neq ch backslash)) by done. by rewrite IH.
Qed.

Lemma upto_app c key rest : lacks_char c key = true -> upto c (key +:+ String c rest) = Some (key, rest).
Proof.
  induction key as [|ch key IH]; simpl; [by rewrite Ascii.eqb_refl|].
  intros [->%negb_true_iff H]%andb_true_iff. by rewrite IH.
Qed.

Lemma read_field_quote key value rest : lacks_char "=" key = true ->
  read_field (key +:+ "=" +:+ quoteValue value +:+ rest) = Some (key, value, rest).
Proof.
  intros Hk. unfold read_field, quoteValue. cbn [String.append]. rewrite upto_app by done.
  rewrite Ascii.eqb_refl, append_assoc_str. cbn [String.append]. by rewrite unquote_quote.
Qed.

Lemma fields_length fields : (length fields <= String.length (fields_text fields))%nat.
Proof.
  induction fields as [|[key value] fields IH]; cbn [fields_text length]; [done|]. rewrite !length_append.
  simpl (String.length " "). lia.
Qed.

Lemma read_fields_text fields fuel :
  Forall (fun f => lacks_char "=" f.1 = true) fields -> (length fields <= fuel)%nat ->
  read_fields fuel (fields_text fields) = Some fields.
Proof.
  intros Hf. revert fuel. induction Hf as [|[key value] fields Hk _ IH]; intros fuel Hl; [by destruct fuel|].
  destruct fuel as [|fuel]; simpl in Hl; [lia|]. cbn [fields_text].
  change (" " +:+ ?x) with (String " " x). cbn [read_fields]. rewrite read_field_quote by done. by rewrite IH by lia.
Qed.

Lemma one_line_quoted value : lacks_char "010" (quote_chars value) = true.
Proof.
  induction value as [|ch value IH]; [done|]. cbn [quote_chars].
  repeat match goal with |- context [if Ascii.eqb ch ?c then _ else _] => destruct (Ascii.eqb_spec ch c) as [->|] end;
    cbn [lacks_char]; rewrite ?IH; try done.
  by rewrite (proj2 (Ascii.eqb_neq _ _)).
Qed.

Lemma one_line_value value : lacks_char "010" (quoteValue value) = true.
Proof. unfold quoteValue. cbn [lacks_char]. by rewrite lacks_char_app, one_line_quoted. Qed.

(** A structured log line says exactly what was logged: whatever the event
    and the values hold (quotes, backslashes, line ends), its message is a
    single line, provided the keys are, and reads back as the event and its
    fields; so no value can forge a field or a line of its own. *)
Theorem event_message_round_trip event fields :
  Forall (fun f => lacks_char "=" f.1 = true /\ lacks_char "010" f.1 = true) fields ->
  read_message (event_message event fields) = Some (event, fields) /\
  lacks_char "010" (event_message event fields) = true.
Proof.
  intros Hf. split.
  - unfold read_message, event_message. change ("event=" +:+ ?x) with ("event" +:+ "=" +:+ x).
    rewrite read_field_quote by done. cbn [String.eqb Ascii.eqb Bool.eqb].
    rewrite read_fields_text; [done| |apply fields_length]. eapply Forall_impl; [done|]. by intros f [? _].
  - unfold event_message. rewrite !lacks_char_app, one_line_value. simpl.
    induction Hf as [|[key value] fields [_ Hk] _ IH]; [done|]. cbn [fields_text fst] in *. rewrite !lacks_char_app, Hk, one_line_value, IH. done.
Qed.

Lemma event_message_round_trip_witness :
  let fields := [("remote", "10.0.0.1:80"); ("error", String quote (String "010" "admin=1"))]%string in
  read_message (event_message "rpc_failed" fields) = Some ("rpc_failed"%string, fields) /\
  lacks_char "010" (event_message "rpc_failed" fields) = true.
Proof. apply (event_message_round_trip "rpc_failed"). repeat constructor. Defined.

(** A plain message is written as it is: it may span lines. *)
Example plain_message_spans_lines :
  lacks_char "010" (log_line None ERROR ("bind: " +:+ String "010" "x")) = false.
Proof. reflexivity. Qed.

(** Lines below the level are not written, and the others one at a time. *)
Lemma log_filters now level msg l :
  lg_out (log now level msg l) =
  if level_value (lg_current_level l) <=? level_value level then lg_out l ++ [log_line now level msg] else lg_out l.
Proof.
  unfold log. destruct (level_value level <? level_value (lg_current_level l)) eqn:E.
  - by rewrite (proj2 (Z.leb_gt _ _)) by (by apply Z.ltb_lt).
  - by rewrite (proj2 (Z.leb_le _ _)) by (by apply Z.ltb_ge).
Qed.
