(* ===== verification/AppConfig.v ===== *)
(** What the two applications read from their configuration ([loadConfig],
    [initRedis] and [initMySQL] of [app/server_app.cpp] and
    [app/worker_app.cpp]).  A refusal is the message that is logged. *)
From S2P Require Import Prelude Text StorageError Config Logger AlertRules RedisClient MySQLClient RpcClientPool TcpServer.

#[local] Open Scope string_scope.
#[local] Open Scope Z_scope.

Definition configureLogLevel (value : string) : LogLevel :=
  let level := str_map tolower value in
  if String.eqb level "debug" then DEBUG
  else if String.eqb level "warn" then WARN
  else if String.eqb level "error" then ERROR
  else INFO.

(** The fields of [ServerApp] and [WorkerApp] that [loadConfig] sets; a worker
    leaves [ac_alert_config] as it was made, and [ac_worker_service_name] is
    its own service name. *)
Record AppConfig := mkAppConfig {
  ac_log_level : LogLevel;
  ac_port : Z;
  ac_bind_host : string;
  ac_max_connections : Z;
  ac_auth_token : string;
  ac_worker_service_name : string;
  ac_executor_options : RpcExecutorOptions;
  ac_metrics_enabled : bool;
  ac_metrics_host : string;
  ac_metrics_port : Z;
  ac_alert_config : AlertRuleConfig;
  ac_endpoint : string;
  ac_node_id : string
}.

Definition default_alert_config : AlertRuleConfig := mkAlertRuleConfig 100 5 10 20 10 50 5000 10000.

Section LoadConfig.
Context (config : Config).

Definition valid_port (port : Z) : bool := negb ((port <=? 0) || (65535 <? port)).

(** [positive_size] and [positiveSizeConfig] *)
Definition positiveSizeConfig (key : string) (fallback : Z) : Z :=
  let value := getInt config key fallback in if 0 <? value then value else fallback.

(** The keys of [prefix]; the server's are under [rpc_executor], the worker's
    under [worker]. *)
Definition load_executor_options (prefix : string) (o : RpcExecutorOptions) : RpcExecutorOptions :=
  let min_threads := positiveSizeConfig (prefix +:+ ".min_threads") (xo_min_threads o) in
  let max_threads := positiveSizeConfig (prefix +:+ ".max_threads") (xo_max_threads o) in
  let max_threads := if max_threads <? min_threads then min_threads else max_threads in
  let backlog_threshold := positiveSizeConfig (prefix +:+ ".backlog_threshold") (xo_backlog_threshold o) in
  let max_pending_requests := positiveSizeConfig (prefix +:+ ".max_pending_requests") (xo_max_pending_requests o) in
  let idle_timeout_sec := getInt config (prefix +:+ ".idle_timeout_sec") 5 in
  let idle_timeout_sec := if idle_timeout_sec <=? 0 then 5 else idle_timeout_sec in
  mkRpcExecutorOptions min_threads max_threads backlog_threshold idle_timeout_sec max_pending_requests.

Definition getAlertUint (key : string) (default_value : Z) : Z :=
  let value := getInt config key default_value in if value <? 0 then default_value else value.

Definition load_alert_config (a : AlertRuleConfig) : AlertRuleConfig :=
  mkAlertRuleConfig
    (getAlertUint "alerts.min_rpc_requests" (min_rpc_requests a))
    (getAlertUint "alerts.rpc_error_rate_percent" (rpc_error_rate_percent a))
    (getAlertUint "alerts.min_task_executions" (min_task_executions a))
    (getAlertUint "alerts.task_failure_rate_percent" (task_failure_rate_percent a))
    (getAlertUint "alerts.min_lock_attempts" (min_lock_attempts a))
    (getAlertUint "alerts.lock_failure_rate_percent" (lock_failure_rate_percent a))
    (getAlertUint "alerts.schedule_delay_p99_ms" (cfg_schedule_delay_p99_ms a))
    (getAlertUint "alerts.task_duration_p99_ms" (cfg_task_duration_p99_ms a)).

Definition node_id_or_endpoint (node_id endpoint : string) : string :=
  if str_empty node_id then endpoint else node_id.

(** [ServerApp::loadConfig], after [Config::load]. *)
Definition load_server : string + AppConfig :=
  let log_level := configureLogLevel (get config "server.log_level" "info") in
  let port := getInt config "server.listen_port" 8080 in
  if negb (valid_port port) then inl "server.listen_port must be between 1 and 65535"
  else
    let bind_host := get config "server.bind_host" "0.0.0.0" in
    let advertise_host := get config "server.advertise_host" "127.0.0.1" in
    let max_connections := getInt config "server.max_connections" 1024 in
    if max_connections <=? 0 then inl "server.max_connections must be greater than zero"
    else
      let auth_token := get config "rpc.auth_token" "" in
      let worker_service_name := get config "scheduler.worker_service_name" "worker" in
      if str_empty worker_service_name then inl "scheduler.worker_service_name must not be empty"
      else
        let executor_options := load_executor_options "rpc_executor" default_executor_options in
        let metrics_enabled := getInt config "metrics.enabled" 1 =? 1 in
        let metrics_host := get config "metrics.host" "127.0.0.1" in
        let metrics_port := getInt config "metrics.port" 9091 in
        if metrics_enabled && negb (valid_port metrics_port) then inl "metrics.port must be between 1 and 65535"
        else
          let alert_config := load_alert_config default_alert_config in
          let endpoint := advertise_host +:+ ":" +:+ to_string port in
          inr (mkAppConfig log_level port bind_host max_connections auth_token worker_service_name executor_options
                 metrics_enabled metrics_host metrics_port alert_config endpoint
                 (node_id_or_endpoint (get config "server.node_id" "") endpoint)).

(** [WorkerApp::loadConfig], after [Config::load]. *)
Definition load_worker : string + AppConfig :=
  let log_level := configureLogLevel (get config "worker.log_level" "info") in
  let port := getInt config "worker.listen_port" 8181 in
  if negb (valid_port port) then inl "worker.listen_port must be between 1 and 65535"
  else
    let bind_host := get config "worker.bind_host" "0.0.0.0" in
    let advertise_host := get config "worker.advertise_host" "127.0.0.1" in
    let service_name := get config "worker.service_name" "worker" in
    if str_empty service_name then inl "worker.service_name must not be empty"
    else
      let max_connections := positiveSizeConfig "worker.max_connections" 1024 in
      let executor_options := load_executor_options "worker" default_executor_options in
      let auth_token := get config "rpc.auth_token" "" in
      let metrics_enabled := getInt config "metrics.enabled" 1 =? 1 in
      let metrics_host := get config "metrics.host" "127.0.0.1" in
      let metrics_port := getInt config "metrics.port" 9191 in
      if metrics_enabled && negb (valid_port metrics_port) then inl "metrics.port must be between 1 and 65535"
      else
        let endpoint := advertise_host +:+ ":" +:+ to_string port in
        inr (mkAppConfig log_level port bind_host max_connections auth_token service_name executor_options
               metrics_enabled metrics_host metrics_port default_alert_config endpoint
               (node_id_or_endpoint (get config "worker.node_id" "") endpoint)).

(** What [initRedis] and [initMySQL] connect to.  The two applications differ in
    what they do with a pool size that is not positive. *)
Definition server_redis : string + string * Z * RedisClientOptions :=
  let host := get config "redis.host" "127.0.0.1" in
  let port := getInt config "redis.port" 6380 in
  if negb (valid_port port) then inl "redis.port must be between 1 and 65535"
  else
    let pool_size := getInt config "redis.pool_size" 4 in
    inr (host, port, mkRedisClientOptions (if pool_size <=? 0 then 1 else pool_size)
                       (getInt config "redis.connect_timeout_ms" 1000) (getInt config "redis.command_timeout_ms" 1000)).

Definition worker_redis : string + string * Z * RedisClientOptions :=
  let host := get config "redis.host" "127.0.0.1" in
  let port := getInt config "redis.port" 6380 in
  if negb (valid_port port) then inl "redis.port must be between 1 and 65535"
  else
    inr (host, port, mkRedisClientOptions (positiveSizeConfig "redis.pool_size" 4)
                       (getInt config "redis.connect_timeout_ms" 1000) (getInt config "redis.command_timeout_ms" 1000)).

Record MySQLAddress := mkMySQLAddress {
  ma_host : string; ma_port : Z; ma_user : string; ma_password : string; ma_database : string;
  ma_options : MySQLClientOptions
}.

Definition server_mysql : string + MySQLAddress :=
  let host := get config "mysql.host" "127.0.0.1" in
  let port := getInt config "mysql.port" 3307 in
  if negb (valid_port port) then inl "mysql.port must be between 1 and 65535"
  else
    let pool_size := getInt config "mysql.pool_size" 4 in
    inr (mkMySQLAddress host port (get config "mysql.user" "root") (get config "mysql.password" "")
           (get config "mysql.database" "corpcron")
           (mkMySQLClientOptions (if pool_size <=? 0 then 1 else pool_size)
              (getInt config "mysql.connect_timeout_sec" 3) (getInt config "mysql.read_timeout_sec" 5)
              (getInt config "mysql.write_timeout_sec" 5) (getInt config "mysql.reconnect" 1 =? 1))).

(** ** Valid configurations *)

Lemma getInt_int key d : is_int d -> is_int (getInt config key d).
Proof.
  intros Hd. unfold getInt, stoi. destruct (str_empty _); [done|].
  destruct (strtol _ _ _) as [[z rest]|]; [|done]. destruct (_ && _) eqn:E; [|done].
  destruct rest; [|done]. zify_bools. unfold is_int. lia.
Qed.

Lemma valid_port_range port : valid_port port = true -> 1 <= port <= 65535.
Proof. unfold valid_port. intros H. zify_bools. lia. Qed.

Lemma positiveSizeConfig_range key d : 1 <= d <= INT_MAX -> 1 <= positiveSizeConfig key d <= INT_MAX.
Proof.
  intros Hd. unfold positiveSizeConfig. pose proof (getInt_int key d) as H. unfold is_int, INT_MIN, INT_MAX in *.
  destruct (0 <? _) eqn:E; zify_bools; lia.
Qed.

Lemma getAlertUint_range key d : 0 <= d <= INT_MAX -> 0 <= getAlertUint key d <= INT_MAX.
Proof.
  intros Hd. unfold getAlertUint. pose proof (getInt_int key d) as H. unfold is_int, INT_MIN, INT_MAX in *.
  destruct (_ <? 0) eqn:E; zify_bools; lia.
Qed.

(** An executor that can start and takes requests. *)
Definition executor_valid (o : RpcExecutorOptions) : Prop :=
  1 <= xo_min_threads o <= xo_max_threads o /\ xo_max_threads o <= INT_MAX /\ 1 <= xo_backlog_threshold o <= INT_MAX /\
  1 <= xo_idle_timeout_sec o <= INT_MAX /\ 1 <= xo_max_pending_requests o <= INT_MAX.

Lemma load_executor_options_valid prefix : executor_valid (load_executor_options prefix default_executor_options).
Proof.
  unfold executor_valid, load_executor_options. simpl.
  pose proof (positiveSizeConfig_range (prefix +:+ ".min_threads") 2 ltac:(done)).
  pose proof (positiveSizeConfig_range (prefix +:+ ".max_threads") 8 ltac:(done)).
  pose proof (positiveSizeConfig_range (prefix +:+ ".backlog_threshold") 8 ltac:(done)).
  pose proof (positiveSizeConfig_range (prefix +:+ ".max_pending_requests") 256 ltac:(done)).
  pose proof (getInt_int (prefix +:+ ".idle_timeout_sec") 5 ltac:(done)) as Hi. unfold is_int in Hi.
  unfold INT_MIN, INT_MAX in *.
  destruct (_ <? _) eqn:E1; destruct (_ <=? 0) eqn:E2; zify_bools; split_and!; lia.
Qed.

Definition alerts_valid (a : AlertRuleConfig) : Prop :=
  Forall (fun z => 0 <= z <= INT_MAX)
    [min_rpc_requests a; rpc_error_rate_percent a; min_task_executions a; task_failure_rate_percent a;
     min_lock_attempts a; lock_failure_rate_percent a; cfg_schedule_delay_p99_ms a; cfg_task_duration_p99_ms a].

Lemma load_alert_config_valid : alerts_valid (load_alert_config default_alert_config).
Proof. repeat constructor; apply getAlertUint_range; done. Qed.

Lemma node_id_nonempty node_id host port :
  node_id_or_endpoint node_id (host +:+ ":" +:+ to_string port) <> EmptyString.
Proof. unfold node_id_or_endpoint. by destruct node_id, host. Qed.

End LoadConfig.

(** [loadConfig] of either application. *)
Inductive App := Server | Worker.

Definition loadConfig (app : App) (config_path : string) (file : option string) (getenv : string -> option string) :
    string + AppConfig :=
  match load file ∅ with
  | (false, _) => inl ("Failed to load config: " +:+ config_path)
  | (true, kv_map) =>
      let config := mkConfig getenv kv_map in
      match app with Server => load_server config | Worker => load_worker config end
  end.

(** What a configuration must be for the application to run on it. *)
Record app_valid (a : AppConfig) : Prop := {
  port_fits : 1 <= ac_port a <= 65535 /\ htons (ac_port a) = ac_port a;
  connections_allowed : 1 <= ac_max_connections a <= INT_MAX;
  executor_runs : executor_valid (ac_executor_options a);
  metrics_port_valid : ac_metrics_enabled a = true -> 1 <= ac_metrics_port a <= 65535;
  thresholds_valid : alerts_valid (ac_alert_config a);
  named : ac_worker_service_name a <> EmptyString /\ ac_node_id a <> EmptyString;
  endpoint_parses : exists host, ac_endpoint a = host +:+ ":" +:+ to_string (ac_port a) /\
    (host <> EmptyString -> parseEndpoint (ac_endpoint a) = Some (host, ac_port a))
}.

Lemma app_valid_intro level port bind max token name executor enabled mhost mport alerts host node :
  valid_port port = true -> 1 <= max <= INT_MAX -> str_empty name = false -> executor_valid executor ->
  enabled && negb (valid_port mport) = false -> alerts_valid alerts ->
  app_valid (mkAppConfig level port bind max token name executor enabled mhost mport alerts
    (host +:+ ":" +:+ to_string port) (node_id_or_endpoint node (host +:+ ":" +:+ to_string port))).
Proof.
  intros Hp%valid_port_range Hm Hn He Hmp Ha. split; simpl; try done.
  - split; [done|]. apply Z.mod_small. lia.
  - intros ->. apply valid_port_range. by destruct (valid_port mport).
  - split; [by destruct name|]. apply node_id_nonempty.
  - exists host. split; [done|]. intros Hh. by apply endpoint_round_trip.
Qed.

(** An application that has loaded its configuration can run on it,
    whatever the file and the environment hold: the port fits the socket's
    address as it is, connections are allowed, the executor has at least one
    thread and no more than its maximum and takes requests, an enabled metrics
    endpoint has a port, thresholds are not negative, the service and the node
    have names, and the endpoint it registers is one that the clients' pool
    parses back to its host and port. *)
Theorem loaded_configuration_is_valid app config_path file getenv a :
  loadConfig app config_path file getenv = inr a -> app_valid a.
Proof.
  unfold loadConfig. destruct (load file ∅) as [[] kv_map]; [|done].
  destruct app; [unfold load_server|unfold load_worker]; cbv zeta; intros H; repeat case_match; try done; simplify_eq; zify_bools;
    apply app_valid_intro; auto using load_executor_options_valid, load_alert_config_valid.
  - split; [lia|]. apply getInt_int. done.
  - by apply positiveSizeConfig_range.
  - by repeat constructor.
Qed.

(** A worker's file, and an environment that overrides its port. *)
Module AppConfigExample.

Definition worker_file : string :=
  unlines ["[worker]"; "listen_port = 70000"; "max_threads = 1"; "min_threads = 4"; "service_name = math";
           "log_level = Debug"; "[metrics]"; "enabled = 0"].
Definition environment (name : string) : option string :=
  if String.eqb name "CORPCRON_WORKER_LISTEN_PORT" then Some "8200" else None.

Definition loaded : AppConfig :=
  mkAppConfig DEBUG 8200 "0.0.0.0" 1024 "" "math" (mkRpcExecutorOptions 4 4 8 5 256) false "127.0.0.1" 9191
    default_alert_config "127.0.0.1:8200" "127.0.0.1:8200".

Example loads : loadConfig Worker "worker.conf" (Some worker_file) environment = inr loaded.
Proof. by vm_compute. Qed.

Lemma loaded_configuration_is_valid_witness :
  loadConfig Worker "worker.conf" (Some worker_file) environment = inr loaded /\ app_valid loaded.
Proof.
  assert (H : loadConfig Worker "worker.conf" (Some worker_file) environment = inr loaded) by (by vm_compute).
  split; [exact H|]. exact (loaded_configuration_is_valid _ _ _ _ _ H).
Defined.

(** Without the variable the port is out of range. *)
Example bad_port : loadConfig Worker "worker.conf" (Some worker_file) (fun _ => None) =
  inl "worker.listen_port must be between 1 and 65535".
Proof. by vm_compute. Qed.

End AppConfigExample.
