(* ===== verification/Daemon.v ===== *)
(** Becoming a daemon and the command line of the two processes ([daemonize],
    [maybeDaemonize], [setupSignalHandling] of [app/server_app.cpp] and
    [app/worker_app.cpp]; [main.cpp], [worker_main.cpp]).

    [fork] splits a run in two that share nothing the code looks at, so that a
    run is the list of the processes it ends in. *)
From S2P Require Import Prelude Effects Config.

Open Scope prog_scope.

(** ** The command line *)

(** The configuration to use, or the exit code after the usage line. *)
Definition config_argument (default_path : string) (argv : list string) : Z + string :=
  match argv with
  | [_; flag; path] => if String.eqb flag "--config" then inr path else inl 2
  | [_] => inr default_path
  | _ => inl 2
  end.
Definition server_config_path : list string -> Z + string := config_argument "config/server.conf".
Definition worker_config_path : list string -> Z + string := config_argument "config/worker.conf".

(** ** System calls *)

Definition STDIN_FILENO : Z := 0.
Definition STDOUT_FILENO : Z := 1.
Definition STDERR_FILENO : Z := 2.

Inductive DaemonE : Type -> Type :=
| Fork : DaemonE Z
| Exit (code : Z) : DaemonE Empty_set
| Setsid : DaemonE bool
| IgnoreHangup : DaemonE ()
| Chdir (path : string) : DaemonE bool
| Open (path : string) : DaemonE Z
| Dup2 (fd newfd : Z) : DaemonE bool
| Close (fd : Z) : DaemonE ().

Abbreviation DP := (Prog DaemonE).

(** [return false] *)
Definition or_false (ok : bool) (k : DP bool) : DP bool := if ok then k else Ret false.

(** One [fork] whose parent leaves. *)
Definition fork_and_leave (k : DP bool) : DP bool :=
  do* pid := ask Fork in
  if pid <? 0 then Ret false
  else if 0 <? pid then do* e := ask (Exit 0) in match (e : Empty_set) with end
  else k.

Definition daemonize : DP bool :=
  fork_and_leave
    (do* ok := ask Setsid in
     or_false ok
       (ask IgnoreHangup ;;!
        fork_and_leave
          (do* ok := ask (Chdir "/") in
           or_false ok
             (do* fd := ask (Open "/dev/null") in
              or_false (negb (fd <? 0))
                (do* ok := ask (Dup2 fd STDIN_FILENO) in
                 or_false ok
                   (do* ok := ask (Dup2 fd STDOUT_FILENO) in
                    or_false ok
                      (do* ok := ask (Dup2 fd STDERR_FILENO) in
                       or_false ok
                         ((if STDERR_FILENO <? fd then ask (Close fd) else Ret ()) ;;! Ret true)))))))).

(** The worker's copy of it, line by line the same. *)
Definition worker_daemonize : DP bool := daemonize.

(** A server is a daemon unless told otherwise, a worker is not. *)
Definition maybeDaemonize (config : Config) : DP bool :=
  let daemon := getInt config "server.daemon" 1 =? 1 in
  if negb daemon then Ret true else daemonize.
Definition worker_maybeDaemonize (config : Config) : DP bool :=
  if negb (getInt config "worker.daemon" 0 =? 1) then Ret true else worker_daemonize.

(** ** Processes *)

(** [pr_hangup]: whether SIGHUP ends the process. *)
Record Process := mkProcess {
  pr_pid : Z; pr_group : Z; pr_session : Z; pr_hangup : bool; pr_cwd : string; pr_files : gmap Z string
}.

(** What the kernel decides: the pids of children, and which calls fail. *)
Record Kernel := mkKernel {
  kn_child : Process -> option Z; kn_chdir : bool; kn_open : option Z; kn_dup2 : Z -> bool
}.

(** A child's pid is that of no process, group or session the caller knows;
    [open] answers a descriptor that is free. *)
Definition child_pid (kn : Kernel) (p : Process) : option Z :=
  c ← kn_child kn p;
  if bool_decide (0 < c /\ c <> pr_pid p /\ c <> pr_group p /\ c <> pr_session p) then Some c else None.
Definition open_fd (kn : Kernel) (p : Process) : option Z :=
  fd ← kn_open kn; if bool_decide (0 <= fd /\ pr_files p !! fd = None) then Some fd else None.

Definition set_files (files : gmap Z string) (p : Process) : Process :=
  mkProcess (pr_pid p) (pr_group p) (pr_session p) (pr_hangup p) (pr_cwd p) files.
Definition set_cwd (path : string) (p : Process) : Process :=
  mkProcess (pr_pid p) (pr_group p) (pr_session p) (pr_hangup p) path (pr_files p).
Definition ignore_hangup (p : Process) : Process :=
  mkProcess (pr_pid p) (pr_group p) (pr_session p) false (pr_cwd p) (pr_files p).
(** [setsid]: refused to the leader of a group. *)
Definition setsid (p : Process) : option Process :=
  if pr_pid p =? pr_group p then None
  else Some (mkProcess (pr_pid p) (pr_pid p) (pr_pid p) (pr_hangup p) (pr_cwd p) (pr_files p)).
Definition child_of (pid : Z) (p : Process) : Process :=
  mkProcess pid (pr_group p) (pr_session p) (pr_hangup p) (pr_cwd p) (pr_files p).

(** How a process left the program: by [_exit], or by returning. *)
Inductive Left (A : Type) := Exited (code : Z) | Returned (a : A).
Arguments Exited {A}.
Arguments Returned {A}.

Fixpoint processes {A} (kn : Kernel) (prog : DP A) (p : Process) : list (Process * Left A) :=
  match prog with
  | Ret a => [(p, Returned a)]
  | Do e k =>
      match e in DaemonE X return (X -> DP A) -> list (Process * Left A) with
      | Exit code => fun _ => [(p, Exited code)]
      | Fork => fun k =>
          match child_pid kn p with
          | None => processes kn (k (-1)) p
          | Some c => processes kn (k c) p ++ processes kn (k 0) (child_of c p)
          end
      | Setsid => fun k => match setsid p with Some p' => processes kn (k true) p' | None => processes kn (k false) p end
      | IgnoreHangup => fun k => processes kn (k ()) (ignore_hangup p)
      | Chdir path => fun k => if kn_chdir kn then processes kn (k true) (set_cwd path p) else processes kn (k false) p
      | Open path => fun k =>
          match open_fd kn p with
          | Some fd => processes kn (k fd) (set_files (<[fd := path]> (pr_files p)) p)
          | None => processes kn (k (-1)) p
          end
      | Dup2 fd newfd => fun k =>
          match pr_files p !! fd with
          | Some file => if kn_dup2 kn newfd then processes kn (k true) (set_files (<[newfd := file]> (pr_files p)) p)
                         else processes kn (k false) p
          | None => processes kn (k false) p
          end
      | Close fd => fun k => processes kn (k ()) (set_files (delete fd (pr_files p)) p)
      end k
  end.

(** ** What becomes of the process *)

Definition detached (p d : Process) : Prop :=
  pr_session d <> pr_session p /\ pr_pid d <> pr_session d /\ pr_pid d <> pr_group d /\
  pr_hangup d = false /\ pr_cwd d = "/"%string /\
  forall n, pr_files d !! n = if bool_decide (0 <= n <= 2) then Some "/dev/null"%string else pr_files p !! n.

Definition left_well {A} (x : Process * Left A) : Prop := x.2 = Exited 0.

(** [gone] left by [_exit(0)] and [d] goes on with the answer [r]. *)
Definition goes_on (l : list (Process * Left bool)) (d : Process) (r : bool) : Prop :=
  exists gone, l = gone ++ [(d, Returned r)] /\ Forall left_well gone.

Lemma goes_on_ret d r : goes_on [(d, Returned r)] d r.
Proof. by exists []. Qed.

Lemma child_pid_spec kn p c : child_pid kn p = Some c -> 0 < c /\ c <> pr_pid p /\ c <> pr_group p /\ c <> pr_session p.
Proof. unfold child_pid. destruct (kn_child kn p) as [c'|]; cbn; [|done]. case_bool_decide; [|done]. by intros [= <-]. Qed.

(** A [fork] whose parent leaves: the child goes on, or the call failed. *)
Lemma fork_and_leave_goes_on kn k p (Q : Process -> bool -> Prop) :
  (forall c, child_pid kn p = Some c -> exists d r, goes_on (processes kn k (child_of c p)) d r /\ Q d r) ->
  Q p false -> exists d r, goes_on (processes kn (fork_and_leave k) p) d r /\ Q d r.
Proof.
  intros Hk Hq. unfold fork_and_leave. cbn [bindP ask processes]. destruct (child_pid kn p) as [c|] eqn:E.
  - destruct (child_pid_spec kn p c E) as (Hc & _). rewrite (proj2 (Z.ltb_ge c 0)), (proj2 (Z.ltb_lt 0 c)) by lia. cbn [Z.ltb Z.compare].
    destruct (Hk c eq_refl) as (d & r & (gone & Hl & Hg) & Hqd). exists d, r. split; [|done].
    exists ((p, Exited 0) :: gone). cbn. rewrite Hl. split; [done|]. by constructor.
  - exists p, false. split; [apply goes_on_ret|done].
Qed.

Lemma dup2_file kn fd newfd p file k (Q : Process -> bool -> Prop) :
  pr_files p !! fd = Some file ->
  (exists d r, goes_on (processes kn k (set_files (<[newfd := file]> (pr_files p)) p)) d r /\ Q d r) -> Q p false ->
  exists d r, goes_on (processes kn (do* ok := ask (Dup2 fd newfd) in or_false ok k) p) d r /\ Q d r.
Proof.
  intros Hf Hk Hq. cbn [bindP ask processes]. rewrite Hf. destruct (kn_dup2 kn newfd); [exact Hk|].
  exists p, false. split; [apply goes_on_ret|done].
Qed.

(** The standard streams of the daemon. *)
Definition on_null (fd : Z) (files : gmap Z string) : gmap Z string :=
  let files := <[STDERR_FILENO := "/dev/null"%string]> (<[STDOUT_FILENO := "/dev/null"%string]>
    (<[STDIN_FILENO := "/dev/null"%string]> (<[fd := "/dev/null"%string]> files))) in
  if STDERR_FILENO <? fd then delete fd files else files.

Lemma on_null_lookup fd files n : 0 <= fd -> files !! fd = None ->
  on_null fd files !! n = if bool_decide (0 <= n <= 2) then Some "/dev/null"%string else files !! n.
Proof.
  intros Hfd Hfree. unfold on_null, STDERR_FILENO, STDOUT_FILENO, STDIN_FILENO. destruct (Z.ltb_spec 2 fd).
  - destruct (decide (n = fd)) as [->|]; [rewrite lookup_delete_eq, bool_decide_eq_false_2 by lia; done|].
    rewrite lookup_delete_ne by done. case_bool_decide.
    + assert (n = 0 \/ n = 1 \/ n = 2) as [->|[->| ->]] by lia; by simplify_map_eq.
    + by rewrite !lookup_insert_ne by lia.
  - case_bool_decide; [assert (n = 0 \/ n = 1 \/ n = 2) as [->|[->| ->]] by lia; by simplify_map_eq|].
    by rewrite !lookup_insert_ne by lia.
Qed.

(** The end of [daemonize], in the grandchild. *)
Definition redirect : DP bool :=
  do* ok := ask (Chdir "/") in
  or_false ok
    (do* fd := ask (Open "/dev/null") in
     or_false (negb (fd <? 0))
       (do* ok := ask (Dup2 fd STDIN_FILENO) in
        or_false ok
          (do* ok := ask (Dup2 fd STDOUT_FILENO) in
           or_false ok
             (do* ok := ask (Dup2 fd STDERR_FILENO) in
              or_false ok ((if STDERR_FILENO <? fd then ask (Close fd) else Ret ()) ;;! Ret true))))).

Lemma redirect_goes_on kn p :
  exists d r, goes_on (processes kn redirect p) d r /\
    (r = true -> exists fd, 0 <= fd /\ pr_files p !! fd = None /\ d = set_files (on_null fd (pr_files p)) (set_cwd "/" p)).
Proof.
  unfold redirect. cbn [bindP ask processes]. destruct (kn_chdir kn); [|exists p, false; split; [apply goes_on_ret|done]].
  cbn [or_false processes]. destruct (open_fd kn (set_cwd "/" p)) as [fd|] eqn:E; [|eexists _, false; split; [apply goes_on_ret|done]].
  unfold open_fd in E. destruct (kn_open kn) as [fd'|]; cbn in E; [|done]. case_bool_decide as Hfd; [|done]. injection E as E. subst fd'.
  destruct Hfd as [Hfd Hfree]. cbn [pr_files set_cwd] in Hfree. rewrite (proj2 (Z.ltb_ge fd 0)) by lia. cbn [negb or_false].
  apply (dup2_file _ _ _ _ "/dev/null"); [cbn; by simplify_map_eq| |done].
  apply (dup2_file _ _ _ _ "/dev/null"); [cbn; destruct (decide (fd = 0)) as [->|]; by simplify_map_eq| |done].
  apply (dup2_file _ _ _ _ "/dev/null");
    [cbn; destruct (decide (fd = 0)) as [->|]; [|destruct (decide (fd = 1)) as [->|]]; by simplify_map_eq| |done].
  exists (set_files (on_null fd (pr_files p)) (set_cwd "/" p)), true. split.
  - unfold on_null. destruct (STDERR_FILENO <? fd) eqn:El; cbn [bindP ask processes]; apply goes_on_ret.
  - intros _. by exists fd.
Qed.

(** What either application goes on as. *)
Lemma redirect_is_the_end : daemonize =
  fork_and_leave (do* ok := ask Setsid in or_false ok (ask IgnoreHangup ;;! fork_and_leave redirect)).
Proof. done. Qed.

(** Whatever fails, one process returns from [daemonize] and all others have
    left with code 0; when it returns true it is detached: in a session of
    its own that it does not lead (so that it cannot get a terminal), deaf to
    hang-ups, in the root directory, its standard streams on the null device
    and its other descriptors as they were. *)
Theorem daemonize_detaches kn p :
  exists d r, goes_on (processes kn daemonize p) d r /\ (r = true -> detached p d).
Proof.
  rewrite redirect_is_the_end.
  apply (fork_and_leave_goes_on _ _ _ (fun d r => r = true -> detached p d)); [|done].
  intros c Hc. apply child_pid_spec in Hc as (_ & _ & Hg & Hs).
  cbn [bindP ask processes]. unfold setsid. cbn [pr_pid pr_group child_of]. rewrite (proj2 (Z.eqb_neq c (pr_group p))) by done.
  cbn [or_false processes].
  apply (fork_and_leave_goes_on _ _ _ (fun d r => r = true -> detached p d)); [|done].
  intros c2 Hc2. apply child_pid_spec in Hc2 as (_ & Hp2 & Hg2 & Hs2). cbn [pr_pid pr_group pr_session] in *.
  edestruct redirect_goes_on as (d & r & Hd & Hr). exists d, r. split; [exact Hd|]. intros ->.
  destruct (Hr eq_refl) as (fd & Hfd & Hfree & ->). unfold detached. cbn. split_and!; [done..|].
  intros n. by apply on_null_lookup.
Qed.

(** ** Signals *)

Definition SIGINT : Z := 2.
Definition SIGTERM : Z := 15.

(** [setupSignalHandling]: [None] when the mask could not be set.  The set is
    also what the signal thread waits for. *)
Definition signal_set : gset Z := {[SIGINT; SIGTERM]}.
Definition setupSignalHandling (masked : bool) (blocked : gset Z) : option (gset Z) :=
  if negb masked then None else Some (blocked ∪ signal_set).

(** ** Examples *)
Module DaemonExample.

Definition shell_child : Process := mkProcess 100 100 50 true "/home/op" {[0 := "tty"; 1 := "tty"; 2 := "tty"; 3 := "config"]}%string.
Definition kernel : Kernel := mkKernel (fun p => Some (pr_pid p + 1)) true (Some 4) (fun _ => true).

Example a_daemon :
  map snd (processes kernel daemonize shell_child) = [Exited 0; Exited 0; Returned true].
Proof. by vm_compute. Qed.

Example usage : server_config_path ["corpcron_server"; "--conf"; "x"]%string = inl 2 /\
  worker_config_path ["corpcron_worker"]%string = inr "config/worker.conf"%string.
Proof. done. Qed.

End DaemonExample.
