(* ===== verification/Application.v ===== *)
(** The life of the two processes ([app/server_app.cpp], [app/worker_app.cpp],
    [main.cpp], [worker_main.cpp]): what is started, stopped and joined, in
    which order, on every path.

    The main thread is a program over its calls.  The signal thread waits for a
    signal and calls [stop]; it can only come first at the test of [stopping_],
    so that its coming first is an answer of that call. *)
From S2P Require Import Prelude Effects AppConfig.

Open Scope prog_scope.

Inductive AppE : Type -> Type :=
| LoadConfig : AppE bool
| MaybeDaemonize : AppE bool
| SetupSignalHandling : AppE bool
| RegisterBuiltinTaskHandlers : AppE ()
| HandlerNames : AppE (list string)
| InitRedis : AppE bool
| InitMySQL : AppE bool
| StartExporter : AppE bool
(* [std::make_unique<TcpServer>] starts the threads of the request executor *)
| MakeServer : AppE ()
(* [TcpServer::start] up to the hook, the loop, and the end of [start] *)
| Listen : AppE bool
| RunLoop : AppE bool
| CloseListener : AppE ()
(* [false] also when the command took effect and its reply was lost *)
| RegisterService (service : string) : AppE bool
| UnregisterService (service : string) : AppE bool
(* [false]: the thread cannot be started, an exception *)
| SpawnHeartbeat : AppE bool
| StartScheduler : AppE bool
| SpawnSignalThread : AppE bool
(* what [stopping_] was *)
| TestAndSetStopping : AppE bool
| NotifyAll : AppE ()
| StopScheduler : AppE ()
| StopExporter : AppE ()
| StopServer : AppE ()
| JoinHeartbeat : AppE ()
| KillSignalThread : AppE ()
| JoinSignalThread : AppE ()
(* the heartbeat thread: [stopping_], and [wait_for] on it for five seconds *)
| ReadStopping : AppE bool
| WaitStopping : AppE bool
| Heartbeat (service : string) : AppE bool.

Abbreviation AP := (Prog AppE).

(** The members that are set, the threads that are joinable and the services
    noted as registered. *)
Record Parts := mkParts {
  pt_redis : bool; pt_exporter : bool; pt_scheduler : bool; pt_server : bool;
  pt_heartbeat_thread : bool; pt_signal_thread : bool; pt_services : list string
}.
Definition no_parts : Parts := mkParts false false false false false false [].

Definition when (b : bool) (p : AP ()) : AP () := if b then p else Ret ().

Definition stop_app (p : Parts) : AP () :=
  do* was_stopping := ask TestAndSetStopping in
  if (was_stopping : bool) then Ret ()
  else
    ask NotifyAll ;;!
    when (pt_scheduler p) (ask StopScheduler) ;;!
    when (pt_exporter p) (ask StopExporter) ;;!
    when (pt_server p) (ask StopServer).

Definition stopSignalThread (p : Parts) : AP () :=
  when (pt_signal_thread p) (ask KillSignalThread ;;! ask JoinSignalThread).

Definition unregister_all (services : list string) : AP () :=
  pfor (fun service => ask (UnregisterService service) ;;! Ret ()) services.

Definition cleanup (p : Parts) : AP Parts :=
  stop_app p ;;!
  when (pt_heartbeat_thread p) (ask JoinHeartbeat) ;;!
  when (pt_redis p) (unregister_all (pt_services p)) ;;!
  stopSignalThread p ;;!
  Ret (mkParts (pt_redis p) (pt_exporter p) (pt_scheduler p) (pt_server p) false false []).

(** [TcpServer::start] with its hook; a hook that throws is one that refuses. *)
Definition start_server (hook : AP (bool * Parts)) (p : Parts) : AP (bool * Parts) :=
  do* listening := ask Listen in
  if negb listening then Ret (false, p)
  else
    do* (ok, p) := hook in
    if negb ok then ask CloseListener ;;! Ret (false, p)
    else
      do* loop_ok := ask RunLoop in
      ask CloseListener ;;! Ret (loop_ok, p).

(** The end of the hook of both applications. *)
Definition spawn_signal (p : Parts) : AP (bool * Parts) :=
  do* ok := ask SpawnSignalThread in
  Ret (ok, mkParts (pt_redis p) (pt_exporter p) (pt_scheduler p) (pt_server p) (pt_heartbeat_thread p) ok (pt_services p)).

Definition server_hook (p : Parts) : AP (bool * Parts) :=
  do* registered := ask (RegisterService "rpc") in
  if negb registered then Ret (false, p)
  else
    let p := mkParts (pt_redis p) (pt_exporter p) (pt_scheduler p) (pt_server p) false false ["rpc"%string] in
    do* heartbeat := ask SpawnHeartbeat in
    if negb heartbeat then Ret (false, p)
    else
      do* scheduler := ask StartScheduler in
      let p := mkParts (pt_redis p) (pt_exporter p) true (pt_server p) true false (pt_services p) in
      if negb scheduler then Ret (false, p) else spawn_signal p.

(** [registerServices]: the services registered, or [None] when one was
    refused, and those before it have been taken back. *)
Fixpoint register_all (services registered : list string) : AP (option (list string)) :=
  match services with
  | [] => Ret (Some registered)
  | service :: services' =>
      do* ok := ask (RegisterService service) in
      if negb ok then unregister_all registered ;;! Ret None
      else register_all services' (registered ++ [service])
  end.

Definition worker_services (service_name : string) (handlers : list string) : list string :=
  service_name :: map (fun handler => service_name +:+ ":" +:+ handler) handlers.

Definition worker_hook_end (p : Parts) (services : list string) : AP (bool * Parts) :=
  let p := mkParts (pt_redis p) (pt_exporter p) (pt_scheduler p) (pt_server p) false false services in
  do* heartbeat := ask SpawnHeartbeat in
  if negb heartbeat then Ret (false, p)
  else spawn_signal (mkParts (pt_redis p) (pt_exporter p) (pt_scheduler p) (pt_server p) true false services).

Definition worker_hook (service_name : string) (p : Parts) : AP (bool * Parts) :=
  do* handlers := ask HandlerNames in
  do* registered := register_all (worker_services service_name handlers) [] in
  match registered with
  | None => Ret (false, p)
  | Some services => worker_hook_end p services
  end.

(** The end of [run], from the metrics exporter on. *)
Definition serve (metrics_enabled : bool) (hook : Parts -> AP (bool * Parts)) : AP (Z * Parts) :=
  do* exporting := (if metrics_enabled then ask StartExporter else Ret true) in
  let p := mkParts true metrics_enabled false false false false [] in
  if negb exporting then Ret (1, p)
  else
    ask MakeServer ;;!
    let p := mkParts true metrics_enabled false true false false [] in
    do* (ok, p) := start_server (hook p) p in
    (if (ok : bool) then Ret () else stop_app p) ;;!
    do* p := cleanup p in
    Ret (if (ok : bool) then 0 else 1, p).

Definition if_ok (step : AppE bool) (k : AP (Z * Parts)) : AP (Z * Parts) :=
  do* ok := ask step in if (ok : bool) then k else Ret (1, no_parts).

Definition run_server (metrics_enabled : bool) : AP (Z * Parts) :=
  if_ok LoadConfig (if_ok MaybeDaemonize (if_ok SetupSignalHandling
    (do* redis := ask InitRedis in
     let p := mkParts true false false false false false [] in
     if negb redis then Ret (1, p)
     else
       do* mysql := ask InitMySQL in
       if negb mysql then Ret (1, p) else serve metrics_enabled server_hook))).

Definition run_worker (metrics_enabled : bool) (service_name : string) : AP (Z * Parts) :=
  if_ok LoadConfig (if_ok MaybeDaemonize (if_ok SetupSignalHandling
    (ask RegisterBuiltinTaskHandlers ;;!
     do* redis := ask InitRedis in
     if negb redis then Ret (1, mkParts true false false false false false [])
     else serve metrics_enabled (worker_hook service_name)))).

(** [main]: [run], then the destructor. *)
Definition main (app : App) (metrics_enabled : bool) (service_name : string) : AP Z :=
  do* (code, p) := (match app with Server => run_server metrics_enabled | Worker => run_worker metrics_enabled service_name end) in
  stop_app p ;;!
  do* _ := cleanup p in
  Ret code.

(** The thread of [startHeartbeat]; a failed heartbeat is only logged.  Answers
    whether it has ended within the rounds. *)
Fixpoint heartbeat_thread (rounds : nat) (services : list string) : AP bool :=
  match rounds with
  | O => Ret false
  | S rounds' =>
      do* stopping := ask ReadStopping in
      if (stopping : bool) then Ret true
      else
        do* stopping := ask WaitStopping in
        if (stopping : bool) then Ret true
        else pfor (fun service => ask (Heartbeat service) ;;! Ret ()) services ;;! heartbeat_thread rounds' services
  end.

(** The server's own versions of the two, for its one service: [cleanup] by the
    flag [service_registered_], and the heartbeat of one endpoint. *)
Definition server_cleanup (service_registered : bool) (p : Parts) : AP Parts :=
  stop_app p ;;!
  when (pt_heartbeat_thread p) (ask JoinHeartbeat) ;;!
  when (service_registered && pt_redis p) (ask (UnregisterService "rpc") ;;! Ret ()) ;;!
  stopSignalThread p ;;!
  Ret (mkParts (pt_redis p) (pt_exporter p) (pt_scheduler p) (pt_server p) false false []).

Fixpoint server_heartbeat_thread (rounds : nat) : AP bool :=
  match rounds with
  | O => Ret false
  | S rounds' =>
      do* stopping := ask ReadStopping in
      if (stopping : bool) then Ret true
      else
        do* stopping := ask WaitStopping in
        if (stopping : bool) then Ret true
        else ask (Heartbeat "rpc") ;;! server_heartbeat_thread rounds'
  end.

(** They do what the ones for a list of services do with the server's list. *)
Lemma server_cleanup_is_cleanup registered p tr q :
  pt_services p = (if (registered : bool) then ["rpc"%string] else []) ->
  exec (server_cleanup registered p) tr q <-> exec (cleanup p) tr q.
Proof.
  intros Hs. unfold server_cleanup, cleanup. rewrite Hs, !exec_bind.
  split; intros (t1 & [] & t2 & -> & H1 & H2); exists t1, (), t2; (split; [done|]); (split; [done|]);
    apply exec_bind in H2 as (t3 & [] & t4 & -> & H3 & H4); apply exec_bind; exists t3, (), t4; (split; [done|]); (split; [done|]);
    destruct registered, (pt_redis p); exact H4.
Qed.

Lemma server_heartbeat_is_heartbeat rounds tr ended :
  exec (server_heartbeat_thread rounds) tr ended <-> exec (heartbeat_thread rounds ["rpc"%string]) tr ended.
Proof.
  revert tr. induction rounds as [|rounds IH]; intros tr; [done|]. cbn.
  split; intros (b1 & t1 & -> & H); exists b1, t1; (split; [done|]); destruct b1; try exact H;
    destruct H as (b2 & t2 & -> & H); exists b2, t2; (split; [done|]); destruct b2; try exact H;
    destruct H as (b3 & t3 & -> & H); exists b3, t3; (split; [done|]); by apply IH.
Qed.

(** The beats of a thread, in rounds over all the services. *)
Fixpoint beats (tr : list (Event AppE)) : list string :=
  match tr with
  | [] => []
  | Called (Heartbeat service) _ :: tr' => service :: beats tr'
  | _ :: tr' => beats tr'
  end.

Lemma beats_app t1 t2 : beats (t1 ++ t2) = beats t1 ++ beats t2.
Proof. induction t1 as [|[X e x] t1 IH]; [done|]. destruct e; simpl; try done. by rewrite IH. Qed.

(** Each round of the heartbeat thread keeps every service alive, also when
    a heartbeat fails. *)
Lemma heartbeat_rounds rounds services tr ended :
  exec (heartbeat_thread rounds services) tr ended -> exists n, beats tr = mjoin (replicate n services).
Proof.
  revert tr. induction rounds as [|rounds IH]; intros tr; cbn [heartbeat_thread].
  { intros [-> _]. by exists 0%nat. }
  intros (stopping & t1 & -> & H). destruct stopping; [destruct H as [-> _]; by exists 0%nat|].
  destruct H as (stopping & t2 & -> & H). destruct stopping; [destruct H as [-> _]; by exists 0%nat|].
  cbn [bindP] in H. apply exec_bind in H as (t3 & [] & t4 & -> & H & Hr). destruct (IH _ Hr) as [n Hn].
  exists (S n). change (beats (t3 ++ t4) = services ++ mjoin (replicate n services)). rewrite beats_app, Hn. f_equal.
  clear -H. revert t3 H. induction services as [|s services IH]; intros u; cbn [pfor].
  - by intros [-> _].
  - intros (u1 & [] & u2 & -> & (ok & u3 & -> & [-> _]) & H)%exec_bind. simpl. f_equal. by apply IH.
Qed.

(** ** The process *)

Inductive Stopper := Nobody | MainThread | SignalThread.

(** What runs and what is registered.  [ps_killed]: the signal thread has been
    sent a signal. *)
Record Process := mkProcess {
  ps_listening : bool; ps_exporter : bool; ps_scheduler : bool; ps_executor : bool;
  ps_heartbeat : bool; ps_signal : bool; ps_killed : bool;
  ps_stopper : Stopper; ps_services : gset string; ps_masked : bool
}.
Definition new_process : Process := mkProcess false false false false false false false Nobody ∅ false.

(** [None]: answers that no process gives. *)
Abbreviation World := (option Process).

#[global] Instance Stopper_eq_dec : EqDecision Stopper.
Proof. solve_decision. Defined.

Definition set_running (exporter scheduler executor : bool) (w : Process) : Process :=
  mkProcess (ps_listening w) exporter scheduler executor (ps_heartbeat w) (ps_signal w) (ps_killed w) (ps_stopper w) (ps_services w) (ps_masked w).
Definition set_threads (heartbeat signal killed : bool) (w : Process) : Process :=
  mkProcess (ps_listening w) (ps_exporter w) (ps_scheduler w) (ps_executor w) heartbeat signal killed (ps_stopper w) (ps_services w) (ps_masked w).
Definition set_stopper (s : Stopper) (w : Process) : Process :=
  mkProcess (ps_listening w) (ps_exporter w) (ps_scheduler w) (ps_executor w) (ps_heartbeat w) (ps_signal w) (ps_killed w) s (ps_services w) (ps_masked w).
Definition set_services (g : gset string) (w : Process) : Process :=
  mkProcess (ps_listening w) (ps_exporter w) (ps_scheduler w) (ps_executor w) (ps_heartbeat w) (ps_signal w) (ps_killed w) (ps_stopper w) g (ps_masked w).
Definition set_listening (b : bool) (w : Process) : Process :=
  mkProcess b (ps_exporter w) (ps_scheduler w) (ps_executor w) (ps_heartbeat w) (ps_signal w) (ps_killed w) (ps_stopper w) (ps_services w) (ps_masked w).

Definition set_masked (b : bool) (w : Process) : Process :=
  mkProcess (ps_listening w) (ps_exporter w) (ps_scheduler w) (ps_executor w) (ps_heartbeat w) (ps_signal w) (ps_killed w) (ps_stopper w) (ps_services w) b.
(** No thread but the main one. *)
Definition single_threaded (w : Process) : bool :=
  negb (ps_exporter w || ps_scheduler w || ps_executor w || ps_heartbeat w || ps_signal w).

Definition allow (b : bool) (w : World) : option World := if b then Some w else None.

(** The moments at which a call is right: the process forks and sets its signal
    mask while it has one thread, and starts others with the mask set, which
    they inherit; nothing is started once the signal thread may be stopping
    things; services are registered while the socket
    listens and never while the heartbeat thread reads their list; a thread is
    joined only once it has been told to end; the loop runs only while the
    signal thread can end it. *)
Definition process_step (l : World) (ev : Event AppE) : option World :=
  match l with
  | None => Some None
  | Some w =>
      match ev with
      | @Called _ X e x =>
          match e in AppE X return X -> option World with
          | MaybeDaemonize => fun _ => allow (single_threaded w) (Some w)
          | SetupSignalHandling => fun ok => allow (single_threaded w) (Some (set_masked ok w))
          | StartExporter => fun ok => allow (ps_masked w && negb (ps_signal w)) (Some (set_running ok (ps_scheduler w) (ps_executor w) w))
          | MakeServer => fun _ => allow (ps_masked w && negb (ps_signal w)) (Some (set_running (ps_exporter w) (ps_scheduler w) true w))
          | StartScheduler => fun _ => allow (ps_masked w && negb (ps_signal w)) (Some (set_running (ps_exporter w) true (ps_executor w) w))
          | Listen => fun ok => Some (Some (set_listening ok w))
          | RunLoop => fun _ => allow (ps_signal w) (Some w)
          | CloseListener => fun _ => Some (Some (set_listening false w))
          | RegisterService service => fun ok =>
              allow (ps_listening w && negb (ps_heartbeat w))
                (Some (if (ok : bool) then set_services ({[service]} ∪ ps_services w) w else w))
          | UnregisterService service => fun _ =>
              allow (negb (ps_heartbeat w)) (Some (set_services (ps_services w ∖ {[service]}) w))
          | SpawnHeartbeat => fun ok => allow (ps_masked w && negb (ps_heartbeat w)) (Some (set_threads ok (ps_signal w) (ps_killed w) w))
          | SpawnSignalThread => fun ok => allow (ps_masked w && negb (ps_signal w)) (Some (set_threads (ps_heartbeat w) ok (ps_killed w) w))
          | TestAndSetStopping => fun was =>
              Some (match ps_stopper w, (was : bool) with
                    | Nobody, false => Some (set_stopper MainThread w)
                    | Nobody, true => if ps_signal w then Some (set_stopper SignalThread w) else None
                    | _, true => Some w
                    | _, false => None
                    end)
          | StopScheduler => fun _ => Some (Some (set_running (ps_exporter w) false (ps_executor w) w))
          | StopExporter => fun _ => Some (Some (set_running false (ps_scheduler w) (ps_executor w) w))
          | StopServer => fun _ => Some (Some (set_running (ps_exporter w) (ps_scheduler w) false w))
          | JoinHeartbeat => fun _ =>
              allow (ps_heartbeat w && negb (bool_decide (ps_stopper w = Nobody)))
                (Some (set_threads false (ps_signal w) (ps_killed w) w))
          | KillSignalThread => fun _ => allow (ps_signal w) (Some (set_threads (ps_heartbeat w) (ps_signal w) true w))
          | JoinSignalThread => fun _ =>
              (* its [stop], if it came first, has run to its end *)
              let w' := set_threads (ps_heartbeat w) false (ps_killed w) w in
              allow (ps_signal w && ps_killed w)
                (Some (if decide (ps_stopper w = SignalThread) then set_running false false false w' else w'))
          | _ => fun _ => Some l
          end x
      end
  end.

(** Nothing runs, and every service that was registered has been unregistered,
    as far as the answers tell. *)
Definition all_gone (l : World) : Prop :=
  match l with
  | None => True
  | Some w =>
      ps_listening w = false /\ ps_exporter w = false /\ ps_scheduler w = false /\ ps_executor w = false /\
      ps_heartbeat w = false /\ ps_signal w = false /\ ps_services w = ∅
  end.

(** ** The services in Redis

    What the server may hold of them, whatever the answers: a call to register
    may have taken effect even if it was answered [false], and one to unregister
    has for certain only if it was answered [true]. *)
Definition may_hold (g : gset string) (ev : Event AppE) : gset string :=
  match ev with
  | @Called _ X e x =>
      match e in AppE X return X -> gset string with
      | RegisterService service => fun _ => {[service]} ∪ g
      | UnregisterService service => fun ok => if (ok : bool) then g ∖ {[service]} else g
      | _ => fun _ => g
      end x
  end.
Definition may_remain (tr : list (Event AppE)) : gset string := foldl may_hold ∅ tr.

Definition names_service (service : string) (ev : Event AppE) : bool :=
  match ev with
  | Called (RegisterService s) _ | Called (UnregisterService s) _ => String.eqb s service
  | _ => false
  end.

(** A call about the service that was answered [false]. *)
Definition failed_call (service : string) (ev : Event AppE) : Prop :=
  ev = Called (RegisterService service) false \/ ev = Called (UnregisterService service) false.

Definition last_call_failed (service : string) (tr : list (Event AppE)) : Prop :=
  exists before ev after, tr = before ++ ev :: after /\ failed_call service ev /\
    Forall (fun e => names_service service e = false) after.

Lemma last_call_snoc service tr ev : last_call_failed service tr -> names_service service ev = false ->
  last_call_failed service (tr ++ [ev]).
Proof.
  intros (b & e & a & -> & Hf & Ha) Hn. exists b, e, (a ++ [ev]). split; [by rewrite <- app_assoc|].
  split; [done|]. apply Forall_app. split; [done|by constructor].
Qed.

Lemma last_call_now service tr ev : failed_call service ev -> last_call_failed service (tr ++ [ev]).
Proof. intros Hf. by exists tr, ev, []. Qed.

(** What may be left is registered for all the process knows, or its last call
    failed. *)
Lemma remaining_services tr w : monitor process_step (Some new_process) tr = Some (Some w) ->
  forall service, service ∈ may_remain tr -> service ∈ ps_services w \/ last_call_failed service tr.
Proof.
  revert w. induction tr as [|[X e x] tr IH] using rev_ind; intros w; [by intros _ service ?%elem_of_empty|].
  rewrite monitor_app. destruct (monitor process_step (Some new_process) tr) as [[w1|]|] eqn:Em; [|done|done].
  cbn [mbind option_bind monitor]. intros Hs service. unfold may_remain. rewrite foldl_app. cbn [foldl].
  assert (Hold : names_service service (Called e x) = false -> service ∈ may_remain tr ->
    service ∈ ps_services w1 \/ last_call_failed service (tr ++ [Called e x])).
  { intros Hn Hin. destruct (IH w1 eq_refl service Hin) as [H|H]; [by left|right; by apply last_call_snoc]. }
  destruct e as [ | | | | | | | | | | | |name|name| | | | | | | | | | | | | | ];
    try (intros Hin; specialize (Hold eq_refl Hin);
         cbn in Hs; unfold allow in Hs; repeat case_match; simplify_eq; exact Hold).
  - cbn in Hs. unfold allow in Hs. destruct (_ && _); [|done]. destruct (decide (name = service)) as [->|Hne].
    + intros _. destruct x; simplify_eq; simpl; [left; set_solver|right; by apply last_call_now; left].
    + intros Hin. destruct (Hold (proj2 (String.eqb_neq name service) Hne)) as [H|H]; [set_solver| |by right].
      left. destruct x; simplify_eq; simpl; set_solver.
  - cbn in Hs. unfold allow in Hs. destruct (negb _); [|done]. simplify_eq. destruct (decide (name = service)) as [->|Hne].
    + destruct x; [set_solver|]. intros _. right. by apply last_call_now; right.
    + intros Hin. destruct (Hold (proj2 (String.eqb_neq name service) Hne)) as [H|H]; [cbn [may_hold] in Hin; destruct x; set_solver| |by right].
      left. simpl. set_solver.
Qed.

Abbreviation wpA := (wp process_step).

(** A run with answers no process gives. *)
Lemma wp_none {A} (p : AP A) : wpA p None (fun _ l => l = None).
Proof. induction p as [a|X e k IH]; simpl; [done|]. intros x. by exists None. Qed.

Lemma wp_none_any {A} (p : AP A) (Q : A -> World -> Prop) : (forall a, Q a None) -> wpA p None Q.
Proof. intros HQ. eapply wp_mono; [apply wp_none|]. by intros a l ->. Qed.

(** A post-condition that asks nothing of such runs. *)
Definition real {A} (P : A -> Process -> Prop) (a : A) (l : World) : Prop :=
  match l with Some w => P a w | None => True end.

Lemma wp_seq {A B} (p : AP A) (k : A -> AP B) l (P : A -> Process -> Prop) (Q : B -> Process -> Prop) :
  wpA p l (real P) -> (forall a w, P a w -> wpA (k a) (Some w) (real Q)) -> wpA (bindP p k) l (real Q).
Proof.
  intros Hp Hk. apply wp_bind. eapply wp_mono; [exact Hp|]. intros a [w|] Ha; [by apply Hk|]. by apply wp_none_any.
Qed.

Lemma wp_call {A X} (e : AppE X) (k : X -> AP A) w w' Q :
  (forall x, process_step (Some w) (Called e x) = Some (Some w')) -> (forall x, wpA (k x) (Some w') Q) ->
  wpA (bindP (ask e) k) (Some w) Q.
Proof. intros He Hk. apply wp_bind. intros x. exists (Some w'). split; [apply He|]. apply wp_ret, Hk. Qed.

(** The process against what the application remembers of it. *)
Record tracks (p : Parts) (w : Process) : Prop := {
  tr_listening : ps_listening w = false;
  tr_exporter : ps_exporter w = true -> pt_exporter p = true;
  tr_scheduler : ps_scheduler w = true -> pt_scheduler p = true;
  tr_executor : ps_executor w = true -> pt_server p = true;
  tr_heartbeat : ps_heartbeat w = pt_heartbeat_thread p;
  tr_signal : ps_signal w = pt_signal_thread p;
  tr_services : ps_services w ⊆ list_to_set (pt_services p);
  tr_redis : ps_services w <> ∅ -> pt_redis p = true;
  tr_main : ps_stopper w = MainThread -> ps_exporter w = false /\ ps_scheduler w = false /\ ps_executor w = false;
  tr_thread : ps_stopper w = SignalThread -> ps_signal w = true
             \/ ps_exporter w = false /\ ps_scheduler w = false /\ ps_executor w = false
}.

Lemma when_wp (b : bool) (e : AppE ()) w w' :
  (b = true -> process_step (Some w) (Called e tt) = Some (Some w')) -> (b = false -> w' = w) ->
  wpA (when b (ask e)) (Some w) (real (fun _ w1 => w1 = w')).
Proof. intros Hb Hn. destruct b; simpl; [|symmetry; auto]. intros []. exists (Some w'). split; [by apply Hb|done]. Qed.

Lemma off (b c : bool) : (b = true -> c = true) -> c = false -> b = false.
Proof. intros H ->. destruct b; [|done]. symmetry. by apply H. Qed.

(** The parts of [stop]. *)
Lemma stop_parts_wp p w : tracks p w ->
  wpA (when (pt_scheduler p) (ask StopScheduler) ;;! when (pt_exporter p) (ask StopExporter) ;;!
       when (pt_server p) (ask StopServer)) (Some (set_stopper MainThread w))
    (real (fun _ w' => w' = set_running false false false (set_stopper MainThread w))).
Proof.
  intros [_ H2 H3 H4 _ _ _ _ _ _].
  apply (wp_seq _ _ _ (fun _ w' => w' = set_running (ps_exporter w) false (ps_executor w) (set_stopper MainThread w))).
  { apply when_wp; [done|]. intros Hc. unfold set_running, set_stopper. simpl. by rewrite (off _ _ H3 Hc). }
  intros [] w1 ->.
  apply (wp_seq _ _ _ (fun _ w' => w' = set_running false false (ps_executor w) (set_stopper MainThread w))).
  { apply when_wp; [done|]. intros Hc. unfold set_running, set_stopper. simpl. by rewrite (off _ _ H2 Hc). }
  intros [] w2 ->. apply when_wp; [done|]. intros Hc. unfold set_running, set_stopper. simpl. by rewrite (off _ _ H4 Hc).
Qed.

Lemma stop_app_wp p w : tracks p w -> wpA (stop_app p) (Some w) (real (fun _ w' => tracks p w' /\ ps_stopper w' <> Nobody)).
Proof.
  intros Ht. pose proof Ht as [H1 H2 H3 H4 H5 H6 H7 H8 H9 H10]. unfold stop_app. apply wp_bind. intros was. simpl.
  destruct (ps_stopper w) eqn:Es, was; (eexists; split; [reflexivity|]); try (by apply wp_none_any).
  - destruct (ps_signal w) eqn:Eg; [|by apply wp_none_any]. simpl. split; [|done]. split; simpl; try done; intros; auto; congruence.
  - simpl. intros _. eexists. split; [reflexivity|].
    eapply wp_mono; [by apply stop_parts_wp|]. intros [] [w'|]; [|done]. simpl. intros ->. split; [|done]. by split.
  - simpl. split; [done|by rewrite Es].
  - simpl. split; [done|by rewrite Es].
Qed.

Lemma unregister_all_wp services w : ps_heartbeat w = false ->
  wpA (unregister_all services) (Some w)
    (real (fun _ w' => w' = set_services (ps_services w ∖ list_to_set services) w)).
Proof.
  revert w. induction services as [|s services IH]; intros w Hh; unfold unregister_all; cbn [pfor].
  - simpl. destruct w. unfold set_services. simpl. f_equal. set_solver.
  - apply wp_bind. eapply wp_call; [intros x; simpl; by rewrite Hh|]. intros _. apply wp_ret.
    eapply wp_mono; [by apply IH|].
    intros [] [w'|]; [|done]. simpl. intros ->. unfold set_services. simpl. f_equal. set_solver.
Qed.

Definition joined (p : Parts) : Parts :=
  mkParts (pt_redis p) (pt_exporter p) (pt_scheduler p) (pt_server p) false false [].

Lemma gone_tracks p w : all_gone (Some w) -> tracks (joined p) w /\ all_gone (Some w).
Proof.
  intros Hg. split; [|done]. destruct Hg as (H1 & H2 & H3 & H4 & H5 & H6 & H7).
  split; simpl; rewrite ?H1, ?H2, ?H3, ?H4, ?H5, ?H6, ?H7; done || auto.
Qed.

Lemma cleanup_wp p w : tracks p w ->
  wpA (cleanup p) (Some w) (real (fun p' w' => p' = joined p /\ tracks p' w' /\ all_gone (Some w'))).
Proof.
  intros Ht. unfold cleanup.
  apply (wp_seq _ _ _ (fun _ w' => tracks p w' /\ ps_stopper w' <> Nobody)); [by apply stop_app_wp|].
  intros [] w1 [[H1 H2 H3 H4 H5 H6 H7 H8 H9 H10] Hst].
  apply (wp_seq _ _ _ (fun _ w2 => w2 = set_threads false (ps_signal w1) (ps_killed w1) w1)).
  { unfold when. rewrite <- H5. destruct (ps_heartbeat w1) eqn:Eh; simpl.
    - intros ?. rewrite Eh. rewrite bool_decide_false by done. eexists. split; [reflexivity|]. done.
    - destruct w1. simpl in *. by subst. }
  intros [] w2 ->.
  apply (wp_seq _ _ _ (fun _ w3 => w3 = set_services ∅ (set_threads false (ps_signal w1) (ps_killed w1) w1))).
  { unfold when. destruct (pt_redis p) eqn:Er.
    - eapply wp_mono; [by apply unregister_all_wp|]. intros [] [w3|]; [|done]. simpl. intros ->. f_equal.
      set_solver.
    - simpl. destruct (decide (ps_services w1 = ∅)) as [E|E]; [|by specialize (H8 E)].
      destruct w1. simpl in *. by subst. }
  intros [] w3 ->.
  unfold stopSignalThread, when. rewrite <- H6. destruct (ps_signal w1) eqn:Eg.
  - apply wp_bind. simpl. intros ?. rewrite ?Eg. eexists. split; [reflexivity|]. simpl. intros ?. eexists.
    split; [reflexivity|]. simpl. destruct (decide (ps_stopper w1 = SignalThread)) as [Es|Es]; simpl.
    + split; [done|]. by apply gone_tracks.
    + destruct (ps_stopper w1) eqn:Es'; [done| |done]. destruct (H9 eq_refl) as (? & ? & ?).
      split; [done|]. by apply gone_tracks.
  - simpl. assert (Hoff : ps_exporter w1 = false /\ ps_scheduler w1 = false /\ ps_executor w1 = false).
    { destruct (ps_stopper w1) eqn:Es; [done|by apply H9|]. destruct (H10 eq_refl) as [?|?]; [congruence|done]. }
    destruct Hoff as (? & ? & ?). split; [done|]. by apply gone_tracks.
Qed.

(** ** Starting *)

(** While the socket listens. *)
Definition tracks_open (p : Parts) (w : Process) : Prop := ps_listening w = true /\ tracks p (set_listening false w).

(** A hook that finds no thread of the application yet. *)
Definition hook_spec (p : Parts) (hook : AP (bool * Parts)) : Prop :=
  forall w, tracks_open p w -> ps_stopper w = Nobody -> ps_masked w = true ->
    wpA hook (Some w) (real (fun r w' => tracks_open r.2 w' /\ (r.1 = true -> ps_signal w' = true))).

Lemma start_server_wp p hook w : hook_spec p hook -> tracks p w -> ps_stopper w = Nobody -> ps_masked w = true ->
  wpA (start_server hook p) (Some w) (real (fun r w' => tracks r.2 w')).
Proof.
  intros Hh Ht Hst Hma. unfold start_server. apply wp_bind. intros listening. exists (Some (set_listening listening w)).
  split; [done|]. apply wp_ret. destruct listening; simpl.
  2: { destruct w as [b ? ? ? ? ? ? ? ? ?]. pose proof (tr_listening _ _ Ht) as Hl. simpl in Hl. by subst b. }
  apply (wp_seq _ _ _ (fun r w' => tracks_open r.2 w' /\ (r.1 = true -> ps_signal w' = true))).
  { apply Hh; [|done|done]. split; [done|]. by destruct w as [b ? ? ? ? ? ? ? ? ?]; pose proof (tr_listening _ _ Ht) as Hl; simpl in Hl; subst b. }
  intros [ok p'] w' [[Ho Ht'] Hs]. cbn [fst snd] in *. destruct ok; cbn [negb].
  - simpl. intros loop_ok. rewrite Hs by done. eexists. split; [reflexivity|]. simpl. intros ?.
    eexists. split; [reflexivity|]. exact Ht'.
  - simpl. intros ?. eexists. split; [reflexivity|]. exact Ht'.
Qed.

Ltac track := split; simpl; auto; try done; try congruence; try (intros; congruence); set_solver.

Lemma spawn_signal_wp p w : tracks_open p w -> ps_stopper w = Nobody -> ps_masked w = true -> pt_signal_thread p = false ->
  wpA (spawn_signal p) (Some w) (real (fun r w' => tracks_open r.2 w' /\ (r.1 = true -> ps_signal w' = true))).
Proof.
  intros [Ho [H1 H2 H3 H4 H5 H6 H7 H8 H9 H10]] Hst Hma Hs. simpl in *. intros ok. rewrite Hma, H6, Hs. simpl.
  eexists. split; [reflexivity|]. simpl. split; [|by intros ->]. split; [done|]. track.
Qed.

(** A process with no threads of the application and no services. *)
Definition fresh (p : Parts) : Prop :=
  pt_redis p = true /\ pt_scheduler p = false /\ pt_heartbeat_thread p = false /\ pt_signal_thread p = false /\ pt_services p = [].

Lemma server_hook_wp p : fresh p -> hook_spec p (server_hook p).
Proof.
  intros (F1 & F2 & F3 & F4 & F5) w [Ho Ht] Hst Hma. pose proof Ht as [H1 H2 H3 H4 H5 H6 H7 H8 H9 H10]. simpl in *.
  rewrite F3 in H5. rewrite F4 in H6. rewrite F5 in H7. unfold server_hook.
  simpl. intros registered. rewrite Ho, H5. eexists. split; [reflexivity|]. destruct registered; simpl.
  2: { split; [|done]. by split. }
  intros heartbeat. rewrite Hma, H5. eexists. split; [reflexivity|]. destruct heartbeat; simpl.
  2: { split; [|done]. split; [done|]. track. }
  intros scheduler. rewrite Hma, H6. eexists. split; [reflexivity|].
  destruct scheduler; cbn [negb]; [apply spawn_signal_wp; [|done..]|split; [|done]]; (split; [done|]; track).
Qed.

Lemma register_all_wp services registered w :
  ps_listening w = true -> ps_heartbeat w = false -> ps_services w ⊆ list_to_set registered ->
  wpA (register_all services registered) (Some w)
    (real (fun r w' => exists g, w' = set_services g w /\
      g ⊆ match r with Some l => list_to_set l | None => ∅ end)).
Proof.
  revert registered w. induction services as [|s services IH]; intros registered w Hl Hh Hg; cbn [register_all].
  - simpl. exists (ps_services w). split; [by destruct w|done].
  - simpl. intros ok. rewrite Hl, Hh. eexists. split; [reflexivity|]. destruct ok; simpl.
    + eapply wp_mono; [apply IH; [done|done|simpl; rewrite list_to_set_app_L; set_solver]|].
      intros r [w'|]; [|done]. simpl. intros (g & -> & Hg'). exists g. by split.
    + apply (wp_seq _ _ _ (fun _ w' => w' = set_services (ps_services w ∖ list_to_set registered) w));
        [by apply unregister_all_wp|]. intros [] w' ->. simpl. eexists. split; [reflexivity|]. set_solver.
Qed.

Lemma worker_hook_wp service_name p : fresh p -> hook_spec p (worker_hook service_name p).
Proof.
  intros (F1 & F2 & F3 & F4 & F5) w [Ho Ht] Hst Hma. pose proof Ht as [H1 H2 H3 H4 H5 H6 H7 H8 H9 H10]. simpl in *.
  rewrite F3 in H5. rewrite F4 in H6. rewrite F5 in H7. unfold worker_hook.
  change (forall handlers, exists l', process_step (Some w) (Called HandlerNames handlers) = Some l' /\
    wpA (bindP (register_all (worker_services service_name handlers) []) (fun registered =>
      match registered with
      | None => Ret (false, p)
      | Some services => worker_hook_end p services
      end)) l' (real (fun r w' => tracks_open r.2 w' /\ (r.1 = true -> ps_signal w' = true)))).
  intros handlers. exists (Some w). split; [done|].
  apply (wp_seq _ _ _ (fun r w' => exists g, w' = set_services g w /\ g ⊆ match r with Some l => list_to_set l | None => ∅ end)).
  { apply register_all_wp; [done|done|set_solver]. }
  intros [services|] w' (g & -> & Hg).
  2: { simpl. split; [|done]. split; [done|]. track. }
  simpl. intros heartbeat. rewrite Hma, H5. eexists. split; [reflexivity|]. destruct heartbeat; cbn [negb].
  - apply spawn_signal_wp; [|done..]. split; [done|]. track.
  - split; [|done]. split; [done|]. track.
Qed.

Lemma serve_wp metrics_enabled hook :
  (forall p, fresh p -> hook_spec p (hook p)) ->
  wpA (serve metrics_enabled hook) (Some (set_masked true new_process)) (real (fun r w => tracks r.2 w)).
Proof.
  intros Hhook. unfold serve.
  apply (wp_seq _ _ _ (fun ok w => exists running, w = set_running running false false (set_masked true new_process) /\
    (running = true -> metrics_enabled = true))).
  { destruct metrics_enabled; simpl; [|by exists false]. intros ok. eexists. split; [reflexivity|]. simpl. by exists ok. }
  intros exporting w (running & -> & Hr). destruct exporting; cbn [negb]; [|simpl; track].
  eapply wp_call; [intros []; reflexivity|]. intros [].
  apply (wp_seq _ _ _ (fun r w => tracks r.2 w)).
  { apply start_server_wp; [by apply Hhook| |done|done]. track. }
  intros [ok p] w Ht. cbn [fst snd] in Ht.
  apply (wp_seq _ _ _ (fun _ w' => tracks p w')).
  { destruct ok; [done|]. eapply wp_mono; [by apply stop_app_wp|]. by intros [] [w'|]; [intros [? _]|]. }
  intros [] w' Ht'. apply (wp_seq _ _ _ (fun p' w2 => tracks p' w2)).
  { eapply wp_mono; [by apply cleanup_wp|]. intros p' [w2|]; [|done]. by intros (_ & ? & _). }
  intros p' w2 Ht2. exact Ht2.
Qed.

Lemma if_ok_wp step k w (Q : Z * Parts -> Process -> Prop) :
  (forall ok, process_step (Some w) (Called step ok) = Some (Some w)) -> Q (1, no_parts) w ->
  wpA k (Some w) (real Q) -> wpA (if_ok step k) (Some w) (real Q).
Proof. intros Hs Hq Hk. unfold if_ok. eapply wp_call; [done|]. by intros []. Qed.

Lemma new_tracks b p : pt_heartbeat_thread p = false -> pt_signal_thread p = false -> tracks p (set_masked b new_process).
Proof. intros. track. Qed.

(** Up to the signal mask. *)
Lemma start_wp k : wpA k (Some (set_masked true new_process)) (real (fun r w => tracks r.2 w)) ->
  wpA (if_ok LoadConfig (if_ok MaybeDaemonize (if_ok SetupSignalHandling k))) (Some new_process) (real (fun r w => tracks r.2 w)).
Proof.
  intros Hk. do 2 (apply if_ok_wp; [done|by apply (new_tracks false)|]). unfold if_ok. apply wp_bind. intros ok.
  exists (Some (set_masked ok new_process)). split; [done|]. apply wp_ret. destruct ok; [exact Hk|by apply (new_tracks false)].
Qed.

Lemma run_server_wp metrics_enabled :
  wpA (run_server metrics_enabled) (Some new_process) (real (fun r w => tracks r.2 w)).
Proof.
  unfold run_server. apply start_wp.
  eapply wp_call; [done|]. intros []; cbn [negb]; [|by apply (new_tracks true)].
  eapply wp_call; [done|]. intros []; cbn [negb]; [|by apply (new_tracks true)].
  apply serve_wp. apply server_hook_wp.
Qed.

Lemma run_worker_wp metrics_enabled service_name :
  wpA (run_worker metrics_enabled service_name) (Some new_process) (real (fun r w => tracks r.2 w)).
Proof.
  unfold run_worker. apply start_wp.
  eapply wp_call; [done|]. intros [].
  eapply wp_call; [done|]. intros []; cbn [negb]; [|by apply (new_tracks true)].
  apply serve_wp. apply worker_hook_wp.
Qed.

Lemma main_wp app metrics_enabled service_name :
  wpA (main app metrics_enabled service_name) (Some new_process) (real (fun _ w => all_gone (Some w))).
Proof.
  unfold main. apply (wp_seq _ _ _ (fun r w => tracks r.2 w)); [destruct app; [apply run_server_wp|apply run_worker_wp]|].
  intros [code p] w Ht. apply (wp_seq _ _ _ (fun _ w' => tracks p w')).
  { eapply wp_mono; [by apply stop_app_wp|]. by intros [] [w'|]; [intros [? _]|]. }
  intros [] w' Ht'. apply (wp_seq _ _ _ (fun _ w2 => all_gone (Some w2))).
  { eapply wp_mono; [by apply cleanup_wp|]. intros p' [w2|]; [|done]. by intros (_ & _ & ?). }
  intros p' w2 Hg. exact Hg.
Qed.

(** C20.  Whatever fails while a process starts, whether a signal or an error
    ends it, and whichever thread is the first to stop it: it becomes a daemon
    and blocks its signals before it has a second thread, everything is
    started before the signal thread may stop it, services are registered only
    while the socket listens and never while the heartbeat thread reads their
    list, threads are joined only once they have been told to end; and when the
    process ends no thread runs, no socket listens and every service that was
    registered has been unregistered, those a worker had registered before one
    was refused included.  What Redis may still hold is only a service whose last
    registration or unregistration was answered as failed; nothing renews it any
    more. *)
Theorem process_leaves_nothing_behind app metrics_enabled service_name tr code :
  exec (main app metrics_enabled service_name) tr code ->
  exists l, monitor process_step (Some new_process) tr = Some l /\ all_gone l /\
    (l <> None -> forall service, service ∈ may_remain tr -> last_call_failed service tr).
Proof.
  intros He. destruct (wp_sound _ _ _ _ _ _ (main_wp app metrics_enabled service_name) He) as (l & Hm & Hr).
  exists l. split; [done|]. split; [by destruct l|]. destruct l as [w|]; [|done]. intros _ service Hin.
  destruct (remaining_services tr w Hm service Hin) as [H|H]; [|done].
  destruct Hr as (_ & _ & _ & _ & _ & _ & Hs). rewrite Hs in H. by apply elem_of_empty in H.
Qed.

(** A server that a signal ends, and a worker whose second service is refused. *)
Module ApplicationExample.

(** The number of the test of [stopping_] counts them; the signal comes first. *)
Definition signalled (X : Type) (e : AppE X) : M nat X :=
  match e with
  | LoadConfig | MaybeDaemonize | SetupSignalHandling | InitRedis | InitMySQL | StartExporter | Listen | RunLoop
  | RegisterService _ | SpawnHeartbeat | StartScheduler | SpawnSignalThread | TestAndSetStopping => retM true
  | HandlerNames => retM ["Echo"%string]
  | RegisterBuiltinTaskHandlers | MakeServer | CloseListener | NotifyAll | StopScheduler
  | StopExporter | StopServer | JoinHeartbeat | KillSignalThread | JoinSignalThread => retM ()
  | ReadStopping | WaitStopping | Heartbeat _ | UnregisterService _ => retM true
  end.

Definition refused (X : Type) (e : AppE X) : M nat X :=
  match e with
  | RegisterService service => retM (negb (String.eqb service "worker:Echo"))
  | TestAndSetStopping => fun n => (negb (Nat.eqb n 0), S n)
  | e => signalled _ e
  end.

Definition server : AP Z := main Server true "rpc".
Definition worker : AP Z := main Worker true "worker".

(** Redis goes away while the server runs: its service cannot be unregistered. *)
Definition cut_off (X : Type) (e : AppE X) : M nat X :=
  match e with UnregisterService _ => retM false | e => signalled _ e end.

Lemma process_leaves_nothing_behind_witness :
  (run signalled server 0%nat).1 = 0 /\ (run refused worker 0%nat).1 = 1 /\
  (exists l, monitor process_step (Some new_process) (trace_of signalled server 0%nat) = Some l /\ all_gone l) /\
  (exists w, monitor process_step (Some new_process) (trace_of refused worker 0%nat) = Some (Some w) /\ all_gone (Some w) /\
     may_remain (trace_of refused worker 0%nat) = {["worker:Echo"%string]} /\
     last_call_failed "worker:Echo" (trace_of refused worker 0%nat)).
Proof.
  split; [reflexivity|]. split; [reflexivity|]. split.
  - destruct (process_leaves_nothing_behind Server true "rpc" _ (run signalled server 0%nat).1 (proj1 (run_exec signalled server 0%nat)))
      as (l & H1 & H2 & _). eauto.
  - destruct (process_leaves_nothing_behind Worker true "worker" _ _ (proj1 (run_exec refused worker 0%nat))) as ([w|] & Hm & Hg & Hl).
    + exists w. split; [done|]. split; [done|]. split; [vm_compute; reflexivity|]. apply Hl; [done|]. vm_compute. set_solver.
    + by vm_compute in Hm.
Defined.

Example cut_off_server_remains : may_remain (trace_of cut_off server 0%nat) = {["rpc"%string]}.
Proof. vm_compute. reflexivity. Qed.

End ApplicationExample.
