(* ===== verification/Setup.v ===== *)
(** What the constructors make of the configuration: the client pools of the
    scheduler ([scheduler/task_scheduler.cpp]) and of the dispatcher
    ([rpc/rpc_dispatcher.cpp]), and the time zone that every database connection
    is given ([mysql/mysql_client.cpp]). *)
From S2P Require Import Prelude Text Datetime Config RpcClientPool Dispatcher.

(** ** Client pools *)

Definition default_pool_options : PoolOptions := mkPoolOptions 4 2 3000 true 500 "rpc".

(** [TaskScheduler::TaskScheduler] *)
Definition scheduler_pool_options (config : Config) (service_name : string) : PoolOptions :=
  let max_idle := getInt config "scheduler.rpc_pool_max_idle_per_endpoint" 4 in
  let max_idle := if max_idle <=? 0 then 1 else max_idle in
  mkPoolOptions max_idle (getInt config "scheduler.rpc_pool_failure_threshold" 2)
    (getInt config "scheduler.rpc_pool_cooldown_ms" 3000)
    (po_health_check_probe default_pool_options) (po_health_check_timeout_ms default_pool_options) service_name.

(** [RpcDispatcher::RpcDispatcher]: the dispatcher, and the options of its pool,
    which it has when it has a Redis client. *)
Definition new_dispatcher (has_db has_redis : bool) (auth_token node_id : string) (options : RpcDispatcherOptions) :
    RpcDispatcher * option PoolOptions :=
  let options := normalize_dispatcher_options options in
  (mkRpcDispatcher has_db has_redis auth_token node_id options,
   if has_redis then
     Some (mkPoolOptions (po_max_idle_per_endpoint default_pool_options) (po_failure_threshold default_pool_options)
             (po_cooldown_ms default_pool_options) (po_health_check_probe default_pool_options)
             (po_health_check_timeout_ms default_pool_options) (do_worker_service_name options))
   else None).

(** What a pool needs to keep connections, to break a circuit and to probe it. *)
Definition usable (o : PoolOptions) : Prop :=
  1 <= po_max_idle_per_endpoint o /\ 1 <= po_failure_threshold o /\ 0 <= po_cooldown_ms o /\
  po_health_check_probe o = true /\ 1 <= po_health_check_timeout_ms o.

Lemma normalized_usable o : 0 <= po_max_idle_per_endpoint o -> po_health_check_probe o = true ->
  usable (normalize_pool_options o).
Proof.
  intros Hi Hp. unfold usable, normalize_pool_options. cbn.
  split_and!; try done; match goal with |- context [if ?b then _ else _] => destruct b eqn:E end; zify_bools; lia.
Qed.

(** Whatever the configuration holds, also numbers out of place, the pools of a
    node are usable, and probe the service of the workers. *)
Theorem pools_are_usable config service_name has_db auth_token node_id options :
  usable (normalize_pool_options (scheduler_pool_options config service_name)) /\
  exists pool, (new_dispatcher has_db true auth_token node_id options).2 = Some pool /\
    usable (normalize_pool_options pool) /\ po_health_check_service_name pool <> EmptyString.
Proof.
  split.
  - apply normalized_usable; [|done]. cbn. destruct (Z.leb_spec (getInt config "scheduler.rpc_pool_max_idle_per_endpoint" 4) 0); lia.
  - eexists. split; [reflexivity|]. split; [by apply normalized_usable|]. cbn.
    destruct (do_worker_service_name options); done.
Qed.

(** ** The time zone of a connection *)

Definition sign_of (offset : Z) : ascii := if offset <? 0 then "-"%char else "+"%char.

(** [strftime] with [%z], of an offset in minutes. *)
Definition strftime_z (offset : Z) : string :=
  String (sign_of offset) (pad2 (Z.abs offset / 60) (pad2 (Z.abs offset mod 60) EmptyString)).

(** [local_tm]: whether [localtime_r] succeeds; [compact]: what [strftime]
    writes, at most the seven bytes the buffer holds. *)
Definition local_timezone_offset (local_tm : bool) (compact : string) : string :=
  let utc := "+00:00"%string in
  if negb local_tm then utc
  else if (slen compact =? 0) || (7 <? slen compact) then utc
  else
    match compact with
    | String c _ =>
        if (slen compact =? 5) && (Ascii.eqb c "+" || Ascii.eqb c "-") then str_take 3 compact +:+ ":" +:+ str_drop 3 compact
        else utc
    | EmptyString => utc
    end.

(** What [SET time_zone] makes of a text: an offset in minutes. *)
Definition sql_offset (s : string) : option Z :=
  match s with
  | String c k =>
      '(hours, k) ← read2 k; k ← expect ":" k; '(minutes, k) ← read2 k;
      if negb (str_empty k) then None
      else if Ascii.eqb c "+" then Some (hours * 60 + minutes)
      else if Ascii.eqb c "-" then Some (- (hours * 60 + minutes))
      else None
  | EmptyString => None
  end.

(** The database is told the zone of the process: the offset it reads is the
    local one, east or west, whole hours or not. *)
Theorem database_takes_local_zone offset : -6000 < offset < 6000 ->
  sql_offset (local_timezone_offset true (strftime_z offset)) = Some offset.
Proof.
  intros Ho. set (h := Z.abs offset / 60). set (m := Z.abs offset mod 60).
  assert (local_timezone_offset true (strftime_z offset) =
    String (sign_of offset) (pad2 h (String ":" (pad2 m EmptyString)))) as ->.
  { unfold local_timezone_offset, strftime_z, sign_of. fold h m. by destruct (offset <? 0). }
  assert (0 <= h <= 99 /\ 0 <= m <= 59 /\ Z.abs offset = h * 60 + m) as (Hh & Hm & E)
    by (unfold h, m; Z.div_mod_to_equations; lia).
  unfold sql_offset. rewrite read2_pad2 by done. cbn [mbind option_bind expect].
  rewrite Ascii.eqb_refl. cbn [mbind option_bind]. rewrite read2_pad2 by lia. cbn [mbind option_bind str_empty negb].
  unfold sign_of. destruct (Z.ltb_spec offset 0); cbn; f_equal; lia.
Qed.

Lemma database_takes_local_zone_witness : sql_offset (local_timezone_offset true (strftime_z (-210))) = Some (-210).
Proof. apply (database_takes_local_zone (-210)). lia. Defined.

Example half_hour_zone : local_timezone_offset true (strftime_z 330) = "+05:30"%string.
Proof. reflexivity. Qed.
