(* ===== verification/MetricsExporter.v ===== *)
(** The metrics endpoint: [MetricsExporter] of [metrics/metrics_exporter.cpp],
    whose responses are in [AlertRules].  Its thread serves one client at a
    time. *)
From S2P Require Import Prelude Metrics AlertRules TcpServer.

(** [ex_opened] and [ex_closed] list the sockets made and the calls of [close],
    [ex_sent] what went out to each client. *)
Record Exporter := mkExporter {
  ex_host : string; ex_port : Z; ex_alert_config : AlertRuleConfig;
  ex_listen_fd : Z; ex_running : bool; ex_thread : bool;
  ex_opened : list Z; ex_closed : list Z; ex_sent : list (Z * string)
}.

Definition newExporter (host : string) (port : Z) (c : AlertRuleConfig) : Exporter :=
  mkExporter host port c (-1) false false [] [] [].

Definition ex_set (listen_fd : Z) (running thread : bool) (s : Exporter) : Exporter :=
  mkExporter (ex_host s) (ex_port s) (ex_alert_config s) listen_fd running thread (ex_opened s) (ex_closed s) (ex_sent s).
Definition ex_open (fd : Z) (s : Exporter) : Exporter :=
  mkExporter (ex_host s) (ex_port s) (ex_alert_config s) (ex_listen_fd s) (ex_running s) (ex_thread s)
    (ex_opened s ++ [fd]) (ex_closed s) (ex_sent s).
Definition ex_close (fd : Z) (s : Exporter) : Exporter :=
  mkExporter (ex_host s) (ex_port s) (ex_alert_config s) (ex_listen_fd s) (ex_running s) (ex_thread s)
    (ex_opened s) (ex_closed s ++ [fd]) (ex_sent s).
Definition ex_send (fd : Z) (data : string) (s : Exporter) : Exporter :=
  mkExporter (ex_host s) (ex_port s) (ex_alert_config s) (ex_listen_fd s) (ex_running s) (ex_thread s)
    (ex_opened s) (ex_closed s) (ex_sent s ++ [(fd, data)]).

(** What the system answers to [start]: [socket], [setsockopt], [inet_pton],
    [bind], [listen], and whether the thread could be started. *)
Record ExporterEnv := mkExporterEnv {
  ee_socket : Z; ee_setsockopt : bool; ee_inet_pton : string -> bool; ee_bind : string -> Z -> bool;
  ee_listen : bool; ee_thread : bool
}.

Definition close_and_fail (s : Exporter) : bool * Exporter :=
  (false, ex_set (-1) false (ex_thread s) (ex_close (ex_listen_fd s) s)).

Definition exporter_start (e : ExporterEnv) (s : Exporter) : bool * Exporter :=
  if ex_running s then (true, s)
  else if ee_socket e <? 0 then (false, ex_set (ee_socket e) false (ex_thread s) s)
  else
    let s := ex_set (ee_socket e) false (ex_thread s) (ex_open (ee_socket e) s) in
    if negb (ee_setsockopt e) then close_and_fail s
    else if negb (ee_inet_pton e (ex_host s)) then close_and_fail s
    else if negb (ee_bind e (ex_host s) (htons (ex_port s))) then close_and_fail s
    else if negb (ee_listen e) then close_and_fail s
    else if negb (ee_thread e) then close_and_fail s
    else (true, ex_set (ee_socket e) true true s).

(** [sendAll]: the bytes of [data] that go out. *)
Inductive SendOutcome := Sent (n : N) | SendInterrupted | SendFailed.

Fixpoint sendAll (sends : list SendOutcome) (data : string) : string :=
  if str_empty data then EmptyString
  else
    match sends with
    | SendInterrupted :: sends' => sendAll sends' data
    | Sent (Npos n) :: sends' =>
        str_take (Pos.to_nat n) data +:+ sendAll sends' (str_drop (Pos.to_nat n) data)
    | _ => EmptyString
    end.

(** [accept4]; a client's time-outs, what is received from it and how the
    answer goes out. *)
Inductive ClientOutcome :=
| ClientError | ClientInterrupted
| Client (fd : N) (timeouts : bool) (received : string) (sends : list SendOutcome).

Definition serve_client (m : Metrics) (fd : Z) (timeouts : bool) (received : string) (sends : list SendOutcome)
    (s : Exporter) : Exporter :=
  if negb timeouts then ex_close fd s
  else
    match handleClient m (ex_alert_config s) received with
    | Some response => ex_close fd (ex_send fd (sendAll sends response) s)
    | None => ex_close fd s
    end.

(** [run], one element for each [accept4], with the metrics of the moment and
    whether [stop] was called meanwhile; answers whether the thread has ended. *)
Fixpoint exporter_run (clients : list (bool * Metrics * ClientOutcome)) (s : Exporter) : bool * Exporter :=
  if negb (ex_running s) then (true, s)
  else
    match clients with
    | [] => (false, s)
    | (stopped, m, c) :: clients' =>
        let s := if (stopped : bool) then ex_set (ex_listen_fd s) false (ex_thread s) s else s in
        match c with
        | ClientError | ClientInterrupted => exporter_run clients' s
        | Client fd timeouts received sends =>
            let s := ex_open (Z.of_N fd) s in
            if negb (ex_running s) then (true, ex_close (Z.of_N fd) s)
            else exporter_run clients' (serve_client m (Z.of_N fd) timeouts received sends s)
        end
    end.

(** [stop], after the [exchange] that the thread has seen, and the join. *)
Definition exporter_stop (s : Exporter) : Exporter :=
  let s := ex_set (ex_listen_fd s) false false s in
  if 0 <=? ex_listen_fd s then ex_set (-1) false false (ex_close (ex_listen_fd s) s) else s.

(** ** Theorems *)

Lemma sendAll_prefix sends data : str_take (String.length (sendAll sends data)) data = sendAll sends data.
Proof.
  assert (H : exists rest, data = sendAll sends data +:+ rest).
  { revert data. induction sends as [|o sends IH]; intros data; simpl.
    - exists data. by destruct (str_empty data).
    - destruct (str_empty data); [by exists data|]. destruct o as [[|n]| |]; [by exists data| |apply IH|by exists data].
      destruct (IH (str_drop (Pos.to_nat n) data)) as [rest Hr]. exists rest.
      rewrite append_assoc_str, <- Hr. by rewrite str_take_drop. }
  destruct H as [rest Hr]. rewrite Hr at 2. apply str_take_app_length.
Qed.

Definition sockets_kept (s : Exporter) : Prop :=
  ex_opened s ≡ₚ ex_closed s ++ (if 0 <=? ex_listen_fd s then [ex_listen_fd s] else []).

Lemma close_and_fail_kept s : sockets_kept s -> 0 <= ex_listen_fd s -> sockets_kept (close_and_fail s).2 /\ ex_running (close_and_fail s).2 = false.
Proof.
  unfold sockets_kept. intros H Hl. simpl. rewrite (proj2 (Z.leb_le _ _)) in H by done. by rewrite app_nil_r.
Qed.

Lemma exporter_start_kept e s : sockets_kept s -> ex_listen_fd s = -1 -> ex_running s = false ->
  sockets_kept (exporter_start e s).2 /\ ex_running (exporter_start e s).2 = (exporter_start e s).1.
Proof.
  intros Hk Hl Hr. unfold exporter_start. rewrite Hr.
  destruct (ee_socket e <? 0) eqn:E; zify_bools.
  { split; [|done]. unfold sockets_kept in *. simpl. rewrite Hl in Hk. simpl in Hk. rewrite (proj2 (Z.leb_gt _ _)) by lia. done. }
  set (s1 := ex_set (ee_socket e) false (ex_thread s) (ex_open (ee_socket e) s)).
  assert (Hk1 : sockets_kept s1).
  { unfold sockets_kept in *. subst s1. simpl. rewrite Hl in Hk. simpl in Hk. rewrite app_nil_r in Hk.
    rewrite (proj2 (Z.leb_le _ _)) by lia. by rewrite Hk. }
  destruct (close_and_fail_kept s1 Hk1 E) as [Hg Hg'].
  destruct (ee_setsockopt e); cbn [negb]; [|done]. destruct (ee_inet_pton e _); cbn [negb]; [|done].
  destruct (ee_bind e _ _); cbn [negb]; [|done]. destruct (ee_listen e); cbn [negb]; [|done].
  destruct (ee_thread e); cbn [negb]; [|done]. done.
Qed.

(** A client that is accepted and closed. *)
Lemma client_kept fd s s' : sockets_kept s -> ex_opened s' = ex_opened s ++ [fd] -> ex_closed s' = ex_closed s ++ [fd] ->
  ex_listen_fd s' = ex_listen_fd s -> sockets_kept s'.
Proof. unfold sockets_kept. intros H -> -> ->. rewrite H. solve_Permutation. Qed.

Lemma exporter_run_kept clients s : sockets_kept s ->
  sockets_kept (exporter_run clients s).2 /\ ex_listen_fd (exporter_run clients s).2 = ex_listen_fd s /\
  (true ∈ map (fun c => c.1.1) clients -> (exporter_run clients s).1 = true).
Proof.
  revert s. induction clients as [|[[stopped m] c] clients IH]; intros s Hk; cbn [exporter_run];
    destruct (ex_running s) eqn:Er; cbn [negb]; try (split_and!; done).
  { split_and!; try done. by intros ?%elem_of_nil. }
  set (s1 := if stopped then ex_set (ex_listen_fd s) false (ex_thread s) s else s).
  assert (Hk1 : sockets_kept s1 /\ ex_listen_fd s1 = ex_listen_fd s /\ (stopped = true -> ex_running s1 = false)) by (by destruct stopped).
  destruct Hk1 as (Hk1 & Hl1 & Hs1). rewrite <- Hl1.
  assert (Hend : forall s2, sockets_kept s2 -> ex_listen_fd s2 = ex_listen_fd s1 -> (stopped = true -> ex_running s2 = false) ->
    sockets_kept (exporter_run clients s2).2 /\ ex_listen_fd (exporter_run clients s2).2 = ex_listen_fd s1 /\
    (true ∈ map (fun c => c.1.1) ((stopped, m, c) :: clients) -> (exporter_run clients s2).1 = true)).
  { intros s2 Hk2 Hl2 Hs2. destruct (IH s2 Hk2) as (H1 & H2 & H3). split_and!; [done|congruence|].
    cbn [map]. intros [Ht|Ht]%elem_of_cons; [|by apply H3]. simpl in Ht. subst stopped. destruct clients; simpl; by rewrite Hs2. }
  destruct c as [| |fd timeouts received sends]; [by apply Hend|by apply Hend|]. cbn [ex_running ex_open].
  destruct (ex_running s1) eqn:Er1; cbn [negb].
  - apply Hend.
    + unfold serve_client. destruct timeouts; cbn [negb]; [|by apply (client_kept (Z.of_N fd) s1)].
      destruct (handleClient _ _ _); by apply (client_kept (Z.of_N fd) s1).
    + unfold serve_client. destruct timeouts; cbn [negb]; [|done]. by destruct (handleClient _ _ _).
    + intros ->. by specialize (Hs1 eq_refl).
  - split_and!; [|done|done]. by apply (client_kept (Z.of_N fd) s1).
Qed.

(** The exporter closes every socket it opens, once, whether [start] fails or
    it serves clients and is stopped; once stopped its thread ends; and what a
    client gets is a prefix of the response to what it asked. *)
Theorem exporter_closes_its_sockets host port c e clients :
  let '(ok, s1) := exporter_start e (newExporter host port c) in
  let '(ended, s2) := exporter_run clients s1 in
  let s3 := if ok then exporter_stop s2 else s2 in
  ex_opened s3 ≡ₚ ex_closed s3 /\ ex_running s3 = false /\
  (true ∈ map (fun c => c.1.1) clients -> ended = true).
Proof.
  destruct (exporter_start_kept e (newExporter host port c)) as [Hk Hr]; [constructor|done|done|].
  destruct (exporter_start e (newExporter host port c)) as [ok s1] eqn:Es. cbn [fst snd] in *.
  destruct (exporter_run_kept clients s1 Hk) as (Hk2 & Hl2 & He).
  destruct (exporter_run clients s1) as [ended s2] eqn:Erun. cbn [fst snd] in *. destruct ok.
  - split_and!; [|by unfold exporter_stop; destruct (0 <=? _)|done]. unfold sockets_kept in Hk2. unfold exporter_stop. simpl.
    destruct (0 <=? ex_listen_fd s2); simpl; [done|by rewrite app_nil_r in Hk2].
  - assert (s2 = s1) as -> by (destruct clients as [|[[? ?] ?] ?]; simpl in Erun; rewrite Hr in Erun; by simplify_eq/=).
    split_and!; [|done|done]. unfold sockets_kept in Hk2. revert Hk2 Es. unfold exporter_start, close_and_fail. simpl.
    destruct (ee_socket e <? 0) eqn:E; zify_bools.
    { intros Hk2 [= <-]. simpl in *. done. }
    intros Hk2 Es. repeat case_match; try done; simplify_eq/=; done.
Qed.
