(* ===== verification/ClientWindow.v ===== *)
(** The desktop client's window ([client/mainwindow.cpp]), as far as it talks to
    a server: the requests its buttons send, the frames it receives, what it
    keeps of the answers, and its paging.  The processes it starts are in
    [ClientProcesses], its widgets in [ClientWidgets] and [ClientActions]; the log
    is left out.  A message box is answered before anything else happens.

    [trimmed] is Qt's [QString::trimmed]; texts are what [toStdString] makes of
    them. *)
From S2P Require Import Prelude Protocol Datetime TaskTable Metrics Text Effects Dispatcher Connection.

(** ** Messages, from the client's side *)

(** [SubmitTask], and the responses that only say whether they succeeded. *)
Record SubmitTaskResponse := mkSubmitTaskResponse { sr_success : bool; sr_task_id : string }.
Record ListTasksResponse := mkListTasksResponse {
  tr_success : bool; tr_tasks : list TaskMeta.t; tr_total : Z; tr_offset : Z; tr_limit : Z
}.
Record ListHistoryResponse := mkListHistoryResponse {
  hr_success : bool; hr_history : list TaskHistory.t; hr_total : Z; hr_offset : Z; hr_limit : Z
}.

(** What the generated code serializes and parses. *)
Record ClientCodec := mkClientCodec {
  ser_echo : EchoRequest -> string;
  ser_health : HealthCheckRequest -> string;
  ser_stream_metrics : StreamMetricsRequest -> string;
  ser_submit : SubmitTaskRequest -> string;
  ser_task_id : TaskIdRequest -> string;      (* CancelTask, DeleteTask, RunTaskNow *)
  ser_update : UpdateTaskRequest -> string;
  ser_enable : EnableTaskRequest -> string;
  ser_list_tasks : ListTasksRequest -> string;
  ser_list_history : ListHistoryRequest -> string;
  ser_list_services : ListServicesRequest -> string;
  ser_get_metrics : GetMetricsRequest -> string;
  parse_submit_response : string -> option SubmitTaskResponse;
  parse_success : Z -> string -> option bool; (* by serial id: Cancel, Update, Enable, Delete, RunTaskNow *)
  parse_tasks_response : string -> option ListTasksResponse;
  parse_history_response : string -> option ListHistoryResponse;
  parse_services_response : string -> option (bool * list string);
  parse_metrics_response : string -> option (bool * MetricsSnapshot);
  parse_stream_response : string -> option (option MetricsSnapshot)
}.

(** ** The window *)

(** The states of a [QTcpSocket] that never listens. *)
Inductive SocketState := Unconnected | HostLookup | Connecting | Connected | Closing.

#[global] Instance SocketState_eq_dec : EqDecision SocketState.
Proof. solve_decision. Defined.

(** [tasksPageOffset_], [tasksTotal_], [tasksLimit_] and the page size chosen,
    which the spin box keeps from 10 to 500; and the same for the history. *)
Record Pager := mkPager { pg_offset : Z; pg_total : Z; pg_limit : Z; pg_page_size : Z }.
Definition new_pager : Pager := mkPager 0 0 50 50.

(** The input fields the requests are made from. *)
Record Inputs := mkInputs {
  in_token : string; in_enabled_only : bool; in_status_filter : Z; in_task_keyword : string;
  in_success_filter : Z; in_history_keyword : string; in_service_name : string;
  in_edit_cron : string; in_edit_handler : string; in_edit_params : string; in_edit_max_retries : Z
}.

(** The fields that the window fills in itself. *)
Record TaskIds := mkTaskIds { id_edit : string; id_cancel : string; id_history : string }.

(** [mw_sent]: the requests handed to the socket.  [mw_writes] counts its
    [write]s. *)
Record MainWindow := mkMainWindow {
  mw_socket : SocketState;
  mw_recvBuffer : string;
  mw_inputs : Inputs;
  mw_ids : TaskIds;
  mw_tasks_pager : Pager;
  mw_history_pager : Pager;
  mw_tasks : list TaskMeta.t;
  mw_selected : option nat;
  mw_history : list TaskHistory.t;
  mw_services : list string;
  mw_metrics : option MetricsSnapshot;
  mw_writes : nat;
  mw_sent : list (Z * string)
}.

Definition set_socket (x : SocketState) (w : MainWindow) : MainWindow :=
  mkMainWindow x (mw_recvBuffer w) (mw_inputs w) (mw_ids w) (mw_tasks_pager w) (mw_history_pager w) (mw_tasks w)
    (mw_selected w) (mw_history w) (mw_services w) (mw_metrics w) (mw_writes w) (mw_sent w).
Definition set_recvBuffer (x : string) (w : MainWindow) : MainWindow :=
  mkMainWindow (mw_socket w) x (mw_inputs w) (mw_ids w) (mw_tasks_pager w) (mw_history_pager w) (mw_tasks w)
    (mw_selected w) (mw_history w) (mw_services w) (mw_metrics w) (mw_writes w) (mw_sent w).
Definition set_ids (x : TaskIds) (w : MainWindow) : MainWindow :=
  mkMainWindow (mw_socket w) (mw_recvBuffer w) (mw_inputs w) x (mw_tasks_pager w) (mw_history_pager w) (mw_tasks w)
    (mw_selected w) (mw_history w) (mw_services w) (mw_metrics w) (mw_writes w) (mw_sent w).
Definition set_tasks_pager (x : Pager) (w : MainWindow) : MainWindow :=
  mkMainWindow (mw_socket w) (mw_recvBuffer w) (mw_inputs w) (mw_ids w) x (mw_history_pager w) (mw_tasks w)
    (mw_selected w) (mw_history w) (mw_services w) (mw_metrics w) (mw_writes w) (mw_sent w).
Definition set_history_pager (x : Pager) (w : MainWindow) : MainWindow :=
  mkMainWindow (mw_socket w) (mw_recvBuffer w) (mw_inputs w) (mw_ids w) (mw_tasks_pager w) x (mw_tasks w)
    (mw_selected w) (mw_history w) (mw_services w) (mw_metrics w) (mw_writes w) (mw_sent w).
Definition set_shown (tasks : list TaskMeta.t) (history : list TaskHistory.t) (services : list string)
    (metrics : option MetricsSnapshot) (w : MainWindow) : MainWindow :=
  mkMainWindow (mw_socket w) (mw_recvBuffer w) (mw_inputs w) (mw_ids w) (mw_tasks_pager w) (mw_history_pager w) tasks
    (mw_selected w) history services metrics (mw_writes w) (mw_sent w).

Section Window.
Context (codec : ClientCodec) (trimmed : string -> string).
(* whether the n-th [write] takes all the bytes *)
Context (write_complete : nat -> bool).
(* whether nothing is left to be written when the socket is closed after [n] writes *)
Context (flushed : nat -> bool).

(** [sendFrame] *)
Definition sendFrame (serial_id : Z) (payload : string) (w : MainWindow) : bool * MainWindow :=
  if negb (bool_decide (mw_socket w = Connected)) then (false, w)
  else
    match tryEncode serial_id payload with
    | None => (false, w)
    | Some _ =>
        let complete := write_complete (mw_writes w) in
        (complete,
         mkMainWindow (if complete then mw_socket w else Unconnected) (mw_recvBuffer w) (mw_inputs w) (mw_ids w)
           (mw_tasks_pager w) (mw_history_pager w) (mw_tasks w) (mw_selected w) (mw_history w) (mw_services w)
           (mw_metrics w) (S (mw_writes w))
           (if complete then mw_sent w ++ [(serial_id, payload)] else mw_sent w))
    end.

Definition send (serial_id : Z) (payload : string) (w : MainWindow) : MainWindow := (sendFrame serial_id payload w).2.

Definition authToken (w : MainWindow) : string := in_token (mw_inputs w).

(** ** Requests *)

Definition onEcho (message : string) (w : MainWindow) : MainWindow :=
  if str_empty message then w
  else send kEchoRequestSerialId (ser_echo codec (mkEchoRequest message (authToken w))) w.

Definition onHealthCheck (w : MainWindow) : MainWindow :=
  send kHealthCheckRequestSerialId (ser_health codec (mkHealthCheckRequest "rpc" (authToken w))) w.

Definition onStreamMetrics (samples : Z) (w : MainWindow) : MainWindow :=
  send kStreamMetricsRequestSerialId (ser_stream_metrics codec (mkStreamMetricsRequest (authToken w) samples)) w.

Definition onSubmit (cron handler params : string) (w : MainWindow) : MainWindow :=
  if str_empty cron || str_empty handler then w
  else send kSubmitTaskRequestSerialId (ser_submit codec (mkSubmitTaskRequest cron params handler (authToken w))) w.

(** The buttons that name one task. *)
Definition send_task_id (serial_id : Z) (task_id : string) (w : MainWindow) : MainWindow :=
  if str_empty task_id then w else send serial_id (ser_task_id codec (mkTaskIdRequest task_id (authToken w))) w.

Definition onCancelTask (w : MainWindow) : MainWindow :=
  send_task_id kCancelTaskRequestSerialId (trimmed (id_cancel (mw_ids w))) w.

(** [confirmed]: the answer to the question asked once there is an id. *)
Definition onDeleteSelectedTask (confirmed : bool) (w : MainWindow) : MainWindow :=
  if confirmed then send_task_id kDeleteTaskRequestSerialId (trimmed (id_edit (mw_ids w))) w else w.

Definition onRunSelectedTaskNow (w : MainWindow) : MainWindow :=
  send_task_id kRunTaskNowRequestSerialId (trimmed (id_edit (mw_ids w))) w.

Definition set_enabled (enabled : bool) (w : MainWindow) : MainWindow :=
  let task_id := trimmed (id_edit (mw_ids w)) in
  if str_empty task_id then w
  else send kEnableTaskRequestSerialId (ser_enable codec (mkEnableTaskRequest task_id enabled (authToken w))) w.
Definition onEnableSelectedTask : MainWindow -> MainWindow := set_enabled true.
Definition onDisableSelectedTask : MainWindow -> MainWindow := set_enabled false.

(** The status column of the selected row says disabled. *)
Definition selected_disabled (w : MainWindow) : bool :=
  match mw_selected w with
  | Some row => match mw_tasks w !! row with Some task => TaskMeta.status task =? TASK_DISABLED | None => false end
  | None => false
  end.

Definition onUpdateTask (w : MainWindow) : MainWindow :=
  let i := mw_inputs w in
  let task_id := trimmed (id_edit (mw_ids w)) in
  if str_empty task_id then w
  else if str_empty (trimmed (in_edit_cron i)) || str_empty (trimmed (in_edit_handler i)) then w
  else
    let status := if selected_disabled w then 0 else 1 in
    let task := TaskMeta.mk task_id (trimmed (in_edit_cron i)) (in_edit_params i) (trimmed (in_edit_handler i)) status
                  EmptyString EmptyString 0 (in_edit_max_retries i) EmptyString EmptyString EmptyString in
    send kUpdateTaskRequestSerialId (ser_update codec (mkUpdateTaskRequest (authToken w) (Some task))) w.

Definition choose_limit (p : Pager) : Pager := mkPager (pg_offset p) (pg_total p) (pg_page_size p) (pg_page_size p).

Definition onRefreshTasks (w : MainWindow) : MainWindow :=
  let i := mw_inputs w in
  let p := choose_limit (mw_tasks_pager w) in
  let filtered := 0 <=? in_status_filter i in
  send kListTasksRequestSerialId
    (ser_list_tasks codec (mkListTasksRequest (authToken w) (pg_limit p) (in_enabled_only i) (pg_offset p)
       (if filtered then in_status_filter i else 0) (trimmed (in_task_keyword i)) filtered))
    (set_tasks_pager p w).

Definition onRefreshHistory (w : MainWindow) : MainWindow :=
  let i := mw_inputs w in
  let p := choose_limit (mw_history_pager w) in
  let filtered := 0 <=? in_success_filter i in
  send kListHistoryRequestSerialId
    (ser_list_history codec (mkListHistoryRequest (authToken w) (trimmed (id_history (mw_ids w))) (pg_limit p) (pg_offset p)
       (if filtered then in_success_filter i else 0) (trimmed (in_history_keyword i)) filtered))
    (set_history_pager p w).

(** The filter changed: back to the first page. *)
Definition first_page (p : Pager) : Pager := mkPager 0 (pg_total p) (pg_limit p) (pg_page_size p).
Definition prev_page (p : Pager) : Pager :=
  mkPager (Z.max 0 (pg_offset p - pg_page_size p)) (pg_total p) (pg_page_size p) (pg_page_size p).
Definition next_page (p : Pager) : Pager :=
  mkPager (pg_offset p + pg_page_size p) (pg_total p) (pg_page_size p) (pg_page_size p).
Definition has_next (p : Pager) : bool := pg_offset p + pg_limit p <? pg_total p.

(** [updateTaskPaginationUi], [updateHistoryPaginationUi]: the rows the label
    names, and whether the two buttons are enabled. *)
Record PaginationUi := mkPaginationUi { ui_start : Z; ui_end : Z; ui_prev : bool; ui_next : bool }.
Definition pagination_ui (p : Pager) (w : MainWindow) : PaginationUi :=
  let connected := bool_decide (mw_socket w = Connected) in
  mkPaginationUi (if pg_total p =? 0 then 0 else pg_offset p + 1) (Z.min (pg_total p) (pg_offset p + pg_limit p))
    (connected && (0 <? pg_offset p)) (connected && has_next p).

Definition onTaskFilterChanged (w : MainWindow) : MainWindow :=
  let w := set_tasks_pager (first_page (mw_tasks_pager w)) w in
  if bool_decide (mw_socket w = Connected) then onRefreshTasks w else w.
Definition onPrevTasksPage (w : MainWindow) : MainWindow :=
  onRefreshTasks (set_tasks_pager (prev_page (mw_tasks_pager w)) w).
Definition onNextTasksPage (w : MainWindow) : MainWindow :=
  let p := choose_limit (mw_tasks_pager w) in
  if has_next p then onRefreshTasks (set_tasks_pager (next_page p) w) else set_tasks_pager p w.

Definition onHistoryFilterChanged (w : MainWindow) : MainWindow :=
  let w := set_history_pager (first_page (mw_history_pager w)) w in
  if bool_decide (mw_socket w = Connected) then onRefreshHistory w else w.
Definition onPrevHistoryPage (w : MainWindow) : MainWindow :=
  onRefreshHistory (set_history_pager (prev_page (mw_history_pager w)) w).
Definition onNextHistoryPage (w : MainWindow) : MainWindow :=
  let p := choose_limit (mw_history_pager w) in
  if has_next p then onRefreshHistory (set_history_pager (next_page p) w) else set_history_pager p w.

Definition onRefreshServices (w : MainWindow) : MainWindow :=
  let name := trimmed (in_service_name (mw_inputs w)) in
  send kListServicesRequestSerialId
    (ser_list_services codec (mkListServicesRequest (authToken w) (if str_empty name then "worker" else name))) w.

Definition onRefreshMetrics (w : MainWindow) : MainWindow :=
  send kGetMetricsRequestSerialId (ser_get_metrics codec (mkGetMetricsRequest (authToken w))) w.

Definition refresh_all (w : MainWindow) : MainWindow :=
  onRefreshMetrics (onRefreshHistory (onRefreshTasks (onRefreshServices w))).

Definition onAutoRefreshTick (w : MainWindow) : MainWindow :=
  if negb (bool_decide (mw_socket w = Connected)) then w else refresh_all w.

Definition onAuthFailureTest (w : MainWindow) : MainWindow :=
  send kEchoRequestSerialId (ser_echo codec (mkEchoRequest "auth-failure-demo" "__wrong_token__")) w.
Definition onUnknownRpcTest (w : MainWindow) : MainWindow := send 999999 EmptyString w.

(** A frame whose length is too short for the serial id it counts, written past
    [encode]: what [onBadFrameTest] puts on the wire. *)
Definition badFrame : string := put_be32 1 +:+ put_be32 1.
Definition onBadFrameTest (w : MainWindow) : option string * MainWindow :=
  if negb (bool_decide (mw_socket w = Connected)) then (None, w)
  else
    (Some badFrame,
     mkMainWindow (mw_socket w) (mw_recvBuffer w) (mw_inputs w) (mw_ids w) (mw_tasks_pager w) (mw_history_pager w)
       (mw_tasks w) (mw_selected w) (mw_history w) (mw_services w) (mw_metrics w) (S (mw_writes w)) (mw_sent w)).

(** ** Connecting *)

(** [connectToHost]: a host given as an address is connected to at once, a name
    is looked up first. *)
Definition onConnect (address : bool) (w : MainWindow) : MainWindow :=
  set_socket (if address then Connecting else HostLookup) (set_recvBuffer EmptyString w).
Definition onSocketConnected (w : MainWindow) : MainWindow := refresh_all (set_socket Connected w).

(** [disconnectFromHost]: with bytes still to be written the socket is closing
    until they are out; a connection in the making is closed once it is made. *)
Definition disconnectFromHost (w : MainWindow) : MainWindow :=
  match mw_socket w with
  | Connected => set_socket (if flushed (mw_writes w) then Unconnected else Closing) w
  | _ => w
  end.
Definition onDisconnect : MainWindow -> MainWindow := disconnectFromHost.

(** ** Selecting a task *)

Definition onTaskSelectionChanged (row : option nat) (w : MainWindow) : MainWindow :=
  let w := mkMainWindow (mw_socket w) (mw_recvBuffer w) (mw_inputs w) (mw_ids w) (mw_tasks_pager w) (mw_history_pager w)
    (mw_tasks w) row (mw_history w) (mw_services w) (mw_metrics w) (mw_writes w) (mw_sent w) in
  match row ≫= fun row => mw_tasks w !! row with
  | None => w
  | Some task =>
      let i := mw_inputs w in
      let id := TaskMeta.id task in
      mkMainWindow (mw_socket w) (mw_recvBuffer w)
        (mkInputs (in_token i) (in_enabled_only i) (in_status_filter i) (in_task_keyword i) (in_success_filter i)
           (in_history_keyword i) (in_service_name i) (TaskMeta.cron_expr task) (TaskMeta.handler task)
           (TaskMeta.params task) (Z.max 1 (Z.min 100 (TaskMeta.max_retries task))))
        (mkTaskIds id id id) (mw_tasks_pager w) (mw_history_pager w) (mw_tasks w) row (mw_history w) (mw_services w)
        (mw_metrics w) (mw_writes w) (mw_sent w)
  end.

(** ** Responses *)

(** The pager a response leaves. *)
Definition answered_pager (total offset limit : Z) (p : Pager) : Pager :=
  mkPager offset total (if 0 <? limit then limit else pg_page_size p) (pg_page_size p).

(** A selected row that is no longer there is deselected. *)
Definition keep_selected (rows : nat) (selected : option nat) : option nat :=
  match selected with Some row => if decide (row < rows)%nat then Some row else None | None => None end.

Definition populateTasks (r : ListTasksResponse) (w : MainWindow) : MainWindow :=
  mkMainWindow (mw_socket w) (mw_recvBuffer w) (mw_inputs w) (mw_ids w)
    (answered_pager (tr_total r) (tr_offset r) (tr_limit r) (mw_tasks_pager w)) (mw_history_pager w) (tr_tasks r)
    (keep_selected (length (tr_tasks r)) (mw_selected w)) (mw_history w) (mw_services w) (mw_metrics w)
    (mw_writes w) (mw_sent w).

Definition populateHistory (r : ListHistoryResponse) (w : MainWindow) : MainWindow :=
  set_history_pager (answered_pager (hr_total r) (hr_offset r) (hr_limit r) (mw_history_pager w))
    (set_shown (mw_tasks w) (hr_history r) (mw_services w) (mw_metrics w) w).

Definition populateServices (endpoints : list string) (w : MainWindow) : MainWindow :=
  set_shown (mw_tasks w) (mw_history w) endpoints (mw_metrics w) w.
Definition populateMetrics (m : MetricsSnapshot) (w : MainWindow) : MainWindow :=
  set_shown (mw_tasks w) (mw_history w) (mw_services w) (Some m) w.

(** The responses after which the task list is asked for again. *)
Definition refreshes_tasks (serial_id : Z) : bool :=
  (serial_id =? kCancelTaskResponseSerialId) || (serial_id =? kUpdateTaskResponseSerialId) ||
  (serial_id =? kEnableTaskResponseSerialId).

(** The last responses [handleFrame] looks for; a health check is only logged,
    as is a frame of any other kind. *)
Definition handle_metrics_frame (serial_id : Z) (payload : string) (w : MainWindow) : MainWindow :=
  if serial_id =? kGetMetricsResponseSerialId then
    match parse_metrics_response codec payload with
    | Some (true, m) => populateMetrics m w
    | _ => w
    end
  else if serial_id =? kStreamMetricsResponseSerialId then
    match parse_stream_response codec payload with
    | Some (Some m) => populateMetrics m w
    | _ => w
    end
  else w.

(** Responses that are only logged (an error, echo, health check), and those
    that do not parse, change nothing. *)
Definition handleFrame (serial_id : Z) (payload : string) (w : MainWindow) : MainWindow :=
  if serial_id =? kSubmitTaskResponseSerialId then
    match parse_submit_response codec payload with
    | Some (mkSubmitTaskResponse true id) => onRefreshTasks (set_ids (mkTaskIds (id_edit (mw_ids w)) id id) w)
    | _ => w
    end
  else if refreshes_tasks serial_id then
    match parse_success codec serial_id payload with Some true => onRefreshTasks w | _ => w end
  else if serial_id =? kListTasksResponseSerialId then
    match parse_tasks_response codec payload with
    | Some r => if tr_success r then populateTasks r w else w
    | None => w
    end
  else if serial_id =? kListHistoryResponseSerialId then
    match parse_history_response codec payload with
    | Some r => if hr_success r then populateHistory r w else w
    | None => w
    end
  else if serial_id =? kListServicesResponseSerialId then
    match parse_services_response codec payload with
    | Some (true, endpoints) => populateServices endpoints w
    | _ => w
    end
  else if serial_id =? kDeleteTaskResponseSerialId then
    match parse_success codec serial_id payload with
    | Some true => onRefreshTasks (set_ids (mkTaskIds EmptyString EmptyString EmptyString) w)
    | _ => w
    end
  else if serial_id =? kRunTaskNowResponseSerialId then
    match parse_success codec serial_id payload with
    | Some _ => onRefreshTasks (onRefreshHistory w)
    | None => w
    end
  else handle_metrics_frame serial_id payload w.

(** The loop of [onReadyRead]. *)
Fixpoint read_frames (fuel : nat) (w : MainWindow) : MainWindow :=
  match fuel with
  | O => w
  | S fuel' =>
      if slen (mw_recvBuffer w) <? kHeaderSize then w
      else
        let d := tryDecodeFrame (mw_recvBuffer w) in
        match dec_status d, dec_frame d with
        | Incomplete, _ => w
        | Complete, Some (serial_id, payload) =>
            let w := handleFrame serial_id payload w in
            read_frames fuel' (set_recvBuffer (str_drop (Z.to_nat (dec_frame_size d)) (mw_recvBuffer w)) w)
        | _, _ => disconnectFromHost (set_recvBuffer EmptyString w)
        end
  end.

(** [bytes]: what [readAll] returns. *)
Definition onReadyRead (bytes : string) (w : MainWindow) : MainWindow :=
  let buffer := mw_recvBuffer w +:+ bytes in
  read_frames (S (String.length buffer)) (set_recvBuffer buffer w).

(** ** What comes in is handled, in order, however it is cut up *)

Lemma send_recvBuffer serial_id payload x w :
  send serial_id payload (set_recvBuffer x w) = set_recvBuffer x (send serial_id payload w).
Proof.
  unfold send, sendFrame. cbn [mw_socket set_recvBuffer mw_writes].
  case_bool_decide; [|done]. by destruct (tryEncode serial_id payload).
Qed.

Lemma onRefreshTasks_recvBuffer x w : onRefreshTasks (set_recvBuffer x w) = set_recvBuffer x (onRefreshTasks w).
Proof. apply (send_recvBuffer _ _ x (set_tasks_pager _ w)). Qed.
Lemma onRefreshHistory_recvBuffer x w : onRefreshHistory (set_recvBuffer x w) = set_recvBuffer x (onRefreshHistory w).
Proof. apply (send_recvBuffer _ _ x (set_history_pager _ w)). Qed.

Lemma handleFrame_recvBuffer serial_id payload x w :
  handleFrame serial_id payload (set_recvBuffer x w) = set_recvBuffer x (handleFrame serial_id payload w).
Proof.
  unfold handleFrame, handle_metrics_frame. repeat case_match; try done;
    rewrite <- ?onRefreshTasks_recvBuffer, <- ?onRefreshHistory_recvBuffer; try done.
Qed.

Definition handle_all (fs : list (Z * string)) (w : MainWindow) : MainWindow :=
  foldl (fun w f => handleFrame f.1 f.2 w) w fs.

Lemma handle_all_recvBuffer fs x w : handle_all fs (set_recvBuffer x w) = set_recvBuffer x (handle_all fs w).
Proof. revert w. induction fs as [|f fs IH]; intros w; [done|]. unfold handle_all in *. cbn [foldl]. by rewrite handleFrame_recvBuffer, IH. Qed.

Lemma set_recvBuffer_twice x y w : set_recvBuffer x (set_recvBuffer y w) = set_recvBuffer x w.
Proof. done. Qed.

Lemma recvBuffer_set_id w : set_recvBuffer (mw_recvBuffer w) w = w.
Proof. by destruct w. Qed.

Lemma handleFrame_keeps_buffer serial_id payload w :
  mw_recvBuffer (handleFrame serial_id payload w) = mw_recvBuffer w.
Proof. rewrite <- (recvBuffer_set_id w) at 1. by rewrite handleFrame_recvBuffer. Qed.

(** What reading leaves of the frames of the buffer. *)
Definition after_frames (r : list (Z * string) * string * bool) (w : MainWindow) : MainWindow :=
  let '(fs, rest, bad) := r in
  let w := handle_all fs w in
  if bad then disconnectFromHost (set_recvBuffer EmptyString w) else set_recvBuffer rest w.

Lemma after_frames_recvBuffer r x w : after_frames r (set_recvBuffer x w) = after_frames r w.
Proof. destruct r as [[fs rest] bad]. unfold after_frames. rewrite handle_all_recvBuffer. by destruct bad. Qed.

Lemma short_is_incomplete data : slen data < kHeaderSize -> dec_status (tryDecodeFrame data) = Incomplete.
Proof.
  destruct (header_cases data) as [[_ ->]|(d0&d1&d2&d3&d4&d5&d6&d7&rest&->)]; [done|].
  unfold slen, kHeaderSize. cbn [String.length]. lia.
Qed.

Lemma read_frames_all fuel w : (String.length (mw_recvBuffer w) < fuel)%nat ->
  read_frames fuel w = after_frames (frames (mw_recvBuffer w)) w.
Proof.
  revert w. induction fuel as [|fuel IH]; intros w Hf; [lia|]. cbn [read_frames]. rewrite frames_step. cbv zeta.
  destruct (Z.ltb_spec (slen (mw_recvBuffer w)) kHeaderSize) as [Hs|_].
  { rewrite short_is_incomplete by done. cbn [after_frames handle_all foldl]. by rewrite recvBuffer_set_id. }
  destruct (dec_status (tryDecodeFrame (mw_recvBuffer w))) eqn:Es; [|cbn; by rewrite recvBuffer_set_id|done|done].
  destruct (decode_complete_size _ Es) as [_ [[serial_id payload] Ef]]. rewrite Ef.
  pose proof (complete_drop _ Es) as Hd. rewrite handleFrame_keeps_buffer, IH by (cbn [mw_recvBuffer set_recvBuffer]; lia).
  cbn [mw_recvBuffer set_recvBuffer]. rewrite after_frames_recvBuffer.
  by destruct (frames (str_drop _ (mw_recvBuffer w))) as [[fs rest] bad].
Qed.

Lemma onReadyRead_frames bytes w :
  onReadyRead bytes w = after_frames (frames (mw_recvBuffer w +:+ bytes)) w.
Proof. unfold onReadyRead. rewrite read_frames_all by (cbn; lia). apply after_frames_recvBuffer. Qed.

Lemma frames_rest data fs rest : frames data = (fs, rest, false) -> frames rest = ([], rest, false).
Proof.
  revert fs. induction data as [data IH] using frames_ind. intros fs. rewrite frames_step. cbv zeta.
  destruct (dec_status (tryDecodeFrame data)) eqn:Es; [| |done|done].
  - destruct (decode_complete_size _ Es) as [_ [f ->]].
    destruct (frames (str_drop _ data)) as [[fs' rest'] bad] eqn:Ef. intros [= <- -> ->]. by apply (IH eq_refl fs').
  - intros [= <- <-]. rewrite frames_step. cbv zeta. by rewrite Es.
Qed.

(** Reading in pieces, when all the bytes are well formed. *)
Lemma onReadyRead_pieces pieces w data fs rest fs0 :
  frames data = (fs0, mw_recvBuffer w, false) ->
  frames (data +:+ foldr String.append EmptyString pieces) = (fs0 ++ fs, rest, false) ->
  foldl (fun w bytes => onReadyRead bytes w) w pieces = set_recvBuffer rest (handle_all fs w).
Proof.
  revert w data fs0 fs. induction pieces as [|bytes pieces IH]; intros w data fs0 fs Hd; cbn [foldr foldl].
  - rewrite append_nil_r, Hd. intros [= Hfs <-]. assert (fs = []) as -> by (apply (app_inv_head fs0); by rewrite app_nil_r).
    unfold handle_all. cbn [foldl]. by rewrite recvBuffer_set_id.
  - rewrite <- append_assoc_str. intros Ha. rewrite onReadyRead_frames.
    pose proof (frames_app data bytes) as Hb. rewrite Hd in Hb. cbv iota in Hb.
    destruct (frames (mw_recvBuffer w +:+ bytes)) as [[fs1 rest1] bad1].
    rewrite frames_app, Hb in Ha. destruct bad1; [done|].
    destruct (frames (rest1 +:+ _)) as [[fs2 rest2] bad2] eqn:E2.
    injection Ha as Ha -> ->. rewrite <- app_assoc in Ha. apply app_inv_head in Ha as <-.
    cbn [after_frames]. rewrite (IH _ (data +:+ bytes) (fs0 ++ fs1) fs2); [|exact Hb|].
    + rewrite handle_all_recvBuffer. unfold handle_all. by rewrite foldl_app.
    + rewrite frames_app, Hb, E2. done.
Qed.

(** ** The other end *)

Section Server.
Context (server : Codec).

(** What the server frames for a response: the response, or the error in its
    place when it is too large. *)
Definition delivered (r : RpcResponse) : Z * string :=
  match tryEncode (rsp_serial_id r) (rsp_payload r) with
  | Some _ => (rsp_serial_id r, rsp_payload r)
  | None =>
      let e := make_error_response server PAYLOAD_TOO_LARGE "Response payload too large" in
      (rsp_serial_id e, rsp_payload e)
  end.

Lemma encode_delivered r buffer : encode_response server r = Some buffer ->
  tryEncode (delivered r).1 (delivered r).2 = Some buffer.
Proof. unfold encode_response, delivered. by destruct (tryEncode (rsp_serial_id r) _) eqn:E; [rewrite <- E|]. Qed.

Lemma delivered_u32 r : is_u32 (rsp_serial_id r) -> is_u32 (delivered r).1.
Proof. unfold delivered. by case_match. Qed.

Lemma frames_encoded f buffer more : is_u32 f.1 -> tryEncode f.1 f.2 = Some buffer ->
  frames (buffer +:+ more) = let '(fs, rest, bad) := frames more in (f :: fs, rest, bad).
Proof.
  intros Hid He. rewrite frames_step, (decode_encoded _ _ _ _ Hid He). cbv zeta. cbn [dec_status dec_frame dec_frame_size].
  replace (Z.to_nat (slen buffer)) with (String.length buffer) by (unfold slen; lia).
  rewrite str_drop_app_length. by destruct f.
Qed.

Definition sendable (r : RpcResponse) : Prop := is_u32 (rsp_serial_id r) /\ is_Some (encode_response server r).

Lemma frames_wire_of responses : Forall sendable responses ->
  frames (wire_of server responses) = (map delivered responses, EmptyString, false).
Proof.
  induction 1 as [|r responses [Hid [buffer He]] _ IH]; [done|]. cbn [wire_of map]. rewrite He.
  by rewrite (frames_encoded (delivered r)), IH by (auto using delivered_u32, encode_delivered).
Qed.

(** Whatever responses a server sends, and however the network cuts their
    bytes up, the client handles exactly those responses (an error in place of
    one too large to be framed), each once and in order, and its buffer is
    empty after the last piece. *)
Theorem responses_reach_the_client responses pieces w :
  Forall sendable responses -> mw_recvBuffer w = EmptyString ->
  foldr String.append EmptyString pieces = wire_of server responses ->
  foldl (fun w bytes => onReadyRead bytes w) w pieces = handle_all (map delivered responses) w.
Proof.
  intros Hs Hw Hp. rewrite (onReadyRead_pieces pieces w EmptyString (map delivered responses) EmptyString []).
  - rewrite <- Hw at 1. rewrite <- handle_all_recvBuffer. by rewrite recvBuffer_set_id.
  - by rewrite Hw.
  - rewrite Hp. by apply frames_wire_of.
Qed.

(** ** Browsing

    The user looks at the first page and goes on to the next one while its
    button is enabled; each request reaches a node whose database answers from
    [t]. *)
Context {D : Type} `{DT : Datetime D}.
Context (d : RpcDispatcher) (utc_to_local local_to_utc : Z -> option Z) (cron_next : string -> Z -> option Z).
Context {St : Type} (handle : forall X, DispE X -> M St X) (like : string -> string -> bool) (t : Tables D).

(** The response to the last request sent, as it comes in. *)
Definition exchange (s : St) (w : MainWindow) : MainWindow * St :=
  match last (mw_sent w) with
  | Some (serial_id, payload) =>
      let '(r, s') := run handle (dispatchCore server d utc_to_local local_to_utc cron_next serial_id payload) s in
      (match encode_response server r with Some bytes => onReadyRead bytes w | None => w end, s')
  | None => (w, s)
  end.

Fixpoint browse (fuel : nat) (s : St) (w : MainWindow) : list (list TaskMeta.t) :=
  mw_tasks w ::
  match fuel with
  | S fuel' =>
      if ui_next (pagination_ui (mw_tasks_pager w) w) then
        let '(w', s') := exchange s (onNextTasksPage w) in browse fuel' s' w'
      else []
  | O => []
  end.

(** The query that the filters of the window mean. *)
Definition window_query (w : MainWindow) (limit offset : Z) : TaskQuery.t :=
  let i := mw_inputs w in
  TaskQuery.mk (if 0 <=? in_status_filter i then in_status_filter i
                else if in_enabled_only i then TASK_SCHEDULED else -1)
    (trimmed (in_task_keyword i)) limit offset.

(** The rows it matches, in the order of the listing. *)
Definition matching (w : MainWindow) : list TaskMeta.t :=
  map (fun x => task_from_result x.1 x.2)
    (sort_by recent_le (filter (fun x => task_where like (window_query w 0 0) x = true) (map_to_list (tasks t)))).

(** The request of [onRefreshTasks] at an offset, and the response to it. *)
Definition list_request (w : MainWindow) (offset : Z) : ListTasksRequest :=
  let i := mw_inputs w in
  let filtered := 0 <=? in_status_filter i in
  mkListTasksRequest (authToken w) (pg_page_size (mw_tasks_pager w)) (in_enabled_only i) offset
    (if filtered then in_status_filter i else 0) (trimmed (in_task_keyword i)) filtered.

Definition page_at (w : MainWindow) (offset : Z) : list TaskMeta.t :=
  take (Z.to_nat (pg_page_size (mw_tasks_pager w))) (drop (Z.to_nat offset) (matching w)).
Definition total (w : MainWindow) : Z := Z.of_nat (length (matching w)).
Definition list_message (w : MainWindow) (offset : Z) : Message :=
  MListTasks (page_at w offset) (total w) offset (pg_page_size (mw_tasks_pager w)).

(** What the listing needs: a connection, a node that serves it, messages that
    are parsed as they were serialized and fit a frame, and offsets in [int]. *)
Record browsable (w : MainWindow) : Prop := mkBrowsable {
  bw_connected : mw_socket w = Connected;
  bw_buffer : mw_recvBuffer w = EmptyString;
  bw_page_size : 10 <= pg_page_size (mw_tasks_pager w) <= 500;
  bw_total : total w + 500 < 2 ^ 31;
  bw_write n : write_complete n = true;
  bw_role : methodAllowed (do_role (dp_options d)) kListTasksRequestSerialId = true;
  bw_has_db : dp_has_db d = true;
  bw_token : authorized (dp_auth_token d) (authToken w) = true;
  bw_db q s : (handle _ (DbListTasks q) s).1 = query_tasks like q t;
  bw_request offset : 0 <= offset < 2 ^ 31 ->
    slen (ser_list_tasks codec (list_request w offset)) <= kMaxPayloadSize /\
    parse_list_tasks server (ser_list_tasks codec (list_request w offset)) = Some (list_request w offset);
  bw_response offset : 0 <= offset < 2 ^ 31 ->
    slen (serialize server (list_message w offset)) <= kMaxPayloadSize /\
    parse_tasks_response codec (serialize server (list_message w offset)) =
      Some (mkListTasksResponse true (page_at w offset) (total w) offset (pg_page_size (mw_tasks_pager w)))
}.

(** The window [w] of the start, later on. *)
Definition same_view (w0 w : MainWindow) : Prop :=
  mw_socket w = Connected /\ mw_recvBuffer w = EmptyString /\ mw_inputs w = mw_inputs w0 /\
  pg_page_size (mw_tasks_pager w) = pg_page_size (mw_tasks_pager w0).

Definition showing (w0 : MainWindow) (offset : Z) (w : MainWindow) : Prop :=
  same_view w0 w /\ mw_tasks w = page_at w0 offset /\
  mw_tasks_pager w = mkPager offset (total w0) (pg_page_size (mw_tasks_pager w0)) (pg_page_size (mw_tasks_pager w0)).

Lemma fits_frame serial_id payload : slen payload <= kMaxPayloadSize -> exists buffer, tryEncode serial_id payload = Some buffer.
Proof. intros H. unfold tryEncode. destruct (Z.ltb_spec kMaxPayloadSize (slen payload)); [lia|]. eauto. Qed.

Lemma page_limit_id limit : 0 < limit <= 500 -> page_limit limit = limit.
Proof. intros H. unfold page_limit. destruct (Z.ltb_spec 0 limit); lia. Qed.
Lemma page_offset_id offset : 0 <= offset -> page_offset offset = offset.
Proof. intros H. unfold page_offset. destruct (Z.ltb_spec 0 offset); lia. Qed.
Lemma to_int_id z : 0 <= z < 2 ^ 31 -> to_int z = z.
Proof. intros H. unfold to_int. rewrite Z.mod_small by lia. lia. Qed.

(** The node's page is the window's. *)
Lemma query_tasks_page w offset : browsable w -> 0 <= offset < 2 ^ 31 ->
  query_tasks like (window_query w (page_limit (pg_page_size (mw_tasks_pager w))) (page_offset offset)) t =
  (page_at w offset, total w).
Proof.
  intros Hb Ho. pose proof (bw_page_size _ Hb) as Hp. unfold query_tasks, page_at, total, matching, sql_select.
  change (@task_where D like (window_query w ?l ?o)) with (@task_where D like (window_query w 0 0)).
  cbn [TaskQuery.limit TaskQuery.offset window_query].
  rewrite page_limit_id, page_offset_id by lia.
  destruct (Z.eqb_spec (pg_page_size (mw_tasks_pager w)) 0); [lia|].
  rewrite !u32_small by (unfold is_u32; lia). rewrite length_map, length_sort_by.
  by rewrite <- firstn_map, <- skipn_map.
Qed.

(** The node's answer to the request of a page. *)
Lemma list_answer w offset s : browsable w -> 0 <= offset < 2 ^ 31 ->
  (run handle (dispatchCore server d utc_to_local local_to_utc cron_next kListTasksRequestSerialId
                 (ser_list_tasks codec (list_request w offset))) s).1 =
  make_response server kListTasksResponseSerialId (list_message w offset).
Proof.
  intros Hb Ho. pose proof (bw_page_size _ Hb) as Hp. pose proof (bw_total _ Hb) as Ht.
  unfold dispatchCore. rewrite (bw_role _ Hb). cbn [negb].
  change (if kListTasksRequestSerialId =? kEchoRequestSerialId then _ else _) with
    (handleListTasks server d (ser_list_tasks codec (list_request w offset))).
  unfold handleListTasks, admit_request. rewrite (proj2 (bw_request _ Hb offset Ho)).
  change (lt_auth_token (list_request w offset)) with (authToken w). rewrite (bw_token _ Hb), (bw_has_db _ Hb).
  cbn [negb]. cbv zeta.
  match goal with |- context [DbListTasks ?q] =>
    assert (q = window_query w (page_limit (pg_page_size (mw_tasks_pager w))) (page_offset offset)) as Hq
  end.
  { unfold window_query. cbn. by destruct (0 <=? in_status_filter (mw_inputs w)). }
  rewrite Hq. clear Hq. cbn [bindP ask run].
  pose proof (bw_db _ Hb (window_query w (page_limit (pg_page_size (mw_tasks_pager w))) (page_offset offset)) s) as Hd.
  destruct (handle _ _ s) as [page s']. cbn [fst] in Hd. rewrite query_tasks_page in Hd by done. subst page. cbn.
  by rewrite to_int_id, page_limit_id, page_offset_id by (unfold total in *; lia).
Qed.

Lemma send_complete serial_id payload w :
  mw_socket w = Connected -> slen payload <= kMaxPayloadSize -> write_complete (mw_writes w) = true ->
  send serial_id payload w =
  mkMainWindow Connected (mw_recvBuffer w) (mw_inputs w) (mw_ids w) (mw_tasks_pager w) (mw_history_pager w) (mw_tasks w)
    (mw_selected w) (mw_history w) (mw_services w) (mw_metrics w) (S (mw_writes w)) (mw_sent w ++ [(serial_id, payload)]).
Proof.
  intros Hc Hp Hw. unfold send, sendFrame. rewrite Hc, Hw. rewrite bool_decide_true by done. cbn [negb].
  by destruct (fits_frame serial_id payload Hp) as [buffer ->].
Qed.

(** One refresh, there and back. *)
Lemma refresh_exchange w0 w s : browsable w0 -> same_view w0 w -> 0 <= pg_offset (mw_tasks_pager w) < 2 ^ 31 ->
  showing w0 (pg_offset (mw_tasks_pager w)) (exchange s (onRefreshTasks w)).1.
Proof.
  intros Hb (Hc & Hbuf & Hi & Hps) Ho. set (offset := pg_offset (mw_tasks_pager w)) in *.
  destruct (bw_request _ Hb offset Ho) as [Hfit _]. destruct (bw_response _ Hb offset Ho) as [Hrfit Hparse].
  assert (onRefreshTasks w = send kListTasksRequestSerialId (ser_list_tasks codec (list_request w0 offset))
            (set_tasks_pager (choose_limit (mw_tasks_pager w)) w)) as ->.
  { unfold onRefreshTasks, list_request, authToken. cbn. by rewrite Hi, Hps. }
  rewrite send_complete by (done || apply (bw_write _ Hb)). unfold exchange. cbn [mw_sent]. rewrite last_snoc.
  pose proof (list_answer _ offset s Hb Ho) as Ha.
  destruct (run handle _ s) as [r s']. cbn [fst] in Ha. subst r. unfold encode_response.
  cbn [rsp_serial_id rsp_payload make_response]. destruct (fits_frame kListTasksResponseSerialId _ Hrfit) as [bytes Hbytes].
  rewrite Hbytes. cbn [fst]. rewrite onReadyRead_frames. cbn [mw_recvBuffer set_tasks_pager]. rewrite Hbuf.
  rewrite <- (append_nil_r bytes). change (EmptyString +:+ ?x) with x.
  rewrite (frames_encoded (kListTasksResponseSerialId, serialize server (list_message w0 offset)))
    by (done || exact Hbytes).
  cbn. unfold handleFrame. cbn. rewrite Hparse. cbn.
  pose proof (bw_page_size _ Hb). unfold showing, same_view, populateTasks, answered_pager. cbn. rewrite Hps.
  destruct (Z.ltb_spec 0 (pg_page_size (mw_tasks_pager w0))); [|lia]. by split_and!.
Qed.

(** Paging on from an offset shows the rows from there on. *)
Lemma browse_from fuel w0 s w offset : browsable w0 -> showing w0 offset w -> 0 <= offset ->
  total w0 - offset <= Z.of_nat fuel ->
  concat (browse fuel s w) = drop (Z.to_nat offset) (matching w0) /\
  Forall (fun page => Z.of_nat (length page) <= pg_page_size (mw_tasks_pager w0)) (browse fuel s w).
Proof.
  intros Hb. revert s w offset. induction fuel as [|fuel IH]; intros s w offset (Hv & Hrows & Hp) Ho Hf;
    pose proof (bw_page_size _ Hb) as Hps; pose proof (bw_total _ Hb) as Ht; cbn [browse concat]; rewrite Hrows.
  all: assert (Hlen : Z.of_nat (length (page_at w0 offset)) <= pg_page_size (mw_tasks_pager w0))
    by (unfold page_at; rewrite length_take; lia).
  all: assert (Hlast : total w0 - offset <= pg_page_size (mw_tasks_pager w0) ->
                 page_at w0 offset ++ concat [] = drop (Z.to_nat offset) (matching w0))
    by (intros Hle; unfold page_at, total in *; cbn [concat]; rewrite app_nil_r; apply take_ge; rewrite length_drop; lia).
  { split; [apply Hlast; lia|by constructor]. }
  rewrite Hp. cbn [pagination_ui ui_next]. unfold has_next. cbn [pg_offset pg_limit pg_total].
  rewrite bool_decide_true by apply Hv. cbn [andb].
  destruct (Z.ltb_spec (offset + pg_page_size (mw_tasks_pager w0)) (total w0)) as [Hn|Hn];
    [|split; [apply Hlast; lia|by constructor]].
  unfold onNextTasksPage. rewrite Hp. unfold has_next, choose_limit. cbn [pg_offset pg_limit pg_total pg_page_size].
  rewrite (proj2 (Z.ltb_lt _ _) Hn).
  set (w1 := set_tasks_pager _ w).
  assert (Hs : showing w0 (pg_offset (mw_tasks_pager w1)) (exchange s (onRefreshTasks w1)).1).
  { apply refresh_exchange; [done| |cbn; lia]. destruct Hv as (? & ? & ? & ?). by split_and!. }
  destruct (exchange s (onRefreshTasks w1)) as [w' s']. cbn [w1 set_tasks_pager mw_tasks_pager next_page pg_offset fst] in Hs.
  destruct (IH s' w' _ Hs) as [IH1 IH2]; [cbn; lia..|]. split; [|by constructor].
  rewrite IH1. cbn. rewrite Z2Nat.inj_add by lia. unfold page_at. rewrite <- drop_drop. apply take_drop.
Qed.

(** C27.  Choosing a filter and then pressing Next until its button is disabled
    shows every task that matches the filter exactly once, in the order of the
    listing, on pages no longer than the page size: through the client's
    requests, the framing, the dispatcher of whatever node answers, and the
    query it makes. *)
Theorem pages_show_every_task fuel s w : browsable w -> (length (matching w) <= fuel)%nat ->
  let '(first, s') := exchange s (onTaskFilterChanged w) in
  concat (browse fuel s' first) = matching w /\
  Forall (fun page => Z.of_nat (length page) <= pg_page_size (mw_tasks_pager w)) (browse fuel s' first).
Proof.
  intros Hb Hf. unfold onTaskFilterChanged. set (w1 := set_tasks_pager _ w).
  rewrite bool_decide_true by apply (bw_connected _ Hb).
  assert (Hs : showing w (pg_offset (mw_tasks_pager w1)) (exchange s (onRefreshTasks w1)).1).
  { apply refresh_exchange; [done| |cbn; lia]. split_and!; [apply Hb|apply Hb|done..]. }
  destruct (exchange s (onRefreshTasks w1)) as [first s'].
  apply (browse_from fuel w s' first 0); [done|exact Hs|done|unfold total; lia].
Qed.

End Server.
End Window.

(** A client with a page size of ten and a node with twelve tasks. *)
Module WindowExample.

Definition noon : civil := exist _ 1715947200 eq_refl.
Definition letters : list ascii := list_ascii_of_string "abcdefghijkl".

Definition row : TaskRow civil := mkTaskRow "0 0 12 * * *" "{}" "Echo" 1 None None 0 3 None None None noon.
Definition id_of (c : ascii) : string := String c EmptyString.
Definition task_of (c : ascii) : TaskMeta.t := task_from_result (id_of c) row.
Definition tables : Tables civil := mkTables (list_to_map (map (fun c => (id_of c, row)) letters)) [].

(** Messages as big-endian numbers and one letter per task. *)
Definition get_int (s : string) : Z :=
  match s with
  | String a (String b (String c (String d _))) => get_be32 a b c d
  | _ => 0
  end.
Definition ids (tasks : list TaskMeta.t) : string := String.concat EmptyString (map TaskMeta.id tasks).

Definition client : ClientCodec := {|
  ser_echo := ec_message; ser_health := hc_service_name; ser_stream_metrics r := put_be32 (sm_samples r);
  ser_submit := st_params; ser_task_id := ti_task_id; ser_update r := match ut_task r with Some task => TaskMeta.id task +:+ "=" +:+ to_string (TaskMeta.status task) | None => EmptyString end; ser_enable := en_task_id;
  ser_list_tasks r := put_be32 (lt_offset r); ser_list_history := lh_task_id;
  ser_list_services := ls_service_name; ser_get_metrics _ := EmptyString;
  parse_submit_response s := Some (mkSubmitTaskResponse true s);
  parse_success _ s := Some (str_empty s);
  parse_tasks_response s :=
    Some (mkListTasksResponse true (map task_of (list_ascii_of_string (str_drop 12 s)))
            (get_int s) (get_int (str_drop 4 s)) (get_int (str_drop 8 s)));
  parse_history_response _ := None; parse_services_response s := Some (true, [s]);
  parse_metrics_response _ := None; parse_stream_response _ := None
|}.

Definition server : Codec := {|
  parse_echo := parse_echo DispatcherExample.codec;
  parse_submit := parse_submit DispatcherExample.codec;
  parse_execute := parse_execute DispatcherExample.codec;
  parse_cancel := parse_cancel DispatcherExample.codec;
  parse_list_history := parse_list_history DispatcherExample.codec;
  parse_list_services := parse_list_services DispatcherExample.codec;
  parse_update := parse_update DispatcherExample.codec;
  parse_enable := parse_enable DispatcherExample.codec;
  parse_delete := parse_delete DispatcherExample.codec;
  parse_run_now := parse_run_now DispatcherExample.codec;
  parse_get_metrics := parse_get_metrics DispatcherExample.codec;
  parse_health := parse_health DispatcherExample.codec;
  parse_stream_metrics := parse_stream_metrics DispatcherExample.codec;
  parse_rpc_error := parse_rpc_error DispatcherExample.codec;
  parse_execute_response := parse_execute_response DispatcherExample.codec;
  serialize_execute := serialize_execute DispatcherExample.codec;
  parse_list_tasks s := Some (mkListTasksRequest "secret" 10 false (get_int s) 0 EmptyString false);
  serialize m :=
    match m with
    | MListTasks tasks total offset limit => put_be32 total +:+ put_be32 offset +:+ put_be32 limit +:+ ids tasks
    | _ => DispatcherExample.serialize m
    end
|}.

Definition window : MainWindow :=
  mkMainWindow Connected EmptyString
    (mkInputs "secret" false (-1) EmptyString (-1) EmptyString EmptyString EmptyString EmptyString EmptyString 3)
    (mkTaskIds EmptyString EmptyString EmptyString) (mkPager 20 3 10 10) new_pager [] None [] [] None 0 [].

Definition like (a b : string) : bool := String.eqb a b.
Definition handle (X : Type) (e : DispE X) : M () X :=
  match e with
  | DbListTasks q => retM (query_tasks like q tables)
  | e => DispatcherExample.handle _ e
  end.

Definition trimmed (s : string) : string := s.
Definition writes (n : nat) : bool := true.
Definition node : RpcDispatcher := DispatcherExample.node ControlPlane.

Abbreviation cron := (fun (expr : string) (now : Z) => Some (now + 86400)).
Abbreviation sees := (browse client trimmed writes writes server node Some Some cron handle).

Example two_pages :
  let '(first, s) := exchange client trimmed writes writes server node Some Some cron handle ()
                       (onTaskFilterChanged client trimmed writes window) in
  map ids (sees 12%nat s first) = ["lkjihgfedc"; "ba"]%string.
Proof. vm_compute. reflexivity. Qed.

Lemma matching_tasks : matching trimmed like tables window = map task_of (rev letters).
Proof. vm_compute. reflexivity. Qed.

Lemma get_int_put x rest : is_u32 x -> get_int (put_be32 x +:+ rest) = x.
Proof. intros H. unfold put_be32. cbn. by apply get_put_be32. Qed.

Lemma ids_cons c cs : ids (map task_of (c :: cs)) = String c (ids (map task_of cs)).
Proof. by destruct cs. Qed.

Lemma ids_of cs : list_ascii_of_string (ids (map task_of cs)) = cs.
Proof. induction cs as [|c cs IH]; [done|]. rewrite ids_cons. cbn [list_ascii_of_string]. by rewrite IH. Qed.

Lemma slen_ids cs : slen (ids (map task_of cs)) = Z.of_nat (length cs).
Proof. induction cs as [|c cs IH]; [done|]. rewrite ids_cons. unfold slen in *. cbn [String.length length]. lia. Qed.

Lemma page_letters offset :
  page_at trimmed like tables window offset = map task_of (take 10 (drop (Z.to_nat offset) (rev letters))).
Proof. unfold page_at. rewrite matching_tasks. by rewrite skipn_map, firstn_map. Qed.

Lemma window_browsable : browsable client trimmed writes server node handle like tables window.
Proof.
  assert (Hn : length (rev letters) = 12%nat) by done.
  assert (Ht : total trimmed like tables window = 12) by (unfold total; by rewrite matching_tasks).
  constructor; rewrite ?Ht; try done.
  - intros offset Ho. assert (is_u32 offset) by (unfold is_u32; lia). split; [by vm_compute|].
    cbn [parse_list_tasks server ser_list_tasks client list_request lt_offset].
    rewrite <- (append_nil_r (put_be32 offset)). by rewrite get_int_put.
  - intros offset Ho. assert (is_u32 offset) by (unfold is_u32; lia). unfold list_message. rewrite Ht, page_letters.
    set (cs := take 10 _). assert (length cs <= 10)%nat by (unfold cs; rewrite length_take; lia).
    cbn [serialize server]. split.
    + rewrite !slen_app, !slen_put_be32, slen_ids. unfold kMaxPayloadSize, kMaxFrameSize, kSerialIdSize. lia.
    + cbn [parse_tasks_response client]. rewrite get_int_put by done.
      change (str_drop 4 (put_be32 12 +:+ ?r)) with r. change (str_drop 8 (put_be32 12 +:+ put_be32 offset +:+ ?r)) with r.
      change (str_drop 12 (put_be32 12 +:+ put_be32 offset +:+ put_be32 ?l +:+ ?r)) with r.
      by rewrite !get_int_put, ids_of by done.
Qed.

Lemma pages_show_every_task_witness :
  (length (matching trimmed like tables window) <= 12)%nat /\
  let '(first, s) := exchange client trimmed writes writes server node Some Some cron handle ()
                       (onTaskFilterChanged client trimmed writes window) in
  concat (sees 12%nat s first) = map task_of (rev letters) /\
  Forall (fun page => Z.of_nat (length page) <= 10) (sees 12%nat s first).
Proof.
  split; [by rewrite matching_tasks; vm_compute|]. rewrite <- matching_tasks.
  apply (pages_show_every_task client trimmed writes writes server node Some Some cron handle like tables 12 () window).
  - apply window_browsable.
  - rewrite matching_tasks. by vm_compute.
Defined.

(** Two responses in two pieces, the first cut in its header. *)
Definition responses : list RpcResponse := [mkRpcResponse kCancelTaskResponseSerialId EmptyString; mkRpcResponse 2 "hi"].
Definition pieces : list string :=
  [str_take 5 (wire_of server responses); str_drop 5 (wire_of server responses)].

Lemma responses_reach_the_client_witness :
  foldl (fun w bytes => onReadyRead client trimmed writes writes bytes w) window pieces =
  handle_all client trimmed writes [(kCancelTaskResponseSerialId, EmptyString); (2, "hi"%string)] window.
Proof.
  apply (responses_reach_the_client client trimmed writes writes server responses pieces window); [|done|by vm_compute].
  repeat (apply Forall_cons; split; [split; [by vm_compute|by eexists]|]). done.
Defined.

Example bad_frame_is_malformed : frames badFrame = ([], badFrame, true).
Proof. reflexivity. Qed.

(** A disabled task [a] is selected to be edited when a refresh brings a newer
    task [b] into its row: the update of [a] then takes the status of [b]. *)
Definition with_status (c : ascii) (status : Z) : TaskMeta.t :=
  task_from_result (id_of c) (mkTaskRow "0 0 12 * * *" "{}" "Echo" status None None 0 3 None None None noon).

Definition edited (refreshed : list TaskMeta.t) : list (Z * string) :=
  let w := onTaskSelectionChanged (Some 0%nat) (set_shown [with_status "a" TASK_DISABLED] [] [] None window) in
  mw_sent (onUpdateTask client trimmed writes
             (populateTasks (mkListTasksResponse true refreshed (Z.of_nat (length refreshed)) 0 10) w)).

Example edit_keeps_status : edited [with_status "a" TASK_DISABLED] = [(kUpdateTaskRequestSerialId, "a=0"%string)].
Proof. vm_compute. reflexivity. Qed.

Example refresh_changes_edited_status :
  edited [with_status "b" TASK_SCHEDULED; with_status "a" TASK_DISABLED] = [(kUpdateTaskRequestSerialId, "a=1"%string)].
Proof. vm_compute. reflexivity. Qed.

End WindowExample.
