(* ===== verification/ClientProcesses.v ===== *)
(** The processes the desktop client starts and its buttons
    ([client/mainwindow.cpp]): tools run one at a time, server and worker nodes
    with the environment the window gives them, and which buttons are enabled.

    A [QProcess] tells the window when it has started and when it has
    finished; one that could not be started only changes its state, since
    [errorOccurred] is connected to nothing.  A disabled button cannot be
    clicked. *)
From S2P Require Import Prelude Datetime Text Config AppConfig Dispatcher DispatcherSafety ClientWindow.

Inductive ProcessState := NotRunning | Starting | Running.
#[global] Instance ProcessState_eq_dec : EqDecision ProcessState.
Proof. solve_decision. Defined.

(** [toolProcess], [serverProcess], [server2Process], [workerProcess],
    [worker2Process] *)
Inductive Slot := ToolSlot | ServerSlot | Server2Slot | WorkerSlot | Worker2Slot.
#[global] Instance Slot_eq_dec : EqDecision Slot.
Proof. solve_decision. Defined.

Record Command := mkCommand { cm_program : string; cm_arguments : list string; cm_dir : string; cm_env : gmap string string }.

(** What [updateUiState] sets: the buttons by what they depend on.  [ui_start]
    and [ui_stop] are those of the nodes; [ui_tools] those that run a tool. *)
Record Ui := mkUi {
  ui_connect : bool; ui_disconnect : bool; ui_requests : bool;
  ui_prev_tasks : bool; ui_next_tasks : bool; ui_prev_history : bool; ui_next_history : bool;
  ui_tools : bool; ui_node_start : Slot -> bool; ui_node_stop : Slot -> bool
}.

(** [dk_started]: the commands started, the last one first.  [dk_signalled]: the
    processes [terminate] was called on. *)
Record Desk := mkDesk {
  dk_window : MainWindow; dk_host : string; dk_port : Z; dk_bench : Z * Z;
  dk_state : Slot -> ProcessState; dk_started : list (Slot * Command); dk_signalled : list Slot; dk_ui : Ui
}.

Definition upd {A} (s : Slot) (x : A) (f : Slot -> A) : Slot -> A := fun s' => if decide (s' = s) then x else f s'.

Definition idle (d : Desk) (s : Slot) : bool := bool_decide (dk_state d s = NotRunning).

Definition ui_of (d : Desk) : Ui :=
  let w := dk_window d in
  let connected := bool_decide (mw_socket w = Connected) in
  let connecting := bool_decide (mw_socket w = Connecting) in
  let t := mw_tasks_pager w in
  let h := mw_history_pager w in
  mkUi (negb connected && negb connecting) (connected || connecting) connected
    (connected && (0 <? pg_offset t)) (connected && has_next t) (connected && (0 <? pg_offset h)) (connected && has_next h)
    (idle d ToolSlot) (idle d) (fun s => negb (idle d s)).

Definition set_ui (ui : Ui) (d : Desk) : Desk :=
  mkDesk (dk_window d) (dk_host d) (dk_port d) (dk_bench d) (dk_state d) (dk_started d) (dk_signalled d) ui.
Definition set_window (w : MainWindow) (d : Desk) : Desk :=
  mkDesk w (dk_host d) (dk_port d) (dk_bench d) (dk_state d) (dk_started d) (dk_signalled d) (dk_ui d).
Definition set_state (s : Slot) (x : ProcessState) (d : Desk) : Desk :=
  mkDesk (dk_window d) (dk_host d) (dk_port d) (dk_bench d) (upd s x (dk_state d)) (dk_started d) (dk_signalled d) (dk_ui d).

Definition updateUiState (d : Desk) : Desk := set_ui (ui_of d) d.

(** [QProcess::start] and [terminate] *)
Definition start_process (s : Slot) (c : Command) (d : Desk) : Desk :=
  mkDesk (dk_window d) (dk_host d) (dk_port d) (dk_bench d) (upd s Starting (dk_state d)) ((s, c) :: dk_started d)
    (dk_signalled d) (dk_ui d).
Definition terminate (s : Slot) (d : Desk) : Desk :=
  mkDesk (dk_window d) (dk_host d) (dk_port d) (dk_bench d) (dk_state d) (dk_started d) (s :: dk_signalled d) (dk_ui d).

Section Processes.
(** [trimmed] is Qt's; [root] what [projectRoot] finds, [system_env] the
    environment of the client itself. *)
Context (trimmed : string -> string) (root : string) (system_env : gmap string string).

(** [if (!env.contains(key)) env.insert(key, value)] *)
Definition insert_default (key value : string) (env : gmap string string) : gmap string string :=
  match env !! key with Some _ => env | None => <[key := value]> env end.

Definition processEnvironment (d : Desk) : gmap string string :=
  let token := trimmed (authToken (dk_window d)) in
  let env := delete "DOCKER_HOST"%string system_env in
  let env := if str_empty token then env else <["CORPCRON_RPC_AUTH_TOKEN"%string := token]> env in
  let env := insert_default "CORPCRON_REDIS_PORT" "6380" env in
  let env := insert_default "CORPCRON_MYSQL_PORT" "3307" env in
  insert_default "CORPCRON_MYSQL_PASSWORD" "corpcron_dev_password" env.

Definition runTool (program : string) (arguments : list string) (d : Desk) : Desk :=
  if negb (idle d ToolSlot) then d
  else updateUiState (start_process ToolSlot (mkCommand program arguments root (processEnvironment d)) d).

Definition startNodeProcess (s : Slot) (binary configPath : string) (d : Desk) : Desk :=
  if negb (idle d s) then d
  else
    let env := processEnvironment d in
    let env := if String.eqb configPath "config/server.conf" then <["CORPCRON_SERVER_LISTEN_PORT"%string := to_string (dk_port d)]> env
               else env in
    updateUiState (start_process s (mkCommand (root +:+ "/build/" +:+ binary) ["--config"%string; configPath] root env) d).

Definition onStartServer : Desk -> Desk := startNodeProcess ServerSlot "corpcron_server" "config/server.conf".
Definition onStartSecondServer : Desk -> Desk := startNodeProcess Server2Slot "corpcron_server" "config/server2.conf".
Definition onStartWorker : Desk -> Desk := startNodeProcess WorkerSlot "corpcron_worker" "config/worker.conf".
Definition onStartSecondWorker : Desk -> Desk := startNodeProcess Worker2Slot "corpcron_worker" "config/worker2.conf".
Definition start_clicked (s : Slot) : Desk -> Desk :=
  match s with
  | ServerSlot => onStartServer | Server2Slot => onStartSecondServer
  | WorkerSlot => onStartWorker | Worker2Slot => onStartSecondWorker
  | ToolSlot => id
  end.

(** The four stop buttons. *)
Definition onStopNode (s : Slot) (d : Desk) : Desk := if idle d s then d else terminate s d.

(** ** The tools.  [confirmed] answers the question asked first, if any. *)
Inductive Tool :=
| StartDependencies | StopDependencies | ResetDependencies | DemoCheck | CleanDemoData | RunCheck | RunIntegrationCheck
| DockerBuild | ShowBenchmarkResult | StartMonitoringStack | StopMonitoringStack | ShowAlerts
| ShowRawMetrics | BenchmarkShort | BenchmarkReuse | DeadlineCancellationDemo | HalfOpenProbeDemo | StreamingStubDemo
(* a shell script of its own *)
| ShowScript (script : string).

Definition compose_monitoring : list string := ["compose"; "-f"; "deploy/monitoring/docker-compose.monitoring.yml"]%string.

Definition benchmark (mode : string) (d : Desk) : string * list string :=
  ("./scripts/benchmark.sh", [dk_host d; to_string (dk_port d); to_string (dk_bench d).1; to_string (dk_bench d).2; mode])%string.

Definition tool_command (t : Tool) (d : Desk) : string * list string :=
  match t with
  | StartDependencies => ("docker", ["compose"; "up"; "-d"])
  | StopDependencies => ("docker", ["compose"; "down"])
  | ResetDependencies => ("docker", ["compose"; "down"; "-v"])
  | DemoCheck => ("./scripts/demo_check.sh", [])
  | CleanDemoData => ("./scripts/clean_demo_data.sh", [])
  | RunCheck => ("./scripts/check.sh", [])
  | RunIntegrationCheck => ("./scripts/check.sh", ["--compose"])
  | DockerBuild => ("docker", ["build"; "-t"; "corpcron:local"; "."])
  | ShowBenchmarkResult =>
      ("bash", ["-lc"; "cat docs/assets/benchmark/latest.txt 2>/dev/null || echo 'No benchmark result yet.'"])
  | StartMonitoringStack => ("docker", app compose_monitoring ["up"; "-d"])
  | StopMonitoringStack => ("docker", app compose_monitoring ["down"])
  | ShowAlerts => ("bash", ["-lc"; "curl -sS http://127.0.0.1:9091/alerts || true"])
  | ShowRawMetrics => ("bash", ["-lc"; "curl -sS http://127.0.0.1:9091/metrics || true"])
  | BenchmarkShort => benchmark "short" d
  | BenchmarkReuse => benchmark "reuse" d
  | DeadlineCancellationDemo => ("./build/corpcron_rpc_client_test", [])
  | HalfOpenProbeDemo => ("./build/corpcron_rpc_client_pool_test", [])
  | StreamingStubDemo => ("./build/corpcron_rpc_service_bindings_test", [])
  | ShowScript script => ("bash", ["-lc"; script])
  end%string.

Definition asks_first (t : Tool) : bool := match t with ResetDependencies | CleanDemoData => true | _ => false end.

Definition tool_clicked (t : Tool) (confirmed : bool) (d : Desk) : Desk :=
  if asks_first t && negb confirmed then d
  else runTool (tool_command t d).1 (tool_command t d).2 d.

(** ** What happens to the window *)

(** [failed]: a process could not be started.  [Other]: a request, a response
    or a signal of the socket leaves the window as [w], having called
    [updateUiState] or not; [Edit]: the user types. *)
Inductive step : bool -> Desk -> Desk -> Prop :=
| StartClicked s d : s <> ToolSlot -> ui_node_start (dk_ui d) s = true -> step false d (start_clicked s d)
| StopClicked s d : s <> ToolSlot -> ui_node_stop (dk_ui d) s = true -> step false d (onStopNode s d)
| ToolClicked t confirmed d : ui_tools (dk_ui d) = true -> step false d (tool_clicked t confirmed d)
(* the node's handler; the tool has none, and needs none *)
| Started s d : dk_state d s = Starting ->
    step false d (let d := set_state s Running d in if decide (s = ToolSlot) then d else updateUiState d)
| Finished s d : dk_state d s = Running -> step false d (updateUiState (set_state s NotRunning d))
| FailedToStart s d : dk_state d s = Starting -> step true d (set_state s NotRunning d)
| Other w update d : step false d (let d := set_window w d in if (update : bool) then updateUiState d else d)
| Edit host port bench d :
    step false d (mkDesk (dk_window d) host port bench (dk_state d) (dk_started d) (dk_signalled d) (dk_ui d)).

(** A window just made: nothing runs, and [updateUiState] has been called. *)
Definition new_desk (w : MainWindow) (host : string) (port : Z) (bench : Z * Z) (ui : Ui) : Desk :=
  updateUiState (mkDesk w host port bench (fun _ => NotRunning) [] [] ui).

(** [fails] starts have failed on the way. *)
Inductive reachable : nat -> Desk -> Prop :=
| ReachNew w host port bench ui : reachable 0 (new_desk w host port bench ui)
| ReachStep n failed d d' : reachable n d -> step failed d d' -> reachable (if failed then S n else n) d'.

(** The buttons of the processes show what runs. *)
Definition truthful (d : Desk) : Prop :=
  ui_tools (dk_ui d) = idle d ToolSlot /\
  forall s, ui_node_start (dk_ui d) s = idle d s /\ ui_node_stop (dk_ui d) s = negb (idle d s).

Lemma update_truthful d : truthful (updateUiState d).
Proof. done. Qed.

Lemma idle_set_state s x d s' : idle (set_state s x d) s' = if decide (s' = s) then bool_decide (x = NotRunning) else idle d s'.
Proof. unfold idle, set_state, upd. cbn [dk_state]. by destruct (decide (s' = s)). Qed.

Lemma startNodeProcess_truthful s binary configPath d : truthful d -> truthful (startNodeProcess s binary configPath d).
Proof. intros H. unfold startNodeProcess. destruct (negb (idle d s)); [done|]. apply update_truthful. Qed.

Lemma step_truthful d d' : step false d d' -> truthful d -> truthful d'.
Proof.
  intros Hs Ht. inversion Hs as [s d0 Hne Hui|s d0 Hne Hui|t c d0 Hui|s d0 Hst|s d0 Hst| |w u d0|]; subst.
  - destruct s; try done; by apply startNodeProcess_truthful.
  - unfold onStopNode. by destruct (idle d s).
  - unfold tool_clicked, runTool. destruct (asks_first t && negb c); [done|]. by destruct (negb (idle d ToolSlot)).
  - cbv zeta. destruct (decide (s = ToolSlot)) as [->|]; [|done].
    assert (Hi : forall s', idle (set_state ToolSlot Running d) s' = idle d s').
    { intros s'. rewrite idle_set_state. destruct (decide (s' = ToolSlot)) as [->|]; [|done].
      unfold idle. rewrite Hst. done. }
    destruct Ht as [H1 H2]. split; [by rewrite Hi|]. intros s. rewrite Hi. apply H2.
  - done.
  - cbv zeta. by destruct u.
  - done.
Qed.

(** While every start succeeds, the buttons tell the truth about the processes:
    a node can be started exactly when it does not run and stopped exactly
    when it does, and a tool can be run exactly when none runs. *)
Theorem process_buttons_tell_the_truth d : reachable 0 d -> truthful d.
Proof.
  intros Hr. remember 0%nat as n eqn:En. induction Hr as [|n failed d d' Hr IH Hs]; [done|].
  destruct failed; [done|]. apply (step_truthful d); [done|by apply IH].
Qed.

(** ** What the nodes read *)

(** The environment of the process, and the file its argument names. *)
Definition node_config (c : Command) (file : KvMap) : Config := mkConfig (fun name => cm_env c !! name) file.

Definition node_load (s : Slot) : Config -> string + AppConfig :=
  match s with WorkerSlot | Worker2Slot => load_worker | _ => load_server end.

Lemma insert_default_some key value env k v : env !! k = Some v -> insert_default key value env !! k = Some v.
Proof.
  intros H. unfold insert_default. destruct (env !! key) eqn:E; [done|].
  rewrite lookup_insert_ne; [done|]. intros ->. congruence.
Qed.

Lemma processEnvironment_token d : trimmed (authToken (dk_window d)) <> EmptyString ->
  processEnvironment d !! "CORPCRON_RPC_AUTH_TOKEN"%string = Some (trimmed (authToken (dk_window d))).
Proof.
  intros Hne. unfold processEnvironment. do 3 apply insert_default_some.
  destruct (str_empty _) eqn:E; [by destruct (trimmed (authToken (dk_window d)))|]. apply lookup_insert_eq.
Qed.

Lemma load_reads s config ac : node_load s config = inr ac ->
  ac_auth_token ac = get config "rpc.auth_token" "" /\
  (s = ServerSlot -> ac_port ac = getInt config "server.listen_port" 8080).
Proof.
  assert (Hw : load_worker config = inr ac -> ac_auth_token ac = get config "rpc.auth_token" "").
  { unfold load_worker. cbv zeta. repeat (case_match; [done|]). by intros [= <-]. }
  assert (Hs : load_server config = inr ac -> ac_auth_token ac = get config "rpc.auth_token" "" /\
    ac_port ac = getInt config "server.listen_port" 8080).
  { unfold load_server. cbv zeta. repeat (case_match; [done|]). by intros [= <-]. }
  destruct s; cbn [node_load]; intros H; first [apply Hs in H as [? ?]; done | apply Hw in H; done].
Qed.

Lemma getInt_env config key n d : INT_MIN <= n <= INT_MAX -> cfg_getenv config (envNameForKey key) = Some (to_string n) ->
  getInt config key d = n.
Proof.
  intros Hn He. unfold INT_MIN, INT_MAX in Hn. unfold getInt, get. rewrite He.
  pose proof (strtol_to_string (- 2 ^ 63) (2 ^ 63 - 1) n EmptyString ltac:(lia) eq_refl) as H. rewrite append_nil_r in H.
  destruct (to_string n) as [|c t] eqn:E; [done|]. cbn [str_empty]. unfold stoi. rewrite H. unfold INT_MIN, INT_MAX.
  by rewrite (proj2 (Z.leb_le _ _)), (proj2 (Z.leb_le _ _)) by lia.
Qed.

Lemma start_clicked_command s d : s <> ToolSlot -> idle d s = true ->
  exists c, dk_started (start_clicked s d) = (s, c) :: dk_started d /\
    (s <> ServerSlot -> cm_env c = processEnvironment d) /\
    (s = ServerSlot -> cm_env c = <["CORPCRON_SERVER_LISTEN_PORT"%string := to_string (dk_port d)]> (processEnvironment d)).
Proof.
  intros Hs Hi. destruct s; try done; cbn [start_clicked]; unfold onStartServer, onStartSecondServer, onStartWorker, onStartSecondWorker, startNodeProcess;
    rewrite Hi; cbn [negb]; (eexists; split; [reflexivity|]; split; [by intros ?|by intros ?]).
Qed.

(** The nodes the window starts, with the token field filled in: the process is
    started once, with an environment that overrides its configuration
    file; every node that loads it takes the trimmed token, so that the nodes
    admit one another's requests, and the window's exactly when its field has
    no blanks around the token; and the first server listens on the port the
    window connects to. *)
Theorem started_nodes_serve_the_window d s file :
  s <> ToolSlot -> idle d s = true -> 1 <= dk_port d <= 65535 ->
  let token := authToken (dk_window d) in
  trimmed token <> EmptyString ->
  exists c, dk_started (start_clicked s d) = (s, c) :: dk_started d /\
    forall ac, node_load s (node_config c file) = inr ac ->
      ac_auth_token ac = trimmed token /\
      (authorized (ac_auth_token ac) token = true <-> trimmed token = token) /\
      (s = ServerSlot -> ac_port ac = dk_port d).
Proof.
  intros Hs Hi Hp token Ht. destruct (start_clicked_command s d Hs Hi) as (c & Hc & Henv & Henv1). exists c. split; [done|].
  intros ac Hl. destruct (load_reads s _ _ Hl) as [Ha Hport].
  assert (Htok : cm_env c !! "CORPCRON_RPC_AUTH_TOKEN"%string = Some (trimmed token)).
  { pose proof (processEnvironment_token d Ht). destruct (decide (s = ServerSlot)) as [->|Hne]; [|by rewrite Henv].
    rewrite Henv1 by done. by rewrite lookup_insert_ne. }
  assert (Hat : ac_auth_token ac = trimmed token).
  { rewrite Ha. unfold get. cbn [cfg_getenv node_config]. change (envNameForKey "rpc.auth_token") with "CORPCRON_RPC_AUTH_TOKEN"%string.
    by rewrite Htok. }
  split_and!; [done| |].
  - rewrite authorized_spec, Hat. split; [by intros [?|?]|by right].
  - intros ->. rewrite (Hport eq_refl). apply getInt_env; [unfold INT_MIN, INT_MAX; lia|].
    cbn [cfg_getenv node_config]. change (envNameForKey "server.listen_port") with "CORPCRON_SERVER_LISTEN_PORT"%string.
    rewrite Henv1 by done. apply lookup_insert_eq.
Qed.

End Processes.

(** ** Closing the window *)

Section Closing.
(** Whether a process ends within three seconds of [terminate], and of [kill]. *)
Context (after_terminate after_kill : Slot -> bool).
(* whether nothing is left to be written to the socket *)
Context (flushed : nat -> bool).

(** [waitForFinished] runs the handlers of a process that ends. *)
Definition ended (s : Slot) (d : Desk) : Desk := updateUiState (set_state s NotRunning d).

Definition stopManagedProcess (s : Slot) (d : Desk) : Desk :=
  if idle d s then d
  else
    let d := terminate s d in
    if after_terminate s then ended s d else if after_kill s then ended s d else d.

Definition kill_tool (d : Desk) : Desk :=
  if idle d ToolSlot then d else if after_kill ToolSlot then ended ToolSlot d else d.

Definition close_window (d : Desk) : Desk :=
  let w := disconnectFromHost flushed (dk_window d) in
  let d := if bool_decide (mw_socket (dk_window d) = Connected) then
             if bool_decide (mw_socket w = Unconnected) then updateUiState (set_window w d) else set_window w d
           else d in
  kill_tool (stopManagedProcess Worker2Slot (stopManagedProcess WorkerSlot (stopManagedProcess Server2Slot (stopManagedProcess ServerSlot d)))).

Lemma idle_ended s d s' : idle (ended s d) s' = if decide (s' = s) then true else idle d s'.
Proof.
  change (idle (ended s d) s') with (idle (set_state s NotRunning d) s'). rewrite idle_set_state.
  by destruct (decide (s' = s)).
Qed.

Lemma stopped s d s' : (forall s, after_kill s = true) -> idle (stopManagedProcess s d) s' = if decide (s' = s) then true else idle d s'.
Proof.
  intros Hk. unfold stopManagedProcess. destruct (idle d s) eqn:E; [destruct (decide (s' = s)) as [->|]; done|].
  cbv zeta. rewrite Hk. destruct (after_terminate s); by rewrite idle_ended.
Qed.

(** A killed process ends: then no process outlives the window. *)
Lemma close_window_ends_all d s : (forall s, after_kill s = true) -> idle (close_window d) s = true.
Proof.
  intros Hk. unfold close_window, kill_tool. cbv zeta. set (d0 := if bool_decide _ then _ else d).
  destruct (idle (stopManagedProcess Worker2Slot _) ToolSlot) eqn:E; rewrite ?Hk, ?idle_ended.
  - destruct s; rewrite ?stopped by done; [|by repeat destruct (decide _)..]. rewrite !stopped in E by done. exact E.
  - rewrite !stopped by done. destruct s; by repeat destruct (decide _).
Qed.

End Closing.

(** ** Examples *)
Module DeskExample.

Definition inputs (token : string) : Inputs := mkInputs token false (-1) "" (-1) "" "" "" "" "" 3.
Definition window (token : string) : MainWindow :=
  mkMainWindow Unconnected "" (inputs token) (mkTaskIds "" "" "") new_pager new_pager [] None [] [] None 0 [].
Definition no_ui : Ui := mkUi false false false false false false false false (fun _ => false) (fun _ => false).
Definition desk (token : string) : Desk := new_desk (window token) "127.0.0.1" 8081 (10, 1000) no_ui.

(** Drops the blanks at either end. *)
Definition trim (s : string) : string := rtrim (ltrim s).

Definition server_file : KvMap := {["server.listen_port"%string := "9999"%string; "rpc.auth_token"%string := "old"%string]}.

Lemma started_nodes_serve_the_window_witness :
  exists c, dk_started (start_clicked trim "/opt" ∅ ServerSlot (desk "secret")) = [(ServerSlot, c)] /\
    exists ac, load_server (node_config c server_file) = inr ac /\ ac_port ac = 8081 /\ authorized (ac_auth_token ac) "secret" = true.
Proof.
  destruct (started_nodes_serve_the_window trim "/opt" ∅ (desk "secret") ServerSlot server_file
    ltac:(done) ltac:(done) ltac:(cbn; lia) ltac:(by vm_compute)) as (c & Hc & H).
  exists c. split; [exact Hc|]. injection Hc as Hc. subst c.
  eexists. split; [by vm_compute|]. match goal with |- ac_port ?ac = _ /\ _ => destruct (H ac) as (_ & Ha & Hp) end; [by vm_compute|].
  split; [by apply Hp|by apply Ha].
Defined.

(** A token with a blank: the server takes it without, and refuses the window's
    requests. *)
Example blank_in_the_token :
  match dk_started (start_clicked trim "/opt" ∅ ServerSlot (desk "secret ")) with
  | (_, c) :: _ => match load_server (node_config c ∅) with inr ac => authorized (ac_auth_token ac) "secret " | inl _ => true end
  | [] => true
  end = false.
Proof. by vm_compute. Qed.

(** An empty field: the token of the client's own environment is handed on, and
    the window sends none. *)
Example cleared_token :
  match dk_started (start_clicked trim "/opt" {["CORPCRON_RPC_AUTH_TOKEN"%string := "old"%string]} ServerSlot (desk "")) with
  | (_, c) :: _ => match load_server (node_config c ∅) with inr ac => authorized (ac_auth_token ac) "" | inl _ => true end
  | [] => true
  end = false.
Proof. by vm_compute. Qed.

(** A tool that cannot be started: nothing runs, and no tool button is
    enabled. *)
Definition after_failure : Desk := set_state ToolSlot NotRunning (tool_clicked trim "/opt" ∅ DemoCheck true (desk "")).

Example tools_stay_disabled :
  reachable trim "/opt" ∅ 1 after_failure /\ idle after_failure ToolSlot = true /\ ui_tools (dk_ui after_failure) = false.
Proof.
  split; [|done]. apply (ReachStep _ _ _ 0 true (tool_clicked trim "/opt" ∅ DemoCheck true (desk ""))); [|by apply FailedToStart].
  apply (ReachStep _ _ _ 0 false (desk "")); [apply ReachNew|by apply ToolClicked].
Qed.

End DeskExample.
