(* ===== verification/ClientWidgets.v ===== *)
(** What the constructor of the desktop client's window builds
    ([client/mainwindow.cpp]): its calls on the widget toolkit, statement by
    statement, without the style sheet.  The toolkit itself is not modelled:
    the theorem is about the calls.  A widget is a member of the class, a
    variable of the constructor, or the window itself. *)
From S2P Require Import Prelude.

(** The member pointers. *)
Inductive Widget :=
| hostEdit | portSpin | tokenEdit | connectBtn | disconnectBtn | statusLabel | overviewConnectionValue
| overviewTaskCountValue | overviewHistoryCountValue | overviewServiceCountValue | overviewRpcRequestsValue
| overviewRpcErrorsValue | overviewActiveConnectionsValue | overviewTaskSuccessValue | overviewTaskFailureValue
| echoEdit | echoBtn | healthCheckBtn | streamSamplesSpin | streamMetricsBtn | cronEdit | paramsEdit | handlerEdit
| submitBtn | tasksTable | enabledOnlyCheck | taskStatusCombo | taskKeywordEdit | taskPageSizeSpin
| prevTasksPageBtn | nextTasksPageBtn | tasksPageLabel | refreshTasksBtn | autoRefreshCheck | editTaskIdEdit
| editCronEdit | editHandlerEdit | editParamsEdit | editMaxRetriesSpin | updateTaskBtn | enableTaskBtn
| disableTaskBtn | deleteTaskBtn | runNowBtn | cancelTaskIdEdit | cancelBtn | historyTaskIdEdit | historyLimitSpin
| historySuccessCombo | historyKeywordEdit | prevHistoryPageBtn | nextHistoryPageBtn | historyPageLabel
| refreshHistoryBtn | historyTable | historyDetailView | serviceNameEdit | refreshServicesBtn | servicesTable
| refreshMetricsBtn | metricsTable | startDepsBtn | stopDepsBtn | resetDepsBtn | startServerBtn | stopServerBtn
| startSecondServerBtn | stopSecondServerBtn | startWorkerBtn | stopWorkerBtn | startSecondWorkerBtn
| stopSecondWorkerBtn | demoCheckBtn | cleanDataBtn | runCheckBtn | runIntegrationCheckBtn | dockerBuildBtn
| showBenchmarkResultBtn | showDeployDocBtn | startMonitoringBtn | stopMonitoringBtn | openPrometheusBtn
| openAlertmanagerBtn | openGrafanaBtn | showAlertsBtn | showRawMetricsBtn | showRedisSnapshotBtn
| showMySQLSnapshotBtn | benchConcurrencySpin | benchRequestsSpin | benchmarkShortBtn | benchmarkReuseBtn
| deadlineCancellationBtn | halfOpenProbeBtn | streamingStubBtn | authFailureBtn | unknownRpcBtn | badFrameBtn
| toolOutput | logView | clearLogBtn | socket | toolProcess | serverProcess | server2Process | workerProcess
| worker2Process | autoRefreshTimer.

Definition widgets : list Widget := [
  hostEdit; portSpin; tokenEdit; connectBtn; disconnectBtn; statusLabel; overviewConnectionValue;
  overviewTaskCountValue; overviewHistoryCountValue; overviewServiceCountValue; overviewRpcRequestsValue;
  overviewRpcErrorsValue; overviewActiveConnectionsValue; overviewTaskSuccessValue; overviewTaskFailureValue;
  echoEdit; echoBtn; healthCheckBtn; streamSamplesSpin; streamMetricsBtn; cronEdit; paramsEdit; handlerEdit;
  submitBtn; tasksTable; enabledOnlyCheck; taskStatusCombo; taskKeywordEdit; taskPageSizeSpin; prevTasksPageBtn;
  nextTasksPageBtn; tasksPageLabel; refreshTasksBtn; autoRefreshCheck; editTaskIdEdit; editCronEdit;
  editHandlerEdit; editParamsEdit; editMaxRetriesSpin; updateTaskBtn; enableTaskBtn; disableTaskBtn;
  deleteTaskBtn; runNowBtn; cancelTaskIdEdit; cancelBtn; historyTaskIdEdit; historyLimitSpin; historySuccessCombo;
  historyKeywordEdit; prevHistoryPageBtn; nextHistoryPageBtn; historyPageLabel; refreshHistoryBtn; historyTable;
  historyDetailView; serviceNameEdit; refreshServicesBtn; servicesTable; refreshMetricsBtn; metricsTable;
  startDepsBtn; stopDepsBtn; resetDepsBtn; startServerBtn; stopServerBtn; startSecondServerBtn;
  stopSecondServerBtn; startWorkerBtn; stopWorkerBtn; startSecondWorkerBtn; stopSecondWorkerBtn; demoCheckBtn;
  cleanDataBtn; runCheckBtn; runIntegrationCheckBtn; dockerBuildBtn; showBenchmarkResultBtn; showDeployDocBtn;
  startMonitoringBtn; stopMonitoringBtn; openPrometheusBtn; openAlertmanagerBtn; openGrafanaBtn; showAlertsBtn;
  showRawMetricsBtn; showRedisSnapshotBtn; showMySQLSnapshotBtn; benchConcurrencySpin; benchRequestsSpin;
  benchmarkShortBtn; benchmarkReuseBtn; deadlineCancellationBtn; halfOpenProbeBtn; streamingStubBtn;
  authFailureBtn; unknownRpcBtn; badFrameBtn; toolOutput; logView; clearLogBtn; socket; toolProcess;
  serverProcess; server2Process; workerProcess; worker2Process; autoRefreshTimer
].

(** The private slots. *)
Inductive Slot :=
| onConnect | onDisconnect | onEcho | onSubmit | onCancelTask | onUpdateTask | onEnableSelectedTask
| onDisableSelectedTask | onDeleteSelectedTask | onRunSelectedTaskNow | onRefreshTasks | onTaskFilterChanged
| onPrevTasksPage | onNextTasksPage | onRefreshHistory | onHistoryFilterChanged | onPrevHistoryPage
| onNextHistoryPage | onRefreshServices | onRefreshMetrics | onHealthCheck | onStreamMetrics | onStartDependencies
| onStopDependencies | onResetDependencies | onStartServer | onStopServer | onStartSecondServer
| onStopSecondServer | onStartWorker | onStopWorker | onStartSecondWorker | onStopSecondWorker | onDemoCheck
| onCleanDemoData | onRunCheck | onRunIntegrationCheck | onDockerBuild | onShowBenchmarkResult | onShowDeployDoc
| onStartMonitoringStack | onStopMonitoringStack | onOpenPrometheus | onOpenAlertmanager | onOpenGrafana
| onShowAlerts | onShowRawMetrics | onShowRedisSnapshot | onShowMySQLSnapshot | onBenchmarkShort
| onBenchmarkReuse | onDeadlineCancellationDemo | onHalfOpenProbeDemo | onStreamingStubDemo | onAuthFailureTest
| onUnknownRpcTest | onBadFrameTest | onTaskSelectionChanged | onHistorySelectionChanged | onAutoRefreshChanged
| onAutoRefreshTick | onReadyRead | onSocketConnected | onSocketDisconnected | onSocketError.

Definition slots : list Slot := [
  onConnect; onDisconnect; onEcho; onSubmit; onCancelTask; onUpdateTask; onEnableSelectedTask;
  onDisableSelectedTask; onDeleteSelectedTask; onRunSelectedTaskNow; onRefreshTasks; onTaskFilterChanged;
  onPrevTasksPage; onNextTasksPage; onRefreshHistory; onHistoryFilterChanged; onPrevHistoryPage;
  onNextHistoryPage; onRefreshServices; onRefreshMetrics; onHealthCheck; onStreamMetrics; onStartDependencies;
  onStopDependencies; onResetDependencies; onStartServer; onStopServer; onStartSecondServer; onStopSecondServer;
  onStartWorker; onStopWorker; onStartSecondWorker; onStopSecondWorker; onDemoCheck; onCleanDemoData; onRunCheck;
  onRunIntegrationCheck; onDockerBuild; onShowBenchmarkResult; onShowDeployDoc; onStartMonitoringStack;
  onStopMonitoringStack; onOpenPrometheus; onOpenAlertmanager; onOpenGrafana; onShowAlerts; onShowRawMetrics;
  onShowRedisSnapshot; onShowMySQLSnapshot; onBenchmarkShort; onBenchmarkReuse; onDeadlineCancellationDemo;
  onHalfOpenProbeDemo; onStreamingStubDemo; onAuthFailureTest; onUnknownRpcTest; onBadFrameTest;
  onTaskSelectionChanged; onHistorySelectionChanged; onAutoRefreshChanged; onAutoRefreshTick; onReadyRead;
  onSocketConnected; onSocketDisconnected; onSocketError
].

(** The classes the members are declared with. *)
Definition declared (w : Widget) : string :=
  match w with
  | hostEdit | tokenEdit | echoEdit | cronEdit | handlerEdit | taskKeywordEdit | editTaskIdEdit | editCronEdit
  | editHandlerEdit | cancelTaskIdEdit | historyTaskIdEdit | historyKeywordEdit | serviceNameEdit
      => "QLineEdit"
  | portSpin | streamSamplesSpin | taskPageSizeSpin | editMaxRetriesSpin | historyLimitSpin | benchConcurrencySpin
  | benchRequestsSpin
      => "QSpinBox"
  | connectBtn | disconnectBtn | echoBtn | healthCheckBtn | streamMetricsBtn | submitBtn | prevTasksPageBtn
  | nextTasksPageBtn | refreshTasksBtn | updateTaskBtn | enableTaskBtn | disableTaskBtn | deleteTaskBtn | runNowBtn
  | cancelBtn | prevHistoryPageBtn | nextHistoryPageBtn | refreshHistoryBtn | refreshServicesBtn | refreshMetricsBtn
  | startDepsBtn | stopDepsBtn | resetDepsBtn | startServerBtn | stopServerBtn | startSecondServerBtn
  | stopSecondServerBtn | startWorkerBtn | stopWorkerBtn | startSecondWorkerBtn | stopSecondWorkerBtn | demoCheckBtn
  | cleanDataBtn | runCheckBtn | runIntegrationCheckBtn | dockerBuildBtn | showBenchmarkResultBtn | showDeployDocBtn
  | startMonitoringBtn | stopMonitoringBtn | openPrometheusBtn | openAlertmanagerBtn | openGrafanaBtn
  | showAlertsBtn | showRawMetricsBtn | showRedisSnapshotBtn | showMySQLSnapshotBtn | benchmarkShortBtn
  | benchmarkReuseBtn | deadlineCancellationBtn | halfOpenProbeBtn | streamingStubBtn | authFailureBtn
  | unknownRpcBtn | badFrameBtn | clearLogBtn
      => "QPushButton"
  | statusLabel | overviewConnectionValue | overviewTaskCountValue | overviewHistoryCountValue
  | overviewServiceCountValue | overviewRpcRequestsValue | overviewRpcErrorsValue | overviewActiveConnectionsValue
  | overviewTaskSuccessValue | overviewTaskFailureValue | tasksPageLabel | historyPageLabel
      => "QLabel"
  | paramsEdit | editParamsEdit
      => "QTextEdit"
  | tasksTable | historyTable | servicesTable | metricsTable
      => "QTableWidget"
  | enabledOnlyCheck | autoRefreshCheck
      => "QCheckBox"
  | taskStatusCombo | historySuccessCombo
      => "QComboBox"
  | historyDetailView | toolOutput | logView
      => "QPlainTextEdit"
  | socket
      => "QTcpSocket"
  | toolProcess | serverProcess | server2Process | workerProcess | worker2Process
      => "QProcess"
  | autoRefreshTimer
      => "QTimer"
  end.

Scheme Boolean Equality for Widget.
Scheme Boolean Equality for Slot.

(** ** Calls *)

Inductive Obj := Own (w : Widget) | Var (name : string) | This.

Definition Obj_eqb (a b : Obj) : bool :=
  match a, b with
  | Own v, Own w => Widget_beq v w
  | Var x, Var y => String.eqb x y
  | This, This => true
  | _, _ => false
  end.

(** What a signal is connected to: a slot, or a function written in place. *)
Inductive Handler :=
| Runs (s : Slot) | CloseWindow | ClearLog
| ShowOutput (process : Widget) | ToolFinished | NodeStarted (process : Widget) | NodeFinished (process : Widget).

(** [Inside]: a layout or a widget is put into another; [AtCell]: into a cell of
    a grid; [ChildOf]: the parent given to a constructor.  [Invoke] is any call
    that only concerns appearance. *)
Inductive Call :=
| New (o : Obj) (class text : string)
| ChildOf (o parent : Obj)
| Inside (o parent : Obj)
| AtCell (o parent : Obj) (row column : Z)
| SetRange (w : Widget) (lo hi : Z)
| SetValue (w : Widget) (v : Z)
| SetText (w : Widget) (text : string)
| SetTextFromEnv (w : Widget) (name : string)
| SetReadOnly (w : Widget)
| SetInterval (w : Widget) (ms : Z)
| AddItem (w : Widget) (text : string) (data : Z)
| SetColumnCount (w : Widget) (n : Z)
| SetLabels (w : Widget) (labels : list string)
| SetNotEditable (w : Widget)
| AddMenu (name title : string)
| AddAction (menu title : string) (h : Handler)
| Connect (o : Obj) (signal : string) (h : Handler)
| Invoke (o : Obj) (method : string) (args : list string)
| UpdateUiState.

Definition setButtonRole (button : Obj) (role : string) : Call := Invoke button "setProperty" ["role"%string; role].

Open Scope string_scope.

(** The card is known by its title. *)
Definition createStatCard (title : string) (valueLabel : Widget) (hint : string) : list Call :=
  let card := Var title in
  let layout := Var (title +:+ ".layout") in
  let titleLabel := Var (title +:+ ".titleLabel") in
  let hintLabel := Var (title +:+ ".hintLabel") in
  [New card "QFrame" ""; Invoke card "setProperty" ["class"; "statCard"];
   New layout "QVBoxLayout" ""; Inside layout card;
   New titleLabel "QLabel" title; Invoke titleLabel "setProperty" ["class"; "statTitle"];
   New (Own valueLabel) "QLabel" "0"; Invoke (Own valueLabel) "setProperty" ["class"; "statValue"];
   Inside titleLabel layout; Inside (Own valueLabel) layout] ++
  (if str_empty hint then []
   else [New hintLabel "QLabel" hint; Invoke hintLabel "setProperty" ["class"; "statHint"]; Inside hintLabel layout]) ++
  [Invoke layout "addStretch" ["1"]].

(** The menus. *)
Definition window_menus : list Call := [
  Invoke This "setWindowTitle" ["CorpCron 管理控制台"]; Invoke This "resize" ["1320, 820"]; AddMenu "fileMenu" "文件";
  AddAction "fileMenu" "退出" CloseWindow; AddMenu "runMenu" "运行";
  AddAction "runMenu" "启动依赖" (Runs onStartDependencies); AddAction "runMenu" "启动服务端" (Runs onStartServer);
  AddAction "runMenu" "启动 Worker" (Runs onStartWorker); AddAction "runMenu" "运行检查" (Runs onRunCheck);
  AddMenu "observabilityMenu" "可观测性"; AddAction "observabilityMenu" "打开 Grafana" (Runs onOpenGrafana);
  AddAction "observabilityMenu" "查看 Alerts" (Runs onShowAlerts); AddMenu "toolsMenu" "工具";
  AddAction "toolsMenu" "Redis 快照" (Runs onShowRedisSnapshot);
  AddAction "toolsMenu" "MySQL 快照" (Runs onShowMySQLSnapshot)
].

(** The bar at the top, and the tabs below it. *)
Definition top_bar : list Call := [
  New (Var "central") "QWidget" EmptyString; ChildOf (Var "central") This; Inside (Var "central") This;
  New (Var "layout") "QVBoxLayout" EmptyString; Inside (Var "layout") (Var "central");
  Invoke (Var "layout") "setContentsMargins" ["0, 0, 0, 0"]; Invoke (Var "layout") "setSpacing" ["0"];
  New (Var "connectionBox") "QFrame" EmptyString; Invoke (Var "connectionBox") "setProperty" ["class, topBar"];
  New (Var "connectionLayout") "QHBoxLayout" EmptyString; Inside (Var "connectionLayout") (Var "connectionBox");
  Invoke (Var "connectionLayout") "setContentsMargins" ["14, 8, 14, 8"];
  New (Var "titleLabel") "QLabel" "CorpCron 管理控制台"; Invoke (Var "titleLabel") "setProperty" ["class, productTitle"];
  New (Own hostEdit) "QLineEdit" "127.0.0.1"; Invoke (Own hostEdit) "setMaximumWidth" ["170"];
  New (Own portSpin) "QSpinBox" EmptyString; SetRange portSpin 1 65535; SetValue portSpin 8081;
  Invoke (Own portSpin) "setMaximumWidth" ["92"]; New (Own tokenEdit) "QLineEdit" EmptyString;
  Invoke (Own tokenEdit) "setPlaceholderText" ["Auth Token，可为空"];
  Invoke (Own tokenEdit) "setEchoMode" ["QLineEdit::Password"]; Invoke (Own tokenEdit) "setMaximumWidth" ["220"];
  SetTextFromEnv tokenEdit "CORPCRON_RPC_AUTH_TOKEN"; New (Own connectBtn) "QPushButton" "连接";
  New (Own disconnectBtn) "QPushButton" "断开"; New (Own statusLabel) "QLabel" "未连接";
  Invoke (Own statusLabel) "setProperty" ["class, statusPill"]; setButtonRole (Own connectBtn) "primary";
  setButtonRole (Own disconnectBtn) "quiet"; Inside (Var "titleLabel") (Var "connectionLayout");
  Invoke (Var "connectionLayout") "addSpacing" ["18"]; Invoke (Var "connectionLayout") "addLabel" ["Host"];
  Inside (Own hostEdit) (Var "connectionLayout"); Invoke (Var "connectionLayout") "addLabel" ["Port"];
  Inside (Own portSpin) (Var "connectionLayout"); Invoke (Var "connectionLayout") "addLabel" ["Token"];
  Inside (Own tokenEdit) (Var "connectionLayout"); Inside (Own connectBtn) (Var "connectionLayout");
  Inside (Own disconnectBtn) (Var "connectionLayout"); Invoke (Var "connectionLayout") "addStretch" ["1"];
  Inside (Own statusLabel) (Var "connectionLayout"); Inside (Var "connectionBox") (Var "layout");
  New (Var "mainSplitter") "QSplitter" EmptyString; Invoke (Var "mainSplitter") "setOrientation" ["Qt::Vertical"];
  Invoke (Var "mainSplitter") "setChildrenCollapsible" ["false"]; Inside (Var "mainSplitter") (Var "layout");
  New (Var "tabs") "QTabWidget" EmptyString; Invoke (Var "tabs") "setTabPosition" ["QTabWidget::West"];
  Invoke (Var "tabs") "setDocumentMode" ["true"]; Inside (Var "tabs") (Var "mainSplitter")
].

(** The overview. *)
Definition overview_tab : list Call := [
  New (Var "overviewTab") "QWidget" EmptyString; New (Var "overviewLayout") "QVBoxLayout" EmptyString;
  Inside (Var "overviewLayout") (Var "overviewTab"); New (Var "overviewGrid") "QGridLayout" EmptyString;
  Invoke (Var "overviewGrid") "setSpacing" ["12"]
] ++
  createStatCard "连接状态" overviewConnectionValue "RPC 通道" ++ [AtCell (Var "连接状态") (Var "overviewGrid") 0 0] ++
  createStatCard "任务数量" overviewTaskCountValue "当前列表" ++ [AtCell (Var "任务数量") (Var "overviewGrid") 0 1] ++
  createStatCard "历史记录" overviewHistoryCountValue "最近查询" ++ [AtCell (Var "历史记录") (Var "overviewGrid") 0 2] ++
  createStatCard "服务节点" overviewServiceCountValue "Redis 服务发现" ++ [AtCell (Var "服务节点") (Var "overviewGrid") 0 3] ++
  createStatCard "RPC 请求" overviewRpcRequestsValue "累计" ++ [AtCell (Var "RPC 请求") (Var "overviewGrid") 1 0] ++
  createStatCard "RPC 错误" overviewRpcErrorsValue "累计" ++ [AtCell (Var "RPC 错误") (Var "overviewGrid") 1 1] ++
  createStatCard "活跃连接" overviewActiveConnectionsValue "当前" ++ [AtCell (Var "活跃连接") (Var "overviewGrid") 1 2] ++
  createStatCard "任务成功" overviewTaskSuccessValue "累计" ++ [AtCell (Var "任务成功") (Var "overviewGrid") 2 0] ++
  createStatCard "任务失败" overviewTaskFailureValue "累计" ++ [AtCell (Var "任务失败") (Var "overviewGrid") 2 1] ++
[
  Inside (Var "overviewGrid") (Var "overviewLayout");
  New (Var "overviewHint") "QLabel" "连接服务后，概览会随任务列表、执行历史、服务发现和运行指标刷新。";
  Invoke (Var "overviewHint") "setProperty" ["class, statHint"]; Inside (Var "overviewHint") (Var "overviewLayout");
  Invoke (Var "overviewLayout") "addStretch" ["1"]; Inside (Var "overviewTab") (Var "tabs")
].

(** Requests: echo, health, streaming, submitting and canceling. *)
Definition operation_tab : list Call := [
  New (Var "operationTab") "QWidget" EmptyString; New (Var "operationLayout") "QVBoxLayout" EmptyString;
  Inside (Var "operationLayout") (Var "operationTab"); New (Var "echoBox") "QGroupBox" "Echo 测试";
  New (Var "echoLayout") "QHBoxLayout" EmptyString; Inside (Var "echoLayout") (Var "echoBox");
  New (Own echoEdit) "QLineEdit" "hello"; New (Own echoBtn) "QPushButton" "发送 Echo";
  setButtonRole (Own echoBtn) "primary"; Inside (Own echoEdit) (Var "echoLayout");
  Inside (Own echoBtn) (Var "echoLayout"); Inside (Var "echoBox") (Var "operationLayout");
  New (Var "rpcCapabilityBox") "QGroupBox" "RPC 框架能力"; New (Var "rpcCapabilityLayout") "QHBoxLayout" EmptyString;
  Inside (Var "rpcCapabilityLayout") (Var "rpcCapabilityBox"); New (Own healthCheckBtn) "QPushButton" "HealthCheck";
  New (Own streamSamplesSpin) "QSpinBox" EmptyString; SetRange streamSamplesSpin 1 10; SetValue streamSamplesSpin 3;
  New (Own streamMetricsBtn) "QPushButton" "StreamMetrics"; setButtonRole (Own healthCheckBtn) "quiet";
  setButtonRole (Own streamMetricsBtn) "primary"; Inside (Own healthCheckBtn) (Var "rpcCapabilityLayout");
  Invoke (Var "rpcCapabilityLayout") "addSpacing" ["12"];
  Invoke (Var "rpcCapabilityLayout") "addLabel" ["Streaming 帧数"];
  Inside (Own streamSamplesSpin) (Var "rpcCapabilityLayout");
  Inside (Own streamMetricsBtn) (Var "rpcCapabilityLayout"); Invoke (Var "rpcCapabilityLayout") "addStretch" ["1"];
  Inside (Var "rpcCapabilityBox") (Var "operationLayout"); New (Var "submitBox") "QGroupBox" "提交定时任务";
  New (Var "submitLayout") "QFormLayout" EmptyString; Inside (Var "submitLayout") (Var "submitBox");
  New (Own cronEdit) "QLineEdit" EmptyString; SetText cronEdit "* * * * * ?";
  Invoke (Own cronEdit) "setPlaceholderText" ["Cron 表达式，例如: * * * * * ?"];
  New (Own paramsEdit) "QTextEdit" EmptyString; Invoke (Own paramsEdit) "setFixedHeight" ["88"];
  Invoke (Own paramsEdit) "setPlaceholderText" ["参数 (字符串)"]; New (Own handlerEdit) "QLineEdit" EmptyString;
  SetText handlerEdit "Echo"; Invoke (Own handlerEdit) "setPlaceholderText" ["Handler 名称，例如: Echo"];
  New (Own submitBtn) "QPushButton" "提交任务"; setButtonRole (Own submitBtn) "primary";
  Inside (Own cronEdit) (Var "submitLayout"); Inside (Own handlerEdit) (Var "submitLayout");
  Inside (Own paramsEdit) (Var "submitLayout"); Inside (Own submitBtn) (Var "submitLayout");
  Inside (Var "submitBox") (Var "operationLayout"); New (Var "cancelBox") "QGroupBox" "取消任务";
  New (Var "cancelLayout") "QHBoxLayout" EmptyString; Inside (Var "cancelLayout") (Var "cancelBox");
  New (Own cancelTaskIdEdit) "QLineEdit" EmptyString; Invoke (Own cancelTaskIdEdit) "setPlaceholderText" ["task_id"];
  New (Own cancelBtn) "QPushButton" "取消任务"; setButtonRole (Own cancelBtn) "danger";
  Inside (Own cancelTaskIdEdit) (Var "cancelLayout"); Inside (Own cancelBtn) (Var "cancelLayout");
  Inside (Var "cancelBox") (Var "operationLayout"); Invoke (Var "operationLayout") "addStretch" ["1"];
  Inside (Var "operationTab") (Var "tabs")
].

(** The list of tasks. *)
Definition tasks_tab : list Call := [
  New (Var "tasksTab") "QWidget" EmptyString; New (Var "tasksLayout") "QVBoxLayout" EmptyString;
  Inside (Var "tasksLayout") (Var "tasksTab"); New (Var "tasksToolbar") "QHBoxLayout" EmptyString;
  New (Own enabledOnlyCheck) "QCheckBox" "只看启用任务"; New (Own taskStatusCombo) "QComboBox" EmptyString;
  AddItem taskStatusCombo "全部状态" (-1); AddItem taskStatusCombo "停用" (0); AddItem taskStatusCombo "待调度" (1);
  AddItem taskStatusCombo "执行中" (2); New (Own taskKeywordEdit) "QLineEdit" EmptyString;
  Invoke (Own taskKeywordEdit) "setPlaceholderText" ["搜索 ID / Handler / Cron / Params"];
  New (Own taskPageSizeSpin) "QSpinBox" EmptyString; SetRange taskPageSizeSpin 10 500;
  Invoke (Own taskPageSizeSpin) "setSingleStep" ["10"]; SetValue taskPageSizeSpin 50;
  New (Own autoRefreshCheck) "QCheckBox" "自动刷新"; New (Own refreshTasksBtn) "QPushButton" "刷新任务";
  setButtonRole (Own refreshTasksBtn) "quiet"; Inside (Own enabledOnlyCheck) (Var "tasksToolbar");
  Invoke (Var "tasksToolbar") "addLabel" ["状态"]; Inside (Own taskStatusCombo) (Var "tasksToolbar");
  Invoke (Var "tasksToolbar") "addLabel" ["关键字"]; Inside (Own taskKeywordEdit) (Var "tasksToolbar");
  Invoke (Var "tasksToolbar") "addLabel" ["每页"]; Inside (Own taskPageSizeSpin) (Var "tasksToolbar");
  Inside (Own autoRefreshCheck) (Var "tasksToolbar"); Inside (Own refreshTasksBtn) (Var "tasksToolbar");
  Inside (Var "tasksToolbar") (Var "tasksLayout"); New (Own tasksTable) "QTableWidget" EmptyString;
  SetColumnCount tasksTable 12;
  SetLabels tasksTable ["ID"; "Handler"; "状态"; "Cron"; "下次执行"; "上次执行"; "重试"; "最大重试"; "Execution ID"; "运行节点"; "开始时间"; "Params"];
  Invoke (Own tasksTable) "setSelectionBehavior" ["QAbstractItemView::SelectRows"];
  Invoke (Own tasksTable) "setSelectionMode" ["QAbstractItemView::SingleSelection"]; SetNotEditable tasksTable;
  Invoke (Own tasksTable) "setAlternatingRowColors" ["true"];
  Invoke (Own tasksTable) "horizontalHeader()->setStretchLastSection" ["true"];
  Invoke (Own tasksTable) "horizontalHeader()->setSectionResizeMode" ["QHeaderView::ResizeToContents"];
  Inside (Own tasksTable) (Var "tasksLayout"); New (Var "tasksPageLayout") "QHBoxLayout" EmptyString;
  New (Own prevTasksPageBtn) "QPushButton" "上一页"; New (Own nextTasksPageBtn) "QPushButton" "下一页";
  New (Own tasksPageLabel) "QLabel" "第 0-0 条 / 共 0 条"; setButtonRole (Own prevTasksPageBtn) "quiet";
  setButtonRole (Own nextTasksPageBtn) "quiet"; Invoke (Var "tasksPageLayout") "addStretch" ["1"];
  Inside (Own prevTasksPageBtn) (Var "tasksPageLayout"); Inside (Own tasksPageLabel) (Var "tasksPageLayout");
  Inside (Own nextTasksPageBtn) (Var "tasksPageLayout"); Inside (Var "tasksPageLayout") (Var "tasksLayout")
].

(** The task selected. *)
Definition edit_box : list Call := [
  New (Var "editBox") "QGroupBox" "任务详情 / 操作"; New (Var "editLayout") "QFormLayout" EmptyString;
  Inside (Var "editLayout") (Var "editBox"); New (Own editTaskIdEdit) "QLineEdit" EmptyString;
  SetReadOnly editTaskIdEdit; New (Own editCronEdit) "QLineEdit" EmptyString;
  New (Own editHandlerEdit) "QLineEdit" EmptyString; New (Own editParamsEdit) "QTextEdit" EmptyString;
  Invoke (Own editParamsEdit) "setFixedHeight" ["70"]; New (Own editMaxRetriesSpin) "QSpinBox" EmptyString;
  SetRange editMaxRetriesSpin 1 100; SetValue editMaxRetriesSpin 3; New (Own updateTaskBtn) "QPushButton" "保存修改";
  New (Own enableTaskBtn) "QPushButton" "启用"; New (Own disableTaskBtn) "QPushButton" "禁用";
  New (Own deleteTaskBtn) "QPushButton" "删除"; New (Own runNowBtn) "QPushButton" "立即执行";
  setButtonRole (Own updateTaskBtn) "primary"; setButtonRole (Own runNowBtn) "primary";
  setButtonRole (Own deleteTaskBtn) "danger"; New (Var "taskButtons") "QHBoxLayout" EmptyString;
  Inside (Own updateTaskBtn) (Var "taskButtons"); Inside (Own enableTaskBtn) (Var "taskButtons");
  Inside (Own disableTaskBtn) (Var "taskButtons"); Inside (Own runNowBtn) (Var "taskButtons");
  Inside (Own deleteTaskBtn) (Var "taskButtons"); Inside (Own editTaskIdEdit) (Var "editLayout");
  Inside (Own editCronEdit) (Var "editLayout"); Inside (Own editHandlerEdit) (Var "editLayout");
  Inside (Own editParamsEdit) (Var "editLayout"); Inside (Own editMaxRetriesSpin) (Var "editLayout");
  Inside (Var "taskButtons") (Var "editLayout"); Inside (Var "editBox") (Var "tasksLayout");
  Inside (Var "tasksTab") (Var "tabs")
].

(** The history. *)
Definition history_tab : list Call := [
  New (Var "historyTab") "QWidget" EmptyString; New (Var "historyLayout") "QVBoxLayout" EmptyString;
  Inside (Var "historyLayout") (Var "historyTab"); New (Var "historyToolbar") "QHBoxLayout" EmptyString;
  New (Own historyTaskIdEdit) "QLineEdit" EmptyString;
  Invoke (Own historyTaskIdEdit) "setPlaceholderText" ["task_id 为空时查看最近历史"];
  New (Own historyLimitSpin) "QSpinBox" EmptyString; SetRange historyLimitSpin 10 500;
  Invoke (Own historyLimitSpin) "setSingleStep" ["10"]; SetValue historyLimitSpin 50;
  New (Own historySuccessCombo) "QComboBox" EmptyString; AddItem historySuccessCombo "全部结果" (-1);
  AddItem historySuccessCombo "成功" (1); AddItem historySuccessCombo "失败" (0);
  New (Own historyKeywordEdit) "QLineEdit" EmptyString;
  Invoke (Own historyKeywordEdit) "setPlaceholderText" ["搜索 execution_id / 节点 / 结果 / 错误"];
  New (Own refreshHistoryBtn) "QPushButton" "刷新历史"; setButtonRole (Own refreshHistoryBtn) "quiet";
  Invoke (Var "historyToolbar") "addLabel" ["Task ID"]; Inside (Own historyTaskIdEdit) (Var "historyToolbar");
  Invoke (Var "historyToolbar") "addLabel" ["结果"]; Inside (Own historySuccessCombo) (Var "historyToolbar");
  Invoke (Var "historyToolbar") "addLabel" ["关键字"]; Inside (Own historyKeywordEdit) (Var "historyToolbar");
  Invoke (Var "historyToolbar") "addLabel" ["每页"]; Inside (Own historyLimitSpin) (Var "historyToolbar");
  Inside (Own refreshHistoryBtn) (Var "historyToolbar"); Inside (Var "historyToolbar") (Var "historyLayout");
  New (Own historyTable) "QTableWidget" EmptyString; SetColumnCount historyTable 8;
  SetLabels historyTable ["Execution ID"; "Task ID"; "节点"; "结果"; "返回结果"; "错误"; "开始时间"; "结束时间"];
  Invoke (Own historyTable) "setSelectionBehavior" ["QAbstractItemView::SelectRows"]; SetNotEditable historyTable;
  Invoke (Own historyTable) "setAlternatingRowColors" ["true"];
  Invoke (Own historyTable) "horizontalHeader()->setStretchLastSection" ["true"];
  Invoke (Own historyTable) "horizontalHeader()->setSectionResizeMode" ["QHeaderView::ResizeToContents"];
  Inside (Own historyTable) (Var "historyLayout"); New (Var "historyPageLayout") "QHBoxLayout" EmptyString;
  New (Own prevHistoryPageBtn) "QPushButton" "上一页"; New (Own nextHistoryPageBtn) "QPushButton" "下一页";
  New (Own historyPageLabel) "QLabel" "第 0-0 条 / 共 0 条"; setButtonRole (Own prevHistoryPageBtn) "quiet";
  setButtonRole (Own nextHistoryPageBtn) "quiet"; Invoke (Var "historyPageLayout") "addStretch" ["1"];
  Inside (Own prevHistoryPageBtn) (Var "historyPageLayout"); Inside (Own historyPageLabel) (Var "historyPageLayout");
  Inside (Own nextHistoryPageBtn) (Var "historyPageLayout"); Inside (Var "historyPageLayout") (Var "historyLayout");
  New (Var "historyDetailBox") "QGroupBox" "执行详情"; New (Var "historyDetailLayout") "QVBoxLayout" EmptyString;
  Inside (Var "historyDetailLayout") (Var "historyDetailBox");
  New (Own historyDetailView) "QPlainTextEdit" EmptyString; SetReadOnly historyDetailView;
  Invoke (Own historyDetailView) "setMinimumHeight" ["130"];
  Inside (Own historyDetailView) (Var "historyDetailLayout"); Inside (Var "historyDetailBox") (Var "historyLayout");
  Inside (Var "historyTab") (Var "tabs")
].

(** The workers. *)
Definition services_tab : list Call := [
  New (Var "servicesTab") "QWidget" EmptyString; New (Var "servicesLayout") "QVBoxLayout" EmptyString;
  Inside (Var "servicesLayout") (Var "servicesTab"); New (Var "servicesToolbar") "QHBoxLayout" EmptyString;
  New (Own serviceNameEdit) "QLineEdit" "worker"; New (Own refreshServicesBtn) "QPushButton" "刷新服务";
  setButtonRole (Own refreshServicesBtn) "quiet"; Invoke (Var "servicesToolbar") "addLabel" ["Service"];
  Inside (Own serviceNameEdit) (Var "servicesToolbar"); Invoke (Var "servicesToolbar") "addStretch" ["1"];
  Inside (Own refreshServicesBtn) (Var "servicesToolbar"); Inside (Var "servicesToolbar") (Var "servicesLayout");
  New (Own servicesTable) "QTableWidget" EmptyString; SetColumnCount servicesTable 1;
  SetLabels servicesTable ["Endpoint"];
  Invoke (Own servicesTable) "setSelectionBehavior" ["QAbstractItemView::SelectRows"]; SetNotEditable servicesTable;
  Invoke (Own servicesTable) "setAlternatingRowColors" ["true"];
  Invoke (Own servicesTable) "horizontalHeader()->setStretchLastSection" ["true"];
  Inside (Own servicesTable) (Var "servicesLayout"); Inside (Var "servicesTab") (Var "tabs")
].

(** The metrics. *)
Definition metrics_tab : list Call := [
  New (Var "metricsTab") "QWidget" EmptyString; New (Var "metricsLayout") "QVBoxLayout" EmptyString;
  Inside (Var "metricsLayout") (Var "metricsTab"); New (Var "metricsToolbar") "QHBoxLayout" EmptyString;
  New (Own refreshMetricsBtn) "QPushButton" "刷新指标"; setButtonRole (Own refreshMetricsBtn) "quiet";
  Invoke (Var "metricsToolbar") "addStretch" ["1"]; Inside (Own refreshMetricsBtn) (Var "metricsToolbar");
  Inside (Var "metricsToolbar") (Var "metricsLayout"); New (Own metricsTable) "QTableWidget" EmptyString;
  SetColumnCount metricsTable 2; SetLabels metricsTable ["Metric"; "值"];
  Invoke (Own metricsTable) "setSelectionBehavior" ["QAbstractItemView::SelectRows"]; SetNotEditable metricsTable;
  Invoke (Own metricsTable) "setAlternatingRowColors" ["true"];
  Invoke (Own metricsTable) "horizontalHeader()->setStretchLastSection" ["true"];
  Invoke (Own metricsTable) "horizontalHeader()->setSectionResizeMode" ["QHeaderView::ResizeToContents"];
  Inside (Own metricsTable) (Var "metricsLayout"); Inside (Var "metricsTab") (Var "tabs")
].

(** The processes the window starts. *)
Definition demo_tab : list Call := [
  New (Var "demoTab") "QWidget" EmptyString; New (Var "demoLayout") "QVBoxLayout" EmptyString;
  Inside (Var "demoLayout") (Var "demoTab"); New (Var "runtimeBox") "QGroupBox" "运行环境";
  New (Var "runtimeLayout") "QGridLayout" EmptyString; Inside (Var "runtimeLayout") (Var "runtimeBox");
  New (Own startDepsBtn) "QPushButton" "启动依赖"; New (Own stopDepsBtn) "QPushButton" "停止依赖";
  New (Own resetDepsBtn) "QPushButton" "重置依赖"; New (Own startServerBtn) "QPushButton" "启动服务端";
  New (Own stopServerBtn) "QPushButton" "停止服务端"; New (Own startSecondServerBtn) "QPushButton" "启动二节点";
  New (Own stopSecondServerBtn) "QPushButton" "停止二节点"; New (Own startWorkerBtn) "QPushButton" "启动 Worker";
  New (Own stopWorkerBtn) "QPushButton" "停止 Worker"; New (Own startSecondWorkerBtn) "QPushButton" "启动二号 Worker";
  New (Own stopSecondWorkerBtn) "QPushButton" "停止二号 Worker"; New (Own demoCheckBtn) "QPushButton" "环境检查";
  New (Own cleanDataBtn) "QPushButton" "清理数据"; New (Own runCheckBtn) "QPushButton" "构建测试";
  New (Own runIntegrationCheckBtn) "QPushButton" "集成/E2E"; New (Own dockerBuildBtn) "QPushButton" "构建镜像";
  New (Own showBenchmarkResultBtn) "QPushButton" "查看压测结果"; New (Own showDeployDocBtn) "QPushButton" "查看部署文档";
  New (Own showRedisSnapshotBtn) "QPushButton" "Redis 快照"; New (Own showMySQLSnapshotBtn) "QPushButton" "MySQL 快照";
  setButtonRole (Own startDepsBtn) "primary"; setButtonRole (Own startServerBtn) "primary";
  setButtonRole (Own startSecondServerBtn) "primary"; setButtonRole (Own startWorkerBtn) "primary";
  setButtonRole (Own startSecondWorkerBtn) "primary"; setButtonRole (Own stopDepsBtn) "danger";
  setButtonRole (Own resetDepsBtn) "danger"; setButtonRole (Own stopServerBtn) "danger";
  setButtonRole (Own stopSecondServerBtn) "danger"; setButtonRole (Own stopWorkerBtn) "danger";
  setButtonRole (Own stopSecondWorkerBtn) "danger"; AtCell (Own startDepsBtn) (Var "runtimeLayout") 0 0;
  AtCell (Own stopDepsBtn) (Var "runtimeLayout") 0 1; AtCell (Own resetDepsBtn) (Var "runtimeLayout") 0 2;
  AtCell (Own startServerBtn) (Var "runtimeLayout") 1 0; AtCell (Own stopServerBtn) (Var "runtimeLayout") 1 1;
  AtCell (Own startSecondServerBtn) (Var "runtimeLayout") 1 2;
  AtCell (Own stopSecondServerBtn) (Var "runtimeLayout") 1 3; AtCell (Own startWorkerBtn) (Var "runtimeLayout") 2 0;
  AtCell (Own stopWorkerBtn) (Var "runtimeLayout") 2 1; AtCell (Own startSecondWorkerBtn) (Var "runtimeLayout") 2 2;
  AtCell (Own stopSecondWorkerBtn) (Var "runtimeLayout") 2 3; AtCell (Own demoCheckBtn) (Var "runtimeLayout") 3 0;
  AtCell (Own cleanDataBtn) (Var "runtimeLayout") 3 1; AtCell (Own runCheckBtn) (Var "runtimeLayout") 3 2;
  AtCell (Own runIntegrationCheckBtn) (Var "runtimeLayout") 3 3;
  AtCell (Own dockerBuildBtn) (Var "runtimeLayout") 4 0;
  AtCell (Own showBenchmarkResultBtn) (Var "runtimeLayout") 4 1;
  AtCell (Own showDeployDocBtn) (Var "runtimeLayout") 4 2;
  AtCell (Own showRedisSnapshotBtn) (Var "runtimeLayout") 5 0;
  AtCell (Own showMySQLSnapshotBtn) (Var "runtimeLayout") 5 1; Inside (Var "runtimeBox") (Var "demoLayout")
].

(** The monitoring stack. *)
Definition monitoring_box : list Call := [
  New (Var "monitoringBox") "QGroupBox" "可观测性"; New (Var "monitoringLayout") "QGridLayout" EmptyString;
  Inside (Var "monitoringLayout") (Var "monitoringBox"); New (Own startMonitoringBtn) "QPushButton" "启动监控栈";
  New (Own stopMonitoringBtn) "QPushButton" "停止监控栈"; New (Own openPrometheusBtn) "QPushButton" "打开 Prometheus";
  New (Own openAlertmanagerBtn) "QPushButton" "打开 Alertmanager"; New (Own openGrafanaBtn) "QPushButton" "打开 Grafana";
  New (Own showAlertsBtn) "QPushButton" "查看 Alerts"; New (Own showRawMetricsBtn) "QPushButton" "查看原始 Metrics";
  setButtonRole (Own startMonitoringBtn) "primary"; setButtonRole (Own stopMonitoringBtn) "danger";
  AtCell (Own startMonitoringBtn) (Var "monitoringLayout") 0 0;
  AtCell (Own stopMonitoringBtn) (Var "monitoringLayout") 0 1;
  AtCell (Own openPrometheusBtn) (Var "monitoringLayout") 1 0;
  AtCell (Own openAlertmanagerBtn) (Var "monitoringLayout") 1 1;
  AtCell (Own openGrafanaBtn) (Var "monitoringLayout") 1 2; AtCell (Own showAlertsBtn) (Var "monitoringLayout") 2 0;
  AtCell (Own showRawMetricsBtn) (Var "monitoringLayout") 2 1; Inside (Var "monitoringBox") (Var "demoLayout")
].

(** Benchmarks, framework tests and protocol tests. *)
Definition benchmark_boxes : list Call := [
  New (Var "benchmarkBox") "QGroupBox" "压测"; New (Var "benchmarkLayout") "QHBoxLayout" EmptyString;
  Inside (Var "benchmarkLayout") (Var "benchmarkBox"); New (Own benchConcurrencySpin) "QSpinBox" EmptyString;
  SetRange benchConcurrencySpin 1 512; SetValue benchConcurrencySpin 16;
  New (Own benchRequestsSpin) "QSpinBox" EmptyString; SetRange benchRequestsSpin 1 1000000;
  SetValue benchRequestsSpin 1000; New (Own benchmarkShortBtn) "QPushButton" "短连接压测";
  New (Own benchmarkReuseBtn) "QPushButton" "长连接压测"; setButtonRole (Own benchmarkShortBtn) "primary";
  setButtonRole (Own benchmarkReuseBtn) "primary"; Invoke (Var "benchmarkLayout") "addLabel" ["并发数"];
  Inside (Own benchConcurrencySpin) (Var "benchmarkLayout"); Invoke (Var "benchmarkLayout") "addLabel" ["请求数"];
  Inside (Own benchRequestsSpin) (Var "benchmarkLayout"); Inside (Own benchmarkShortBtn) (Var "benchmarkLayout");
  Inside (Own benchmarkReuseBtn) (Var "benchmarkLayout"); Inside (Var "benchmarkBox") (Var "demoLayout");
  New (Var "frameworkBox") "QGroupBox" "RPC 框架验证"; New (Var "frameworkLayout") "QHBoxLayout" EmptyString;
  Inside (Var "frameworkLayout") (Var "frameworkBox");
  New (Own deadlineCancellationBtn) "QPushButton" "Deadline / Cancellation";
  New (Own halfOpenProbeBtn) "QPushButton" "HealthCheck + 半开探测";
  New (Own streamingStubBtn) "QPushButton" "Streaming Stub"; setButtonRole (Own deadlineCancellationBtn) "quiet";
  setButtonRole (Own halfOpenProbeBtn) "quiet"; setButtonRole (Own streamingStubBtn) "quiet";
  Inside (Own deadlineCancellationBtn) (Var "frameworkLayout");
  Inside (Own halfOpenProbeBtn) (Var "frameworkLayout"); Inside (Own streamingStubBtn) (Var "frameworkLayout");
  Invoke (Var "frameworkLayout") "addStretch" ["1"]; Inside (Var "frameworkBox") (Var "demoLayout");
  New (Var "diagnosticBox") "QGroupBox" "协议异常"; New (Var "diagnosticLayout") "QHBoxLayout" EmptyString;
  Inside (Var "diagnosticLayout") (Var "diagnosticBox"); New (Own authFailureBtn) "QPushButton" "鉴权失败";
  New (Own unknownRpcBtn) "QPushButton" "未知方法"; New (Own badFrameBtn) "QPushButton" "坏包断连";
  setButtonRole (Own authFailureBtn) "quiet"; setButtonRole (Own unknownRpcBtn) "quiet";
  setButtonRole (Own badFrameBtn) "danger"; Inside (Own authFailureBtn) (Var "diagnosticLayout");
  Inside (Own unknownRpcBtn) (Var "diagnosticLayout"); Inside (Own badFrameBtn) (Var "diagnosticLayout");
  Invoke (Var "diagnosticLayout") "addStretch" ["1"]; Inside (Var "diagnosticBox") (Var "demoLayout");
  New (Var "operationsHint") "QLabel" "所有命令输出、服务端日志和压测结果都会进入底部控制台。";
  Invoke (Var "operationsHint") "setProperty" ["class, statHint"]; Inside (Var "operationsHint") (Var "demoLayout");
  Invoke (Var "demoLayout") "addStretch" ["1"]; Inside (Var "demoTab") (Var "tabs")
].

(** The output of processes, and the log. *)
Definition console : list Call := [
  New (Var "bottomConsole") "QTabWidget" EmptyString; Invoke (Var "bottomConsole") "setDocumentMode" ["true"];
  Invoke (Var "bottomConsole") "setMinimumHeight" ["170"]; New (Var "toolOutputPage") "QWidget" EmptyString;
  New (Var "toolOutputLayout") "QVBoxLayout" EmptyString; Inside (Var "toolOutputLayout") (Var "toolOutputPage");
  Invoke (Var "toolOutputLayout") "setContentsMargins" ["6, 6, 6, 6"];
  New (Own toolOutput) "QPlainTextEdit" EmptyString; SetReadOnly toolOutput;
  Inside (Own toolOutput) (Var "toolOutputLayout"); Inside (Var "toolOutputPage") (Var "bottomConsole");
  New (Var "logBox") "QWidget" EmptyString; New (Var "logLayout") "QVBoxLayout" EmptyString;
  Inside (Var "logLayout") (Var "logBox"); Invoke (Var "logLayout") "setContentsMargins" ["6, 6, 6, 6"];
  New (Own logView) "QPlainTextEdit" EmptyString; SetReadOnly logView; New (Own clearLogBtn) "QPushButton" "清空日志";
  Inside (Own logView) (Var "logLayout"); Inside (Own clearLogBtn) (Var "logLayout");
  Inside (Var "logBox") (Var "bottomConsole"); Inside (Var "bottomConsole") (Var "mainSplitter");
  Invoke (Var "mainSplitter") "setStretchFactor" ["0, 4"]; Invoke (Var "mainSplitter") "setStretchFactor" ["1, 1"]
].

(** What the signals of the widgets call. *)
Definition connections : list Call := [
  Connect (Own connectBtn) "clicked" (Runs onConnect); Connect (Own disconnectBtn) "clicked" (Runs onDisconnect);
  Connect (Own echoBtn) "clicked" (Runs onEcho); Connect (Own healthCheckBtn) "clicked" (Runs onHealthCheck);
  Connect (Own streamMetricsBtn) "clicked" (Runs onStreamMetrics); Connect (Own submitBtn) "clicked" (Runs onSubmit);
  Connect (Own cancelBtn) "clicked" (Runs onCancelTask); Connect (Own updateTaskBtn) "clicked" (Runs onUpdateTask);
  Connect (Own enableTaskBtn) "clicked" (Runs onEnableSelectedTask);
  Connect (Own disableTaskBtn) "clicked" (Runs onDisableSelectedTask);
  Connect (Own deleteTaskBtn) "clicked" (Runs onDeleteSelectedTask);
  Connect (Own runNowBtn) "clicked" (Runs onRunSelectedTaskNow);
  Connect (Own refreshTasksBtn) "clicked" (Runs onRefreshTasks);
  Connect (Own enabledOnlyCheck) "toggled" (Runs onTaskFilterChanged);
  Connect (Own taskStatusCombo) "currentIndexChanged" (Runs onTaskFilterChanged);
  Connect (Own taskKeywordEdit) "returnPressed" (Runs onTaskFilterChanged);
  Connect (Own taskPageSizeSpin) "valueChanged" (Runs onTaskFilterChanged);
  Connect (Own prevTasksPageBtn) "clicked" (Runs onPrevTasksPage);
  Connect (Own nextTasksPageBtn) "clicked" (Runs onNextTasksPage);
  Connect (Own refreshHistoryBtn) "clicked" (Runs onRefreshHistory);
  Connect (Own historyTaskIdEdit) "returnPressed" (Runs onHistoryFilterChanged);
  Connect (Own historySuccessCombo) "currentIndexChanged" (Runs onHistoryFilterChanged);
  Connect (Own historyKeywordEdit) "returnPressed" (Runs onHistoryFilterChanged);
  Connect (Own historyLimitSpin) "valueChanged" (Runs onHistoryFilterChanged);
  Connect (Own prevHistoryPageBtn) "clicked" (Runs onPrevHistoryPage);
  Connect (Own nextHistoryPageBtn) "clicked" (Runs onNextHistoryPage);
  Connect (Own refreshServicesBtn) "clicked" (Runs onRefreshServices);
  Connect (Own refreshMetricsBtn) "clicked" (Runs onRefreshMetrics);
  Connect (Own startDepsBtn) "clicked" (Runs onStartDependencies);
  Connect (Own stopDepsBtn) "clicked" (Runs onStopDependencies);
  Connect (Own resetDepsBtn) "clicked" (Runs onResetDependencies);
  Connect (Own startServerBtn) "clicked" (Runs onStartServer);
  Connect (Own stopServerBtn) "clicked" (Runs onStopServer);
  Connect (Own startSecondServerBtn) "clicked" (Runs onStartSecondServer);
  Connect (Own stopSecondServerBtn) "clicked" (Runs onStopSecondServer);
  Connect (Own startWorkerBtn) "clicked" (Runs onStartWorker);
  Connect (Own stopWorkerBtn) "clicked" (Runs onStopWorker);
  Connect (Own startSecondWorkerBtn) "clicked" (Runs onStartSecondWorker);
  Connect (Own stopSecondWorkerBtn) "clicked" (Runs onStopSecondWorker);
  Connect (Own demoCheckBtn) "clicked" (Runs onDemoCheck);
  Connect (Own cleanDataBtn) "clicked" (Runs onCleanDemoData); Connect (Own runCheckBtn) "clicked" (Runs onRunCheck);
  Connect (Own runIntegrationCheckBtn) "clicked" (Runs onRunIntegrationCheck);
  Connect (Own dockerBuildBtn) "clicked" (Runs onDockerBuild);
  Connect (Own showBenchmarkResultBtn) "clicked" (Runs onShowBenchmarkResult);
  Connect (Own showDeployDocBtn) "clicked" (Runs onShowDeployDoc);
  Connect (Own startMonitoringBtn) "clicked" (Runs onStartMonitoringStack);
  Connect (Own stopMonitoringBtn) "clicked" (Runs onStopMonitoringStack);
  Connect (Own openPrometheusBtn) "clicked" (Runs onOpenPrometheus);
  Connect (Own openAlertmanagerBtn) "clicked" (Runs onOpenAlertmanager);
  Connect (Own openGrafanaBtn) "clicked" (Runs onOpenGrafana);
  Connect (Own showAlertsBtn) "clicked" (Runs onShowAlerts);
  Connect (Own showRawMetricsBtn) "clicked" (Runs onShowRawMetrics);
  Connect (Own showRedisSnapshotBtn) "clicked" (Runs onShowRedisSnapshot);
  Connect (Own showMySQLSnapshotBtn) "clicked" (Runs onShowMySQLSnapshot);
  Connect (Own benchmarkShortBtn) "clicked" (Runs onBenchmarkShort);
  Connect (Own benchmarkReuseBtn) "clicked" (Runs onBenchmarkReuse);
  Connect (Own deadlineCancellationBtn) "clicked" (Runs onDeadlineCancellationDemo);
  Connect (Own halfOpenProbeBtn) "clicked" (Runs onHalfOpenProbeDemo);
  Connect (Own streamingStubBtn) "clicked" (Runs onStreamingStubDemo);
  Connect (Own authFailureBtn) "clicked" (Runs onAuthFailureTest);
  Connect (Own unknownRpcBtn) "clicked" (Runs onUnknownRpcTest);
  Connect (Own badFrameBtn) "clicked" (Runs onBadFrameTest);
  Connect (Own tasksTable) "itemSelectionChanged" (Runs onTaskSelectionChanged);
  Connect (Own historyTable) "itemSelectionChanged" (Runs onHistorySelectionChanged);
  Connect (Own autoRefreshCheck) "toggled" (Runs onAutoRefreshChanged); Connect (Own clearLogBtn) "clicked" ClearLog
].

(** The refresh timer and the socket. *)
Definition timer_and_socket : list Call := [
  New (Own autoRefreshTimer) "QTimer" EmptyString; ChildOf (Own autoRefreshTimer) This;
  SetInterval autoRefreshTimer 3000; Connect (Own autoRefreshTimer) "timeout" (Runs onAutoRefreshTick);
  New (Own socket) "QTcpSocket" EmptyString; ChildOf (Own socket) This;
  Connect (Own socket) "readyRead" (Runs onReadyRead); Connect (Own socket) "connected" (Runs onSocketConnected);
  Connect (Own socket) "disconnected" (Runs onSocketDisconnected);
  Connect (Own socket) "errorOccurred" (Runs onSocketError)
].

(** The processes. *)
Definition configureManagedProcess (process : Widget) : list Call := [
  Invoke (Own process) "setProcessChannelMode" ["QProcess::MergedChannels"];
  Connect (Own process) "readyReadStandardOutput" (ShowOutput process);
  Connect (Own process) "started" (NodeStarted process); Connect (Own process) "finished" (NodeFinished process)
].

Definition processes : list Call := [
  New (Own toolProcess) "QProcess" ""; ChildOf (Own toolProcess) This;
  Invoke (Own toolProcess) "setProcessChannelMode" ["QProcess::MergedChannels"];
  Connect (Own toolProcess) "readyReadStandardOutput" (ShowOutput toolProcess);
  Connect (Own toolProcess) "finished" ToolFinished;
  New (Own serverProcess) "QProcess" ""; ChildOf (Own serverProcess) This;
  New (Own server2Process) "QProcess" ""; ChildOf (Own server2Process) This;
  New (Own workerProcess) "QProcess" ""; ChildOf (Own workerProcess) This;
  New (Own worker2Process) "QProcess" ""; ChildOf (Own worker2Process) This
] ++ configureManagedProcess serverProcess ++ configureManagedProcess server2Process ++
  configureManagedProcess workerProcess ++ configureManagedProcess worker2Process.

(** The constructor. *)
Definition construct : list Call :=
  window_menus ++ top_bar ++ overview_tab ++ operation_tab ++ tasks_tab ++ edit_box ++ history_tab ++ services_tab ++
  metrics_tab ++ demo_tab ++ monitoring_box ++ benchmark_boxes ++ console ++ connections ++ timer_and_socket ++
  processes ++ [UpdateUiState].

(** The widgets [updateUiState] touches. *)
Definition ui_widgets : list Widget := [
  connectBtn; disconnectBtn; echoBtn; healthCheckBtn; streamMetricsBtn; submitBtn; cancelBtn; updateTaskBtn;
  enableTaskBtn; disableTaskBtn; deleteTaskBtn; runNowBtn; refreshTasksBtn; prevTasksPageBtn; nextTasksPageBtn;
  refreshHistoryBtn; prevHistoryPageBtn; nextHistoryPageBtn; refreshServicesBtn; refreshMetricsBtn;
  authFailureBtn; unknownRpcBtn; badFrameBtn; startDepsBtn; stopDepsBtn; resetDepsBtn; demoCheckBtn; cleanDataBtn;
  runCheckBtn; runIntegrationCheckBtn; dockerBuildBtn; showBenchmarkResultBtn; showDeployDocBtn;
  startMonitoringBtn; stopMonitoringBtn; openPrometheusBtn; openAlertmanagerBtn; openGrafanaBtn; showAlertsBtn;
  showRawMetricsBtn; showRedisSnapshotBtn; showMySQLSnapshotBtn; benchmarkShortBtn; benchmarkReuseBtn;
  deadlineCancellationBtn; halfOpenProbeBtn; streamingStubBtn; startServerBtn; stopServerBtn;
  startSecondServerBtn; stopSecondServerBtn; startWorkerBtn; stopWorkerBtn; startSecondWorkerBtn;
  stopSecondWorkerBtn; statusLabel; overviewConnectionValue
].

(** ** What is asked of them *)

Definition creates (c : Call) : option Obj := match c with New o _ _ => Some o | _ => None end.

Definition uses (c : Call) : list Obj :=
  match c with
  | New _ _ _ | AddMenu _ _ | AddAction _ _ _ => []
  | ChildOf o p | Inside o p | AtCell o p _ _ => [o; p]
  | SetRange w _ _ | SetValue w _ | SetText w _ | SetTextFromEnv w _ | SetReadOnly w | SetInterval w _ | AddItem w _ _
  | SetColumnCount w _ | SetLabels w _ | SetNotEditable w => [Own w]
  | Connect o _ h => o :: (match h with ClearLog => [Own logView] | _ => [] end)
  | Invoke o _ _ => [o]
  | UpdateUiState => map Own ui_widgets
  end.

Definition made (o : Obj) (l : list Obj) : bool := Obj_eqb o This || existsb (Obj_eqb o) l.

(** No uninitialised pointer is used, and none is overwritten. *)
Fixpoint well_ordered (l : list Obj) (cs : list Call) : bool :=
  match cs with
  | [] => true
  | c :: cs' =>
      forallb (fun o => made o l) (uses c) &&
      match creates c with
      | Some o => negb (made o l) && well_ordered (o :: l) cs'
      | None => well_ordered l cs'
      end
  end.

(** The calls that put an object into another. *)
Definition parents (o : Obj) (cs : list Call) : list Obj :=
  omap (fun c => match c with
    | Inside o' p | AtCell o' p _ _ => if Obj_eqb o o' then Some p else None
    | _ => None
    end) cs.

Fixpoint in_window (fuel : nat) (cs : list Call) (o : Obj) : bool :=
  match fuel, o with
  | _, This => true
  | O, _ => false
  | S fuel', _ => match parents o cs with [p] => in_window fuel' cs p | _ => false end
  end.

Definition classes (w : Widget) (cs : list Call) : list string :=
  omap (fun c => match c with New (Own w') k _ => if Widget_beq w w' then Some k else None | _ => None end) cs.

(** What runs when a widget emits a signal. *)
Definition connected_to (o : Obj) (signal : string) (cs : list Call) : list Handler :=
  omap (fun c => match c with
    | Connect o' s h => if Obj_eqb o o' && String.eqb signal s then Some h else None
    | _ => None
    end) cs.

Definition slots_of (cs : list Call) : list Slot :=
  omap (fun c => match c with Connect _ _ (Runs s) | AddAction _ _ (Runs s) => Some s | _ => None end) cs.

Definition ranges (w : Widget) (cs : list Call) : list (Z * Z) :=
  omap (fun c => match c with SetRange w' lo hi => if Widget_beq w w' then Some (lo, hi) else None | _ => None end) cs.
Definition values (w : Widget) (cs : list Call) : list Z :=
  omap (fun c => match c with SetValue w' v => if Widget_beq w w' then Some v else None | _ => None end) cs.
Definition column_counts (w : Widget) (cs : list Call) : list Z :=
  omap (fun c => match c with SetColumnCount w' n => if Widget_beq w w' then Some n else None | _ => None end) cs.
Definition labels_of (w : Widget) (cs : list Call) : list (list string) :=
  omap (fun c => match c with SetLabels w' l => if Widget_beq w w' then Some l else None | _ => None end) cs.
Definition not_editable (w : Widget) (cs : list Call) : bool :=
  existsb (fun c => match c with SetNotEditable w' => Widget_beq w w' | _ => false end) cs.

Definition is_shown (w : Widget) : bool :=
  negb (existsb (String.eqb (declared w)) ["QTcpSocket"; "QProcess"; "QTimer"]).

Definition spin_ok (w : Widget) (cs : list Call) : bool :=
  match ranges w cs, values w cs with
  | [(lo, hi)], [v] => (lo <=? v)%Z && (v <=? hi)%Z
  | _, _ => false
  end.

Definition table_ok (w : Widget) (cs : list Call) : bool :=
  match column_counts w cs, labels_of w cs with
  | [n], [l] => (n =? Z.of_nat (length l))%Z && not_editable w cs
  | _, _ => false
  end.

(** No two things share a cell of a grid. *)
Definition cells (cs : list Call) : list (Obj * Z * Z) :=
  omap (fun c => match c with AtCell _ p row column => Some (p, row, column) | _ => None end) cs.
Fixpoint distinct (l : list (Obj * Z * Z)) : bool :=
  match l with
  | [] => true
  | (p, r, c) :: l' =>
      negb (existsb (fun x => Obj_eqb p x.1.1 && (r =? x.1.2)%Z && (c =? x.2)%Z) l') && distinct l'
  end.

(** The lists are complete. *)
Definition widget_position (w : Widget) : nat := default 0%nat (fst <$> list_find (fun v => Widget_beq w v = true) widgets).
Definition slot_position (s : Slot) : nat := default 0%nat (fst <$> list_find (fun t => Slot_beq s t = true) slots).

Lemma widgets_all w : widgets !! widget_position w = Some w.
Proof. destruct w; vm_compute; reflexivity. Qed.
Lemma slots_all s : slots !! slot_position s = Some s.
Proof. destruct s; vm_compute; reflexivity. Qed.

Definition button_handler (w : Widget) (cs : list Call) : option Handler :=
  match connected_to (Own w) "clicked" cs with [h] => Some h | _ => None end.

Definition widget_ok (cs : list Call) (w : Widget) : bool :=
  bool_decide (classes w cs = [declared w]) &&
  (negb (is_shown w) || in_window 12 cs (Own w)) &&
  (negb (String.eqb (declared w) "QPushButton") || match button_handler w cs with Some _ => true | None => false end) &&
  (negb (String.eqb (declared w) "QSpinBox") || spin_ok w cs) &&
  (negb (String.eqb (declared w) "QTableWidget") || table_ok w cs).

(** The slots of the menus. *)
Definition menu_slots (cs : list Call) : list Slot :=
  omap (fun c => match c with AddAction _ _ (Runs s) => Some s | _ => None end) cs.

Definition on_a_button (cs : list Call) (s : Slot) : bool :=
  existsb (fun w => match button_handler w cs with Some (Runs s') => Slot_beq s s' | _ => false end) widgets.

Lemma widgets_ok : forallb (widget_ok construct) widgets = true.
Proof. vm_compute. reflexivity. Qed.

Lemma negb_orb_elim a b : negb a || b = true -> a = true -> b = true.
Proof. by destruct a. Qed.

Lemma forallb_lookup {A} (P : A -> bool) l i x : forallb P l = true -> l !! i = Some x -> P x = true.
Proof. intros H Hi. rewrite forallb_forall in H. apply H, list_elem_of_In. by eapply list_elem_of_lookup_2. Qed.

(** The window is built completely and soundly: no member is used before it is
    created, and each is created once, with the class it is declared with;
    everything that is shown sits in exactly one place inside the window, and no
    two things in one cell; every button runs exactly one handler, every slot
    is run by some signal or menu, and every menu's slot also has a button;
    every number starts within its range; and every table has as many labels as
    columns, and cells that cannot be edited. *)
Theorem window_is_complete :
  well_ordered [] construct = true /\ distinct (cells construct) = true /\
  (forall w, classes w construct = [declared w] /\
    (is_shown w = true -> in_window 12 construct (Own w) = true) /\
    (declared w = "QPushButton" -> exists h, button_handler w construct = Some h) /\
    (declared w = "QSpinBox" -> spin_ok w construct = true) /\
    (declared w = "QTableWidget" -> table_ok w construct = true)) /\
  (forall s, existsb (Slot_beq s) (slots_of construct) = true) /\
  Forall (fun s => on_a_button construct s = true) (menu_slots construct).
Proof.
  split; [vm_compute; reflexivity|]. split; [vm_compute; reflexivity|]. split; [|split].
  - intros w. pose proof (forallb_lookup _ _ _ _ widgets_ok (widgets_all w)) as H. unfold widget_ok in H.
    apply andb_true_iff in H as [H H5]. apply andb_true_iff in H as [H H4]. apply andb_true_iff in H as [H H3].
    apply andb_true_iff in H as [H H2]. apply bool_decide_eq_true in H. split; [exact H|]. clear H.
    split; [exact (negb_orb_elim _ _ H2)|].
    split; [|split; intros Hc; apply String.eqb_eq in Hc; [exact (negb_orb_elim _ _ H4 Hc)|exact (negb_orb_elim _ _ H5 Hc)]].
    intros Hc. apply String.eqb_eq in Hc. apply (negb_orb_elim _ _ H3) in Hc.
    destruct (button_handler w construct) as [h|]; [by exists h|discriminate Hc].
  - intros s. assert (H : forallb (fun s => existsb (Slot_beq s) (slots_of construct)) slots = true) by (vm_compute; reflexivity).
    exact (forallb_lookup _ _ _ _ H (slots_all s)).
  - apply Forall_forall. intros s Hs.
    assert (H : forallb (on_a_button construct) (menu_slots construct) = true) by (vm_compute; reflexivity).
    rewrite forallb_forall in H. by apply H, list_elem_of_In.
Qed.
