(* ===== verification/ClientActions.v ===== *)
(** The desktop client as a whole ([client/mainwindow.cpp]): what the user, the
    socket, the timer and the processes do to the widgets that [ClientWidgets]
    builds, through the connections made there, to the window of [ClientWindow]
    and the processes of [ClientProcesses]; and the texts of its tables and of
    its console.

    A disabled widget emits nothing; menu entries are never disabled.  Signals
    are delivered at once.  The log is left out. *)
From S2P Require Import Prelude Protocol Text Config Datetime TaskTable Metrics Connection Dispatcher ClientWindow ClientProcesses ClientWidgets.

(** ** The tables *)

Definition status_text (status : Z) : string :=
  let s := "未知" in
  let s := if (status =? 0)%Z then "停用" else s in
  let s := if (status =? 1)%Z then "待调度" else s in
  if (status =? 2)%Z then "执行中" else s.

(** The cells of a row of the task list. *)
Definition task_cells (t : TaskMeta.t) : list string :=
  [TaskMeta.id t; TaskMeta.handler t; status_text (TaskMeta.status t); TaskMeta.cron_expr t; TaskMeta.next_run_at t;
   TaskMeta.last_run_at t; to_string (TaskMeta.retry_count t); to_string (TaskMeta.max_retries t);
   TaskMeta.current_execution_id t; TaskMeta.running_node t; TaskMeta.started_at t; TaskMeta.params t].

(** The cells of a row of the history. *)
Definition history_cells (h : TaskHistory.t) : list string :=
  [TaskHistory.execution_id h; TaskHistory.task_id h; TaskHistory.exec_node h;
   if TaskHistory.success h then "成功" else "失败"; TaskHistory.result h; TaskHistory.error h;
   TaskHistory.start_time h; TaskHistory.end_time h].

(** The rows of the metrics table. *)
Definition metric_rows (m : MetricsSnapshot) : list (string * Z) := [
  ("rpc_requests_total", ss_counter m rpc_requests_total);
  ("rpc_success_total", ss_counter m rpc_success_total);
  ("rpc_error_total", ss_counter m rpc_error_total);
  ("active_connections", ss_counter m active_connections);
  ("rejected_connections", ss_counter m rejected_connections);
  ("malformed_frames", ss_counter m malformed_frames);
  ("bytes_in_total", ss_counter m bytes_in_total);
  ("bytes_out_total", ss_counter m bytes_out_total);
  ("task_success_total", ss_counter m task_success_total);
  ("task_failure_total", ss_counter m task_failure_total);
  ("lock_acquire_success_total", ss_counter m lock_acquire_success_total);
  ("lock_acquire_failure_total", ss_counter m lock_acquire_failure_total);
  ("max_task_duration_ms", ss_max_task_duration_ms m);
  ("task_duration_p95_ms", ss_task_duration_p95_ms m);
  ("task_duration_p99_ms", ss_task_duration_p99_ms m);
  ("task_duration_samples_total", ss_task_duration_samples_total m);
  ("schedule_delay_max_ms", ss_schedule_delay_max_ms m);
  ("schedule_delay_p95_ms", ss_schedule_delay_p95_ms m);
  ("schedule_delay_p99_ms", ss_schedule_delay_p99_ms m);
  ("schedule_delay_samples_total", ss_schedule_delay_samples_total m)
].

(** The five numbers of the overview that a snapshot sets. *)
Definition metric_cards (m : MetricsSnapshot) : list (Widget * Z) := [
  (overviewRpcRequestsValue, ss_counter m rpc_requests_total);
  (overviewRpcErrorsValue, ss_counter m rpc_error_total);
  (overviewActiveConnectionsValue, ss_counter m active_connections);
  (overviewTaskSuccessValue, ss_counter m task_success_total);
  (overviewTaskFailureValue, ss_counter m task_failure_total)
].

(** What the tables hold. *)
Definition table_cells (table : Widget) (w : MainWindow) : list (list string) :=
  match table with
  | tasksTable => map task_cells (mw_tasks w)
  | historyTable => map history_cells (mw_history w)
  | servicesTable => map (fun endpoint => [endpoint]) (mw_services w)
  | metricsTable =>
      match mw_metrics w with
      | Some m => map (fun row => [row.1; to_string row.2]) (metric_rows m)
      | None => []
      end
  | _ => []
  end.

Definition item (table : Widget) (row col : nat) (w : MainWindow) : option string :=
  table_cells table w !! row ≫= fun cells => cells !! col.

Definition LF : string := String (ascii_of_nat 10) EmptyString.

(** [onHistorySelectionChanged]: what the detail view shows of a row. *)
Definition history_detail (row : nat) (w : MainWindow) : string :=
  let textAt := fun col => default "" (item historyTable row col w) in
  "Execution ID: " +:+ textAt 0%nat +:+ LF +:+
  "Task ID: " +:+ textAt 1%nat +:+ LF +:+
  "节点: " +:+ textAt 2%nat +:+ LF +:+
  "结果: " +:+ textAt 3%nat +:+ LF +:+
  "开始时间: " +:+ textAt 6%nat +:+ LF +:+
  "结束时间: " +:+ textAt 7%nat +:+ LF +:+ LF +:+
  "返回结果:" +:+ LF +:+ textAt 4%nat +:+ LF +:+ LF +:+
  "错误:" +:+ LF +:+ textAt 5%nat.

(** Every row fills the columns that the constructor made: those with the name
    of the fields. *)
Lemma rows_fill_columns table w cells : cells ∈ table_cells table w ->
  column_counts table construct = [Z.of_nat (length cells)].
Proof.
  intros H. destruct table; try (by apply not_elem_of_nil in H); cbn [table_cells] in H.
  - apply list_elem_of_fmap in H as (t & -> & _). by vm_compute.
  - apply list_elem_of_fmap in H as (h & -> & _). by vm_compute.
  - apply list_elem_of_fmap in H as (e & -> & _). by vm_compute.
  - destruct (mw_metrics w); [|by apply not_elem_of_nil in H]. apply list_elem_of_fmap in H as (r & -> & _). by vm_compute.
Qed.

Section Selection.
(** [toInt] is [QString::toInt], which reads back what [QString::number] writes. *)
Context (toInt : string -> Z).

(** [onTaskSelectionChanged], from the cells of the row. *)
Definition select_cells (row : nat) (w : MainWindow) : MainWindow :=
  match item tasksTable row 0 w with
  | None => w
  | Some id =>
      let i := mw_inputs w in
      mkMainWindow (mw_socket w) (mw_recvBuffer w)
        (mkInputs (in_token i) (in_enabled_only i) (in_status_filter i) (in_task_keyword i) (in_success_filter i)
           (in_history_keyword i) (in_service_name i)
           (default (in_edit_cron i) (item tasksTable row 3 w)) (default (in_edit_handler i) (item tasksTable row 1 w))
           (default (in_edit_params i) (item tasksTable row 11 w))
           (match item tasksTable row 7 w with
            | Some text => Z.max 1 (Z.min 100 (toInt text))
            | None => in_edit_max_retries i
            end))
        (mkTaskIds id id id) (mw_tasks_pager w) (mw_history_pager w) (mw_tasks w) (mw_selected w) (mw_history w)
        (mw_services w) (mw_metrics w) (mw_writes w) (mw_sent w)
  end.

(** [onUpdateTask]: the status to send, by the text of the row selected. *)
Definition status_of_cells (w : MainWindow) : Z :=
  match mw_selected w with
  | Some row => match item tasksTable row 2 w with Some text => if String.eqb text "停用" then 0 else 1 | None => 1 end
  | None => 1
  end.

Lemma task_item row col w : item tasksTable row col w = mw_tasks w !! row ≫= fun t => task_cells t !! col.
Proof. unfold item. cbn [table_cells]. rewrite list_lookup_fmap. by destruct (mw_tasks w !! row). Qed.

Lemma status_text_disabled status : String.eqb (status_text status) "停用" = (status =? TASK_DISABLED)%Z.
Proof.
  unfold status_text, TASK_DISABLED.
  destruct (Z.eqb_spec status 2) as [->|]; [reflexivity|]. destruct (Z.eqb_spec status 1) as [->|]; [reflexivity|].
  by destruct (status =? 0)%Z.
Qed.

(** The texts carry the tasks: selecting a row through its cells fills in the
    task's own fields, and the status sent with an update is read from them
    rightly. *)
Lemma cells_carry_tasks row w :
  (forall task, task ∈ mw_tasks w -> toInt (to_string (TaskMeta.max_retries task)) = TaskMeta.max_retries task) ->
  mw_selected w = Some row ->
  select_cells row w = ClientWindow.onTaskSelectionChanged (Some row) w /\
  status_of_cells w = if selected_disabled w then 0 else 1.
Proof.
  intros Hi Hs. split.
  - unfold select_cells, ClientWindow.onTaskSelectionChanged. cbn [mbind option_bind mw_tasks]. rewrite !task_item.
    destruct w as [? ? ? ? ? ? tasks selected]. cbn [mw_selected mw_tasks] in *. subst selected.
    destruct (tasks !! row) as [t|] eqn:E; [|done]. cbn -[Z.max Z.min to_string]. rewrite Hi; [done|].
    by eapply list_elem_of_lookup_2.
  - unfold status_of_cells, selected_disabled. rewrite Hs, task_item.
    destruct (mw_tasks w !! row) as [t|]; [|done]. cbn -[status_text]. by rewrite status_text_disabled.
Qed.

End Selection.

(** ** The client *)

(** The fields of the operations tab that only requests read. *)
Record Form := mkForm { fm_echo : string; fm_samples : Z; fm_cron : string; fm_handler : string; fm_params : string }.

(** [cl_auto]: the box for refreshing; [cl_timer]: its timer runs.  [cl_opened]:
    the pages opened in a browser.  [cl_output]: the console.  [cl_ended]: the
    processes that have ended or failed to start, the last one first.
    [cl_wire]: bytes written past [sendFrame]. *)
Record Client := mkClient {
  cl_desk : Desk; cl_form : Form; cl_auto : bool; cl_timer : bool; cl_history_row : option nat; cl_detail : string;
  cl_opened : list string; cl_output : string; cl_ended : list ClientProcesses.Slot; cl_wire : list string;
  cl_closed : bool
}.

Definition set_desk (d : Desk) (c : Client) : Client :=
  mkClient d (cl_form c) (cl_auto c) (cl_timer c) (cl_history_row c) (cl_detail c) (cl_opened c) (cl_output c)
    (cl_ended c) (cl_wire c) (cl_closed c).
Definition set_form (f : Form) (c : Client) : Client :=
  mkClient (cl_desk c) f (cl_auto c) (cl_timer c) (cl_history_row c) (cl_detail c) (cl_opened c) (cl_output c)
    (cl_ended c) (cl_wire c) (cl_closed c).
Definition set_auto (auto timer : bool) (c : Client) : Client :=
  mkClient (cl_desk c) (cl_form c) auto timer (cl_history_row c) (cl_detail c) (cl_opened c) (cl_output c)
    (cl_ended c) (cl_wire c) (cl_closed c).
Definition set_detail (row : option nat) (detail : string) (c : Client) : Client :=
  mkClient (cl_desk c) (cl_form c) (cl_auto c) (cl_timer c) row detail (cl_opened c) (cl_output c)
    (cl_ended c) (cl_wire c) (cl_closed c).
Definition set_closed (c : Client) : Client :=
  mkClient (cl_desk c) (cl_form c) (cl_auto c) (cl_timer c) (cl_history_row c) (cl_detail c) (cl_opened c) (cl_output c)
    (cl_ended c) (cl_wire c) true.
Definition add_ended (s : ClientProcesses.Slot) (c : Client) : Client :=
  mkClient (cl_desk c) (cl_form c) (cl_auto c) (cl_timer c) (cl_history_row c) (cl_detail c) (cl_opened c) (cl_output c)
    (s :: cl_ended c) (cl_wire c) (cl_closed c).

Definition appendToolOutput (message : string) (c : Client) : Client :=
  mkClient (cl_desk c) (cl_form c) (cl_auto c) (cl_timer c) (cl_history_row c) (cl_detail c) (cl_opened c)
    (cl_output c +:+ message) (cl_ended c) (cl_wire c) (cl_closed c).

Definition openUrl (url : string) (c : Client) : Client :=
  mkClient (cl_desk c) (cl_form c) (cl_auto c) (cl_timer c) (cl_history_row c) (cl_detail c) (url :: cl_opened c)
    (cl_output c) (cl_ended c) (cl_wire c) (cl_closed c).

Definition add_wire (bytes : option string) (c : Client) : Client :=
  mkClient (cl_desk c) (cl_form c) (cl_auto c) (cl_timer c) (cl_history_row c) (cl_detail c) (cl_opened c)
    (cl_output c) (cl_ended c) (match bytes with Some b => b :: cl_wire c | None => cl_wire c end) (cl_closed c).

Definition on_desk (f : Desk -> Desk) (c : Client) : Client := set_desk (f (cl_desk c)) c.
Definition win (c : Client) : MainWindow := dk_window (cl_desk c).

(** A handler changes the window; when that closes the socket, its
    [disconnected] runs [onSocketDisconnected]. *)
Definition dropped (w w' : MainWindow) : bool :=
  negb (bool_decide (mw_socket w = Unconnected)) && bool_decide (mw_socket w' = Unconnected).
Definition on_window (f : MainWindow -> MainWindow) (c : Client) : Client :=
  let w' := f (win c) in
  let c' := on_desk (set_window w') c in
  if dropped (win c) w' then on_desk updateUiState c' else c'.

Definition page_ui (prev_tasks next_tasks prev_history next_history : bool) (d : Desk) : Desk :=
  let ui := dk_ui d in
  set_ui (mkUi (ui_connect ui) (ui_disconnect ui) (ui_requests ui) prev_tasks next_tasks prev_history next_history
    (ui_tools ui) (ui_node_start ui) (ui_node_stop ui)) d.

Definition updateTaskPaginationUi (d : Desk) : Desk :=
  let p := pagination_ui (mw_tasks_pager (dk_window d)) (dk_window d) in
  page_ui (ui_prev p) (ui_next p) (ui_prev_history (dk_ui d)) (ui_next_history (dk_ui d)) d.
Definition updateHistoryPaginationUi (d : Desk) : Desk :=
  let p := pagination_ui (mw_history_pager (dk_window d)) (dk_window d) in
  page_ui (ui_prev_tasks (dk_ui d)) (ui_next_tasks (dk_ui d)) (ui_prev p) (ui_next p) d.

(** [updateUiState]: whether a widget is enabled.  The others always are. *)
Definition enabled (w : Widget) (ui : Ui) : bool :=
  match w with
  | connectBtn => ui_connect ui
  | disconnectBtn => ui_disconnect ui
  | echoBtn | healthCheckBtn | streamMetricsBtn | submitBtn | cancelBtn | updateTaskBtn | enableTaskBtn | disableTaskBtn
  | deleteTaskBtn | runNowBtn | refreshTasksBtn | refreshHistoryBtn | refreshServicesBtn | refreshMetricsBtn
  | authFailureBtn | unknownRpcBtn | badFrameBtn => ui_requests ui
  | prevTasksPageBtn => ui_prev_tasks ui
  | nextTasksPageBtn => ui_next_tasks ui
  | prevHistoryPageBtn => ui_prev_history ui
  | nextHistoryPageBtn => ui_next_history ui
  | startDepsBtn | stopDepsBtn | resetDepsBtn | demoCheckBtn | cleanDataBtn | runCheckBtn | runIntegrationCheckBtn
  | dockerBuildBtn | showBenchmarkResultBtn | showDeployDocBtn | startMonitoringBtn | stopMonitoringBtn | showAlertsBtn
  | showRawMetricsBtn | showRedisSnapshotBtn | showMySQLSnapshotBtn | benchmarkShortBtn | benchmarkReuseBtn
  | deadlineCancellationBtn | halfOpenProbeBtn | streamingStubBtn => ui_tools ui
  | startServerBtn => ui_node_start ui ServerSlot
  | stopServerBtn => ui_node_stop ui ServerSlot
  | startSecondServerBtn => ui_node_start ui Server2Slot
  | stopSecondServerBtn => ui_node_stop ui Server2Slot
  | startWorkerBtn => ui_node_start ui WorkerSlot
  | stopWorkerBtn => ui_node_stop ui WorkerSlot
  | startSecondWorkerBtn => ui_node_start ui Worker2Slot
  | stopSecondWorkerBtn => ui_node_stop ui Worker2Slot
  | _ => true
  end.

(** ** Scripts *)

Definition DQ : string := String (ascii_of_nat 34) EmptyString.

Definition deploy_doc_script : string :=
  "printf '%s\n' '== deploy.md ==' && cat docs/guide/deploy.md && " +:+
  "printf '%s\n' '\n== systemd/corpcron.service ==' && cat systemd/corpcron.service".

Definition redis_script : string :=
  "printf '%s\n' '== services:rpc members ==' && " +:+
  "docker exec corpcron-redis redis-cli --raw SMEMBERS services:rpc && " +:+
  "printf '%s\n' '\n== services:worker members ==' && " +:+
  "docker exec corpcron-redis redis-cli --raw SMEMBERS services:worker && " +:+
  "printf '%s\n' '\n== service leases and handler capabilities ==' && " +:+
  "for pattern in 'services:rpc:*' 'services:worker:*'; do " +:+
  "for k in $(docker exec corpcron-redis redis-cli --raw KEYS " +:+ DQ +:+ "$pattern" +:+ DQ +:+ "); do " +:+
  "ttl=$(docker exec corpcron-redis redis-cli --raw TTL " +:+ DQ +:+ "$k" +:+ DQ +:+ "); " +:+
  "printf '%s ttl=%s\n' " +:+ DQ +:+ "$k" +:+ DQ +:+ " " +:+ DQ +:+ "$ttl" +:+ DQ +:+ "; " +:+
  "done; done".

Definition mysql_client : string :=
  "docker exec -e MYSQL_PWD=" +:+ DQ +:+ "${CORPCRON_MYSQL_PASSWORD:-corpcron_dev_password}" +:+ DQ +:+ " " +:+
  "corpcron-mysql mysql -ucorpcron corpcron ".

Definition mysql_script : string :=
  "printf '%s\n' '== tasks ==' && " +:+ mysql_client +:+
  "-e " +:+ DQ +:+ "SELECT id,handler,status,current_execution_id,running_node,next_run_at,last_run_at,retry_count " +:+
  "FROM tasks ORDER BY created_at DESC LIMIT 10;" +:+ DQ +:+ " && " +:+
  "printf '%s\n' '\n== task_history ==' && " +:+ mysql_client +:+
  "-e " +:+ DQ +:+ "SELECT execution_id,task_id,exec_node,success,result,error,start_time,end_time " +:+
  "FROM task_history ORDER BY id DESC LIMIT 10;" +:+ DQ.

(** The slots that run a tool. *)
Definition tool_of (s : Slot) : option Tool :=
  match s with
  | onStartDependencies => Some StartDependencies
  | onStopDependencies => Some StopDependencies
  | onResetDependencies => Some ResetDependencies
  | onDemoCheck => Some DemoCheck
  | onCleanDemoData => Some CleanDemoData
  | onRunCheck => Some RunCheck
  | onRunIntegrationCheck => Some RunIntegrationCheck
  | onDockerBuild => Some DockerBuild
  | onShowBenchmarkResult => Some ShowBenchmarkResult
  | onShowDeployDoc => Some (ShowScript deploy_doc_script)
  | onStartMonitoringStack => Some StartMonitoringStack
  | onStopMonitoringStack => Some StopMonitoringStack
  | onShowAlerts => Some ShowAlerts
  | onShowRawMetrics => Some ShowRawMetrics
  | onShowRedisSnapshot => Some (ShowScript redis_script)
  | onShowMySQLSnapshot => Some (ShowScript mysql_script)
  | onBenchmarkShort => Some BenchmarkShort
  | onBenchmarkReuse => Some BenchmarkReuse
  | onDeadlineCancellationDemo => Some DeadlineCancellationDemo
  | onHalfOpenProbeDemo => Some HalfOpenProbeDemo
  | onStreamingStubDemo => Some StreamingStubDemo
  | _ => None
  end.

(** The slots that start or stop a node. *)
Definition starts (s : Slot) : option ClientProcesses.Slot :=
  match s with
  | onStartServer => Some ServerSlot | onStartSecondServer => Some Server2Slot
  | onStartWorker => Some WorkerSlot | onStartSecondWorker => Some Worker2Slot
  | _ => None
  end.
Definition stops (s : Slot) : option ClientProcesses.Slot :=
  match s with
  | onStopServer => Some ServerSlot | onStopSecondServer => Some Server2Slot
  | onStopWorker => Some WorkerSlot | onStopSecondWorker => Some Worker2Slot
  | _ => None
  end.

(** What the nodes are called in the console, what they run and from which file. *)
Definition label (s : ClientProcesses.Slot) : string :=
  match s with
  | ServerSlot => "服务端" | Server2Slot => "二节点" | WorkerSlot => "Worker" | Worker2Slot => "二号 Worker" | ToolSlot => ""
  end.
Definition node_binary (s : ClientProcesses.Slot) : string :=
  match s with ServerSlot | Server2Slot => "corpcron_server" | _ => "corpcron_worker" end.
Definition node_file (s : ClientProcesses.Slot) : string :=
  match s with
  | ServerSlot => "config/server.conf" | Server2Slot => "config/server2.conf"
  | WorkerSlot => "config/worker.conf" | _ => "config/worker2.conf"
  end.

(** The member each process is. *)
Definition process_widget (s : ClientProcesses.Slot) : Widget :=
  match s with
  | ToolSlot => toolProcess | ServerSlot => serverProcess | Server2Slot => server2Process
  | WorkerSlot => workerProcess | Worker2Slot => worker2Process
  end.
Definition process_slot (w : Widget) : option ClientProcesses.Slot :=
  match w with
  | toolProcess => Some ToolSlot | serverProcess => Some ServerSlot | server2Process => Some Server2Slot
  | workerProcess => Some WorkerSlot | worker2Process => Some Worker2Slot
  | _ => None
  end.

Definition exit_text (exit_code : Z) (normal : bool) : string :=
  " exit=" +:+ to_string exit_code +:+ " status=" +:+ (if normal then "正常" else "异常") +:+ LF.

(** ** Handlers *)

(** What comes with a signal: the answer to the question a handler asks, or the
    new state of a box; bytes that came in; how a process ended. *)
Record Arg := mkArg { arg_yes : bool; arg_bytes : string; arg_exit : Z * bool }.

Definition no_arg : Arg := mkArg false "" (0, true).

Section Client.
Context (codec : ClientCodec) (trimmed : string -> string) (write_complete flushed : nat -> bool) (toInt : string -> Z).

(** Whether the socket takes a text for an address: it looks up any other. *)
Context (is_address : string -> bool).

(** [projectRoot]: [exists_file] is [QFileInfo::exists], [up_two] what
    [QDir::cd] finds two directories above a path, [canonical] [canonicalPath]. *)
Context (exists_file : string -> bool) (currentPath applicationDirPath : string) (up_two : string -> option string)
  (canonical : string -> string) (system_env : gmap string string).

Definition projectRoot : string :=
  if exists_file (currentPath +:+ "/scripts/check.sh") then currentPath
  else
    match up_two applicationDirPath with
    | Some dir => if exists_file (dir +:+ "/scripts/check.sh") then canonical dir else currentPath
    | None => currentPath
    end.

(** [runTool] with its text; [yes] answers the question asked first, if any. *)
Definition run_tool (t : Tool) (yes : bool) (c : Client) : Client :=
  if asks_first t && negb yes then c
  else
    let '(program, arguments) := tool_command t (cl_desk c) in
    on_desk (runTool trimmed projectRoot system_env program arguments)
      (appendToolOutput
         (if negb (idle (cl_desk c) ToolSlot) then "[已有工具命令正在运行]" +:+ LF
          else LF +:+ "$ " +:+ program +:+ " " +:+ String.concat " " arguments +:+ LF) c).

(** [startNodeProcess] with its text. *)
Definition start_node (s : ClientProcesses.Slot) (c : Client) : Client :=
  let text :=
    if negb (idle (cl_desk c) s) then "[" +:+ label s +:+ " 已在运行]" +:+ LF
    else
      LF +:+ "$ ./build/" +:+ node_binary s +:+ " --config " +:+ node_file s +:+ LF +:+
      (if str_empty (trimmed (authToken (win c))) then "" else "[env] CORPCRON_RPC_AUTH_TOKEN=<configured>" +:+ LF) in
  on_desk (startNodeProcess trimmed projectRoot system_env s (node_binary s) (node_file s)) (appendToolOutput text c).

(** The stop buttons; only one label is set off by a blank. *)
Definition stop_node (s : ClientProcesses.Slot) (c : Client) : Client :=
  let name := match s with WorkerSlot => " " +:+ label s | _ => label s end in
  let text := if idle (cl_desk c) s then "[当前 Qt 客户端没有启动" +:+ name +:+ "]" +:+ LF
              else "[正在停止" +:+ name +:+ "]" +:+ LF in
  on_desk (onStopNode s) (appendToolOutput text c).

(** One frame: [handleFrame], with what [populateTasks] and [populateHistory]
    do to the page buttons and the detail view. *)
Definition shows_tasks (f : Z * string) : bool :=
  (f.1 =? kListTasksResponseSerialId)%Z &&
  match parse_tasks_response codec f.2 with Some r => tr_success r | None => false end.
Definition shows_history (f : Z * string) : bool :=
  (f.1 =? kListHistoryResponseSerialId)%Z &&
  match parse_history_response codec f.2 with Some r => hr_success r | None => false end.

Definition handle_frame (c : Client) (f : Z * string) : Client :=
  let c := on_window (handleFrame codec trimmed write_complete f.1 f.2) c in
  if shows_tasks f then on_desk updateTaskPaginationUi c
  else if shows_history f then
    let rows := length (mw_history (win c)) in
    on_desk updateHistoryPaginationUi
      (set_detail (keep_selected rows (cl_history_row c)) (if decide (rows = 0%nat) then "" else cl_detail c) c)
  else c.

Definition read_all (bytes : string) (c : Client) : Client :=
  let '(fs, rest, bad) := frames (mw_recvBuffer (win c) +:+ bytes) in
  let c := foldl handle_frame c fs in
  if bad then on_window (fun w => disconnectFromHost flushed (set_recvBuffer "" w)) c else on_window (set_recvBuffer rest) c.

(** The slots. *)
Definition invoke (s : Slot) (a : Arg) (c : Client) : Client :=
  let fm := cl_form c in
  match tool_of s, starts s, stops s with
  | Some t, _, _ => run_tool t (arg_yes a) c
  | _, Some n, _ => start_node n c
  | _, _, Some n => stop_node n c
  | None, None, None =>
      match s with
      | onConnect => on_desk updateUiState (on_window (ClientWindow.onConnect (is_address (dk_host (cl_desk c)))) c)
      | onDisconnect => on_desk updateUiState (on_window (ClientWindow.onDisconnect flushed) c)
      | onEcho => on_window (ClientWindow.onEcho codec write_complete (fm_echo fm)) c
      | onHealthCheck => on_window (ClientWindow.onHealthCheck codec write_complete) c
      | onStreamMetrics => on_window (ClientWindow.onStreamMetrics codec write_complete (fm_samples fm)) c
      | onSubmit => on_window (ClientWindow.onSubmit codec write_complete (fm_cron fm) (fm_handler fm) (fm_params fm)) c
      | onCancelTask => on_window (ClientWindow.onCancelTask codec trimmed write_complete) c
      | onUpdateTask => on_window (ClientWindow.onUpdateTask codec trimmed write_complete) c
      | onEnableSelectedTask => on_window (ClientWindow.onEnableSelectedTask codec trimmed write_complete) c
      | onDisableSelectedTask => on_window (ClientWindow.onDisableSelectedTask codec trimmed write_complete) c
      | onDeleteSelectedTask => on_window (ClientWindow.onDeleteSelectedTask codec trimmed write_complete (arg_yes a)) c
      | onRunSelectedTaskNow => on_window (ClientWindow.onRunSelectedTaskNow codec trimmed write_complete) c
      | onRefreshTasks => on_window (ClientWindow.onRefreshTasks codec trimmed write_complete) c
      | onTaskFilterChanged =>
          on_desk updateTaskPaginationUi (on_window (ClientWindow.onTaskFilterChanged codec trimmed write_complete) c)
      | onPrevTasksPage => on_window (ClientWindow.onPrevTasksPage codec trimmed write_complete) c
      | onNextTasksPage => on_window (ClientWindow.onNextTasksPage codec trimmed write_complete) c
      | onRefreshHistory => on_window (ClientWindow.onRefreshHistory codec trimmed write_complete) c
      | onHistoryFilterChanged =>
          on_desk updateHistoryPaginationUi (on_window (ClientWindow.onHistoryFilterChanged codec trimmed write_complete) c)
      | onPrevHistoryPage => on_window (ClientWindow.onPrevHistoryPage codec trimmed write_complete) c
      | onNextHistoryPage => on_window (ClientWindow.onNextHistoryPage codec trimmed write_complete) c
      | onRefreshServices => on_window (ClientWindow.onRefreshServices codec trimmed write_complete) c
      | onRefreshMetrics => on_window (ClientWindow.onRefreshMetrics codec write_complete) c
      | onOpenPrometheus => appendToolOutput ("[打开] http://127.0.0.1:9090" +:+ LF) (openUrl "http://127.0.0.1:9090" c)
      | onOpenAlertmanager => appendToolOutput ("[打开] http://127.0.0.1:9093" +:+ LF) (openUrl "http://127.0.0.1:9093" c)
      | onOpenGrafana =>
          appendToolOutput ("[打开] http://127.0.0.1:3000 admin/admin" +:+ LF) (openUrl "http://127.0.0.1:3000" c)
      | onAuthFailureTest => on_window (ClientWindow.onAuthFailureTest codec write_complete) c
      | onUnknownRpcTest => on_window (ClientWindow.onUnknownRpcTest write_complete) c
      | onBadFrameTest =>
          let r := ClientWindow.onBadFrameTest (win c) in
          add_wire r.1 (on_window (fun w => (ClientWindow.onBadFrameTest w).2) c)
      | onTaskSelectionChanged =>
          on_window (fun w => match mw_selected w with Some row => select_cells toInt row w | None => w end) c
      | onHistorySelectionChanged =>
          match cl_history_row c with
          | Some row => set_detail (Some row) (history_detail row (win c)) c
          | None => c
          end
      | onAutoRefreshChanged => set_auto (cl_auto c) (arg_yes a) c
      | onAutoRefreshTick => on_window (ClientWindow.onAutoRefreshTick codec trimmed write_complete) c
      | onReadyRead => read_all (arg_bytes a) c
      | onSocketConnected =>
          on_window (refresh_all codec trimmed write_complete) (on_desk updateUiState c)
      | onSocketDisconnected | onSocketError => on_desk updateUiState c
      | _ => c
      end
  end.

(** What a signal or a menu entry is connected to. *)
Definition run_handler (a : Arg) (c : Client) (h : Handler) : Client :=
  match h with
  | Runs s => invoke s a c
  | CloseWindow => set_closed c
  | ClearLog => c
  | ShowOutput _ => appendToolOutput (arg_bytes a) c
  | ToolFinished =>
      on_desk updateUiState
        (appendToolOutput (LF +:+ "[工具结束]" +:+ exit_text (arg_exit a).1 (arg_exit a).2) c)
  | NodeStarted p =>
      on_desk updateUiState
        (appendToolOutput ("[" +:+ from_option label "" (process_slot p) +:+ "已启动]" +:+ LF) c)
  | NodeFinished p =>
      on_desk updateUiState
        (appendToolOutput (LF +:+ "[" +:+ from_option label "" (process_slot p) +:+ "已退出]" +:+
           exit_text (arg_exit a).1 (arg_exit a).2) c)
  end.

(** A signal runs what the constructor connected to it. *)
Definition emit (w : Widget) (signal : string) (a : Arg) (c : Client) : Client :=
  foldl (run_handler a) c (connected_to (Own w) signal construct).

(** ** What happens *)

(** What the user enters, by the widget. *)
Inductive Entry :=
| Host (s : string) | Port (n : Z) | Token (s : string) | EchoText (s : string) | Samples (n : Z)
| SubmitCron (s : string) | SubmitHandler (s : string) | SubmitParams (s : string)
| CancelId (s : string) | HistoryId (s : string) | TaskKeyword (s : string) | HistoryKeyword (s : string)
| ServiceName (s : string) | EditCron (s : string) | EditHandler (s : string) | EditParams (s : string)
| EditRetries (n : Z) | BenchConcurrency (n : Z) | BenchRequests (n : Z)
| EnabledOnly (b : bool) | StatusFilter (n : Z) | TaskPageSize (n : Z) | SuccessFilter (n : Z) | HistoryPageSize (n : Z)
| AutoRefresh (b : bool).

(** The widget, and the signal its change emits. *)
Definition entry_signal (e : Entry) : Widget * string :=
  match e with
  | Host _ => (hostEdit, "textChanged") | Port _ => (portSpin, "valueChanged") | Token _ => (tokenEdit, "textChanged")
  | EchoText _ => (echoEdit, "textChanged") | Samples _ => (streamSamplesSpin, "valueChanged")
  | SubmitCron _ => (cronEdit, "textChanged") | SubmitHandler _ => (handlerEdit, "textChanged")
  | SubmitParams _ => (paramsEdit, "textChanged") | CancelId _ => (cancelTaskIdEdit, "textChanged")
  | HistoryId _ => (historyTaskIdEdit, "textChanged") | TaskKeyword _ => (taskKeywordEdit, "textChanged")
  | HistoryKeyword _ => (historyKeywordEdit, "textChanged") | ServiceName _ => (serviceNameEdit, "textChanged")
  | EditCron _ => (editCronEdit, "textChanged") | EditHandler _ => (editHandlerEdit, "textChanged")
  | EditParams _ => (editParamsEdit, "textChanged") | EditRetries _ => (editMaxRetriesSpin, "valueChanged")
  | BenchConcurrency _ => (benchConcurrencySpin, "valueChanged") | BenchRequests _ => (benchRequestsSpin, "valueChanged")
  | EnabledOnly _ => (enabledOnlyCheck, "toggled") | StatusFilter _ => (taskStatusCombo, "currentIndexChanged")
  | TaskPageSize _ => (taskPageSizeSpin, "valueChanged") | SuccessFilter _ => (historySuccessCombo, "currentIndexChanged")
  | HistoryPageSize _ => (historyLimitSpin, "valueChanged") | AutoRefresh _ => (autoRefreshCheck, "toggled")
  end.

(** The numbers a spin box takes, and the choices of a combo box. *)
Definition in_range (w : Widget) (n : Z) : bool :=
  match ranges w construct with [(lo, hi)] => (lo <=? n)%Z && (n <=? hi)%Z | _ => false end.
Definition choices (w : Widget) : list Z :=
  omap (fun c => match c with AddItem w' _ n => if Widget_beq w w' then Some n else None | _ => None end) construct.
Definition entry_ok (e : Entry) : bool :=
  let w := (entry_signal e).1 in
  match e with
  | Port n | Samples n | EditRetries n | BenchConcurrency n | BenchRequests n | TaskPageSize n | HistoryPageSize n => in_range w n
  | StatusFilter n | SuccessFilter n => existsb (Z.eqb n) (choices w)
  | _ => true
  end.

Definition set_inputs (i : Inputs) (w : MainWindow) : MainWindow :=
  mkMainWindow (mw_socket w) (mw_recvBuffer w) i (mw_ids w) (mw_tasks_pager w) (mw_history_pager w) (mw_tasks w)
    (mw_selected w) (mw_history w) (mw_services w) (mw_metrics w) (mw_writes w) (mw_sent w).
Definition set_selected (row : option nat) (w : MainWindow) : MainWindow :=
  mkMainWindow (mw_socket w) (mw_recvBuffer w) (mw_inputs w) (mw_ids w) (mw_tasks_pager w) (mw_history_pager w) (mw_tasks w)
    row (mw_history w) (mw_services w) (mw_metrics w) (mw_writes w) (mw_sent w).
Definition set_fields (host : string) (port : Z) (bench : Z * Z) (d : Desk) : Desk :=
  mkDesk (dk_window d) host port bench (dk_state d) (dk_started d) (dk_signalled d) (dk_ui d).
Definition with_size (n : Z) (p : Pager) : Pager := mkPager (pg_offset p) (pg_total p) (pg_limit p) n.

(** The entry itself, before its signal. *)
Definition apply_entry (e : Entry) (c : Client) : Client :=
  let d := cl_desk c in
  let fm := cl_form c in
  let ids := mw_ids (win c) in
  let '(mkInputs tok eo sf tk su hk sn ec eh ep er) := mw_inputs (win c) in
  let inputs := fun i => on_window (set_inputs i) c in
  match e with
  | Host s => set_desk (set_fields s (dk_port d) (dk_bench d) d) c
  | Port n => set_desk (set_fields (dk_host d) n (dk_bench d) d) c
  | BenchConcurrency n => set_desk (set_fields (dk_host d) (dk_port d) (n, (dk_bench d).2) d) c
  | BenchRequests n => set_desk (set_fields (dk_host d) (dk_port d) ((dk_bench d).1, n) d) c
  | EchoText s => set_form (mkForm s (fm_samples fm) (fm_cron fm) (fm_handler fm) (fm_params fm)) c
  | Samples n => set_form (mkForm (fm_echo fm) n (fm_cron fm) (fm_handler fm) (fm_params fm)) c
  | SubmitCron s => set_form (mkForm (fm_echo fm) (fm_samples fm) s (fm_handler fm) (fm_params fm)) c
  | SubmitHandler s => set_form (mkForm (fm_echo fm) (fm_samples fm) (fm_cron fm) s (fm_params fm)) c
  | SubmitParams s => set_form (mkForm (fm_echo fm) (fm_samples fm) (fm_cron fm) (fm_handler fm) s) c
  | CancelId s => on_window (set_ids (mkTaskIds (id_edit ids) s (id_history ids))) c
  | HistoryId s => on_window (set_ids (mkTaskIds (id_edit ids) (id_cancel ids) s)) c
  | Token s => inputs (mkInputs s eo sf tk su hk sn ec eh ep er)
  | EnabledOnly b => inputs (mkInputs tok b sf tk su hk sn ec eh ep er)
  | StatusFilter n => inputs (mkInputs tok eo n tk su hk sn ec eh ep er)
  | TaskKeyword s => inputs (mkInputs tok eo sf s su hk sn ec eh ep er)
  | SuccessFilter n => inputs (mkInputs tok eo sf tk n hk sn ec eh ep er)
  | HistoryKeyword s => inputs (mkInputs tok eo sf tk su s sn ec eh ep er)
  | ServiceName s => inputs (mkInputs tok eo sf tk su hk s ec eh ep er)
  | EditCron s => inputs (mkInputs tok eo sf tk su hk sn s eh ep er)
  | EditHandler s => inputs (mkInputs tok eo sf tk su hk sn ec s ep er)
  | EditParams s => inputs (mkInputs tok eo sf tk su hk sn ec eh s er)
  | EditRetries n => inputs (mkInputs tok eo sf tk su hk sn ec eh ep n)
  | TaskPageSize n => on_window (fun w => set_tasks_pager (with_size n (mw_tasks_pager w)) w) c
  | HistoryPageSize n => on_window (fun w => set_history_pager (with_size n (mw_history_pager w)) w) c
  | AutoRefresh b => set_auto b (cl_timer c) c
  end.

(** What the user does, what the socket and the timer report, and what becomes
    of the processes. *)
Inductive Act :=
| Click (w : Widget) (yes : bool)
| Choose (menu title : string) (yes : bool)
| Enter (e : Entry)
| PressReturn (w : Widget)
| SelectRow (table : Widget) (row : option nat)
| Timeout
(* the name was found, the connection made or not; an error is reported, the
   socket begins to close (for a [disconnectFromHost] while it was connecting,
   or its peer), it is closed; bytes came in *)
| HostFound | SocketConnected | SocketFailed | SocketError | SocketClosing | SocketClosed | Received (bytes : string)
| ProcessStarted (s : ClientProcesses.Slot)
| ProcessWrote (s : ClientProcesses.Slot) (text : string)
| ProcessFinished (s : ClientProcesses.Slot) (exit_code : Z) (normal : bool)
| ProcessFailed (s : ClientProcesses.Slot).

(** When it can happen. *)
Definition possible (act : Act) (c : Client) : bool :=
  let d := cl_desk c in
  let socket_is := fun st => bool_decide (mw_socket (win c) = st) in
  let process_is := fun s st => bool_decide (dk_state d s = st) in
  negb (cl_closed c) &&
  match act with
  | Click w _ => String.eqb (declared w) "QPushButton" && enabled w (dk_ui d)
  | Choose _ _ _ => true
  | Enter e => entry_ok e
  | PressReturn w => String.eqb (declared w) "QLineEdit"
  | SelectRow table row =>
      existsb (Widget_beq table) [tasksTable; historyTable] &&
      match row with Some n => bool_decide (n < length (table_cells table (win c)))%nat | None => true end
  | Timeout => cl_timer c
  | HostFound => socket_is HostLookup
  | SocketConnected => socket_is Connecting
  | SocketFailed => socket_is HostLookup || socket_is Connecting
  | SocketError | SocketClosing | Received _ => socket_is Connected
  | SocketClosed => socket_is Connected || socket_is Closing
  | ProcessStarted s | ProcessFailed s => process_is s Starting
  | ProcessWrote s _ | ProcessFinished s _ _ => process_is s Running
  end.

Definition menu_handlers (menu title : string) : list Handler :=
  omap (fun c => match c with
    | AddAction m t h => if String.eqb m menu && String.eqb t title then Some h else None
    | _ => None
    end) construct.

Definition yes_arg (yes : bool) : Arg := mkArg yes "" (0, true).

Definition socket_becomes (st : SocketState) (c : Client) : Client :=
  on_desk (fun d => set_window (set_socket st (dk_window d)) d) c.

(** What it does. *)
Definition perform (act : Act) (c : Client) : Client :=
  match act with
  | Click w yes => emit w "clicked" (yes_arg yes) c
  | Choose menu title yes => foldl (run_handler (yes_arg yes)) c (menu_handlers menu title)
  | Enter e =>
      emit (entry_signal e).1 (entry_signal e).2 (yes_arg (match e with AutoRefresh b => b | _ => false end)) (apply_entry e c)
  | PressReturn w => emit w "returnPressed" no_arg c
  | SelectRow table row =>
      emit table "itemSelectionChanged" no_arg
        (if Widget_beq table tasksTable then on_window (set_selected row) c else set_detail row (cl_detail c) c)
  | Timeout => emit autoRefreshTimer "timeout" no_arg c
  | HostFound => emit socket "hostFound" no_arg (socket_becomes Connecting c)
  | SocketConnected => emit socket "connected" no_arg (socket_becomes Connected c)
  | SocketFailed => emit socket "errorOccurred" no_arg (socket_becomes Unconnected c)
  | SocketError => emit socket "errorOccurred" no_arg c
  | SocketClosing => emit socket "stateChanged" no_arg (socket_becomes Closing c)
  | SocketClosed => emit socket "disconnected" no_arg (socket_becomes Unconnected c)
  | Received bytes => emit socket "readyRead" (mkArg false bytes (0, true)) c
  | ProcessStarted s => emit (process_widget s) "started" no_arg (on_desk (set_state s Running) c)
  | ProcessWrote s text => emit (process_widget s) "readyReadStandardOutput" (mkArg false text (0, true)) c
  | ProcessFinished s code normal =>
      emit (process_widget s) "finished" (mkArg false "" (code, normal)) (add_ended s (on_desk (set_state s NotRunning) c))
  | ProcessFailed s => emit (process_widget s) "errorOccurred" no_arg (add_ended s (on_desk (set_state s NotRunning) c))
  end.

Fixpoint run_acts (acts : list Act) (c : Client) : option Client :=
  match acts with
  | [] => Some c
  | act :: acts' => if possible act c then run_acts acts' (perform act c) else None
  end.

(** The window as the constructor leaves it; [env_token] is what the
    environment holds for the token. *)
Definition new_client (env_token : string) : Client :=
  let inputs := mkInputs env_token false (-1) "" (-1) "" "worker" "" "" "" 3 in
  let w := mkMainWindow Unconnected "" inputs (mkTaskIds "" "" "") new_pager new_pager [] None [] [] None 0 [] in
  let nothing := mkUi false false false false false false false false (fun _ => false) (fun _ => false) in
  mkClient (new_desk w "127.0.0.1" 8081 (16, 1000)%Z nothing) (mkForm "hello" 3 "* * * * * ?" "Echo" "") false false None ""
    [] "" [] [] false.

(** ** Whatever happens, the client is consistent *)

(** What the buttons of the connection ([connect]; the other one is its
    opposite) and of the requests show of the socket.  Nothing tells the window
    that a name was found, so that while it connects either may be enabled; a
    socket that closes shows as connected or as closed. *)
Definition buttons_of (st : SocketState) (connect requests : bool) : Prop :=
  match st with
  | Unconnected | HostLookup => connect = true /\ requests = false
  | Connecting => requests = false
  | Connected => connect = false /\ requests = true
  | Closing => requests = negb connect
  end.

Definition connection_shown (d : Desk) : Prop :=
  let st := mw_socket (dk_window d) in
  ui_disconnect (dk_ui d) = negb (ui_connect (dk_ui d)) /\
  buttons_of st (ui_connect (dk_ui d)) (ui_requests (dk_ui d)) /\
  (ui_prev_tasks (dk_ui d) || ui_next_tasks (dk_ui d) || ui_prev_history (dk_ui d) || ui_next_history (dk_ui d) = true ->
   st = Connected \/ st = Closing).

Definition times (s : ClientProcesses.Slot) (l : list ClientProcesses.Slot) : nat :=
  length (filter (fun s' => s' = s) l).

(** Every process started has ended, but for the one that runs. *)
Definition one_each (d : Desk) (ended : list ClientProcesses.Slot) : Prop :=
  forall s, times s (map fst (dk_started d)) = (times s ended + if idle d s then 0 else 1)%nat.

(** [failed]: some process could not be started. *)
Record consistent (failed : bool) (c : Client) : Prop := mkConsistent {
  cs_connection : connection_shown (cl_desk c);
  cs_timer : cl_timer c = cl_auto c;
  cs_processes : one_each (cl_desk c) (cl_ended c);
  cs_buttons : failed = false -> truthful (cl_desk c)
}.

(** A change of the window that connects nothing. *)
Definition calm (w w' : MainWindow) : Prop :=
  mw_socket w' = mw_socket w \/ mw_socket w' = Unconnected \/ mw_socket w = Connected /\ mw_socket w' = Closing.

#[local] Instance calm_preorder : PreOrder calm.
Proof.
  split; [by left|]. intros w1 w2 w3. unfold calm.
  destruct (mw_socket w1), (mw_socket w2), (mw_socket w3); naive_solver.
Qed.

Lemma update_connection_shown d : connection_shown (updateUiState d).
Proof.
  unfold connection_shown. cbn. destruct (mw_socket (dk_window d)); split_and!; try done; auto; intros H; exfalso;
    by repeat (apply orb_true_iff in H as [H|H] || done).
Qed.

Lemma calm_disconnect w : calm w (disconnectFromHost flushed w).
Proof.
  unfold disconnectFromHost, calm. destruct (mw_socket w) eqn:E; auto. cbn. destruct (flushed (mw_writes w)); auto.
Qed.

Lemma calm_send serial_id payload w : calm w (send write_complete serial_id payload w).
Proof.
  unfold send, sendFrame. case_bool_decide as Hc; cbn [negb]; [|by left].
  destruct (tryEncode serial_id payload); [|by left]. unfold calm. cbn. destruct (write_complete (mw_writes w)); auto.
Qed.

(** After a change of other fields. *)
Lemma calm_send_after serial_id payload w w' : mw_socket w' = mw_socket w -> calm w (send write_complete serial_id payload w').
Proof. intros H. transitivity w'; [by left|apply calm_send]. Qed.

Lemma calm_RefreshTasks w : calm w (ClientWindow.onRefreshTasks codec trimmed write_complete w).
Proof. by apply calm_send_after. Qed.
Lemma calm_RefreshHistory w : calm w (ClientWindow.onRefreshHistory codec trimmed write_complete w).
Proof. by apply calm_send_after. Qed.
Lemma calm_refresh_all w : calm w (refresh_all codec trimmed write_complete w).
Proof.
  unfold refresh_all. etransitivity; [|apply calm_send]. etransitivity; [|apply calm_RefreshHistory].
  etransitivity; [|apply calm_RefreshTasks]. apply calm_send.
Qed.

Lemma calm_handleFrame serial_id payload w : calm w (handleFrame codec trimmed write_complete serial_id payload w).
Proof.
  unfold handleFrame, handle_metrics_frame. repeat case_match; try (by left); try apply calm_RefreshTasks;
    try (by apply calm_send_after).
  etransitivity; [apply calm_RefreshHistory|apply calm_RefreshTasks].
Qed.

Lemma consistent_update b c : cl_timer c = cl_auto c -> one_each (cl_desk c) (cl_ended c) ->
  consistent b (on_desk updateUiState c).
Proof. intros Ht Hp. constructor; [apply update_connection_shown|done|done|done]. Qed.

Lemma consistent_again b c : consistent b c -> consistent b (on_desk updateUiState c).
Proof. intros [? ? ? ?]. by apply consistent_update. Qed.

Lemma consistent_window b f c : consistent b c -> calm (win c) (f (win c)) -> consistent b (on_window f c).
Proof.
  intros [Hc Ht Hp Hb] Hq. unfold on_window. cbv zeta. destruct (dropped (win c) (f (win c))) eqn:E.
  { by apply consistent_update. }
  constructor; [|done|done|done]. destruct Hc as (Hd & Hu & Hn).
  assert (Hs : mw_socket (f (win c)) = mw_socket (win c) \/ mw_socket (win c) = Connected /\ mw_socket (f (win c)) = Closing).
  { destruct Hq as [?|[Hq|?]]; [by left| |by right]. left. rewrite Hq. unfold dropped in E.
    rewrite Hq, (bool_decide_true (Unconnected = Unconnected)), andb_true_r in E by done. by case_bool_decide. }
  unfold connection_shown, win in *. cbn -[buttons_of]. split; [done|].
  destruct Hs as [Hs|[Hw Hs]]; rewrite Hs; [by split|]. rewrite Hw in Hu. destruct Hu as [-> ->]. cbn. auto.
Qed.

(** [s] idle is started. *)
Lemma times_cons s s' l : times s (s' :: l) = ((if decide (s' = s) then 1 else 0) + times s l)%nat.
Proof. unfold times. rewrite filter_cons. by destruct (decide (s' = s)). Qed.

Lemma one_each_start s cmd d ended : one_each d ended -> idle d s = true -> one_each (start_process s cmd d) ended.
Proof.
  intros H Hi s'. cbn [start_process dk_started map fst]. rewrite times_cons, H. unfold idle, start_process, upd. cbn [dk_state].
  destruct (decide (s = s')) as [->|Hn].
  - rewrite decide_True by done. unfold idle in Hi. rewrite Hi, (bool_decide_false (Starting = NotRunning)) by done. lia.
  - by rewrite decide_False by congruence.
Qed.

Lemma consistent_run_tool b t yes c : consistent b c -> consistent b (run_tool t yes c).
Proof.
  intros [Hc Ht Hp Hb]. unfold run_tool. destruct (asks_first t && negb yes); [done|].
  destruct (tool_command t (cl_desk c)) as [program arguments].
  unfold runTool, on_desk. cbn [appendToolOutput cl_desk].
  destruct (idle (cl_desk c) ToolSlot) eqn:E; cbn [negb]; [|done].
  constructor; [apply update_connection_shown|done| |done]. exact (one_each_start _ _ _ _ Hp E).
Qed.

Lemma consistent_start_node b s c : consistent b c -> consistent b (start_node s c).
Proof.
  intros [Hc Ht Hp Hb]. unfold start_node, startNodeProcess, on_desk. cbn [appendToolOutput cl_desk].
  destruct (idle (cl_desk c) s) eqn:E; cbn [negb]; [|done].
  constructor; [apply update_connection_shown|done| |done]. exact (one_each_start _ _ _ _ Hp E).
Qed.

Lemma consistent_stop_node b s c : consistent b c -> consistent b (stop_node s c).
Proof.
  intros [Hc Ht Hp Hb]. unfold stop_node, onStopNode, on_desk. cbn [appendToolOutput cl_desk].
  by destruct (idle (cl_desk c) s).
Qed.

(** The page buttons are set while connected only. *)
Lemma pages_need_connection p w : ui_prev (pagination_ui p w) || ui_next (pagination_ui p w) = true -> mw_socket w = Connected.
Proof. cbn. by case_bool_decide. Qed.

Lemma consistent_task_pages b c : consistent b c -> consistent b (on_desk updateTaskPaginationUi c).
Proof.
  intros [(H1 & H2 & H4) Ht Hp Hb]. constructor; [|done|done|done]. split_and!; [done..|]. intros H.
  apply orb_true_iff in H as [H|H]; [apply orb_true_iff in H as [H|H]|]; [left; exact (pages_need_connection _ _ H)|apply H4..];
    cbn in H; rewrite H; by rewrite ?orb_true_r.
Qed.

Lemma consistent_history_pages b c : consistent b c -> consistent b (on_desk updateHistoryPaginationUi c).
Proof.
  intros [(H1 & H2 & H4) Ht Hp Hb]. constructor; [|done|done|done]. split_and!; [done..|]. intros H.
  rewrite <- orb_assoc in H. apply orb_true_iff in H as [H|H]; [apply H4|left; exact (pages_need_connection _ _ H)].
  cbn in H. by rewrite H.
Qed.

(** Changes of nothing that [consistent] is about. *)
Lemma consistent_same b c c' : consistent b c -> cl_desk c' = cl_desk c -> cl_timer c' = cl_timer c -> cl_auto c' = cl_auto c ->
  cl_ended c' = cl_ended c -> consistent b c'.
Proof. intros [? ? ? ?] H1 H2 H3 H4. by constructor; rewrite ?H1, ?H2, ?H3, ?H4. Qed.

Lemma consistent_handle_frame b c f : consistent b c -> consistent b (handle_frame c f).
Proof.
  intros H. unfold handle_frame. cbv zeta.
  pose proof (consistent_window b (handleFrame codec trimmed write_complete f.1 f.2) c H (calm_handleFrame _ _ _)) as H'.
  destruct (shows_tasks f); [by apply consistent_task_pages|]. destruct (shows_history f); [|done].
  apply consistent_history_pages. by eapply consistent_same.
Qed.

Lemma consistent_read_all b bytes c : consistent b c -> consistent b (read_all bytes c).
Proof.
  intros H. unfold read_all. destruct (frames _) as [[fs rest] bad].
  assert (H' : consistent b (foldl handle_frame c fs)).
  { revert c H. induction fs as [|f fs IH]; intros c H; [done|]. apply IH. by apply consistent_handle_frame. }
  destruct bad; apply consistent_window; [done| |done|by left].
  transitivity (set_recvBuffer "" (win (foldl handle_frame c fs))); [by left|apply calm_disconnect].
Qed.

Lemma calm_select row w : calm w (select_cells toInt row w).
Proof. unfold select_cells. by destruct (item tasksTable row 0 w); left. Qed.

Lemma calm_send_task_id serial_id id w : calm w (send_task_id codec write_complete serial_id id w).
Proof. unfold send_task_id. case_match; [done|apply calm_send]. Qed.

(** What a change of the window leaves is consistent once it is shown. *)
Lemma consistent_shown b f c : consistent b c -> consistent b (on_desk updateUiState (on_window f c)).
Proof. intros [? ? ? ?]. unfold on_window. by case_match; apply consistent_update. Qed.

Create HintDb calm.
#[local] Hint Resolve calm_send calm_send_after calm_RefreshTasks calm_RefreshHistory calm_refresh_all calm_select
  calm_send_task_id : calm.
#[local] Hint Extern 2 (calm _ _) => by left : calm.

(** The requests that look at a field first, filters and pages. *)
Ltac calm_slot :=
  unfold ClientWindow.onEcho, ClientWindow.onSubmit, ClientWindow.onCancelTask, ClientWindow.onUpdateTask,
    ClientWindow.onEnableSelectedTask, ClientWindow.onDisableSelectedTask, ClientWindow.onDeleteSelectedTask,
    ClientWindow.onRunSelectedTaskNow, ClientWindow.onTaskFilterChanged, ClientWindow.onHistoryFilterChanged,
    ClientWindow.onNextTasksPage, ClientWindow.onNextHistoryPage, ClientWindow.onBadFrameTest,
    ClientWindow.onAutoRefreshTick, set_enabled;
  repeat case_match; auto with calm; by apply calm_send_after.

(** Every slot but the one of the box, which sets the timer. *)
Lemma consistent_invoke b s a c : s <> onAutoRefreshChanged -> consistent b c -> consistent b (invoke s a c).
Proof.
  intros Hs H. unfold invoke. cbv zeta.
  destruct (tool_of s); [by apply consistent_run_tool|]. destruct (starts s); [by apply consistent_start_node|].
  destruct (stops s); [by apply consistent_stop_node|].
  destruct s; try done; try (by apply consistent_again); try (by eapply consistent_same); try (by apply consistent_shown);
    try (apply consistent_window; [exact H|]; first [apply calm_send | by apply calm_send_after]).
  all: try (apply consistent_window; [done|]; solve [calm_slot]).
  - apply consistent_task_pages, consistent_window; [done|calm_slot].
  - apply consistent_history_pages, consistent_window; [done|calm_slot].
  - apply (consistent_same b (on_window (fun w => (ClientWindow.onBadFrameTest w).2) c)); [apply consistent_window; [done|calm_slot]|done..].
  - case_match; [by eapply consistent_same|done].
  - by apply consistent_read_all.
  - apply consistent_window; [by apply consistent_again|auto with calm].
Qed.

Lemma consistent_handler b a c h : h <> Runs onAutoRefreshChanged -> consistent b c -> consistent b (run_handler a c h).
Proof.
  intros Hh H. destruct h; cbn [run_handler]; try (by eapply consistent_same).
  - apply consistent_invoke; [congruence|done].
  - apply consistent_again. by eapply consistent_same.
  - apply consistent_again. by eapply consistent_same.
  - apply consistent_again. by eapply consistent_same.
Qed.

Lemma consistent_handlers b a hs c : Forall (fun h => h <> Runs onAutoRefreshChanged) hs -> consistent b c ->
  consistent b (foldl (run_handler a) c hs).
Proof. intros Hh. revert c. induction Hh as [|h hs Hh _ IH]; intros c H; [done|]. by apply IH, consistent_handler. Qed.

(** Only the box is connected to the slot that sets the timer. *)
Definition sets_timer (c : Call) : bool :=
  match c with
  | Connect o _ (Runs onAutoRefreshChanged) => negb (Obj_eqb o (Own autoRefreshCheck))
  | AddAction _ _ (Runs onAutoRefreshChanged) => true
  | _ => false
  end.

Lemma only_the_box : existsb sets_timer construct = false.
Proof. vm_compute. reflexivity. Qed.

Lemma not_the_timer_slot f : (forall call, f call = Some (Runs onAutoRefreshChanged) -> sets_timer call = true) ->
  Forall (fun h => h <> Runs onAutoRefreshChanged) (omap f construct).
Proof.
  intros Hf. apply Forall_forall. intros h Hh ->. apply list_elem_of_omap in Hh as (call & Hc & Hfc).
  pose proof only_the_box as Hb. apply not_true_iff_false in Hb. apply Hb, existsb_exists. exists call.
  split; [by apply list_elem_of_In|by apply Hf].
Qed.

Lemma consistent_emit b w signal a c : Widget_beq w autoRefreshCheck = false -> consistent b c -> consistent b (emit w signal a c).
Proof.
  intros Hw. apply consistent_handlers, not_the_timer_slot. intros call H.
  destruct call as [| | | | | | | | | | | | | | | |o signal' h| |]; try done.
  destruct (Obj_eqb (Own w) o && String.eqb signal signal') eqn:E; [|done]. injection H as ->.
  apply andb_true_iff in E as [E _]. destruct o as [v| |]; [|done..]. destruct v; try done. cbn in E. congruence.
Qed.

Lemma consistent_menu b menu title a c : consistent b c -> consistent b (foldl (run_handler a) c (menu_handlers menu title)).
Proof.
  apply consistent_handlers, not_the_timer_slot. intros call H.
  destruct call as [| | | | | | | | | | | | | | |m t h| | |]; try done.
  destruct (String.eqb m menu && String.eqb t title); [|done]. by injection H as ->.
Qed.

(** Looks up what a signal is connected to. *)
Ltac wired :=
  match goal with |- context [connected_to ?o ?signal construct] =>
    let hs := eval vm_compute in (connected_to o signal construct) in
    replace (connected_to o signal construct) with hs by (vm_compute; reflexivity)
  end.

(** The entries, and the box. *)
Lemma consistent_entry b e c : consistent b c -> consistent b (perform (Enter e) c).
Proof.
  intros H. cbn [perform]. unfold apply_entry. destruct (mw_inputs (win c)) eqn:Ei.
  destruct e; cbn [entry_signal fst snd];
    try (apply consistent_emit; [done|]; first [by eapply consistent_same|apply consistent_window; [exact H|by left]]);
    try (apply consistent_emit; [done|]; destruct H as [? ? ? ?]; by constructor).
  unfold emit. wired. destruct H as [? ? ? ?]. by constructor.
Qed.

(** A process that runs ends. *)
Lemma one_each_end s d ended : one_each d ended -> idle d s = false -> one_each (set_state s NotRunning d) (s :: ended).
Proof.
  intros H Hi s'. rewrite times_cons, idle_set_state. cbn [set_state dk_started]. rewrite H.
  destruct (decide (s' = s)) as [->|Hn]; [rewrite Hi, decide_True, (bool_decide_true (NotRunning = NotRunning)) by done; lia|by rewrite (decide_False (P := s = s')) by congruence].
Qed.

Lemma consistent_running b s c : dk_state (cl_desk c) s = Starting -> consistent b c -> consistent b (on_desk (set_state s Running) c).
Proof.
  intros Hs [Hc Ht Hp Hb].
  assert (Hi : forall s', idle (set_state s Running (cl_desk c)) s' = idle (cl_desk c) s').
  { intros s'. rewrite idle_set_state. destruct (decide (s' = s)) as [->|]; [|done]. unfold idle. by rewrite Hs. }
  constructor; [done|done| |].
  - intros s'. cbn [on_desk set_desk cl_desk]. rewrite Hi. apply Hp.
  - intros Hf. destruct (Hb Hf) as [H1 H2]. split; [by cbn [on_desk set_desk cl_desk]; rewrite Hi|].
    intros s'. cbn [on_desk set_desk cl_desk]. rewrite Hi. apply H2.
Qed.

Definition is_failure (act : Act) : bool := match act with ProcessFailed _ => true | _ => false end.

Lemma consistent_finished b s a c : dk_state (cl_desk c) s = Running -> consistent b c ->
  consistent b (emit (process_widget s) "finished" a (add_ended s (on_desk (set_state s NotRunning) c))).
Proof.
  intros Hs [Hc Ht Hp Hb]. assert (Hi : idle (cl_desk c) s = false) by (unfold idle; by rewrite Hs).
  pose proof (one_each_end _ _ _ Hp Hi) as He. unfold emit.
  destruct s; cbn [process_widget]; wired; by apply consistent_update.
Qed.

Lemma consistent_failed b s a c : dk_state (cl_desk c) s = Starting -> consistent b c ->
  consistent true (emit (process_widget s) "errorOccurred" a (add_ended s (on_desk (set_state s NotRunning) c))).
Proof.
  intros Hs [Hc Ht Hp Hb]. assert (Hi : idle (cl_desk c) s = false) by (unfold idle; by rewrite Hs).
  pose proof (one_each_end _ _ _ Hp Hi) as He. apply consistent_emit; [by destruct s|]. by constructor.
Qed.

(** The window hears of a socket that is connected or closed, ... *)
Lemma consistent_socket b st a c signal :
  (st = Connected /\ signal = "connected") \/ (st = Unconnected /\ (signal = "errorOccurred" \/ signal = "disconnected")) ->
  consistent b c -> consistent b (emit socket signal a (socket_becomes st c)).
Proof.
  intros Hs [Hc Ht Hp Hb]. unfold emit.
  destruct Hs as [[-> ->]|[-> [-> | ->]]]; wired; [|by apply consistent_update..].
  cbn [foldl run_handler]. apply consistent_window; [by apply consistent_update|auto with calm].
Qed.

(** ... and not of one that connects or closes. *)
Lemma consistent_unheard b st a c signal :
  (mw_socket (win c) = HostLookup /\ st = Connecting) \/ (mw_socket (win c) = Connected /\ st = Closing) ->
  consistent b c -> consistent b (emit socket signal a (socket_becomes st c)).
Proof.
  intros Hs [(Hd & Hu & Hn) Ht Hp Hb]. apply consistent_emit; [done|]. constructor; [|done|done|done].
  split; [done|]. destruct Hs as [[Hw ->]|[Hw ->]]; unfold win in Hw; rewrite Hw in *; cbn; (split; [|naive_solver]).
  - apply Hu.
  - by destruct Hu as [-> ->].
Qed.

Lemma consistent_perform b act c : possible act c = true -> consistent b c -> consistent (b || is_failure act) (perform act c).
Proof.
  intros Hp H. unfold possible in Hp. apply andb_true_iff in Hp as [_ Hp].
  destruct act as [w yes| |e|w|table row| | | | | | | |bytes|s|s text|s code normal|s]; cbn [is_failure]; rewrite ?orb_false_r, ?orb_true_r.
  - apply andb_true_iff in Hp as [Hp _]. apply consistent_emit; [by destruct w|done].
  - by apply consistent_menu.
  - by apply consistent_entry.
  - apply consistent_emit; [by destruct w|done].
  - apply andb_true_iff in Hp as [Hp _]. apply consistent_emit; [by destruct table|].
    case_match; [apply consistent_window; [done|by left]|by eapply consistent_same].
  - by apply consistent_emit.
  - apply bool_decide_eq_true in Hp. apply consistent_unheard; [by left|done].
  - apply consistent_socket; [by left|done].
  - apply consistent_socket; [right; auto|done].
  - by apply consistent_emit.
  - apply bool_decide_eq_true in Hp. apply consistent_unheard; [by right|done].
  - apply consistent_socket; [right; auto|done].
  - by apply consistent_emit.
  - apply bool_decide_eq_true in Hp. apply consistent_emit; [by destruct s|by apply consistent_running].
  - apply consistent_emit; [by destruct s|done].
  - apply bool_decide_eq_true in Hp. by apply consistent_finished.
  - apply bool_decide_eq_true in Hp. by apply (consistent_failed b).
Qed.

Lemma consistent_run acts b c c' : consistent b c -> run_acts acts c = Some c' -> consistent (b || existsb is_failure acts) c'.
Proof.
  revert b c. induction acts as [|act acts IH]; intros b c H; cbn [run_acts existsb].
  - intros [= <-]. by rewrite orb_false_r.
  - destruct (possible act c) eqn:E; [|done]. intros Hr. rewrite orb_assoc. apply (IH _ _ (consistent_perform b act c E H) Hr).
Qed.

Lemma new_client_consistent env_token : consistent false (new_client env_token).
Proof. constructor; [apply update_connection_shown|done|intros s; by destruct s|done]. Qed.

(** C28.  The client, from its construction on, whatever the user clicks, chooses,
    enters and selects, whatever the socket reports and whatever becomes of the
    processes: of the connect and disconnect buttons exactly one is enabled, the
    first whenever the socket is unconnected or looks a name up, the second
    whenever it is connected; the request buttons are enabled while it is
    connected, never while it is unconnected, looks a name up or connects, and
    those of the pages only while it is connected or closing; refreshing runs
    exactly while its box is checked; of every process the client starts, menus
    included, at most one is alive, and every other one has ended; and while no
    process failed to start, the buttons of the processes show which ones run. *)
Theorem client_stays_consistent env_token acts c :
  run_acts acts (new_client env_token) = Some c -> consistent (existsb is_failure acts) c.
Proof. intros H. by apply (consistent_run acts false _ _ (new_client_consistent env_token)). Qed.

(** The bytes that come in are read as the window of [ClientWindow] reads them. *)
Lemma win_on_window f c : win (on_window f c) = f (win c).
Proof. unfold on_window. by case_match. Qed.

Lemma win_handle_frame c f : win (handle_frame c f) = handleFrame codec trimmed write_complete f.1 f.2 (win c).
Proof.
  unfold handle_frame. cbv zeta. rewrite <- (win_on_window _ c). destruct (shows_tasks f); [done|]. by destruct (shows_history f).
Qed.

Lemma read_all_window bytes c : win (read_all bytes c) = ClientWindow.onReadyRead codec trimmed write_complete flushed bytes (win c).
Proof.
  rewrite onReadyRead_frames. unfold read_all, after_frames, handle_all. destruct (frames _) as [[fs rest] bad].
  assert (H : win (foldl handle_frame c fs) = foldl (fun w f => handleFrame codec trimmed write_complete f.1 f.2 w) (win c) fs).
  { revert c. induction fs as [|f fs IH]; intros c; [done|]. cbn [foldl]. by rewrite IH, win_handle_frame. }
  rewrite <- H. by destruct bad; rewrite win_on_window.
Qed.

(** The buttons of a node start its program with its file, and stop it. *)
Definition start_button (s : ClientProcesses.Slot) : Widget :=
  match s with
  | ServerSlot => startServerBtn | Server2Slot => startSecondServerBtn | WorkerSlot => startWorkerBtn
  | Worker2Slot => startSecondWorkerBtn | ToolSlot => toolOutput
  end.
Definition stop_button (s : ClientProcesses.Slot) : Widget :=
  match s with
  | ServerSlot => stopServerBtn | Server2Slot => stopSecondServerBtn | WorkerSlot => stopWorkerBtn
  | Worker2Slot => stopSecondWorkerBtn | ToolSlot => toolOutput
  end.

Lemma node_buttons s yes c : consistent false c ->
  (possible (Click (start_button s) yes) c = true ->
   exists cmd, dk_started (cl_desk (perform (Click (start_button s) yes) c)) = (s, cmd) :: dk_started (cl_desk c) /\
     cm_program cmd = projectRoot +:+ "/build/" +:+ node_binary s /\ cm_arguments cmd = ["--config"; node_file s]) /\
  (possible (Click (stop_button s) yes) c = true ->
   dk_signalled (cl_desk (perform (Click (stop_button s) yes) c)) = s :: dk_signalled (cl_desk c)).
Proof.
  intros H. destruct (cs_buttons _ _ H eq_refl) as [_ Hb]. destruct (Hb s) as [Hs Ht].
  split; intros Hp; unfold possible in Hp; apply andb_true_iff in Hp as [_ Hp]; apply andb_true_iff in Hp as [Hk He];
    destruct s; try done; cbn [enabled start_button stop_button] in *; rewrite ?Hs, ?Ht in He;
    cbn [perform]; unfold emit; wired; cbn [foldl run_handler invoke tool_of starts stops];
    unfold start_node, startNodeProcess, stop_node, onStopNode, on_desk; cbn [appendToolOutput set_desk cl_desk];
    try rewrite He; try (apply negb_true_iff in He; rewrite He); cbn [negb]; eauto.
Qed.

End Client.

(** ** An afternoon with the client *)
Module ClientExample.

Definition all_written (n : nat) : bool := true.
Definition zero (text : string) : Z := 0.
Definition here (path : string) : bool := true.
Definition numeric (host : string) : bool := String.eqb host "127.0.0.1".
Definition up (path : string) : option string := None.

Abbreviation begins := (run_acts WindowExample.client WindowExample.trimmed all_written all_written zero numeric here "/opt" "/opt/build" up id ∅).

(** The first server is started by its button and, a second time, from the menu;
    the window connects, a tool runs, and the server ends. *)
Definition afternoon : list Act := [
  Click startServerBtn false; Choose "runMenu" "启动服务端" false; ProcessStarted ServerSlot;
  Click connectBtn false; SocketConnected; Enter (AutoRefresh true); Timeout; Click echoBtn false;
  Click demoCheckBtn false; ProcessStarted ToolSlot; ProcessFinished ToolSlot 0 true;
  Click stopServerBtn false; ProcessFinished ServerSlot 0 true; SocketClosed; Click openGrafanaBtn false
].

Example afternoon_ends : from_option (fun c =>
    (map fst (dk_started (cl_desk c)), length (mw_sent (win c)), cl_ended c, cl_opened c)) ([], 0%nat, [], []) (begins afternoon (new_client "secret")) =
  ([ToolSlot; ServerSlot], 9%nat, [ServerSlot; ToolSlot], ["http://127.0.0.1:3000"]).
Proof. vm_compute. reflexivity. Qed.

Lemma client_stays_consistent_witness :
  exists c, begins afternoon (new_client "secret") = Some c /\ connection_shown (cl_desk c) /\ truthful (cl_desk c).
Proof.
  destruct (begins afternoon (new_client "secret")) as [c|] eqn:E; [|vm_compute in E; discriminate E].
  exists c. split; [done|].
  pose proof (client_stays_consistent WindowExample.client WindowExample.trimmed all_written all_written zero numeric here "/opt" "/opt/build" up id ∅
    "secret" afternoon c E) as [Hc _ _ Hb].
  split; [exact Hc|by apply Hb].
Defined.

(** A host given by name: while it is looked up and then connected to, the
    window offers to connect and not to disconnect. *)
Example lookup_is_not_shown :
  from_option (fun c => (mw_socket (win c), ui_connect (dk_ui (cl_desk c)), ui_disconnect (dk_ui (cl_desk c)))) (Closing, false, false)
    (begins [Enter (Host "localhost"); Click connectBtn false; HostFound] (new_client "")) = (Connecting, true, false).
Proof. vm_compute. reflexivity. Qed.

(** Without a connection no request can be made. *)
Example no_request_unconnected : begins [Click echoBtn false] (new_client "") = None.
Proof. vm_compute. reflexivity. Qed.

(** A tool that cannot be started leaves the buttons of all tools disabled; a
    menu entry still runs one, and brings them back. *)
Example failed_tool : begins [Click dockerBuildBtn false; ProcessFailed ToolSlot; Click demoCheckBtn false] (new_client "") = None.
Proof. vm_compute. reflexivity. Qed.

Example failed_tool_menu :
  from_option (fun c => ui_tools (dk_ui (cl_desk c))) false
    (begins [Click dockerBuildBtn false; ProcessFailed ToolSlot; Choose "runMenu" "运行检查" false;
             ProcessStarted ToolSlot; ProcessFinished ToolSlot 0 true] (new_client "")) = true.
Proof. vm_compute. reflexivity. Qed.

(** The values the window starts with are those the constructor sets. *)
Example initial_values :
  let c := new_client "" in
  values portSpin construct = [dk_port (cl_desk c)] /\ values streamSamplesSpin construct = [fm_samples (cl_form c)] /\
  values benchConcurrencySpin construct = [(dk_bench (cl_desk c)).1] /\
  values benchRequestsSpin construct = [(dk_bench (cl_desk c)).2] /\
  values taskPageSizeSpin construct = [pg_page_size (mw_tasks_pager (win c))] /\
  values historyLimitSpin construct = [pg_page_size (mw_history_pager (win c))] /\
  values editMaxRetriesSpin construct = [in_edit_max_retries (mw_inputs (win c))].
Proof. vm_compute. done. Qed.

End ClientExample.
