(* ===== verification/BenchClient.v ===== *)
(** The benchmark client ([tools/bench_client.cpp]): its arguments, the threads
    that share one counter of requests, and the figures it prints.

    A thread's accesses to the shared atomics and its critical section are one
    step each; the steps of all threads interleave.  Whether a call succeeds
    and how long it takes is open.  Threads can be created. *)
From Stdlib Require Import Floats.SpecFloat.
From S2P Require Import Prelude Text Config Metrics.

(** ** Arguments *)

Record Args := mkArgs {
  ar_host : string; ar_port : Z; ar_concurrency : Z; ar_requests : Z;
  ar_reuse_connection : bool; ar_auth_token : string
}.

Definition getenv_or (getenv : string -> option string) (name fallback : string) : string :=
  default fallback (getenv name).

(** [argc > i ? std::stoi(argv[i]) : fallback]; [None] is an exception. *)
Definition arg_int (argv : list string) (i : nat) (fallback : Z) : option Z :=
  match argv !! i with Some s => fst <$> stoi s | None => Some fallback end.

(** [latencies_ms.reserve(static_cast<size_t>(requests))] throws beyond
    [max_size]. *)
Definition reserve_throws (requests : Z) : bool := (2 ^ 63 - 1) / 4 <? u64 requests.

(** [None]: an exception leaves [main]. *)
Definition read_args (argv : list string) (getenv : string -> option string) : option Args :=
  let host := default "127.0.0.1"%string (argv !! 1%nat) in
  port ← arg_int argv 2 8081;
  concurrency ← arg_int argv 3 16;
  requests ← arg_int argv 4 1000;
  let mode := match argv !! 5%nat with Some m => m | None => getenv_or getenv "CORPCRON_BENCH_MODE" "short" end in
  if reserve_throws requests then None
  else Some (mkArgs host port concurrency requests (String.eqb mode "reuse")
               (getenv_or getenv "CORPCRON_RPC_AUTH_TOKEN" EmptyString)).

(** ** The threads *)

Inductive Worker :=
| Taking                     (* before [next_request.fetch_add(1)] *)
| Sending (id : Z)           (* in [stub.Echo] *)
| Answered (latency : Z)     (* counted in [success], latency not yet kept *)
| Done.                      (* left the loop *)

(** [bn_sent]: a history variable, the requests made by thread and id. *)
Record Bench := mkBench {
  bn_next_request : Z;
  bn_success : Z;
  bn_failure : Z;
  bn_latencies_ms : list Z;
  bn_workers : list Worker;
  bn_sent : list (nat * Z)
}.

Definition start (concurrency : Z) : Bench := mkBench 0 0 0 [] (replicate (Z.to_nat concurrency) Taking) [].

(** [std::atomic<int>] wraps around. *)
Definition int32 (z : Z) : Z := (z + 2 ^ 31) mod 2 ^ 32 - 2 ^ 31.

(** The text of a request. *)
Definition message (i : nat) (id : Z) : string :=
  "bench-" +:+ to_string (Z.of_nat i) +:+ "-" +:+ to_string id.

Definition fetch (requests : Z) (i : nat) (b : Bench) : Bench :=
  let id := bn_next_request b in
  if requests <=? id then
    mkBench (int32 (id + 1)) (bn_success b) (bn_failure b) (bn_latencies_ms b) (<[i := Done]> (bn_workers b)) (bn_sent b)
  else
    mkBench (int32 (id + 1)) (bn_success b) (bn_failure b) (bn_latencies_ms b) (<[i := Sending id]> (bn_workers b))
      (bn_sent b ++ [(i, id)]).

Definition succeed (i : nat) (latency : Z) (b : Bench) : Bench :=
  mkBench (bn_next_request b) (bn_success b + 1) (bn_failure b) (bn_latencies_ms b)
    (<[i := Answered latency]> (bn_workers b)) (bn_sent b).

Definition record_latency (i : nat) (latency : Z) (b : Bench) : Bench :=
  mkBench (bn_next_request b) (bn_success b) (bn_failure b) (bn_latencies_ms b ++ [latency])
    (<[i := Taking]> (bn_workers b)) (bn_sent b).

Definition fail_request (i : nat) (b : Bench) : Bench :=
  mkBench (bn_next_request b) (bn_success b) (bn_failure b + 1) (bn_latencies_ms b)
    (<[i := Taking]> (bn_workers b)) (bn_sent b).

Inductive step (requests : Z) (b : Bench) : Bench -> Prop :=
| Fetch i : bn_workers b !! i = Some Taking -> step requests b (fetch requests i b)
| Succeed i id latency : bn_workers b !! i = Some (Sending id) -> step requests b (succeed i latency b)
| Record_ i latency : bn_workers b !! i = Some (Answered latency) -> step requests b (record_latency i latency b)
| Fail_ i id : bn_workers b !! i = Some (Sending id) -> step requests b (fail_request i b).

Definition joined (b : Bench) : Prop := Forall (fun w => w = Done) (bn_workers b).

(** What [main] returns. *)
Definition exit_status (b : Bench) : Z := if bn_failure b =? 0 then 0 else 1.

(** ** The percentiles *)

(** The doubles nearest to 0.50, 0.95 and 0.99. *)
Definition q50 : spec_float := S754_finite false 4503599627370496 (-53).

(** Conversion of a non-negative double to an integer truncates. *)
Definition trunc_double (x : spec_float) : Z :=
  match x with
  | S754_finite false m e => if 0 <=? e then Z.pos m * 2 ^ e else Z.pos m / 2 ^ (- e)
  | _ => 0
  end.

Definition index_of (n : Z) (pct : spec_float) : Z := trunc_double (SFmul 53 1024 (double_of_Z (n - 1)) pct).

(** The value, if the index is in range, and the sorted samples. *)
Definition percentile (values : list Z) (pct : spec_float) : option Z * list Z :=
  match values with
  | [] => (Some 0, values)
  | _ =>
      let values := sort_by Z.leb values in
      (values !! Z.to_nat (index_of (Z.of_nat (length values)) pct), values)
  end.

(** The three calls share the vector. *)
Definition figures (b : Bench) : option Z * option Z * option Z :=
  let '(p50, values) := percentile (bn_latencies_ms b) q50 in
  let '(p95, values) := percentile values q95 in
  let '(p99, values) := percentile values q99 in
  (p50, p95, p99).

(** ** Proofs *)

Definition weight (w : Worker) : nat := match w with Taking => 1 | Sending _ => 3 | Answered _ => 2 | Done => 0 end.
Definition is_sending (w : Worker) : nat := match w with Sending _ => 1 | _ => 0 end.
Definition is_answered (w : Worker) : nat := match w with Answered _ => 1 | _ => 0 end.
Definition is_done (w : Worker) : nat := match w with Done => 1 | _ => 0 end.

Fixpoint total_of (f : Worker -> nat) (l : list Worker) : nat :=
  match l with [] => 0 | w :: l' => f w + total_of f l' end.

Lemma total_of_perm f l k : l ≡ₚ k -> total_of f l = total_of f k.
Proof. induction 1; simpl; lia. Qed.

Lemma total_of_update f l i x y : l !! i = Some x ->
  (total_of f (<[i := y]> l) + f x = total_of f l + f y)%nat.
Proof.
  intros H. destruct (list_update_perm l i x y H) as (k & H1 & H2).
  rewrite (total_of_perm f _ _ H1), (total_of_perm f _ _ H2). simpl. lia.
Qed.

Lemma total_of_replicate f n w : total_of f (replicate n w) = (n * f w)%nat.
Proof. induction n as [|n IH]; simpl; lia. Qed.

Lemma is_done_le l : (total_of is_done l <= length l)%nat.
Proof. induction l as [|[] l IH]; simpl; lia. Qed.

Section Bench.
Context (requests concurrency : Z).
Context (Hr : 0 <= requests) (Hc : 0 <= concurrency) (Hmax : requests + concurrency <= INT_MAX).

(** The counter is ahead of the requests by the threads that have left. *)
Record inv (b : Bench) : Prop := mkInv {
  inv_workers : Z.of_nat (length (bn_workers b)) = concurrency;
  inv_sent : map snd (bn_sent b) = seqZ 0 (Z.of_nat (length (bn_sent b)));
  inv_bound : Z.of_nat (length (bn_sent b)) <= requests;
  inv_next : bn_next_request b = Z.of_nat (length (bn_sent b)) + Z.of_nat (total_of is_done (bn_workers b));
  inv_done : (0 < total_of is_done (bn_workers b))%nat -> Z.of_nat (length (bn_sent b)) = requests;
  inv_success : bn_success b = Z.of_nat (length (bn_latencies_ms b) + total_of is_answered (bn_workers b));
  inv_failure : 0 <= bn_failure b;
  inv_counts : bn_success b + bn_failure b + Z.of_nat (total_of is_sending (bn_workers b)) = Z.of_nat (length (bn_sent b))
}.

Lemma inv_start : inv (start concurrency).
Proof.
  unfold start. split; cbn; rewrite ?length_replicate, ?total_of_replicate; try done; cbn; try lia.
Qed.

Lemma int32_small z : INT_MIN <= z <= INT_MAX -> int32 z = z.
Proof. intros H. unfold int32, INT_MIN, INT_MAX in *. rewrite Z.mod_small; lia. Qed.

(** Each thread moves on; what is left to do shrinks. *)
Definition left_to_do (b : Bench) : nat :=
  (3 * (Z.to_nat requests - length (bn_sent b)) + total_of weight (bn_workers b))%nat.

Ltac updated H := repeat match goal with
  | |- context [total_of ?f (<[?i := ?y]> ?l)] =>
      lazymatch goal with Hu : (total_of f (<[i := y]> l) + _ = _)%nat |- _ => fail | _ =>
        pose proof (total_of_update f l i _ y H) end
  end.

Lemma fetch_inv i b : inv b -> bn_workers b !! i = Some Taking -> inv (fetch requests i b).
Proof.
  intros I Hi. destruct I as [Hw Hs Hb Hn Hd Hsu Hf Hct].
  pose proof (total_of_update is_done _ i _ Done Hi) as Hdone. cbn [is_done] in Hdone.
  pose proof (is_done_le (<[i := Done]> (bn_workers b))) as Hle. rewrite length_insert in Hle.
  unfold fetch. destruct (Z.leb_spec requests (bn_next_request b)) as [Hx|Hx].
  - assert (Hall : Z.of_nat (length (bn_sent b)) = requests)
      by (destruct (total_of is_done (bn_workers b)); [lia|apply Hd; lia]).
    rewrite int32_small by (unfold INT_MIN, INT_MAX in *; lia).
    split; cbn; rewrite ?length_insert; updated Hi; cbn in *; try done; lia.
  - rewrite int32_small by (unfold INT_MIN, INT_MAX in *; lia).
    assert (Hz : total_of is_done (bn_workers b) = 0%nat)
      by (destruct (total_of is_done (bn_workers b)) eqn:E; [done|lia]).
    split; cbn; rewrite ?length_insert, ?length_app; updated Hi; cbn in *; try done; try lia.
    rewrite map_app, Hs, Nat.add_1_r, seqZ_S. cbn. do 2 f_equal. lia.
Qed.

Lemma step_inv b b' : inv b -> step requests b b' -> inv b' /\ (left_to_do b' < left_to_do b)%nat.
Proof.
  intros I Hs. split.
  - destruct Hs as [i Hi|i id latency Hi|i latency Hi|i id Hi]; [by apply fetch_inv| | |];
      destruct I as [Hw Hse Hb Hn Hd Hsu Hf Hct];
      (split; cbn; rewrite ?length_insert, ?length_app; updated Hi; cbn in *; try done; try lia).
    all: intros; apply Hd; lia.
  - destruct I as [Hw Hse Hb Hn Hd Hsu Hf Hct]. unfold left_to_do.
    destruct Hs as [i Hi|i id latency Hi|i latency Hi|i id Hi].
    + unfold fetch. destruct (Z.leb_spec requests (bn_next_request b)); cbn; rewrite ?length_app; updated Hi; cbn in *; [lia|].
      assert (total_of is_done (bn_workers b) = 0%nat) by (destruct (total_of is_done (bn_workers b)); [done|lia]). lia.
    + cbn. updated Hi. cbn in *. lia.
    + cbn. updated Hi. cbn in *. lia.
    + cbn. updated Hi. cbn in *. lia.
Qed.

Lemma nsteps_inv k b : nsteps (step requests) k (start concurrency) b -> inv b /\ (k + left_to_do b <= left_to_do (start concurrency))%nat.
Proof.
  intros H. remember (start concurrency) as s eqn:Es.
  assert (Hs : inv s) by (subst; apply inv_start). clear Es.
  induction H as [x|k x y z Hxy Hyz IH]; [split; [done|lia]|].
  destruct (step_inv x y Hs Hxy) as [Hy Hlt]. destruct (IH Hy) as [Hz Hk]. split; [done|lia].
Qed.

Lemma stuck_joined b : (forall b', ~ step requests b b') -> joined b.
Proof.
  intros H. apply Forall_lookup. intros i w Hi. destruct w as [|id|latency|]; [| | |done]; exfalso.
  - by apply (H _ (Fetch requests b i Hi)).
  - by apply (H _ (Fail_ requests b i id Hi)).
  - by apply (H _ (Record_ requests b i latency Hi)).
Qed.

Lemma joined_totals b : joined b ->
  total_of is_sending (bn_workers b) = 0%nat /\ total_of is_answered (bn_workers b) = 0%nat /\
  total_of is_done (bn_workers b) = length (bn_workers b).
Proof.
  unfold joined. induction 1 as [|w l -> _ IH]; [done|]. destruct IH as (H1 & H2 & H3).
  cbn. lia.
Qed.

(** The benchmark ends, whatever the calls answer and however its threads
    interleave: no run has more than three steps for each request and one
    for each thread, and a run that cannot go on has joined all its threads.
    Then, unless it was given no thread at all, every request of
    the range was made exactly once, in the order of the ids; each is counted
    either as a success, with its latency kept, or as a failure; and the exit
    status is zero exactly when all succeeded. *)
Theorem every_request_is_made_and_counted_once k b :
  nsteps (step requests) k (start concurrency) b ->
  Z.of_nat k <= 3 * requests + concurrency /\
  ((forall b', ~ step requests b b') ->
   joined b /\
   (0 < concurrency ->
    map snd (bn_sent b) = seqZ 0 requests /\
    bn_success b + bn_failure b = requests /\
    bn_success b = Z.of_nat (length (bn_latencies_ms b)) /\
    (exit_status b = 0 <-> bn_success b = requests))).
Proof.
  intros H. destruct (nsteps_inv k b H) as [I Hk]. split.
  - unfold left_to_do, start in Hk. cbn in Hk. rewrite total_of_replicate in Hk. cbn in Hk. lia.
  - intros Hstuck. pose proof (stuck_joined b Hstuck) as Hj. split; [done|]. intros Hpos.
    destruct (joined_totals b Hj) as (Hs & Ha & Hd). destruct I as [Hw Hse Hb Hn Hdo Hsu Hf Hct].
    assert (Hall : Z.of_nat (length (bn_sent b)) = requests) by (apply Hdo; lia).
    rewrite Hall in Hse. split_and!; [done|lia|lia|]. unfold exit_status.
    destruct (Z.eqb_spec (bn_failure b) 0); split; intros; try done; lia.
Qed.

End Bench.

(** ** The figures *)

Definition indexes_ok (n : Z) : bool :=
  let i50 := index_of n q50 in let i95 := index_of n q95 in let i99 := index_of n q99 in
  (0 <=? i50) && (i50 <=? i95) && (i95 <=? i99) && (i99 <? n).

Lemma indexes_in_range n : 1 <= n <= 1024 ->
  0 <= index_of n q50 <= index_of n q95 /\ index_of n q95 <= index_of n q99 < n.
Proof.
  intros Hn.
  assert (H : forallb (fun k => indexes_ok (Z.of_nat k)) (seq 1 1024) = true) by (vm_compute; reflexivity).
  rewrite forallb_forall in H. specialize (H (Z.to_nat n)). rewrite in_seq in H. specialize (H ltac:(lia)).
  rewrite Z2Nat.id in H by lia. unfold indexes_ok in H. zify_bools. lia.
Qed.

Lemma percentile_sorted l q : l <> [] ->
  percentile l q = (sort_by Z.leb l !! Z.to_nat (index_of (Z.of_nat (length l)) q), sort_by Z.leb l).
Proof. intros Hl. destruct l as [|x l]; [done|]. unfold percentile. by rewrite length_sort_by. Qed.

Lemma sort_nonempty l : l <> [] -> sort_by Z.leb l <> [].
Proof. intros Hl H. apply (f_equal length) in H. rewrite length_sort_by in H. by destruct l. Qed.

Lemma sort_by_idem (l : list Z) : sort_by Z.leb (sort_by Z.leb l) = sort_by Z.leb l.
Proof.
  assert (Htr : Transitive (fun a b => Z.leb a b = true)) by (intros a b c ?%Z.leb_le ?%Z.leb_le; apply Z.leb_le; lia).
  assert (Has : AntiSymm eq (fun a b => Z.leb a b = true)) by (intros a b ?%Z.leb_le ?%Z.leb_le; lia).
  assert (Hs : forall l, StronglySorted (fun a b => Z.leb a b = true) (sort_by Z.leb l)).
  { intros k. apply sort_by_sorted; [intros a b ?%Z.leb_gt; apply Z.leb_le; lia|apply Htr]. }
  apply (StronglySorted_unique (fun a b => Z.leb a b = true)); [done|done|]. apply sort_by_perm.
Qed.

Lemma strongly_sorted_lookup {A} (R : A -> A -> Prop) (l : list A) i j x y :
  StronglySorted R l -> (i < j)%nat -> l !! i = Some x -> l !! j = Some y -> R x y.
Proof.
  intros Hs. revert i j. induction Hs as [|z l Hs IH Hz]; intros [|i] [|j] Hij Hx Hy; try done; try lia.
  - cbn in Hx, Hy. simplify_eq. rewrite Forall_forall in Hz. apply Hz. by eapply list_elem_of_lookup_2.
  - apply (IH i j); [lia|done|done].
Qed.

Lemma sorted_le (l : list Z) i j x y : (i <= j)%nat ->
  sort_by Z.leb l !! i = Some x -> sort_by Z.leb l !! j = Some y -> x <= y.
Proof.
  intros Hij Hx Hy. destruct (decide (i = j)) as [->|Hne]; [by simplify_eq|].
  apply Z.leb_le. eapply (strongly_sorted_lookup (fun a b => Z.leb a b = true) (sort_by Z.leb l) i j); [|lia|done|done].
  apply sort_by_sorted; [intros a b ?%Z.leb_gt; apply Z.leb_le; lia|intros a b c ?%Z.leb_le ?%Z.leb_le; apply Z.leb_le; lia].
Qed.

(** With at least one success, and no more than the default number of
    requests, no percentile is read past the end: the three figures are
    latencies that were measured, the median first. *)
Theorem figures_are_ordered_samples b :
  bn_latencies_ms b <> [] -> Z.of_nat (length (bn_latencies_ms b)) <= 1024 ->
  exists p50 p95 p99, figures b = (Some p50, Some p95, Some p99) /\ p50 <= p95 <= p99 /\
    p50 ∈ bn_latencies_ms b /\ p95 ∈ bn_latencies_ms b /\ p99 ∈ bn_latencies_ms b.
Proof.
  intros Hne Hlen. set (l := bn_latencies_ms b) in *. set (n := Z.of_nat (length l)) in *.
  assert (Hn : 1 <= n) by (subst n; destruct l; [done|cbn; lia]).
  destruct (indexes_in_range n ltac:(lia)) as [[H0 H1] [H2 H3]].
  assert (Hl : forall q, 0 <= index_of n q < n -> exists x, sort_by Z.leb l !! Z.to_nat (index_of n q) = Some x).
  { intros q Hq. apply lookup_lt_is_Some_2. rewrite length_sort_by. lia. }
  destruct (Hl q50 ltac:(lia)) as [x50 E50], (Hl q95 ltac:(lia)) as [x95 E95], (Hl q99 ltac:(lia)) as [x99 E99].
  exists x50, x95, x99. split.
  - unfold figures. fold l. rewrite percentile_sorted by done. rewrite percentile_sorted by (by apply sort_nonempty).
    rewrite sort_by_idem, length_sort_by. rewrite percentile_sorted by (by apply sort_nonempty).
    rewrite sort_by_idem, length_sort_by. fold n. by rewrite E50, E95, E99.
  - split; [split; [eapply sorted_le; [|exact E50|exact E95]|eapply sorted_le; [|exact E95|exact E99]]; lia|].
    rewrite <- !(elem_of_sort_by Z.leb _ l). split_and!; by eapply list_elem_of_lookup_2.
Qed.

Module BenchExample.

(** Two threads, two requests, the second of which fails. *)
Definition finished : Bench := mkBench 4 1 1 [7] [Done; Done] [(0%nat, 0); (1%nat, 1)].

Lemma finished_run : nsteps (step 2) 7 (start 2) finished.
Proof.
  eapply nsteps_l; [apply (Fetch _ _ 0); reflexivity|]. eapply nsteps_l; [apply (Fetch _ _ 1); reflexivity|].
  eapply nsteps_l; [apply (Fail_ _ _ 1 1); reflexivity|]. eapply nsteps_l; [apply (Succeed _ _ 0 0 7); reflexivity|].
  eapply nsteps_l; [apply (Record_ _ _ 0 7); reflexivity|]. eapply nsteps_l; [apply (Fetch _ _ 1); reflexivity|].
  eapply nsteps_l; [apply (Fetch _ _ 0); reflexivity|]. apply nsteps_O.
Defined.

Lemma finished_stuck b' : ~ step 2 finished b'.
Proof.
  intros H; inversion H as [i Hi|i id latency Hi|i latency Hi|i id Hi];
    destruct i as [|[|i]]; cbn in Hi; discriminate Hi.
Defined.

Lemma every_request_is_made_and_counted_once_witness :
  7 <= 8 /\ map snd (bn_sent finished) = seqZ 0 2 /\ bn_success finished + bn_failure finished = 2.
Proof.
  destruct (every_request_is_made_and_counted_once 2 2 ltac:(lia) ltac:(lia) ltac:(unfold INT_MAX; lia) 7 finished finished_run)
    as [Hk Hs].
  destruct (Hs finished_stuck) as [_ Hd]. destruct (Hd ltac:(lia)) as (H1 & H2 & _).
  split; [exact Hk|split; [exact H1|exact H2]].
Defined.

Lemma figures_are_ordered_samples_witness : exists p50 p95 p99,
  figures finished = (Some p50, Some p95, Some p99) /\ p50 <= p95 <= p99.
Proof.
  destruct (figures_are_ordered_samples finished ltac:(discriminate) ltac:(cbn; lia)) as (p50 & p95 & p99 & H & Ho & _).
  exists p50, p95, p99. split; [exact H|exact Ho].
Defined.

(** Without a thread nothing is sent, and the exit status says that all went
    well. *)
Example no_thread_no_request :
  read_args ["bench"; "127.0.0.1"; "8081"; "0"; "1000"]%string (fun _ => None) =
    Some (mkArgs "127.0.0.1" 8081 0 1000 false EmptyString) /\
  joined (start 0) /\ bn_sent (start 0) = [] /\ exit_status (start 0) = 0.
Proof. split; [reflexivity|]. split; [constructor|done]. Qed.

(** A negative number of requests ends the program with an exception. *)
Example negative_requests : read_args ["bench"; "127.0.0.1"; "8081"; "16"; "-1"]%string (fun _ => None) = None.
Proof. reflexivity. Qed.

End BenchExample.
